(* ===== verification/_CoqProject ===== *)
-Q . S2P
Prelude.v
Types.v
Readers.v
Files.v
Compression.v
Streams.v
Header.v
Md5.v
Dirent.v
WDirent.v
Cluster.v
WCluster.v
Encoding.v
Lru.v
ConcurrentCache.v
NarrowDown.v
Lookup.v
Tools.v
Accessors.v
FileImpl.v
FileImplProps.v
Archive.v
Opening.v
DirectAccess.v
Template.v
Workers.v
Creator.v
Building.v
Invariant.v
Finishing.v
Layout.v
Writing.v
Delivery.v
RoundTrip.v
Html.v
Entities.v
MyHtml.v
HtmlProps.v
Search.v
Indexing.v
SearchProps.v
IndexedArchive.v
EndToEnd.v
