(* ===== verification/Prelude.v ===== *)
(** * A verification development for libzim

    libzim reads and writes ZIM archives: read-only collections of web pages
    in one file, or in a sequence of parts.  The development translates the
    C++ sources (src/ and include/zim/ of the repository) into executable
    functions and proves what each component promises to the next.

    ** The parts of the program and how they interact

    An archive starts with a header (fileheader.cpp) that holds the positions
    of the other structures: the MIME list, the path pointer list, the title
    list, the cluster pointer list, the checksum.  An entry (dirent.cpp) names
    a namespace, a path and a title, and either a cluster and a blob in it or
    the entry it redirects to.  Clusters (cluster.cpp) hold the blobs,
    compressed or not.  Everything is read through the [Reader] interface
    (reader.h), which has a file, a split file and a memory buffer behind it,
    or through the stream interface (istreamreader.h), which has a raw reader
    and a decompressing one behind it.  [FileImpl] (fileimpl.cpp) composes
    these with three caches: the entries (dirent_accessor.cpp over
    lrucache.h), the clusters (concurrent_cache.h) and the index of the
    bisection over the paths (dirent_lookup.h over narrowdown.h).  [Archive],
    [Entry], [Item] and the iterators (archive.cpp, entry.cpp, item.cpp) are
    the public interface over it.  The writer (src/writer/) produces the same
    structures.

    ** The files

    - Prelude: the outcome monad [outcome] (a value, an exception, undefined
      behaviour, divergence), the state monad [stm] that keeps the state on an
      exception, lists indexed by Z, windows, ASSERT, [std::upper_bound], the
      order of std::string, the tactics and hint databases.
    - Types: zim_types.h, endian_tools.h, _offset.h and zim.h: machine
      integers with their wrap-around and the little-endian coding.
    - Readers: buffer.cpp, blob.cpp, reader.h, buffer_reader.cpp,
      bufferstreamer.h.  The class [Reader] with the contract [ReaderSpec].
    - Files: fs_unix.cpp, file_compound.cpp, file_reader.cpp: the class [OS]
      with the contract [OSSpec], the parts of a split archive, the readers
      over them as instances of [ReaderSpec].
    - Compression: compression.h: Uncompressor, Compressor, uncompress over
      the functions of lzma and zstd (classes [LzmaLib], [ZstdLib]).
    - Streams: istreamreader.cpp, rawstreamreader.h, decoderstreamreader.h.
    - Header: fileheader.cpp.  Md5: md5.c, uuid.cpp.
    - Dirent: dirent.cpp, direntreader.h.  WDirent: writer/dirent.cpp.
    - Cluster: cluster.cpp.  WCluster: writer/cluster.cpp,
      writer/contentProvider.cpp.
    - Encoding: the contract of an encoder ([EncoderSpec], [Codec]) and the
      round trip of a cluster in every compression the writer has.
    - Lru: lrucache.h.  ConcurrentCache: concurrent_cache.h as a step relation
      over any number of threads.
    - NarrowDown: narrowdown.h.  Lookup: dirent_lookup.h.
    - Tools: tools.cpp, envvalue.cpp.  Accessors: dirent_accessor.cpp.
    - FileImpl: fileimpl.cpp, the operations and their lemmas; FileImplProps:
      its correctness theorems and a complete sample archive, opened by
      computation, that the witnesses of the upper files use.
    - Archive: archive.cpp, entry.cpp, item.cpp and the iterators of
      archive.h.
    - Template: template.cpp.
    - Opening: the constructor of [FileImpl] on the bytes of a well-formed
      archive, and what the object it makes then serves.
    - DirectAccess: Item::getDirectAccessInformation over the parts of an archive.
    - Workers: writer/queue.h, workers.cpp, clusterWorker.cpp: the threads of
      the creator as a step relation, and the sequential loop they refine.
    - Creator: writer/creator.cpp, creatordata.h, direntPool.h, handler.h,
      titleListingHandler.cpp, item.cpp: the state of the creator, each
      operation that adds to it, the stages of finishZimCreation and the bytes
      write stores.
    - Invariant: what holds of the creator's state whatever is added to it.
    - Building, Finishing, Layout, Writing: the invariant of the creator's state
      ([building]), what each operation and each stage of the end of the
      creation makes of it, the layout of the file, and the proof that write
      produces it.
    - Delivery: what the reading side gets from a file the writing side has
      finished. RoundTrip: a whole run of the creator, opened and read again.
    - Html: xapian/htmlparse.cc, namedentities.h: the HTML parser over the virtual
      functions of a class derived from it (class [HtmlHandler]). Entities: its
      character references. MyHtml: xapian/myhtmlparse.cc, the class that
      extracts the text, and the index data of writer/item.cpp. HtmlProps: their
      theorems.
    - Search: search.cpp, search_internal.h, search_iterator.cpp: a search over open
      archives and the iterators over its results. Indexing:
      writer/xapianIndexer.cpp, xapianHandler.cpp, xapianWorker.cpp: what is written
      into the indexes, and the tasks that the threads run. SearchProps: their
      theorems. IndexedArchive: the indexes from the creator to the search. EndToEnd:
      from the pages that are added to the results of a search.

    ** What the theorems show

    - Reading: the data of the items of an archive are the blobs the clusters
      store ([Archive.archive_items_read]), from the contract of clusters
      ([Cluster.cluster_blobs]), streams ([Streams.decoder_stream_reads]) and
      split files ([Files.split_archive_reads]).
    - Looking up: the bisections over paths and titles are correct whatever
      the size of their index ([Lookup.find_correct],
      [FileImplProps.findxByTitle_correct], [Lookup.namespace_range],
      [Archive.findByPath_prefix]); redirects are followed and cycles given up
      ([Archive.redirects_followed], [Archive.redirects_given_up]).
    - Writing: what the writer's components store is what the reader's
      components read ([WDirent.dirent_roundtrip], [Encoding.cluster_roundtrip],
      [Header.header_roundtrip], [FileImplProps.mime_list_read]).
    - The whole: an archive whose bytes are well formed opens and serves its
      entries ([Opening.well_formed_opens]); what the creator writes is such an
      archive, and reading it gives back what was added
      ([RoundTrip.creator_roundtrip]); the threads of the creator write what one
      thread would ([Workers.threads_deterministic]) and stop
      ([Workers.threads_terminate]); the creator's tables stay well formed
      whatever is added and whatever throws ([Invariant.creator_state_kept]).
    - Pages: the extraction of text for the indexer cuts a page into its pieces
      ([HtmlProps.page_parsed]), decodes its references
      ([HtmlProps.entities_decoded]), keeps its words
      ([HtmlProps.text_is_words]) and is total ([HtmlProps.index_data_made]).
    - Direct access: the file and the position that are given are those of the data
      ([DirectAccess.direct_access]); that is how the indexes the creator stores are
      opened by a search ([IndexedArchive.created_indexes_open]).
      With what Xapian promises of its files, what a search finds are pages that were
      added, and reading their paths gives them back ([EndToEnd.search_finds_pages]).
    - Indexes: whatever the order of the tasks, the index of the texts gets one document
      for each item that has index data, and is closed ([SearchProps.index_complete],
      [SearchProps.indexing_ends]); what is put in it is what the results give back
      ([SearchProps.indexed_found], [SearchProps.valuesmap_roundtrip]); the results of a
      search are walked from the first to the last and lead to the right archive
      ([SearchProps.results_walked], [SearchProps.result_archive]).
    - Caches: the LRU list refines its specification, the entry cache is
      invisible, the concurrent cache returns only computed values and cannot
      deadlock.
    - Checks: the digest is that of RFC 1321 however the bytes are fed,
      verify and the integrity checks decide what they say they check.
    - Where the code does not do what it means to, the behaviour is proved as
      it is: a namespace byte above 127 makes the lookup run for ever, a
      cluster just below 4 GiB gets truncated offsets, and so on; such
      theorems say so in their comments.

    ** Conventions

    Bytes and characters are integers of Z between 0 and 255; a plain char is
    signed where the code compares it ([schar], as on x86), std::string
    compares its bytes unsigned.  Integers of w bits are integers of Z, with
    the wrap-around of each operation written out ([u8], [u16], [u32], [u64]).
    ASSERT is active: a failed one is the exception [assertion_failed].
    Reading outside an allocation, a null or dangling pointer and a division
    by zero are [Undef].  A loop without a structural measure runs on fuel and
    gives [Diverge] without it.  The fuel of a loop is the number of elements
    or bytes it has left to go through, plus one; a theorem about such a loop
    states that its result is [Ok] or [Throw], so the fuel is enough, and the
    theorems about a loop that never ends quantify over the fuel.  The build
    modelled is 64-bit, Unix, with ENABLE_USE_MMAP and
    ENABLE_USE_BUFFER_HEADER.

    Code outside the repository is a parameter: the functions of the operating
    system, lzma and zstd, the environment variables, the UTF-8 function of
    Xapian ([XapianUnicode]), its databases and queries ([Xapian]), the locales and the
    transliterator of ICU, the compiled resources ([IndexingEnv]).  Their contracts are the
    classes [OSSpec], [DecoderSpec], [EncoderSpec], [XapianSpec] and [XapianFiles]; a [Codec] says that the
    decoder of a library reads what its encoder writes.  Each is inhabited by a
    concrete instance, over which the witnesses evaluate.  [EncoderSpec] asks an
    encoder to make progress when it is given more space, which excludes the case
    where Compressor::feed never returns ([Compression.zstd_feed_livelock]).

    [FileImpl] runs in the state monad; a lock is a sequential composition,
    except in ConcurrentCache, where the threads interleave.  Its entries are
    read through the contract of the accessors, whose cache Accessors proves
    invisible; its clusters live in a shared heap, since a cluster keeps the
    state of its decompressor and its loaded readers between calls.  The index
    of the lookup holds its keys back to back in one buffer with 32-bit
    positions, so its theorem bounds the size of that buffer.

    ** What is not modelled

    Xapian and ICU themselves.  The Windows file system, logging, the memory pools of
    the writer's entries and the removal or renaming of files are left out.
    The final ::write of the writer is taken to store all it is given.
    The handlers of a build with Xapian are in the creator as the entries and the
    contents of their indexes; what they do with the items is in Indexing, beside
    the state of the creator.
*)

From Stdlib Require Export ZArith Lia.
From Stdlib Require Import Ascii String.
From stdpp Require Export prelude list.
From stdpp Require Import strings sorting.

Declare Scope zim_scope.
Delimit Scope zim_scope with zim.
Open Scope Z_scope.
Open Scope zim_scope.

(** * Outcomes

    What a call of the code can do: return a value, throw one of the
    exceptions of <<include/zim/error.h>> and of the C++ standard library,
    perform an operation that C++ leaves undefined (an access outside the
    memory it owns), or not return (fuel exhausted in a loop of the model). *)

Inductive exn : Type :=
  | ZimFileFormatError (what : string)
  | EntryNotFound (what : string)
  | InvalidType (what : string)
  | out_of_range (what : string)
  | runtime_error (what : string)
  | range_error (what : string)
  | system_error (what : string)
  | future_error (what : string)
  | thrown_bool (b : bool)
  | thrown_string (s : list Z)
  | assertion_failed.

Inductive outcome (A : Type) : Type :=
  | Ok (a : A)
  | Throw (e : exn)
  | Undef
  | Diverge.

Arguments Ok {A} a.
Arguments Throw {A} e.
Arguments Undef {A}.
Arguments Diverge {A}.

#[export] Instance outcome_ret : MRet outcome := fun A a => Ok a.

#[export] Instance outcome_bind : MBind outcome := fun A B f m =>
  match m with
  | Ok a => f a
  | Throw e => Throw e
  | Undef => Undef
  | Diverge => Diverge
  end.

(** [ASSERT(left, op, right)] of <<debug.h>>, in a build without [NDEBUG]: a
    failing assertion throws (a [std::runtime_error]). *)
Definition ASSERT (b : bool) : outcome unit :=
  if b then Ok tt else Throw assertion_failed.

Definition throw_when (b : bool) (e : exn) : outcome unit :=
  if b then Throw e else Ok tt.

(** The exceptions a [catch (std::runtime_error&)] handler catches. *)
Definition is_runtime_error (e : exn) : bool :=
  match e with
  | ZimFileFormatError _ | EntryNotFound _ | runtime_error _ | range_error _
  | system_error _ | assertion_failed => true
  | InvalidType _ | out_of_range _ | future_error _ | thrown_bool _ | thrown_string _ => false
  end.

(** [try { m } catch (E&) { h }] for the exceptions [p] selects. *)
Definition try_catch {A} (m : outcome A) (p : exn -> bool) (h : exn -> outcome A) : outcome A :=
  match m with
  | Throw e => if p e then h e else Throw e
  | _ => m
  end.

(** ** Operations on an object

    A call on an object of state [S]: its outcome and the state it leaves, also
    when it throws. *)

Definition stm (S A : Type) : Type := S -> outcome A * S.

#[export] Instance stm_ret S : MRet (stm S) := fun A a s => (Ok a, s).

#[export] Instance stm_bind S : MBind (stm S) := fun A B f m s =>
  match m s with
  | (Ok a, s) => f a s
  | (Throw e, s) => (Throw e, s)
  | (Undef, s) => (Undef, s)
  | (Diverge, s) => (Diverge, s)
  end.

Definition lift {S A} (m : outcome A) : stm S A := fun s => (m, s).
Definition gets {S A} (f : S -> A) : stm S A := fun s => (Ok (f s), s).
Definition modify {S} (f : S -> S) : stm S unit := fun s => (Ok tt, f s).

(** [try { m } catch (E&) { h }], where [h] starts in the state [m] left. *)
Definition catching {S A} (m : stm S A) (p : exn -> bool) (h : exn -> stm S A) : stm S A := fun s =>
  match m s with
  | (Throw e, s) => if p e then h e s else (Throw e, s)
  | r => r
  end.

(** * Machine integers and bytes *)

Definition wrap (w z : Z) : Z := z mod 2 ^ w.
Definition u8 (z : Z) : Z := wrap 8 z.
Definition u16 (z : Z) : Z := wrap 16 z.
Definition u32 (z : Z) : Z := wrap 32 z.
Definition u64 (z : Z) : Z := wrap 64 z.

Definition fits (w z : Z) : Prop := 0 <= z < 2 ^ w.

Abbreviation bytes := (list Z).
Definition byte_ok (b : Z) : Prop := fits 8 b.
Definition bytes_ok (l : bytes) : Prop := Forall byte_ok l.

(** A byte read as a (signed) [char]. *)
Definition schar (b : Z) : Z := if b <? 128 then b else b - 256.

Definition Zlen {A} (l : list A) : Z := Z.of_nat (length l).

(** The bytes of a string literal. *)
Fixpoint lit (s : string) : bytes :=
  match s with
  | EmptyString => []
  | String c s => Z.of_nat (nat_of_ascii c) :: lit s
  end.

Definition chr (c : ascii) : Z := Z.of_nat (nat_of_ascii c).

(** * Slices and memory accesses *)

Definition slice {A} (l : list A) (off n : Z) : list A :=
  take (Z.to_nat n) (drop (Z.to_nat off) l).

(** [n] bytes at address [p] of an allocation [m]: undefined outside of it. *)
Definition mem_read (m : bytes) (p n : Z) : outcome bytes :=
  if (0 <=? p) && (0 <=? n) && (p + n <=? Zlen m) then Ok (slice m p n) else Undef.

Definition mem_get (m : bytes) (p : Z) : outcome Z :=
  if (0 <=? p) && (p <? Zlen m) then Ok (nth (Z.to_nat p) m 0) else Undef.

Fixpoint Zsum (l : list Z) : Z := match l with [] => 0 | x :: l => x + Zsum l end.

(** The consecutive pieces of [l] of the sizes [ns]. *)
Fixpoint cut {A} (ns : list Z) (l : list A) : list (list A) :=
  match ns with
  | [] => []
  | n :: ns => slice l 0 n :: cut ns (drop (Z.to_nat n) l)
  end.

(** [std::upper_bound] on the positions [first], ..., [first + len - 1]: the
    bisection of the C++ library, for a test [goes_before i] that says whether
    the value goes before the element at [i]. *)
Fixpoint upper_bound (fuel : nat) (goes_before : Z -> outcome bool) (first len : Z) : outcome Z :=
  if len <=? 0 then mret first
  else match fuel with
  | O => Diverge
  | S fuel =>
      let half := len / 2 in
      let middle := first + half in
      b ← goes_before middle;
      if (b : bool) then upper_bound fuel goes_before first half
      else upper_bound fuel goes_before (middle + 1) (len - half - 1)
  end.

(** * [std::string] comparison: lexicographic on unsigned bytes *)

Fixpoint str_cmp (a b : bytes) : comparison :=
  match a, b with
  | [], [] => Eq
  | [], _ :: _ => Lt
  | _ :: _, [] => Gt
  | x :: a, y :: b =>
      match x ?= y with
      | Eq => str_cmp a b
      | c => c
      end
  end.

Definition str_ltb (a b : bytes) : bool :=
  match str_cmp a b with Lt => true | _ => false end.
Definition str_leb (a b : bytes) : bool :=
  match str_cmp a b with Gt => false | _ => true end.
Definition str_lt (a b : bytes) : Prop := str_cmp a b = Lt.
Definition str_le (a b : bytes) : Prop := str_cmp a b <> Gt.

#[export] Instance bytes_eq_dec : EqDecision bytes := _.
#[export] Instance str_lt_dec : RelDecision str_lt.
Proof. intros a b. unfold str_lt. solve_decision. Defined.
#[export] Instance str_le_dec : RelDecision str_le.
Proof. intros a b. unfold str_le. solve_decision. Defined.

(** * Tactics and hint databases *)

#[global] Arguments Z.eqb : simpl never.
#[global] Arguments Z.leb : simpl never.
#[global] Arguments Z.ltb : simpl never.

Create HintDb zim.
Create Rewrite HintDb zlen.
Create Rewrite HintDb uint.

Lemma bind_Ok {A B} (m : outcome A) (f : A -> outcome B) (b : B) :
  m ≫= f = Ok b <-> exists a, m = Ok a /\ f a = Ok b.
Proof. destruct m; simpl; split; intros; destruct_and?; try done; eauto; destruct H as (?&?&?); congruence. Qed.

Lemma bind_assoc {A B C} (m : outcome A) (f : A -> outcome B) (g : B -> outcome C) :
  (m ≫= f) ≫= g = m ≫= (fun a => f a ≫= g).
Proof. by destruct m. Qed.

Lemma bind_ret_r {A} (m : outcome A) : m ≫= mret = m.
Proof. by destruct m. Qed.

Lemma ASSERT_Ok b u : ASSERT b = Ok u <-> b = true.
Proof. destruct b, u; simpl; naive_solver. Qed.

Lemma throw_when_Ok b e u : throw_when b e = Ok u <-> b = false.
Proof. destruct b, u; simpl; naive_solver. Qed.

Lemma stm_bind_Ok {S A B} (m : stm S A) (k : A -> stm S B) s a s' :
  m s = (Ok a, s') -> (m ≫= k) s = k a s'.
Proof. unfold mbind, stm_bind. by intros ->. Qed.

Lemma stm_bind_Throw {S A B} (m : stm S A) (k : A -> stm S B) s e s' :
  m s = (Throw e, s') -> (m ≫= k) s = (Throw e, s').
Proof. unfold mbind, stm_bind. by intros ->. Qed.

Lemma stm_lift_Ok {S A B} (m : outcome A) (k : A -> stm S B) s a : m = Ok a -> (lift m ≫= k) s = k a s.
Proof. by intros ->. Qed.

Lemma stm_gets {S A B} (g : S -> A) (k : A -> stm S B) s : (gets g ≫= k) s = k (g s) s.
Proof. done. Qed.

Lemma stm_modify {S B} (g : S -> S) (k : unit -> stm S B) s : (modify g ≫= k) s = k tt (g s).
Proof. done. Qed.

(** Splits every hypothesis [m ≫= f = Ok b] and every passed assertion. *)
Ltac inv_outcome :=
  repeat match goal with
  | H : _ ≫= _ = Ok _ |- _ =>
      apply bind_Ok in H as (? & ? & H)
  | H : ASSERT _ = Ok _ |- _ => apply ASSERT_Ok in H
  | H : throw_when _ _ = Ok _ |- _ => apply throw_when_Ok in H
  | H : mret _ = Ok _ |- _ => progress unfold mret, outcome_ret in H
  | H : Ok _ = Ok _ |- _ => progress simplify_eq
  | H : Throw _ = Ok _ |- _ => discriminate H
  | H : Undef = Ok _ |- _ => discriminate H
  | H : Diverge = Ok _ |- _ => discriminate H
  end; simplify_eq.

(** Turns boolean comparisons on [Z] into propositions. *)
Ltac bool_to_prop :=
  repeat match goal with
  | H : _ && _ = true |- _ => apply andb_true_iff in H as [? ?]
  | H : _ || _ = false |- _ => apply orb_false_iff in H as [? ?]
  | H : negb _ = true |- _ => apply negb_true_iff in H
  | H : negb _ = false |- _ => apply negb_false_iff in H
  | H : (_ <? _) = true |- _ => apply Z.ltb_lt in H
  | H : (_ <? _) = false |- _ => apply Z.ltb_ge in H
  | H : (_ <=? _) = true |- _ => apply Z.leb_le in H
  | H : (_ <=? _) = false |- _ => apply Z.leb_gt in H
  | H : (_ =? _) = true |- _ => apply Z.eqb_eq in H
  | H : (_ =? _) = false |- _ => apply Z.eqb_neq in H
  end.

(** Rewrites the comparison a goal branches on with the proof [lia] finds. *)
Ltac decide_bool :=
  repeat (simpl; match goal with
  | |- context [?a <? ?b] =>
      first [ replace (a <? b) with true by (symmetry; apply Z.ltb_lt; lia)
            | replace (a <? b) with false by (symmetry; apply Z.ltb_ge; lia) ]
  | |- context [?a <=? ?b] =>
      first [ replace (a <=? b) with true by (symmetry; apply Z.leb_le; lia)
            | replace (a <=? b) with false by (symmetry; apply Z.leb_gt; lia) ]
  | |- context [?a =? ?b] =>
      first [ replace (a =? b) with true by (symmetry; apply Z.eqb_eq; lia)
            | replace (a =? b) with false by (symmetry; apply Z.eqb_neq; lia) ]
  end); simpl.

(** * Integers *)

Lemma wrap_small w z : fits w z -> wrap w z = z.
Proof. intros. by apply Z.mod_small. Qed.

Lemma wrap_fits w z : 0 <= w -> fits w (wrap w z).
Proof. intros. apply Z.mod_pos_bound. lia. Qed.

Lemma fits_mono w w' z : w <= w' -> fits w z -> fits w' z.
Proof.
  unfold fits. intros Hw [? Hz]. split; [done|].
  eapply Z.lt_le_trans; [exact Hz|]. apply Z.pow_le_mono_r; lia.
Qed.

Lemma u8_small z : 0 <= z < 256 -> u8 z = z.
Proof. apply (wrap_small 8). Qed.
Lemma u16_small z : 0 <= z < 65536 -> u16 z = z.
Proof. apply (wrap_small 16). Qed.
Lemma u32_small z : 0 <= z < 4294967296 -> u32 z = z.
Proof. apply (wrap_small 32). Qed.
Lemma u64_small z : 0 <= z < 18446744073709551616 -> u64 z = z.
Proof. apply (wrap_small 64). Qed.
Lemma u64_range z : 0 <= u64 z < 18446744073709551616.
Proof. apply (wrap_fits 64). lia. Qed.
Lemma u32_range z : 0 <= u32 z < 4294967296.
Proof. apply (wrap_fits 32). lia. Qed.

(** * Lists, slices and memory *)

(** A choice for each element of a list. *)
Lemma Forall2_exists {A B} (P : A -> B -> Prop) (l : list A) :
  (forall x, x ∈ l -> exists y, P x y) -> exists k, Forall2 P l k.
Proof.
  induction l as [|x l IH]; intros Hall; [exists []; constructor|].
  destruct (Hall x) as [y Hy]; [by left|]. destruct IH as [k Hk]; [intros z Hz; apply Hall; by right|]. exists (y :: k). by constructor.
Qed.

Lemma Zlen_nonneg {A} (l : list A) : 0 <= Zlen l.
Proof. unfold Zlen. lia. Qed.
Lemma Zlen_nil {A} : Zlen (@nil A) = 0.
Proof. done. Qed.
Lemma Zlen_cons {A} (x : A) l : Zlen (x :: l) = 1 + Zlen l.
Proof. unfold Zlen. simpl length. lia. Qed.
Lemma Zlen_app {A} (l k : list A) : Zlen (l ++ k) = Zlen l + Zlen k.
Proof. unfold Zlen. rewrite length_app. lia. Qed.
Lemma Zlen_map {A B} (f : A -> B) l : Zlen (map f l) = Zlen l.
Proof. unfold Zlen. by rewrite length_map. Qed.
Lemma Zlen_slice {A} (l : list A) off n :
  0 <= off -> 0 <= n -> off + n <= Zlen l -> Zlen (slice l off n) = n.
Proof. unfold Zlen, slice. rewrite length_take, length_drop. lia. Qed.

Lemma Zlen_drop {A} (l : list A) n : 0 <= n <= Zlen l -> Zlen (drop (Z.to_nat n) l) = Zlen l - n.
Proof. unfold Zlen. rewrite length_drop. lia. Qed.
Lemma Zlen_nil_inv {A} (l : list A) : Zlen l = 0 -> l = [].
Proof. unfold Zlen. destruct l; simpl; [done|lia]. Qed.
Lemma Zlen_repeat {A} (x : A) n : Zlen (repeat x n) = Z.of_nat n.
Proof. unfold Zlen. by rewrite repeat_length. Qed.

#[export] Hint Rewrite @Zlen_nil @Zlen_cons @Zlen_app @Zlen_map : zlen.

Lemma slice_0 {A} (l : list A) n : Zlen l <= n -> slice l 0 n = l.
Proof. intros. unfold slice, Zlen in *. apply take_ge. lia. Qed.

Lemma slice_all {A} (l : list A) : slice l 0 (Zlen l) = l.
Proof. by apply slice_0. Qed.

Lemma slice_nil_r {A} (l : list A) off : slice l off 0 = [].
Proof. done. Qed.

Lemma slice_slice {A} (l : list A) a n b m :
  0 <= a -> 0 <= b -> 0 <= m -> b + m <= n ->
  slice (slice l a n) b m = slice l (a + b) m.
Proof.
  intros. unfold slice.
  rewrite skipn_firstn_comm, take_take, drop_drop.
  f_equal; [lia|f_equal; lia].
Qed.

Lemma slice_app_l {A} (l k : list A) off n :
  0 <= off -> 0 <= n -> off + n <= Zlen l -> slice (l ++ k) off n = slice l off n.
Proof.
  unfold slice, Zlen. intros.
  rewrite drop_app_le by lia. rewrite take_app_le; [done|]. rewrite length_drop. lia.
Qed.

Lemma slice_app_r {A} (l k : list A) off n :
  Zlen l <= off -> slice (l ++ k) off n = slice k (off - Zlen l) n.
Proof.
  unfold slice, Zlen. intros. rewrite drop_app_ge by lia. do 2 f_equal. lia.
Qed.

Lemma slice_app_mid {A} (l m k : list A) :
  slice (l ++ m ++ k) (Zlen l) (Zlen m) = m.
Proof.
  rewrite slice_app_r by lia. rewrite Z.sub_diag.
  rewrite slice_app_l by (pose proof (Zlen_nonneg m); lia). apply slice_all.
Qed.

Lemma slice_split {A} (l : list A) off n m :
  0 <= off -> 0 <= n -> 0 <= m ->
  slice l off (n + m) = slice l off n ++ slice l (off + n) m.
Proof.
  intros. unfold slice. rewrite Z2Nat.inj_add by lia.
  rewrite Z2Nat.inj_add by lia. rewrite <- drop_drop.
  generalize (drop (Z.to_nat off) l). intros k.
  rewrite <- (take_drop (Z.to_nat n) k) at 1.
  destruct (decide (Z.to_nat n <= length k)%nat).
  - rewrite take_app_ge by (rewrite length_take; lia).
    f_equal. f_equal. rewrite length_take. lia.
  - rewrite (drop_ge k) by lia. rewrite take_nil, !app_nil_r, take_take.
    f_equal. lia.
Qed.

Lemma mem_read_ok m p n :
  0 <= p -> 0 <= n -> p + n <= Zlen m -> mem_read m p n = Ok (slice m p n).
Proof. intros. unfold mem_read. by decide_bool. Qed.

Lemma mem_read_app m k p n :
  0 <= p -> 0 <= n -> p + n <= Zlen m -> mem_read (m ++ k) p n = Ok (slice m p n).
Proof.
  intros. pose proof (Zlen_nonneg k). rewrite mem_read_ok by (rewrite ?Zlen_app; lia).
  by rewrite slice_app_l.
Qed.

Lemma mem_read_inv m p n l :
  mem_read m p n = Ok l -> 0 <= p /\ 0 <= n /\ p + n <= Zlen m /\ l = slice m p n.
Proof.
  unfold mem_read. destruct (_ && _) eqn:E; intros; inv_outcome.
  bool_to_prop. auto.
Qed.

Lemma Zsum_nonneg l : Forall (fun x => 0 <= x) l -> 0 <= Zsum l.
Proof. induction 1; simpl; lia. Qed.

(** On a range the test splits, the bisection finds the first position it holds
    at. *)
Lemma upper_bound_spec fuel f g first len :
  0 <= len -> len <= Z.of_nat fuel ->
  (forall i, first <= i < first + len -> f i = Ok (g i)) ->
  (forall i j, first <= i <= j -> j < first + len -> g i = true -> g j = true) ->
  exists r, upper_bound fuel f first len = Ok r /\ first <= r <= first + len /\
    (forall i, first <= i < r -> g i = false) /\ (forall i, r <= i < first + len -> g i = true).
Proof.
  revert first len. induction fuel as [|fuel IH]; intros first len Hlen Hfuel Hf Hg; cbn [upper_bound].
  all: destruct (Z.leb_spec len 0); [exists first; split_and!; [done|lia..]|].
  { lia. }
  assert (Hh : 0 <= len / 2 < len) by (split; [apply Z.div_pos|apply Z.div_lt]; lia).
  rewrite Hf by lia. cbn [mbind outcome_bind].
  destruct (g (first + len / 2)) eqn:E.
  - destruct (IH first (len / 2)) as (r & Er & Hr & Hlo & Hhi); [lia|lia| | |].
    { intros. apply Hf. lia. }
    { intros i j ? ?. apply Hg; lia. }
    exists r. split_and!; [done|lia|lia|done|]. intros i Hi.
    destruct (Z.lt_ge_cases i (first + len / 2)); [apply Hhi; lia|]. apply (Hg (first + len / 2)); [lia|lia|done].
  - destruct (IH (first + len / 2 + 1) (len - len / 2 - 1)) as (r & Er & Hr & Hlo & Hhi); [lia|lia| | |].
    { intros. apply Hf. lia. }
    { intros i j ? ?. apply Hg; lia. }
    exists r. split_and!; [done|lia|lia| |].
    + intros i Hi. destruct (Z.le_gt_cases i (first + len / 2)); [|apply Hlo; lia].
      destruct (g i) eqn:Ei; [|done]. rewrite (Hg i (first + len / 2)) in E; [done|lia|lia|done].
    + intros i Hi. apply Hhi. lia.
Qed.

(** * String order *)

Lemma str_cmp_refl a : str_cmp a a = Eq.
Proof. induction a; simpl; [done|]. by rewrite Z.compare_refl. Qed.

Lemma str_cmp_eq a b : str_cmp a b = Eq <-> a = b.
Proof.
  split; [|intros ->; apply str_cmp_refl].
  revert b. induction a as [|x a IH]; intros [|y b]; simpl; try done.
  destruct (Z.compare_spec x y); try done. intros ?%IH. congruence.
Qed.

Lemma str_cmp_antisym a b : str_cmp b a = CompOpp (str_cmp a b).
Proof.
  revert b. induction a as [|x a IH]; intros [|y b]; simpl; try done.
  rewrite (Z.compare_antisym x y). destruct (x ?= y); simpl; auto.
Qed.

Lemma str_lt_trans a b c : str_lt a b -> str_lt b c -> str_lt a c.
Proof.
  unfold str_lt. revert b c.
  induction a as [|x a IH]; intros [|y b] [|z c]; simpl; try done.
  destruct (Z.compare_spec x y), (Z.compare_spec y z), (Z.compare_spec x z);
    subst; try done; try lia; eauto.
Qed.

Lemma str_lt_irrefl a : ~ str_lt a a.
Proof. unfold str_lt. by rewrite str_cmp_refl. Qed.

Lemma str_le_lteq a b : str_le a b <-> str_lt a b \/ a = b.
Proof.
  unfold str_le, str_lt. rewrite <- (str_cmp_eq a b).
  destruct (str_cmp a b); intuition congruence.
Qed.

Lemma str_not_lt a b : ~ str_lt a b <-> str_le b a.
Proof.
  unfold str_le, str_lt. rewrite (str_cmp_antisym a b).
  destruct (str_cmp a b); naive_solver.
Qed.

Lemma str_not_le a b : ~ str_le a b <-> str_lt b a.
Proof.
  unfold str_le, str_lt. rewrite (str_cmp_antisym a b).
  destruct (str_cmp a b); naive_solver.
Qed.

Lemma str_le_refl a : str_le a a.
Proof. apply str_le_lteq. auto. Qed.

Lemma str_lt_le a b : str_lt a b -> str_le a b.
Proof. rewrite str_le_lteq. auto. Qed.

Lemma str_le_lt_trans a b c : str_le a b -> str_lt b c -> str_lt a c.
Proof. rewrite str_le_lteq. intros [?| ->]; eauto using str_lt_trans. Qed.

Lemma str_lt_le_trans a b c : str_lt a b -> str_le b c -> str_lt a c.
Proof. rewrite str_le_lteq. intros ? [?| ->]; eauto using str_lt_trans. Qed.

Lemma str_le_trans a b c : str_le a b -> str_le b c -> str_le a c.
Proof.
  rewrite !str_le_lteq. intros [?| ->] [?| ->]; eauto using str_lt_trans.
Qed.

Lemma str_le_antisym a b : str_le a b -> str_le b a -> a = b.
Proof.
  rewrite !str_le_lteq. intros [?|?] [?|?]; try done.
  exfalso. eapply str_lt_irrefl, str_lt_trans; eauto.
Qed.

Lemma str_ltb_lt a b : str_ltb a b = true <-> str_lt a b.
Proof. unfold str_ltb, str_lt. destruct (str_cmp a b); naive_solver. Qed.

Lemma str_leb_le a b : str_leb a b = true <-> str_le a b.
Proof. unfold str_leb, str_le. destruct (str_cmp a b); naive_solver. Qed.

#[export] Instance str_le_preorder : PreOrder str_le.
Proof. split; red; eauto using str_le_refl, str_le_trans. Qed.
#[export] Instance str_le_total : Total str_le.
Proof.
  intros a b. destruct (decide (str_le a b)) as [|H]; [by left|right].
  apply str_lt_le, str_not_le, H.
Qed.
#[export] Instance str_le_anti : AntiSymm (=) str_le.
Proof. red. eauto using str_le_antisym. Qed.
#[export] Instance str_lt_strict : StrictOrder str_lt.
Proof. split; [intros a; apply str_lt_irrefl | intros a b c; apply str_lt_trans]. Qed.

Lemma str_cmp_app a b c : str_cmp (a ++ b) (a ++ c) = str_cmp b c.
Proof. induction a; simpl; [done|]. by rewrite Z.compare_refl. Qed.

#[export] Hint Resolve str_le_refl str_lt_le str_lt_trans str_le_trans
  str_le_lt_trans str_lt_le_trans : zim.
#[export] Hint Rewrite u8_small u16_small u32_small u64_small using lia : uint.
