(* ===== verification/Types.v ===== *)
(** The integer types of the library ([zim_types.h], [zim.h]) and their
    little-endian encoding ([endian_tools.h]).

    A strongly typed index, size or offset is a [Z] with the width of its base
    type; the operators below are those [REAL_TYPEDEF] declares, with their
    wrap-around. *)

From S2P Require Import Prelude.

(** * [REAL_TYPEDEF<B>], for a base type of [w] bits *)

Module REAL_TYPEDEF.
Section ops.
Context (w : Z).

Definition to_bool (v : Z) : bool := negb (v =? 0).
Definition eq (lhs rhs : Z) : bool := lhs =? rhs.
Definition preinc (v : Z) : Z := wrap w (v + 1).
Definition postinc (v : Z) : Z * Z := (v, wrap w (v + 1)).
Definition add_assign (lhs rhs : Z) : Z := wrap w (lhs + rhs).
Definition add (lhs rhs : Z) : Z := add_assign lhs rhs.
Definition sub_assign (lhs rhs : Z) : Z := wrap w (lhs - rhs).
Definition sub (lhs rhs : Z) : Z := sub_assign lhs rhs.
Definition lt (lhs rhs : Z) : bool := lhs <? rhs.
Definition gt (lhs rhs : Z) : bool := lt rhs lhs.
Definition le (lhs rhs : Z) : bool := negb (gt lhs rhs).
Definition ge (lhs rhs : Z) : bool := negb (lt lhs rhs).
Definition ne (lhs rhs : Z) : bool := negb (eq lhs rhs).
End ops.
End REAL_TYPEDEF.

(** Widths of the index, size and offset types. *)
Definition entry_index_w : Z := 32.
Definition cluster_index_w : Z := 32.
Definition blob_index_w : Z := 32.
Definition size_w : Z := 64.
Definition offset_w : Z := 64.

(** [offset_t operator+(offset_t, const zsize_t&)] and friends. *)
Definition off_add (lhs rhs : Z) : Z := REAL_TYPEDEF.add offset_w lhs rhs.
Definition off_sub (lhs rhs : Z) : Z := REAL_TYPEDEF.sub offset_w lhs rhs.

Definition SIZE_MAX : Z := 2 ^ 64 - 1.
Definition UINT32_MAX : Z := 2 ^ 32 - 1.

Inductive CompressionType : Type :=
  | zimcompDefault
  | zimcompNone
  | zimcompZip
  | zimcompBzip2
  | zimcompLzma
  | zimcompZstd.

#[export] Instance CompressionType_eq_dec : EqDecision CompressionType.
Proof. solve_decision. Defined.

(** The value of the enumerator, and the cast back from an integer: a value
    that names no enumerator is [None]. *)
Definition CompressionType_val (c : CompressionType) : Z :=
  match c with
  | zimcompDefault => 0
  | zimcompNone => 1
  | zimcompZip => 2
  | zimcompBzip2 => 3
  | zimcompLzma => 4
  | zimcompZstd => 5
  end.

Definition CompressionType_of (z : Z) : option CompressionType :=
  match z with
  | 0 => Some zimcompDefault
  | 1 => Some zimcompNone
  | 2 => Some zimcompZip
  | 3 => Some zimcompBzip2
  | 4 => Some zimcompLzma
  | 5 => Some zimcompZstd
  | _ => None
  end.

Inductive IntegrityCheck : Type :=
  | CHECKSUM | DIRENT_PTRS | DIRENT_ORDER | TITLE_INDEX | CLUSTER_PTRS
  | DIRENT_MIMETYPES | COUNT.

(** * Little-endian encoding *)

(** [ToLittleEndianImpl<T, N>::write]: the bytes stored at [dst]. *)
Definition toLittleEndian (N : nat) (d : Z) : bytes :=
  match N with
  | 2%nat => let v := u16 d in [u8 v; u8 (Z.shiftr v 8)]
  | 4%nat => let v := u32 d in
      [u8 v; u8 (Z.shiftr v 8); u8 (Z.shiftr v 16); u8 (Z.shiftr v 24)]
  | 8%nat => let v := u64 d in
      [u8 v; u8 (Z.shiftr v 8); u8 (Z.shiftr v 16); u8 (Z.shiftr v 24);
       u8 (Z.shiftr v 32); u8 (Z.shiftr v 40); u8 (Z.shiftr v 48); u8 (Z.shiftr v 56)]
  | _ => []
  end.

(** The loop of [fromLittleEndian<T>] from index [i], with [N = sizeof(T)]:
    [ret |= (T)(uint8_t)ptr[i] << (i*8)]. *)
Fixpoint fromLittleEndian_loop (N : nat) (i : Z) (ptr : bytes) (ret : Z) : Z :=
  match ptr with
  | [] => ret
  | c :: ptr =>
      fromLittleEndian_loop N (i + 1) ptr
        (wrap (8 * Z.of_nat N) (Z.lor ret (Z.shiftl (u8 c) (i * 8))))
  end.

Definition fromLittleEndian (N : nat) (ptr : bytes) : Z :=
  fromLittleEndian_loop N 0 (take N ptr) 0.

(** The value a little-endian sequence of bytes denotes. *)
Fixpoint le_val (l : bytes) : Z :=
  match l with
  | [] => 0
  | b :: l => b + 256 * le_val l
  end.

(** The sequence of [n] bytes that denotes [z]. *)
Fixpoint le_bytes (n : nat) (z : Z) : bytes :=
  match n with
  | O => []
  | S n => z mod 256 :: le_bytes n (z / 256)
  end.

(** * Lemmas *)

Lemma CompressionType_of_val c : CompressionType_of (CompressionType_val c) = Some c.
Proof. by destruct c. Qed.

Lemma length_le_bytes n z : length (le_bytes n z) = n.
Proof. revert z. induction n; simpl; auto. Qed.

Lemma le_bytes_ok n z : bytes_ok (le_bytes n z).
Proof.
  revert z. induction n as [|n IH]; intros z; [constructor|].
  constructor; [|apply IH]. apply Z.mod_pos_bound. lia.
Qed.

Lemma le_val_bytes n z : le_val (le_bytes n z) = z mod 2 ^ (8 * Z.of_nat n).
Proof.
  revert z. induction n as [|n IH]; intros z; [by rewrite Z.mod_1_r|].
  cbn [le_val le_bytes]. rewrite IH.
  replace (8 * Z.of_nat (S n)) with (8 + 8 * Z.of_nat n) by lia.
  rewrite Z.pow_add_r by lia. change (2 ^ 8) with 256.
  rewrite Z.rem_mul_r by lia. lia.
Qed.

Lemma le_val_range l : bytes_ok l -> 0 <= le_val l < 2 ^ (8 * Zlen l).
Proof.
  induction 1 as [|b l Hb _ IH]; [done|].
  rewrite Zlen_cons. pose proof (Zlen_nonneg l).
  rewrite Z.mul_add_distr_l, Z.pow_add_r by lia. unfold byte_ok, fits in Hb.
  simpl le_val. change (2 ^ (8 * 1)) with 256. change (2 ^ 8) with 256 in Hb. lia.
Qed.

Lemma le_bytes_val l : bytes_ok l -> le_bytes (length l) (le_val l) = l.
Proof.
  induction 1 as [|b l Hb _ IH]; [done|].
  cbn [length le_bytes le_val]. unfold byte_ok, fits in Hb. change (2 ^ 8) with 256 in Hb.
  rewrite (Z.mul_comm 256), Z.mod_add, Z.div_add by lia.
  rewrite Z.mod_small, Z.div_small, Z.add_0_l by lia. by rewrite IH.
Qed.

Lemma le_val_inj l k :
  length l = length k -> bytes_ok l -> bytes_ok k -> le_val l = le_val k -> l = k.
Proof.
  intros Hlen Hl Hk E. rewrite <- (le_bytes_val l), <- (le_bytes_val k) by done. congruence.
Qed.

(** [x | (b << k)] is [x + b * 2^k] when [x] has at most [k] bits. *)
Lemma lor_shiftl_add x b k :
  0 <= k -> 0 <= x < 2 ^ k -> Z.lor x (Z.shiftl b k) = x + b * 2 ^ k.
Proof.
  intros Hk Hx. rewrite <- Z.shiftl_mul_pow2 by done.
  rewrite <- Z.lxor_lor, Z.add_nocarry_lxor; [done| |];
    apply Z.bits_inj'; intros i Hi; rewrite Z.land_spec, Z.bits_0;
    (destruct (Z.lt_ge_cases i k);
     [ rewrite Z.shiftl_spec_low by lia; apply andb_false_r
     | replace x with (x mod 2 ^ k) by (apply Z.mod_small; lia);
       by rewrite Z.mod_pow2_bits_high by lia ]).
Qed.

Lemma fromLittleEndian_loop_val N i ptr ret :
  bytes_ok ptr -> 0 <= i -> i + Zlen ptr <= Z.of_nat N -> 0 <= ret < 2 ^ (i * 8) ->
  fromLittleEndian_loop N i ptr ret = ret + 2 ^ (i * 8) * le_val ptr.
Proof.
  intros Hok. revert i ret. induction Hok as [|b l Hb Hl IH]; intros i ret Hi Hlen Hret.
  { simpl. lia. }
  rewrite Zlen_cons in Hlen. pose proof (Zlen_nonneg l).
  unfold byte_ok, fits in Hb. change (2 ^ 8) with 256 in Hb.
  cbn [fromLittleEndian_loop le_val].
  rewrite u8_small by lia. rewrite lor_shiftl_add by lia.
  assert (E : 2 ^ ((i + 1) * 8) = 2 ^ (i * 8) * 256)
    by (rewrite Z.mul_add_distr_r, Z.pow_add_r by lia; done).
  assert (0 < 2 ^ (i * 8)) by (apply Z.pow_pos_nonneg; lia).
  assert (Hs : 0 <= ret + b * 2 ^ (i * 8) < 2 ^ ((i + 1) * 8)) by (rewrite E; nia).
  rewrite wrap_small; [rewrite IH; [rewrite E; lia|lia..|done]|].
  split; [lia|]. eapply Z.lt_le_trans; [apply Hs|]. apply Z.pow_le_mono_r; lia.
Qed.

Lemma fromLittleEndian_val N ptr :
  bytes_ok ptr -> length ptr = N -> fromLittleEndian N ptr = le_val ptr.
Proof.
  intros Hok <-. unfold fromLittleEndian. rewrite firstn_all.
  rewrite fromLittleEndian_loop_val; [lia|done|lia|unfold Zlen; lia|simpl; lia].
Qed.

Lemma fromLittleEndian_fits N ptr : fits (8 * Z.of_nat N) (fromLittleEndian N ptr).
Proof.
  unfold fromLittleEndian. generalize (take N ptr), 0 at 1.
  assert (H0 : fits (8 * Z.of_nat N) 0) by (split; [done|apply Z.pow_pos_nonneg; lia]).
  revert H0. generalize 0. intros r Hr l. revert r Hr.
  induction l as [|c l IH]; intros r Hr i; cbn [fromLittleEndian_loop]; [done|].
  apply IH. apply wrap_fits. lia.
Qed.

Lemma toLittleEndian_bytes N d :
  N = 2%nat \/ N = 4%nat \/ N = 8%nat -> toLittleEndian N d = le_bytes N (wrap (8 * Z.of_nat N) d).
Proof.
  intros [->|[->| ->]]; cbn [toLittleEndian le_bytes];
    rewrite ?Z.shiftr_div_pow2 by lia; unfold u8, u16, u32, u64;
    change (8 * Z.of_nat 2) with 16; change (8 * Z.of_nat 4) with 32;
    change (8 * Z.of_nat 8) with 64;
    rewrite ?Z.div_div by lia; done.
Qed.

Lemma length_toLittleEndian N d :
  N = 2%nat \/ N = 4%nat \/ N = 8%nat -> length (toLittleEndian N d) = N.
Proof. intros. by rewrite toLittleEndian_bytes, length_le_bytes. Qed.

Lemma toLittleEndian_ok N d : bytes_ok (toLittleEndian N d).
Proof.
  do 9 (destruct N as [|N]; [by repeat constructor; apply wrap_fits|]). constructor.
Qed.

Lemma from_to_LittleEndian N d :
  N = 2%nat \/ N = 4%nat \/ N = 8%nat ->
  fromLittleEndian N (toLittleEndian N d) = wrap (8 * Z.of_nat N) d.
Proof.
  intros HN. rewrite toLittleEndian_bytes by done.
  rewrite fromLittleEndian_val; [|apply le_bytes_ok|apply length_le_bytes].
  rewrite le_val_bytes. unfold wrap. by rewrite Z.mod_mod by (apply Z.pow_nonzero; lia).
Qed.

Lemma to_from_LittleEndian N l :
  N = 2%nat \/ N = 4%nat \/ N = 8%nat -> bytes_ok l -> length l = N ->
  toLittleEndian N (fromLittleEndian N l) = l.
Proof.
  intros HN Hok Hlen. rewrite fromLittleEndian_val by done.
  rewrite toLittleEndian_bytes by done. rewrite wrap_small.
  - rewrite <- Hlen. by apply le_bytes_val.
  - pose proof (le_val_range l Hok) as H. unfold Zlen in H. by rewrite Hlen in H.
Qed.

(** Reading back with [fromLittleEndian<T>] what [toLittleEndian<T>] wrote
    gives the value modulo the width of [T], and writing what was read gives
    the same bytes: the encoding of 16-, 32- and 64-bit integers is a bijection
    between the values of the type and the byte sequences of its size. *)
Theorem endian_roundtrip N :
  N = 2%nat \/ N = 4%nat \/ N = 8%nat ->
  (forall d, fits (8 * Z.of_nat N) d -> fromLittleEndian N (toLittleEndian N d) = d) /\
  (forall l, bytes_ok l -> length l = N -> toLittleEndian N (fromLittleEndian N l) = l).
Proof.
  intros HN. split; intros.
  - rewrite from_to_LittleEndian by done. by apply wrap_small.
  - by apply to_from_LittleEndian.
Qed.

Lemma endian_roundtrip_witness :
  fromLittleEndian 4 (toLittleEndian 4 72173914) = 72173914.
Proof.
  apply (endian_roundtrip 4); [auto|]. split; vm_compute; congruence.
Defined.
