(* ===== verification/Readers.v ===== *)
(** Buffers, the abstract [Reader] and the in-memory reader
    ([buffer.h], [buffer.cpp], [blob.h], [reader.h], [buffer_reader.cpp],
    [bufferstreamer.h]).

    A buffer is a window into an allocation: the allocation's bytes, the
    position of the data pointer in it, and the size the buffer claims.
    [Reader] is the interface every source of archive bytes implements; its
    contract is the class [ReaderSpec], which the readers discharge and the
    rest of the development relies on. *)

From S2P Require Import Prelude.
From S2P Require Import Types.

(** * Buffer *)

Record Buffer : Type := mkBuffer {
  m_mem : bytes;     (* the allocation [m_data] points into *)
  m_ptr : Z;         (* position of [m_data] in it *)
  m_size : Z;
}.

(** The constructor [Buffer(const DataPtr&, zsize_t)]. *)
Definition Buffer_new (mem : bytes) (ptr size : Z) : outcome Buffer :=
  ASSERT (size <? SIZE_MAX) ;;
  mret (mkBuffer mem ptr size).

(** [Buffer::data(offset)]: the position of the byte it points to. *)
Definition Buffer_data (b : Buffer) (offset : Z) : outcome Z :=
  ASSERT (offset <=? m_size b) ;;
  mret (m_ptr b + offset).

Definition Buffer_at (b : Buffer) (offset : Z) : outcome Z :=
  p ← Buffer_data b offset;
  mem_get (m_mem b) p.

Definition Buffer_sub_buffer (b : Buffer) (offset size : Z) : outcome Buffer :=
  ASSERT (offset <=? m_size b) ;;
  ASSERT (u64 (offset + size) <=? m_size b) ;;
  p ← Buffer_data b offset;
  Buffer_new (m_mem b) p size.

(** [Buffer::makeBuffer(zsize_t)] followed by the write of [content] through
    its data pointer, as every caller does: the allocation holds [content]. *)
Definition Buffer_filled (size : Z) (content : bytes) : outcome Buffer :=
  if 0 =? size then Buffer_new [] 0 size else Buffer_new content 0 size.

(** * Blob *)

Record Blob : Type := mkBlob { b_mem : bytes; b_ptr : Z; b_size : Z }.

Definition Blob_empty : Blob := mkBlob [] 0 0.
Definition Blob_of_Buffer (b : Buffer) : Blob := mkBlob (m_mem b) (m_ptr b) (m_size b).

(** [Blob::operator std::string()]. *)
Definition Blob_string (b : Blob) : outcome bytes := mem_read (b_mem b) (b_ptr b) (b_size b).

(** [operator==] of two blobs: equal sizes, then equal bytes. *)
Definition Blob_eqb (x y : Blob) : outcome bool :=
  if b_size x =? b_size y then
    s ← Blob_string x;
    t ← mem_read (b_mem y) (b_ptr y) (b_size x);
    mret (bool_decide (s = t))
  else mret false.

(** * Reader: the interface *)

Class Reader (R : Type) : Type := {
  r_size : R -> Z;
  (** [void read(char* dest, offset_t, zsize_t)]: the bytes stored at [dest]. *)
  r_read : R -> Z -> Z -> outcome bytes;
  (** [char read(offset_t)]. *)
  r_get : R -> Z -> outcome Z;
  r_get_buffer : R -> Z -> Z -> outcome Buffer;
  r_sub_reader : R -> Z -> Z -> outcome R;
}.

(** [Reader::read_uint<T>], [N = sizeof(T)]. *)
Definition read_uint `{Reader R} (N : nat) (r : R) (offset : Z) : outcome Z :=
  ASSERT (offset <? r_size r) ;;
  ASSERT (u64 (offset + Z.of_nat N) <=? r_size r) ;;
  tmp_buf ← r_read r offset (Z.of_nat N);
  mret (fromLittleEndian N tmp_buf).

(** [get_buffer(offset)] and [sub_reader(offset)]: up to the end. *)
Definition get_buffer_from `{Reader R} (r : R) (offset : Z) : outcome Buffer :=
  r_get_buffer r offset (u64 (r_size r - offset)).
Definition sub_reader_from `{Reader R} (r : R) (offset : Z) : outcome R :=
  r_sub_reader r offset (u64 (r_size r - offset)).

(** [Reader::can_read] ([file_reader.cpp]). *)
Definition can_read `{Reader R} (r : R) (offset size : Z) : bool :=
  (offset <=? r_size r) && (u64 (offset + size) <=? r_size r).

(** * BufferReader *)

Record BufferReader : Type := mkBufferReader { br_source : Buffer }.

Definition BufferReader_size (r : BufferReader) : Z := m_size (br_source r).

Definition BufferReader_get_buffer (r : BufferReader) (offset size : Z) : outcome Buffer :=
  Buffer_sub_buffer (br_source r) offset size.

Definition BufferReader_sub_reader (r : BufferReader) (offset size : Z) : outcome BufferReader :=
  sub_buff ← BufferReader_get_buffer r offset size;
  mret (mkBufferReader sub_buff).

Definition BufferReader_read (r : BufferReader) (offset size : Z) : outcome bytes :=
  ASSERT (offset <=? m_size (br_source r)) ;;
  ASSERT (off_add offset size <=? m_size (br_source r)) ;;
  if size =? 0 then mret []
  else
    p ← Buffer_data (br_source r) offset;
    mem_read (m_mem (br_source r)) p size.

Definition BufferReader_get (r : BufferReader) (offset : Z) : outcome Z :=
  ASSERT (offset <? m_size (br_source r)) ;;
  p ← Buffer_data (br_source r) offset;
  mem_get (m_mem (br_source r)) p.

#[export] Instance BufferReader_Reader : Reader BufferReader := {
  r_size := BufferReader_size;
  r_read := BufferReader_read;
  r_get := BufferReader_get;
  r_get_buffer := BufferReader_get_buffer;
  r_sub_reader := BufferReader_sub_reader;
}.

(** * BufferStreamer *)

Record BufferStreamer : Type := mkStreamer {
  s_mem : bytes;       (* the allocation of [m_buffer] *)
  s_current : Z;       (* [m_current], a position in it *)
  s_left : Z;          (* [m_size] *)
}.

Definition BufferStreamer_new (b : Buffer) (size : Z) : outcome BufferStreamer :=
  p ← Buffer_data b 0;
  mret (mkStreamer (m_mem b) p size).

Definition BufferStreamer_of (b : Buffer) : outcome BufferStreamer :=
  BufferStreamer_new b (m_size b).

Definition skip (s : BufferStreamer) (nbBytes : Z) : BufferStreamer :=
  mkStreamer (s_mem s) (s_current s + nbBytes) (u64 (s_left s - nbBytes)).

(** [read<T>()], [N = sizeof(T)]: no check against the bytes left. *)
Definition stream_read (N : nat) (s : BufferStreamer) : outcome (Z * BufferStreamer) :=
  buf ← mem_read (s_mem s) (s_current s) (Z.of_nat N);
  mret (fromLittleEndian N buf, skip s (Z.of_nat N)).

(** [strnlen(p, maxlen)] of the C library: the number of bytes before the
    first zero byte, at most [maxlen]; reads no byte after that. *)
Fixpoint strnlen_loop (l : bytes) (maxlen : Z) : outcome Z :=
  if maxlen <=? 0 then Ok 0
  else match l with
  | [] => Undef
  | c :: l => if c =? 0 then Ok 0 else n ← strnlen_loop l (maxlen - 1); mret (1 + n)
  end.

Definition strnlen (mem : bytes) (p maxlen : Z) : outcome Z :=
  if (0 <=? p) && (p <=? Zlen mem) then strnlen_loop (drop (Z.to_nat p) mem) maxlen else Undef.

(** * The contract of a reader

    [r_content] is the sequence of bytes a reader stands for. Requests that lie
    inside it succeed and give its bytes; a [read] that does not is refused.
    The operating system transfers at most [max_read] bytes in one call
    ([0x7ffff000] on Linux), so the contract of [read] is bounded by it. *)

Definition max_read : Z := 0x7ffff000.

Definition Buffer_content (b : Buffer) : bytes := slice (m_mem b) (m_ptr b) (m_size b).

Definition Buffer_wf (b : Buffer) : Prop :=
  0 <= m_ptr b /\ 0 <= m_size b /\ m_ptr b + m_size b <= Zlen (m_mem b) /\
  m_size b < SIZE_MAX.

Class ReaderSpec (R : Type) `{Reader R} : Type := {
  r_content : R -> bytes;
  r_wf : R -> Prop;
  r_size_content r : r_wf r -> r_size r = Zlen (r_content r);
  r_size_bound r : r_wf r -> r_size r < SIZE_MAX;
  r_read_in r off n :
    r_wf r -> 0 <= off -> 0 <= n <= max_read -> off + n <= r_size r ->
    r_read r off n = Ok (slice (r_content r) off n);
  r_read_out r off n :
    r_wf r -> 0 <= off -> 0 <= n -> off + n < 2 ^ 64 -> r_size r < off + n ->
    r_read r off n = Throw assertion_failed;
  r_get_in r off :
    r_wf r -> 0 <= off < r_size r -> r_get r off = Ok (nth (Z.to_nat off) (r_content r) 0);
  r_buffer_in r off n :
    r_wf r -> 0 <= off -> 0 < n -> off + n <= r_size r -> n <= max_read ->
    exists b, r_get_buffer r off n = Ok b /\ Buffer_wf b /\
      m_size b = n /\ Buffer_content b = slice (r_content r) off n;
  r_sub_in r off n :
    r_wf r -> 0 <= off -> 0 <= n -> off + n <= r_size r ->
    exists r', r_sub_reader r off n = Ok r' /\ r_wf r' /\
      r_content r' = slice (r_content r) off n;
}.

(** * Lemmas *)

Lemma Buffer_data_Ok b off p : Buffer_data b off = Ok p <-> off <= m_size b /\ p = m_ptr b + off.
Proof.
  unfold Buffer_data. destruct (Z.leb_spec off (m_size b)); simpl.
  - split; [intros [= <-]; auto|by intros [? ->]].
  - split; [done|lia].
Qed.

Lemma Buffer_content_length b : Buffer_wf b -> Zlen (Buffer_content b) = m_size b.
Proof. intros (?&?&?&?). by apply Zlen_slice. Qed.

Lemma Buffer_sub_buffer_in b off n :
  Buffer_wf b -> 0 <= off -> 0 <= n -> off + n <= m_size b ->
  Buffer_sub_buffer b off n = Ok (mkBuffer (m_mem b) (m_ptr b + off) n).
Proof.
  intros (?&?&?&?) ???. unfold Buffer_sub_buffer, Buffer_data, Buffer_new.
  unfold SIZE_MAX in *. rewrite u64_small by lia. by decide_bool.
Qed.

Lemma Buffer_sub_content b off n :
  0 <= off -> 0 <= n -> 0 <= m_ptr b -> off + n <= m_size b ->
  Buffer_content (mkBuffer (m_mem b) (m_ptr b + off) n) = slice (Buffer_content b) off n.
Proof. intros. unfold Buffer_content. simpl. by rewrite slice_slice by lia. Qed.

Lemma nth_slice (l : bytes) p n i :
  0 <= p -> 0 <= i < n -> nth (Z.to_nat i) (slice l p n) 0 = nth (Z.to_nat (p + i)) l 0.
Proof.
  intros. unfold slice. rewrite nth_firstn.
  replace (Z.to_nat i <? Z.to_nat n)%nat with true by (symmetry; apply Nat.ltb_lt; lia).
  rewrite nth_skipn. f_equal. lia.
Qed.

#[export] Program Instance BufferReader_Spec : ReaderSpec BufferReader := {
  r_content r := Buffer_content (br_source r);
  r_wf r := Buffer_wf (br_source r);
}.
Next Obligation. intros [b] H. simpl in *. symmetry. by apply Buffer_content_length. Qed.
Next Obligation. intros [b] (?&?&?&?). done. Qed.
Next Obligation.
  intros [b] off n (?&?&?&?) ? [? ?] Hin. unfold SIZE_MAX in *.
  cbv [r_read r_size BufferReader_Reader] in *. unfold BufferReader_read, BufferReader_size in *.
  simpl in *. unfold off_add, REAL_TYPEDEF.add, REAL_TYPEDEF.add_assign.
  rewrite wrap_small by (unfold fits, offset_w; lia). decide_bool.
  destruct (Z.eqb_spec n 0) as [->|]; [done|]. unfold Buffer_data. decide_bool.
  rewrite mem_read_ok by lia. unfold Buffer_content. by rewrite slice_slice by lia.
Qed.
Next Obligation.
  intros [b] off n (?&?&?&?) ? ? ? Hout. unfold SIZE_MAX in *.
  cbv [r_read r_size BufferReader_Reader] in *. unfold BufferReader_read, BufferReader_size in *.
  simpl in *. unfold off_add, REAL_TYPEDEF.add, REAL_TYPEDEF.add_assign.
  rewrite wrap_small by (unfold fits, offset_w; lia).
  destruct (Z.leb_spec off (m_size b)); simpl; [|done]. by decide_bool.
Qed.
Next Obligation.
  intros [b] off (?&?&?&?) [? Hin].
  cbv [r_get r_size BufferReader_Reader] in *. unfold BufferReader_get, BufferReader_size in *.
  simpl in *. unfold Buffer_data, mem_get. decide_bool.
  unfold Buffer_content. by rewrite nth_slice by lia.
Qed.
Next Obligation.
  intros [b] off n (?&?&?&?) ? ? Hin ?.
  cbv [r_get_buffer r_size BufferReader_Reader] in *.
  unfold BufferReader_get_buffer, BufferReader_size in *. simpl in *.
  eexists. rewrite Buffer_sub_buffer_in by (unfold Buffer_wf; auto with lia).
  split; [done|]. unfold Buffer_wf. simpl. rewrite Buffer_sub_content by lia.
  split_and!; auto with lia.
Qed.
Next Obligation.
  intros [b] off n (?&?&?&?) ? ? Hin.
  cbv [r_sub_reader r_size BufferReader_Reader] in *.
  unfold BufferReader_sub_reader, BufferReader_get_buffer, BufferReader_size in *. simpl in *.
  eexists. rewrite Buffer_sub_buffer_in by (unfold Buffer_wf; auto with lia).
  split; [done|]. unfold Buffer_wf. simpl. rewrite Buffer_sub_content by lia.
  split_and!; auto with lia.
Qed.

Section reader_facts.
Context `{ReaderSpec R}.

Lemma read_uint_in N (r : R) off :
  r_wf r -> 0 <= off -> (0 < N)%nat -> Z.of_nat N <= max_read -> off + Z.of_nat N <= r_size r ->
  read_uint N r off = Ok (fromLittleEndian N (slice (r_content r) off (Z.of_nat N))).
Proof.
  intros Hr ????. pose proof (r_size_bound r Hr). unfold SIZE_MAX in *.
  unfold read_uint. rewrite u64_small by lia. decide_bool.
  by rewrite r_read_in by (auto; lia).
Qed.

Lemma can_read_spec (r : R) off n :
  r_wf r -> 0 <= off -> 0 <= n -> off + n < 2 ^ 64 ->
  can_read r off n = bool_decide (off + n <= r_size r).
Proof.
  intros Hr ???. unfold can_read. rewrite u64_small by lia.
  destruct (decide (off + n <= r_size r)).
  { rewrite bool_decide_true by done. by decide_bool. }
  rewrite bool_decide_false by done.
  rewrite (proj2 (Z.leb_gt (off + n) _)) by lia. apply andb_false_r.
Qed.

End reader_facts.

(** ** Streamers

    [stream_has s l]: the bytes from the current position of [s] on start with
    [l]. *)

Definition stream_has (s : BufferStreamer) (l : bytes) : Prop :=
  exists pre post, s_mem s = pre ++ l ++ post /\ s_current s = Zlen pre.

Lemma stream_has_app s l k : stream_has s (l ++ k) -> stream_has s l.
Proof. intros (pre & post & E & ?). exists pre, (k ++ post). by rewrite E, <- !app_assoc. Qed.

Lemma stream_has_skip s l k :
  stream_has s (l ++ k) -> stream_has (skip s (Zlen l)) k.
Proof.
  intros (pre & post & E & Hcur). exists (pre ++ l), post. cbn [skip s_mem s_current].
  rewrite E, Hcur, Zlen_app. by rewrite <- !app_assoc.
Qed.

Lemma stream_has_mem s l : stream_has s l -> mem_read (s_mem s) (s_current s) (Zlen l) = Ok l.
Proof.
  intros (pre & post & -> & ->). pose proof (Zlen_nonneg pre). pose proof (Zlen_nonneg l).
  pose proof (Zlen_nonneg post).
  rewrite mem_read_ok by (autorewrite with zlen; lia). by rewrite slice_app_mid.
Qed.

Lemma stream_read_has s a k :
  stream_has s (a ++ k) ->
  stream_read (length a) s = Ok (fromLittleEndian (length a) a, skip s (Zlen a)).
Proof.
  intros H%stream_has_app. unfold stream_read. fold (Zlen a).
  by rewrite stream_has_mem by done.
Qed.

(** Reading an integer that [toLittleEndian] wrote. *)
Lemma stream_read_int N v s k :
  N = 2%nat \/ N = 4%nat \/ N = 8%nat -> fits (8 * Z.of_nat N) v ->
  stream_has s (toLittleEndian N v ++ k) ->
  stream_read N s = Ok (v, skip s (Z.of_nat N)) /\ stream_has (skip s (Z.of_nat N)) k.
Proof.
  intros HN Hv Hs. pose proof (length_toLittleEndian N v HN) as Hlen.
  pose proof (stream_read_has _ _ _ Hs) as E. pose proof (stream_has_skip _ _ _ Hs) as E'.
  unfold Zlen in *. rewrite Hlen in *. rewrite E. rewrite from_to_LittleEndian by done.
  by rewrite wrap_small.
Qed.

Lemma BufferStreamer_has b :
  Buffer_wf b -> exists s, BufferStreamer_of b = Ok s /\ stream_has s (Buffer_content b) /\
    s_left s = m_size b.
Proof.
  intros (?&?&?&?). unfold BufferStreamer_of, BufferStreamer_new, Buffer_data.
  rewrite (proj2 (Z.leb_le 0 _)) by lia. eexists. split; [done|]. split; [|done].
  exists (slice (m_mem b) 0 (m_ptr b)), (drop (Z.to_nat (m_ptr b + m_size b)) (m_mem b)).
  simpl. rewrite Z.add_0_r, Zlen_slice by lia. split; [|done].
  unfold Buffer_content, slice. rewrite drop_0, Z2Nat.inj_add, <- drop_drop by lia.
  by rewrite !take_drop.
Qed.
