(* ===== verification/Files.v ===== *)
(** Files, split archives and the readers over them ([fs_unix.cpp],
    [file_part.h], [file_compound.h], [file_compound.cpp], [file_reader.cpp]).

    The operating system is a parameter: an open file is its sequence of bytes,
    [os_pread] and [os_mmap] are the system calls, and [OSSpec] states what
    their documentation promises for requests inside the file. *)

From stdpp Require Import pretty strings.
From S2P Require Import Prelude.
From S2P Require Import Types.
From S2P Require Import Readers.

(** * The operating system *)

Class OS : Type := {
  (** The file behind a name; [None] when [open] fails. *)
  os_open : bytes -> option bytes;
  (** [pread64(fd, _, count, offset)]: the bytes transferred, [None] for -1. *)
  os_pread : bytes -> Z -> Z -> option bytes;
  (** [mmap(NULL, size, PROT_READ, _, fd, offset)]: the mapped bytes, [None]
      for [MAP_FAILED]. *)
  os_mmap : bytes -> Z -> Z -> option bytes;
  (** [sysconf(_SC_PAGE_SIZE)]. *)
  os_page : Z;
  (** What a destination of [n] bytes holds before it is written. *)
  os_stale : Z -> bytes;
}.

Class OSSpec `{OS} : Prop := {
  os_pread_in f n off :
    0 <= off -> 0 <= n <= max_read -> off + n <= Zlen f ->
    os_pread f n off = Some (slice f off n);
  os_mmap_in f off n :
    0 <= off -> off mod os_page = 0 -> 0 < n -> off + n <= Zlen f ->
    os_mmap f off n = Some (slice f off n);
  os_page_pow : exists k, 0 <= k /\ os_page = 2 ^ k;
  os_stale_len n : 0 <= n -> Zlen (os_stale n) = n;
  os_file_size name f : os_open name = Some f -> Zlen f < 2 ^ 63;
}.

(** * [FD] *)

Section fd.
Context `{OS}.

(** The loop of [FD::readAt]. [dest] is what the destination holds; every
    iteration stores at its first byte. *)
Fixpoint readAt_loop (fuel : nat) (f : bytes) (dest : bytes)
    (size_to_read current_offset full_size_read : Z) : outcome (Z * bytes) :=
  if size_to_read <=? 0 then mret (u64 full_size_read, dest)
  else match fuel with
  | O => Diverge
  | S fuel =>
      match os_pread f size_to_read current_offset with
      | None => mret (u64 (-1), dest)
      | Some data =>
          let size_read := Zlen data in
          readAt_loop fuel f (data ++ drop (length data) dest)
            (u64 (size_to_read - size_read)) (u64 (current_offset + size_read))
            (full_size_read + size_read)
      end
  end.

Definition readAt (f : bytes) (dest : bytes) (size offset : Z) : outcome (Z * bytes) :=
  readAt_loop (S (Z.to_nat size)) f dest size offset 0.

(** A [readAt] whose result is ignored, as the readers call it. *)
Definition readAt_ (f : bytes) (size offset : Z) : outcome bytes :=
  r ← readAt f (os_stale size) size offset;
  mret r.2.

Definition getSize (f : bytes) : Z := Zlen f.

Definition openFile (name : bytes) : outcome bytes :=
  match os_open name with
  | None => Throw (runtime_error "")
  | Some f => mret f
  end.

Definition getFilePathFromFD (fd : Z) : bytes := lit ("/dev/fd/" +:+ pretty fd).

End fd.

(** * [FilePart] and [FileCompound] *)

Record FilePart : Type := mkFilePart {
  fp_filename : bytes;
  fp_fhandle : bytes;
  fp_size : Z;
}.

Record Range : Type := mkRange { rg_min : Z; rg_max : Z }.

Definition less_range (lhs rhs : Range) : bool :=
  (rg_min lhs <? rg_min rhs) && (rg_max lhs <=? rg_min rhs).

(** The [std::map<Range, FilePart*, less_range>] base, in order. *)
Record FileCompound : Type := mkFileCompound {
  fc_parts : list (Range * FilePart);
  fc_filename : bytes;
  fc_fsize : Z;
}.

(** [std::map::emplace]: nothing happens when an equivalent key is present. *)
Fixpoint range_emplace (k : Range) (v : FilePart) (l : list (Range * FilePart)) :
    list (Range * FilePart) :=
  match l with
  | [] => [(k, v)]
  | (k', v') :: l' =>
      if less_range k' k then (k', v') :: range_emplace k v l'
      else if less_range k k' then (k, v) :: l
      else l
  end.

(** The parts before [lower_bound(k)]. *)
Fixpoint range_below (k : Range) (l : list (Range * FilePart)) : nat :=
  match l with
  | [] => O
  | (k', _) :: l => if less_range k' k then S (range_below k l) else O
  end.

(** The parts before [upper_bound(k)]. *)
Fixpoint range_upto (k : Range) (l : list (Range * FilePart)) : nat :=
  match l with
  | [] => O
  | (k', _) :: l => if less_range k k' then O else S (range_upto k l)
  end.

Definition fc_fail (c : FileCompound) : bool :=
  match fc_parts c with [] => true | _ => false end.
Definition fc_is_multiPart (c : FileCompound) : bool := 1 <? Zlen (fc_parts c).

(** [locate(offset)]: the iterator, as the parts from it on. *)
Definition locate (c : FileCompound) (offset : Z) : outcome (list (Range * FilePart)) :=
  let partIt := drop (range_below (mkRange offset offset) (fc_parts c)) (fc_parts c) in
  ASSERT (bool_decide (partIt <> [])) ;;
  mret partIt.

(** [locate(offset, size)]: the positions of the two iterators it returns. *)
Definition locate_range (c : FileCompound) (offset size : Z) : nat * nat :=
  let k := mkRange offset (off_add offset size) in
  (range_below k (fc_parts c), range_upto k (fc_parts c)).

Definition addPart (c : FileCompound) (fpart : FilePart) : FileCompound :=
  let newRange := mkRange (fc_fsize c) (off_add (fc_fsize c) (fp_size fpart)) in
  mkFileCompound (range_emplace newRange fpart (fc_parts c)) (fc_filename c)
    (off_add (fc_fsize c) (fp_size fpart)).

Section compound.
Context `{OS}.

Definition FilePart_new (filename : bytes) : outcome FilePart :=
  m_fhandle ← openFile filename;
  mret (mkFilePart filename m_fhandle (getSize m_fhandle)).

(** The suffixes "aa", "ab", ..., "zz" in the order of the nested loops. *)
Definition part_suffixes : list bytes :=
  ch0 ← seqZ 97 26; ch1 ← seqZ 97 26; mret [ch0; ch1].

(** Adds parts until one cannot be opened. *)
Fixpoint addParts (c : FileCompound) (filename : bytes) (suffixes : list bytes) : FileCompound :=
  match suffixes with
  | [] => c
  | s :: suffixes =>
      match FilePart_new (filename ++ s) with
      | Ok p => addParts (addPart c p) filename suffixes
      | _ => c
      end
  end.

Definition FileCompound_new (filename : bytes) : outcome FileCompound :=
  let c := mkFileCompound [] filename 0 in
  match FilePart_new filename with
  | Ok p => mret (addPart c p)
  | _ =>
      let c := addParts c filename part_suffixes in
      throw_when (fc_fail c) (runtime_error "opening file") ;;
      mret c
  end.

Definition FileCompound_fd (fd : Z) : outcome FileCompound :=
  p ← FilePart_new (getFilePathFromFD fd);
  mret (addPart (mkFileCompound [] [] 0) p).

(** * [FileReader] *)

Definition mmapReadOnly (fd : bytes) (offset size : Z) : outcome bytes :=
  match os_mmap fd offset size with
  | None => Throw (runtime_error "Cannot mmap")
  | Some p => mret p
  end.

(** [makeMmappedBuffer], and the [makeBuffer] its callers wrap it in. *)
Definition makeMmappedBuffer (fd : bytes) (offset size : Z) : outcome Buffer :=
  let pageAlignedOffset := Z.land offset (Z.lnot (os_page - 1)) in
  let alignmentAdjustment := u64 (offset - pageAlignedOffset) in
  mmappedAddress ← mmapReadOnly fd pageAlignedOffset (off_add size alignmentAdjustment);
  Buffer_new mmappedAddress alignmentAdjustment size.

Record FileReader : Type := mkFileReader {
  fr_fhandle : bytes;
  fr_offset : Z;
  fr_size : Z;
}.

Definition FileReader_get (r : FileReader) (offset : Z) : outcome Z :=
  ASSERT (offset <? fr_size r) ;;
  ret ← readAt_ (fr_fhandle r) 1 (off_add offset (fr_offset r));
  mret (nth 0 ret 0).

Definition FileReader_read (r : FileReader) (offset size : Z) : outcome bytes :=
  ASSERT (offset <=? fr_size r) ;;
  ASSERT (u64 (offset + size) <=? fr_size r) ;;
  if size =? 0 then mret []
  else readAt_ (fr_fhandle r) size (off_add offset (fr_offset r)).

Definition FileReader_get_buffer (r : FileReader) (offset size : Z) : outcome Buffer :=
  ASSERT (size <=? fr_size r) ;;
  makeMmappedBuffer (fr_fhandle r) (off_add offset (fr_offset r)) size.

Definition FileReader_sub_reader (r : FileReader) (offset size : Z) : outcome FileReader :=
  ASSERT (u64 (offset + size) <=? fr_size r) ;;
  mret (mkFileReader (fr_fhandle r) (off_add (fr_offset r) offset) size).

(** * [MultiPartFileReader] *)

Record MultiPartFileReader : Type := mkMulti {
  mp_source : FileCompound;
  mp_offset : Z;
  mp_size : Z;
}.

Definition Multi_new (source : FileCompound) (offset size : Z) : outcome MultiPartFileReader :=
  ASSERT (offset <=? fc_fsize source) ;;
  ASSERT (u64 (offset + size) <=? fc_fsize source) ;;
  mret (mkMulti source offset size).

Definition Multi_whole (source : FileCompound) : outcome MultiPartFileReader :=
  Multi_new source 0 (fc_fsize source).

Definition Multi_get (r : MultiPartFileReader) (offset : Z) : outcome Z :=
  ASSERT (offset <? mp_size r) ;;
  let offset := off_add offset (mp_offset r) in
  partIt ← locate (mp_source r) offset;
  match partIt with
  | [] => Undef
  | (range, part) :: _ =>
      let local_offset := off_sub offset (rg_min range) in
      ASSERT (local_offset <=? rg_max range) ;;
      ret ← readAt_ (fp_fhandle part) 1 local_offset;
      mret (nth 0 ret 0)
  end.

(** The loop of [read] over the parts that hold the range. *)
Fixpoint Multi_read_loop (parts : list (Range * FilePart)) (offset size : Z) : outcome bytes :=
  match parts with
  | [] => ASSERT (size =? 0) ;; mret []
  | (partRange, part) :: parts =>
      let local_offset := off_sub offset (rg_min partRange) in
      ASSERT (0 <? size) ;;
      let size_to_get := Z.min size (u64 (fp_size part - local_offset)) in
      dest ← readAt_ (fp_fhandle part) size_to_get local_offset;
      ASSERT (size_to_get <=? size) ;;
      rest ← Multi_read_loop parts (off_add offset size_to_get) (off_sub size size_to_get);
      mret (dest ++ rest)
  end.

Definition Multi_read (r : MultiPartFileReader) (offset size : Z) : outcome bytes :=
  ASSERT (offset <=? mp_size r) ;;
  ASSERT (u64 (offset + size) <=? mp_size r) ;;
  if size =? 0 then mret []
  else
    let offset := off_add offset (mp_offset r) in
    let '(first, second) := locate_range (mp_source r) offset size in
    Multi_read_loop (take (second - first) (drop first (fc_parts (mp_source r)))) offset size.

Definition Multi_copy (r : MultiPartFileReader) (offset size : Z) : outcome Buffer :=
  content ← Multi_read r offset size;
  Buffer_filled size content.

Definition Multi_get_buffer (r : MultiPartFileReader) (offset size : Z) : outcome Buffer :=
  ASSERT (size <=? mp_size r) ;;
  let parts := fc_parts (mp_source r) in
  let '(first, second) := locate_range (mp_source r) (off_add (mp_offset r) offset) size in
  match drop first parts with
  | [] => Undef   (* [++] on the end iterator *)
  | (range, part) :: _ =>
      if bool_decide (S first = second) then
        let local_offset := off_sub (off_add offset (mp_offset r)) (rg_min range) in
        ASSERT (size <=? fp_size part) ;;
        makeMmappedBuffer (fp_fhandle part) local_offset size
      else Multi_copy r offset size
  end.

Definition Multi_sub_reader (r : MultiPartFileReader) (offset size : Z) :
    outcome MultiPartFileReader :=
  ASSERT (u64 (offset + size) <=? mp_size r) ;;
  Multi_new (mp_source r) (off_add (mp_offset r) offset) size.

#[export] Instance FileReader_Reader : Reader FileReader := {
  r_size := fr_size;
  r_read := FileReader_read;
  r_get := FileReader_get;
  r_get_buffer := FileReader_get_buffer;
  r_sub_reader := FileReader_sub_reader;
}.

#[export] Instance Multi_Reader : Reader MultiPartFileReader := {
  r_size := mp_size;
  r_read := Multi_read;
  r_get := Multi_get;
  r_get_buffer := Multi_get_buffer;
  r_sub_reader := Multi_sub_reader;
}.

(** * A [Reader] of unknown class: virtual dispatch *)

Inductive AnyReader : Type :=
  | ABuffer (r : BufferReader)
  | AFile (r : FileReader)
  | AMulti (r : MultiPartFileReader).

#[export] Instance AnyReader_Reader : Reader AnyReader := {
  r_size r := match r with
    | ABuffer r => r_size r | AFile r => r_size r | AMulti r => r_size r end;
  r_read r := match r with
    | ABuffer r => r_read r | AFile r => r_read r | AMulti r => r_read r end;
  r_get r := match r with
    | ABuffer r => r_get r | AFile r => r_get r | AMulti r => r_get r end;
  r_get_buffer r := match r with
    | ABuffer r => r_get_buffer r | AFile r => r_get_buffer r | AMulti r => r_get_buffer r end;
  r_sub_reader r off n := match r with
    | ABuffer r => s ← r_sub_reader r off n; mret (ABuffer s)
    | AFile r => s ← r_sub_reader r off n; mret (AFile s)
    | AMulti r => s ← r_sub_reader r off n; mret (AMulti s) end;
}.

End compound.

(** * The contract: well-formed files and split archives *)

Definition parts_content (l : list (Range * FilePart)) : bytes :=
  concat (map (fun p => fp_fhandle p.2) l).

(** The parts are non-empty and their ranges follow each other from [start]. *)
Fixpoint parts_ok (start : Z) (l : list (Range * FilePart)) : Prop :=
  match l with
  | [] => True
  | (rg, p) :: l =>
      rg = mkRange start (start + Zlen (fp_fhandle p)) /\
      fp_size p = Zlen (fp_fhandle p) /\ 0 < Zlen (fp_fhandle p) /\
      parts_ok (start + Zlen (fp_fhandle p)) l
  end.

Definition fc_ok (c : FileCompound) : Prop :=
  parts_ok 0 (fc_parts c) /\ fc_fsize c = Zlen (parts_content (fc_parts c)) /\
  fc_fsize c < 2 ^ 63.

Definition FileReader_wf (r : FileReader) : Prop :=
  0 <= fr_offset r /\ 0 <= fr_size r /\
  fr_offset r + fr_size r <= Zlen (fr_fhandle r) /\ Zlen (fr_fhandle r) < 2 ^ 63.

Definition Multi_wf (r : MultiPartFileReader) : Prop :=
  0 <= mp_offset r /\ 0 <= mp_size r /\ fc_ok (mp_source r) /\
  mp_offset r + mp_size r <= fc_fsize (mp_source r).

(** * Lemmas *)

Lemma off_add_small a b : 0 <= a + b < 2 ^ 64 -> off_add a b = a + b.
Proof. intros. apply wrap_small. split; unfold offset_w; lia. Qed.
Lemma off_sub_small a b : 0 <= a - b < 2 ^ 64 -> off_sub a b = a - b.
Proof. intros. apply wrap_small. split; unfold offset_w; lia. Qed.

#[export] Hint Rewrite off_add_small off_sub_small using lia : uint.

Lemma parts_content_cons rp l : parts_content (rp :: l) = fp_fhandle rp.2 ++ parts_content l.
Proof. done. Qed.

Lemma land_page page off :
  (exists k, 0 <= k /\ page = 2 ^ k) -> Z.land off (Z.lnot (page - 1)) = off - off mod page.
Proof.
  intros (k & Hk & ->). replace (2 ^ k - 1) with (Z.ones k) by (rewrite Z.ones_equiv; lia).
  rewrite <- Z.ldiff_land, Z.ldiff_ones_r, Z.shiftr_div_pow2, Z.shiftl_mul_pow2 by done.
  pose proof (Z.div_mod off (2 ^ k)). assert (0 < 2 ^ k) by (apply Z.pow_pos_nonneg; lia). lia.
Qed.

Section file_facts.
Context `{OSSpec}.

Lemma readAt_full f n off :
  0 <= off -> 0 <= n <= max_read -> off + n <= Zlen f -> Zlen f < 2 ^ 63 ->
  readAt f (os_stale n) n off = Ok (n, slice f off n).
Proof.
  intros Hoff [Hn Hmax] Hin Hf. unfold max_read in Hmax. unfold readAt.
  pose proof (os_stale_len n Hn) as Hst.
  destruct (Z.eq_dec n 0) as [->|Hn0].
  { simpl. destruct (os_stale 0); [done|]. rewrite Zlen_cons in Hst.
    pose proof (Zlen_nonneg l). lia. }
  cbn [readAt_loop]. rewrite (proj2 (Z.leb_gt n 0)) by lia.
  rewrite os_pread_in by (unfold max_read; lia). rewrite Zlen_slice by lia.
  rewrite Z.sub_diag. cbn [u64].
  replace (drop (length (slice f off n)) (os_stale n)) with (@nil Z).
  - rewrite app_nil_r, Z.add_0_l. destruct (Z.to_nat n); simpl; by rewrite u64_small by lia.
  - symmetry. apply drop_ge. pose proof (Zlen_slice f off n Hoff Hn Hin).
    unfold Zlen in *. lia.
Qed.

Lemma readAt_in f n off :
  0 <= off -> 0 <= n <= max_read -> off + n <= Zlen f -> Zlen f < 2 ^ 63 ->
  readAt_ f n off = Ok (slice f off n).
Proof. intros Hoff Hn Hin Hf. unfold readAt_. by rewrite readAt_full. Qed.

Lemma makeMmapped_in fd off n :
  0 <= off -> 0 < n -> off + n <= Zlen fd -> Zlen fd < 2 ^ 63 ->
  exists b, makeMmappedBuffer fd off n = Ok b /\ Buffer_wf b /\ m_size b = n /\
    Buffer_content b = slice fd off n.
Proof.
  intros Hoff Hn Hin Hf. unfold makeMmappedBuffer. rewrite land_page by apply os_page_pow.
  pose proof os_page_pow as (k & Hk & Epage).
  assert (0 < os_page) by (rewrite Epage; apply Z.pow_pos_nonneg; lia).
  pose proof (Z.mod_pos_bound off os_page).
  pose proof (Z.mod_le off os_page).
  rewrite u64_small by lia. replace (off - (off - off mod os_page)) with (off mod os_page) by lia.
  autorewrite with uint. unfold mmapReadOnly.
  rewrite os_mmap_in; [|lia| |lia|lia].
  2: { rewrite Zminus_mod_idemp_r, Z.sub_diag. by rewrite Z.mod_0_l by lia. }
  simpl. unfold Buffer_new, SIZE_MAX. decide_bool. eexists. split; [done|].
  unfold Buffer_wf, Buffer_content, SIZE_MAX. simpl. rewrite Zlen_slice by lia.
  split_and!; try lia. rewrite slice_slice by lia. f_equal. lia.
Qed.

#[export] Program Instance FileReader_Spec : ReaderSpec FileReader := {
  r_content r := slice (fr_fhandle r) (fr_offset r) (fr_size r);
  r_wf := FileReader_wf;
}.
Next Obligation. intros r (?&?&?&?). simpl. by rewrite Zlen_slice. Qed.
Next Obligation. intros r (?&?&?&?). unfold SIZE_MAX. simpl. lia. Qed.
Next Obligation.
  intros [f o s] off n (?&?&?&?) ? [??] ?. simpl in *. unfold FileReader_read. simpl.
  unfold max_read in *. autorewrite with uint. decide_bool.
  destruct (Z.eqb_spec n 0) as [->|]; [done|].
  rewrite readAt_in by (unfold max_read; lia). rewrite slice_slice by lia. do 2 f_equal. lia.
Qed.
Next Obligation.
  intros [f o s] off n (?&?&?&?) ????. simpl in *. unfold FileReader_read. simpl.
  autorewrite with uint. destruct (Z.leb_spec off s); simpl; [|done]. by decide_bool.
Qed.
Next Obligation.
  intros [f o s] off (?&?&?&?) ?. simpl in *. unfold FileReader_get. simpl.
  autorewrite with uint. decide_bool. rewrite readAt_in by (unfold max_read; lia).
  simpl. rewrite nth_slice by lia. rewrite <- (Z.add_comm o off).
  change 0%nat with (Z.to_nat 0). rewrite nth_slice by lia. do 2 f_equal. lia.
Qed.
Next Obligation.
  intros [f o s] off n (?&?&?&?) ????. simpl in *. unfold FileReader_get_buffer. simpl.
  autorewrite with uint. decide_bool.
  destruct (makeMmapped_in f (off + o) n) as (b & Hb & ? & ? & Hc); [lia..|].
  exists b. rewrite Hb. rewrite slice_slice by lia. split_and!; auto. by rewrite (Z.add_comm o).
Qed.
Next Obligation.
  intros [f o s] off n (?&?&?&?) ???. simpl in *. unfold FileReader_sub_reader. simpl.
  autorewrite with uint. decide_bool. eexists. split; [done|].
  autorewrite with uint. simpl. rewrite slice_slice by lia.
  split; [|done]. split_and!; simpl; lia.
Qed.

(** The parts [equal_range] selects, once the first of them is reached. *)
Lemma Multi_read_tail off size l start :
  parts_ok start l -> 0 <= off -> off < start -> 0 <= size -> size <= max_read ->
  start < off + size -> off + size <= start + Zlen (parts_content l) ->
  start + Zlen (parts_content l) < 2 ^ 63 ->
  Multi_read_loop (take (range_upto (mkRange off (off + size)) l) l) start (off + size - start)
  = Ok (slice (parts_content l) 0 (off + size - start)).
Proof.
  unfold max_read. revert start. induction l as [|[rg p] l IH]; intros start.
  { change (Zlen (parts_content [])) with 0. lia. }
  cbn [parts_ok]. intros (-> & Hsz & Hne & Hl) ?????. rewrite parts_content_cons, Zlen_app.
  cbn [snd]. intros Hend Hmax. pose proof (Zlen_nonneg (parts_content l)).
  cbn [range_upto]. unfold less_range. cbn [rg_min rg_max].
  rewrite (proj2 (Z.ltb_lt off start)) by lia. rewrite (proj2 (Z.leb_gt (off + size) start)) by lia.
  cbn [andb take Multi_read_loop rg_min rg_max].
  autorewrite with uint. rewrite Hsz, Z.sub_diag.
  rewrite Z.sub_0_r. decide_bool.
  rewrite readAt_in by (unfold max_read; lia). cbn [mbind outcome_bind mret outcome_ret].
  destruct (Z.le_gt_cases (off + size - start) (Zlen (fp_fhandle p))).
  - rewrite Z.min_l by lia. autorewrite with uint.
    replace (off + size - start - (off + size - start)) with 0 by lia.
    replace (take (range_upto (mkRange off (off + size)) l) l) with (@nil (Range * FilePart)).
    + simpl. rewrite app_nil_r. by rewrite slice_app_l by lia.
    + destruct l as [|[rg' p'] l]; [done|]. simpl in Hl. destruct Hl as (-> & _).
      cbn [range_upto]. unfold less_range. cbn [rg_min rg_max]. by decide_bool.
  - rewrite Z.min_r by lia. autorewrite with uint.
    replace (off + size - start - Zlen (fp_fhandle p))
      with (off + size - (start + Zlen (fp_fhandle p))) by lia.
    rewrite IH by (auto; lia). cbn [mbind outcome_bind mret outcome_ret]. f_equal.
    replace (off + size - start) with (Zlen (fp_fhandle p) + (off + size - (start + Zlen (fp_fhandle p))))
      by lia.
    rewrite slice_split by lia. rewrite Z.add_0_l. rewrite slice_app_l by lia.
    rewrite slice_app_r by lia. by rewrite Z.sub_diag.
Qed.

(** The parts [equal_range] selects, from the first part of the archive. *)
Lemma Multi_read_parts off size l start :
  parts_ok start l -> 0 <= start -> start <= off -> 0 < size -> size <= max_read ->
  off + size <= start + Zlen (parts_content l) -> start + Zlen (parts_content l) < 2 ^ 63 ->
  Multi_read_loop
    (take (range_upto (mkRange off (off + size)) l - range_below (mkRange off (off + size)) l)
       (drop (range_below (mkRange off (off + size)) l) l)) off size
  = Ok (slice (parts_content l) (off - start) size).
Proof.
  intros Hl. revert start Hl. induction l as [|[rg p] l IH]; intros start.
  { change (Zlen (parts_content [])) with 0. lia. }
  intros Hp. pose proof Hp as Hparts. destruct Hparts as (-> & Hsz & Hne & Hl). intros ????.
  rewrite parts_content_cons, Zlen_app.
  cbn [snd]. intros Hend Hmax. pose proof (Zlen_nonneg (parts_content l)).
  destruct (Z.le_gt_cases (start + Zlen (fp_fhandle p)) off).
  - assert (E : less_range (mkRange start (start + Zlen (fp_fhandle p))) (mkRange off (off + size))
      = true) by (unfold less_range; cbn [rg_min rg_max]; by decide_bool).
    assert (E' : less_range (mkRange off (off + size)) (mkRange start (start + Zlen (fp_fhandle p)))
      = false) by (unfold less_range; cbn [rg_min rg_max]; by decide_bool).
    cbn [range_upto range_below]. rewrite E, E'. cbn [Nat.sub drop].
    rewrite (IH (start + Zlen (fp_fhandle p))) by (auto; lia).
    rewrite slice_app_r by lia. f_equal. f_equal. lia.
  - assert (E : less_range (mkRange start (start + Zlen (fp_fhandle p))) (mkRange off (off + size))
      = false) by (unfold less_range; cbn [rg_min rg_max];
                   rewrite (proj2 (Z.leb_gt (start + _) off)) by lia; apply andb_false_r).
    assert (E' : less_range (mkRange off (off + size)) (mkRange start (start + Zlen (fp_fhandle p)))
      = false) by (unfold less_range; cbn [rg_min rg_max]; by decide_bool).
    cbn [range_upto range_below]. rewrite E, E'. rewrite Nat.sub_0_r.
    cbn [drop take Multi_read_loop rg_min rg_max]. unfold max_read in *.
    autorewrite with uint. rewrite Hsz. decide_bool.
    rewrite readAt_in by (unfold max_read; lia). cbn [mbind outcome_bind mret outcome_ret].
      destruct (Z.le_gt_cases size (Zlen (fp_fhandle p) - (off - start))).
    + rewrite Z.min_l by lia. autorewrite with uint. rewrite Z.sub_diag.
      replace (take (range_upto (mkRange off (off + size)) l) l) with (@nil (Range * FilePart)).
      * simpl. rewrite app_nil_r. by rewrite slice_app_l by lia.
      * destruct l as [|[rg' p'] l]; [done|]. simpl in Hl. destruct Hl as (-> & _).
        cbn [range_upto]. unfold less_range. cbn [rg_min rg_max]. by decide_bool.
    + rewrite Z.min_r by lia. autorewrite with uint.
      replace (off + (Zlen (fp_fhandle p) - (off - start))) with (start + Zlen (fp_fhandle p)) by lia.
      replace (size - (Zlen (fp_fhandle p) - (off - start)))
        with (off + size - (start + Zlen (fp_fhandle p))) by lia.
      rewrite Multi_read_tail by (auto; unfold max_read; lia).
      cbn [mbind outcome_bind mret outcome_ret]. f_equal.
      replace (slice (fp_fhandle p ++ parts_content l) (off - start) size)
        with (slice (fp_fhandle p ++ parts_content l) (off - start)
               (Zlen (fp_fhandle p) - (off - start) + (off + size - (start + Zlen (fp_fhandle p)))))
        by (f_equal; lia).
      rewrite slice_split by lia. rewrite slice_app_l by lia. rewrite slice_app_r by lia.
      do 2 f_equal. lia.
Qed.

(** The part [lower_bound] finds holds the offset. *)
Lemma range_below_split off top l start :
  parts_ok start l -> start <= off -> off < start + Zlen (parts_content l) ->
  exists pre p post,
    let s := start + Zlen (parts_content pre) in
    l = pre ++ (mkRange s (s + Zlen (fp_fhandle p)), p) :: post /\
    range_below (mkRange off top) l = length pre /\
    s <= off < s + Zlen (fp_fhandle p) /\ fp_size p = Zlen (fp_fhandle p) /\
    parts_ok (s + Zlen (fp_fhandle p)) post.
Proof.
  revert start. induction l as [|[rg p] l IH]; intros start.
  { change (Zlen (parts_content [])) with 0. lia. }
  cbn [parts_ok]. intros (-> & Hsz & Hne & Hl) ?. rewrite parts_content_cons, Zlen_app.
  cbn [snd]. intros Hin. cbn [range_below]. unfold less_range. cbn [rg_min rg_max].
  destruct (Z.le_gt_cases (start + Zlen (fp_fhandle p)) off).
  - rewrite (proj2 (Z.ltb_lt start off)) by lia.
    rewrite (proj2 (Z.leb_le (start + _) off)) by lia. cbn [andb].
    destruct (IH (start + Zlen (fp_fhandle p))) as (pre & q & post & -> & Hb & Hs & Hq & Hp);
      [done|lia..|].
    exists ((mkRange start (start + Zlen (fp_fhandle p)), p) :: pre), q, post.
    rewrite parts_content_cons, Zlen_app, Z.add_assoc. cbn [snd]. cbn zeta in *.
    split_and!; auto; try lia. rewrite Hb. done.
  - rewrite (proj2 (Z.leb_gt (start + _) off)) by lia. rewrite andb_false_r.
    exists [], p, l. change (Zlen (parts_content [])) with 0. rewrite Z.add_0_r.
    cbn zeta. split_and!; auto; lia.
Qed.

Lemma range_upto_single off size pre rg p post start :
  let s := start + Zlen (parts_content pre) in
  parts_ok start (pre ++ (rg, p) :: post) -> 0 <= size -> s <= off ->
  off < s + Zlen (fp_fhandle p) ->
  off + size <= start + Zlen (parts_content (pre ++ (rg, p) :: post)) ->
  range_upto (mkRange off (off + size)) (pre ++ (rg, p) :: post) = S (length pre) ->
  off + size <= s + Zlen (fp_fhandle p).
Proof.
  cbn zeta. revert start. induction pre as [|[rg' p'] pre IH]; intros start.
  - change (Zlen (parts_content [])) with 0. rewrite Z.add_0_r. cbn [app parts_ok range_upto].
    intros (-> & Hsz & Hne & Hl) ? ? ?. rewrite parts_content_cons, Zlen_app. cbn [snd].
    unfold less_range at 1. cbn [rg_min rg_max]. rewrite (proj2 (Z.ltb_ge off start)) by lia.
    cbn [andb]. intros Hin [= E]. destruct post as [|[rg' p'] post].
    { change (Zlen (parts_content [])) with 0 in Hin. lia. }
    destruct Hl as (-> & _). cbn [range_upto] in E. unfold less_range in E.
    cbn [rg_min rg_max] in E. rewrite (proj2 (Z.ltb_lt off _)) in E by lia. cbn [andb] in E.
    destruct (Z.leb_spec (off + size) (start + Zlen (fp_fhandle p))); [lia|done].
  - cbn [app parts_ok range_upto].
    intros (-> & Hsz & Hne & Hl). rewrite !parts_content_cons, !Zlen_app. cbn [snd].
    pose proof (Zlen_nonneg (parts_content pre)). intros.
    unfold less_range in *. cbn [rg_min rg_max length] in *.
    rewrite (proj2 (Z.ltb_ge off start)) in * by lia. cbn [andb] in *.
    specialize (IH (start + Zlen (fp_fhandle p')) Hl ltac:(lia) ltac:(lia) ltac:(lia) ltac:(lia)
      ltac:(congruence)). lia.
Qed.

Lemma parts_content_app l k : parts_content (l ++ k) = parts_content l ++ parts_content k.
Proof. unfold parts_content. by rewrite map_app, concat_app. Qed.

Lemma slice_part pre rg p post off n :
  Zlen (parts_content pre) <= off -> 0 <= n ->
  off + n <= Zlen (parts_content pre) + Zlen (fp_fhandle p) ->
  slice (parts_content (pre ++ (rg, p) :: post)) off n
  = slice (fp_fhandle p) (off - Zlen (parts_content pre)) n.
Proof.
  intros. rewrite parts_content_app, parts_content_cons. cbn [snd].
  rewrite slice_app_r by lia. by rewrite slice_app_l by lia.
Qed.

#[export] Program Instance Multi_Spec : ReaderSpec MultiPartFileReader := {
  r_content r := slice (parts_content (fc_parts (mp_source r))) (mp_offset r) (mp_size r);
  r_wf := Multi_wf;
}.
Next Obligation. intros [[l fn fs] o s] (?&?&(?&?&?)&?). simpl in *. by rewrite Zlen_slice by lia. Qed.
Next Obligation. intros [[l fn fs] o s] (?&?&(?&?&?)&?). unfold SIZE_MAX. simpl in *. lia. Qed.
Next Obligation.
  intros [[l fn fs] o s] off n (?&?&(?&?&?)&?) ? [??] ?. simpl in *. unfold Multi_read. simpl.
  unfold max_read in *. autorewrite with uint. decide_bool.
  destruct (Z.eqb_spec n 0) as [->|]; [done|].
  unfold locate_range. cbn [fc_parts]. autorewrite with uint.
  rewrite (Multi_read_parts _ _ _ 0) by (auto; unfold max_read; lia).
  rewrite slice_slice by lia. do 2 f_equal. lia.
Qed.
Next Obligation.
  intros [[l fn fs] o s] off n (?&?&(?&?&?)&?) ????. simpl in *. unfold Multi_read. simpl.
  autorewrite with uint. destruct (Z.leb_spec off s); simpl; [|done]. by decide_bool.
Qed.
Next Obligation.
  intros [[l fn fs] o s] off (?&?&(Hp&?&?)&?) ?. simpl in *. unfold Multi_get. simpl.
  autorewrite with uint. decide_bool. unfold locate. cbn [fc_parts].
  destruct (range_below_split (off + o) (off + o) l 0) as (pre & p & post & Hl & Hb & Hin & Hsz & _);
    [done|lia..|]. cbn zeta in *. rewrite Hb, Hl, drop_app_length. cbn [fst snd rg_min rg_max].
  rewrite bool_decide_true by done. cbn [ASSERT mbind outcome_bind mret outcome_ret].
  rewrite Z.add_0_l in *. pose proof (Zlen_nonneg (parts_content pre)).
  assert (Zlen (parts_content pre) + Zlen (fp_fhandle p) <= fs).
  { replace fs with (Zlen (parts_content l)) by done.
    rewrite Hl, parts_content_app, parts_content_cons, !Zlen_app. cbn [snd].
    pose proof (Zlen_nonneg (parts_content post)). lia. }
  cbn zeta. cbn [rg_min rg_max]. rewrite ?off_add_small by lia. rewrite off_sub_small by lia. decide_bool.
  rewrite readAt_in by (unfold max_read; lia). cbn [mbind outcome_bind mret outcome_ret]. f_equal.
  rewrite nth_slice by lia. rewrite (Z.add_comm o off).
  change 0%nat with (Z.to_nat 0). rewrite nth_slice by lia. rewrite Z.add_0_r.
  transitivity (nth 0 (slice (fp_fhandle p) (off + o - Zlen (parts_content pre)) 1) 0).
  { change 0%nat with (Z.to_nat 0). rewrite nth_slice by lia. f_equal. lia. }
  rewrite <- (slice_part pre (mkRange 0 0) p post) by lia.
  change 0%nat with (Z.to_nat 0). rewrite nth_slice by lia. rewrite Z.add_0_r.
  unfold parts_content. by rewrite !map_app.
Qed.
Next Obligation.
  intros [[l fn fs] o s] off n (?&?&(Hp&Hfs&?)&?) ? ? ? ?. simpl in *. unfold Multi_get_buffer. simpl.
  unfold locate_range. cbn [fc_parts]. rewrite (proj2 (Z.leb_le n s)) by lia.
  cbn [ASSERT mbind outcome_bind mret outcome_ret]. unfold max_read in *. autorewrite with uint.
  destruct (range_below_split (o + off) (o + off + n) l 0) as (pre & p & post & Hl & Hb & Hin & Hsz & _);
    [done|lia..|]. cbn zeta in *. rewrite Z.add_0_l in *. pose proof (Zlen_nonneg (parts_content pre)).
  rewrite Hb. assert (Hd : drop (length pre) l
    = (mkRange (Zlen (parts_content pre)) (Zlen (parts_content pre) + Zlen (fp_fhandle p)), p) :: post)
    by (rewrite Hl; apply drop_app_length).
  rewrite Hd. case_bool_decide as Hone.
  - rewrite Hl in Hp, Hone, Hfs.
    pose proof (range_upto_single (o + off) n _ _ _ _ 0 Hp) as Hup. rewrite Z.add_0_l in Hup.
    specialize (Hup ltac:(lia) ltac:(lia) ltac:(lia) ltac:(rewrite Z.add_0_l, <- Hfs; lia)
      ltac:(symmetry; exact Hone)).
    assert (Zlen (fp_fhandle p) <= fs).
    { rewrite Hfs, parts_content_app, parts_content_cons, !Zlen_app. cbn [snd].
      pose proof (Zlen_nonneg (parts_content post)). lia. }
    cbn zeta. cbn [rg_min]. rewrite ?off_add_small by lia. rewrite off_sub_small by lia. decide_bool.
    destruct (makeMmapped_in (fp_fhandle p) (off + o - Zlen (parts_content pre)) n)
      as (b & Eb & ? & ? & Ec); [lia..|].
    exists b. rewrite Eb. split_and!; auto. rewrite Ec, slice_slice by lia.
    rewrite Hl, slice_part by lia. f_equal. lia.
  - unfold Multi_copy, Multi_read. cbn [mp_size mp_source mp_offset].
    autorewrite with uint. decide_bool.
    unfold locate_range. cbn [fc_parts]. autorewrite with uint.
    rewrite (Multi_read_parts _ _ _ 0) by (auto; unfold max_read; lia).
    cbn [mbind outcome_bind mret outcome_ret]. unfold Buffer_filled, Buffer_new, SIZE_MAX.
    decide_bool. eexists. split; [done|]. rewrite Z.sub_0_r.
    unfold Buffer_wf, Buffer_content, SIZE_MAX. simpl. rewrite Zlen_slice by lia.
    split_and!; try lia. rewrite !slice_slice by lia. f_equal. lia.
Qed.
Next Obligation.
  intros [[l fn fs] o s] off n (?&?&(?&?&?)&?) ???. simpl in *. unfold Multi_sub_reader, Multi_new. simpl.
  autorewrite with uint. decide_bool. eexists. split; [done|].
  simpl. rewrite slice_slice by lia.
  split; [|done]. split_and!; simpl; auto; try lia. by split_and!.
Qed.

#[export] Program Instance AnyReader_Spec : ReaderSpec AnyReader := {
  r_content r := match r with
    | ABuffer r => r_content r | AFile r => r_content r | AMulti r => r_content r end;
  r_wf r := match r with
    | ABuffer r => r_wf r | AFile r => r_wf r | AMulti r => r_wf r end;
}.
Next Obligation. intros [r|r|r]; apply (r_size_content r). Qed.
Next Obligation. intros [r|r|r]; apply (r_size_bound r). Qed.
Next Obligation. intros [r|r|r]; apply (r_read_in r). Qed.
Next Obligation. intros [r|r|r]; apply (r_read_out r). Qed.
Next Obligation. intros [r|r|r]; apply (r_get_in r). Qed.
Next Obligation. intros [r|r|r]; apply (r_buffer_in r). Qed.
Next Obligation.
  intros [r|r|r] off n Hr ???;
    destruct (r_sub_in r off n) as (r' & E & ? & ?); auto;
    eexists; (split; [cbn [r_sub_reader AnyReader_Reader]; rewrite E; done|]; split; done).
Qed.

(** ** Opening a split archive *)

Lemma range_emplace_last l start p :
  parts_ok start l -> 0 < Zlen (fp_fhandle p) ->
  let s := start + Zlen (parts_content l) in
  range_emplace (mkRange s (s + Zlen (fp_fhandle p))) p l
  = l ++ [(mkRange s (s + Zlen (fp_fhandle p)), p)].
Proof.
  cbn zeta. revert start. induction l as [|[rg q] l IH]; intros start; [done|].
  cbn [parts_ok range_emplace app]. intros (-> & _ & Hq & Hl) Hp.
  rewrite parts_content_cons, Zlen_app. cbn [snd]. pose proof (Zlen_nonneg (parts_content l)).
  unfold less_range at 1. cbn [rg_min rg_max]. decide_bool. f_equal.
  rewrite Z.add_assoc. by apply IH.
Qed.

Lemma parts_ok_app l k start :
  parts_ok start (l ++ k) <-> parts_ok start l /\ parts_ok (start + Zlen (parts_content l)) k.
Proof.
  revert start. induction l as [|[rg q] l IH]; intros start; cbn [app parts_ok].
  - change (Zlen (parts_content [])) with 0. rewrite Z.add_0_r. tauto.
  - rewrite IH, parts_content_cons, Zlen_app, Z.add_assoc. cbn [snd]. tauto.
Qed.

Lemma addPart_ok c name f :
  fc_ok c -> 0 < Zlen f -> fc_fsize c + Zlen f < 2 ^ 63 ->
  fc_ok (addPart c (mkFilePart name f (Zlen f))) /\
  parts_content (fc_parts (addPart c (mkFilePart name f (Zlen f)))) = parts_content (fc_parts c) ++ f.
Proof.
  destruct c as [l fn fs]. unfold fc_ok. cbn [fc_parts fc_fsize]. intros (Hp & -> & Hb) Hf Hs.
  pose proof (Zlen_nonneg (parts_content l)).
  unfold addPart. cbn [fc_parts fc_fsize fp_size fc_filename]. rewrite off_add_small by lia.
  pose proof (range_emplace_last l 0 (mkFilePart name f (Zlen f)) Hp Hf) as E.
  cbn zeta in E. rewrite Z.add_0_l in E. cbn [fp_fhandle] in E. rewrite E.
  rewrite parts_content_app, parts_content_cons, Zlen_app. cbn [snd fp_fhandle].
  change (parts_content []) with (@nil Z). rewrite app_nil_r. split_and!; try done; try lia.
  apply parts_ok_app. rewrite Z.add_0_l. split; [done|]. cbn [parts_ok fp_fhandle fp_size]. auto.
Qed.

Lemma addParts_ok name fs sfx c :
  fc_ok c -> fc_fsize c + Zlen (concat fs) < 2 ^ 63 ->
  (length fs <= length sfx)%nat ->
  (forall i f s, fs !! i = Some f -> sfx !! i = Some s -> os_open (name ++ s) = Some f) ->
  (forall s, sfx !! length fs = Some s -> os_open (name ++ s) = None) ->
  Forall (fun f => 0 < Zlen f) fs ->
  fc_ok (addParts c name sfx) /\
  parts_content (fc_parts (addParts c name sfx)) = parts_content (fc_parts c) ++ concat fs.
Proof.
  revert sfx c. induction fs as [|f fs IH]; intros sfx c Hc Hs Hlen Hopen Hlast Hne.
  - rewrite app_nil_r. destruct sfx as [|s sfx]; [done|]. cbn [addParts].
    unfold FilePart_new, openFile. by rewrite (Hlast s).
  - destruct sfx as [|s sfx]; [simpl in Hlen; lia|]. inversion Hne; subst.
    cbn [concat] in Hs |- *. rewrite Zlen_app in Hs. pose proof (Zlen_nonneg (concat fs)).
    cbn [addParts]. unfold FilePart_new, openFile. rewrite (Hopen 0%nat f s) by done.
    cbn [mbind outcome_bind mret outcome_ret]. unfold getSize.
    destruct (addPart_ok c (name ++ s) f) as [Hok Hcont]; [done|done|lia|].
    destruct (IH sfx (addPart c (mkFilePart (name ++ s) f (Zlen f)))) as [Hok2 Hcont2].
    + done.
    + destruct Hok as (_ & -> & _). rewrite Hcont, Zlen_app. destruct Hc as (_ & <- & _). lia.
    + simpl in Hlen. lia.
    + intros i g t ??. by apply (Hopen (S i)).
    + intros t ?. by apply Hlast.
    + done.
    + split; [done|]. rewrite Hcont2, Hcont. by rewrite app_assoc.
Qed.

End file_facts.

(** * A concrete operating system *)

(** Files given by name; at most [m] bytes per [pread], pages of 4096 bytes. *)
Definition os_of (files : list (bytes * bytes)) (m : Z) : OS := {|
  os_open name := (fun p => p.2.2) <$> list_find (fun p => p.1 = name) files;
  os_pread f n off := Some (slice f off (Z.min n m));
  os_mmap f off n := if n <=? 0 then None else Some (slice f off n);
  os_page := 4096;
  os_stale n := repeat 170 (Z.to_nat n);
|}.

Lemma os_of_spec files :
  Forall (fun p => Zlen p.2 < 2 ^ 63) files -> @OSSpec (os_of files max_read).
Proof.
  intros Hf. constructor; cbn.
  - intros. by rewrite Z.min_l by lia.
  - intros. by decide_bool.
  - by exists 12.
  - intros n ?. unfold Zlen. rewrite repeat_length. lia.
  - intros name f E. destruct (list_find _ files) as [[i p]|] eqn:El; [|done].
    injection E as <-. apply list_find_Some in El as (El & _ & _).
    eapply Forall_lookup_1 in Hf; eauto.
Qed.

(** * Properties *)

Section properties.
Context `{OSSpec}.

(** C28. Opening [name] when only [name ++ "aa"], [name ++ "ab"], ... exist gives
    an archive that is the concatenation of those files: the compound and its
    reader are well formed, [read] and [get_buffer] of any range inside it return
    the bytes of the concatenation whatever parts the range spans, and a [read]
    that is not inside is refused. *)
Theorem split_archive_reads name fs :
  os_open name = None -> fs <> [] -> (length fs <= 676)%nat ->
  (forall i f s, fs !! i = Some f -> part_suffixes !! i = Some s -> os_open (name ++ s) = Some f) ->
  (forall s, part_suffixes !! length fs = Some s -> os_open (name ++ s) = None) ->
  Forall (fun f => 0 < Zlen f) fs -> Zlen (concat fs) < 2 ^ 63 ->
  exists c r,
    FileCompound_new name = Ok c /\ fc_fsize c = Zlen (concat fs) /\ Multi_whole c = Ok r /\
    (forall off n, 0 <= off -> 0 <= n <= max_read -> off + n <= Zlen (concat fs) ->
       r_read r off n = Ok (slice (concat fs) off n)) /\
    (forall off n, 0 <= off -> 0 < n -> n <= max_read -> off + n <= Zlen (concat fs) ->
       exists b, r_get_buffer r off n = Ok b /\ Buffer_content b = slice (concat fs) off n) /\
    (forall off n, 0 <= off -> 0 <= n -> off + n < 2 ^ 64 -> Zlen (concat fs) < off + n ->
       r_read r off n = Throw assertion_failed).
Proof.
  intros Hnone Hne Hlen Hopen Hlast Hnz Hsz.
  destruct (addParts_ok name fs part_suffixes (mkFileCompound [] name 0)) as [Hok Hcont]; auto.
  { split_and!; done. }
  set (c := addParts (mkFileCompound [] name 0) name part_suffixes) in *.
  assert (Hfs : fc_fsize c = Zlen (concat fs)) by (destruct Hok as (_ & -> & _); by rewrite Hcont).
  assert (Hwf : r_wf (mkMulti c 0 (fc_fsize c))).
  { rewrite Hfs. pose proof (Zlen_nonneg (concat fs)). split_and!; simpl; auto; lia. }
  assert (Hc : r_content (mkMulti c 0 (fc_fsize c)) = concat fs).
  { simpl. rewrite Hfs, Hcont. apply slice_all. }
  exists c, (mkMulti c 0 (fc_fsize c)). split_and!; auto.
  - unfold FileCompound_new, FilePart_new, openFile. rewrite Hnone.
    cbn [mbind outcome_bind]. fold c. replace (fc_fail c) with false; [done|].
    unfold fc_fail. destruct (fc_parts c) eqn:E; [|done].
    change (parts_content []) with (@nil Z) in Hcont. simpl in Hcont.
    destruct fs as [|f fs]; [done|]. inversion Hnz; subst. destruct f; [|done].
    change (Zlen []) with 0 in *. lia.
  - unfold Multi_whole, Multi_new. rewrite Hfs. pose proof (Zlen_nonneg (concat fs)).
    simpl. rewrite u64_small by lia. by decide_bool.
  - intros. rewrite r_read_in by (auto; cbn [r_size Multi_Reader mp_size]; lia). by rewrite Hc.
  - intros off n ????.
    destruct (r_buffer_in (mkMulti c 0 (fc_fsize c)) off n) as (b & Eb & _ & _ & E); auto.
    { cbn [r_size Multi_Reader mp_size]. lia. }
    exists b. rewrite Eb, E, Hc. done.
  - intros. apply r_read_out; auto. cbn [r_size Multi_Reader mp_size]. lia.
Qed.

End properties.

Section pread_properties.
Context `{OS}.

(** When [pread] returns a first chunk of [m] bytes and then the rest (as it
    may: Linux never transfers more than [max_read] bytes), [FD::readAt] reports
    that all [n] bytes were read but stores the second chunk over the first one
    at the start of the destination, and leaves the end of it as it was. *)
Theorem readAt_short_read f dest m n off :
  os_pread f n off = Some (slice f off m) ->
  os_pread f (n - m) (off + m) = Some (slice f (off + m) (n - m)) ->
  0 <= off -> 0 < m < n -> n - m <= m -> off + n <= Zlen f -> Zlen f < 2 ^ 63 -> Zlen dest = n ->
  readAt f dest n off =
    Ok (n, slice f (off + m) (n - m) ++ slice f (off + (n - m)) (2 * m - n) ++ slice dest m (n - m)).
Proof.
  intros E1 E2 ? ? ? ? ? Hd. unfold readAt.
  destruct (Z.to_nat n) as [|[|k]] eqn:Ek; [lia|lia|].
  cbn [readAt_loop]. rewrite (proj2 (Z.leb_gt n 0)) by lia. rewrite E1.
  rewrite Zlen_slice by lia. rewrite !u64_small by lia.
  rewrite (proj2 (Z.leb_gt (n - m) 0)) by lia. rewrite E2. rewrite Zlen_slice by lia.
  rewrite Z.sub_diag. change (u64 0 <=? 0) with true. cbn [mret outcome_ret].
  replace (0 + m + (n - m)) with n by lia. rewrite u64_small by lia. do 2 f_equal.
  assert (L1 : length (slice f off m) = Z.to_nat m)
    by (pose proof (Zlen_slice f off m); unfold Zlen in *; lia).
  assert (L2 : length (slice f (off + m) (n - m)) = Z.to_nat (n - m))
    by (pose proof (Zlen_slice f (off + m) (n - m)); unfold Zlen in *; lia).
  rewrite L1, L2. f_equal. rewrite drop_app_le by (rewrite L1; lia). f_equal.
  - unfold slice. rewrite skipn_firstn_comm, drop_drop. do 2 f_equal; lia.
  - unfold slice. symmetry. apply take_ge. rewrite length_drop. unfold Zlen in Hd. lia.
Qed.

(** At the end of the file [pread] returns 0 bytes and the loop of
    [FD::readAt] makes no progress: no amount of fuel lets it return. *)
Theorem readAt_eof_diverges f dest n off fuel :
  os_pread f n off = Some [] -> 0 < n < 2 ^ 64 -> 0 <= off < 2 ^ 64 ->
  forall full, readAt_loop fuel f dest n off full = Diverge.
Proof.
  intros E ??. induction fuel as [|fuel IH]; intros full; cbn [readAt_loop];
    rewrite (proj2 (Z.leb_gt n 0)) by lia; [done|].
  rewrite E. change (Zlen []) with 0. rewrite Z.sub_0_r, !Z.add_0_r.
  rewrite !u64_small by lia. cbn [length app drop]. apply IH.
Qed.

End pread_properties.

(** * Witnesses *)

Definition two_parts : OS := os_of [(lit "zaa", [1; 2; 3]); (lit "zab", [4; 5])] max_read.

Lemma two_parts_spec : @OSSpec two_parts.
Proof. apply os_of_spec. repeat constructor. Qed.

Lemma split_archive_reads_witness :
  exists c r, @FileCompound_new two_parts (lit "z") = Ok c /\ Multi_whole c = Ok r /\
    @r_read _ (@Multi_Reader two_parts) r 1 3 = Ok [2; 3; 4].
Proof.
  destruct (@split_archive_reads two_parts two_parts_spec (lit "z") [[1; 2; 3]; [4; 5]])
    as (c & r & E1 & _ & E2 & E3 & _).
  - vm_compute. reflexivity.
  - discriminate.
  - simpl. lia.
  - intros [|[|i]] f s E1 E2; vm_compute in E1, E2; simplify_eq; vm_compute; reflexivity.
  - intros s E. vm_compute in E. simplify_eq. vm_compute. reflexivity.
  - repeat constructor.
  - vm_compute. reflexivity.
  - exists c, r. split; [exact E1|]. split; [exact E2|].
    rewrite E3; [reflexivity|lia|unfold max_read; lia|vm_compute; congruence].
Defined.

Lemma readAt_short_read_witness :
  @readAt (os_of [] 3) [1; 2; 3; 4; 5] [0; 0; 0; 0; 0] 5 0 = Ok (5, [4; 5; 3; 0; 0]).
Proof.
  rewrite (@readAt_short_read (os_of [] 3) [1; 2; 3; 4; 5] [0; 0; 0; 0; 0] 3 5 0);
    try reflexivity; try lia; vm_compute; congruence.
Defined.

Lemma readAt_eof_diverges_witness : @readAt (os_of [] 3) [1; 2] [0; 0] 2 2 = Diverge.
Proof.
  apply (@readAt_eof_diverges (os_of [] 3) [1; 2] [0; 0] 2 2 3); [reflexivity|lia|lia].
Defined.
