(* ===== verification/Compression.v ===== *)
(** The compression back ends and their drivers ([compression.h],
    [compression.cpp]).

    liblzma and libzstd are parameters ([LzmaLib], [ZstdLib]): one call of the
    library takes the available input and the available output space and says
    how much it consumed and what it wrote. [LZMA_INFO] and [ZSTD_INFO] turn
    their results into a [CompStatus]; [Uncompressor] and [Compressor] drive
    them with an output buffer that doubles when it is full. *)

From stdpp Require Import strings.
From S2P Require Import Prelude.
From S2P Require Import Types.
From S2P Require Import Readers.

Inductive CompStep : Type := STEP | FINISH.
Inductive CompStatus : Type := CS_OK | STREAM_END | BUF_ERROR | OTHER.
Inductive RunnerStatus : Type := RS_OK | NEED_MORE | RS_ERROR.

#[export] Instance CompStatus_eq_dec : EqDecision CompStatus.
Proof. solve_decision. Defined.
#[export] Instance CompStep_eq_dec : EqDecision CompStep.
Proof. solve_decision. Defined.
#[export] Instance RunnerStatus_eq_dec : EqDecision RunnerStatus.
Proof. solve_decision. Defined.

(** * Streams

    [stream_t]: the input not consumed yet ([avail_in] is its length), the space
    left in the output buffer, the bytes written so far to the output since
    [next_out] was last set, their total, and the library's own state. *)

Record stream_t (S : Type) : Type := mkStream {
  next_in : bytes;
  avail_out : Z;
  written : bytes;
  total_out : Z;
  lib : S;
}.
Arguments mkStream {S}.
Arguments next_in {S}.
Arguments avail_out {S}.
Arguments written {S}.
Arguments total_out {S}.
Arguments lib {S}.

Definition avail_in {S} (s : stream_t S) : Z := Zlen (next_in s).

Definition with_in {S} (s : stream_t S) (data : bytes) : stream_t S :=
  mkStream data (avail_out s) (written s) (total_out s) (lib s).
Definition with_out {S} (s : stream_t S) (space : Z) : stream_t S :=
  mkStream (next_in s) space (written s) (total_out s) (lib s).

(** What a library call does to a stream: it consumed [c] bytes, wrote [o]. *)
Definition advance {S} (s : stream_t S) (c : Z) (o : bytes) (l : S) : stream_t S :=
  mkStream (drop (Z.to_nat c) (next_in s)) (avail_out s - Zlen o) (written s ++ o)
    (total_out s + Zlen o) l.

(** The interface the drivers are templates over. *)
Class INFO : Type := {
  istate : Type;
  info_name : string;
  init_stream_decoder : outcome istate;
  init_stream_encoder : outcome istate;
  stream_run_encode : stream_t istate -> CompStep -> outcome (CompStatus * stream_t istate);
  stream_run_decode : stream_t istate -> CompStep -> outcome (CompStatus * stream_t istate);
}.

(** ** LZMA *)

Inductive lzma_ret : Type := LZMA_OK | LZMA_STREAM_END | LZMA_BUF_ERROR | LZMA_OTHER.

Class LzmaLib : Type := {
  lzma_state : Type;
  lzma_stream_decoder : option lzma_state;
  lzma_easy_encoder : option lzma_state;
  (** [lzma_code]: result, bytes consumed, bytes written, new state. *)
  lzma_code : lzma_state -> bytes -> Z -> CompStep -> lzma_ret * Z * bytes * lzma_state;
}.

Section lzma.
Context `{LzmaLib}.

Definition LZMA_init_stream_decoder : outcome lzma_state :=
  match lzma_stream_decoder with
  | None => Throw (runtime_error "Impossible to allocated needed memory to uncompress lzma stream")
  | Some s => mret s
  end.

Definition LZMA_init_stream_encoder : outcome lzma_state :=
  match lzma_easy_encoder with
  | None => Throw (runtime_error "Cannot initialize lzma_easy_encoder")
  | Some s => mret s
  end.

Definition LZMA_stream_run (stream : stream_t lzma_state) (step : CompStep) :
    outcome (CompStatus * stream_t lzma_state) :=
  let '(errcode, c, o, l) := lzma_code (lib stream) (next_in stream) (avail_out stream) step in
  let stream := advance stream c o l in
  mret (match errcode with
        | LZMA_BUF_ERROR => BUF_ERROR
        | LZMA_STREAM_END => STREAM_END
        | LZMA_OK => CS_OK
        | LZMA_OTHER => OTHER
        end, stream).

Definition LZMA_INFO : INFO := {|
  istate := lzma_state;
  info_name := "lzma";
  init_stream_decoder := LZMA_init_stream_decoder;
  init_stream_encoder := LZMA_init_stream_encoder;
  stream_run_encode := LZMA_stream_run;
  stream_run_decode := LZMA_stream_run;
|}.

End lzma.

(** ** Zstandard *)

Class ZstdLib : Type := {
  ZSTD_stream : Type;
  ZSTD_initCStream : option ZSTD_stream;
  ZSTD_initDStream : option ZSTD_stream;
  ZSTD_isError : Z -> bool;
  (** Result code, [inBuf.pos], the bytes written up to [outBuf.pos], state. *)
  ZSTD_compressStream : ZSTD_stream -> bytes -> Z -> Z * Z * bytes * ZSTD_stream;
  ZSTD_endStream : ZSTD_stream -> Z -> Z * bytes * ZSTD_stream;
  ZSTD_decompressStream : ZSTD_stream -> bytes -> Z -> Z * Z * bytes * ZSTD_stream;
}.

Section zstd.
Context `{ZstdLib}.

Definition ZSTD_init_stream_decoder : outcome ZSTD_stream :=
  match ZSTD_initDStream with
  | None => Throw (runtime_error "Failed to initialize Zstd decompression")
  | Some s => mret s
  end.

Definition ZSTD_init_stream_encoder : outcome ZSTD_stream :=
  match ZSTD_initCStream with
  | None => Throw (runtime_error "Failed to initialize Zstd compression")
  | Some s => mret s
  end.

Definition ZSTD_stream_run_encode (stream : stream_t ZSTD_stream) (step : CompStep) :
    outcome (CompStatus * stream_t ZSTD_stream) :=
  let '(ret, pos, out, l) :=
    match step with
    | STEP => ZSTD_compressStream (lib stream) (next_in stream) (avail_out stream)
    | FINISH => let '(ret, out, l) := ZSTD_endStream (lib stream) (avail_out stream) in (ret, 0, out, l)
    end in
  let stream := advance stream pos out l in
  if ZSTD_isError ret then mret (OTHER, stream)
  else match step with
  | STEP =>
      if negb (avail_in stream =? 0) then
        ASSERT (avail_out stream =? 0) ;;
        mret (BUF_ERROR, stream)
      else mret (CS_OK, stream)
  | FINISH => if 0 <? ret then mret (BUF_ERROR, stream) else mret (CS_OK, stream)
  end.

Definition ZSTD_stream_run_decode (stream : stream_t ZSTD_stream) (step : CompStep) :
    outcome (CompStatus * stream_t ZSTD_stream) :=
  let '(ret, pos, out, l) :=
    ZSTD_decompressStream (lib stream) (next_in stream) (avail_out stream) in
  let stream := advance stream pos out l in
  if ZSTD_isError ret then mret (OTHER, stream)
  else if ret =? 0 then mret (STREAM_END, stream)
  else mret (BUF_ERROR, stream).

Definition ZSTD_INFO : INFO := {|
  istate := ZSTD_stream;
  info_name := "zstd";
  init_stream_decoder := ZSTD_init_stream_decoder;
  init_stream_encoder := ZSTD_init_stream_encoder;
  stream_run_encode := ZSTD_stream_run_encode;
  stream_run_decode := ZSTD_stream_run_decode;
|}.

End zstd.

(** * [Uncompressor] and [Compressor]

    The driver keeps the size of its output buffer; the bytes in it are those
    the stream has written. *)

Section drivers.
Context `{INFO}.

Record Runner : Type := mkRunner {
  data_size : Z;
  stream : stream_t istate;
}.

(** Doubles the buffer: the written bytes are copied, the rest is free. *)
Definition grow (r : Runner) : Runner :=
  let data_size := u64 (data_size r * 2) in
  mkRunner data_size (with_out (stream r) (u64 (data_size - total_out (stream r)))).

Definition Uncompressor_init (initial_size : Z) : outcome Runner :=
  l ← init_stream_decoder;
  mret (mkRunner initial_size (mkStream [] initial_size [] 0 l)).

Fixpoint Uncompressor_loop (fuel : nat) (r : Runner) (step : CompStep) :
    outcome (RunnerStatus * Runner) :=
  match fuel with
  | O => Diverge
  | S fuel =>
      '(errcode, s) ← stream_run_decode (stream r) step;
      let r := mkRunner (data_size r) s in
      match errcode with
      | BUF_ERROR =>
          if (avail_in s =? 0) && negb (avail_out s =? 0) then mret (NEED_MORE, r)
          else Uncompressor_loop fuel (grow r) step
      | STREAM_END => mret (RS_OK, r)
      | CS_OK => if avail_in s =? 0 then mret (NEED_MORE, r) else Uncompressor_loop fuel r step
      | OTHER => mret (RS_ERROR, r)
      end
  end.

Definition Uncompressor_feed (fuel : nat) (r : Runner) (data : bytes) (step : CompStep) :
    outcome (RunnerStatus * Runner) :=
  Uncompressor_loop fuel (mkRunner (data_size r) (with_in (stream r) data)) step.

(** [get_data]: the bytes of the result, which [*size] measures. *)
Definition Uncompressor_get_data (fuel : nat) (r : Runner) : outcome bytes :=
  '(_, r) ← Uncompressor_feed fuel r [] FINISH;
  mem_read (written (stream r)) 0 (total_out (stream r)).

Definition CHUNCK_SIZE : Z := 1024.

(** The loop of [uncompress] over the chunks of the input. *)
Fixpoint uncompress_loop `{Reader R} (fuel inner : nat) (reader : R) (startOffset availableSize : Z)
    (ret : RunnerStatus) (r : Runner) : outcome Runner :=
  match fuel with
  | O => Diverge
  | S fuel =>
      match ret with
      | RS_OK => mret r
      | _ =>
          '(startOffset, availableSize, ret, r) ←
            (if bool_decide (ret = NEED_MORE) && negb (availableSize =? 0) then
               let inputSize := Z.min availableSize CHUNCK_SIZE in
               raw_data ← r_read reader startOffset inputSize;
               '(ret, r) ← Uncompressor_feed inner r raw_data STEP;
               mret (u64 (startOffset + inputSize), u64 (availableSize - inputSize), ret, r)
             else mret (startOffset, availableSize, ret, r));
          match ret with
          | RS_ERROR => Throw (ZimFileFormatError ("Invalid " +:+ info_name +:+ " stream for cluster."))
          | _ => uncompress_loop fuel inner reader startOffset availableSize ret r
          end
      end
  end.

Definition uncompress `{Reader R} (fuel inner : nat) (reader : R) (startOffset : Z) : outcome bytes :=
  runner ← Uncompressor_init (1024 * 1024);
  runner ← uncompress_loop fuel inner reader startOffset (u64 (r_size reader - startOffset))
             NEED_MORE runner;
  Uncompressor_get_data inner runner.

Definition Compressor_init (initial_size : Z) : outcome Runner :=
  l ← init_stream_encoder;
  mret (mkRunner initial_size (mkStream [] initial_size [] 0 l)).

Fixpoint Compressor_loop (fuel : nat) (r : Runner) (step : CompStep) :
    outcome (RunnerStatus * Runner) :=
  match fuel with
  | O => Diverge
  | S fuel =>
      '(errcode, s) ← stream_run_encode (stream r) step;
      let r := mkRunner (data_size r) s in
      if (avail_out s =? 0) && bool_decide (errcode = CS_OK) then Compressor_loop fuel r step
      else if (avail_out s =? 0) && bool_decide (errcode = BUF_ERROR) then
        Compressor_loop fuel (grow r) step
      else if bool_decide (errcode = STREAM_END) || bool_decide (errcode = CS_OK) then
        mret (NEED_MORE, r)
      else mret (RS_ERROR, r)
  end.

Definition Compressor_feed (fuel : nat) (r : Runner) (data : bytes) (step : CompStep) :
    outcome (RunnerStatus * Runner) :=
  Compressor_loop fuel (mkRunner (data_size r) (with_in (stream r) data)) step.

Definition Compressor_get_data (fuel : nat) (r : Runner) : outcome bytes :=
  '(_, r) ← Compressor_feed fuel r [] FINISH;
  mem_read (written (stream r)) 0 (total_out (stream r)).

End drivers.

(** * The contract of a decoder

    [decodes l inp out]: in state [l], the input [inp], however it is cut into
    calls, makes the library produce [out]. One call consumes part of the input
    it is given, writes a part of the output that fits, reports no error, and
    makes progress when it has output space, output to produce, and either
    input in this call or no input left at all. *)

Class DecoderSpec `{INFO} : Type := {
  decodes : istate -> bytes -> bytes -> Prop;
  decode_run s step inp out :
    decodes (lib s) (next_in s ++ inp) out -> 0 <= avail_out s ->
    exists st c o l out',
      stream_run_decode s step = Ok (st, advance s c o l) /\
      0 <= c <= avail_in s /\ Zlen o <= avail_out s /\ out = o ++ out' /\
      decodes l (drop (Z.to_nat c) (next_in s) ++ inp) out' /\
      (0 < avail_out s -> out <> [] -> next_in s <> [] \/ inp = [] -> 0 < c + Zlen o);
}.

(** * Lemmas *)

Lemma avail_in_advance {S} (s : stream_t S) c o l :
  0 <= c <= avail_in s -> avail_in (advance s c o l) = avail_in s - c.
Proof. unfold avail_in, advance, Zlen. simpl. rewrite length_drop. lia. Qed.

Lemma advance_nothing {S} (s : stream_t S) : advance s 0 [] (lib s) = s.
Proof.
  destruct s as [i a w t l]. unfold advance. simpl.
  rewrite app_nil_r. f_equal; rewrite ?Zlen_nil; lia.
Qed.

Section zstd_facts.
Context `{ZstdLib}.

Lemma ZSTD_nothing_to_do (s : stream_t ZSTD_stream) ret :
  ZSTD_compressStream (lib s) [] 0 = (ret, 0, [], lib s) ->
  ZSTD_isError ret = false -> next_in s = [] -> avail_out s = 0 ->
  ZSTD_stream_run_encode s STEP = Ok (CS_OK, s).
Proof.
  intros Hrun Herr Hin Hout. unfold ZSTD_stream_run_encode.
  rewrite Hin, Hout, Hrun, Herr, advance_nothing. unfold avail_in. by rewrite Hin.
Qed.

Lemma Compressor_stuck (r : @Runner ZSTD_INFO) ret fuel :
  ZSTD_compressStream (lib (stream r)) [] 0 = (ret, 0, [], lib (stream r)) ->
  ZSTD_isError ret = false -> next_in (stream r) = [] -> avail_out (stream r) = 0 ->
  @Compressor_loop ZSTD_INFO fuel r STEP = Diverge.
Proof.
  intros Hrun Herr Hin Hout. destruct r as [d s]. simpl in *.
  induction fuel as [|fuel IH]; [done|]. cbn [Compressor_loop stream].
  change (@stream_run_encode ZSTD_INFO) with ZSTD_stream_run_encode.
  erewrite ZSTD_nothing_to_do by done. simpl. rewrite Hout. exact IH.
Qed.

(** [Compressor<ZSTD_INFO>::feed] does not return when the encoder takes
    all of its input and exactly fills the output buffer: the status is then
    [OK] with [avail_out == 0], which the loop answers by calling the encoder
    again, with no input and no space, for ever. (The branch was written for
    liblzma, which answers [BUF_ERROR] the second time; zstd, called with
    nothing to do, reports no error and does nothing.) *)
Theorem zstd_feed_livelock (r : @Runner ZSTD_INFO) data ret o l ret' fuel :
  ZSTD_compressStream (lib (stream r)) data (avail_out (stream r)) = (ret, Zlen data, o, l) ->
  ZSTD_isError ret = false -> Zlen o = avail_out (stream r) ->
  ZSTD_compressStream l [] 0 = (ret', 0, [], l) -> ZSTD_isError ret' = false ->
  @Compressor_feed ZSTD_INFO fuel r data STEP = Diverge.
Proof.
  intros Hrun Herr Ho Hl Herr'. unfold Compressor_feed.
  destruct fuel as [|fuel]; [done|]. cbn [Compressor_loop].
  change (@stream_run_encode ZSTD_INFO) with ZSTD_stream_run_encode.
  unfold ZSTD_stream_run_encode. destruct r as [d s]. simpl in *.
  rewrite Hrun, Herr. unfold avail_in, Zlen in *. simpl.
  rewrite Nat2Z.id, drop_all. simpl. unfold Zlen. rewrite Ho, Z.sub_diag. simpl.
  eapply Compressor_stuck; [exact Hl|done|simpl; by rewrite Nat2Z.id, drop_all|].
  simpl. unfold Zlen. lia.
Qed.

End zstd_facts.

(** An encoder that takes its input at once and has not flushed it yet. *)
Definition lazy_zstd : ZstdLib := {|
  ZSTD_stream := bytes;
  ZSTD_initCStream := Some [];
  ZSTD_initDStream := Some [];
  ZSTD_isError ret := ret <? 0;
  ZSTD_compressStream l inp space :=
    let all := l ++ inp in
    (0, Zlen inp, slice all 0 space, drop (Z.to_nat space) all);
  ZSTD_endStream l space :=
    let rest := drop (Z.to_nat space) l in (Zlen rest, slice l 0 space, rest);
  ZSTD_decompressStream l inp space :=
    let all := l ++ inp in
    (1, Zlen inp, slice all 0 space, drop (Z.to_nat space) all);
|}.

Lemma zstd_feed_livelock_witness :
  @Compressor_feed (@ZSTD_INFO lazy_zstd) 1000
    (@mkRunner (@ZSTD_INFO lazy_zstd) 4 (mkStream [] 4 [] 0 [])) [1; 2; 3; 4; 5; 6] STEP = Diverge.
Proof.
  by apply (@zstd_feed_livelock lazy_zstd) with (ret := 0) (o := [1; 2; 3; 4]) (l := [5; 6]) (ret' := 0).
Defined.
