(* ===== verification/Streams.v ===== *)
(** Sequential readers ([istreamreader.h], [istreamreader.cpp],
    [rawstreamreader.h], [decoderstreamreader.h]).

    [IStreamReader] is the interface, [StreamSpec] its contract: the bytes a
    stream still has to deliver, and how reading consumes them. The raw stream
    reads through to a [Reader]; the decoder stream feeds a decoder with chunks
    of 1024 bytes. *)

From stdpp Require Import strings.
From S2P Require Import Prelude.
From S2P Require Import Types.
From S2P Require Import Readers.
From S2P Require Import Files.
From S2P Require Import Compression.

(** Clients reason about a reader through its contract only. *)
#[global] Arguments r_size : simpl never.
#[global] Arguments r_read : simpl never.
#[global] Arguments r_get_buffer : simpl never.
#[global] Arguments r_sub_reader : simpl never.
#[global] Arguments r_content : simpl never.
#[global] Arguments r_wf : simpl never.

Class IStreamReader (St : Type) : Type := {
  readImpl : St -> Z -> outcome (bytes * St);
  stream_sub_reader : St -> Z -> outcome (AnyReader * St);
}.

(** [IStreamReader::read<T>()], [N = sizeof(T)]. *)
Definition read_T `{IStreamReader St} (N : nat) (s : St) : outcome (Z * St) :=
  '(buf, s) ← readImpl s (Z.of_nat N);
  mret (fromLittleEndian N buf, s).

(** * [RawStreamReader] *)

Section raw.
Context `{OS}.

Record RawStreamReader : Type := mkRaw { m_reader : AnyReader; m_readerPos : Z }.

Definition RawStreamReader_new (reader : AnyReader) : RawStreamReader := mkRaw reader 0.

Definition Raw_readImpl (s : RawStreamReader) (nbytes : Z) : outcome (bytes * RawStreamReader) :=
  buf ← r_read (m_reader s) (m_readerPos s) nbytes;
  mret (buf, mkRaw (m_reader s) (off_add (m_readerPos s) nbytes)).

Definition Raw_sub_reader (s : RawStreamReader) (nbytes : Z) :
    outcome (AnyReader * RawStreamReader) :=
  reader ← r_sub_reader (m_reader s) (m_readerPos s) nbytes;
  mret (reader, mkRaw (m_reader s) (off_add (m_readerPos s) nbytes)).

#[export] Instance Raw_Stream : IStreamReader RawStreamReader := {
  readImpl := Raw_readImpl;
  stream_sub_reader := Raw_sub_reader;
}.

End raw.

(** * [DecoderStreamReader] *)

Definition CHUNK_SIZE : Z := 1024.

Section decoder.
Context `{OS} `{INFO}.

Record DecoderStreamReader : Type := mkDecoder {
  m_encodedDataReader : AnyReader;
  m_currentInputOffset : Z;
  m_inputBytesLeft : Z;
  m_decoderState : stream_t istate;
}.

Definition readNextChunk (s : DecoderStreamReader) : outcome DecoderStreamReader :=
  let n := Z.min CHUNK_SIZE (m_inputBytesLeft s) in
  m_encodedDataChunk ← r_get_buffer (m_encodedDataReader s) (m_currentInputOffset s) n;
  p ← Buffer_data m_encodedDataChunk 0;
  data ← mem_read (m_mem m_encodedDataChunk) p (m_size m_encodedDataChunk);
  mret (mkDecoder (m_encodedDataReader s)
          (off_add (m_currentInputOffset s) n)
          (REAL_TYPEDEF.sub_assign size_w (m_inputBytesLeft s) n)
          (with_in (m_decoderState s) data)).

Definition DecoderStreamReader_new (inputReader : AnyReader) : outcome DecoderStreamReader :=
  l ← init_stream_decoder;
  readNextChunk (mkDecoder inputReader 0 (r_size inputReader) (mkStream [] 0 [] 0 l)).

Definition decodeMoreBytes (s : DecoderStreamReader) : outcome (CompStatus * DecoderStreamReader) :=
  '(step, s) ←
    (if avail_in (m_decoderState s) =? 0 then
       if m_inputBytesLeft s =? 0 then mret (FINISH, s)
       else s ← readNextChunk s; mret (STEP, s)
     else mret (STEP, s));
  '(st, d) ← stream_run_decode (m_decoderState s) step;
  mret (st, mkDecoder (m_encodedDataReader s) (m_currentInputOffset s) (m_inputBytesLeft s) d).

(** The loop of [readImpl]. The status of [decodeMoreBytes] is not looked at. *)
Fixpoint Decoder_loop (fuel : nat) (s : DecoderStreamReader) : outcome DecoderStreamReader :=
  if avail_out (m_decoderState s) =? 0 then mret s
  else match fuel with
  | O => Diverge
  | S fuel => '(_, s) ← decodeMoreBytes s; Decoder_loop fuel s
  end.

(** [next_out] is set to the destination: what is written goes there. *)
Definition with_dest (s : DecoderStreamReader) (nbytes : Z) : DecoderStreamReader :=
  let d := m_decoderState s in
  mkDecoder (m_encodedDataReader s) (m_currentInputOffset s) (m_inputBytesLeft s)
    (mkStream (next_in d) nbytes [] (total_out d) (lib d)).

(** Every iteration of a decoder that makes progress consumes or writes a
    byte: the fuel is more than there are of both. *)
Definition Decoder_fuel (s : DecoderStreamReader) (nbytes : Z) : nat :=
  Z.to_nat (nbytes + m_inputBytesLeft s + avail_in (m_decoderState s)).

Definition Decoder_readImpl (s : DecoderStreamReader) (nbytes : Z) :
    outcome (bytes * DecoderStreamReader) :=
  s ← Decoder_loop (Decoder_fuel s nbytes) (with_dest s nbytes);
  mret (written (m_decoderState s), s).

(** [IStreamReader::sub_reader]: the default. *)
Definition IStreamReader_sub_reader (s : DecoderStreamReader) (size : Z) :
    outcome (AnyReader * DecoderStreamReader) :=
  _ ← Buffer_new [] 0 size;
  '(buf, s) ← Decoder_readImpl s size;
  buffer ← Buffer_filled size buf;
  mret (ABuffer (mkBufferReader buffer), s).

#[export] Instance Decoder_Stream : IStreamReader DecoderStreamReader := {
  readImpl := Decoder_readImpl;
  stream_sub_reader := IStreamReader_sub_reader;
}.

End decoder.

(** * The contract of a stream

    [stream_at s left]: [left] is what [s] has still to deliver. *)

Class StreamSpec `{OSSpec} (St : Type) `{IStreamReader St} : Type := {
  stream_at : St -> bytes -> Prop;
  readImpl_in s left n :
    stream_at s left -> 0 <= n <= Zlen left -> n <= max_read ->
    exists s', readImpl s n = Ok (slice left 0 n, s') /\ stream_at s' (drop (Z.to_nat n) left);
  sub_reader_in s left n :
    stream_at s left -> 0 <= n <= Zlen left -> n <= max_read ->
    exists r s', stream_sub_reader s n = Ok (r, s') /\ r_wf r /\ r_content r = slice left 0 n /\
      stream_at s' (drop (Z.to_nat n) left);
}.

(** * Lemmas *)

Section stream_facts.
Context `{StreamSpec St}.

Lemma read_T_in N s left :
  stream_at s left -> Z.of_nat N <= Zlen left -> Z.of_nat N <= max_read ->
  exists s', read_T N s = Ok (fromLittleEndian N (slice left 0 (Z.of_nat N)), s') /\
    stream_at s' (drop N left).
Proof.
  intros Hs Hn Hmax. unfold read_T.
  destruct (readImpl_in s left (Z.of_nat N) Hs) as (s' & -> & Hs'); [lia|done|].
  exists s'. split; [done|]. by rewrite Nat2Z.id in Hs'.
Qed.

End stream_facts.

Section raw_facts.
Context `{OSSpec}.

#[export] Program Instance Raw_Spec : StreamSpec RawStreamReader := {
  stream_at s left :=
    r_wf (m_reader s) /\ 0 <= m_readerPos s <= r_size (m_reader s) /\
    left = drop (Z.to_nat (m_readerPos s)) (r_content (m_reader s));
}.
Next Obligation.
  intros s left n (Hr & Hpos & ->) Hn Hmax.
  pose proof (r_size_content _ Hr) as Hsz. pose proof (r_size_bound _ Hr).
  unfold SIZE_MAX in *. rewrite Zlen_drop in Hn by lia.
  change (@readImpl _ Raw_Stream) with Raw_readImpl. unfold Raw_readImpl.
  rewrite r_read_in by (done || lia). eexists. split.
  - done.
  - simpl. rewrite off_add_small by lia. split_and!; [done|lia|lia|].
    rewrite drop_drop. f_equal. lia.
Qed.
Next Obligation.
  intros s left n (Hr & Hpos & ->) Hn Hmax.
  pose proof (r_size_content _ Hr) as Hsz. pose proof (r_size_bound _ Hr).
  unfold SIZE_MAX in *. rewrite Zlen_drop in Hn by lia.
  change (@stream_sub_reader _ Raw_Stream) with Raw_sub_reader. unfold Raw_sub_reader.
  destruct (r_sub_in (m_reader s) (m_readerPos s) n) as (r' & -> & Hr' & Hc); [done|lia..|].
  eexists r', _. split; [done|]. simpl. rewrite off_add_small by lia.
  split_and!; [done| |done|lia|lia|].
  - rewrite Hc. done.
  - rewrite drop_drop. f_equal. lia.
Qed.

End raw_facts.

Section decoder_facts.
Context `{OSSpec} `{DecoderSpec}.

Lemma filled_reader_ok content n :
  0 <= n <= Zlen content -> n < SIZE_MAX ->
  r_wf (ABuffer (mkBufferReader (mkBuffer content 0 n))).
Proof. intros. change (Buffer_wf (mkBuffer content 0 n)). unfold Buffer_wf. simpl. lia. Qed.

Lemma filled_reader_content content n :
  Zlen content <= n ->
  r_content (ABuffer (mkBufferReader (mkBuffer content 0 n))) = content.
Proof. intros. by apply slice_0. Qed.

Definition encoded_left (s : DecoderStreamReader) : bytes :=
  drop (Z.to_nat (m_currentInputOffset s)) (r_content (m_encodedDataReader s)).

Definition Decoder_at (s : DecoderStreamReader) (left : bytes) : Prop :=
  r_wf (m_encodedDataReader s) /\
  0 <= m_currentInputOffset s /\ 0 <= m_inputBytesLeft s /\
  m_currentInputOffset s + m_inputBytesLeft s = r_size (m_encodedDataReader s) /\
  decodes (lib (m_decoderState s)) (next_in (m_decoderState s) ++ encoded_left s) left.

(** What is left of the encoded data, in the chunk and in the reader. *)
Definition Decoder_todo (s : DecoderStreamReader) : Z :=
  m_inputBytesLeft s + avail_in (m_decoderState s).

Lemma encoded_left_len s left : Decoder_at s left -> Zlen (encoded_left s) = m_inputBytesLeft s.
Proof.
  intros (Hr & ? & ? & Hsz & _). unfold encoded_left.
  pose proof (r_size_content _ Hr). rewrite Zlen_drop by lia. lia.
Qed.

Lemma readNextChunk_in s left :
  Decoder_at s left -> 0 < m_inputBytesLeft s -> avail_in (m_decoderState s) = 0 ->
  exists s', readNextChunk s = Ok s' /\ Decoder_at s' left /\
    Decoder_todo s' = Decoder_todo s /\ avail_in (m_decoderState s') <> 0 /\
    avail_out (m_decoderState s') = avail_out (m_decoderState s) /\
    written (m_decoderState s') = written (m_decoderState s).
Proof.
  intros Hat Hleft Hin. pose proof (encoded_left_len _ _ Hat) as Hlen.
  destruct Hat as (Hr & Hoff & _ & Hsz & Hdec).
  pose proof (r_size_content _ Hr). pose proof (r_size_bound _ Hr). unfold SIZE_MAX in *.
  unfold readNextChunk. set (n := Z.min CHUNK_SIZE (m_inputBytesLeft s)).
  assert (Hn : 0 < n <= m_inputBytesLeft s /\ n <= 1024) by (unfold n, CHUNK_SIZE; lia).
  destruct (r_buffer_in (m_encodedDataReader s) (m_currentInputOffset s) n)
    as (b & Hb & Hwf & Hbsz & Hcont); [done|lia..|unfold max_read; lia|].
  rewrite Hb. cbn [mbind outcome_bind]. unfold Buffer_data. destruct Hwf as (?&?&?&?).
  rewrite (proj2 (Z.leb_le 0 _)) by lia. cbn [mbind outcome_bind ASSERT mret outcome_ret].
  rewrite Z.add_0_r, mem_read_ok by lia. cbn [mbind outcome_bind].
  fold (Buffer_content b). rewrite Hcont. eexists. split; [done|].
  rewrite off_add_small by lia. unfold REAL_TYPEDEF.sub_assign, size_w.
  rewrite wrap_small by (unfold fits; lia).
  unfold Decoder_at, Decoder_todo, encoded_left, avail_in, with_in in *. simpl.
  rewrite Zlen_slice by lia. split_and!; [done|lia|lia|lia| |lia|lia|done|done].
  apply Zlen_nil_inv in Hin. rewrite Hin in Hdec.
  simpl in Hdec. revert Hdec. rewrite Z2Nat.inj_add by lia. unfold slice.
  by rewrite <- drop_drop, take_drop.
Qed.

Lemma decodeMoreBytes_in s left :
  Decoder_at s left -> 0 < avail_out (m_decoderState s) <= Zlen left ->
  exists st s' o left',
    decodeMoreBytes s = Ok (st, s') /\ left = o ++ left' /\ Decoder_at s' left' /\
    written (m_decoderState s') = written (m_decoderState s) ++ o /\
    avail_out (m_decoderState s') = avail_out (m_decoderState s) - Zlen o /\
    Zlen o <= avail_out (m_decoderState s) /\
    Decoder_todo s' + avail_out (m_decoderState s') <
      Decoder_todo s + avail_out (m_decoderState s).
Proof.
  intros Hat Hout. unfold decodeMoreBytes.
  assert (Hpre : exists step s1,
    (if avail_in (m_decoderState s) =? 0
     then if m_inputBytesLeft s =? 0 then mret (FINISH, s) else s ← readNextChunk s; mret (STEP, s)
     else mret (STEP, s)) = Ok (step, s1) /\ Decoder_at s1 left /\
    Decoder_todo s1 = Decoder_todo s /\
    (avail_in (m_decoderState s1) <> 0 \/ m_inputBytesLeft s1 = 0) /\
    avail_out (m_decoderState s1) = avail_out (m_decoderState s) /\
    written (m_decoderState s1) = written (m_decoderState s)).
  { destruct (Z.eqb_spec (avail_in (m_decoderState s)) 0) as [E|E]; [|eauto 10].
    destruct (Z.eqb_spec (m_inputBytesLeft s) 0) as [E'|E']; [eauto 10|].
    assert (0 <= m_inputBytesLeft s) by apply Hat.
    destruct (readNextChunk_in s left Hat) as (s1 & -> & ? & ? & ? & ? & ?); [lia|done|].
    simpl. eauto 10. }
  destruct Hpre as (step & s1 & -> & Hat1 & Htodo & Hin1 & Hout1 & Hw1). cbn [mbind outcome_bind].
  pose proof (encoded_left_len _ _ Hat1) as Hlen. destruct Hat1 as (Hr & ? & ? & Hsz & Hdec).
  destruct (decode_run (m_decoderState s1) step _ _ Hdec) as
    (st & c & o & l & left' & -> & Hc & Ho & -> & Hdec' & Hprog); [lia|].
  cbn [mbind outcome_bind]. eexists st, _, o, left'. split; [done|]. split; [done|].
  rewrite Zlen_app in Hout. pose proof (Zlen_nonneg o). pose proof (Zlen_nonneg left').
  assert (0 < c + Zlen o).
  { apply Hprog; [lia| |].
    - intros E. apply app_nil in E as [-> ->]. rewrite !Zlen_nil in *. lia.
    - destruct Hin1 as [Hin1|Hin1]; [left|right].
      + intros E. apply Hin1. unfold avail_in. by rewrite E.
      + apply Zlen_nil_inv. lia. }
  unfold Decoder_todo, Decoder_at in *. cbn [m_inputBytesLeft m_decoderState m_encodedDataReader
    m_currentInputOffset]. rewrite avail_in_advance by done.
  unfold advance in *. simpl in *. rewrite Hw1. split_and!; done || lia.
Qed.

Lemma Decoder_loop_in fuel s left :
  Decoder_at s left -> 0 <= avail_out (m_decoderState s) <= Zlen left ->
  Decoder_todo s + avail_out (m_decoderState s) <= Z.of_nat fuel ->
  exists s', Decoder_loop fuel s = Ok s' /\
    written (m_decoderState s') =
      written (m_decoderState s) ++ slice left 0 (avail_out (m_decoderState s)) /\
    Decoder_at s' (drop (Z.to_nat (avail_out (m_decoderState s))) left).
Proof.
  revert s left. induction fuel as [|fuel IH]; intros s left Hat Hout Hfuel.
  all: destruct (Z.eqb_spec (avail_out (m_decoderState s)) 0) as [E|E];
    [exists s; unfold Decoder_loop; rewrite E; rewrite slice_nil_r, app_nil_r;
     split_and!; by try done|].
  { exfalso. unfold Decoder_todo in Hfuel. assert (0 <= m_inputBytesLeft s) by apply Hat.
    pose proof (Zlen_nonneg (next_in (m_decoderState s))). unfold avail_in in *. lia. }
  destruct (decodeMoreBytes_in s left Hat) as
    (st & s1 & o & left1 & Hrun & -> & Hat1 & Hw & Ha & Ho & Hdec); [lia|].
  rewrite Zlen_app in Hout. pose proof (Zlen_nonneg o).
  destruct (IH s1 left1) as (s' & Hs' & Hw' & Hat'); [done|lia|lia|].
  exists s'. cbn [Decoder_loop]. rewrite (proj2 (Z.eqb_neq _ _)) by done. rewrite Hrun.
  cbn [mbind outcome_bind]. split; [done|]. rewrite Hw', Hw, Ha.
  set (a := avail_out (m_decoderState s)) in *. split.
  - rewrite <- app_assoc. f_equal. unfold slice. rewrite !drop_0.
    rewrite take_app_ge by (unfold Zlen in *; lia).
    by replace (Z.to_nat a - length o)%nat with (Z.to_nat (a - Zlen o)) by (unfold Zlen; lia).
  - rewrite drop_app_ge by (unfold Zlen in *; lia). rewrite Ha in Hat'.
    replace (Z.to_nat a - length o)%nat with (Z.to_nat (a - Zlen o)) by (unfold Zlen; lia). done.
Qed.

Lemma Decoder_readImpl_in s left n :
  Decoder_at s left -> 0 <= n <= Zlen left ->
  exists s', Decoder_readImpl s n = Ok (slice left 0 n, s') /\
    Decoder_at s' (drop (Z.to_nat n) left).
Proof.
  intros Hat Hn. unfold Decoder_readImpl.
  assert (0 <= m_inputBytesLeft s) by apply Hat.
  pose proof (Zlen_nonneg (next_in (m_decoderState s))).
  destruct (Decoder_loop_in (Decoder_fuel s n) (with_dest s n) left) as (s' & -> & Hw & Hat').
  - done.
  - done.
  - unfold Decoder_fuel, Decoder_todo, with_dest, avail_in in *. simpl. lia.
  - exists s'. cbn [mbind outcome_bind]. rewrite Hw. done.
Qed.

#[export] Program Instance Decoder_Spec : StreamSpec DecoderStreamReader := {
  stream_at := Decoder_at;
}.
Next Obligation. intros. by apply Decoder_readImpl_in. Qed.
Next Obligation.
  intros s left n Hat Hn Hmax. unfold max_read in *.
  destruct (Decoder_readImpl_in s left n Hat Hn) as (s' & Hs' & Hat').
  change (@stream_sub_reader _ Decoder_Stream) with IStreamReader_sub_reader.
  unfold IStreamReader_sub_reader, Buffer_filled, Buffer_new, SIZE_MAX.
  rewrite (proj2 (Z.ltb_lt n _)) by lia. cbn [mbind outcome_bind ASSERT mret outcome_ret].
  rewrite Hs'. cbn [mbind outcome_bind].
  assert (Hl : Zlen (slice left 0 n) = n) by (apply Zlen_slice; lia).
  destruct (Z.eqb_spec 0 n) as [<-|?];
    (eexists _, s'; split; [done|]; split_and!; [| |done]).
  - by apply filled_reader_ok.
  - done.
  - apply filled_reader_ok; unfold SIZE_MAX; lia.
  - apply filled_reader_content. lia.
Qed.

Lemma DecoderStreamReader_new_in r content l :
  r_wf r -> 0 < r_size r -> init_stream_decoder = Ok l -> decodes l (r_content r) content ->
  exists s, DecoderStreamReader_new r = Ok s /\ Decoder_at s content.
Proof.
  intros Hr Hsz Hl Hdec. unfold DecoderStreamReader_new. rewrite Hl. cbn [mbind outcome_bind].
  edestruct (readNextChunk_in (mkDecoder r 0 (r_size r) (mkStream [] 0 [] 0 l)) content)
    as (s' & -> & Hat & _); [|done|done|eauto].
  unfold Decoder_at, encoded_left. simpl. split_and!; try done; lia.
Qed.

End decoder_facts.

(** * Properties *)

(** Reads of the sizes [ns], one after the other. *)
Fixpoint read_seq `{IStreamReader St} (s : St) (ns : list Z) : outcome (list bytes * St) :=
  match ns with
  | [] => mret ([], s)
  | n :: ns =>
      '(b, s) ← readImpl s n;
      '(bs, s) ← read_seq s ns;
      mret (b :: bs, s)
  end.

Lemma read_seq_in `{StreamSpec St} (s : St) ns left :
  stream_at s left -> Forall (fun n => 0 <= n <= max_read) ns -> Zsum ns <= Zlen left ->
  exists s', read_seq s ns = Ok (cut ns left, s').
Proof.
  intros Hs Hns. revert s left Hs. induction Hns as [|n ns Hn Hns IH]; intros s left Hs Hsum.
  { by eexists. }
  cbn [read_seq cut Zsum] in *.
  assert (0 <= Zsum ns) by (eapply Zsum_nonneg, Forall_impl; [exact Hns|]; simpl; lia).
  destruct (readImpl_in s left n) as (s1 & -> & Hs1); [done|lia|lia|]. cbn [mbind outcome_bind].
  destruct (IH s1 (drop (Z.to_nat n) left)) as (s2 & ->); [done|rewrite Zlen_drop; lia|].
  by eexists.
Qed.

Section properties.
Context `{OSSpec} `{DecoderSpec}.

(** C25. A stream that decodes a compressed cluster delivers the decoded
    content: whatever the sizes of the reads and wherever the 1024-byte input
    chunks fall, each read returns, and the reads give consecutive pieces of
    the decoded bytes. *)
Theorem decoder_stream_reads r content l ns :
  r_wf r -> 0 < r_size r -> init_stream_decoder = Ok l -> decodes l (r_content r) content ->
  Forall (fun n => 0 <= n <= max_read) ns -> Zsum ns <= Zlen content ->
  exists s s', DecoderStreamReader_new r = Ok s /\ read_seq s ns = Ok (cut ns content, s').
Proof.
  intros Hr Hsz Hl Hdec Hns Hsum.
  destruct (DecoderStreamReader_new_in r content l) as (s & Hs & Hat); [done..|].
  destruct (@read_seq_in _ _ _ _ Decoder_Spec s ns content Hat Hns Hsum) as (s' & Hs'). eauto.
Qed.

End properties.

Section hang.
Context `{OS} `{INFO}.

(** [readImpl] ignores the status of the decoder: when the input is used
    up and the decoder neither writes nor changes any more (a truncated or
    corrupt cluster, or a read past its end), the call never returns, although
    [istreamreader.h] says it throws when more bytes are requested than can be
    retrieved. *)
Theorem readImpl_hangs fuel s st n :
  m_inputBytesLeft s = 0 -> next_in (m_decoderState s) = [] -> n <> 0 ->
  stream_run_decode (m_decoderState (with_dest s n)) FINISH =
    Ok (st, m_decoderState (with_dest s n)) ->
  Decoder_loop fuel (with_dest s n) = Diverge.
Proof.
  intros Hleft Hin Hn Hrun. apply Z.eqb_neq in Hn.
  assert (E : decodeMoreBytes (with_dest s n) = Ok (st, with_dest s n)).
  { unfold decodeMoreBytes.
    replace (avail_in (m_decoderState (with_dest s n)) =? 0) with true
      by (unfold avail_in; simpl; by rewrite Hin).
    replace (m_inputBytesLeft (with_dest s n) =? 0) with true by (simpl; by rewrite Hleft).
    cbn [mbind outcome_bind mret outcome_ret]. by rewrite Hrun. }
  induction fuel as [|fuel IH]; cbn [Decoder_loop]; simpl (avail_out _); rewrite Hn; [done|].
  rewrite E. exact IH.
Qed.

End hang.

(** A decoder that copies its input. *)
Definition copy_info : INFO := {|
  istate := unit;
  info_name := "copy";
  init_stream_decoder := Ok tt;
  init_stream_encoder := Ok tt;
  stream_run_encode s _ := Ok (CS_OK, s);
  stream_run_decode s _ :=
    let o := slice (next_in s) 0 (avail_out s) in
    Ok (if avail_in s =? 0 then OTHER else CS_OK, advance s (Zlen o) o tt);
|}.

(** One call of a library that copies as much as fits. *)
Lemma copy_run {S} (s : stream_t S) inp out :
  next_in s ++ inp = out -> 0 <= avail_out s ->
  let o := slice (next_in s) 0 (avail_out s) in
  let out' := drop (Z.to_nat (Zlen o)) (next_in s) ++ inp in
  0 <= Zlen o <= avail_in s /\ Zlen o <= avail_out s /\ out = o ++ out' /\
  (0 < avail_out s -> out <> [] -> next_in s <> [] \/ inp = [] -> 0 < Zlen o + Zlen o).
Proof.
  intros <- Hout o out'.
  assert (Ho : Zlen o = Z.min (avail_in s) (avail_out s)).
  { unfold o, slice, avail_in, Zlen in *. rewrite length_take, drop_0. lia. }
  pose proof (Zlen_nonneg (next_in s)). unfold avail_in in *. split_and!; [lia|lia|lia| |].
  - unfold out'. rewrite app_assoc. f_equal.
    rewrite <- (take_drop (Z.to_nat (Zlen o)) (next_in s)) at 1.
    f_equal. rewrite Ho. unfold o, slice. rewrite drop_0.
    clear -Hout. unfold Zlen. destruct (decide (Z.of_nat (length (next_in s)) <= avail_out s)).
    + rewrite !take_ge by lia. done.
    + f_equal. lia.
  - intros Ha Hne [Hn| ->].
    + assert (Zlen (next_in s) <> 0) by (by intros ?%Zlen_nil_inv). lia.
    + rewrite app_nil_r in Hne. assert (Zlen (next_in s) <> 0) by (by intros ?%Zlen_nil_inv). lia.
Qed.

#[export] Program Instance copy_spec : @DecoderSpec copy_info := {
  decodes _ inp out := inp = out;
}.
Next Obligation.
  intros s step inp out E Hout. destruct (copy_run s inp out E Hout) as (?&?&?&?).
  by eexists _, _, _, tt, _.
Qed.

Definition buffer_of (l : bytes) : AnyReader := ABuffer (mkBufferReader (mkBuffer l 0 (Zlen l))).

Lemma decoder_stream_reads_witness :
  exists s s', @DecoderStreamReader_new two_parts copy_info (buffer_of [1; 2; 3; 4; 5]) = Ok s /\
    @read_seq _ (@Decoder_Stream two_parts copy_info) s [2; 0; 3] = Ok ([[1; 2]; []; [3; 4; 5]], s').
Proof.
  apply (@decoder_stream_reads two_parts two_parts_spec copy_info copy_spec
           (buffer_of [1; 2; 3; 4; 5]) [1; 2; 3; 4; 5] tt [2; 0; 3]); try done.
  repeat constructor; by vm_compute.
Defined.

Lemma readImpl_hangs_witness :
  @Decoder_loop two_parts copy_info 100
    (@with_dest copy_info (mkDecoder (buffer_of []) 0 0 (@mkStream (@istate copy_info) [] 0 [] 0 tt)) 1)
  = Diverge.
Proof. by apply (@readImpl_hangs two_parts copy_info) with (st := OTHER). Defined.
