(* ===== verification/Header.v ===== *)
(** The archive header ([fileheader.h], [fileheader.cpp]): its 80 bytes, their
    reading and the sanity check. *)

From stdpp Require Import strings.
From S2P Require Import Prelude.
From S2P Require Import Types.
From S2P Require Import Readers.

Definition zimMagic : Z := 0x044d495a.
Definition zimClassicMajorVersion : Z := 5.
Definition zimExtendedMajorVersion : Z := 6.
Definition zimMinorVersion : Z := 1.
Definition Fileheader_size : Z := 80.

Record Fileheader : Type := mkFileheader {
  majorVersion : Z;
  minorVersion : Z;
  uuid : bytes;
  articleCount : Z;
  titleIdxPos : Z;
  urlPtrPos : Z;
  mimeListPos : Z;
  clusterCount : Z;
  clusterPtrPos : Z;
  mainPage : Z;
  layoutPage : Z;
  checksumPos : Z;
}.

(** The constructor leaves [mimeListPos] uninitialised: [garbage]. *)
Definition Fileheader_new (garbage : Z) : Fileheader :=
  mkFileheader zimClassicMajorVersion zimMinorVersion (repeat 0 16) 0 0 0 garbage 0 0
    (2 ^ 32 - 1) (2 ^ 32 - 1) (2 ^ 64 - 1).

Definition hasMainPage (h : Fileheader) : bool := negb (mainPage h =? 2 ^ 32 - 1).
Definition hasLayoutPage (h : Fileheader) : bool := negb (layoutPage h =? 2 ^ 32 - 1).
Definition hasChecksum (h : Fileheader) : bool := 80 <=? mimeListPos h.
Definition getChecksumPos (h : Fileheader) : Z := if hasChecksum h then checksumPos h else 0.

(** The 80 bytes [Fileheader::write] gives to the system. *)
Definition Fileheader_write (h : Fileheader) : bytes :=
  toLittleEndian 4 zimMagic ++
  toLittleEndian 2 (majorVersion h) ++
  toLittleEndian 2 (minorVersion h) ++
  uuid h ++
  toLittleEndian 4 (articleCount h) ++
  toLittleEndian 4 (clusterCount h) ++
  toLittleEndian 8 (urlPtrPos h) ++
  toLittleEndian 8 (titleIdxPos h) ++
  toLittleEndian 8 (clusterPtrPos h) ++
  toLittleEndian 8 (mimeListPos h) ++
  toLittleEndian 4 (mainPage h) ++
  toLittleEndian 4 (layoutPage h) ++
  toLittleEndian 8 (getChecksumPos h).

Definition sanity_check (h : Fileheader) : outcome unit :=
  throw_when (negb (Bool.eqb (negb (articleCount h =? 0)) (negb (clusterCount h =? 0))))
    (ZimFileFormatError "No article <=> No cluster") ;;
  throw_when (negb (mimeListPos h =? Fileheader_size) && negb (mimeListPos h =? 72))
    (ZimFileFormatError "mimelistPos must be 80.") ;;
  throw_when (urlPtrPos h <? mimeListPos h)
    (ZimFileFormatError "urlPtrPos must be > mimelistPos.") ;;
  throw_when (titleIdxPos h <? mimeListPos h)
    (ZimFileFormatError "titleIdxPos must be > mimelistPos.") ;;
  throw_when (clusterPtrPos h <? mimeListPos h)
    (ZimFileFormatError "clusterPtrPos must be > mimelistPos.") ;;
  throw_when (articleCount h <? clusterCount h)
    (ZimFileFormatError "Cluster count cannot be higher than article count.") ;;
  throw_when (negb (checksumPos h =? 0) && (checksumPos h <? mimeListPos h))
    (ZimFileFormatError "checksumPos must be > mimeListPos.").

Definition Fileheader_read `{Reader R} (reader : R) : outcome Fileheader :=
  buffer ← r_get_buffer reader 0 Fileheader_size;
  s ← BufferStreamer_of buffer;
  '(magicNumber, s) ← stream_read 4 s;
  throw_when (negb (magicNumber =? zimMagic)) (ZimFileFormatError "Invalid magic number") ;;
  '(major_version, s) ← stream_read 2 s;
  throw_when (negb (major_version =? zimClassicMajorVersion) &&
              negb (major_version =? zimExtendedMajorVersion))
    (ZimFileFormatError "Invalid version") ;;
  '(minor, s) ← stream_read 2 s;
  uu ← mem_read (s_mem s) (s_current s) 16;
  let s := skip s 16 in
  '(article, s) ← stream_read 4 s;
  '(cluster, s) ← stream_read 4 s;
  '(urlPtr, s) ← stream_read 8 s;
  '(titleIdx, s) ← stream_read 8 s;
  '(clusterPtr, s) ← stream_read 8 s;
  '(mimeList, s) ← stream_read 8 s;
  '(mainP, s) ← stream_read 4 s;
  '(layoutP, s) ← stream_read 4 s;
  '(checksum, s) ← stream_read 8 s;
  let h := mkFileheader major_version minor uu article titleIdx urlPtr mimeList cluster
             clusterPtr mainP layoutP checksum in
  sanity_check h ;;
  mret h.

(** * Well-formed headers *)

(** The widths of the fields. *)
Definition header_fits (h : Fileheader) : Prop :=
  fits 16 (majorVersion h) /\ fits 16 (minorVersion h) /\ Zlen (uuid h) = 16 /\
  fits 32 (articleCount h) /\ fits 32 (clusterCount h) /\ fits 64 (urlPtrPos h) /\
  fits 64 (titleIdxPos h) /\ fits 64 (clusterPtrPos h) /\ fits 64 (mimeListPos h) /\
  fits 32 (mainPage h) /\ fits 32 (layoutPage h) /\ fits 64 (checksumPos h).

(** What the checks of [read] accept. *)
Definition header_sane (h : Fileheader) : Prop :=
  (majorVersion h = 5 \/ majorVersion h = 6) /\
  (articleCount h = 0 <-> clusterCount h = 0) /\
  (mimeListPos h = 80 \/ mimeListPos h = 72) /\
  mimeListPos h <= urlPtrPos h /\ mimeListPos h <= titleIdxPos h /\
  mimeListPos h <= clusterPtrPos h /\ clusterCount h <= articleCount h /\
  (checksumPos h = 0 \/ mimeListPos h <= checksumPos h).

(** What is left of a header once it went through a file: an archive whose
    MIME list starts before byte 80 has no checksum. *)
Definition stored (h : Fileheader) : Fileheader :=
  mkFileheader (majorVersion h) (minorVersion h) (uuid h) (articleCount h) (titleIdxPos h)
    (urlPtrPos h) (mimeListPos h) (clusterCount h) (clusterPtrPos h) (mainPage h) (layoutPage h)
    (getChecksumPos h).

(** * Lemmas *)

Lemma length_write h : Zlen (uuid h) = 16 -> Zlen (Fileheader_write h) = 80.
Proof.
  intros Hu. unfold Fileheader_write, Zlen in *.
  rewrite !length_app, !length_toLittleEndian by auto. lia.
Qed.

Lemma sanity_check_spec h :
  majorVersion h = 5 \/ majorVersion h = 6 -> (sanity_check h = Ok tt <-> header_sane h).
Proof.
  intros Hv. unfold sanity_check, header_sane, Fileheader_size.
  destruct (Z.eqb_spec (articleCount h) 0), (Z.eqb_spec (clusterCount h) 0); simpl;
    try (split; [done|intros (_&Hc&_); tauto]).
  all: destruct (Z.eqb_spec (mimeListPos h) 80), (Z.eqb_spec (mimeListPos h) 72); simpl;
    try (split; [done|intros (_&_&Hc&_); tauto]).
  all: destruct (Z.ltb_spec (urlPtrPos h) (mimeListPos h)); simpl;
    try (split; [done|intros; lia]).
  all: destruct (Z.ltb_spec (titleIdxPos h) (mimeListPos h)); simpl;
    try (split; [done|intros; lia]).
  all: destruct (Z.ltb_spec (clusterPtrPos h) (mimeListPos h)); simpl;
    try (split; [done|intros; lia]).
  all: destruct (Z.ltb_spec (articleCount h) (clusterCount h)); simpl;
    try (split; [done|intros; lia]).
  all: destruct (Z.eqb_spec (checksumPos h) 0), (Z.ltb_spec (checksumPos h) (mimeListPos h)); simpl;
    try (split; [done|intros; lia]).
  all: split; [intros _|done]; lia.
Qed.

Lemma stored_fits h : header_fits h -> header_fits (stored h).
Proof.
  unfold header_fits, stored, getChecksumPos. simpl. intros. destruct_and!.
  split_and!; try done. destruct (hasChecksum h); [done|]. by split.
Qed.

Lemma stored_sane h : header_sane h -> header_sane (stored h).
Proof.
  unfold header_sane, stored, getChecksumPos. simpl. intros. destruct_and!.
  split_and!; try done. destruct (hasChecksum h); auto.
Qed.

(** Reads one integer of the header. *)
Ltac read_field :=
  match goal with
  | Hs : stream_has ?s (toLittleEndian ?N ?v ++ ?k) |- context [stream_read ?N ?s] =>
      let E := fresh "E" in let Hs' := fresh "Hs" in
      destruct (stream_read_int N v s k) as [E Hs'];
      [ by auto | assumption | exact Hs | rewrite E; clear E Hs; cbn [mbind outcome_bind] ]
  end.

Lemma write_app h : Fileheader_write (stored h) = Fileheader_write h.
Proof. unfold Fileheader_write, stored, getChecksumPos, hasChecksum. simpl. by destruct (80 <=? _). Qed.

Section read.
Context `{ReaderSpec R}.

(** [read] on a file that starts with a header: the fields, then the checks. *)
Lemma read_written (r : R) h :
  header_fits h -> majorVersion h = 5 \/ majorVersion h = 6 ->
  r_wf r -> 80 <= r_size r -> slice (r_content r) 0 80 = Fileheader_write h ->
  Fileheader_read r = (sanity_check (stored h) ;; mret (stored h)).
Proof.
  intros Hfits Hv Hr Hsz Hc. pose proof (stored_fits h Hfits) as Hfits'.
  unfold Fileheader_read, Fileheader_size.
  destruct (r_buffer_in r 0 80) as (b & -> & Hwf & _ & Hb); [done|lia|lia|lia|unfold max_read; lia|].
  cbn [mbind outcome_bind].
  destruct (BufferStreamer_has b Hwf) as (s & -> & Hs & _). cbn [mbind outcome_bind].
  rewrite Hb, Hc in Hs. unfold Fileheader_write in Hs.
  unfold header_fits in Hfits, Hfits'. destruct_and!.
  assert (fits (8 * Z.of_nat 4) zimMagic) by (split; vm_compute; congruence).
  read_field. rewrite Z.eqb_refl. cbn [negb throw_when mbind outcome_bind].
  read_field.
  assert (E : negb (majorVersion h =? 5) && negb (majorVersion h =? 6) = false).
  { destruct Hv as [-> | ->]; done. }
  change zimClassicMajorVersion with 5. change zimExtendedMajorVersion with 6.
  rewrite E. cbn [throw_when mbind outcome_bind]. clear E.
  read_field.
  lazymatch goal with Hs : stream_has ?s (uuid h ++ _) |- _ =>
    pose proof (stream_has_mem s _ (stream_has_app _ _ _ Hs)) as E;
    apply stream_has_skip in Hs end.
  replace (Zlen (uuid h)) with 16 in * by (symmetry; assumption).
  rewrite E. cbn [mbind outcome_bind]. clear E.
  do 8 read_field.
  lazymatch goal with Hs : stream_has _ (toLittleEndian 8 (getChecksumPos h)) |- _ =>
    rewrite <- (app_nil_r (toLittleEndian 8 (getChecksumPos h))) in Hs end.
  read_field. done.
Qed.

End read.

(** * Properties *)

Section properties.
Context `{ReaderSpec R}.

(** C24. The header round trip: a header whose fields have their widths and pass
    the checks is written as 80 bytes; reading an archive that starts with
    them gives back the same header (without its checksum position when the
    MIME list starts before byte 80). *)
Theorem header_roundtrip (r : R) h :
  header_fits h -> header_sane h ->
  r_wf r -> 80 <= r_size r -> slice (r_content r) 0 80 = Fileheader_write h ->
  Fileheader_read r = Ok (stored h).
Proof.
  intros Hfits Hsane Hr Hsz Hc. rewrite (read_written r h) by (try done; apply Hsane).
  rewrite (proj2 (sanity_check_spec (stored h) (proj1 Hsane))); [done|].
  by apply stored_sane.
Qed.

(** What [read] accepts is sane: whatever the bytes of the file, when
    [Fileheader::read] returns, the version is 5 or 6, there are articles
    exactly when there are clusters and no fewer, and every position is at or
    after the MIME list, itself at 72 or 80. *)
Theorem header_read_sane (r : R) h : Fileheader_read r = Ok h -> header_sane h.
Proof.
  unfold Fileheader_read. intros H1.
  repeat match goal with
  | H : mbind _ _ = Ok _ |- _ => apply bind_Ok in H as (? & ? & H)
  | H : (let '(_, _) := ?x in _) = Ok _ |- _ => destruct x
  end. inv_outcome.
  apply sanity_check_spec; [|by match goal with u : unit |- _ => destruct u end].
  simpl. bool_to_prop.
  match goal with H : _ && _ = false |- _ => apply andb_false_iff in H as [H|H] end;
    bool_to_prop; auto.
Qed.

End properties.

Definition sample_header : Fileheader :=
  mkFileheader 5 1 (repeat 7 16) 3 200 120 80 1 300 (2 ^ 32 - 1) (2 ^ 32 - 1) 400.

Definition reader_of (l : bytes) : BufferReader := mkBufferReader (mkBuffer l 0 (Zlen l)).

Lemma header_roundtrip_witness :
  Fileheader_read (reader_of (Fileheader_write sample_header ++ [1; 2; 3])) = Ok sample_header.
Proof.
  apply (header_roundtrip (reader_of (Fileheader_write sample_header ++ [1; 2; 3])) sample_header);
    [unfold header_fits, fits; split_and!; by vm_compute | unfold header_sane; simpl; lia
    | unfold r_wf; simpl; unfold Buffer_wf; simpl; split_and!; by vm_compute | done | done].
Defined.

Lemma header_read_sane_witness : header_sane (stored sample_header).
Proof. by apply (header_read_sane (reader_of (Fileheader_write sample_header))). Defined.
