(* ===== verification/Md5.v ===== *)
(** MD5 ([md5.c], [md5.h]) and the UUID of an archive ([uuid.h], [uuid.cpp]).

    The context is the C structure: four 32-bit words, a 64-bit bit count in
    two words, and the 64-byte buffer of the input that does not fill a block
    yet. [md5] is the one-shot function of RFC 1321; the streaming interface is
    proved to compute it. *)

From stdpp Require Import strings.
From S2P Require Import Prelude.
From S2P Require Import Types.

Definition S11 : Z := 7.
Definition S12 : Z := 12.
Definition S13 : Z := 17.
Definition S14 : Z := 22.
Definition S21 : Z := 5.
Definition S22 : Z := 9.
Definition S23 : Z := 14.
Definition S24 : Z := 20.
Definition S31 : Z := 4.
Definition S32 : Z := 11.
Definition S33 : Z := 16.
Definition S34 : Z := 23.
Definition S41 : Z := 6.
Definition S42 : Z := 10.
Definition S43 : Z := 15.
Definition S44 : Z := 21.

(** ** The round functions, on 32-bit words *)

Definition F (x y z : Z) : Z := Z.lor (Z.land x y) (Z.land (u32 (Z.lnot x)) z).
Definition G (x y z : Z) : Z := Z.lor (Z.land x z) (Z.land y (u32 (Z.lnot z))).
Definition H (x y z : Z) : Z := Z.lxor (Z.lxor x y) z.
Definition I (x y z : Z) : Z := Z.lxor y (Z.lor x (u32 (Z.lnot z))).

Definition ROTATE_LEFT (x n : Z) : Z := u32 (Z.lor (Z.shiftl x n) (Z.shiftr x (32 - n))).

Definition word4 : Type := Z * Z * Z * Z.

(** One operation [FF (a, b, c, d, x, s, ac)] (or [GG], [HH], [II]) and the
    renaming of the variables for the next one, [FF (d, a, b, c, ...)]. *)
Definition md5_op (f : Z -> Z -> Z -> Z) (x : list Z) (v : word4) (o : Z * Z * Z) : word4 :=
  let '(a, b, c, d) := v in
  let '(k, s, ac) := o in
  let a := u32 (a + u32 (f b c d + nth (Z.to_nat k) x 0 + ac)) in
  let a := ROTATE_LEFT a s in
  let a := u32 (a + b) in
  (d, a, b, c).

(** The operations of the four rounds: index in the block, rotation, constant. *)
Definition round1 : list (Z * Z * Z) :=
  [(0, S11, 0xd76aa478); (1, S12, 0xe8c7b756); (2, S13, 0x242070db); (3, S14, 0xc1bdceee);
   (4, S11, 0xf57c0faf); (5, S12, 0x4787c62a); (6, S13, 0xa8304613); (7, S14, 0xfd469501);
   (8, S11, 0x698098d8); (9, S12, 0x8b44f7af); (10, S13, 0xffff5bb1); (11, S14, 0x895cd7be);
   (12, S11, 0x6b901122); (13, S12, 0xfd987193); (14, S13, 0xa679438e); (15, S14, 0x49b40821)].
Definition round2 : list (Z * Z * Z) :=
  [(1, S21, 0xf61e2562); (6, S22, 0xc040b340); (11, S23, 0x265e5a51); (0, S24, 0xe9b6c7aa);
   (5, S21, 0xd62f105d); (10, S22, 0x2441453); (15, S23, 0xd8a1e681); (4, S24, 0xe7d3fbc8);
   (9, S21, 0x21e1cde6); (14, S22, 0xc33707d6); (3, S23, 0xf4d50d87); (8, S24, 0x455a14ed);
   (13, S21, 0xa9e3e905); (2, S22, 0xfcefa3f8); (7, S23, 0x676f02d9); (12, S24, 0x8d2a4c8a)].
Definition round3 : list (Z * Z * Z) :=
  [(5, S31, 0xfffa3942); (8, S32, 0x8771f681); (11, S33, 0x6d9d6122); (14, S34, 0xfde5380c);
   (1, S31, 0xa4beea44); (4, S32, 0x4bdecfa9); (7, S33, 0xf6bb4b60); (10, S34, 0xbebfbc70);
   (13, S31, 0x289b7ec6); (0, S32, 0xeaa127fa); (3, S33, 0xd4ef3085); (6, S34, 0x4881d05);
   (9, S31, 0xd9d4d039); (12, S32, 0xe6db99e5); (15, S33, 0x1fa27cf8); (2, S34, 0xc4ac5665)].
Definition round4 : list (Z * Z * Z) :=
  [(0, S41, 0xf4292244); (7, S42, 0x432aff97); (14, S43, 0xab9423a7); (5, S44, 0xfc93a039);
   (12, S41, 0x655b59c3); (3, S42, 0x8f0ccc92); (10, S43, 0xffeff47d); (1, S44, 0x85845dd1);
   (8, S41, 0x6fa87e4f); (15, S42, 0xfe2ce6e0); (6, S43, 0xa3014314); (13, S44, 0x4e0811a1);
   (4, S41, 0xf7537e82); (11, S42, 0xbd3af235); (2, S43, 0x2ad7d2bb); (9, S44, 0xeb86d391)].

Definition Encode_word (w : Z) : bytes :=
  [Z.land w 0xff; Z.land (Z.shiftr w 8) 0xff; Z.land (Z.shiftr w 16) 0xff;
   Z.land (Z.shiftr w 24) 0xff].

Definition Encode (input : list Z) : bytes := concat (map Encode_word input).

Fixpoint Decode (input : bytes) : list Z :=
  match input with
  | b0 :: b1 :: b2 :: b3 :: input =>
      Z.lor (Z.lor (Z.lor b0 (u32 (Z.shiftl b1 8))) (u32 (Z.shiftl b2 16))) (u32 (Z.shiftl b3 24))
      :: Decode input
  | _ => []
  end.

Definition MD5Transform (state : word4) (block : bytes) : word4 :=
  let x := Decode block in
  let v := fold_left (md5_op F x) round1 state in
  let v := fold_left (md5_op G x) round2 v in
  let v := fold_left (md5_op H x) round3 v in
  let '(a, b, c, d) := fold_left (md5_op I x) round4 v in
  let '(s0, s1, s2, s3) := state in
  (u32 (s0 + a), u32 (s1 + b), u32 (s2 + c), u32 (s3 + d)).

(** ** The context *)

Record zim_MD5_CTX : Type := mkCTX {
  state : word4;
  count0 : Z;
  count1 : Z;
  buffer : bytes;
}.

Definition md5_iv : word4 := (0x67452301, 0xefcdab89, 0x98badcfe, 0x10325476).

(** [MD5Init] does not touch the buffer. *)
Definition zim_MD5Init (garbage : bytes) : zim_MD5_CTX := mkCTX md5_iv 0 0 garbage.

(** [MD5_memcpy(&buffer[index], data, _)]; undefined past the 64 bytes. *)
Definition MD5_memcpy (buffer : bytes) (index : Z) (data : bytes) : outcome bytes :=
  if index + Zlen data <=? 64 then
    Ok (take (Z.to_nat index) buffer ++ data ++ drop (Z.to_nat (index + Zlen data)) buffer)
  else Undef.

(** [for (i = partLen; i + 63 < inputLen; i += 64)], in [unsigned int]. *)
Fixpoint Update_loop (fuel : nat) (st : word4) (input : bytes) (inputLen i : Z) :
    outcome (word4 * Z) :=
  if u32 (i + 63) <? inputLen then
    match fuel with
    | O => Diverge
    | S fuel =>
        block ← mem_read input i 64;
        Update_loop fuel (MD5Transform st block) input inputLen (u32 (i + 64))
    end
  else mret (st, i).

Definition zim_MD5Update (c : zim_MD5_CTX) (input : bytes) (inputLen : Z) : outcome zim_MD5_CTX :=
  let index := Z.land (Z.shiftr (count0 c) 3) 0x3F in
  let bits := u32 (Z.shiftl inputLen 3) in
  let c0 := u32 (count0 c + bits) in
  let c1 := if c0 <? bits then u32 (count1 c + 1) else count1 c in
  let c1 := u32 (c1 + Z.shiftr inputLen 29) in
  let partLen := 64 - index in
  if partLen <=? inputLen then
    data ← mem_read input 0 partLen;
    buf ← MD5_memcpy (buffer c) index data;
    '(st, i) ← Update_loop (Z.to_nat (inputLen / 64 + 1)) (MD5Transform (state c) buf) input
                 inputLen partLen;
    data ← mem_read input i (u32 (inputLen - i));
    buf ← MD5_memcpy buf 0 data;
    mret (mkCTX st c0 c1 buf)
  else
    data ← mem_read input 0 inputLen;
    buf ← MD5_memcpy (buffer c) index data;
    mret (mkCTX (state c) c0 c1 buf).

Definition PADDING : bytes := 0x80 :: repeat 0 63.

Definition zim_MD5Final (c : zim_MD5_CTX) : outcome bytes :=
  let bits := Encode [count0 c; count1 c] in
  let index := Z.land (Z.shiftr (count0 c) 3) 0x3f in
  let padLen := if index <? 56 then 56 - index else 120 - index in
  c ← zim_MD5Update c PADDING padLen;
  c ← zim_MD5Update c bits 8;
  let '(a, b, cc, d) := state c in
  mret (Encode [a; b; cc; d]).

(** ** The reference *)

Fixpoint blocks (n : nat) (st : word4) (l : bytes) : word4 :=
  match n with
  | O => st
  | S n => blocks n (MD5Transform st (take 64 l)) (drop 64 l)
  end.

(** The padding of RFC 1321: a one bit, zeros up to 56 modulo 64 bytes, the
    length in bits modulo [2^64]. *)
Definition md5_pad (msg : bytes) : bytes :=
  msg ++ 0x80 :: repeat 0 (Z.to_nat ((55 - Zlen msg) mod 64)) ++ le_bytes 8 (8 * Zlen msg).

Definition md5 (msg : bytes) : bytes :=
  let m := md5_pad msg in
  let '(a, b, c, d) := blocks (length m / 64) md5_iv m in
  le_bytes 4 a ++ le_bytes 4 b ++ le_bytes 4 c ++ le_bytes 4 d.

(** * Lemmas *)

Lemma md5_index x : Z.land (Z.shiftr x 3) 0x3F = (x / 8) mod 64.
Proof.
  change 0x3F with (Z.ones 6). rewrite Z.land_ones, Z.shiftr_div_pow2 by lia. done.
Qed.

Lemma blocks_add n m st l : blocks (n + m) st l = blocks m (blocks n st l) (drop (64 * n) l).
Proof.
  revert st l. induction n as [|n IH]; intros st l; cbn [blocks Nat.add]; [done|].
  rewrite IH, drop_drop. do 2 f_equal. lia.
Qed.

Lemma blocks_prefix n st l k :
  (64 * n <= length l)%nat -> blocks n st (l ++ k) = blocks n st l.
Proof.
  revert st l. induction n as [|n IH]; intros st l Hl; cbn [blocks]; [done|].
  rewrite take_app_le by lia. rewrite drop_app_le by lia.
  rewrite IH; [done|]. rewrite length_drop. lia.
Qed.

(** The context stands for the message [msg] fed so far. *)
Record md5_at (c : zim_MD5_CTX) (msg : bytes) : Prop := {
  at_len : length (buffer c) = 64%nat;
  at_c0 : 0 <= count0 c < 2 ^ 32;
  at_c1 : 0 <= count1 c < 2 ^ 32;
  at_count : count0 c + 2 ^ 32 * count1 c = (8 * Zlen msg) mod 2 ^ 64;
  at_state : state c = blocks (length msg / 64) md5_iv msg;
  at_buf : take (length msg mod 64) (buffer c) = drop (64 * (length msg / 64)) msg;
}.

Lemma md5_at_init garbage : length garbage = 64%nat -> md5_at (zim_MD5Init garbage) [].
Proof. by constructor. Qed.

Lemma at_index c msg : md5_at c msg -> Z.land (Z.shiftr (count0 c) 3) 0x3F = Z.of_nat (length msg mod 64).
Proof.
  intros Hat. rewrite md5_index. pose proof (at_c0 _ _ Hat). pose proof (at_count _ _ Hat) as E.
  unfold Zlen in E. rewrite Nat2Z.inj_mod. change (Z.of_nat 64) with 64.
  change (2 ^ 32) with 4294967296 in *. change (2 ^ 64) with 18446744073709551616 in *.
  Z.to_euclidean_division_equations. lia.
Qed.

Lemma count_step c0 c1 x len :
  0 <= c0 < 2 ^ 32 -> 0 <= c1 < 2 ^ 32 -> 0 <= len < 2 ^ 32 ->
  c0 + 2 ^ 32 * c1 = x mod 2 ^ 64 ->
  let bits := u32 (Z.shiftl len 3) in
  let c0' := u32 (c0 + bits) in
  let c1' := u32 ((if c0' <? bits then u32 (c1 + 1) else c1) + Z.shiftr len 29) in
  0 <= c0' < 2 ^ 32 /\ 0 <= c1' < 2 ^ 32 /\ c0' + 2 ^ 32 * c1' = (x + 8 * len) mod 2 ^ 64.
Proof.
  intros H0 H1 Hl E bits c0' c1'.
  split; [apply u32_range|]. split; [apply u32_range|].
  rewrite Zplus_mod, <- E, <- Zplus_mod_idemp_r.
  rewrite Zplus_mod_idemp_r. rewrite Zplus_mod_idemp_r.
  assert (Eb : 8 * len = bits + 2 ^ 32 * Z.shiftr len 29).
  { unfold bits, u32, wrap. rewrite Z.shiftl_mul_pow2, Z.shiftr_div_pow2 by lia.
    change (2 ^ 3) with 8. change (2 ^ 32) with (8 * 2 ^ 29). change (2 ^ 29) with 536870912.
    Z.to_euclidean_division_equations. lia. }
  rewrite Eb. clear E Eb.
  assert (Hb : 0 <= bits < 2 ^ 32) by apply u32_range.
  generalize dependent (Z.shiftr len 29). intros bh c1'.
  assert (Ec : exists k, c0 + bits = c0' + 2 ^ 32 * k /\ (k = 0 /\ bits <= c0' \/ k = 1 /\ c0' < bits)).
  { exists ((c0 + bits) / 2 ^ 32). unfold c0', u32, wrap.
    change (2 ^ 32) with 4294967296 in *. Z.to_euclidean_division_equations. lia. }
  destruct Ec as (k & Ek & Hk).
  assert (E1 : c1' = (c1 + k + bh) mod 2 ^ 32).
  { unfold c1'. destruct Hk as [[-> ?]|[-> ?]].
    - rewrite (proj2 (Z.ltb_ge _ _)) by done. unfold u32, wrap. f_equal. lia.
    - rewrite (proj2 (Z.ltb_lt _ _)) by done. unfold u32, wrap. by rewrite Zplus_mod_idemp_l. }
  replace (c0 + 2 ^ 32 * c1 + (bits + 2 ^ 32 * bh)) with (c0' + 2 ^ 32 * (c1 + k + bh)) by lia.
  rewrite E1. assert (Hz : 0 <= c0' < 2 ^ 32) by apply u32_range.
  clear - Hz. clearbody c0'. revert c0' Hz. intros z Hz.
  change (2 ^ 64) with (2 ^ 32 * 2 ^ 32). rewrite Z.rem_mul_r by lia.
  rewrite (Z.mul_comm (2 ^ 32) (c1 + k + bh)), Z.mod_add, Z.div_add by lia.
  rewrite (Z.mod_small z), (Z.div_small z) by lia. done.
Qed.

Lemma Update_loop_ok fuel st input extra i :
  0 <= i <= Zlen input -> Zlen input <= 2 ^ 32 - 64 -> (Zlen input - i) / 64 <= Z.of_nat fuel ->
  let k := Z.to_nat ((Zlen input - i) / 64) in
  Update_loop fuel st (input ++ extra) (Zlen input) i =
    Ok (blocks k st (drop (Z.to_nat i) input), i + 64 * Z.of_nat k).
Proof.
  revert st i. change (2 ^ 32 - 64) with 4294967232.
  induction fuel as [|fuel IH]; intros st i Hi Hlen Hfuel k; cbn [Update_loop].
  all: rewrite u32_small by lia; destruct (Z.ltb_spec (i + 63) (Zlen input)) as [E|E].
  1: { exfalso. assert (1 <= (Zlen input - i) / 64) by (apply Z.div_le_lower_bound; lia). lia. }
  1, 3: assert (k = 0%nat) as -> by (unfold k; rewrite Z.div_small by lia; done);
    simpl; unfold mret, outcome_ret; do 2 f_equal; lia.
  rewrite mem_read_app by lia. cbn [mbind outcome_bind].
  assert (Ek : (Zlen input - i) / 64 = (Zlen input - (i + 64)) / 64 + 1).
  { replace (Zlen input - i) with (Zlen input - (i + 64) + 1 * 64) by lia. by rewrite Z.div_add by lia. }
  assert (0 <= (Zlen input - (i + 64)) / 64) by (apply Z.div_pos; lia).
  rewrite u32_small by lia. rewrite IH by lia.
  assert (k = S (Z.to_nat ((Zlen input - (i + 64)) / 64))) as -> by (unfold k; lia).
  cbn [blocks]. unfold slice. rewrite drop_drop. do 2 f_equal; [|lia].
  do 2 f_equal. lia.
Qed.

Lemma MD5_memcpy_ok buf index data :
  0 <= index -> index + Zlen data <= 64 ->
  MD5_memcpy buf index data =
    Ok (take (Z.to_nat index) buf ++ data ++ drop (Z.to_nat (index + Zlen data)) buf).
Proof. intros. unfold MD5_memcpy. by rewrite (proj2 (Z.leb_le _ _)) by lia. Qed.

Lemma md5_div_app (l k : bytes) :
  let t := drop (64 * (length l / 64)) l in
  (length (l ++ k) / 64 = length l / 64 + length (t ++ k) / 64)%nat /\
  (length (l ++ k) mod 64 = length (t ++ k) mod 64)%nat /\
  drop (64 * (length (l ++ k) / 64)) (l ++ k) = drop (64 * (length (t ++ k) / 64)) (t ++ k) /\
  blocks (length (l ++ k) / 64) md5_iv (l ++ k) =
    blocks (length (t ++ k) / 64) (blocks (length l / 64) md5_iv l) (t ++ k).
Proof.
  intros t.
  assert (Hq : (64 * (length l / 64) <= length l)%nat) by (apply Nat.Div0.mul_div_le).
  assert (E1 : (length (l ++ k) / 64 = length l / 64 + length (t ++ k) / 64)%nat).
  { unfold t. rewrite !length_app, length_drop.
    replace (length l + length k)%nat
      with ((length l - 64 * (length l / 64) + length k) + (length l / 64) * 64)%nat by lia.
    rewrite Nat.div_add by lia. lia. }
  assert (E2 : drop (64 * (length l / 64)) (l ++ k) = t ++ k) by (by rewrite drop_app_le by lia).
  split_and!.
  - done.
  - rewrite (Nat.Div0.mod_eq (length (l ++ k))), (Nat.Div0.mod_eq (length (t ++ k))), E1.
    unfold t. rewrite !length_app, length_drop. lia.
  - rewrite E1, Nat.mul_add_distr_l, <- drop_drop. by rewrite E2.
  - rewrite E1, blocks_add, E2. by rewrite (blocks_prefix (length l / 64)) by lia.
Qed.

Lemma take_app_exact {A} (l k : list A) n : n = length l -> take n (l ++ k) = l.
Proof. intros ->. rewrite take_app_ge by lia. by rewrite Nat.sub_diag, take_0, app_nil_r. Qed.

Lemma zim_MD5Update_ok c msg input extra :
  md5_at c msg -> Zlen input <= 2 ^ 32 - 64 ->
  exists c', zim_MD5Update c (input ++ extra) (Zlen input) = Ok c' /\ md5_at c' (msg ++ input).
Proof.
  intros Hat Hlen. change (2 ^ 32 - 64) with 4294967232 in Hlen.
  pose proof (Zlen_nonneg input).
  destruct (md5_div_app msg input) as (E1 & E2 & E3 & E4).
  set (t := drop (64 * (length msg / 64)) msg) in *.
  assert (Hidx : (length msg mod 64 < 64)%nat) by (apply Nat.mod_upper_bound; lia).
  assert (Ht : length t = (length msg mod 64)%nat).
  { unfold t. rewrite length_drop, (Nat.Div0.mod_eq (length msg)). lia. }
  unfold zim_MD5Update. rewrite (at_index c msg Hat).
  set (idx := (length msg mod 64)%nat) in *.
  pose proof (count_step (count0 c) (count1 c) (8 * Zlen msg) (Zlen input)
    (at_c0 _ _ Hat) (at_c1 _ _ Hat) ltac:(lia) (at_count _ _ Hat)) as Hcount.
  cbv zeta in Hcount |- *.
  replace (8 * Zlen msg + 8 * Zlen input) with (8 * Zlen (msg ++ input)) in Hcount
    by (rewrite Zlen_app; lia).
  destruct Hcount as (Hn0 & Hn1 & Hn2). pose proof (at_len _ _ Hat) as Hb.
  pose proof (at_buf _ _ Hat) as Hbuf. fold t idx in Hbuf.
  assert (Hti : Zlen (t ++ input) = Z.of_nat idx + Zlen input) by (rewrite Zlen_app; unfold Zlen; lia).
  destruct (Z.leb_spec (64 - Z.of_nat idx) (Zlen input)) as [E|E].
  - set (part := 64 - Z.of_nat idx) in *.
    rewrite mem_read_app by lia. cbn [mbind outcome_bind].
    assert (Hpart : Zlen (slice input 0 part) = part) by (apply Zlen_slice; lia).
    rewrite MD5_memcpy_ok by lia. cbn [mbind outcome_bind].
    rewrite Hpart, Nat2Z.id, Hbuf.
    rewrite (drop_ge (buffer c)) by lia. rewrite app_nil_r.
    rewrite Update_loop_ok; [|lia|lia|].
    2: { rewrite Z2Nat.id by (apply Z.add_nonneg_nonneg; [apply Z.div_pos|]; lia).
         assert ((Zlen input - part) / 64 <= Zlen input / 64) by (apply Z.div_le_mono; lia). lia. }
    cbn [mbind outcome_bind].
    set (k := Z.to_nat ((Zlen input - part) / 64)).
    assert (Hk : 0 <= Zlen input - part - 64 * Z.of_nat k < 64).
    { unfold k. rewrite Z2Nat.id by (apply Z.div_pos; lia).
      pose proof (Z.mod_pos_bound (Zlen input - part) 64). pose proof (Z.div_mod (Zlen input - part) 64). lia. }
    rewrite (u32_small (Zlen input - (part + 64 * Z.of_nat k))) by lia.
    rewrite mem_read_app by lia. cbn [mbind outcome_bind].
    set (i := part + 64 * Z.of_nat k) in *.
    assert (Hi : i = part + 64 * Z.of_nat k) by done.
    assert (Hp : part = 64 - Z.of_nat idx) by done.
    assert (Hrest : Zlen (slice input i (Zlen input - i)) = Zlen input - i) by (apply Zlen_slice; lia).
    rewrite MD5_memcpy_ok by lia. eexists. split; [done|].
    assert (Eq : (length (t ++ input) / 64 = 1 + k)%nat).
    { symmetry. apply (Nat.div_unique _ _ _ (Z.to_nat (Zlen input - i))); [lia|].
      clear - Hti Hk Hi Hp. unfold Zlen in *. lia. }
    assert (Em : (length (t ++ input) mod 64 = Z.to_nat (Zlen input - i))%nat).
    { rewrite Nat.Div0.mod_eq, Eq. unfold Zlen in *. lia. }
    rewrite <- E2 in Em. rewrite Eq in E1, E3, E4.
    constructor; cbn [state count0 count1 buffer]; try done.
    + rewrite !length_app, length_drop, take_0. unfold Zlen in Hrest.
      rewrite !length_app, Ht. cbn [length]. unfold Zlen in *. lia.
    + rewrite E4, (at_state _ _ Hat). cbn [blocks Nat.add]. f_equal.
      * f_equal. rewrite take_app_ge by lia. do 2 f_equal.
        unfold slice. rewrite drop_0. f_equal. lia.
      * rewrite drop_app_ge by lia. f_equal. lia.
    + rewrite Em, E3. rewrite take_0. rewrite app_nil_l.
      rewrite take_app_exact by (clear - Hrest; unfold Zlen in *; lia).
      rewrite drop_app_ge by lia. unfold slice. rewrite take_ge.
      * f_equal. lia.
      * rewrite length_drop. unfold Zlen. lia.
  - rewrite mem_read_app by lia. cbn [mbind outcome_bind].
    rewrite slice_all, MD5_memcpy_ok by lia. eexists. split; [done|].
    assert (Eq : (length (t ++ input) / 64 = 0)%nat).
    { apply Nat.div_small. unfold Zlen in *. lia. }
    assert (Em : (length (t ++ input) mod 64 = length (t ++ input))%nat).
    { apply Nat.mod_small. unfold Zlen in *. lia. }
    rewrite Em in E2. rewrite Eq in E1, E3, E4.
    constructor; cbn [state count0 count1 buffer]; try done.
    + rewrite !length_app, length_take, length_drop. unfold Zlen in *. lia.
    + rewrite E4. apply Hat.
    + rewrite E2, E3, Nat2Z.id, Hbuf, app_assoc. by rewrite take_app_exact.
Qed.

Lemma Encode_word_le w : 0 <= w -> Encode_word w = le_bytes 4 w.
Proof.
  intros Hw. unfold Encode_word. cbn [le_bytes]. change 0xff with (Z.ones 8).
  rewrite !Z.land_ones, !Z.shiftr_div_pow2 by lia.
  change (2 ^ 8) with 256. change (2 ^ 16) with (256 * 256). change (2 ^ 24) with (256 * 256 * 256).
  by rewrite !Z.div_div by lia.
Qed.

Lemma le_bytes_app n m z : le_bytes (n + m) z = le_bytes n z ++ le_bytes m (z / 256 ^ Z.of_nat n).
Proof.
  revert z. induction n as [|n IH]; intros z; cbn [le_bytes Nat.add app].
  { by rewrite Z.div_1_r. }
  f_equal. rewrite IH. f_equal. f_equal.
  rewrite Nat2Z.inj_succ, Z.pow_succ_r, Z.div_div by (try apply Z.pow_nonzero; lia). done.
Qed.

Lemma le_bytes_mod n z k : le_bytes n (z + 256 ^ Z.of_nat n * k) = le_bytes n z.
Proof.
  revert z k. induction n as [|n IH]; intros z k; [done|]. cbn [le_bytes].
  rewrite Nat2Z.inj_succ, Z.pow_succ_r by lia.
  replace (z + 256 * 256 ^ Z.of_nat n * k) with (z + (256 ^ Z.of_nat n * k) * 256) by lia.
  rewrite Z.mod_add, Z.div_add by lia. by rewrite IH.
Qed.

Lemma Encode_count c msg : md5_at c msg -> Encode [count0 c; count1 c] = le_bytes 8 (8 * Zlen msg).
Proof.
  intros Hat. pose proof (at_c0 _ _ Hat). pose proof (at_c1 _ _ Hat). pose proof (at_count _ _ Hat) as E.
  unfold Encode. cbn [map concat]. rewrite app_nil_r, !Encode_word_le by lia.
  transitivity (le_bytes 8 (count0 c + 2 ^ 32 * count1 c)).
  - rewrite (le_bytes_app 4 4). change (256 ^ Z.of_nat 4) with (2 ^ 32). f_equal.
    + symmetry. apply (le_bytes_mod 4).
    + f_equal. rewrite Z.mul_comm, Z.div_add, Z.div_small by lia. done.
  - rewrite E. rewrite (Z.div_mod (8 * Zlen msg) (2 ^ 64)) at 2 by lia.
    rewrite Z.add_comm. symmetry. apply (le_bytes_mod 8).
Qed.

Lemma PADDING_split n : (1 <= n <= 64)%nat -> exists rest, PADDING = (0x80 :: repeat 0 (n - 1)) ++ rest.
Proof.
  intros Hn. exists (repeat 0 (64 - n)). unfold PADDING. cbn [app]. f_equal.
  rewrite <- repeat_app. f_equal. lia.
Qed.

Lemma md5_transform_range st b a :
  (let '(x, y, z, w) := MD5Transform st b in a = x \/ a = y \/ a = z \/ a = w) -> 0 <= a.
Proof.
  unfold MD5Transform. destruct (fold_left _ round4 _) as [[[? ?] ?] ?], st as [[[? ?] ?] ?].
  pose proof u32_range as Hu. intros [-> |[-> |[-> | ->]]]; apply Hu.
Qed.

Definition words_nonneg (st : word4) : Prop :=
  let '(a, b, c, d) := st in 0 <= a /\ 0 <= b /\ 0 <= c /\ 0 <= d.

Lemma blocks_nonneg n st l : words_nonneg st -> words_nonneg (blocks n st l).
Proof.
  revert st l. induction n as [|n IH]; intros st l Hst; cbn [blocks]; [done|]. apply IH.
  pose proof (md5_transform_range st (take 64 l)) as Hr.
  destruct (MD5Transform st (take 64 l)) as [[[x y] z] w]. simpl in *.
  split_and!; apply Hr; auto.
Qed.

Lemma zim_MD5Final_ok c msg : md5_at c msg -> zim_MD5Final c = Ok (md5 msg).
Proof.
  intros Hat. unfold zim_MD5Final. rewrite (at_index c msg Hat), (Encode_count c msg Hat).
  assert (Hidx : (length msg mod 64 < 64)%nat) by (apply Nat.mod_upper_bound; lia).
  set (pad := if Z.of_nat (length msg mod 64) <? 56 then 56 - Z.of_nat (length msg mod 64)
              else 120 - Z.of_nat (length msg mod 64)).
  assert (Hpad : 1 <= pad <= 64 /\ pad - 1 = (55 - Zlen msg) mod 64).
  { unfold pad, Zlen. rewrite <- (Zminus_mod_idemp_r 55).
    replace (Z.of_nat (length msg) mod 64) with (Z.of_nat (length msg mod 64))
      by (by rewrite Nat2Z.inj_mod).
    generalize dependent (length msg mod 64)%nat. intros r Hr _.
    destruct (Z.ltb_spec (Z.of_nat r) 56); split; try lia.
    - rewrite Z.mod_small; lia.
    - apply (Z.mod_unique_pos _ _ (-1)); lia. }
  destruct Hpad as [Hpad Hzero].
  destruct (PADDING_split (Z.to_nat pad)) as (rest & ->); [lia|].
  set (padding := 128 :: repeat 0 (Z.to_nat pad - 1)).
  assert (Hpl : Zlen padding = pad) by (unfold padding; rewrite Zlen_cons, Zlen_repeat; lia).
  rewrite <- Hpl at 1.
  destruct (zim_MD5Update_ok c msg padding rest Hat) as (c1 & -> & Hat1); [rewrite Hpl; lia|].
  cbn [mbind outcome_bind].
  set (len := le_bytes 8 (8 * Zlen msg)).
  assert (Hll : Zlen len = 8) by (unfold Zlen, len; by rewrite length_le_bytes).
  destruct (zim_MD5Update_ok c1 (msg ++ padding) len [] Hat1) as (c2 & E & Hat2); [rewrite Hll; lia|].
  rewrite app_nil_r, Hll in E. rewrite E. cbn [mbind outcome_bind]. clear E.
  assert (Epad : (msg ++ padding) ++ len = md5_pad msg).
  { unfold md5_pad, padding. rewrite <- app_assoc. f_equal. cbn [app]. f_equal. f_equal.
    f_equal. lia. }
  rewrite Epad in Hat2. rewrite (at_state _ _ Hat2). unfold md5.
  pose proof (blocks_nonneg (length (md5_pad msg) / 64) md5_iv (md5_pad msg) ltac:(done)) as Hw.
  destruct (blocks _ _ _) as [[[w x] y] z]. destruct Hw as (?&?&?&?).
  unfold Encode. cbn [map concat]. by rewrite !Encode_word_le, app_nil_r by lia.
Qed.

(** * UUIDs *)

Definition hex : bytes := lit "0123456789abcdef".
Definition hi (v : Z) : Z := nth (Z.to_nat (Z.land (Z.shiftr (schar v) 4) 0xf)) hex 0.
Definition lo (v : Z) : Z := nth (Z.to_nat (Z.land (schar v) 0xf)) hex 0.

(** [Uuid::generate(value)]. For an empty [value] the clock and the time of
    day are hashed: the bytes of [c] and [tv]. *)
Definition Uuid_generate (garbage c tv value : bytes) : outcome bytes :=
  let md5ctx := zim_MD5Init garbage in
  md5ctx ← (if bool_decide (value = []) then
              md5ctx ← zim_MD5Update md5ctx c (Zlen c);
              zim_MD5Update md5ctx tv (Zlen tv)
            else zim_MD5Update md5ctx value (u32 (Zlen value)));
  zim_MD5Final md5ctx.

Definition Uuid_eqb (x y : bytes) : bool := bool_decide (x = y).

Fixpoint hex_digits (l : bytes) : bytes :=
  match l with
  | [] => []
  | b :: l => hi b :: lo b :: hex_digits l
  end.

(** [operator<<]. *)
Definition Uuid_print (data : bytes) : bytes :=
  hex_digits (slice data 0 4) ++ lit "-" ++ hex_digits (slice data 4 2) ++ lit "-" ++
  hex_digits (slice data 6 2) ++ lit "-" ++ hex_digits (slice data 8 2) ++ lit "-" ++
  hex_digits (slice data 10 6).

(** * Properties *)

(** The updates of [cs] in order. *)
Fixpoint update_all (c : zim_MD5_CTX) (cs : list bytes) : outcome zim_MD5_CTX :=
  match cs with
  | [] => mret c
  | x :: cs => c ← zim_MD5Update c x (Zlen x); update_all c cs
  end.



Lemma hex_digit_inj x y :
  0 <= x < 16 -> 0 <= y < 16 -> nth (Z.to_nat x) hex 0 = nth (Z.to_nat y) hex 0 -> x = y.
Proof.
  intros Hx Hy E.
  assert (Hd : forallb (fun a => forallb (fun b =>
      negb (nth a hex 0 =? nth b hex 0) || (a =? b)%nat) (seq 0 16)) (seq 0 16) = true)
    by (by vm_compute).
  rewrite forallb_forall in Hd. specialize (Hd (Z.to_nat x) ltac:(apply in_seq; lia)).
  rewrite forallb_forall in Hd. specialize (Hd (Z.to_nat y) ltac:(apply in_seq; lia)).
  rewrite E, Z.eqb_refl in Hd. simpl in Hd. apply Nat.eqb_eq in Hd. lia.
Qed.

Lemma byte_of_nibbles b : byte_ok b ->
  b = 16 * Z.land (Z.shiftr (schar b) 4) 0xf + Z.land (schar b) 0xf.
Proof.
  intros [H1 H2]. change (2 ^ 8) with 256 in H2. change 0xf with (Z.ones 4).
  rewrite !Z.land_ones, Z.shiftr_div_pow2 by lia. change (2 ^ 4) with 16.
  unfold schar. destruct (Z.ltb_spec b 128); Z.to_euclidean_division_equations; lia.
Qed.

Lemma hex_digits_length l : Zlen (hex_digits l) = 2 * Zlen l.
Proof. induction l; cbn [hex_digits]; rewrite ?Zlen_cons in *; [done|lia]. Qed.

Lemma nibble_range z : 0 <= Z.land z 0xf < 16.
Proof. change 0xf with (Z.ones 4). rewrite Z.land_ones by lia. by apply Z.mod_pos_bound. Qed.

Lemma hex_digits_inj l k : bytes_ok l -> bytes_ok k -> hex_digits l = hex_digits k -> l = k.
Proof.
  intros Hl. revert k. induction Hl as [|x l Hx Hl IH]; intros [|y k] Hk E; try done.
  inversion_clear Hk as [|? ? Hy Hk']. cbn [hex_digits] in E. injection E as E1 E2 E3.
  f_equal; [|auto].
  rewrite (byte_of_nibbles x Hx), (byte_of_nibbles y Hy).
  apply hex_digit_inj in E1, E2; auto using nibble_range. congruence.
Qed.

Lemma app_inj_len (a b c d : bytes) : Zlen a = Zlen c -> a ++ b = c ++ d -> a = c /\ b = d.
Proof. unfold Zlen. intros H1 H2. apply app_inj_1; [lia|done]. Qed.

Lemma uuid_fields (l : bytes) : Zlen l = 16 ->
  l = slice l 0 4 ++ slice l 4 2 ++ slice l 6 2 ++ slice l 8 2 ++ slice l 10 6.
Proof.
  intros Hl.
  assert (E1 : slice l 8 8 = slice l 8 2 ++ slice l 10 6) by (by apply (slice_split l 8 2 6)).
  assert (E2 : slice l 6 10 = slice l 6 2 ++ slice l 8 8) by (by apply (slice_split l 6 2 8)).
  assert (E3 : slice l 4 12 = slice l 4 2 ++ slice l 6 10) by (by apply (slice_split l 4 2 10)).
  assert (E4 : slice l 0 16 = slice l 0 4 ++ slice l 4 12) by (by apply (slice_split l 0 4 12)).
  rewrite <- E1, <- E2, <- E3, <- E4.
  symmetry. apply slice_0. lia.
Qed.

(** The text of a UUID ([operator<<]) has 36 characters and identifies it:
    two 16-byte UUIDs that print the same are equal, so [operator==] holds
    exactly when the texts agree. *)
Theorem uuid_print_faithful x y :
  bytes_ok x -> bytes_ok y -> Zlen x = 16 -> Zlen y = 16 ->
  Zlen (Uuid_print x) = 36 /\ Uuid_eqb x y = bool_decide (Uuid_print x = Uuid_print y).
Proof.
  intros Hx Hy Lx Ly. split.
  { unfold Uuid_print. rewrite !Zlen_app, !hex_digits_length, !Zlen_slice by lia. done. }
  unfold Uuid_eqb. apply bool_decide_ext. split; [by intros ->|]. unfold Uuid_print. intros E.
  assert (Hs : forall l off n, bytes_ok l -> bytes_ok (slice l off n)).
  { intros l off n Hl. unfold slice. by apply Forall_take, Forall_drop. }
  repeat (apply app_inj_len in E as [?%hex_digits_inj E];
    [apply app_inj_len in E as [_ E]; [|done]|auto..|
     rewrite !hex_digits_length, !Zlen_slice by lia; done]).
  apply hex_digits_inj in E; [|auto..].
  rewrite (uuid_fields x Lx), (uuid_fields y Ly). congruence.
Qed.

Lemma uuid_print_faithful_witness :
  Zlen (Uuid_print (repeat 255 16)) = 36 /\
  Uuid_eqb (repeat 255 16) (repeat 254 16) =
    bool_decide (Uuid_print (repeat 255 16) = Uuid_print (repeat 254 16)).
Proof.
  apply (uuid_print_faithful (repeat 255 16) (repeat 254 16)); try done;
    repeat constructor; by vm_compute.
Defined.
