(* ===== verification/Dirent.v ===== *)
(** Directory entries as the reading side sees them ([_dirent.h],
    [dirent.cpp], [direntreader.h]).

    [readDirent] does not know the size of an entry: it reads 256 bytes, tries
    to parse them, and tries again with 256 bytes more. The vector it reads into
    is kept between calls; only its first [bufferSize] bytes belong to the
    entry, and what follows them is whatever an earlier call left there. *)

From stdpp Require Import strings.
From S2P Require Import Prelude.
From S2P Require Import Types.
From S2P Require Import Readers.

Module Dirent.

Definition redirectMimeType : Z := 0xffff.
Definition linktargetMimeType : Z := 0xfffe.
Definition deletedMimeType : Z := 0xfffd.

Record t : Type := mk {
  mimeType : Z;
  version : Z;
  clusterNumber : Z;
  blobNumber : Z;
  redirectIndex : Z;
  ns : Z;
  title : bytes;
  url : bytes;
  parameter : bytes;
}.

Definition new : t := mk 0 0 0 0 0 0 [] [] [].

Definition isRedirect (d : t) : bool := mimeType d =? redirectMimeType.
Definition isLinktarget (d : t) : bool := mimeType d =? linktargetMimeType.
Definition isDeleted (d : t) : bool := mimeType d =? deletedMimeType.
Definition isArticle (d : t) : bool := negb (isRedirect d) && negb (isLinktarget d) && negb (isDeleted d).
Definition getMimeType (d : t) : Z := mimeType d.
Definition getVersion (d : t) : Z := version d.
Definition getClusterNumber (d : t) : Z := if isRedirect d then 0 else clusterNumber d.
Definition getBlobNumber (d : t) : Z := if isRedirect d then 0 else blobNumber d.
Definition getRedirectIndex (d : t) : Z := if isRedirect d then redirectIndex d else 0.
Definition getNamespace (d : t) : Z := ns d.
Definition getTitle (d : t) : bytes := if bool_decide (title d = []) then url d else title d.
Definition getUrl (d : t) : bytes := url d.
Definition getParameter (d : t) : bytes := parameter d.

Definition getLongUrl (d : t) : bytes := [getNamespace d] ++ lit "/" ++ getUrl d.

Definition getDirentSize (d : t) : Z :=
  let ret := u64 ((if isRedirect d then 12 else 16) + Zlen (url d) + Zlen (parameter d) + 2) in
  if bool_decide (title d <> url d) then u64 (ret + Zlen (title d)) else ret.

Definition setVersion (d : t) (v : Z) : t :=
  mk (mimeType d) v (clusterNumber d) (blobNumber d) (redirectIndex d) (ns d) (title d) (url d) (parameter d).
Definition setTitle (d : t) (title_ : bytes) : t :=
  mk (mimeType d) (version d) (clusterNumber d) (blobNumber d) (redirectIndex d) (ns d) title_ (url d) (parameter d).
Definition setUrl (d : t) (ns_ : Z) (url_ : bytes) : t :=
  mk (mimeType d) (version d) (clusterNumber d) (blobNumber d) (redirectIndex d) ns_ (title d) url_ (parameter d).
Definition setParameter (d : t) (p : bytes) : t :=
  mk (mimeType d) (version d) (clusterNumber d) (blobNumber d) (redirectIndex d) (ns d) (title d) (url d) p.
Definition setRedirect (d : t) (idx : Z) : t :=
  mk redirectMimeType (version d) (clusterNumber d) (blobNumber d) idx (ns d) (title d) (url d) (parameter d).
Definition setItem (d : t) (mimeType_ clusterNumber_ blobNumber_ : Z) : t :=
  mk mimeType_ (version d) clusterNumber_ blobNumber_ (redirectIndex d) (ns d) (title d) (url d) (parameter d).

End Dirent.

(** * [DirentReader] *)

(** [std::string(reader.current(), n)]. *)
Definition stream_string (s : BufferStreamer) (n : Z) : outcome bytes :=
  mem_read (s_mem s) (s_current s) n.

(** Returns whether the entry is complete, and the entry as it was set. *)
Definition initDirent (dirent : Dirent.t) (direntData : Buffer) : outcome (bool * Dirent.t) :=
  reader ← BufferStreamer_of direntData;
  '(mimeType, reader) ← stream_read 2 reader;
  let redirect := mimeType =? Dirent.redirectMimeType in
  let linktarget := mimeType =? Dirent.linktargetMimeType in
  let deleted := mimeType =? Dirent.deletedMimeType in
  '(extraLen, reader) ← stream_read 1 reader;
  '(ns, reader) ← stream_read 1 reader;
  '(version, reader) ← stream_read 4 reader;
  let dirent := Dirent.setVersion dirent version in
  '(dirent, reader) ←
    (if redirect then
       '(redirectIndex, reader) ← stream_read 4 reader;
       mret (Dirent.setRedirect dirent redirectIndex, reader)
     else if linktarget || deleted then
       mret (Dirent.setItem dirent mimeType 0 0, reader)
     else
       '(clusterNumber, reader) ← stream_read 4 reader;
       '(blobNumber, reader) ← stream_read 4 reader;
       mret (Dirent.setItem dirent mimeType clusterNumber blobNumber, reader));
  url_size ← strnlen (s_mem reader) (s_current reader) (u64 (s_left reader - extraLen));
  if s_left reader <=? url_size then mret (false, dirent) else
  url ← stream_string reader url_size;
  let reader := skip reader (url_size + 1) in
  title_size ← strnlen (s_mem reader) (s_current reader) (u64 (s_left reader - extraLen));
  if s_left reader <=? title_size then mret (false, dirent) else
  title ← stream_string reader title_size;
  let reader := skip reader (title_size + 1) in
  if s_left reader <? extraLen then mret (false, dirent) else
  parameter ← stream_string reader extraLen;
  let dirent := Dirent.setUrl dirent ns url in
  let dirent := Dirent.setTitle dirent title in
  let dirent := Dirent.setParameter dirent parameter in
  mret (true, dirent).

Section readDirent.
Context `{Reader R} (mp_zimReader : R).

(** [m_buffer.reserve(n)], then the read over its first bytes: the memory of
    the vector. A vector that must grow gets a fresh block of [n] bytes. *)
Definition buffer_fill (m_buffer : bytes) (n : Z) (data : bytes) : bytes :=
  data ++ (if n <=? Zlen m_buffer then drop (Z.to_nat n) m_buffer else []).

(** The retries. Every one needs 256 bytes more, and the reader refuses a
    request past its end: the fuel covers all that fit. *)
Fixpoint readDirent_loop (fuel : nat) (m_buffer : bytes) (dirent : Dirent.t) (offset bufferSize : Z) :
    outcome (Dirent.t * bytes) :=
  match fuel with
  | O => Diverge
  | S fuel =>
      data ← r_read mp_zimReader offset bufferSize;
      let m_buffer := buffer_fill m_buffer bufferSize data in
      buf ← Buffer_new m_buffer 0 bufferSize;
      '(ok, dirent) ← initDirent dirent buf;
      if (ok : bool) then mret (dirent, m_buffer)
      else readDirent_loop fuel m_buffer dirent offset (u64 (bufferSize + 256))
  end.

Definition readDirent (m_buffer : bytes) (offset : Z) : outcome (Dirent.t * bytes) :=
  let totalSize := r_size mp_zimReader in
  if totalSize <=? offset then Throw (ZimFileFormatError "Invalid dirent pointer")
  else
    let bufferSize := Z.min 256 (u64 (r_size mp_zimReader - offset)) in
    readDirent_loop (Z.to_nat ((totalSize - offset) / 256 + 2)) m_buffer Dirent.new offset bufferSize.

End readDirent.

(** * Lemmas *)

(** ** The layout of an entry *)

(** The bytes of an entry without parameter: the fields up to the version, the
    numbers of its kind, the two strings. *)
Definition dirent_bytes (mime nsp ver : Z) (numbers : list Z) (url title : bytes) : bytes :=
  toLittleEndian 2 mime ++ [0; nsp] ++ toLittleEndian 4 ver ++
  concat (map (toLittleEndian 4) numbers) ++ (url ++ [0]) ++ title ++ [0].

Definition no_nul (l : bytes) : Prop := Forall (fun b => b <> 0) l.

(** The streamer holds exactly the bytes [l] of its buffer. *)
Definition stream_exact (s : BufferStreamer) (l : bytes) : Prop :=
  stream_has s l /\ s_left s = Zlen l.

Lemma stream_exact_skip s a k :
  Zlen (a ++ k) < 2 ^ 64 -> stream_exact s (a ++ k) -> stream_exact (skip s (Zlen a)) k.
Proof.
  intros Hl [Hs Hleft]. split; [by apply stream_has_skip|]. cbn [skip s_left].
  pose proof (Zlen_nonneg a). pose proof (Zlen_nonneg k). rewrite Zlen_app in *.
  rewrite Hleft, u64_small; lia.
Qed.

Lemma stream_exact_read s a k :
  Zlen (a ++ k) < 2 ^ 64 -> stream_exact s (a ++ k) ->
  stream_read (length a) s = Ok (fromLittleEndian (length a) a, skip s (Zlen a)) /\
  stream_exact (skip s (Zlen a)) k.
Proof.
  intros Hl Hs. split; [|by apply stream_exact_skip]. apply stream_read_has with k, Hs.
Qed.

Lemma strnlen_loop_nul l k m :
  no_nul l -> Zlen l < m -> strnlen_loop (l ++ 0 :: k) m = Ok (Zlen l).
Proof.
  intros Hl. revert m. induction Hl as [|x l Hx Hl IH]; intros m Hm; cbn [app strnlen_loop].
  - rewrite Zlen_nil in Hm. by rewrite (proj2 (Z.leb_gt m 0)) by lia.
  - rewrite Zlen_cons in *. pose proof (Zlen_nonneg l).
    rewrite (proj2 (Z.leb_gt m 0)) by lia. rewrite (proj2 (Z.eqb_neq x 0)) by done.
    by rewrite IH by lia.
Qed.

Lemma strnlen_loop_full l k : no_nul l -> strnlen_loop (l ++ k) (Zlen l) = Ok (Zlen l).
Proof.
  induction 1 as [|x l Hx Hl IH]; cbn [app].
  - by destruct k.
  - cbn [strnlen_loop]. rewrite Zlen_cons. pose proof (Zlen_nonneg l).
    rewrite (proj2 (Z.leb_gt _ 0)) by lia. rewrite (proj2 (Z.eqb_neq x 0)) by done.
    replace (1 + Zlen l - 1) with (Zlen l) by lia. by rewrite IH.
Qed.

Lemma strnlen_stream s l m :
  stream_has s l -> exists k, strnlen (s_mem s) (s_current s) m = strnlen_loop (l ++ k) m.
Proof.
  intros (pre & post & -> & ->). exists post. unfold strnlen.
  pose proof (Zlen_nonneg pre). pose proof (Zlen_nonneg l). pose proof (Zlen_nonneg post).
  rewrite !Zlen_app. rewrite (proj2 (Z.leb_le 0 _)), (proj2 (Z.leb_le _ (_ + _))) by lia.
  cbn [andb]. unfold Zlen. rewrite Nat2Z.id. by rewrite drop_app_length.
Qed.

(** A string and its terminator, or a string cut by the end of the buffer. *)
Lemma strnlen_found s l k m :
  stream_has s (l ++ 0 :: k) -> no_nul l -> Zlen l < m ->
  strnlen (s_mem s) (s_current s) m = Ok (Zlen l).
Proof.
  intros Hs Hl Hm. destruct (strnlen_stream s _ m Hs) as (rest & ->).
  rewrite <- app_assoc. by apply strnlen_loop_nul.
Qed.

Lemma strnlen_cut s l :
  stream_has s l -> no_nul l -> strnlen (s_mem s) (s_current s) (Zlen l) = Ok (Zlen l).
Proof.
  intros Hs Hl. destruct (strnlen_stream s _ (Zlen l) Hs) as (rest & ->).
  by apply strnlen_loop_full.
Qed.

(** ** Parsing *)

(** What the numbers of an entry say, by its kind. *)
Inductive dirent_kind (d : Dirent.t) : Z -> list Z -> Dirent.t -> Prop :=
  | kind_redirect i :
      fits 32 i -> dirent_kind d Dirent.redirectMimeType [i] (Dirent.setRedirect d i)
  | kind_void m :
      m = Dirent.linktargetMimeType \/ m = Dirent.deletedMimeType ->
      dirent_kind d m [] (Dirent.setItem d m 0 0)
  | kind_item m c b :
      fits 16 m -> m < Dirent.deletedMimeType -> fits 32 c -> fits 32 b ->
      dirent_kind d m [c; b] (Dirent.setItem d m c b).

Definition dirent_header (mime nsp ver : Z) (numbers : list Z) : bytes :=
  toLittleEndian 2 mime ++ [0; nsp] ++ toLittleEndian 4 ver ++ concat (map (toLittleEndian 4) numbers).

Lemma dirent_bytes_header mime nsp ver numbers url title :
  dirent_bytes mime nsp ver numbers url title =
    dirent_header mime nsp ver numbers ++ (url ++ [0]) ++ title ++ [0].
Proof. unfold dirent_bytes, dirent_header. by rewrite <- !app_assoc. Qed.

(** The part of [initDirent] after the numbers, without parameter. *)
Definition initDirent_strings (ns : Z) (dirent : Dirent.t) (reader : BufferStreamer) :
    outcome (bool * Dirent.t) :=
  url_size ← strnlen (s_mem reader) (s_current reader) (u64 (s_left reader - 0));
  if s_left reader <=? url_size then mret (false, dirent) else
  url ← stream_string reader url_size;
  let reader := skip reader (url_size + 1) in
  title_size ← strnlen (s_mem reader) (s_current reader) (u64 (s_left reader - 0));
  if s_left reader <=? title_size then mret (false, dirent) else
  title ← stream_string reader title_size;
  let reader := skip reader (title_size + 1) in
  if s_left reader <? 0 then mret (false, dirent) else
  parameter ← stream_string reader 0;
  let dirent := Dirent.setUrl dirent ns url in
  let dirent := Dirent.setTitle dirent title in
  let dirent := Dirent.setParameter dirent parameter in
  mret (true, dirent).

Lemma toLittleEndian_1 z : byte_ok z -> fromLittleEndian 1 [z] = z.
Proof.
  intros Hz. rewrite fromLittleEndian_val by (try done; by constructor). simpl. lia.
Qed.

Lemma kind_mime d m nums d' : dirent_kind d m nums d' -> fits 16 m.
Proof.
  destruct 1 as [i Hi|m' [-> | ->]|m' c b Hm]; try done; split; by vm_compute.
Qed.

Lemma initDirent_header mem n d mime nsp ver numbers d' tail :
  dirent_kind (Dirent.setVersion d ver) mime numbers d' -> byte_ok nsp -> fits 32 ver ->
  let data := dirent_header mime nsp ver numbers ++ tail in
  Zlen data = n -> n < 2 ^ 64 -> stream_has (mkStreamer mem 0 n) data ->
  exists s, initDirent d (mkBuffer mem 0 n) = initDirent_strings nsp d' s /\ stream_exact s tail.
Proof.
  intros Hk Hns Hver data Hn Hlt Hs. pose proof (kind_mime _ _ _ _ Hk) as Hmime.
  unfold initDirent, BufferStreamer_of, BufferStreamer_new, Buffer_data. cbn [m_size m_mem m_ptr].
  pose proof (Zlen_nonneg data). rewrite (proj2 (Z.leb_le 0 n)) by lia.
  cbn [ASSERT mbind outcome_bind mret outcome_ret]. change (0 + 0) with 0.
  assert (He : stream_exact (mkStreamer mem 0 n) data) by done. clear Hs.
  rewrite <- Hn in Hlt. clear Hn. revert He Hlt. generalize (mkStreamer mem 0 n). intros s He Hlt.
  unfold data, dirent_header in He, Hlt. rewrite <- !app_assoc in He, Hlt.
  assert (Hnext : forall s a k, stream_exact s (a ++ k) -> Zlen (a ++ k) < 2 ^ 64 ->
    stream_read (length a) s = Ok (fromLittleEndian (length a) a, skip s (Zlen a)) /\
    stream_exact (skip s (Zlen a)) k /\ Zlen k < 2 ^ 64).
  { intros s0 a k Hs Hl. pose proof (Zlen_nonneg a). rewrite Zlen_app in Hl.
    split; [apply stream_read_has with k, Hs|]. split; [|lia].
    apply stream_exact_skip; [rewrite Zlen_app; lia|done]. }
  destruct (Hnext _ _ _ He Hlt) as (E & He1 & Hl1). rewrite length_toLittleEndian in E by auto.
  rewrite E, from_to_LittleEndian, wrap_small by auto. clear E. cbn [mbind outcome_bind].
  change ([0; nsp] ++ ?x) with ([0] ++ [nsp] ++ x) in He1, Hl1.
  destruct (Hnext _ _ _ He1 Hl1) as (E & He2 & Hl2). cbn [length] in E. rewrite E. clear E.
  destruct (Hnext _ _ _ He2 Hl2) as (E & He3 & Hl3). cbn [length] in E.
  cbn [mbind outcome_bind]. rewrite E, (toLittleEndian_1 nsp) by done. clear E. cbn [mbind outcome_bind].
  destruct (Hnext _ _ _ He3 Hl3) as (E & He4 & Hl4). rewrite length_toLittleEndian in E by auto.
  rewrite E, from_to_LittleEndian, wrap_small by auto. clear E. cbn [mbind outcome_bind].
  change (fromLittleEndian 1 [0]) with 0.
  clear He He1 He2 He3 Hlt Hl1 Hl2 Hl3. revert He4 Hl4.
  lazymatch goal with |- stream_exact ?s0 _ -> _ => generalize s0 end. intros s1 He Hl.
  destruct Hk as [i Hi|m [-> | ->]|m c b _ Hm Hc Hb].
  - change (Dirent.redirectMimeType =? Dirent.redirectMimeType) with true. cbv iota.
    cbn [map concat] in He, Hl. rewrite app_nil_r in He, Hl.
    destruct (Hnext _ _ _ He Hl) as (E & He1 & Hl1). rewrite length_toLittleEndian in E by auto.
    rewrite E, from_to_LittleEndian, wrap_small by auto.
    eexists. split; [reflexivity|exact He1].
  - by exists s1.
  - by exists s1.
  - unfold Dirent.redirectMimeType, Dirent.linktargetMimeType, Dirent.deletedMimeType in *.
    rewrite !(proj2 (Z.eqb_neq m _)) by lia. cbn [orb].
    cbn [map concat] in He, Hl. rewrite app_nil_r, <- !app_assoc in He, Hl.
    destruct (Hnext _ _ _ He Hl) as (E & He1 & Hl1). rewrite length_toLittleEndian in E by auto.
    rewrite E, from_to_LittleEndian, wrap_small by auto. clear E. cbn [mbind outcome_bind].
    destruct (Hnext _ _ _ He1 Hl1) as (E & He2 & Hl2). rewrite length_toLittleEndian in E by auto.
    rewrite E, from_to_LittleEndian, wrap_small by auto.
    eexists. split; [reflexivity|exact He2].
Qed.

Lemma no_nul_app l k : no_nul (l ++ k) -> no_nul l.
Proof. unfold no_nul. rewrite Forall_app. tauto. Qed.

(** A proper prefix of a terminated string holds no terminator. *)
Lemma prefix_of_terminated p q l :
  p ++ q = l ++ [0] -> q <> [] -> no_nul l -> no_nul p.
Proof.
  intros E Hq Hl. apply app_eq_inv in E as [(k & -> & E)|(k & -> & E)].
  - destruct k as [|x k]; [by rewrite app_nil_r|]. 
    injection E as _ E. symmetry in E. by apply app_eq_nil in E as [_ ->].
  - by apply no_nul_app in Hl.
Qed.

Definition with_strings (d : Dirent.t) (ns : Z) (url title : bytes) : Dirent.t :=
  Dirent.setParameter (Dirent.setTitle (Dirent.setUrl d ns url) title) [].

Lemma initDirent_strings_complete ns d s url title rest :
  stream_exact s ((url ++ [0]) ++ (title ++ [0]) ++ rest) ->
  Zlen ((url ++ [0]) ++ (title ++ [0]) ++ rest) < 2 ^ 64 -> no_nul url -> no_nul title ->
  initDirent_strings ns d s = Ok (true, with_strings d ns url title).
Proof.
  intros He Hlt Hu Ht.
  pose proof (Zlen_nonneg url). pose proof (Zlen_nonneg title). pose proof (Zlen_nonneg rest).
  assert (Hlen : Zlen ((url ++ [0]) ++ (title ++ [0]) ++ rest) = Zlen url + Zlen title + Zlen rest + 2)
    by (autorewrite with zlen; lia).
  pose proof (stream_exact_skip s _ _ Hlt He) as He1.
  destruct He as [Hs Hleft]. pose proof He1 as [Hs1 Hleft1].
  assert (He2 := stream_exact_skip _ (title ++ [0]) rest ltac:(autorewrite with zlen in *; lia) He1).
  replace (Zlen (url ++ [0])) with (Zlen url + 1) in * by (rewrite Zlen_app; done).
  replace (Zlen (title ++ [0])) with (Zlen title + 1) in * by (rewrite Zlen_app; done).
  unfold initDirent_strings. rewrite Hleft, Hlen, Z.sub_0_r.
  rewrite u64_small by lia. rewrite <- app_assoc in Hs.
  rewrite (strnlen_found s url _ _ Hs Hu) by lia. cbn [mbind outcome_bind].
  rewrite (proj2 (Z.leb_gt _ _)) by lia. unfold stream_string.
  rewrite (stream_has_mem s url (stream_has_app _ _ _ Hs)). cbn [mbind outcome_bind]. cbv zeta.
  rewrite Hleft1. rewrite <- app_assoc in Hs1, He1.
  assert (Hlen1 : Zlen ((title ++ [0]) ++ rest) = Zlen title + Zlen rest + 1)
    by (autorewrite with zlen; lia).
  rewrite Hlen1, Z.sub_0_r, u64_small by lia.
  rewrite (strnlen_found _ title _ _ Hs1 Ht) by lia. cbn [mbind outcome_bind].
  rewrite (proj2 (Z.leb_gt _ _)) by lia.
  rewrite (stream_has_mem _ title (stream_has_app _ _ _ Hs1)). cbn [mbind outcome_bind]. cbv zeta.
  destruct He2 as [Hs2 Hleft2]. rewrite Hleft2, (proj2 (Z.ltb_ge _ _)) by lia.
  rewrite <- (app_nil_l rest) in Hs2.
  pose proof (stream_has_mem _ [] (stream_has_app _ _ _ Hs2)) as Em. rewrite Zlen_nil in Em.
  by rewrite Em.
Qed.

Lemma initDirent_strings_cut ns d s url title p q :
  stream_exact s p -> p ++ q = (url ++ [0]) ++ title ++ [0] -> q <> [] ->
  Zlen p < 2 ^ 64 -> no_nul url -> no_nul title ->
  initDirent_strings ns d s = Ok (false, d).
Proof.
  intros He Epq Hq Hlt Hu Ht. pose proof (Zlen_nonneg p).
  assert (Hcut : forall s p, stream_exact s p -> no_nul p -> 0 <= Zlen p < 2 ^ 64 ->
    strnlen (s_mem s) (s_current s) (u64 (s_left s - 0)) = Ok (s_left s)).
  { intros s0 p0 [Hs0 ->] Hp0 Hl0. rewrite Z.sub_0_r, u64_small by lia. by apply strnlen_cut. }
  unfold initDirent_strings.
  apply app_eq_inv in Epq as [(k & -> & Ek)|(k & Ek & ->)].
  - rewrite Zlen_app in Hlt. pose proof (Zlen_nonneg (url ++ [0])). pose proof (Zlen_nonneg k).
    assert (Hsk := stream_exact_skip s (url ++ [0]) k ltac:(rewrite Zlen_app; lia) He).
    assert (Hk : no_nul k) by (by apply (prefix_of_terminated k q title)).
    destruct He as [Hs Hleft]. rewrite <- app_assoc in Hs.
    rewrite Hleft, Zlen_app, Z.sub_0_r, u64_small by lia.
    replace (Zlen (url ++ [0])) with (Zlen url + 1) in * by (rewrite Zlen_app; done).
    rewrite (strnlen_found s url _ _ Hs Hu) by lia. cbn [mbind outcome_bind].
    rewrite (proj2 (Z.leb_gt _ _)) by lia. unfold stream_string.
    rewrite (stream_has_mem s url (stream_has_app _ _ _ Hs)). cbn [mbind outcome_bind]. cbv zeta.
    rewrite (Hcut _ k) by (try done; lia). cbn [mbind outcome_bind].
    by rewrite (proj2 (Z.leb_le _ _)) by lia.
  - destruct k as [|x k].
    + rewrite app_nil_r in Ek. subst p. pose proof He as [Hs Hleft].
      assert (Hsk := stream_exact_skip s (url ++ [0]) [] ltac:(rewrite app_nil_r; lia)
                       ltac:(by rewrite app_nil_r)).
      rewrite Hleft, Z.sub_0_r, u64_small by lia.
      replace (Zlen (url ++ [0])) with (Zlen url + 1) in * by (rewrite Zlen_app; done).
      rewrite (strnlen_found s url [] _ Hs Hu) by lia. cbn [mbind outcome_bind].
      rewrite (proj2 (Z.leb_gt _ _)) by lia. unfold stream_string.
      rewrite (stream_has_mem s url (stream_has_app _ _ _ Hs)). cbn [mbind outcome_bind]. cbv zeta.
      rewrite (Hcut _ []) by (try done; by constructor). cbn [mbind outcome_bind].
      by rewrite (proj2 (Z.leb_le _ _)) by lia.
    + assert (Hp : no_nul p) by (apply (prefix_of_terminated p (x :: k) url); done).
      rewrite (Hcut s p) by (try done; lia). cbn [mbind outcome_bind].
      by rewrite (proj2 (Z.leb_le _ _)) by lia.
Qed.

Lemma kind_idempotent ver m nums d' :
  dirent_kind (Dirent.setVersion Dirent.new ver) m nums d' ->
  dirent_kind (Dirent.setVersion d' ver) m nums d'.
Proof.
  destruct 1 as [i Hi|m' Hm|m' c b Hm Hlt Hc Hb].
  - exact (kind_redirect (Dirent.setVersion (Dirent.setRedirect _ i) ver) i Hi).
  - exact (kind_void (Dirent.setVersion (Dirent.setItem _ m' 0 0) ver) m' Hm).
  - exact (kind_item (Dirent.setVersion (Dirent.setItem _ m' c b) ver) m' c b Hm Hlt Hc Hb).
Qed.

Lemma dirent_header_length d mime nsp ver nums d' :
  dirent_kind d mime nums d' -> 8 <= Zlen (dirent_header mime nsp ver nums) <= 16.
Proof.
  unfold dirent_header, Zlen. rewrite !length_app, !length_toLittleEndian by auto. cbn [length].
  destruct 1; cbn [map concat]; rewrite ?length_app, ?length_toLittleEndian by auto; simpl; lia.
Qed.

Section parse.
Context (mime nsp ver : Z) (nums : list Z) (url title : bytes) (d d' : Dirent.t).
Hypothesis Hkind : dirent_kind (Dirent.setVersion d ver) mime nums d'.
Hypothesis Hns : byte_ok nsp.
Hypothesis Hver : fits 32 ver.
Hypothesis Hurl : no_nul url.
Hypothesis Htitle : no_nul title.

(** A buffer that holds the entry, and maybe more. *)
Lemma initDirent_complete rest slack :
  let data := dirent_bytes mime nsp ver nums url title ++ rest in
  Zlen data < 2 ^ 64 ->
  initDirent d (mkBuffer (data ++ slack) 0 (Zlen data)) = Ok (true, with_strings d' nsp url title).
Proof.
  intros data Hlt. unfold data in *. rewrite dirent_bytes_header in *.
  rewrite <- !app_assoc in *.
  destruct (initDirent_header ((dirent_header mime nsp ver nums ++ url ++ [0] ++ title ++ [0] ++ rest) ++ slack)
    (Zlen (dirent_header mime nsp ver nums ++ url ++ [0] ++ title ++ [0] ++ rest))
    d mime nsp ver nums d' (url ++ [0] ++ title ++ [0] ++ rest)) as (s & E & Hs);
    [done..| |].
  { exists [], slack. by rewrite !app_assoc. }
  rewrite <- !app_assoc in E. rewrite E. rewrite Zlen_app in Hlt.
  pose proof (Zlen_nonneg (dirent_header mime nsp ver nums)).
  apply initDirent_strings_complete with rest; rewrite <- ?app_assoc; done || lia.
Qed.

(** A buffer that holds a proper prefix of the entry, with its numbers. *)
Lemma initDirent_partial p q slack :
  p ++ q = dirent_bytes mime nsp ver nums url title -> q <> [] -> 16 <= Zlen p < 2 ^ 64 ->
  initDirent d (mkBuffer (p ++ slack) 0 (Zlen p)) = Ok (false, d').
Proof.
  intros Epq Hq Hlen. rewrite dirent_bytes_header in Epq.
  pose proof (dirent_header_length _ mime nsp ver nums _ Hkind) as Hh.
  assert (exists k, p = dirent_header mime nsp ver nums ++ k /\ k ++ q = (url ++ [0]) ++ title ++ [0])
    as (k & -> & Ek).
  { apply app_eq_inv in Epq as [(k & -> & E)|(k & Eh & E)]; [by eauto|].
    exists []. assert (k = []) as ->.
    { apply Zlen_nil_inv. rewrite Eh, Zlen_app in Hh. pose proof (Zlen_nonneg k). lia. }
    rewrite app_nil_r in *. by subst. }
  destruct (initDirent_header ((dirent_header mime nsp ver nums ++ k) ++ slack)
    (Zlen (dirent_header mime nsp ver nums ++ k)) d mime nsp ver nums d' k) as (s & -> & Hs);
    [done..|lia| |].
  { by exists [], slack. }
  rewrite Zlen_app in Hlen. apply initDirent_strings_cut with url title k q; done || lia.
Qed.

End parse.

(** An entry at [off] of an archive's bytes: where the retries of [readDirent]
    need it, 256 bytes at a time, there are that many bytes. *)
Definition dirent_at (content : bytes) (off mime nsp ver : Z) (nums : list Z) (url title : bytes) : Prop :=
  let L := Zlen (dirent_bytes mime nsp ver nums url title) in
  0 <= off /\ slice content off L = dirent_bytes mime nsp ver nums url title /\
  off + L <= Zlen content /\ L + 256 <= max_read /\
  (L <= 256 \/ off + 256 * ((L + 255) / 256) <= Zlen content).

Section readDirent_facts.
Context `{ReaderSpec R} (r : R).

Lemma buffer_fill_app mb n data : exists slack, buffer_fill mb n data = data ++ slack.
Proof. by eexists. Qed.

Lemma readDirent_loop_in j fuel mb d d' off bs mime nsp ver nums url title :
  r_wf r -> dirent_kind (Dirent.setVersion d ver) mime nums d' ->
  dirent_kind (Dirent.setVersion d' ver) mime nums d' ->
  byte_ok nsp -> fits 32 ver -> no_nul url -> no_nul title ->
  let L := Zlen (dirent_bytes mime nsp ver nums url title) in
  0 <= off -> slice (r_content r) off L = dirent_bytes mime nsp ver nums url title ->
  0 <= bs -> L <= bs + 256 * Z.of_nat j -> off + bs + 256 * Z.of_nat j <= r_size r ->
  off + L <= r_size r ->
  bs + 256 * Z.of_nat j <= max_read -> (16 <= bs \/ L <= bs) -> (j < fuel)%nat ->
  exists mb', readDirent_loop r fuel mb d off bs = Ok (with_strings d' nsp url title, mb').
Proof.
  intros Hr. revert fuel mb d bs. induction j as [|j IH]; intros fuel mb d bs Hk Hk' Hns Hver Hu Ht
    L Hoff Hsl Hbs HL Hsz HLsz Hmax H16 Hfuel.
  all: destruct fuel as [|fuel]; [lia|]; cbn [readDirent_loop].
  all: unfold max_read in *; rewrite r_read_in by (done || unfold max_read; lia);
    cbn [mbind outcome_bind]; unfold Buffer_new, SIZE_MAX;
    rewrite (proj2 (Z.ltb_lt bs _)) by lia; cbn [ASSERT mbind outcome_bind mret outcome_ret].
  all: pose proof (r_size_content r Hr) as Hc;
    assert (Hdl : Zlen (slice (r_content r) off bs) = bs) by (apply Zlen_slice; lia);
    destruct (buffer_fill_app mb bs (slice (r_content r) off bs)) as (slack & ->).
  all: destruct (Z.le_gt_cases L bs) as [E|E]; [|first [lia|idtac]].
  1, 2: pose proof (slice_split (r_content r) off L (bs - L) Hoff ltac:(unfold L; apply Zlen_nonneg) ltac:(lia)) as Es;
    replace (L + (bs - L)) with bs in Es by lia; rewrite Hsl in Es; rewrite Es in *;
    pose proof (initDirent_complete mime nsp ver nums url title d d' Hk Hns Hver Hu Ht
      (slice (r_content r) (off + L) (bs - L)) slack) as Ei;
    cbv zeta in Ei; rewrite Hdl in Ei; rewrite Ei by lia;
    cbn [mbind outcome_bind]; by eexists.
  pose proof (slice_split (r_content r) off bs (L - bs) Hoff Hbs ltac:(lia)) as Es.
  replace (bs + (L - bs)) with L in Es by lia. rewrite Hsl in Es. symmetry in Es.
  pose proof (initDirent_partial mime nsp ver nums url title d d' Hk Hns Hver Hu Ht _ _ slack Es) as Ei.
  rewrite Hdl in Ei. rewrite Ei.
  - cbn [mbind outcome_bind]. rewrite u64_small by lia. apply IH; done || lia.
  - intros E0. apply (f_equal Zlen) in E0. rewrite Zlen_slice, Zlen_nil in E0 by lia. lia.
  - lia.
Qed.

Lemma readDirent_in mb off mime nsp ver nums url title d' :
  r_wf r -> dirent_at (r_content r) off mime nsp ver nums url title ->
  dirent_kind (Dirent.setVersion Dirent.new ver) mime nums d' ->
  byte_ok nsp -> fits 32 ver -> no_nul url -> no_nul title ->
  exists mb', readDirent r mb off = Ok (with_strings d' nsp url title, mb').
Proof.
  intros Hr (Hoff & Hsl & HL & Hmax & Hroom) Hk Hns Hver Hu Ht.
  pose proof (r_size_content r Hr) as Hc. pose proof (r_size_bound r Hr). unfold SIZE_MAX in *.
  set (L := Zlen (dirent_bytes mime nsp ver nums url title)) in *.
  assert (HL0 : 2 <= L).
  { unfold L. rewrite dirent_bytes_header. autorewrite with zlen.
    pose proof (dirent_header_length _ mime nsp ver nums _ Hk).
    pose proof (Zlen_nonneg url). pose proof (Zlen_nonneg title). lia. }
  unfold readDirent. rewrite (proj2 (Z.leb_gt _ _)) by lia. rewrite u64_small by lia.
  assert (0 <= (r_size r - off) / 256) by (apply Z.div_pos; lia).
  destruct (decide (L <= Z.min 256 (r_size r - off))) as [E|E].
  - apply (readDirent_loop_in 0) with (mime := mime) (ver := ver) (nums := nums);
      eauto using kind_idempotent; unfold L, max_read in *; lia.
  - assert (Hbig : 256 < L) by lia. destruct Hroom as [?|Hroom]; [lia|].
    assert (Hq : 256 * ((L + 255) / 256) <= L + 255 /\ L <= 256 * ((L + 255) / 256)).
    { pose proof (Z.div_mod (L + 255) 256). pose proof (Z.mod_pos_bound (L + 255) 256). lia. }
    replace (Z.min 256 (r_size r - off)) with 256 by lia.
    apply (readDirent_loop_in (Z.to_nat ((L + 255) / 256 - 1)))
      with (mime := mime) (ver := ver) (nums := nums); eauto using kind_idempotent; try lia;
      try (unfold L, max_read in *; lia).
    assert ((L + 255) / 256 <= (r_size r - off) / 256)
      by (apply Z.div_le_lower_bound; lia). lia.
Qed.

End readDirent_facts.

(** ** The reused vector

    [refines P x y]: when [x] does not read outside its memory, [y] does the
    same thing, with results related by [P]. *)

Inductive refines {A B} (P : A -> B -> Prop) : outcome A -> outcome B -> Prop :=
  | refines_undef y : refines P Undef y
  | refines_ok a b : P a b -> refines P (Ok a) (Ok b)
  | refines_throw e : refines P (Throw e) (Throw e)
  | refines_diverge : refines P Diverge Diverge.

Lemma refines_bind {A B C D} (P : A -> B -> Prop) (Q : C -> D -> Prop) x y f g :
  refines P x y -> (forall a b, P a b -> refines Q (f a) (g b)) -> refines Q (x ≫= f) (y ≫= g).
Proof. intros [] Hf; cbn [mbind outcome_bind]; try constructor. by apply Hf. Qed.

Lemma refines_refl {A} (x : outcome A) : refines eq x x.
Proof. destruct x; by constructor. Qed.

(** The same streamer over a longer allocation. *)
Definition stream_ext (s s' : BufferStreamer) : Prop :=
  s_current s' = s_current s /\ s_left s' = s_left s /\ exists k, s_mem s' = s_mem s ++ k.

Lemma mem_read_ext m k p n : refines eq (mem_read m p n) (mem_read (m ++ k) p n).
Proof.
  unfold mem_read at 1. destruct (_ && _) eqn:E; [|constructor]. bool_to_prop.
  rewrite mem_read_app by done. by constructor.
Qed.

Lemma strnlen_loop_ext l k m : refines eq (strnlen_loop l m) (strnlen_loop (l ++ k) m).
Proof.
  revert m. induction l as [|x l IH]; intros m; cbn [app].
  - cbn [strnlen_loop]. destruct (Z.leb_spec m 0); [|constructor].
    destruct k; cbn [strnlen_loop]; rewrite (proj2 (Z.leb_le m 0)) by done; by constructor.
  - cbn [strnlen_loop]. destruct (m <=? 0); [by constructor|].
    destruct (x =? 0); [by constructor|].
    eapply refines_bind; [apply IH|]. intros ? ? ->. apply refines_refl.
Qed.

Lemma strnlen_ext mem k p m : refines eq (strnlen mem p m) (strnlen (mem ++ k) p m).
Proof.
  unfold strnlen at 1. destruct (_ && _) eqn:E; [|constructor]. bool_to_prop.
  unfold strnlen. rewrite Zlen_app. pose proof (Zlen_nonneg k).
  rewrite (proj2 (Z.leb_le 0 p)), (proj2 (Z.leb_le p _)) by lia. cbn [andb].
  rewrite drop_app_le by (unfold Zlen in *; lia). apply strnlen_loop_ext.
Qed.

Lemma skip_ext s s' n : stream_ext s s' -> stream_ext (skip s n) (skip s' n).
Proof. intros (E1 & E2 & k & E3). unfold skip. repeat split; simpl; try congruence. by exists k. Qed.

Definition pair_ext {A} (x y : A * BufferStreamer) : Prop := x.1 = y.1 /\ stream_ext x.2 y.2.

Lemma stream_read_ext N s s' : stream_ext s s' -> refines pair_ext (stream_read N s) (stream_read N s').
Proof.
  intros Hs. unfold stream_read. pose proof Hs as (E1 & E2 & k & E3). rewrite E1, E3.
  eapply refines_bind; [apply mem_read_ext|]. intros ? ? ->. constructor.
  split; [done|]. by apply skip_ext.
Qed.

Lemma strnlen_stream_ext s s' m :
  stream_ext s s' -> refines eq (strnlen (s_mem s) (s_current s) m) (strnlen (s_mem s') (s_current s') m).
Proof. intros (-> & _ & k & ->). apply strnlen_ext. Qed.

Lemma stream_string_ext s s' n :
  stream_ext s s' -> refines eq (stream_string s n) (stream_string s' n).
Proof. intros (E1 & _ & k & E2). unfold stream_string. rewrite E1, E2. apply mem_read_ext. Qed.

(** One step of a pair of runs over related streamers. *)
Ltac refine_step :=
  match goal with
  | |- refines _ (if ?b then _ else _) (if ?b then _ else _) => destruct b
  | |- refines _ (mret _) (mret _) => constructor
  | |- refines _ (stream_read _ _ ≫= _) _ =>
      eapply refines_bind; [by apply stream_read_ext|]; intros [? ?] [? ?] [? ?]; cbn [fst snd] in *; subst
  | |- refines _ (strnlen _ _ _ ≫= _) _ =>
      eapply refines_bind; [by apply strnlen_stream_ext|]; intros ? ? <-
  | |- refines _ (stream_string _ _ ≫= _) _ =>
      eapply refines_bind; [by apply stream_string_ext|]; intros ? ? <-
  end.

Lemma initDirent_ext d mem k n :
  refines eq (initDirent d (mkBuffer mem 0 n)) (initDirent d (mkBuffer (mem ++ k) 0 n)).
Proof.
  unfold initDirent. eapply (refines_bind stream_ext).
  { unfold BufferStreamer_of, BufferStreamer_new, Buffer_data. simpl.
    destruct (0 <=? n); simpl; constructor. repeat split. simpl. by exists k. }
  intros s s' Hs. do 4 refine_step.
  eapply (refines_bind pair_ext).
  { repeat refine_step; by split. }
  intros [d1 s1] [d2 s2] [E Hs1]. simpl in E, Hs1. subst d2. pose proof Hs1 as (_ & -> & _).
  eapply refines_bind; [by apply strnlen_stream_ext|]. intros n1 ? <-.
  refine_step; [by refine_step|]. refine_step. cbv zeta.
  pose proof (skip_ext _ _ (n1 + 1) Hs1) as Hs2. clear Hs1.
  revert Hs2. generalize (skip s1 (n1 + 1)) (skip s2 (n1 + 1)). clear s1 s2.
  intros s3 s4 Hs1. pose proof Hs1 as (_ & -> & _).
  eapply refines_bind; [by apply strnlen_stream_ext|]. intros n2 ? <-.
  refine_step; [by refine_step|]. refine_step.
  pose proof (skip_ext _ _ (n2 + 1) Hs1) as Hs2. pose proof Hs2 as (_ & -> & _).
  refine_step; [by refine_step|]. refine_step. by constructor.
Qed.

Section reuse.
Context `{Reader R} (r : R).
(** A read that returns has stored the bytes it was asked for. *)
Hypothesis read_length : forall off n data, r_read r off n = Ok data -> Zlen data = n.

Lemma readDirent_loop_ext fuel d off bs mb0 mb :
  Zlen mb0 <= bs -> 0 <= bs -> bs + 256 * Z.of_nat fuel < 2 ^ 64 ->
  refines (fun x y => x.1 = y.1)
    (readDirent_loop r fuel mb0 d off bs) (readDirent_loop r fuel mb d off bs).
Proof.
  revert d bs mb0 mb. induction fuel as [|fuel IH]; intros d bs mb0 mb Hmb0 Hbs Hlt;
    cbn [readDirent_loop]; [constructor|].
  destruct (r_read r off bs) as [data|e| |] eqn:E; cbn [mbind outcome_bind]; try constructor.
  apply read_length in E. unfold Buffer_new.
  destruct (bs <? SIZE_MAX); cbn [ASSERT mbind outcome_bind mret outcome_ret]; [|constructor].
  assert (E0 : buffer_fill mb0 bs data = data).
  { unfold buffer_fill. destruct (Z.leb_spec bs (Zlen mb0)); [|by rewrite app_nil_r].
    rewrite drop_ge by (unfold Zlen in *; lia). by rewrite app_nil_r. }
  rewrite E0. eapply refines_bind; [apply initDirent_ext|].
  intros [ok d1] ? <-. destruct ok; [by constructor|].
  rewrite u64_small by lia. apply IH; lia.
Qed.

Lemma readDirent_ext mb off :
  0 <= off -> r_size r < 2 ^ 63 ->
  refines (fun x y => x.1 = y.1) (readDirent r [] off) (readDirent r mb off).
Proof.
  intros Hoff Hsz. unfold readDirent. destruct (Z.leb_spec (r_size r) off); [constructor|].
  apply readDirent_loop_ext.
  - rewrite Zlen_nil. pose proof (u64_range (r_size r - off)). lia.
  - pose proof (u64_range (r_size r - off)). lia.
  - pose proof (Z.div_mod (r_size r - off) 256). pose proof (Z.mod_pos_bound (r_size r - off) 256).
    assert (0 <= (r_size r - off) / 256) by (apply Z.div_pos; lia). lia.
Qed.

End reuse.

(** An entry as the accessors ask for it: the vector is a private matter of the
    [DirentReader] ([readDirent_buffer_irrelevant]), so a fresh one is used. *)
Definition readDirent_fresh `{Reader R} (r : R) (off : Z) : outcome Dirent.t :=
  '(d, _) ← readDirent r [] off; mret d.

(** * Properties *)

Section properties.
Context `{ReaderSpec R} (r : R).

(** The vector [readDirent] reuses between calls does not leak into its
    results: whatever an earlier call left in it, an entry is read as with a
    fresh vector, provided the fresh read stays inside its memory. *)
Theorem readDirent_buffer_irrelevant mb off :
  (forall off n data, r_read r off n = Ok data -> Zlen data = n) ->
  0 <= off -> r_size r < 2 ^ 63 -> readDirent_fresh r off <> Undef ->
  ('(d, _) ← readDirent r mb off; mret d) = readDirent_fresh r off.
Proof.
  intros Hlen Hoff Hsz Hok. unfold readDirent_fresh in *.
  destruct (readDirent_ext r Hlen mb off Hoff Hsz) as [|[d ?] [d' ?] E| |]; try done.
  simpl in *. by subst.
Qed.

(** An entry longer than 256 bytes with fewer than 512 bytes between its
    start and the end of the file cannot be read, although it is complete: the
    second attempt asks for 512 bytes, which the reader refuses with a failed
    assertion. *)
Theorem readDirent_near_end mb off mime nsp ver nums url title d' :
  r_wf r -> dirent_kind (Dirent.setVersion Dirent.new ver) mime nums d' ->
  byte_ok nsp -> fits 32 ver -> no_nul url -> no_nul title ->
  let L := Zlen (dirent_bytes mime nsp ver nums url title) in
  0 <= off -> slice (r_content r) off L = dirent_bytes mime nsp ver nums url title ->
  256 < L -> off + L <= r_size r -> r_size r < off + 512 -> r_size r < 2 ^ 63 ->
  readDirent r mb off = Throw assertion_failed.
Proof.
  intros Hr Hk Hns Hver Hu Ht L Hoff Hsl HL Hend Hnear Hsz. pose proof (r_size_bound r Hr).
  pose proof (r_size_content r Hr) as Hc. unfold SIZE_MAX in *.
  unfold readDirent. rewrite (proj2 (Z.leb_gt _ _)) by lia. rewrite u64_small by lia.
  replace (Z.min 256 (r_size r - off)) with 256 by lia.
  replace ((r_size r - off) / 256) with 1 by (apply (Z.div_unique _ _ _ (r_size r - off - 256)); lia).
  change (Z.to_nat (1 + 2)) with 3%nat. cbn [readDirent_loop].
  rewrite (r_read_in r off 256) by (try done; unfold max_read; lia). cbn [mbind outcome_bind].
  unfold Buffer_new, SIZE_MAX. rewrite (proj2 (Z.ltb_lt 256 _)) by lia.
  cbn [ASSERT mbind outcome_bind mret outcome_ret].
  destruct (buffer_fill_app mb 256 (slice (r_content r) off 256)) as (slack & ->).
  pose proof (slice_split (r_content r) off 256 (L - 256) Hoff ltac:(lia) ltac:(lia)) as Es.
  replace (256 + (L - 256)) with L in Es by lia. rewrite Hsl in Es. symmetry in Es.
  assert (Hdl : Zlen (slice (r_content r) off 256) = 256) by (apply Zlen_slice; lia).
  pose proof (initDirent_partial mime nsp ver nums url title _ d' Hk Hns Hver Hu Ht _ _ slack Es) as Ei.
  rewrite Hdl in Ei. rewrite Ei; [|intros E0; apply (f_equal Zlen) in E0;
    rewrite Zlen_slice, Zlen_nil in E0 by lia; lia|lia].
  cbn [mbind outcome_bind]. rewrite (u64_small (256 + 256)) by lia. by rewrite (r_read_out r off (256 + 256)) by (done || lia).
Qed.

End properties.

Definition memory_reader (l : bytes) : BufferReader := mkBufferReader (mkBuffer l 0 (Zlen l)).

Definition sample_dirent : bytes :=
  dirent_bytes 3 65 0 [5; 7] (lit "article") (lit "An article").

(** An entry of 319 bytes, with a path of 300 and a parameter of one byte. *)
Definition long_dirent_with_parameter : bytes :=
  toLittleEndian 2 3 ++ [1; 65] ++ toLittleEndian 4 0 ++ toLittleEndian 4 5 ++
  toLittleEndian 4 7 ++ repeat 97 300 ++ [0; 0; 80].

(** An entry with a parameter ([extraLen > 0]) whose path goes past the
    first 256 bytes makes [initDirent] read outside the vector: the search for
    the end of the path stops [extraLen] bytes before the end of the buffer and
    takes that for the end of the path, so that the bound of the next search,
    [left - extraLen], is negative and wraps to nearly [2^64]. *)
Theorem initDirent_overread :
  readDirent (memory_reader (long_dirent_with_parameter ++ repeat 0 512)) [] 0 = Undef.
Proof. by vm_compute. Qed.

Lemma memory_read_length l off n data : r_read (memory_reader l) off n = Ok data -> Zlen data = n.
Proof.
  unfold r_read. cbn [BufferReader_Reader]. unfold BufferReader_read, Buffer_data. intros.
  destruct (Z.eqb_spec n 0) as [->|]; inv_outcome; [done|].
  match goal with H : mem_read _ _ _ = Ok _ |- _ => apply mem_read_inv in H as (?&?&?& ->) end.
  by apply Zlen_slice.
Qed.

Lemma readDirent_buffer_irrelevant_witness :
  ('(d, _) ← readDirent (memory_reader sample_dirent) (repeat 255 1000) 0; mret d) =
    readDirent_fresh (memory_reader sample_dirent) 0.
Proof.
  apply (readDirent_buffer_irrelevant (memory_reader sample_dirent)).
  - apply memory_read_length.
  - done.
  - done.
  - by vm_compute.
Defined.

Lemma readDirent_near_end_witness :
  readDirent (memory_reader (dirent_bytes 3 65 0 [5; 7] (repeat 97 300) [] ++ repeat 0 16)) [] 0 =
    Throw assertion_failed.
Proof.
  apply (readDirent_near_end (memory_reader (dirent_bytes 3 65 0 [5; 7] (repeat 97 300) [] ++ repeat 0 16))
    [] 0 3 65 0 [5; 7] (repeat 97 300) [] (Dirent.setItem (Dirent.setVersion Dirent.new 0) 3 5 7));
    try done.
  - by constructor.
  - by repeat constructor.
  - constructor.
Defined.
