(* ===== verification/WDirent.v ===== *)
(** Directory entries as the writing side keeps them ([writer/_dirent.h],
    [writer/dirent.cpp]), and the round trip of an entry through a file.

    A pointer to another entry or to a cluster is a number; the functions that
    follow one take the index it leads to as an argument. *)

From stdpp Require Import strings.
From S2P Require Import Prelude.
From S2P Require Import Types.
From S2P Require Import Readers.
From S2P Require Import Dirent.

Module WDirent.

Definition redirectMimeType : Z := 0xffff.
Definition version : Z := 0.

(** The union [DirentInfo]: the member that was written last. *)
Inductive DirentInfo : Type :=
  | DirectInfo (clusterNumber blobNumber : Z)
  | RedirectInfo (redirectDirent : nat).

Record t : Type := mk {
  mimeType : Z;
  info : DirentInfo;
  ns : Z;
  path : bytes;
  title : bytes;
  cluster : option nat;
  redirectNs : Z;
  redirectPath : bytes;
  idx : Z;
  offset : Z;
  removed : bool;
}.

Definition new (ns_ : Z) (path_ : bytes) : t :=
  mk 0 (DirectInfo 0 0) ns_ path_ [] None 0 [] 0 0 false.

Definition isRedirect (d : t) : bool := mimeType d =? redirectMimeType.
Definition isItem (d : t) : bool := negb (isRedirect d).
Definition getTitle (d : t) : bytes := if bool_decide (title d = []) then path d else title d.

Definition setTitle (d : t) (x : bytes) : t :=
  mk (mimeType d) (info d) (ns d) (path d) x (cluster d) (redirectNs d) (redirectPath d) (idx d) (offset d) (removed d).
Definition setNamespace (d : t) (x : Z) : t :=
  mk (mimeType d) (info d) x (path d) (title d) (cluster d) (redirectNs d) (redirectPath d) (idx d) (offset d) (removed d).
Definition setPath (d : t) (x : bytes) : t :=
  mk (mimeType d) (info d) (ns d) x (title d) (cluster d) (redirectNs d) (redirectPath d) (idx d) (offset d) (removed d).
Definition setRedirectNs (d : t) (x : Z) : t :=
  mk (mimeType d) (info d) (ns d) (path d) (title d) (cluster d) x (redirectPath d) (idx d) (offset d) (removed d).
Definition setRedirectPath (d : t) (x : bytes) : t :=
  mk (mimeType d) (info d) (ns d) (path d) (title d) (cluster d) (redirectNs d) x (idx d) (offset d) (removed d).
Definition setRedirect (d : t) (target : nat) : t :=
  mk redirectMimeType (RedirectInfo target) (ns d) (path d) (title d) (cluster d) (redirectNs d) (redirectPath d) (idx d) (offset d) (removed d).
Definition setMimeType (d : t) (x : Z) : t :=
  mk x (info d) (ns d) (path d) (title d) (cluster d) (redirectNs d) (redirectPath d) (idx d) (offset d) (removed d).
Definition setIdx (d : t) (x : Z) : t :=
  mk (mimeType d) (info d) (ns d) (path d) (title d) (cluster d) (redirectNs d) (redirectPath d) x (offset d) (removed d).
Definition setOffset (d : t) (x : Z) : t :=
  mk (mimeType d) (info d) (ns d) (path d) (title d) (cluster d) (redirectNs d) (redirectPath d) (idx d) x (removed d).
Definition markRemoved (d : t) : t :=
  mk (mimeType d) (info d) (ns d) (path d) (title d) (cluster d) (redirectNs d) (redirectPath d) (idx d) (offset d) true.

(** [count] is [_cluster->count()]. *)
Definition setCluster (d : t) (c : nat) (count : Z) : outcome t :=
  ASSERT (isItem d) ;;
  mret (mk (mimeType d)
    (DirectInfo (match info d with DirectInfo cn _ => cn | RedirectInfo _ => 0 end) count)
    (ns d) (path d) (title d) (Some c) (redirectNs d) (redirectPath d) (idx d) (offset d) (removed d)).

Definition setItem (d : t) (mimeType_ clusterNumber_ blobNumber_ : Z) : outcome t :=
  ASSERT (mimeType d =? 0) ;;
  mret (mk mimeType_ (DirectInfo clusterNumber_ blobNumber_) (ns d) (path d) (title d) (cluster d)
    (redirectNs d) (redirectPath d) (idx d) (offset d) (removed d)).

Section write.
(** [getIdx()] of an entry and [getClusterIndex()] of a cluster. *)
Context (dirent_idx : nat -> Z) (cluster_idx : nat -> Z).

(** The bits of the other member of the union have no meaning. *)
Definition getRedirectIndex (d : t) : outcome Z :=
  if isRedirect d then
    match info d with RedirectInfo r => mret (dirent_idx r) | DirectInfo _ _ => Undef end
  else mret 0.

Definition getClusterNumber (d : t) : outcome Z :=
  match cluster d with
  | Some c => mret (cluster_idx c)
  | None => match info d with DirectInfo c _ => mret c | RedirectInfo _ => Undef end
  end.

Definition getBlobNumber (d : t) : outcome Z :=
  if isRedirect d then mret 0
  else match info d with DirectInfo _ b => mret b | RedirectInfo _ => Undef end.

Definition getDirentSize (d : t) : Z :=
  let ret := u64 ((if isRedirect d then 12 else 16) + Zlen (path d) + 2) in
  if bool_decide (title d <> path d) then u64 (ret + Zlen (title d)) else ret.

(** The bytes [write] gives to the system, in its order. *)
Definition write (d : t) : outcome bytes :=
  let header := toLittleEndian 2 (mimeType d) ++ [0; ns d] ++ toLittleEndian 4 version in
  header ← (if isRedirect d then
              i ← getRedirectIndex d; mret (header ++ toLittleEndian 4 i)
            else
              c ← getClusterNumber d; b ← getBlobNumber d;
              mret (header ++ toLittleEndian 4 c ++ toLittleEndian 4 b));
  let t := getTitle d in
  mret (header ++ (path d ++ [0]) ++ (if bool_decide (t <> path d) then t else []) ++ [0]).

End write.

(** [compareUrl] and [compareTitle]: the namespaces are (signed) [char]s. *)
Definition compareUrl (d1 d2 : t) : bool :=
  (schar (ns d1) <? schar (ns d2)) || ((ns d1 =? ns d2) && str_ltb (path d1) (path d2)).
Definition compareTitle (d1 d2 : t) : bool :=
  (schar (ns d1) <? schar (ns d2)) || ((ns d1 =? ns d2) && str_ltb (getTitle d1) (getTitle d2)).

End WDirent.

(** * Well-formed entries *)

Section facts.
Context (dirent_idx : nat -> Z) (cluster_idx : nat -> Z).

(** The numbers the entry is written with. *)
Inductive wdirent_numbers (d : WDirent.t) : list Z -> Prop :=
  | wnum_redirect r i :
      WDirent.mimeType d = WDirent.redirectMimeType -> WDirent.info d = WDirent.RedirectInfo r ->
      i = dirent_idx r -> fits 32 i -> wdirent_numbers d [i]
  | wnum_item c0 c b :
      fits 16 (WDirent.mimeType d) -> WDirent.mimeType d < Dirent.deletedMimeType ->
      WDirent.info d = WDirent.DirectInfo c0 b ->
      c = match WDirent.cluster d with Some k => cluster_idx k | None => c0 end ->
      fits 32 c -> fits 32 b -> wdirent_numbers d [c; b].

Record wdirent_ok (d : WDirent.t) (nums : list Z) : Prop := {
  ok_numbers : wdirent_numbers d nums;
  ok_ns : byte_ok (WDirent.ns d);
  ok_path : no_nul (WDirent.path d);
  ok_title : no_nul (WDirent.title d);
}.

(** The title as it is stored: nothing when it is the path. *)
Definition stored_title (d : WDirent.t) : bytes :=
  if bool_decide (WDirent.getTitle d <> WDirent.path d) then WDirent.getTitle d else [].

(** The entry the reading side gets. *)
Definition as_read (d : WDirent.t) (nums : list Z) : Dirent.t :=
  let e := Dirent.setVersion Dirent.new WDirent.version in
  let e := match nums with
           | [i] => Dirent.setRedirect e i
           | [c; b] => Dirent.setItem e (WDirent.mimeType d) c b
           | _ => e
           end in
  with_strings e (WDirent.ns d) (WDirent.path d) (stored_title d).

Lemma stored_title_no_nul d : no_nul (WDirent.path d) -> no_nul (WDirent.title d) -> no_nul (stored_title d).
Proof.
  intros Hp Ht. unfold stored_title, WDirent.getTitle. repeat case_bool_decide; try done; constructor.
Qed.

Lemma wdirent_isRedirect d nums :
  wdirent_numbers d nums -> WDirent.isRedirect d = (length nums =? 1)%nat.
Proof.
  unfold WDirent.isRedirect. destruct 1 as [r i ->|c0 c b _ Hm]; [done|].
  unfold Dirent.deletedMimeType, WDirent.redirectMimeType in *.
  by rewrite (proj2 (Z.eqb_neq _ _)) by lia.
Qed.

Lemma wdirent_write d nums :
  wdirent_numbers d nums ->
  WDirent.write dirent_idx cluster_idx d =
    Ok (dirent_bytes (WDirent.mimeType d) (WDirent.ns d) WDirent.version nums (WDirent.path d)
          (stored_title d)).
Proof.
  intros Hn. pose proof (wdirent_isRedirect d nums Hn) as Hr.
  unfold WDirent.write, WDirent.getRedirectIndex, WDirent.getClusterNumber, WDirent.getBlobNumber.
  rewrite Hr. unfold dirent_bytes, stored_title.
  destruct Hn as [r i Hm Hi -> Hf|c0 c b Hf Hm Hi -> Hc Hb]; cbn [length Nat.eqb map concat]; rewrite Hi.
  - cbn [mbind outcome_bind mret outcome_ret]. rewrite app_nil_r, <- !app_assoc. done.
  - destruct (WDirent.cluster d); cbn [mbind outcome_bind mret outcome_ret];
      rewrite app_nil_r, <- !app_assoc; done.
Qed.

Lemma wdirent_kind d nums :
  wdirent_numbers d nums ->
  exists e, dirent_kind (Dirent.setVersion Dirent.new WDirent.version) (WDirent.mimeType d) nums e /\
    as_read d nums = with_strings e (WDirent.ns d) (WDirent.path d) (stored_title d).
Proof.
  destruct 1 as [r i Hm Hi -> Hf|c0 c b Hf Hm Hi -> Hc Hb].
  - eexists. split; [rewrite Hm; by apply kind_redirect|done].
  - eexists. split; [by apply kind_item|done].
Qed.

Lemma wdirent_size d nums :
  wdirent_ok d nums -> Zlen (WDirent.path d) + Zlen (WDirent.title d) < 2 ^ 63 ->
  Zlen (dirent_bytes (WDirent.mimeType d) (WDirent.ns d) WDirent.version nums (WDirent.path d)
          (stored_title d)) = WDirent.getDirentSize d.
Proof.
  intros [Hn _ _ _] Hlt. pose proof (Zlen_nonneg (WDirent.path d)). pose proof (Zlen_nonneg (WDirent.title d)).
  unfold WDirent.getDirentSize. rewrite (wdirent_isRedirect d nums Hn).
  assert (Hh : Zlen (dirent_header (WDirent.mimeType d) (WDirent.ns d) WDirent.version nums) =
    if (length nums =? 1)%nat then 12 else 16).
  { unfold dirent_header, Zlen. rewrite !length_app, !length_toLittleEndian by auto.
    destruct Hn; cbn [map concat]; rewrite ?length_app, ?length_toLittleEndian by auto; done. }
  rewrite dirent_bytes_header. autorewrite with zlen. rewrite Hh.
  assert (Ht : Zlen (stored_title d) =
    if bool_decide (WDirent.title d <> WDirent.path d) then Zlen (WDirent.title d) else 0).
  { unfold stored_title, WDirent.getTitle.
    destruct (decide (WDirent.title d = [])) as [E|E].
    - rewrite (bool_decide_true (WDirent.title d = [])) by done.
      rewrite bool_decide_false by naive_solver. rewrite E. by case_bool_decide.
    - rewrite (bool_decide_false (WDirent.title d = [])) by done. by case_bool_decide. }
  rewrite Ht. destruct (length nums =? 1)%nat; case_bool_decide;
    rewrite !(u64_small (_ + 2)) by lia; rewrite ?u64_small by lia; lia.
Qed.

End facts.

(** * Properties *)

Section properties.
Context (dirent_idx : nat -> Z) (cluster_idx : nat -> Z).
Context `{ReaderSpec R} (r : R).

(** C12. The entry round trip: an entry the writer stores at [off] (path and
    title without NUL, numbers in 32 bits, an item with a real MIME type) is
    read back by [readDirent] with the same namespace, path, title, MIME type,
    cluster and blob numbers or redirect index, whatever its size, whenever the
    file goes on for the 256-byte blocks the reader asks for. *)
Theorem dirent_roundtrip d nums out mb off :
  wdirent_ok dirent_idx cluster_idx d nums ->
  WDirent.write dirent_idx cluster_idx d = Ok out ->
  r_wf r -> 0 <= off -> slice (r_content r) off (Zlen out) = out ->
  off + Zlen out <= r_size r -> Zlen out + 256 <= max_read ->
  Zlen out <= 256 \/ off + 256 * ((Zlen out + 255) / 256) <= r_size r ->
  exists e mb', readDirent r mb off = Ok (e, mb') /\
    Dirent.getNamespace e = WDirent.ns d /\ Dirent.getUrl e = WDirent.path d /\
    Dirent.getTitle e = WDirent.getTitle d /\ Dirent.getMimeType e = WDirent.mimeType d /\
    Dirent.getParameter e = [] /\
    (if WDirent.isRedirect d then Ok (Dirent.getRedirectIndex e) = WDirent.getRedirectIndex dirent_idx d
     else Ok (Dirent.getClusterNumber e) = WDirent.getClusterNumber cluster_idx d /\
          Ok (Dirent.getBlobNumber e) = WDirent.getBlobNumber d).
Proof.
  intros [Hn Hns Hp Ht] Hw Hr Hoff Hsl Hend Hmax Hroom.
  rewrite (wdirent_write _ _ d nums Hn) in Hw. injection Hw as <-.
  destruct (wdirent_kind _ _ d nums Hn) as (e & Hk & Ee).
  pose proof (r_size_content r Hr) as Hc.
  destruct (readDirent_in r mb off (WDirent.mimeType d) (WDirent.ns d) WDirent.version nums
    (WDirent.path d) (stored_title d) e) as (mb' & E); try done.
  { unfold dirent_at. rewrite <- Hc. split_and!; done. }
  { by apply stored_title_no_nul. }
  rewrite <- Ee in E. eexists _, mb'. split; [exact E|].
  split; [done|]. split; [done|]. split.
  { unfold as_read, with_strings, Dirent.getTitle, stored_title. simpl.
    unfold WDirent.getTitle. repeat case_bool_decide; naive_solver. }
  split; [|split; [done|]].
  - destruct Hn as [x i Hm|]; [|done]. unfold as_read. simpl. by rewrite Hm.
  - rewrite (wdirent_isRedirect _ _ d nums Hn). pose proof (wdirent_isRedirect _ _ d nums Hn) as Hir.
    unfold WDirent.getRedirectIndex, WDirent.getClusterNumber, WDirent.getBlobNumber.
    rewrite Hir. unfold WDirent.isRedirect in Hir.
    destruct Hn as [x i Hm Hi -> Hf|c0 c b Hf Hm Hi -> Hcf Hb]; cbn [length Nat.eqb] in *; rewrite Hi.
    + done.
    + unfold Dirent.getClusterNumber, Dirent.getBlobNumber, Dirent.isRedirect, as_read. simpl.
      change Dirent.redirectMimeType with WDirent.redirectMimeType. rewrite Hir.
      by destruct (WDirent.cluster d).
Qed.

(** [getDirentSize] of the writer, from which the offsets of all entries are
    computed before any is written, is the number of bytes [write] produces. *)
Theorem dirent_size_written d nums out :
  wdirent_ok dirent_idx cluster_idx d nums -> WDirent.write dirent_idx cluster_idx d = Ok out ->
  Zlen (WDirent.path d) + Zlen (WDirent.title d) < 2 ^ 63 ->
  Zlen out = WDirent.getDirentSize d.
Proof.
  intros Hok Hw Hlt. rewrite (wdirent_write _ _ d nums) in Hw by apply Hok. injection Hw as <-.
  by apply wdirent_size with dirent_idx cluster_idx.
Qed.

End properties.

(** An item in cluster 4 of a directory, as the creator prepares it. *)
Definition sample_wdirent : WDirent.t :=
  WDirent.mk 2 (WDirent.DirectInfo 0 9) 67 (lit "a/path") (lit "Title") (Some 4%nat) 0 [] 0 0 false.

Definition sample_out : bytes :=
  match WDirent.write (fun _ => 0) Z.of_nat sample_wdirent with Ok l => l | _ => [] end.

Lemma sample_wdirent_ok : wdirent_ok (fun _ => 0) Z.of_nat sample_wdirent [4; 9].
Proof.
  split; try (by repeat constructor).
  apply wnum_item with 0; done.
Qed.

Lemma dirent_roundtrip_witness :
  exists e mb',
    readDirent (memory_reader (sample_out ++ [1; 2])) [] 0 = Ok (e, mb') /\
    Dirent.getNamespace e = 67 /\ Dirent.getUrl e = lit "a/path" /\ Dirent.getTitle e = lit "Title" /\
    Dirent.getMimeType e = 2 /\ Dirent.getParameter e = [] /\
    (Ok (Dirent.getClusterNumber e) = Ok 4 /\ Ok (Dirent.getBlobNumber e) = Ok 9).
Proof.
  eapply (dirent_roundtrip (fun _ => 0) Z.of_nat _ sample_wdirent [4; 9]); try done.
  - apply sample_wdirent_ok.
  - by left.
Defined.

Lemma dirent_size_written_witness : WDirent.getDirentSize sample_wdirent = 29.
Proof.
  symmetry. apply (dirent_size_written (fun _ => 0) Z.of_nat sample_wdirent [4; 9] sample_out);
    [apply sample_wdirent_ok|done|done].
Defined.
