(* ===== verification/Cluster.v ===== *)
(** Clusters as the reading side sees them ([cluster.h], [cluster.cpp]).

    A cluster is read through a stream, so its blobs are cut off one after the
    other and kept; asking for blob [n] cuts all blobs up to [n] that were not
    cut yet. *)

From stdpp Require Import strings.
From S2P Require Import Prelude.
From S2P Require Import Types.
From S2P Require Import Readers.
From S2P Require Import Files.
From S2P Require Import Compression.
From S2P Require Import Streams.

(** * The stream of a cluster: virtual dispatch *)

Section cluster.
Context `{OS} `{LzmaLib} `{ZstdLib}.

Inductive AnyStream : Type :=
  | SRaw (s : RawStreamReader)
  | SLzma (s : @DecoderStreamReader LZMA_INFO)
  | SZstd (s : @DecoderStreamReader ZSTD_INFO).

Definition AnyStream_readImpl (s : AnyStream) (n : Z) : outcome (bytes * AnyStream) :=
  match s with
  | SRaw s => '(b, s) ← readImpl s n; mret (b, SRaw s)
  | SLzma s => '(b, s) ← readImpl s n; mret (b, SLzma s)
  | SZstd s => '(b, s) ← readImpl s n; mret (b, SZstd s)
  end.

Definition AnyStream_sub_reader (s : AnyStream) (n : Z) : outcome (AnyReader * AnyStream) :=
  match s with
  | SRaw s => '(b, s) ← stream_sub_reader s n; mret (b, SRaw s)
  | SLzma s => '(b, s) ← stream_sub_reader s n; mret (b, SLzma s)
  | SZstd s => '(b, s) ← stream_sub_reader s n; mret (b, SZstd s)
  end.

#[export] Instance AnyStream_Stream : IStreamReader AnyStream := {
  readImpl := AnyStream_readImpl;
  stream_sub_reader := AnyStream_sub_reader;
}.

(** * [Cluster] *)

Record Cluster : Type := mkCluster {
  compression : CompressionType;
  isExtended : bool;
  m_reader : AnyStream;
  m_blobOffsets : list Z;
  m_blobReaders : list AnyReader;
}.

(** The stream, the compression and the extended flag of the cluster at
    [offset]. *)
Definition getClusterReader (zimReader : AnyReader) (offset : Z) :
    outcome (AnyStream * CompressionType * bool) :=
  clusterInfo ← r_get zimReader offset;
  let comp := CompressionType_of (Z.land clusterInfo 0x0F) in
  let extended := negb (Z.land clusterInfo 0x10 =? 0) in
  subReader ← sub_reader_from zimReader (off_add offset 1);
  match comp with
  | Some zimcompDefault => mret (SRaw (RawStreamReader_new subReader), zimcompDefault, extended)
  | Some zimcompNone => mret (SRaw (RawStreamReader_new subReader), zimcompNone, extended)
  | Some zimcompLzma =>
      s ← @DecoderStreamReader_new _ LZMA_INFO subReader; mret (SLzma s, zimcompLzma, extended)
  | Some zimcompZstd =>
      s ← @DecoderStreamReader_new _ ZSTD_INFO subReader; mret (SZstd s, zimcompZstd, extended)
  | Some zimcompZip => Throw (runtime_error "zlib not enabled in this library")
  | Some zimcompBzip2 => Throw (runtime_error "bzip2 not enabled in this library")
  | None => Throw (ZimFileFormatError "Invalid compression flag")
  end.

(** [while (--n_offset)]: reads the offsets after the first. *)
Fixpoint read_header_loop (fuel : nat) (N : nat) (n_offset offset : Z) (seqReader : BufferStreamer)
    (acc : list Z) : outcome (list Z) :=
  let n_offset := u64 (n_offset - 1) in
  if n_offset =? 0 then mret acc
  else match fuel with
  | O => Diverge
  | S fuel =>
      '(new_offset, seqReader) ← stream_read N seqReader;
      ASSERT (offset <=? new_offset) ;;
      read_header_loop fuel N n_offset new_offset seqReader (acc ++ [new_offset])
  end.

(** [read_header<OFFSET_TYPE>], [N = sizeof(OFFSET_TYPE)]: the blob offsets,
    and the stream after them. *)
Definition read_header (N : nat) (s : AnyStream) : outcome (list Z * AnyStream) :=
  '(offset, s) ← read_T N s;
  let n_offset := offset / Z.of_nat N in
  let bufferSize := u64 (offset - Z.of_nat N) in
  '(r, s) ← stream_sub_reader s bufferSize;
  buffer ← r_get_buffer r 0 bufferSize;
  seqReader ← BufferStreamer_new buffer bufferSize;
  offsets ← read_header_loop (Z.to_nat n_offset) N n_offset offset seqReader [offset];
  mret (offsets, s).

(** The constructor. *)
Definition Cluster_new (reader_ : AnyStream) (comp : CompressionType) (extended : bool) :
    outcome Cluster :=
  '(offsets, s) ← read_header (if extended then 8 else 4) reader_;
  mret (mkCluster comp extended s offsets []).

(** [Cluster::read]. *)
Definition Cluster_read (zimReader : AnyReader) (clusterOffset : Z) : outcome Cluster :=
  '(reader, comp, extended) ← getClusterReader zimReader clusterOffset;
  Cluster_new reader comp extended.

Definition getCompression (c : Cluster) : CompressionType := compression c.
Definition isCompressed (c : Cluster) : bool :=
  bool_decide (compression c <> zimcompDefault) && bool_decide (compression c <> zimcompNone).

Definition count (c : Cluster) : Z := u32 (u64 (Zlen (m_blobOffsets c) - 1)).

(** [m_blobOffsets[i]]: undefined out of range. *)
Definition blobOffset_at (c : Cluster) (i : Z) : outcome Z :=
  match m_blobOffsets c !! Z.to_nat i with Some o => mret o | None => Undef end.

Definition getBlobSize (c : Cluster) (n : Z) : outcome Z :=
  if Zlen (m_blobOffsets c) <=? u32 (n + 1) then
    Throw (ZimFileFormatError "blob index out of range")
  else
    b ← blobOffset_at c (u32 (n + 1));
    a ← blobOffset_at c n;
    mret (u64 (b - a)).

Definition getBlobOffset (c : Cluster) (n : Z) : outcome Z :=
  o ← blobOffset_at c n; mret (off_add 1 o).

(** The loop of [getReader] that cuts the blobs up to [n]. *)
Fixpoint getReader_loop (fuel : nat) (c : Cluster) (current n : Z) : outcome Cluster :=
  if current <=? n then
    match fuel with
    | O => Diverge
    | S fuel =>
        blobSize ← getBlobSize c current;
        '(r, s) ← (if SIZE_MAX <? blobSize then
                     b ← Buffer_new [] 0 0; mret (ABuffer (mkBufferReader b), m_reader c)
                   else stream_sub_reader (m_reader c) blobSize);
        getReader_loop fuel
          (mkCluster (compression c) (isExtended c) s (m_blobOffsets c) (m_blobReaders c ++ [r]))
          (u32 (current + 1)) n
    end
  else mret c.

Definition getReader (c : Cluster) (n : Z) : outcome (AnyReader * Cluster) :=
  c ← getReader_loop (S (Z.to_nat n)) c (u32 (Zlen (m_blobReaders c))) n;
  match m_blobReaders c !! Z.to_nat n with
  | Some r => mret (r, c)
  | None => Undef
  end.

Definition getBlob (c : Cluster) (n : Z) : outcome (Blob * Cluster) :=
  if n <? count c then
    blobSize ← getBlobSize c n;
    if SIZE_MAX <? blobSize then mret (Blob_empty, c)
    else
      '(r, c) ← getReader c n;
      b ← r_get_buffer r 0 blobSize;
      mret (Blob_of_Buffer b, c)
  else mret (Blob_empty, c).

(** [getBlob(n, offset, size)]. *)
Definition getBlob_part (c : Cluster) (n offset size : Z) : outcome (Blob * Cluster) :=
  if n <? count c then
    blobSize ← getBlobSize c n;
    if blobSize <? offset then mret (Blob_empty, c)
    else
      let size := Z.min size (u64 (blobSize - offset)) in
      if SIZE_MAX <? size then mret (Blob_empty, c)
      else
        '(r, c) ← getReader c n;
        b ← r_get_buffer r offset size;
        mret (Blob_of_Buffer b, c)
  else mret (Blob_empty, c).

End cluster.

(** * The format

    The payload of a cluster: the offsets of its blobs, counted from the start
    of the payload, one more than there are blobs, then the blobs. *)

Fixpoint offsets_from (start : Z) (blobs : list bytes) : list Z :=
  match blobs with
  | [] => [start]
  | b :: blobs => start :: offsets_from (start + Zlen b) blobs
  end.

Definition offset_bytes (extended : bool) : nat := if extended then 8%nat else 4%nat.

Definition header_size (extended : bool) (blobs : list bytes) : Z :=
  Z.of_nat (offset_bytes extended) * (1 + Zlen blobs).

Definition cluster_payload (extended : bool) (blobs : list bytes) : bytes :=
  concat (map (toLittleEndian (offset_bytes extended))
            (offsets_from (header_size extended blobs) blobs)) ++ concat blobs.

(** The offsets fit their type, and a read never asks for more than the system
    gives in one call. *)
Definition payload_ok (extended : bool) (blobs : list bytes) : Prop :=
  blobs <> [] /\ header_size extended blobs <= max_read /\
  Forall (fun b => Zlen b <= max_read) blobs /\ Zlen blobs < 2 ^ 31 /\
  header_size extended blobs + Zlen (concat blobs) < 2 ^ (8 * Z.of_nat (offset_bytes extended) - 1).

(** * Lemmas *)

Lemma offsets_from_length start blobs : Zlen (offsets_from start blobs) = 1 + Zlen blobs.
Proof.
  revert start. induction blobs as [|b blobs IH]; intros start; cbn [offsets_from];
    rewrite !Zlen_cons; [done|]. rewrite IH. lia.
Qed.

Lemma offsets_from_lookup start blobs i :
  0 <= i <= Zlen blobs ->
  offsets_from start blobs !! Z.to_nat i = Some (start + Zlen (concat (take (Z.to_nat i) blobs))).
Proof.
  revert start i. induction blobs as [|b blobs IH]; intros start i Hi; cbn [offsets_from].
  - change (@Zlen bytes []) with 0 in Hi. replace i with 0 by lia. simpl. f_equal. rewrite Zlen_nil. lia.
  - rewrite Zlen_cons in Hi. destruct (decide (i = 0)) as [->|].
    + simpl. f_equal. rewrite Zlen_nil. lia.
    + replace (Z.to_nat i) with (S (Z.to_nat (i - 1))) by lia. cbn [lookup list_lookup take concat].
      change (offsets_from (start + Zlen b) blobs !! Z.to_nat (i - 1) =
        Some (start + Zlen (b ++ concat (take (Z.to_nat (i - 1)) blobs)))).
      rewrite IH by lia. rewrite Zlen_app. f_equal. lia.
Qed.

Lemma offset_bytes_cases e : offset_bytes e = 2%nat \/ offset_bytes e = 4%nat \/ offset_bytes e = 8%nat.
Proof. destruct e; auto. Qed.

Lemma concat_ints_length N l :
  N = 2%nat \/ N = 4%nat \/ N = 8%nat -> Zlen (concat (map (toLittleEndian N) l)) = Z.of_nat N * Zlen l.
Proof.
  intros HN. induction l as [|x l IH]; cbn [map concat]; [rewrite !Zlen_nil; lia|].
  rewrite Zlen_app, Zlen_cons, IH. unfold Zlen at 1. rewrite length_toLittleEndian by done. lia.
Qed.

Lemma offsets_from_mono start blobs :
  Forall (fun o => start <= o <= start + Zlen (concat blobs)) (offsets_from start blobs).
Proof.
  revert start. induction blobs as [|b blobs IH]; intros start; cbn [offsets_from concat].
  - constructor; [rewrite Zlen_nil; lia|constructor].
  - rewrite Zlen_app. pose proof (Zlen_nonneg b). pose proof (Zlen_nonneg (concat blobs)).
    constructor; [lia|]. eapply Forall_impl; [apply IH|]. simpl. lia.
Qed.

(** The loop over the offsets after [offset]. *)
Lemma read_header_loop_in N fuel blobs start s acc k :
  N = 2%nat \/ N = 4%nat \/ N = 8%nat ->
  0 <= start -> start + Zlen (concat blobs) < 2 ^ (8 * Z.of_nat N) -> Zlen blobs < 2 ^ 31 ->
  stream_has s (concat (map (toLittleEndian N) (tail (offsets_from start blobs))) ++ k) ->
  (length blobs <= fuel)%nat ->
  read_header_loop fuel N (1 + Zlen blobs) start s acc = Ok (acc ++ tail (offsets_from start blobs)).
Proof.
  intros HN. revert fuel start s acc. induction blobs as [|b blobs IH];
    intros fuel start s acc Hstart Hfit Hlen Hs Hfuel.
  - destruct fuel; cbn [read_header_loop]; change (@Zlen bytes []) with 0; simpl; by rewrite app_nil_r.
  - destruct fuel as [|fuel]; [simpl in Hfuel; lia|]. cbn [read_header_loop].
    rewrite Zlen_cons in *. pose proof (Zlen_nonneg blobs).
    rewrite u64_small by lia. replace (1 + (1 + Zlen blobs) - 1) with (1 + Zlen blobs) by lia.
    rewrite (proj2 (Z.eqb_neq _ 0)) by lia.
    cbn [offsets_from tail] in *. cbn [concat] in Hfit. rewrite Zlen_app in Hfit.
    pose proof (Zlen_nonneg b). pose proof (Zlen_nonneg (concat blobs)).
    assert (Ef : offsets_from (start + Zlen b) blobs =
      (start + Zlen b) :: tail (offsets_from (start + Zlen b) blobs)) by (by destruct blobs).
    rewrite Ef in Hs |- *. cbn [map concat] in Hs. rewrite <- app_assoc in Hs.
    eapply stream_read_int in Hs as (-> & Hs'); [|done|unfold fits; lia].
    cbn [mbind outcome_bind]. rewrite (proj2 (Z.leb_le _ _)) by lia. cbn [ASSERT mbind outcome_bind].
    rewrite IH; [by rewrite <- app_assoc|lia|lia|lia|done|simpl in Hfuel; lia].
Qed.

Section cluster_facts.
Context `{OSSpec} `{LzmaLib} `{ZstdLib}.
Context (lzma_spec : @DecoderSpec LZMA_INFO) (zstd_spec : @DecoderSpec ZSTD_INFO).

Definition AnyStream_at (s : AnyStream) (left : bytes) : Prop :=
  match s with
  | SRaw s => stream_at s left
  | SLzma s => @Decoder_at _ _ LZMA_INFO lzma_spec s left
  | SZstd s => @Decoder_at _ _ ZSTD_INFO zstd_spec s left
  end.

#[export] Program Instance AnyStream_Spec : StreamSpec AnyStream := {
  stream_at := AnyStream_at;
}.
Next Obligation.
  intros [s|s|s] left n Hs Hn Hmax; cbn [AnyStream_at] in Hs.
  - destruct (readImpl_in s left n Hs Hn Hmax) as (s' & E & Hs').
    exists (SRaw s'). split; [|done]. unfold readImpl. cbn [AnyStream_Stream AnyStream_readImpl].
    by rewrite E.
  - destruct (@readImpl_in _ _ _ _ (@Decoder_Spec _ _ LZMA_INFO lzma_spec) s left n Hs Hn Hmax)
      as (s' & E & Hs').
    exists (SLzma s'). split; [|done]. unfold readImpl at 1. cbn [AnyStream_Stream AnyStream_readImpl].
    by rewrite E.
  - destruct (@readImpl_in _ _ _ _ (@Decoder_Spec _ _ ZSTD_INFO zstd_spec) s left n Hs Hn Hmax)
      as (s' & E & Hs').
    exists (SZstd s'). split; [|done]. unfold readImpl at 1. cbn [AnyStream_Stream AnyStream_readImpl].
    by rewrite E.
Qed.
Next Obligation.
  intros [s|s|s] left n Hs Hn Hmax; cbn [AnyStream_at] in Hs.
  - destruct (sub_reader_in s left n Hs Hn Hmax) as (r & s' & E & ? & ? & Hs').
    exists r, (SRaw s'). split; [|done]. unfold stream_sub_reader at 1.
    cbn [AnyStream_Stream AnyStream_sub_reader]. by rewrite E.
  - destruct (@sub_reader_in _ _ _ _ (@Decoder_Spec _ _ LZMA_INFO lzma_spec) s left n Hs Hn Hmax)
      as (r & s' & E & ? & ? & Hs').
    exists r, (SLzma s'). split; [|done]. unfold stream_sub_reader at 1.
    cbn [AnyStream_Stream AnyStream_sub_reader]. by rewrite E.
  - destruct (@sub_reader_in _ _ _ _ (@Decoder_Spec _ _ ZSTD_INFO zstd_spec) s left n Hs Hn Hmax)
      as (r & s' & E & ? & ? & Hs').
    exists r, (SZstd s'). split; [|done]. unfold stream_sub_reader at 1.
    cbn [AnyStream_Stream AnyStream_sub_reader]. by rewrite E.
Qed.

(** The state of an open cluster that holds [blobs]: the first ones have been
    cut off the stream and the stream is at the next. *)
Record cluster_at (c : Cluster) (blobs : list bytes) (rest : bytes) : Prop := {
  ca_offsets : m_blobOffsets c = offsets_from (header_size (isExtended c) blobs) blobs;
  ca_readers : exists k, Forall2 (fun r b => r_wf r /\ r_content r = b) (m_blobReaders c) (take k blobs) /\
    (k <= length blobs)%nat /\ stream_at (m_reader c) (concat (drop k blobs) ++ rest);
}.

Lemma Blob_of_Buffer_string b : Buffer_wf b -> Blob_string (Blob_of_Buffer b) = Ok (Buffer_content b).
Proof. intros (?&?&?&?). unfold Blob_string. simpl. by rewrite mem_read_ok. Qed.

Lemma Zlen_concat_take (blobs : list bytes) k : Zlen (concat (take k blobs)) <= Zlen (concat blobs).
Proof.
  rewrite <- (take_drop k blobs) at 2. rewrite concat_app, Zlen_app.
  pose proof (Zlen_nonneg (concat (drop k blobs))). lia.
Qed.

Lemma read_header_in e s blobs rest :
  payload_ok e blobs -> stream_at s (cluster_payload e blobs ++ rest) ->
  exists s', read_header (offset_bytes e) s = Ok (offsets_from (header_size e blobs) blobs, s') /\
    stream_at s' (concat blobs ++ rest).
Proof.
  intros (Hne & Hhdr & Hblobs & Hcount & Hfit) Hs.
  pose proof (offset_bytes_cases e) as HN. set (N := offset_bytes e) in *.
  assert (HNr : 2 <= Z.of_nat N <= 8) by lia.
  assert (Hb1 : 1 <= Zlen blobs).
  { destruct blobs; [done|]. rewrite Zlen_cons. pose proof (Zlen_nonneg blobs). lia. }
  pose proof (Zlen_nonneg (concat blobs)) as Hc0.
  assert (Hh : header_size e blobs = Z.of_nat N * (1 + Zlen blobs)) by done.
  assert (Hpow : 2 ^ (8 * Z.of_nat N - 1) <= 2 ^ 63) by (apply Z.pow_le_mono_r; lia).
  assert (Hpow' : 2 * 2 ^ (8 * Z.of_nat N - 1) = 2 ^ (8 * Z.of_nat N)).
  { rewrite <- Z.pow_succ_r by lia. f_equal. lia. }
  unfold max_read in *. set (start := header_size e blobs) in *.
  unfold cluster_payload in Hs. fold start N in Hs.
  assert (Ef : offsets_from start blobs = start :: tail (offsets_from start blobs)) by (by destruct blobs).
  rewrite Ef in Hs. cbn [map concat] in Hs. rewrite <- !app_assoc in Hs.
  pose proof (length_toLittleEndian N start HN) as Hlen0.
  unfold read_header.
  destruct (read_T_in N s _ Hs) as (s1 & -> & Hs1).
  { rewrite Zlen_app. unfold Zlen at 1. rewrite Hlen0.
    match goal with |- context [Zlen ?x] => pose proof (Zlen_nonneg x) end. lia. }
  { unfold max_read. lia. }
  rewrite slice_app_l by (unfold Zlen; lia).
  rewrite slice_0 by (unfold Zlen; lia).
  rewrite from_to_LittleEndian, wrap_small by (done || unfold fits; lia).
  cbn [mbind outcome_bind].
  rewrite drop_app_ge in Hs1 by lia. rewrite Hlen0, Nat.sub_diag, drop_0 in Hs1.
  replace (u64 (start - Z.of_nat N)) with (Z.of_nat N * Zlen blobs) by (rewrite u64_small; nia).
  set (hdr := concat (map (toLittleEndian N) (tail (offsets_from start blobs)))) in *.
  assert (Hhl : Zlen hdr = Z.of_nat N * Zlen blobs).
  { unfold hdr. rewrite concat_ints_length by done. f_equal.
    pose proof (offsets_from_length start blobs) as El. rewrite Ef, Zlen_cons in El. lia. }
  destruct (sub_reader_in s1 _ (Z.of_nat N * Zlen blobs) Hs1) as (r & s2 & -> & Hr & Hcr & Hs2).
  { rewrite Zlen_app, Hhl. match goal with |- context [Zlen (?x ++ ?y)] =>
      pose proof (Zlen_nonneg (x ++ y)) end. lia. }
  { unfold max_read. lia. }
  cbn [mbind outcome_bind].
  rewrite slice_app_l in Hcr by lia. rewrite slice_0 in Hcr by lia.
  destruct (r_buffer_in r 0 (Z.of_nat N * Zlen blobs)) as (buf & -> & Hwf & Hsz & Hbc);
    [done|lia|lia|rewrite (r_size_content r Hr), Hcr; lia|unfold max_read; lia|].
  cbn [mbind outcome_bind].
  rewrite Hcr, slice_0 in Hbc by lia.
  destruct (BufferStreamer_has buf Hwf) as (q & Hq & Hhas & _). rewrite Hbc in Hhas.
  unfold BufferStreamer_of in Hq. rewrite Hsz in Hq. rewrite Hq. cbn [mbind outcome_bind].
  replace (start / Z.of_nat N) with (1 + Zlen blobs)
    by (rewrite Hh, Z.mul_comm, Z.div_mul by lia; done).
  rewrite (read_header_loop_in N _ blobs start q [start] []); first last.
  { unfold Zlen. lia. }
  { by rewrite app_nil_r. }
  1-4: done || lia.
  cbn [mbind outcome_bind]. eexists. split; [rewrite Ef at 2; done|].
  rewrite drop_app_ge in Hs2 by (unfold Zlen in *; lia).
  replace (Z.to_nat (Z.of_nat N * Zlen blobs) - length hdr)%nat with 0%nat in Hs2
    by (unfold Zlen in *; lia).
  by rewrite drop_0 in Hs2.
Qed.

Lemma Cluster_new_in e comp s blobs rest :
  payload_ok e blobs -> stream_at s (cluster_payload e blobs ++ rest) ->
  exists c, Cluster_new s comp e = Ok c /\ compression c = comp /\ isExtended c = e /\
    cluster_at c blobs rest.
Proof.
  intros Hok Hs. destruct (read_header_in e s blobs rest Hok Hs) as (s' & E & Hs').
  unfold Cluster_new. change (if e then 8%nat else 4%nat) with (offset_bytes e). rewrite E.
  eexists. split; [done|]. split; [done|]. split; [done|]. split; [done|].
  exists 0%nat. split; [constructor|]. split; [lia|done].
Qed.

(** Cutting blobs does not change the compression. *)
Lemma getReader_compression c n r c' : getReader c n = Ok (r, c') -> compression c' = compression c.
Proof.
  unfold getReader. intros E. apply bind_Ok in E as (c1 & E1 & E).
  destruct (_ !! _); [|done]. injection E as _ <-.
  revert E1. generalize (u32 (Zlen (m_blobReaders c))). generalize (S (Z.to_nat n)). intros fuel.
  revert c. induction fuel as [|fuel IH]; intros c cur E; cbn [getReader_loop] in E; (destruct (cur <=? n); [|by inv_outcome]); [done|].
  apply bind_Ok in E as (sz & _ & E). apply bind_Ok in E as ([r' s] & _ & E). by apply IH in E.
Qed.

Lemma getBlob_part_compression c n off size x c' :
  getBlob_part c n off size = Ok (x, c') -> compression c' = compression c.
Proof.
  unfold getBlob_part. destruct (_ <? _); [|by intros [= _ <-]]. intros E. apply bind_Ok in E as (sz & _ & E).
  destruct (_ <? _); [by injection E as _ <-|]. destruct (_ <? _); [by injection E as _ <-|].
  apply bind_Ok in E as ([r c1] & E1 & E). apply bind_Ok in E as (b & _ & E). injection E as _ <-.
  by eapply getReader_compression.
Qed.

(** [getBlobOffset] counts from the byte before the payload. *)
Lemma getBlobOffset_in c blobs rest n :
  payload_ok (isExtended c) blobs -> cluster_at c blobs rest -> 0 <= n <= Zlen blobs ->
  getBlobOffset c n = Ok (1 + header_size (isExtended c) blobs + Zlen (concat (take (Z.to_nat n) blobs))).
Proof.
  intros (_ & _ & _ & _ & Hfit) [Ho _] Hn. unfold getBlobOffset, blobOffset_at.
  rewrite Ho, offsets_from_lookup by done. cbn [mbind outcome_bind mret outcome_ret]. f_equal.
  pose proof (Zlen_concat_take blobs (Z.to_nat n)). pose proof (Zlen_nonneg (concat (take (Z.to_nat n) blobs))).
  assert (2 ^ (8 * Z.of_nat (offset_bytes (isExtended c)) - 1) <= 2 ^ 63)
    by (apply Z.pow_le_mono_r; destruct (isExtended c); simpl; lia).
  assert (0 <= header_size (isExtended c) blobs) by (unfold header_size; pose proof (Zlen_nonneg blobs); nia).
  rewrite off_add_small by lia. lia.
Qed.

Section open_cluster.
Context (c0 : Cluster) (blobs : list bytes) (rest : bytes).
Hypothesis Hok : payload_ok (isExtended c0) blobs.

Lemma count_in c : cluster_at c blobs rest -> isExtended c = isExtended c0 -> count c = Zlen blobs.
Proof.
  intros [Ho _] He. destruct Hok as (_ & _ & _ & Hc & _). pose proof (Zlen_nonneg blobs).
  unfold count. rewrite Ho, offsets_from_length. rewrite u64_small by lia. rewrite u32_small by lia. lia.
Qed.

Lemma getBlobSize_in c i b :
  cluster_at c blobs rest -> isExtended c = isExtended c0 ->
  0 <= i -> blobs !! Z.to_nat i = Some b -> getBlobSize c i = Ok (Zlen b).
Proof.
  intros [Ho _] He Hi Hb. pose proof Hok as (_ & _ & _ & Hc & Hfit). rewrite He in Ho.
  assert (Hlt : i < Zlen blobs) by (apply lookup_lt_Some in Hb; unfold Zlen; lia).
  unfold getBlobSize, blobOffset_at. rewrite u32_small by lia.
  rewrite Ho, offsets_from_length. rewrite (proj2 (Z.leb_gt _ _)) by lia.
  rewrite !offsets_from_lookup by lia. cbn [mbind outcome_bind mret outcome_ret].
  f_equal. replace (Z.to_nat (i + 1)) with (S (Z.to_nat i)) by lia.
  rewrite (take_S_r _ _ _ Hb), concat_app, Zlen_app. cbn [concat]. rewrite app_nil_r.
  replace (_ - _) with (Zlen b) by lia. apply u64_small. split; [apply Zlen_nonneg|].
  destruct Hok as (_ & _ & Hall & _). rewrite Forall_lookup in Hall. specialize (Hall _ _ Hb).
  unfold max_read in *. simpl in Hall. lia.
Qed.

Lemma getReader_loop_in fuel c n :
  cluster_at c blobs rest -> isExtended c = isExtended c0 -> 0 <= n < Zlen blobs ->
  (Z.to_nat (n + 1 - Zlen (m_blobReaders c)) <= fuel)%nat ->
  exists c', getReader_loop fuel c (u32 (Zlen (m_blobReaders c))) n = Ok c' /\
    cluster_at c' blobs rest /\ isExtended c' = isExtended c /\ n < Zlen (m_blobReaders c').
Proof.
  intros Hat He Hn. pose proof Hok as (_ & _ & Hall & Hcnt & _).
  revert c Hat He. induction fuel as [|fuel IH]; intros c Hat He Hfuel.
  all: pose proof Hat as [Ho (k & Hf2 & Hk & Hs)];
    assert (Hlen : Zlen (m_blobReaders c) = Z.of_nat k)
      by (apply Forall2_length in Hf2; rewrite length_take in Hf2; unfold Zlen; lia);
    rewrite u32_small by (unfold Zlen in *; lia); cbn [getReader_loop].
  { rewrite (proj2 (Z.leb_gt _ _)) by lia. exists c. split_and!; [done..|lia]. }
  destruct (Z.leb_spec (Zlen (m_blobReaders c)) n) as [Hle|Hgt].
  2: { exists c. by split_and!. }
  destruct (lookup_lt_is_Some_2 blobs k) as [b Hb]; [unfold Zlen in *; lia|].
  rewrite (getBlobSize_in c (Zlen (m_blobReaders c)) b) by (done || (rewrite Hlen; by rewrite ?Nat2Z.id) || lia).
  cbn [mbind outcome_bind].
  rewrite Forall_lookup in Hall. pose proof (Hall _ _ Hb) as Hbm. simpl in Hbm.
  pose proof (Zlen_nonneg b). unfold max_read, SIZE_MAX in *.
  rewrite (proj2 (Z.ltb_ge _ _)) by lia.
  rewrite (drop_S _ _ _ Hb) in Hs. cbn [concat] in Hs. rewrite <- app_assoc in Hs.
  destruct (sub_reader_in (m_reader c) _ (Zlen b) Hs) as (r & s' & -> & Hr & Hcr & Hs').
  { rewrite Zlen_app. match goal with |- context [Zlen (?x ++ ?y)] =>
      pose proof (Zlen_nonneg (x ++ y)) end. lia. }
  { unfold max_read. lia. }
  cbn [mbind outcome_bind].
  assert (Hpos : u32 (Zlen (m_blobReaders c) + 1) = u32 (Zlen (m_blobReaders c ++ [r])))
    by (by rewrite Zlen_app).
  rewrite Hpos. clear Hpos.
  match goal with |- context [getReader_loop _ ?c1 _ _] =>
    destruct (IH c1) as (c' & E & Hat' & He' & Hn') end.
  - split; [done|]. exists (S k). cbn [m_blobReaders m_reader]. split; [|split].
    + rewrite (take_S_r _ _ _ Hb). apply Forall2_app; [done|].
      constructor; [|constructor]. split; [done|]. rewrite Hcr.
      rewrite slice_app_l by lia. by rewrite slice_0.
    + apply lookup_lt_Some in Hb. lia.
    + replace (Z.to_nat (Zlen b)) with (length b) in Hs' by (unfold Zlen; lia).
      by rewrite drop_app_length in Hs'.
  - done.
  - cbn [m_blobReaders]. rewrite Zlen_app, Zlen_cons. change (@Zlen AnyReader []) with 0. lia.
  - exists c'. split; [exact E|]. done.
Qed.

Lemma getReader_in c n b :
  cluster_at c blobs rest -> isExtended c = isExtended c0 -> 0 <= n -> blobs !! Z.to_nat n = Some b ->
  exists r c', getReader c n = Ok (r, c') /\ r_wf r /\ r_content r = b /\
    cluster_at c' blobs rest /\ isExtended c' = isExtended c0.
Proof.
  intros Hat He Hn Hb.
  assert (Hlt : n < Zlen blobs) by (apply lookup_lt_Some in Hb; unfold Zlen; lia).
  destruct (getReader_loop_in (S (Z.to_nat n)) c n Hat He) as (c' & E & Hat' & He' & Hlen);
    [lia|pose proof (Zlen_nonneg (m_blobReaders c)); lia|].
  unfold getReader. rewrite E. cbn [mbind outcome_bind].
  pose proof Hat' as [_ (k & Hf2 & Hk & _)].
  destruct (lookup_lt_is_Some_2 (m_blobReaders c') (Z.to_nat n)) as [r Hr];
    [unfold Zlen in *; lia|].
  rewrite Hr. exists r, c'. split; [done|].
  destruct (Forall2_lookup_l _ _ _ _ _ Hf2 Hr) as (b' & Hb' & Hwf & Hc).
  apply lookup_take_Some in Hb' as [Hb' _]. rewrite Hb in Hb'. simplify_eq.
  split_and!; try done. congruence.
Qed.

Lemma getBlob_in c n b :
  cluster_at c blobs rest -> isExtended c = isExtended c0 ->
  0 <= n -> blobs !! Z.to_nat n = Some b -> b <> [] ->
  exists x c', getBlob c n = Ok (x, c') /\ b_size x = Zlen b /\ Blob_string x = Ok b /\
    cluster_at c' blobs rest /\ isExtended c' = isExtended c0.
Proof.
  intros Hat He Hn Hb Hne. pose proof Hok as (_ & _ & Hall & _).
  rewrite Forall_lookup in Hall. pose proof (Hall _ _ Hb) as Hbm. simpl in Hbm.
  assert (Hlt : n < Zlen blobs) by (apply lookup_lt_Some in Hb; unfold Zlen; lia).
  assert (Hpos : 0 < Zlen b).
  { destruct b; [done|]. rewrite Zlen_cons. pose proof (Zlen_nonneg b). lia. }
  unfold getBlob. rewrite (count_in c Hat He), (proj2 (Z.ltb_lt _ _)) by done.
  rewrite (getBlobSize_in c n b) by done. cbn [mbind outcome_bind].
  unfold SIZE_MAX, max_read in *. rewrite (proj2 (Z.ltb_ge _ _)) by lia.
  destruct (getReader_in c n b Hat He Hn Hb) as (r & c' & -> & Hr & Hc & Hat' & He').
  cbn [mbind outcome_bind].
  destruct (r_buffer_in r 0 (Zlen b)) as (buf & -> & Hwf & Hsz & Hbc);
    [done|lia|lia|rewrite (r_size_content r Hr), Hc; lia|unfold max_read; lia|].
  cbn [mbind outcome_bind]. rewrite Hc, slice_all in Hbc.
  eexists _, c'. split; [done|]. split; [done|]. split; [|done].
  by rewrite Blob_of_Buffer_string, Hbc.
Qed.

Lemma getBlob_part_in c n b off size :
  cluster_at c blobs rest -> isExtended c = isExtended c0 ->
  0 <= n -> blobs !! Z.to_nat n = Some b -> 0 <= off < Zlen b -> 0 < size ->
  exists x c', getBlob_part c n off size = Ok (x, c') /\
    Blob_string x = Ok (slice b off (Z.min size (Zlen b - off))) /\
    cluster_at c' blobs rest /\ isExtended c' = isExtended c0.
Proof.
  intros Hat He Hn Hb Hoff Hsize. pose proof Hok as (_ & _ & Hall & _).
  rewrite Forall_lookup in Hall. pose proof (Hall _ _ Hb) as Hbm. simpl in Hbm.
  assert (Hlt : n < Zlen blobs) by (apply lookup_lt_Some in Hb; unfold Zlen; lia).
  unfold getBlob_part. rewrite (count_in c Hat He), (proj2 (Z.ltb_lt _ _)) by done.
  rewrite (getBlobSize_in c n b) by done. cbn [mbind outcome_bind].
  unfold SIZE_MAX, max_read in *. rewrite (proj2 (Z.ltb_ge _ _)) by lia.
  rewrite u64_small by lia. rewrite (proj2 (Z.ltb_ge _ _)) by lia.
  destruct (getReader_in c n b Hat He Hn Hb) as (r & c' & -> & Hr & Hc & Hat' & He').
  cbn [mbind outcome_bind].
  destruct (r_buffer_in r off (Z.min size (Zlen b - off))) as (buf & -> & Hwf & Hsz & Hbc);
    [done|lia|lia|rewrite (r_size_content r Hr), Hc; lia|unfold max_read; lia|].
  cbn [mbind outcome_bind]. rewrite Hc in Hbc.
  eexists _, c'. split; [done|]. split; [|done].
  by rewrite Blob_of_Buffer_string, Hbc.
Qed.

End open_cluster.
End cluster_facts.

(** * Properties *)

Section properties.
Context `{OSSpec} `{LzmaLib} `{ZstdLib}.
Context (lzma_spec : @DecoderSpec LZMA_INFO) (zstd_spec : @DecoderSpec ZSTD_INFO).

(** The bytes [enc] after the information byte stand for [data] under the
    compression [comp]: as they are, or through the decoder. *)
Definition encodes (comp : CompressionType) (enc data : bytes) : Prop :=
  match comp with
  | zimcompDefault | zimcompNone => enc = data
  | zimcompLzma => exists l, @init_stream_decoder LZMA_INFO = Ok l /\ @decodes _ lzma_spec l enc data
  | zimcompZstd => exists l, @init_stream_decoder ZSTD_INFO = Ok l /\ @decodes _ zstd_spec l enc data
  | zimcompZip | zimcompBzip2 => False
  end.

Definition cluster_info (comp : CompressionType) (e : bool) : Z :=
  (if e then 0x10 else 0) + CompressionType_val comp.

Lemma cluster_info_bits comp e :
  CompressionType_of (Z.land (cluster_info comp e) 0x0F) = Some comp /\
  negb (Z.land (cluster_info comp e) 0x10 =? 0) = e.
Proof. by destruct comp, e. Qed.

Lemma drop_nth (l : bytes) i x t : drop i l = x :: t -> nth i l 0 = x /\ drop (S i) l = t.
Proof.
  revert l. induction i as [|i IH]; intros [|y l]; cbn [drop nth]; try done.
  - by intros [= -> ->].
  - intros E. by apply IH.
Qed.

Lemma Cluster_read_in r off comp e enc blobs rest :
  r_wf r -> 0 <= off -> drop (Z.to_nat off) (r_content r) = cluster_info comp e :: enc ->
  encodes comp enc (cluster_payload e blobs ++ rest) -> enc <> [] -> payload_ok e blobs ->
  exists c, Cluster_read r off = Ok c /\ compression c = comp /\ isExtended c = e /\
    cluster_at lzma_spec zstd_spec c blobs rest.
Proof.
  intros Hr Hoff Hdrop Henc Hne Hok.
  pose proof (r_size_content r Hr) as Hsz. pose proof (r_size_bound r Hr) as Hbound.
  apply drop_nth in Hdrop as [Hnth Hdrop].
  assert (Hlen : off + 1 + Zlen enc = Zlen (r_content r)).
  { rewrite <- Hdrop. unfold Zlen. rewrite length_drop.
    assert (Hlt : (S (Z.to_nat off) < length (r_content r))%nat).
    { destruct (le_lt_dec (length (r_content r)) (S (Z.to_nat off))); [|done].
      rewrite drop_ge in Hdrop by done. congruence. }
    lia. }
  pose proof (Zlen_nonneg enc). unfold SIZE_MAX in *.
  unfold Cluster_read, getClusterReader. rewrite r_get_in by (done || lia).
  cbn [mbind outcome_bind]. rewrite Hnth.
  destruct (cluster_info_bits comp e) as [-> ->].
  unfold sub_reader_from. rewrite off_add_small by lia. rewrite u64_small by lia.
  destruct (r_sub_in r (off + 1) (r_size r - (off + 1))) as (sub & -> & Hsub & Hcsub); [done|lia..|].
  cbn [mbind outcome_bind].
  assert (Hc : r_content sub = enc).
  { rewrite Hcsub. unfold slice. replace (Z.to_nat (off + 1)) with (S (Z.to_nat off)) by lia.
    rewrite Hdrop. apply take_ge. unfold Zlen in *. lia. }
  pose proof (r_size_content sub Hsub) as Hssz. rewrite Hc in Hssz.
  assert (0 < Zlen enc).
  { destruct enc; [done|]. rewrite Zlen_cons. pose proof (Zlen_nonneg enc). lia. }
  assert (Hraw : @stream_at _ _ _ _ Raw_Spec (RawStreamReader_new sub) enc).
  { split; [done|]. unfold RawStreamReader_new. split;
    cbn [Streams.m_reader m_readerPos]; [lia|by rewrite Hc]. }
  destruct comp; cbn [encodes] in Henc; try done.
  1, 2: cbn [mbind outcome_bind mret outcome_ret]; rewrite Henc in Hraw;
    apply Cluster_new_in; [done|exact Hraw].
  - destruct Henc as (l & Hl & Hdec). rewrite <- Hc in Hdec.
    destruct (@DecoderStreamReader_new_in _ _ LZMA_INFO lzma_spec sub _ l Hsub ltac:(lia) Hl Hdec)
      as (s & -> & Hat).
    cbn [mbind outcome_bind mret outcome_ret]. by apply Cluster_new_in.
  - destruct Henc as (l & Hl & Hdec). rewrite <- Hc in Hdec.
    destruct (@DecoderStreamReader_new_in _ _ ZSTD_INFO zstd_spec sub _ l Hsub ltac:(lia) Hl Hdec)
      as (s & -> & Hat).
    cbn [mbind outcome_bind mret outcome_ret]. by apply Cluster_new_in.
Qed.

(** [getBlob] for the indices [ns], in this order, and the content of each. *)
Fixpoint read_blobs (c : Cluster) (ns : list Z) : outcome (list bytes * Cluster) :=
  match ns with
  | [] => mret ([], c)
  | n :: ns =>
      '(x, c) ← getBlob c n;
      s ← Blob_string x;
      '(xs, c) ← read_blobs c ns;
      mret (s :: xs, c)
  end.

(** C9. Reading a cluster: for a cluster of any readable compression, stored
    anywhere in the archive, whose bytes stand for the blobs [blobs], opening it
    succeeds, [count] is their number, and [getBlob] gives the content of blob
    [n] each time it is asked for it, whatever the order and repetition of the
    requests, although a compressed cluster can only be decoded forwards.
    (Blobs that are not empty: see [empty_blob_refused].) *)
Theorem cluster_blobs r off comp e enc blobs rest :
  r_wf r -> 0 <= off -> drop (Z.to_nat off) (r_content r) = cluster_info comp e :: enc ->
  encodes comp enc (cluster_payload e blobs ++ rest) -> enc <> [] -> payload_ok e blobs ->
  exists c, Cluster_read r off = Ok c /\ getCompression c = comp /\ count c = Zlen blobs /\
    forall ns, Forall (fun n => 0 <= n /\ exists b, blobs !! Z.to_nat n = Some b /\ b <> []) ns ->
      exists c', read_blobs c ns = Ok (map (fun n => nth (Z.to_nat n) blobs []) ns, c').
Proof.
  intros Hr Hoff Hdrop Henc Hne Hok.
  destruct (Cluster_read_in r off comp e enc blobs rest) as (c0 & Hc0 & Hcomp & He & Hat); [done..|].
  exists c0. split; [done|]. split; [done|].
  rewrite <- He in Hok. split; [by eapply count_in|].
  intros ns Hns. assert (He0 : isExtended c0 = isExtended c0) by done. revert He0 Hat.
  generalize c0 at 1 3 4. clear Hc0 Hcomp.
  induction Hns as [|n ns (Hn & b & Hb & Hbne) Hns IH]; intros c Hec Hat; cbn [read_blobs map].
  { by eexists. }
  destruct (getBlob_in lzma_spec zstd_spec c0 blobs rest Hok c n b) as (x & c1 & -> & _ & Hx & Hat1 & Hec1);
    [done..|]. cbn [mbind outcome_bind]. rewrite Hx. cbn [mbind outcome_bind].
  destruct (IH c1 Hec1 Hat1) as (c2 & ->). exists c2.
  cbn [mbind outcome_bind mret outcome_ret]. do 3 f_equal.
  symmetry. by apply nth_lookup_Some.
Qed.

End properties.

Section empty.
Context `{OSSpec} `{LzmaLib} `{ZstdLib}.

(** An empty blob of an uncompressed cluster cannot be read when it falls
    on a page boundary of the file: [getBlob] maps its zero bytes, and [mmap]
    refuses a length of zero. *)
Theorem empty_blob_refused c n fr o :
  0 <= n < count c -> Zlen (m_blobReaders c) <= 2 ^ 31 ->
  m_blobOffsets c !! Z.to_nat n = Some o -> m_blobOffsets c !! Z.to_nat (n + 1) = Some o ->
  m_blobReaders c !! Z.to_nat n = Some (AFile fr) ->
  0 <= fr_offset fr < 2 ^ 63 -> fr_offset fr mod os_page = 0 -> 0 <= fr_size fr ->
  (forall f off, os_mmap f off 0 = None) ->
  getBlob c n = Throw (runtime_error "Cannot mmap").
Proof.
  intros Hn Hrd Ho Ho' Hr Hoff Hpage Hsz Hmmap.
  pose proof (u32_range (u64 (Zlen (m_blobOffsets c) - 1))) as Hcr. unfold count in Hn.
  assert (Hlen : n + 1 < Zlen (m_blobOffsets c)) by (apply lookup_lt_Some in Ho'; unfold Zlen; lia).
  assert (Hlen' : n < Zlen (m_blobReaders c)) by (apply lookup_lt_Some in Hr; unfold Zlen; lia).
  unfold getBlob, count. rewrite (proj2 (Z.ltb_lt _ _)) by lia.
  unfold getBlobSize, blobOffset_at. rewrite u32_small by lia.
  rewrite (proj2 (Z.leb_gt _ _)) by lia. rewrite Ho, Ho'. cbn [mbind outcome_bind mret outcome_ret].
  rewrite Z.sub_diag. change (u64 0) with 0. change (SIZE_MAX <? 0) with false. cbv iota.
  unfold getReader. rewrite u32_small by lia. cbn [getReader_loop].
  rewrite (proj2 (Z.leb_gt _ _)) by lia. cbn [mbind outcome_bind mret outcome_ret]. rewrite Hr.
  cbn [mbind outcome_bind mret outcome_ret]. unfold r_get_buffer. cbn [AnyReader_Reader].
  unfold r_get_buffer. cbn [FileReader_Reader]. unfold FileReader_get_buffer, makeMmappedBuffer.
  rewrite (proj2 (Z.leb_le _ _)) by lia. cbn [ASSERT mbind outcome_bind].
  rewrite off_add_small by lia. rewrite Z.add_0_l.
  rewrite land_page by apply os_page_pow. rewrite Hpage, Z.sub_0_r, Z.sub_diag. change (off_add 0 (u64 0)) with 0.
  unfold mmapReadOnly. by rewrite Hmmap.
Qed.

End empty.

(** * Libraries that copy *)

Definition copy_lzma : LzmaLib := {|
  lzma_state := unit;
  lzma_stream_decoder := Some tt;
  lzma_easy_encoder := Some tt;
  lzma_code _ inp space _ :=
    let o := slice inp 0 space in (if space =? 0 then LZMA_BUF_ERROR else LZMA_OK, Zlen o, o, tt);
|}.

(** The encoder keeps its input until the end. *)
Definition copy_zstd : ZstdLib := {|
  ZSTD_stream := bytes;
  ZSTD_initCStream := Some [];
  ZSTD_initDStream := Some [];
  ZSTD_isError ret := ret <? 0;
  ZSTD_compressStream l inp space := (1, Zlen inp, [], l ++ inp);
  ZSTD_endStream l space :=
    if Zlen l <? space then (0, l, []) else (1 + Zlen l, slice l 0 space, drop (Z.to_nat space) l);
  ZSTD_decompressStream l inp space := let o := slice inp 0 space in (1, Zlen o, o, l);
|}.

Program Definition copy_lzma_spec : @DecoderSpec (@LZMA_INFO copy_lzma) := {|
  decodes _ inp out := inp = out;
|}.
Next Obligation.
  intros s step inp out E Hout. destruct (copy_run s inp out E Hout) as (?&?&?&?).
  by eexists _, _, _, tt, _.
Qed.

Program Definition copy_zstd_spec : @DecoderSpec (@ZSTD_INFO copy_zstd) := {|
  decodes _ inp out := inp = out;
|}.
Next Obligation.
  intros s step inp out E Hout. destruct (copy_run s inp out E Hout) as (?&?&?&?).
  by eexists _, _, _, (lib s), _.
Qed.

(** A Zstandard cluster of three blobs at byte 2 of a buffer. *)
Definition sample_blobs : list bytes := [[10; 11]; []; [12]].
Definition sample_cluster_file : bytes :=
  [7; 7] ++ cluster_info zimcompZstd false :: cluster_payload false sample_blobs ++ [9].

Lemma cluster_blobs_witness :
  exists c, @Cluster_read two_parts copy_lzma copy_zstd (buffer_of sample_cluster_file) 2 = Ok c /\
    getCompression c = zimcompZstd /\ count c = 3 /\
    exists c', @read_blobs two_parts copy_lzma copy_zstd c [2; 0; 2] = Ok ([[12]; [10; 11]; [12]], c').
Proof.
  destruct (@cluster_blobs two_parts two_parts_spec copy_lzma copy_zstd copy_lzma_spec copy_zstd_spec
    (buffer_of sample_cluster_file) 2 zimcompZstd false (cluster_payload false sample_blobs ++ [9])
    sample_blobs [9]) as (c & E1 & E2 & E3 & E4); try done.
  - by exists [].
  - unfold payload_ok. split_and!; try done. by repeat constructor.
  - exists c. split_and!; [done..|]. apply (E4 [2; 0; 2]).
    do 3 (apply Forall_cons_2; [split; [done|]; eexists; by split|]). apply Forall_nil_2.
Defined.

Definition page_aligned_file : FileReader := mkFileReader (repeat 1 10) 0 0.

Lemma os_of_mmap_0 files m f off : @os_mmap (os_of files m) f off 0 = None.
Proof. done. Qed.

Lemma empty_blob_refused_witness :
  @getBlob two_parts copy_lzma copy_zstd
    (mkCluster zimcompNone false (SRaw (RawStreamReader_new (buffer_of []))) [8; 8]
       [AFile page_aligned_file]) 0 = Throw (runtime_error "Cannot mmap").
Proof.
  apply (@empty_blob_refused two_parts two_parts_spec copy_lzma copy_zstd) with page_aligned_file 8;
    try done.
Defined.
