(* ===== verification/WCluster.v ===== *)
(** Clusters as the writing side builds them ([writer/cluster.h],
    [writer/cluster.cpp]) from content providers
    ([zim/writer/contentProvider.h], [writer/contentProvider.cpp]), and the round
    trip of a cluster through a file.

    [write] calls are taken to accept all bytes they are given: the model of a
    function that writes to a file descriptor is the bytes it writes. *)

From stdpp Require Import strings.
From S2P Require Import Prelude.
From S2P Require Import Types.
From S2P Require Import Readers.
From S2P Require Import Files.
From S2P Require Import Compression.
From S2P Require Import Streams.
From S2P Require Import Cluster.

(** * Content providers

    The blobs [feed] returns are given as their bytes. A provider of the user is
    a size and the successive results of its [feed], empty ones from the end
    on. *)

Section providers.
Context `{OS}.

Definition BUFFER_SIZE : Z := 1024 * 1024.

Inductive ContentProvider : Type :=
  | StringProvider (content : bytes) (feeded : bool)
  | SharedStringProvider (content : bytes) (feeded : bool)
  | FileProvider (filepath : bytes) (fd : bytes) (size offset : Z)
  | UserProvider (size : Z) (feeds : list bytes).

Definition StringProvider_new (content : bytes) : ContentProvider := StringProvider content false.
Definition SharedStringProvider_new (content : bytes) : ContentProvider :=
  SharedStringProvider content false.
Definition FileProvider_new (filepath : bytes) : outcome ContentProvider :=
  fd ← openFile filepath;
  mret (FileProvider filepath fd (getSize fd) 0).

Definition getSize (p : ContentProvider) : Z :=
  match p with
  | StringProvider content _ => Zlen content
  | SharedStringProvider content _ => Zlen content
  | FileProvider _ _ size _ => size
  | UserProvider size _ => size
  end.

Definition feed (p : ContentProvider) : outcome (bytes * ContentProvider) :=
  match p with
  | StringProvider content feeded =>
      if feeded then mret ([], p) else mret (content, StringProvider content true)
  | SharedStringProvider content feeded =>
      if feeded then mret ([], p) else mret (content, SharedStringProvider content true)
  | FileProvider filepath fd size offset =>
      let sizeToRead := Z.min BUFFER_SIZE (u64 (size - offset)) in
      if sizeToRead =? 0 then mret ([], p)
      else
        '(n, buffer) ← readAt fd (os_stale sizeToRead) sizeToRead offset;
        throw_when (n =? 2 ^ 64 - 1) (runtime_error "Error reading file") ;;
        mret (take (Z.to_nat sizeToRead) buffer, FileProvider filepath fd size (u64 (offset + sizeToRead)))
  | UserProvider size feeds =>
      match feeds with [] => mret ([], p) | f :: feeds => mret (f, UserProvider size feeds) end
  end.

(** More than the number of blobs a provider can still return. *)
Definition provider_fuel (p : ContentProvider) : nat :=
  match p with
  | StringProvider _ _ | SharedStringProvider _ _ => 2
  | FileProvider _ _ size offset => Z.to_nat (size - offset) + 1
  | UserProvider _ feeds => S (length feeds)
  end.

End providers.

(** * [writer::Cluster] *)

Module WCluster.
Section ops.
Context `{OS} `{LzmaLib} `{ZstdLib}.

Definition MAX_WRITE_SIZE : Z := 4 * 1024 * 1024 * 1024 - 1.

Record t : Type := mk {
  compression : CompressionType;
  index : Z;
  isExtended : bool;
  blobOffsets : list Z;
  offset : Z;
  _size : Z;
  m_providers : list ContentProvider;
  compressed_data : option bytes;
  closed : bool;
  m_count : Z;
}.

Definition new (c : CompressionType) : t := mk c 0 false [0] 0 0 [] None false 0.

Definition setClusterIndex (c : t) (idx : Z) : t :=
  mk (compression c) idx (isExtended c) (blobOffsets c) (offset c) (_size c) (m_providers c)
    (compressed_data c) (closed c) (m_count c).
Definition setOffset (c : t) (o : Z) : t :=
  mk (compression c) (index c) (isExtended c) (blobOffsets c) o (_size c) (m_providers c)
    (compressed_data c) (closed c) (m_count c).

Definition count (c : t) : Z := m_count c.

Definition clear_raw_data (c : t) : t :=
  mk (compression c) (index c) (isExtended c) [] (offset c) (_size c) []
    (compressed_data c) (closed c) (m_count c).
Definition clear_compressed_data (c : t) : t :=
  mk (compression c) (index c) (isExtended c) (blobOffsets c) (offset c) (_size c) (m_providers c)
    None (closed c) (m_count c).
Definition clear_data (c : t) : t := clear_compressed_data (clear_raw_data c).

Definition isCompressed (c : t) : bool :=
  bool_decide (compression c <> zimcompDefault) && bool_decide (compression c <> zimcompNone).

Definition offset_size (c : t) : Z := if isExtended c then 8 else 4.

Definition size (c : t) : outcome Z :=
  if closed c then Throw (runtime_error "oups")
  else mret (u64 (u64 (Zlen (blobOffsets c) * offset_size c) + _size c)).

Definition getBlobSize (c : t) (n : Z) : outcome Z :=
  match blobOffsets c !! Z.to_nat (u32 (n + 1)), blobOffsets c !! Z.to_nat n with
  | Some b, Some a => mret (u64 (b - a))
  | _, _ => Undef
  end.

Definition getDataOffset (c : t) : outcome Z :=
  ASSERT (closed c) ;;
  mret (off_add 1 (u64 (u32 (count c + 1) * offset_size c))).

Definition addContent (c : t) (provider : ContentProvider) : t :=
  let size := getSize provider in
  let _size := u64 (_size c + size) in
  mk (compression c) (index c) (isExtended c || (UINT32_MAX <? size)) (blobOffsets c ++ [_size])
    (offset c) _size
    (if size =? 0 then m_providers c else m_providers c ++ [provider])
    (compressed_data c) (closed c) (u32 (m_count c + 1)).

Definition addContent_string (c : t) (data : bytes) : t := addContent c (StringProvider_new data).

(** [write_offsets<OFFSET_TYPE>]: the blobs given to the writer. *)
Definition write_offsets (N : nat) (c : t) : list bytes :=
  let delta := u64 (Zlen (blobOffsets c) * Z.of_nat N) in
  map (fun o => toLittleEndian N (u64 (o + delta))) (blobOffsets c).

(** The inner loop of [write_data]: the blobs of one provider and their size. *)
Fixpoint feed_all (fuel : nat) (p : ContentProvider) (acc : list bytes) (size : Z) :
    outcome (list bytes * Z) :=
  match fuel with
  | O => Diverge
  | S fuel =>
      '(blob, p) ← feed p;
      if Zlen blob =? 0 then mret (acc, size)
      else feed_all fuel p (acc ++ [blob]) (u64 (size + Zlen blob))
  end.

Fixpoint write_data (ps : list ContentProvider) : outcome (list bytes) :=
  match ps with
  | [] => mret []
  | provider :: ps =>
      ASSERT (negb (getSize provider =? 0)) ;;
      '(blobs, size) ← feed_all (provider_fuel provider) provider [] 0;
      ASSERT (size =? getSize provider) ;;
      rest ← write_data ps;
      mret (blobs ++ rest)
  end.

Definition write_content (c : t) : outcome (list bytes) :=
  let offsets := if isExtended c then write_offsets 8 c else write_offsets 4 c in
  data ← write_data (m_providers c);
  mret (offsets ++ data).

(** [_compress<COMP_TYPE>]: a [Compressor] fed with each blob; what [feed]
    returns is not looked at. *)
Fixpoint feed_blobs `{INFO} (fuel : nat) (r : Runner) (blobs : list bytes) : outcome Runner :=
  match blobs with
  | [] => mret r
  | b :: blobs => '(_, r) ← Compressor_feed fuel r b STEP; feed_blobs fuel r blobs
  end.

Definition _compress `{INFO} (fuel : nat) (c : t) : outcome bytes :=
  blobs ← write_content c;
  runner ← Compressor_init (1024 * 1024);
  runner ← feed_blobs fuel runner blobs;
  Compressor_get_data fuel runner.

Definition compress (fuel : nat) (c : t) : outcome bytes :=
  match compression c with
  | zimcompBzip2 | zimcompZip =>
      Throw (runtime_error "Compression method not enabled in this library")
  | zimcompLzma => @_compress LZMA_INFO fuel c
  | zimcompZstd => @_compress ZSTD_INFO fuel c
  | _ => Throw (runtime_error "We cannot compress an uncompressed cluster")
  end.

Definition set_closed (c : t) (data : option bytes) : t :=
  mk (compression c) (index c) (isExtended c) (blobOffsets c) (offset c) (_size c) (m_providers c)
    data true (m_count c).

Definition close (fuel : nat) (c : t) : outcome t :=
  if isCompressed c then
    data ← compress fuel c;
    mret (clear_raw_data (set_closed c (Some data)))
  else mret (set_closed c (compressed_data c)).

(** The bytes [write] gives to the system. Blobs above 4 GiB go in several
    calls, one after the other. *)
Definition write (c : t) : outcome bytes :=
  let clusterInfo := u8 ((if isExtended c then 0x10 else 0) + CompressionType_val (compression c)) in
  data ← (match compression c with
          | zimcompDefault | zimcompNone => blobs ← write_content c; mret (concat blobs)
          | _ => mret (default [] (compressed_data c))
          end);
  mret (clusterInfo :: data).

End ops.
End WCluster.

(** * Lemmas *)

(** What a provider provides: its [feed]s, put together. *)
Inductive provides `{OS} : ContentProvider -> bytes -> Prop :=
  | provides_string s : provides (StringProvider s false) s
  | provides_shared s : provides (SharedStringProvider s false) s
  | provides_user n fs :
      Forall (fun f => f <> []) fs -> n = Zlen (concat fs) -> provides (UserProvider n fs) (concat fs)
  | provides_file path fd :
      (forall n off, 0 <= off -> 0 <= n <= BUFFER_SIZE -> off + n <= Zlen fd ->
        readAt fd (os_stale n) n off = Ok (n, slice fd off n)) ->
      provides (FileProvider path fd (Zlen fd) 0) fd.

Lemma provides_opened `{OSSpec} path b : os_open path = Some b ->
  exists p, FileProvider_new path = Ok p /\ provides p b.
Proof.
  intros Ho. pose proof (os_file_size _ _ Ho). unfold FileProvider_new, openFile. rewrite Ho.
  eexists. split; [reflexivity|]. apply provides_file. intros n off Hoff Hn Hin.
  apply readAt_full; unfold BUFFER_SIZE, max_read in *; lia.
Qed.

Section facts.
Context `{OS} `{LzmaLib} `{ZstdLib}.

Lemma provides_size p b : provides p b -> getSize p = Zlen b.
Proof. by destruct 1. Qed.

Lemma Zlen_eqb_nil (b : bytes) : (Zlen b =? 0) = bool_decide (b = []).
Proof.
  destruct b as [|x b]; [done|]. rewrite Zlen_cons, bool_decide_false by done.
  pose proof (Zlen_nonneg b). apply Z.eqb_neq. lia.
Qed.

Lemma feed_all_user fuel n fs acc size :
  Forall (fun f => f <> []) fs -> (length fs < fuel)%nat -> 0 <= size ->
  size + Zlen (concat fs) < 2 ^ 64 ->
  WCluster.feed_all fuel (UserProvider n fs) acc size = Ok (acc ++ fs, size + Zlen (concat fs)).
Proof.
  intros Hfs. revert fuel acc size. induction Hfs as [|f fs Hf Hfs IH]; intros fuel acc size Hfuel Hsz0 Hlt;
    (destruct fuel as [|fuel]; [simpl in Hfuel; lia|]); cbn [WCluster.feed_all feed mbind outcome_bind mret outcome_ret].
  - change (Zlen [] =? 0) with true. cbv iota. rewrite app_nil_r. cbn [concat].
    change (@Zlen Z []) with 0. by rewrite Z.add_0_r.
  - rewrite Zlen_eqb_nil, bool_decide_false by done. cbn [concat] in *. rewrite Zlen_app in *.
    pose proof (Zlen_nonneg f). pose proof (Zlen_nonneg (concat fs)).
    rewrite u64_small by lia. rewrite IH; [|simpl in Hfuel; lia|lia|lia].
    rewrite <- app_assoc. cbn [app]. do 2 f_equal. lia.
Qed.

Lemma feed_all_file path fd :
  (forall n off, 0 <= off -> 0 <= n <= BUFFER_SIZE -> off + n <= Zlen fd ->
    readAt fd (os_stale n) n off = Ok (n, slice fd off n)) ->
  forall fuel off acc size, 0 <= off <= Zlen fd -> (Z.to_nat (Zlen fd - off) < fuel)%nat ->
    0 <= size -> size + (Zlen fd - off) < 2 ^ 64 -> Zlen fd < 2 ^ 64 ->
    exists blobs, WCluster.feed_all fuel (FileProvider path fd (Zlen fd) off) acc size = Ok (acc ++ blobs, size + (Zlen fd - off)) /\
      concat blobs = drop (Z.to_nat off) fd.
Proof.
  intros Hread. induction fuel as [|fuel IH]; intros off acc size Hoff Hfuel Hsz Hlt Hfd; [lia|].
  cbn [WCluster.feed_all feed]. rewrite u64_small by lia. set (n := Z.min BUFFER_SIZE (Zlen fd - off)).
  assert (Hn : 0 <= n <= BUFFER_SIZE /\ off + n <= Zlen fd) by (unfold n, BUFFER_SIZE; lia).
  destruct (Z.eqb_spec n 0) as [E0|En].
  - assert (Eoff : off = Zlen fd) by (unfold n, BUFFER_SIZE in E0; lia). exists []. split.
    + cbn [mbind outcome_bind mret outcome_ret]. change (Zlen [] =? 0) with true. cbv iota. rewrite app_nil_r. do 2 f_equal. lia.
    + symmetry. apply drop_ge. unfold Zlen in Eoff. lia.
  - rewrite Hread by lia. cbn [mbind outcome_bind mret outcome_ret].
    rewrite (proj2 (Z.eqb_neq n (2 ^ 64 - 1))) by (unfold BUFFER_SIZE in *; lia). cbn [throw_when mbind outcome_bind].
    assert (Hlen : Zlen (slice fd off n) = n) by (apply Zlen_slice; lia).
    cbn [mbind outcome_bind mret outcome_ret]. rewrite (take_ge (slice fd off n)) by (unfold Zlen in Hlen; lia).
    rewrite Hlen, (proj2 (Z.eqb_neq n 0)), !u64_small by lia.
    destruct (IH (off + n) (acc ++ [slice fd off n]) (size + n)) as (blobs & E & Hcat); [lia..|].
    exists (slice fd off n :: blobs). split.
    + rewrite E, <- app_assoc. do 2 f_equal. lia.
    + cbn [concat]. rewrite Hcat. unfold slice. by rewrite Z2Nat.inj_add, <- drop_drop, take_drop by lia.
Qed.

Lemma feed_all_provides p b :
  provides p b -> b <> [] -> Zlen b < 2 ^ 64 ->
  exists blobs, WCluster.feed_all (provider_fuel p) p [] 0 = Ok (blobs, Zlen b) /\ concat blobs = b.
Proof.
  intros Hp Hb Hlt. pose proof (Zlen_nonneg b). destruct Hp as [s|s|n fs Hfs ->|path fd Hread].
  1, 2: exists [s]; cbn; rewrite Zlen_eqb_nil, bool_decide_false by done;
    rewrite u64_small by lia; change (Zlen [] =? 0) with true; cbv iota;
    by rewrite app_nil_r.
  - exists fs. split; [|done]. unfold provider_fuel. by rewrite feed_all_user by (done || lia).
  - destruct (feed_all_file path fd Hread (Z.to_nat (Zlen fd - 0) + 1) 0 [] 0) as (blobs & E & Hcat); [lia..|].
    exists blobs. cbn [provider_fuel]. rewrite E, Hcat. split; [|done]. do 2 f_equal. lia.
Qed.

Lemma write_data_provides ps bs :
  Forall2 (fun p b => provides p b /\ b <> [] /\ Zlen b < 2 ^ 64) ps bs ->
  exists blobs, WCluster.write_data ps = Ok blobs /\ concat blobs = concat bs.
Proof.
  induction 1 as [|p b ps bs (Hp & Hb & Hlt) _ (blobs & IH & Ec)]; [by exists []|].
  cbn [WCluster.write_data]. rewrite (provides_size p b Hp), Zlen_eqb_nil, bool_decide_false by done.
  cbn [negb ASSERT mbind outcome_bind].
  destruct (feed_all_provides p b Hp Hb Hlt) as (bl & -> & Ebl). cbn [mbind outcome_bind].
  rewrite Z.eqb_refl. cbn [ASSERT mbind outcome_bind]. rewrite IH. eexists. split; [done|].
  by rewrite concat_app, Ebl, Ec.
Qed.

(** A cluster to which the contents [bs] were added. *)
Record holds (c : WCluster.t) (bs : list bytes) : Prop := {
  h_offsets : WCluster.blobOffsets c = offsets_from 0 bs;
  h_size : WCluster._size c = Zlen (concat bs);
  h_count : WCluster.m_count c = Zlen bs;
  h_ext : WCluster.isExtended c = existsb (fun b => UINT32_MAX <? Zlen b) bs;
  h_providers : Forall2 (fun p b => provides p b /\ b <> [] /\ Zlen b < 2 ^ 64)
                  (WCluster.m_providers c) (filter (fun b => b <> []) bs);
}.

Lemma offsets_from_snoc start bs b :
  offsets_from start (bs ++ [b]) = offsets_from start bs ++ [start + Zlen (concat bs) + Zlen b].
Proof.
  revert start. induction bs as [|x bs IH]; intros start; cbn [app offsets_from concat].
  - change (@Zlen Z []) with 0. do 2 f_equal. lia.
  - rewrite IH, Zlen_app. do 3 f_equal. lia.
Qed.

Lemma holds_new comp : holds (WCluster.new comp) [].
Proof. by constructor. Qed.

Lemma holds_add c bs p b :
  holds c bs -> provides p b -> Zlen (concat bs) + Zlen b < 2 ^ 64 -> Zlen bs + 1 < 2 ^ 32 ->
  holds (WCluster.addContent c p) (bs ++ [b]).
Proof.
  intros [Ho Hs Hc He Hp] Hpr Hlt Hn. pose proof (provides_size p b Hpr) as Hsz.
  pose proof (Zlen_nonneg (concat bs)). pose proof (Zlen_nonneg b). pose proof (Zlen_nonneg bs).
  assert (Ecat : Zlen (concat (bs ++ [b])) = Zlen (concat bs) + Zlen b)
    by (rewrite concat_app, Zlen_app; cbn [concat]; by rewrite app_nil_r).
  unfold WCluster.addContent. rewrite Hsz, Hs, Hc, u64_small, u32_small by lia.
  constructor; cbn [WCluster.blobOffsets WCluster._size WCluster.m_count WCluster.isExtended
    WCluster.m_providers].
  - by rewrite Ho, offsets_from_snoc.
  - lia.
  - by rewrite Zlen_app.
  - rewrite existsb_app, He. cbn [existsb]. by rewrite orb_false_r.
  - rewrite filter_app, Zlen_eqb_nil. cbn [filter list_filter].
    destruct (decide (b = [])) as [->|Hb].
    + rewrite bool_decide_true by done. rewrite decide_False by auto. by rewrite app_nil_r.
    + rewrite bool_decide_false by done. rewrite decide_True by done.
      apply Forall2_app; [done|]. constructor; [|constructor]. split_and!; [done..|lia].
Qed.

Lemma concat_filter_nonempty (bs : list bytes) : concat (filter (fun b => b <> []) bs) = concat bs.
Proof.
  induction bs as [|b bs IH]; [done|]. rewrite filter_cons.
  case_decide as Hb; cbn [concat]; rewrite IH; [done|].
  by rewrite Hb.
Qed.

Lemma offsets_from_shift start d bs :
  map (fun o => o + d) (offsets_from start bs) = offsets_from (start + d) bs.
Proof.
  revert start. induction bs as [|b bs IH]; intros start; cbn [offsets_from map]; [done|].
  rewrite IH. do 2 f_equal. lia.
Qed.

Lemma write_offsets_in c bs e :
  holds c bs -> payload_ok e bs ->
  concat (WCluster.write_offsets (offset_bytes e) c) =
    concat (map (toLittleEndian (offset_bytes e)) (offsets_from (header_size e bs) bs)).
Proof.
  intros [Ho _ _ _ _] (Hne & Hhdr & _ & Hcnt & Hfit). pose proof (Zlen_nonneg bs).
  pose proof (Zlen_nonneg (concat bs)).
  assert (Hp : 2 ^ (8 * Z.of_nat (offset_bytes e) - 1) <= 2 ^ 63)
    by (apply Z.pow_le_mono_r; destruct e; simpl; lia).
  unfold WCluster.write_offsets. rewrite Ho, offsets_from_length.
  replace ((1 + Zlen bs) * Z.of_nat (offset_bytes e)) with (header_size e bs)
    by (unfold header_size; lia).
  assert (0 <= header_size e bs) by (unfold header_size; nia).
  rewrite u64_small by lia. f_equal.
  rewrite <- (offsets_from_shift 0 (header_size e bs) bs : _ = offsets_from (header_size e bs) bs), map_map.
  apply map_ext_in. intros o Hin.
  pose proof (offsets_from_mono 0 bs) as Hm. rewrite Forall_forall in Hm.
  specialize (Hm o). rewrite list_elem_of_In in Hm. specialize (Hm Hin). simpl in Hm.
  by rewrite u64_small by lia.
Qed.

(** The extended flag the writer sets: some blob is above 4 GiB. *)
Lemma write_content_in c bs :
  holds c bs -> payload_ok (WCluster.isExtended c) bs ->
  exists blobs, WCluster.write_content c = Ok blobs /\
    concat blobs = cluster_payload (WCluster.isExtended c) bs.
Proof.
  intros Hh Hok. unfold WCluster.write_content.
  destruct (write_data_provides _ _ (h_providers _ _ Hh)) as (data & -> & Ed).
  cbn [mbind outcome_bind mret outcome_ret]. eexists. split; [done|].
  rewrite concat_app, Ed, concat_filter_nonempty. unfold cluster_payload.
  rewrite <- (write_offsets_in c bs _ Hh Hok). by destruct (WCluster.isExtended c).
Qed.

End facts.

(** * Properties *)

(** The contents added in order to a new cluster. *)
Definition cluster_of (comp : CompressionType) (ps : list ContentProvider) : WCluster.t :=
  fold_left WCluster.addContent ps (WCluster.new comp).

Section properties.
Context `{OSSpec} `{LzmaLib} `{ZstdLib}.
Context (lzma_spec : @DecoderSpec LZMA_INFO) (zstd_spec : @DecoderSpec ZSTD_INFO).

Lemma cluster_of_holds comp ps bs :
  Forall2 provides ps bs -> Zlen (concat bs) < 2 ^ 64 -> Zlen bs < 2 ^ 32 ->
  holds (cluster_of comp ps) bs.
Proof.
  intros Hps. assert (Hgen : forall c bs0, holds c bs0 -> Zlen (concat (bs0 ++ bs)) < 2 ^ 64 ->
    Zlen (bs0 ++ bs) < 2 ^ 32 -> holds (fold_left WCluster.addContent ps c) (bs0 ++ bs)).
  { induction Hps as [|p b ps bs Hp Hps IH]; intros c bs0 Hc Hlt Hcnt; cbn [fold_left].
    - by rewrite app_nil_r.
    - change (b :: bs) with ([b] ++ bs) in *. rewrite app_assoc in *.
      apply IH; [|done..]. rewrite concat_app, Zlen_app in Hlt. rewrite Zlen_app in Hcnt.
      pose proof (Zlen_nonneg (concat bs)). pose proof (Zlen_nonneg bs).
      rewrite concat_app, Zlen_app in Hlt. rewrite Zlen_app in Hcnt. cbn [concat] in Hlt.
      rewrite app_nil_r in Hlt. change (Zlen [b]) with 1 in Hcnt. by apply holds_add; [| |lia|lia]. }
  intros. apply (Hgen _ []); [apply holds_new|done..].
Qed.

Lemma fold_compression ps c :
  WCluster.compression (fold_left WCluster.addContent ps c) = WCluster.compression c.
Proof. revert c. induction ps as [|p ps IH]; intros c; cbn [fold_left]; [done|]. by rewrite IH. Qed.

End properties.

Section truncation.
Context `{OS} `{LzmaLib} `{ZstdLib}.


End truncation.

Definition sample_providers : list ContentProvider :=
  [StringProvider_new (lit "abc"); UserProvider 4 [lit "de"; lit "fg"]; StringProvider_new []].

