(* ===== verification/Encoding.v ===== *)
(** What the compressor of a cluster produces.

    [EncoderSpec] is the contract of a compression library, [Codec] says that the
    decoder undoes it. From them, [Compressor] (compression.h) given the contents
    of a cluster returns, and what it returns stands for these contents for the
    reading side ([Cluster.encodes]): [stored_as]. *)

From stdpp Require Import strings.
From S2P Require Import Prelude.
From S2P Require Import Types.
From S2P Require Import Readers.
From S2P Require Import Files.
From S2P Require Import Compression.
From S2P Require Import Streams.
From S2P Require Import Cluster.
From S2P Require Import WCluster.

(** * The contract of an encoder

    [fed b l i o]: the encoder in state [l] was given the bytes [i] and has
    written [o]; [b] tells that it was asked to finish. [retries l n]: called
    without output space, it says [OK] at most [n] times before it says
    [BUF_ERROR] (liblzma says it once). [complete i o]: [o] is the whole stream for [i].

    A call consumes a part of its input and writes what fits. It says
    [BUF_ERROR] only when the output is full, and [OK] with a full output only
    if it will retry: the case [Compression.zstd_feed_livelock] is about is
    excluded. [OK] with output space left means that all input was consumed and,
    at the end, that the stream is complete. The output is not more than twice the input and 4096 bytes. *)

Definition finishing (step : CompStep) : bool := bool_decide (step = FINISH).

Class EncoderSpec `{INFO} : Type := {
  fed : bool -> istate -> bytes -> bytes -> Prop;
  retries : istate -> nat -> Prop;
  complete : bytes -> bytes -> Prop;
  encode_init : exists l, init_stream_encoder = Ok l /\ fed false l [] [];
  encode_bound b l i o : fed b l i o -> Zlen o <= 2 * Zlen i + 4096;
  encode_run s step b i out :
    fed b (lib s) i out -> (step = STEP -> b = false) -> (step = FINISH -> next_in s = []) ->
    0 < avail_out s \/ (avail_out s = 0 /\ exists n, retries (lib s) n) ->
    exists st c o l,
      stream_run_encode s step = Ok (st, advance s c o l) /\
      0 <= c <= avail_in s /\ Zlen o <= avail_out s /\
      fed (finishing step) l (i ++ take (Z.to_nat c) (next_in s)) (out ++ o) /\
      let all := c = avail_in s /\ (step = FINISH -> complete i (out ++ o)) in
      match st with
      | BUF_ERROR => Zlen o = avail_out s
      | CS_OK => (Zlen o < avail_out s /\ all) \/
          (Zlen o = avail_out s /\ (0 < avail_out s -> exists n, retries l n) /\
            forall n, avail_out s = 0 -> retries (lib s) n -> exists m, (m < n)%nat /\ retries l m)
      | STREAM_END => step = FINISH /\ all
      | OTHER => False
      end;
}.

(** The decoder undoes the encoder, whatever follows the stream: it then yields [after] of it (nothing, for a decoder that
    stops at the end of the stream). *)
Class Codec `{INFO} (E : EncoderSpec) (D : DecoderSpec) : Type := {
  after : bytes -> bytes;
  codec_decoder : exists l, init_stream_decoder = Ok l;
  codec_decodes i o junk l : complete i o -> init_stream_decoder = Ok l -> decodes l (o ++ junk) (i ++ after junk);
  codec_nonempty i o : complete i o -> i <> [] -> o <> [];
}.

(** * [Compressor] *)

Section compressor.
Context `{INFO} {E : EncoderSpec}.

(** The runner was given [i]; its output buffer is its written part and [avail_out]. *)
Record runner_at (b : bool) (i : bytes) (r : Runner) : Prop := {
  ra_fed : fed b (lib (stream r)) i (written (stream r));
  ra_total : total_out (stream r) = Zlen (written (stream r));
  ra_space : avail_out (stream r) = data_size r - total_out (stream r) /\ 0 <= avail_out (stream r);
  ra_size : 0 < data_size r <= 2 ^ 62;
}.

Lemma grow_ok b i r :
  runner_at b i r -> avail_out (stream r) = 0 -> 2 * Zlen i + 4096 <= 2 ^ 61 ->
  runner_at b i (grow r) /\ 0 < avail_out (stream (grow r)) /\ next_in (stream (grow r)) = next_in (stream r) /\
  written (stream (grow r)) = written (stream r).
Proof.
  intros [Hf Ht [Hs _] Hd] H0 Hi. pose proof (encode_bound _ _ _ _ Hf). unfold grow. cbn [stream with_out next_in avail_out written].
  rewrite (u64_small (data_size r * 2)) by lia. rewrite u64_small by lia. split; [|split_and!; try done; lia].
  split; cbn [stream with_out lib written total_out avail_out data_size]; [done|done|lia|lia].
Qed.

(** One call. *)
Lemma run_ok step b i r :
  runner_at b i r -> (step = STEP -> b = false) -> (step = FINISH -> next_in (stream r) = []) ->
  0 < avail_out (stream r) \/ (avail_out (stream r) = 0 /\ exists n, retries (lib (stream r)) n) ->
  exists st c s, stream_run_encode (stream r) step = Ok (st, s) /\
    0 <= c <= avail_in (stream r) /\ next_in s = drop (Z.to_nat c) (next_in (stream r)) /\
    let i' := i ++ take (Z.to_nat c) (next_in (stream r)) in
    let r' := mkRunner (data_size r) s in
    runner_at (finishing step) i' r' /\ avail_out s <= avail_out (stream r) /\
    total_out s = total_out (stream r) + (avail_out (stream r) - avail_out s) /\
    let all := c = avail_in (stream r) /\ (step = FINISH -> complete i (written s)) in
    match st with
    | BUF_ERROR => avail_out s = 0
    | CS_OK => (0 < avail_out s /\ all) \/
        (avail_out s = 0 /\ (0 < avail_out (stream r) -> exists n, retries (lib s) n) /\
          forall n, avail_out (stream r) = 0 -> retries (lib (stream r)) n -> exists m, (m < n)%nat /\ retries (lib s) m)
    | STREAM_END => step = FINISH /\ all
    | OTHER => False
    end.
Proof.
  intros [Hf Ht [Hs Hs0] Hd] Hstep Hfin Hav.
  destruct (encode_run (stream r) step b i (written (stream r)) Hf Hstep Hfin Hav) as (st & c & o & l & Er & Hc & Ho & Hf' & Hst).
  exists st, c, (advance (stream r) c o l). pose proof (Zlen_nonneg o).
  split; [done|]. split; [done|]. split; [done|]. cbv zeta. split.
  { split; cbn [stream advance lib written total_out avail_out data_size]; [done|rewrite Zlen_app; lia|lia|lia]. }
  cbn [advance avail_out total_out written lib]. split; [lia|]. split; [lia|]. cbv zeta in Hst. destruct st; [|done|lia|done].
  destruct Hst as [[Hlt Hall]|(Heq & Hr1 & Hr2)]; [left; split; [lia|done]|right; split_and!; [lia|done|done]].
Qed.

(** Without output space: after a number of calls the buffer has grown. *)
Lemma loop_retry step n b i r :
  runner_at b i r -> (step = STEP -> b = false) -> (step = FINISH -> next_in (stream r) = []) ->
  avail_out (stream r) = 0 -> retries (lib (stream r)) n -> 2 * (Zlen i + avail_in (stream r)) + 4096 <= 2 ^ 61 ->
  (exists k r', (forall fuel, Compressor_loop (k + fuel) r step = Compressor_loop fuel r' step) /\
    exists b' i', runner_at b' i' r' /\ (step = STEP -> b' = false) /\ (step = FINISH -> next_in (stream r') = []) /\
    i' ++ next_in (stream r') = i ++ next_in (stream r) /\ 0 < avail_out (stream r') /\ total_out (stream r') = total_out (stream r)) \/
  (step = FINISH /\ exists r', (forall fuel, Compressor_loop (S n + fuel) r step = Ok (NEED_MORE, r')) /\
    runner_at true i r' /\ complete i (written (stream r'))).
Proof.
  revert b i r. induction n as [n IH] using lt_wf_ind. intros b i r Hr Hstep Hfin H0 Hn Hsz.
  destruct (run_ok step b i r Hr Hstep Hfin) as (st & c & s & Er & Hc & Hnext & Hr' & Hle & Htot & Hst); [right; by eauto|].
  cbv zeta in *. set (i' := i ++ take (Z.to_nat c) (next_in (stream r))) in *. set (r1 := mkRunner (data_size r) s) in *.
  assert (Hi' : i' ++ next_in s = i ++ next_in (stream r)) by (unfold i'; by rewrite <- app_assoc, Hnext, take_drop).
  pose proof (ra_space _ _ _ Hr') as [_ Hs0]. change (stream r1) with s in Hs0. assert (Hs : avail_out s = 0) by lia.
  assert (Hsize : Zlen i' + avail_in s = Zlen i + avail_in (stream r)).
  { unfold avail_in. rewrite <- !Zlen_app. by rewrite Hi'. }
  assert (Hfin' : step = FINISH -> next_in s = []) by (intros Ef; rewrite Hnext, (Hfin Ef); by rewrite drop_nil).
  assert (Hi1 : step = FINISH -> i' = i) by (intros Ef; unfold i'; by rewrite (Hfin Ef), take_nil, app_nil_r).
  assert (Hb1 : step = STEP -> finishing step = false) by (by intros ->).
  destruct st.
  - destruct Hst as [[Hlt _]|(_ & _ & Hm)]; [lia|]. destruct (Hm n H0 Hn) as (m & Hmn & Hm'). clear Hm.
    destruct (IH m Hmn (finishing step) i' r1 Hr' Hb1 Hfin' Hs Hm') as [(k & r2 & Hk & b2 & i2 & Hr2 & Hb2 & Hf2 & Hi2 & Hp & Ht2)|(Ef & r2 & Hk & Hr2 & Hc2)].
    { change (stream r1) with s. lia. }
    + left. exists (S k), r2. split.
      { intros fuel. cbn [Nat.add Compressor_loop]. rewrite Er. cbn [mbind outcome_bind]. rewrite Hs. cbn [Z.eqb andb]. exact (Hk fuel). }
      exists b2, i2. split_and!; [done|done|done| |done|]. { rewrite Hi2. exact Hi'. } change (stream r1) with s in Ht2. lia.
    + right. split; [done|]. exists r2. rewrite Hi1 in Hr2, Hc2 by done. split; [|by split].
      intros fuel. cbn [Nat.add Compressor_loop]. rewrite Er. cbn [mbind outcome_bind]. rewrite Hs. cbn [Z.eqb andb].
      rewrite bool_decide_true by done. destruct n as [|n]; [lia|]. specialize (Hk (n - m + fuel)%nat).
      replace (S m + (n - m + fuel))%nat with (S n + fuel)%nat in Hk by lia. exact Hk.
  - destruct Hst as (Ef & _ & Hcomp). right. split; [done|]. exists r1. split; [|split].
    + intros fuel. cbn [Nat.add Compressor_loop]. rewrite Er. cbn [mbind outcome_bind]. rewrite Hs. done.
    + rewrite <- (Hi1 Ef). subst step. exact Hr'.
    + by apply Hcomp.
  - left. destruct (grow_ok (finishing step) i' r1 Hr' Hs) as (Hg & Hpos & Hnx & Hw).
    { pose proof (Zlen_nonneg (next_in s)). unfold avail_in in *. lia. }
    exists 1%nat, (grow r1). split.
    { intros fuel. cbn [Nat.add Compressor_loop]. rewrite Er. cbn [mbind outcome_bind]. rewrite Hs. done. }
    exists (finishing step), i'. split_and!; [done|done|by rewrite Hnx|by rewrite Hnx|done|].
    rewrite (ra_total _ _ _ Hg), Hw, <- (ra_total _ _ _ Hr'). change (stream r1) with s. lia.
  - done.
Qed.

(** What a call of [feed] makes of the runner [r] that was given [i]. *)
Definition fed_by (step : CompStep) (i : bytes) (r r' : Runner) : Prop :=
  runner_at (finishing step) (i ++ next_in (stream r)) r' /\
  (step = STEP -> 0 < avail_out (stream r')) /\ (step = FINISH -> complete i (written (stream r'))).

(** With output space, the loop returns. *)
Lemma loop_ok step p b i r :
  runner_at b i r -> (step = STEP -> b = false) -> (step = FINISH -> next_in (stream r) = []) ->
  0 < avail_out (stream r) -> 2 * (Zlen i + avail_in (stream r)) + 4096 <= 2 ^ 61 ->
  (Z.to_nat (2 * (Zlen i + avail_in (stream r)) + 4096 - total_out (stream r)) < p)%nat ->
  exists n r', (forall fuel, (n <= fuel)%nat -> Compressor_loop fuel r step = Ok (NEED_MORE, r')) /\ fed_by step i r r'.
Proof.
  revert b i r. induction p as [|p IH]; intros b i r Hr Hstep Hfin H0 Hsz Hp; [lia|].
  destruct (run_ok step b i r Hr Hstep Hfin) as (st & c & s & Er & Hc & Hnext & Hr' & Hle & Htot & Hst); [by left|].
  cbv zeta in *. set (i' := i ++ take (Z.to_nat c) (next_in (stream r))) in *. set (r1 := mkRunner (data_size r) s) in *.
  assert (Hi' : i' ++ next_in s = i ++ next_in (stream r)) by (unfold i'; by rewrite <- app_assoc, Hnext, take_drop).
  pose proof (ra_space _ _ _ Hr') as [_ Hs0]. change (stream r1) with s in Hs0.
  assert (Hsize : Zlen i' + avail_in s = Zlen i + avail_in (stream r)).
  { unfold avail_in. rewrite <- !Zlen_app. by rewrite Hi'. }
  assert (Hfin' : step = FINISH -> next_in s = []) by (intros Ef; rewrite Hnext, (Hfin Ef); by rewrite drop_nil).
  assert (Hi1 : step = FINISH -> i' = i) by (intros Ef; unfold i'; by rewrite (Hfin Ef), take_nil, app_nil_r).
  assert (Hb1 : step = STEP -> finishing step = false) by (by intros ->).
  assert (Hall : c = avail_in (stream r) -> i' = i ++ next_in (stream r)).
  { intros ->. unfold i', avail_in, Zlen. by rewrite Nat2Z.id, firstn_all. }
  assert (Hcont : forall r2 b2 i2, runner_at b2 i2 r2 -> (step = STEP -> b2 = false) -> (step = FINISH -> next_in (stream r2) = []) ->
    i2 ++ next_in (stream r2) = i ++ next_in (stream r) -> 0 < avail_out (stream r2) -> total_out (stream r) < total_out (stream r2) ->
    exists n r', (forall fuel, (n <= fuel)%nat -> Compressor_loop fuel r2 step = Ok (NEED_MORE, r')) /\ fed_by step i r r').
  { intros r2 b2 i2 Hr2 Hb2 Hf2 Hi2 Hp2 Ht2.
    assert (Hsz2 : Zlen i2 + avail_in (stream r2) = Zlen i + avail_in (stream r)) by (unfold avail_in; rewrite <- !Zlen_app; by rewrite Hi2).
    destruct (IH b2 i2 r2 Hr2 Hb2 Hf2 Hp2) as (n & r' & Hn & HF & HS & HC); [lia| |].
    { pose proof (encode_bound _ _ _ _ (ra_fed _ _ _ Hr2)). rewrite <- (ra_total _ _ _ Hr2) in *. pose proof (Zlen_nonneg (next_in (stream r2))).
      unfold avail_in in *. lia. }
    exists n, r'. split; [done|]. split; [by rewrite <- Hi2|]. split; [done|]. intros Ef. rewrite (Hf2 Ef), (Hfin Ef), !app_nil_r in Hi2.
    rewrite <- Hi2. by apply HC. }
  assert (Hone : forall res, (forall fuel, Compressor_loop (S fuel) r step = res) -> forall fuel, (1 <= fuel)%nat -> Compressor_loop fuel r step = res).
  { intros res Hres [|fuel] Hf; [lia|apply Hres]. }
  destruct st.
  - destruct Hst as [(Hlt & Hc1 & Hcomp)|(Hs & Hn & _)].
    + exists 1%nat, r1. split; [|split; [by rewrite <- (Hall Hc1)|done]]. apply Hone. intros fuel. cbn [Compressor_loop]. rewrite Er.
      cbn [mbind outcome_bind]. rewrite (proj2 (Z.eqb_neq (avail_out s) 0)) by lia. done.
    + destruct (Hn H0) as [n Hn'].
      destruct (loop_retry step n (finishing step) i' r1 Hr' Hb1 Hfin' Hs Hn') as [(k & r2 & Hk & b2 & i2 & Hr2 & Hb2 & Hf2 & Hi2 & Hp2 & Ht2)|(Ef & r2 & Hk & Hr2 & Hc2)].
      { change (stream r1) with s. lia. }
      * change (stream r1) with s in *. destruct (Hcont r2 b2 i2) as (m & r' & Hm & HF); [done|done|done|by rewrite Hi2|done|lia|].
        exists (S (k + m)), r'. split; [|done]. intros [|fuel] Hf; [lia|]. cbn [Compressor_loop]. rewrite Er. cbn [mbind outcome_bind].
        rewrite Hs. cbn [Z.eqb andb]. rewrite bool_decide_true by done. replace fuel with (k + (fuel - k))%nat by lia.
        etransitivity; [exact (Hk _)|]. apply Hm. lia.
      * exists (S (S n)), r2. split.
        -- intros [|fuel] Hf; [lia|]. cbn [Compressor_loop]. rewrite Er. cbn [mbind outcome_bind].
           rewrite Hs. cbn [Z.eqb andb]. rewrite bool_decide_true by done. replace fuel with (S n + (fuel - S n))%nat by lia. exact (Hk _).
        -- rewrite Hi1 in Hr2, Hc2 by done. unfold fed_by. rewrite (Hfin Ef), app_nil_r. subst step. split; [exact Hr2|]. by split.
  - destruct Hst as (Ef & Hc1 & Hcomp). exists 1%nat, r1. split; [|split; [by rewrite <- (Hall Hc1)|split; [congruence|done]]].
    apply Hone. intros fuel. cbn [Compressor_loop]. rewrite Er. cbn [mbind outcome_bind]. by destruct (avail_out s =? 0).
  - destruct (grow_ok (finishing step) i' r1 Hr' Hst) as (Hg & Hpos & Hnx & Hw).
    { pose proof (Zlen_nonneg (next_in s)). unfold avail_in in *. lia. }
    change (stream r1) with s in *. destruct (Hcont (grow r1) (finishing step) i') as (m & r' & Hm & HF); [done|done|by rewrite Hnx|by rewrite Hnx|done| |].
    { pose proof (ra_total _ _ _ Hr') as Ht1. change (stream r1) with s in Ht1. rewrite (ra_total _ _ _ Hg), Hw. lia. }
    exists (S m), r'. split; [|done]. intros [|fuel] Hf; [lia|]. cbn [Compressor_loop]. rewrite Er. cbn [mbind outcome_bind].
    rewrite Hst. cbn [Z.eqb andb]. apply Hm. lia.
  - done.
Qed.

(** [feed]. *)
Lemma feed_ok step i r data :
  runner_at false i r -> (step = FINISH -> data = []) -> 0 < avail_out (stream r) -> 2 * (Zlen i + Zlen data) + 4096 <= 2 ^ 61 ->
  exists n r', (forall fuel, (n <= fuel)%nat -> Compressor_feed fuel r data step = Ok (NEED_MORE, r')) /\
    runner_at (finishing step) (i ++ data) r' /\ (step = STEP -> 0 < avail_out (stream r')) /\
    (step = FINISH -> complete i (written (stream r'))).
Proof.
  intros [Hf Ht Hs Hd] Hfin H0 Hsz. unfold Compressor_feed.
  destruct (loop_ok step _ false i (mkRunner (data_size r) (with_in (stream r) data)) ltac:(by split) ltac:(done) Hfin H0 Hsz (Nat.lt_succ_diag_r _))
    as (n & r' & Hn & Hr & HS & HF). by exists n, r'.
Qed.

Lemma feed_blobs_ok i r blobs :
  runner_at false i r -> 0 < avail_out (stream r) -> 2 * (Zlen i + Zlen (concat blobs)) + 4096 <= 2 ^ 61 ->
  exists n r', (forall fuel, (n <= fuel)%nat -> WCluster.feed_blobs fuel r blobs = Ok r') /\
    runner_at false (i ++ concat blobs) r' /\ 0 < avail_out (stream r').
Proof.
  revert i r. induction blobs as [|b blobs IH]; intros i r Hr H0 Hsz.
  { exists 0%nat, r. cbn [concat]. by rewrite app_nil_r. }
  cbn [concat] in *. rewrite Zlen_app in Hsz. pose proof (Zlen_nonneg (concat blobs)).
  destruct (feed_ok STEP i r b Hr) as (n & r1 & Hn & Hr1 & H1' & _); [done|done|lia|].
  destruct (IH (i ++ b) r1 Hr1 (H1' eq_refl)) as (m & r2 & Hm & Hr2 & H2'); [rewrite Zlen_app; lia|].
  exists (n + m)%nat, r2. rewrite app_assoc. split; [|done]. intros fuel Hfuel. cbn [WCluster.feed_blobs].
  rewrite Hn by lia. cbn [mbind outcome_bind]. apply Hm. lia.
Qed.

(** [_compress] returns, and the stream is complete. *)
Lemma compressed_ok `{OS} c blobs :
  WCluster.write_content c = Ok blobs -> 2 * Zlen (concat blobs) + 4096 <= 2 ^ 61 ->
  exists n out, (forall fuel, (n <= fuel)%nat -> WCluster._compress fuel c = Ok out) /\
    complete (concat blobs) out /\ Zlen out <= 2 * Zlen (concat blobs) + 4096.
Proof.
  intros Hb Hsz. destruct encode_init as (l & El & Hl).
  set (r0 := mkRunner (1024 * 1024) (mkStream [] (1024 * 1024) [] 0 l)).
  assert (Hr0 : runner_at false [] r0) by (split; cbn; [done|done|lia|lia]).
  destruct (feed_blobs_ok [] r0 blobs Hr0) as (n & r1 & Hn & Hr1 & H1'); [done|done|].
  destruct (feed_ok FINISH ([] ++ concat blobs) r1 [] Hr1) as (m & r2 & Hm & Hr2 & _ & Hc); [done|done|rewrite Zlen_app; change (Zlen []) with 0; lia|].
  exists (n + m)%nat, (written (stream r2)). cbn [app] in *. rewrite app_nil_r in Hr2. split_and!.
  - intros fuel Hfuel. unfold WCluster._compress, Compressor_init. rewrite Hb, El. cbn [mbind outcome_bind mret outcome_ret].
    fold r0. rewrite Hn by lia. cbn [mbind outcome_bind]. unfold Compressor_get_data. rewrite Hm by lia. cbn [mbind outcome_bind].
    rewrite (ra_total _ _ _ Hr2). rewrite mem_read_ok by (pose proof (Zlen_nonneg (written (stream r2))); lia). by rewrite slice_all.
  - by apply Hc.
  - pose proof (encode_bound _ _ _ _ (ra_fed _ _ _ Hr2)). lia.
Qed.

End compressor.

(** * The clusters as they are stored *)

(** The libraries with their contracts. *)
Record Codecs `{LzmaLib} `{ZstdLib} : Type := {
  lzma_dec : @DecoderSpec LZMA_INFO;
  zstd_dec : @DecoderSpec ZSTD_INFO;
  lzma_enc : @EncoderSpec LZMA_INFO;
  zstd_enc : @EncoderSpec ZSTD_INFO;
  lzma_codec : @Codec LZMA_INFO lzma_enc lzma_dec;
  zstd_codec : @Codec ZSTD_INFO zstd_enc zstd_dec;
}.

Definition raw (c : CompressionType) : Prop := c = zimcompDefault \/ c = zimcompNone.

(** The compressions a cluster can be written with. *)
Definition supported (c : CompressionType) : Prop := raw c \/ c = zimcompLzma \/ c = zimcompZstd.

Section stored.
Context `{OS} `{LzmaLib} `{ZstdLib} (K : Codecs).

(** [o] is what the contents [i] are stored as under the compression. *)
Definition stored_as (comp : CompressionType) (i o : bytes) : Prop :=
  match comp with
  | zimcompDefault | zimcompNone => o = i
  | zimcompLzma => @complete _ (lzma_enc K) i o
  | zimcompZstd => @complete _ (zstd_enc K) i o
  | zimcompZip | zimcompBzip2 => False
  end.

(** What the reader of the cluster gets from the bytes that follow it. *)
Definition after_of (comp : CompressionType) (junk : bytes) : bytes :=
  match comp with
  | zimcompLzma => @after _ _ _ (lzma_codec K) junk
  | zimcompZstd => @after _ _ _ (zstd_codec K) junk
  | _ => junk
  end.

Definition worst (comp : CompressionType) (n : Z) : Z :=
  match comp with zimcompDefault | zimcompNone => n | _ => 2 * n + 4096 end.

Lemma stored_as_encodes comp i o junk :
  stored_as comp i o -> encodes (lzma_dec K) (zstd_dec K) comp (o ++ junk) (i ++ after_of comp junk).
Proof.
  destruct comp; cbn [stored_as encodes after_of]; try done; try (by intros ->); intros Hc.
  - destruct (@codec_decoder _ _ _ (lzma_codec K)) as [l El]. exists l. split; [exact El|]. by apply codec_decodes.
  - destruct (@codec_decoder _ _ _ (zstd_codec K)) as [l El]. exists l. split; [exact El|]. by apply codec_decodes.
Qed.

Lemma stored_as_nonempty comp i o : stored_as comp i o -> i <> [] -> o <> [].
Proof.
  destruct comp; cbn [stored_as]; try done; try (by intros ->); intros Hc.
  - exact (@codec_nonempty _ _ _ (lzma_codec K) i o Hc).
  - exact (@codec_nonempty _ _ _ (zstd_codec K) i o Hc).
Qed.

(** The data [write] stores for the cluster [x], once it is closed. *)
Definition stored_data (fuel : nat) (x : WCluster.t) : outcome bytes :=
  match WCluster.compression x with
  | zimcompDefault | zimcompNone => blobs ← WCluster.write_content x; mret (concat blobs)
  | _ => WCluster.compress fuel x
  end.

Definition stored_bytes (fuel : nat) (x : WCluster.t) : bytes :=
  match stored_data fuel x with Ok o => o | _ => [] end.

(** With the fuel [n] or more, the cluster [x] of the blobs [bs] is stored as [stored_bytes n x]. *)
Record storable (n : nat) (x : WCluster.t) (bs : list bytes) : Prop := {
  sb_same : forall fuel, (n <= fuel)%nat -> stored_data fuel x = Ok (stored_bytes n x);
  sb_stored : stored_as (WCluster.compression x) (cluster_payload (WCluster.isExtended x) bs) (stored_bytes n x);
  sb_size : Zlen (stored_bytes n x) <= worst (WCluster.compression x) (Zlen (cluster_payload (WCluster.isExtended x) bs));
}.

Lemma storable_more n m x bs : (n <= m)%nat -> storable n x bs -> storable m x bs.
Proof.
  intros Hnm [Hs Hp Hz]. assert (E : stored_bytes m x = stored_bytes n x) by (unfold stored_bytes at 1; by rewrite Hs).
  split; rewrite ?E; [|done|done]. intros fuel Hf. apply Hs. lia.
Qed.

Lemma storable_ok x bs :
  supported (WCluster.compression x) -> holds x bs -> payload_ok (WCluster.isExtended x) bs ->
  2 * Zlen (cluster_payload (WCluster.isExtended x) bs) + 4096 <= 2 ^ 61 -> exists n, storable n x bs.
Proof.
  intros Hc Hh Hok Hsz. destruct (write_content_in x bs Hh Hok) as (blobs & Eb & Ec).
  assert (Hex : exists n o, (forall fuel, (n <= fuel)%nat -> stored_data fuel x = Ok o) /\
    stored_as (WCluster.compression x) (cluster_payload (WCluster.isExtended x) bs) o /\
    Zlen o <= worst (WCluster.compression x) (Zlen (cluster_payload (WCluster.isExtended x) bs))).
  { rewrite <- Ec in *. unfold stored_data, WCluster.compress. destruct Hc as [[E|E]|[E|E]]; rewrite E.
    - exists 0%nat, (concat blobs). rewrite Eb. split_and!; [done|done|cbn [worst]; lia].
    - exists 0%nat, (concat blobs). rewrite Eb. split_and!; [done|done|cbn [worst]; lia].
    - exact (compressed_ok (E := lzma_enc K) x blobs Eb Hsz).
    - exact (compressed_ok (E := zstd_enc K) x blobs Eb Hsz). }
  destruct Hex as (n & o & Hn & Hp & Hz). exists n. assert (Eo : stored_bytes n x = o) by (unfold stored_bytes; by rewrite Hn).
  split; rewrite ?Eo; done.
Qed.

(** [close], then [write]. *)
Lemma close_write n fuel x bs :
  storable n x bs -> (n <= fuel)%nat ->
  exists c, WCluster.close fuel x = Ok c /\
    WCluster.write c = Ok (cluster_info (WCluster.compression x) (WCluster.isExtended x) :: stored_bytes n x) /\
    WCluster.index c = WCluster.index x /\ WCluster.closed c = true /\ WCluster.count c = WCluster.count x /\
    WCluster.isExtended c = WCluster.isExtended x.
Proof.
  intros [Hsame Hst _] Hle. specialize (Hsame fuel Hle). unfold stored_data in Hsame. unfold WCluster.close, WCluster.isCompressed.
  destruct (WCluster.compression x) eqn:Ecomp; try (by destruct Hst); cbn [bool_decide decide_rel andb];
    rewrite ?bool_decide_true, ?bool_decide_false by done; cbn [andb].
  1-2: eexists; split; [reflexivity|]; split; [|done]; unfold WCluster.write; cbn [WCluster.set_closed WCluster.compression
    WCluster.isExtended]; rewrite Ecomp; set (w := WCluster.write_content _); change w with (WCluster.write_content x); clear w;
    destruct (WCluster.write_content x) as [blobs| | |]; try done; cbn [mbind outcome_bind mret outcome_ret] in *; injection Hsame as ->;
    by destruct (WCluster.isExtended x).
  1-2: rewrite Hsame; cbn [mbind outcome_bind mret outcome_ret]; eexists; split; [reflexivity|]; split; [|done]; unfold WCluster.write;
    cbn; rewrite Ecomp; by destruct (WCluster.isExtended x).
Qed.

End stored.

(** * Properties *)


(** * Libraries that copy *)

Program Definition copy_lzma_enc : @EncoderSpec (@LZMA_INFO copy_lzma) := {|
  fed _ _ i o := o = i;
  retries _ _ := True;
  complete i o := o = i;
|}.
Next Obligation. by exists tt. Qed.
Next Obligation. intros b l i o ->. pose proof (Zlen_nonneg i). lia. Qed.
Next Obligation.
  cbn [istate LZMA_INFO copy_lzma lzma_state]. intros s step b i out -> Hstep Hfin Hav. assert (Ha : 0 <= avail_out s) by lia.
  destruct (copy_run s [] _ eq_refl Ha) as (Hc & Ho & _ & _). cbv zeta in *. set (o := slice (next_in s) 0 (avail_out s)) in *.
  assert (Eo : take (Z.to_nat (Zlen o)) (next_in s) = o).
  { unfold o, slice, Zlen. rewrite drop_0, length_take, Nat2Z.id. destruct (decide (Z.to_nat (avail_out s) <= length (next_in s))%nat).
    - by rewrite Nat.min_l by lia.
    - by rewrite Nat.min_r, !take_ge by lia. }
  assert (Hmin : Zlen o = Z.min (avail_in s) (avail_out s)).
  { unfold o, slice, avail_in, Zlen in *. rewrite length_take, drop_0. lia. }
  eexists _, (Zlen o), o, tt. split; [reflexivity|]. split; [done|]. split; [done|]. split; [by rewrite Eo|]. cbv zeta. cbn [istate LZMA_INFO copy_lzma lzma_state].
  destruct (Z.eqb_spec (avail_out s) 0) as [H0|H0]; [lia|].
  destruct (decide (Zlen o < avail_out s)) as [Hlt|Hge].
  - left. split; [done|]. split; [lia|]. intros Hf.
    assert (Hz : avail_in s = 0) by (unfold avail_in; by rewrite (Hfin Hf)).
    assert (o = []) as ->; [apply Zlen_nil_inv; lia|by rewrite app_nil_r].
  - right. split; [lia|]. split; [by exists 0%nat|]. intros n Hn. lia.
Qed.

Program Definition copy_zstd_enc : @EncoderSpec (@ZSTD_INFO copy_zstd) := {|
  fed _ l i o := i = o ++ l;
  retries _ _ := False;
  complete i o := o = i;
|}.
Next Obligation. by exists []. Qed.
Next Obligation. intros b l i o ->. rewrite Zlen_app. pose proof (Zlen_nonneg l). pose proof (Zlen_nonneg o). lia. Qed.
Next Obligation.
  cbn [istate ZSTD_INFO copy_zstd ZSTD_stream]. intros s step b i out -> Hstep Hfin [Ha|(_ & n & [])]. destruct step.
  - exists CS_OK, (Zlen (next_in s)), [], (lib s ++ next_in s). split; [|split; [|split; [|split]]].
    + unfold stream_run_encode, ZSTD_INFO, ZSTD_stream_run_encode, copy_zstd. cbn [ZSTD_compressStream ZSTD_isError].
      change (1 <? 0) with false. cbv iota zeta. unfold avail_in, advance. cbn [next_in]. unfold Zlen. rewrite Nat2Z.id, drop_all.
      cbn. do 3 f_equal. by rewrite Nat2Z.id, drop_all.
    + unfold avail_in. pose proof (Zlen_nonneg (next_in s)). lia.
    + change (Zlen []) with 0. lia.
    + cbn [finishing]. unfold Zlen. by rewrite Nat2Z.id, firstn_all, app_nil_r, app_assoc.
    + left. change (Zlen []) with 0. by split.
  - specialize (Hfin eq_refl). pose proof (Zlen_nonneg (lib s)) as Hl. assert (Hin : avail_in s = 0) by (unfold avail_in; by rewrite Hfin).
    unfold stream_run_encode, ZSTD_INFO, ZSTD_stream_run_encode, copy_zstd in *. cbn [ZSTD_endStream ZSTD_isError istate ZSTD_stream] in *.
    destruct (Z.ltb_spec (Zlen (lib s)) (avail_out s)) as [Hlt|Hge].
    + exists CS_OK, 0, (lib s), []. split; [done|]. split; [lia|]. split; [lia|]. rewrite Hfin, take_nil. split; [by rewrite !app_nil_r|].
      left. split; [done|]. by split.
    + assert (Hz : Zlen (slice (lib s) 0 (avail_out s)) = avail_out s) by (unfold slice, Zlen in *; rewrite length_take, drop_0; lia).
      exists BUF_ERROR, 0, (slice (lib s) 0 (avail_out s)), (drop (Z.to_nat (avail_out s)) (lib s)). split; [|split; [lia|split; [lia|split]]].
      * rewrite (proj2 (Z.ltb_ge (1 + Zlen (lib s)) 0)) by lia. by rewrite (proj2 (Z.ltb_lt 0 (1 + Zlen (lib s)))) by lia.
      * rewrite Hfin, take_nil, app_nil_r, <- app_assoc. f_equal. unfold slice. by rewrite drop_0, take_drop.
      * exact Hz.
Qed.

Program Definition copy_lzma_codec : Codec copy_lzma_enc copy_lzma_spec := {| after junk := junk |}.
Next Obligation. by exists tt. Qed.
Next Obligation. by intros i o junk l ->. Qed.
Next Obligation. by intros i o ->. Qed.

Program Definition copy_zstd_codec : Codec copy_zstd_enc copy_zstd_spec := {| after junk := junk |}.
Next Obligation. by exists []. Qed.
Next Obligation. by intros i o junk l ->. Qed.
Next Obligation. by intros i o ->. Qed.

Definition copy_codecs : @Codecs copy_lzma copy_zstd :=
  @Build_Codecs copy_lzma copy_zstd copy_lzma_spec copy_zstd_spec copy_lzma_enc copy_zstd_enc copy_lzma_codec copy_zstd_codec.

(** A Zstandard cluster of three contents, at byte 1 of a buffer. *)
Definition sample_written : bytes := Eval vm_compute in
  match (c ← @WCluster.close two_parts copy_lzma copy_zstd 50 (cluster_of zimcompZstd sample_providers);
         @WCluster.write two_parts c) with Ok l => l | _ => [] end.

