(* ===== verification/Lru.v ===== *)
(** The least-recently-used cache ([lrucache.h]).

    The C++ class keeps a doubly linked list of the items, most recent first,
    and a map from keys to iterators into it. An iterator is modelled by the
    identity of its node, so that the map and the list can disagree; that they
    never do is the invariant [lru_inv], and the cache then behaves like the
    plain list of [Spec]. *)

From stdpp Require Import gmap strings.
From S2P Require Import Prelude.

Section lru.
Context {key_t : Type} `{Countable key_t} {value_t : Type}.

Inductive AccessStatus : Type := HIT | PUT | MISS.

Record AccessResult : Type := mkAccess { status_ : AccessStatus; val_ : option value_t }.

Definition hit (r : AccessResult) : bool := match status_ r with HIT => true | _ => false end.
Definition miss (r : AccessResult) : bool := negb (hit r).
Definition value (r : AccessResult) : outcome value_t :=
  match status_ r, val_ r with
  | MISS, _ => Throw (range_error "There is no such key in cache")
  | _, Some v => mret v
  | _, None => Undef
  end.

(** A node of the list: its identity and its pair. *)
Abbreviation node := (nat * (key_t * value_t))%type.

Record lru_cache : Type := mkLru {
  _cache_items_list : list node;
  _cache_items_map : gmap key_t nat;
  _max_size : nat;
  next_node : nat;      (* the identity of the next node to be allocated *)
}.

Definition lru_new (max_size : nat) : lru_cache := mkLru [] ∅ max_size 0.

(** The node an iterator designates; undefined when it was erased. *)
Definition deref (c : lru_cache) (it : nat) : outcome (key_t * value_t) :=
  match list_find (fun n => n.1 = it) (_cache_items_list c) with
  | Some (_, (_, kv)) => mret kv
  | None => Undef
  end.

(** [splice(begin(), list, it)]: moves the node to the front. *)
Definition splice (c : lru_cache) (it : nat) : lru_cache :=
  mkLru (filter (fun n => n.1 = it) (_cache_items_list c) ++
         filter (fun n => n.1 <> it) (_cache_items_list c))
    (_cache_items_map c) (_max_size c) (next_node c).

(** [it->second = value] for the node [it]. *)
Definition assign (c : lru_cache) (it : nat) (v : value_t) : lru_cache :=
  mkLru (map (fun n => if decide (n.1 = it) then (n.1, (n.2.1, v)) else n) (_cache_items_list c))
    (_cache_items_map c) (_max_size c) (next_node c).

Definition putMissing (c : lru_cache) (key : key_t) (v : value_t) : outcome lru_cache :=
  match _cache_items_map c !! key with
  | Some _ => Throw assertion_failed
  | None =>
      let l := (next_node c, (key, v)) :: _cache_items_list c in
      let m := <[key := next_node c]> (_cache_items_map c) in
      let n := S (next_node c) in
      if bool_decide (_max_size c < size m)%nat then
        match last l with
        | Some (_, (k, _)) => mret (mkLru (take (length l - 1) l) (delete k m) (_max_size c) n)
        | None => Undef
        end
      else mret (mkLru l m (_max_size c) n)
  end.

Definition getOrPut (c : lru_cache) (key : key_t) (v : value_t) : outcome (AccessResult * lru_cache) :=
  match _cache_items_map c !! key with
  | Some it =>
      let c := splice c it in
      kv ← deref c it;
      mret (mkAccess HIT (Some kv.2), c)
  | None =>
      c ← putMissing c key v;
      mret (mkAccess PUT (Some v), c)
  end.

Definition put (c : lru_cache) (key : key_t) (v : value_t) : outcome lru_cache :=
  match _cache_items_map c !! key with
  | Some it =>
      let c := splice c it in
      _ ← deref c it;
      mret (assign c it v)
  | None => putMissing c key v
  end.

Definition get (c : lru_cache) (key : key_t) : outcome (AccessResult * lru_cache) :=
  match _cache_items_map c !! key with
  | None => mret (mkAccess MISS None, c)
  | Some it =>
      let c := splice c it in
      kv ← deref c it;
      mret (mkAccess HIT (Some kv.2), c)
  end.

Definition exists_ (c : lru_cache) (key : key_t) : bool :=
  bool_decide (is_Some (_cache_items_map c !! key)).

Definition lru_size (c : lru_cache) : nat := size (_cache_items_map c).

(** * The abstract cache: the items, most recent first *)

Definition spec_get (l : list (key_t * value_t)) (k : key_t) : option value_t :=
  snd <$> (snd <$> list_find (fun kv => kv.1 = k) l).

(** [k] with value [v] becomes the most recent item. *)
Definition spec_touch (l : list (key_t * value_t)) (k : key_t) (v : value_t) : list (key_t * value_t) :=
  (k, v) :: filter (fun kv => kv.1 <> k) l.

(** * The invariant *)

Record lru_inv (c : lru_cache) : Prop := {
  inv_nodes : NoDup (map fst (_cache_items_list c));
  inv_fresh : Forall (fun n => n.1 < next_node c)%nat (_cache_items_list c);
  inv_keys : NoDup (map (fun n => n.2.1) (_cache_items_list c));
  inv_map : forall k it, _cache_items_map c !! k = Some it <->
              exists v, (it, (k, v)) ∈ _cache_items_list c;
  inv_size : (length (_cache_items_list c) <= _max_size c)%nat;
}.

Definition contents (c : lru_cache) : list (key_t * value_t) := map snd (_cache_items_list c).

(** ** Lists of nodes *)

Lemma filter_node_eq (l : list node) it kv :
  NoDup (map fst l) -> (it, kv) ∈ l -> filter (fun n => n.1 = it) l = [(it, kv)].
Proof.
  induction l as [|[i x] l IH]; intros Hnd Hin; [by apply not_elem_of_nil in Hin|].
  cbn [map] in Hnd. apply NoDup_cons in Hnd as [Hi Hnd].
  apply elem_of_cons in Hin as [E|Hin].
  - injection E as <- <-. rewrite filter_cons_True by done. f_equal.
    clear IH. induction l as [|[j y] l IH]; [done|]. cbn [map fst] in *.
    rewrite filter_cons_False by (simpl; intros ->; apply Hi; by left).
    apply IH; [intros Hj; apply Hi; by right|by inversion_clear Hnd].
  - rewrite filter_cons_False; [by apply IH|]. simpl. intros ->. apply Hi.
    apply list_elem_of_In, in_map_iff. exists (it, kv). split; [done|]. by apply list_elem_of_In.
Qed.

Lemma map_snd_filter_node (l : list node) it k v :
  NoDup (map fst l) -> NoDup (map (fun n => n.2.1) l) -> (it, (k, v)) ∈ l ->
  map snd (filter (fun n => n.1 <> it) l) = filter (fun kv => kv.1 <> k) (map snd l).
Proof.
  intros Hn Hk Hin.
  assert (Hiff : forall n, n ∈ l -> (n.1 = it <-> n.2.1 = k)).
  { intros [i [k' v']] Hi. simpl. split.
    - intros ->. pose proof (filter_node_eq l it (k, v) Hn Hin) as E1.
      pose proof (filter_node_eq l it (k', v') Hn Hi) as E2. rewrite E1 in E2. congruence.
    - intros ->. apply list_elem_of_lookup in Hin as [a Ha], Hi as [b Hb].
      assert (a = b) as ->; [|congruence].
      eapply (NoDup_lookup (map (fun n => n.2.1) l)); [done| |];
        rewrite list_lookup_fmap; [by rewrite Ha|by rewrite Hb]. }
  clear Hn Hk Hin. induction l as [|[i [k' v']] l IH]; [done|].
  cbn [map]. rewrite !filter_cons. pose proof (Hiff (i, (k', v')) ltac:(by left)) as Hd. simpl in Hd.
  assert (IH' := IH (fun n Hi => Hiff n (list_elem_of_further _ _ _ Hi))).
  simpl. repeat case_decide; first [exact IH' | (cbn [map]; f_equal; exact IH') | (exfalso; tauto)].
Qed.

Lemma deref_in c it kv :
  lru_inv c -> (it, kv) ∈ _cache_items_list c -> deref c it = Ok kv.
Proof.
  intros [Hn _ _ _ _] Hin. unfold deref.
  destruct (list_find _ _) as [[i [j kv']]|] eqn:E.
  - apply list_find_Some in E as (Hl & Hj & _). simpl in Hj. subst j.
    pose proof (filter_node_eq _ it kv Hn Hin) as E1.
    pose proof (filter_node_eq _ it kv' Hn (list_elem_of_lookup_2 _ _ _ Hl)) as E2.
    rewrite E1 in E2. by injection E2 as ->.
  - apply list_find_None in E. rewrite Forall_forall in E. by destruct (E _ Hin).
Qed.

Lemma spec_get_node c it k v :
  lru_inv c -> (it, (k, v)) ∈ _cache_items_list c -> spec_get (contents c) k = Some v.
Proof.
  intros [_ _ Hk _ _] Hin. unfold spec_get, contents.
  destruct (list_find _ _) as [[i [k' v']]|] eqn:E; simpl.
  - apply list_find_Some in E as (Hl & Ek & _). simpl in Ek. subst k'.
    rewrite list_lookup_fmap in Hl. apply list_elem_of_lookup in Hin as [j Hj].
    apply fmap_Some in Hl as ([i' [k2 v2]] & Ei & E2). simpl in E2. simplify_eq.
    assert (i = j) as ->; [|congruence].
    eapply (NoDup_lookup (map (fun n => n.2.1) (_cache_items_list c))); [done| |];
      rewrite list_lookup_fmap; [by rewrite Ei|by rewrite Hj].
  - apply list_find_None in E. rewrite Forall_forall in E. exfalso.
    apply (E (k, v)); [|done]. apply list_elem_of_fmap. by exists (it, (k, v)).
Qed.

Lemma spec_get_absent c k :
  lru_inv c -> _cache_items_map c !! k = None -> spec_get (contents c) k = None.
Proof.
  intros [_ _ _ Hm _] Hk. unfold spec_get, contents.
  destruct (list_find _ _) as [[i [k' v']]|] eqn:E; [|done]. exfalso.
  apply list_find_Some in E as (Hl & Ek & _). simpl in Ek. subst k'.
  apply list_elem_of_lookup_2, list_elem_of_fmap in Hl as ([it [k2 v2]] & E & Hin). simpl in E. injection E as <- <-.
  assert (_cache_items_map c !! k = Some it) by (apply Hm; eauto). congruence.
Qed.

Lemma splice_spec c it k v :
  lru_inv c -> (it, (k, v)) ∈ _cache_items_list c ->
  lru_inv (splice c it) /\ contents (splice c it) = spec_touch (contents c) k v /\
  (it, (k, v)) ∈ _cache_items_list (splice c it).
Proof.
  intros Hinv Hin. pose proof Hinv as [Hn Hf Hk Hm Hs].
  pose proof (filter_node_eq _ it (k, v) Hn Hin) as E.
  assert (Hp : filter (fun n => n.1 = it) (_cache_items_list c) ++
               filter (fun n => n.1 <> it) (_cache_items_list c) ≡ₚ _cache_items_list c)
    by (apply filter_app_complement).
  split_and!.
  - split; cbn [_cache_items_list _cache_items_map _max_size next_node splice].
    + by rewrite Hp.
    + by rewrite Hp.
    + by rewrite Hp.
    + intros. rewrite Hm. setoid_rewrite Hp. done.
    + by rewrite Hp.
  - unfold contents, spec_touch. cbn [_cache_items_list splice].
    rewrite map_app, E. cbn [map app snd]. f_equal. by apply map_snd_filter_node with v.
  - cbn [_cache_items_list splice]. by rewrite Hp.
Qed.

Lemma lru_map_size c : lru_inv c -> size (_cache_items_map c) = length (_cache_items_list c).
Proof.
  intros [Hn _ Hk Hm _].
  assert (E : _cache_items_map c = list_to_map (map (fun n => (n.2.1, n.1)) (_cache_items_list c))).
  { apply map_eq. intros k. apply option_eq. intros it. rewrite Hm.
    rewrite <- elem_of_list_to_map.
    - rewrite list_elem_of_fmap. split.
      + intros [v Hv]. by exists (it, (k, v)).
      + intros ([it' [k' v]] & E & Hin). simpl in E. injection E as -> ->. eauto.
    - change (map (fun n => (n.2.1, n.1)) (_cache_items_list c))
        with ((fun n : node => (n.2.1, n.1)) <$> _cache_items_list c).
      by rewrite <- list_fmap_compose. }
  rewrite E, map_size_list_to_map.
  - by rewrite length_map.
  - change (map (fun n => (n.2.1, n.1)) (_cache_items_list c))
      with ((fun n : node => (n.2.1, n.1)) <$> _cache_items_list c).
    by rewrite <- list_fmap_compose.
Qed.

(** A key that is not cached is not in the list. *)
Lemma absent_key c k : lru_inv c -> _cache_items_map c !! k = None ->
  k ∉ map (fun n => n.2.1) (_cache_items_list c).
Proof.
  intros [_ _ _ Hm _] Hk Hin. apply list_elem_of_fmap in Hin as ([it [k' v]] & -> & Hin).
  simpl in Hk. assert (_cache_items_map c !! k' = Some it) by (apply Hm; eauto). congruence.
Qed.

Lemma take_pred_last {A} (l : list A) x : last l = Some x -> l = take (length l - 1) l ++ [x].
Proof.
  intros Hl. destruct l as [|y l _] using rev_ind; [done|].
  rewrite last_snoc in Hl. injection Hl as ->. rewrite length_app. simpl.
  by rewrite take_app_le, firstn_all2 by lia.
Qed.

Lemma putMissing_spec c k v :
  lru_inv c -> _cache_items_map c !! k = None ->
  exists c', putMissing c k v = Ok c' /\ lru_inv c' /\ _max_size c' = _max_size c /\
    contents c' = take (_max_size c) ((k, v) :: contents c).
Proof.
  intros Hinv Hk. pose proof (lru_map_size c Hinv) as Hsz. pose proof (absent_key c k Hinv Hk) as Habs.
  pose proof Hinv as [Hn Hf Hkeys Hm Hs]. unfold putMissing. rewrite Hk.
  set (l := (next_node c, (k, v)) :: _cache_items_list c).
  set (m := <[k := next_node c]> (_cache_items_map c)).
  assert (Hfresh : next_node c ∉ map fst (_cache_items_list c)).
  { intros Hin. apply list_elem_of_fmap in Hin as (n & E & Hin). rewrite Forall_forall in Hf.
    specialize (Hf _ Hin). simpl in Hf. lia. }
  assert (Hn' : NoDup (map fst l)) by (by constructor).
  assert (Hk' : NoDup (map (fun n => n.2.1) l)) by (by constructor).
  assert (Hm' : forall k' it, m !! k' = Some it <-> exists w, (it, (k', w)) ∈ l).
  { intros k' it. unfold m, l. destruct (decide (k' = k)) as [->|Hne].
    - rewrite lookup_insert_eq. split.
      + intros [= <-]. exists v. by left.
      + intros [w Hw]. apply elem_of_cons in Hw as [E|Hw]; [by injection E as -> ->|].
        destruct Habs. apply list_elem_of_fmap. by exists (it, (k, w)).
    - rewrite lookup_insert_ne by done. rewrite Hm. split.
      + intros [w Hw]. exists w. by right.
      + intros [w Hw]. apply elem_of_cons in Hw as [E|Hw]; [congruence|eauto]. }
  assert (Hf' : Forall (fun n => n.1 < S (next_node c))%nat l).
  { constructor; [simpl; lia|]. eapply Forall_impl; [exact Hf|]. simpl. lia. }
  assert (Hsm : size m = length l).
  { unfold m, l. rewrite map_size_insert_None by done. rewrite Hsz. done. }
  rewrite Hsm. case_bool_decide as Hbig.
  - destruct (last l) as [[it [k' v']]|] eqn:Hlast; [|by apply last_None in Hlast].
    pose proof (take_pred_last l _ Hlast) as El. eexists. split; [done|].
    set (l' := take (length l - 1) l) in *.
    assert (Hlen : length l = S (length l')) by (rewrite El, length_app; simpl; lia).
    assert (Hl1 : length l = S (length (_cache_items_list c))) by done.
    assert (Hmax : _max_size c = length l') by lia.
    rewrite El in Hn', Hk', Hf', Hm'. rewrite !map_app in Hn', Hk'.
    apply NoDup_app in Hn' as (Hn1 & Hn2 & _), Hk' as (Hk1 & Hk2 & _). apply Forall_app in Hf' as [Hf1 _].
    split; [|split; [done|]].
    + split; cbn [_cache_items_list _cache_items_map _max_size next_node]; try done; [|by rewrite Hmax].
      intros k2 it2. rewrite lookup_delete_Some, Hm'. setoid_rewrite elem_of_app. split.
      * intros (Hne & w & [Hw|Hw]); [eauto|]. apply list_elem_of_singleton in Hw. congruence.
      * intros [w Hw]. split; [|eauto]. intros <-.
        apply (Hk2 k'); [apply list_elem_of_fmap; by exists (it2, (k', w))|by left].
    + unfold contents. cbn [_cache_items_list]. change ((k, v) :: map snd (_cache_items_list c)) with (map snd l).
      rewrite El, map_app, Hmax. rewrite take_app_le by (by rewrite length_map).
      by rewrite firstn_all2 by (by rewrite length_map).
  - eexists. split; [done|]. split; [by split; try done; cbn [_cache_items_list _max_size]; lia|].
    split; [done|]. unfold contents. cbn [_cache_items_list].
    change ((k, v) :: map snd (_cache_items_list c)) with (map snd l).
    symmetry. apply firstn_all2. rewrite length_map. lia.
Qed.

(** * Operations and their specification *)

Inductive lru_op : Type :=
  | OGetOrPut (k : key_t) (v : value_t)
  | OPut (k : key_t) (v : value_t)
  | OGet (k : key_t).

Definition lru_step (c : lru_cache) (o : lru_op) : outcome (option AccessResult * lru_cache) :=
  match o with
  | OGetOrPut k v => '(r, c) ← getOrPut c k v; mret (Some r, c)
  | OPut k v => c ← put c k v; mret (None, c)
  | OGet k => '(r, c) ← get c k; mret (Some r, c)
  end.

Definition spec_step (max : nat) (l : list (key_t * value_t)) (o : lru_op) :
    option AccessResult * list (key_t * value_t) :=
  match o with
  | OGetOrPut k v =>
      match spec_get l k with
      | Some w => (Some (mkAccess HIT (Some w)), spec_touch l k w)
      | None => (Some (mkAccess PUT (Some v)), take max ((k, v) :: l))
      end
  | OPut k v =>
      match spec_get l k with
      | Some _ => (None, spec_touch l k v)
      | None => (None, take max ((k, v) :: l))
      end
  | OGet k =>
      match spec_get l k with
      | Some w => (Some (mkAccess HIT (Some w)), spec_touch l k w)
      | None => (Some (mkAccess MISS None), l)
      end
  end.

Lemma assign_spec c it k w v :
  lru_inv c -> contents c = (k, w) :: tail (contents c) -> (it, (k, w)) ∈ _cache_items_list c ->
  lru_inv (assign c it v) /\ contents (assign c it v) = (k, v) :: tail (contents c).
Proof.
  intros Hinv Hc Hin. pose proof Hinv as [Hn Hf Hk Hm Hs].
  set (g := fun n : node => if decide (n.1 = it) then (n.1, (n.2.1, v)) else n).
  assert (Hg1 : forall n, (g n).1 = n.1) by (intros n; unfold g; by case_decide).
  assert (Hg2 : forall n, (g n).2.1 = n.2.1) by (intros n; unfold g; by case_decide).
  split.
  - split; unfold assign; fold g; cbn [_cache_items_list _cache_items_map _max_size next_node].
    + rewrite map_map. by rewrite (map_ext _ _ Hg1).
    + apply Forall_map. eapply Forall_impl; [exact Hf|]. intros n. simpl. by rewrite Hg1.
    + rewrite map_map. by rewrite (map_ext _ _ Hg2).
    + intros k' it'. rewrite Hm. split.
      * intros [u Hu]. exists (g (it', (k', u))).2.2. apply list_elem_of_fmap.
        exists (it', (k', u)). split; [|done].
        pose proof (Hg1 (it', (k', u))). pose proof (Hg2 (it', (k', u))).
        destruct (g (it', (k', u))) as [? [? ?]]. simpl in *. by subst.
      * intros [u Hu]. apply list_elem_of_fmap in Hu as ([i [k2 u2]] & E & Hi).
        pose proof (Hg1 (i, (k2, u2))) as E1. pose proof (Hg2 (i, (k2, u2))) as E2. rewrite <- E in E1, E2.
        simpl in E1, E2. subst. eauto.
    + by rewrite length_map.
  - unfold contents, assign in *. fold g. cbn [_cache_items_list] in *.
    destruct (_cache_items_list c) as [|[i [k0 w0]] l] eqn:El; [done|]. cbn [map snd tail] in *.
    injection Hc as -> ->. cbn [map] in Hn, Hk. apply NoDup_cons in Hn as [Hi Hn], Hk as [Hki _].
    apply elem_of_cons in Hin as [E|Hin].
    + injection E as ->. unfold g at 1. simpl. rewrite decide_True by done. simpl. f_equal.
      rewrite map_map. apply map_ext_in. intros n Hn'. unfold g. rewrite decide_False; [done|].
      intros <-. apply Hi. apply list_elem_of_fmap. exists n. split; [done|]. by apply list_elem_of_In.
    + destruct Hki. apply list_elem_of_fmap. by exists (it, (k, w)).
Qed.

Lemma lru_step_spec c o :
  lru_inv c ->
  exists c', lru_step c o = Ok ((spec_step (_max_size c) (contents c) o).1, c') /\ lru_inv c' /\
    contents c' = (spec_step (_max_size c) (contents c) o).2 /\ _max_size c' = _max_size c.
Proof.
  intros Hinv.
  assert (Hcase : forall k, match _cache_items_map c !! k with
    | Some it => exists v, (it, (k, v)) ∈ _cache_items_list c /\ spec_get (contents c) k = Some v
    | None => spec_get (contents c) k = None end).
  { intros k. destruct (_cache_items_map c !! k) as [it|] eqn:E.
    - apply (inv_map c Hinv) in E as [v Hv]. exists v. split; [done|]. by eapply spec_get_node.
    - by apply spec_get_absent. }
  destruct o as [k v|k v|k]; cbn [lru_step spec_step]; specialize (Hcase k);
    unfold getOrPut, put, get; destruct (_cache_items_map c !! k) as [it|] eqn:E.
  1, 3, 5: destruct Hcase as (w & Hin & ->);
    destruct (splice_spec c it k w Hinv Hin) as (Hi & Hc & Hin');
    rewrite (deref_in _ it _ Hi Hin'); cbn [mbind outcome_bind mret outcome_ret].
  - by exists (splice c it).
  - eexists. split; [done|].
    destruct (assign_spec (splice c it) it k w v Hi) as [Ha Hac]; [by rewrite Hc|done|].
    split; [done|]. split; [|done]. rewrite Hac, Hc. done.
  - by exists (splice c it).
  - rewrite Hcase. destruct (putMissing_spec c k v Hinv E) as (c' & -> & ?&?&?). by exists c'.
  - rewrite Hcase. destruct (putMissing_spec c k v Hinv E) as (c' & -> & ?&?&?). by exists c'.
  - rewrite Hcase. by exists c.
Qed.

Lemma spec_get_in (l : list (key_t * value_t)) k v : spec_get l k = Some v -> (k, v) ∈ l.
Proof.
  unfold spec_get. destruct (list_find _ l) as [[i [k' v']]|] eqn:E; [|done]. intros [= <-].
  apply list_find_Some in E as (Hl & Hk & _). simpl in Hk. subst. by eapply list_elem_of_lookup_2.
Qed.

Lemma Forall_touch (P : key_t * value_t -> Prop) l k v :
  P (k, v) -> Forall P l -> Forall P (spec_touch l k v).
Proof.
  intros. constructor; [done|]. apply Forall_forall. intros x Hx. apply list_elem_of_filter in Hx as [_ Hx].
  by eapply Forall_forall.
Qed.

(** What [getOrPut] returns and leaves, for a property of the items. *)
Lemma getOrPut_Forall (P : key_t * value_t -> Prop) c k v :
  lru_inv c -> Forall P (contents c) ->
  exists x c', getOrPut c k v = Ok (x, c') /\ lru_inv c' /\
    ((miss x = false /\ exists w, value x = Ok w /\ P (k, w) /\ Forall P (contents c')) \/
     (miss x = true /\ forall P' : key_t * value_t -> Prop, (forall kv, P kv -> P' kv) -> P' (k, v) ->
        Forall P' (contents c'))).
Proof.
  intros Hi HP. destruct (lru_step_spec _ (OGetOrPut k v) Hi) as (c' & E & Hi' & Hc & _).
  cbn [lru_step spec_step] in E, Hc. apply bind_Ok in E as ([x c1] & -> & E).
  destruct (spec_get (contents c) k) as [w|] eqn:Eg; simpl in E, Hc; injection E as -> ->;
    eexists _, c'; (split; [done|]); (split; [done|]).
  - left. split; [done|]. exists w. apply spec_get_in in Eg.
    assert (P (k, w)) by (by eapply Forall_forall in Eg).
    split_and!; [done|done|]. rewrite Hc. by apply Forall_touch.
  - right. split; [done|]. intros P' HPP Hkv. rewrite Hc. apply Forall_take. constructor; [done|].
    by eapply Forall_impl.
Qed.

Lemma lru_inv_new max : lru_inv (lru_new max).
Proof.
  split; cbn; try constructor; [by rewrite lookup_empty|intros [v Hv]; by apply not_elem_of_nil in Hv|lia].
Qed.

(** * Properties *)

Fixpoint lru_run (c : lru_cache) (os : list lru_op) : outcome (list (option AccessResult) * lru_cache) :=
  match os with
  | [] => mret ([], c)
  | o :: os =>
      '(r, c) ← lru_step c o;
      '(rs, c) ← lru_run c os;
      mret (r :: rs, c)
  end.

Fixpoint spec_run (max : nat) (l : list (key_t * value_t)) (os : list lru_op) :
    list (option AccessResult) * list (key_t * value_t) :=
  match os with
  | [] => ([], l)
  | o :: os =>
      let '(r, l) := spec_step max l o in
      let '(rs, l) := spec_run max l os in
      (r :: rs, l)
  end.

Lemma lru_refines_core max os :
  exists c, lru_run (lru_new max) os = Ok ((spec_run max [] os).1, c) /\
    contents c = (spec_run max [] os).2 /\ (lru_size c <= max)%nat.
Proof.
  assert (Hgen : forall c, lru_inv c ->
    exists c', lru_run c os = Ok ((spec_run (_max_size c) (contents c) os).1, c') /\ lru_inv c' /\
      contents c' = (spec_run (_max_size c) (contents c) os).2 /\ _max_size c' = _max_size c).
  { induction os as [|o os IH]; intros c Hinv; cbn [lru_run spec_run]; [by exists c|].
    destruct (lru_step_spec c o Hinv) as (c1 & -> & Hi1 & Hc1 & Hm1). cbn [mbind outcome_bind].
    destruct (IH c1 Hi1) as (c2 & -> & Hi2 & Hc2 & Hm2). rewrite Hm1, Hc1 in *.
    destruct (spec_step _ _ o) as [r l1]. simpl in *.
    destruct (spec_run _ l1 os) as [rs l2]. simpl in *. exists c2. by split_and!. }
  destruct (Hgen (lru_new max) (lru_inv_new max)) as (c & E & Hi & Hc & Hm).
  exists c. split; [exact E|]. split; [exact Hc|].
  unfold lru_size. rewrite lru_map_size by done. pose proof (inv_size c Hi). simpl in Hm. lia.
Qed.

(** C26. The cache refines its specification: whatever the operations performed
    on a new cache, no iterator it follows is dangling, every result is the one
    the plain list of items (most recent first, at most [max] of them) gives,
    and the cache ends with that list; so it never holds more than [max]
    items. *)
Theorem lru_refines_spec max os :
  exists c, lru_run (lru_new max) os = Ok ((spec_run max [] os).1, c) /\
    contents c = (spec_run max [] os).2 /\ (lru_size c <= max)%nat.
Proof. apply lru_refines_core. Qed.

(** The keys of the accesses, most recent first, each once. *)
Fixpoint recency (ks : list key_t) (os : list (key_t * value_t)) : list key_t :=
  match os with
  | [] => ks
  | (k, _) :: os => recency (k :: filter (fun k' => k' <> k) ks) os
  end.

Lemma take_touch max (ks : list key_t) k :
  NoDup ks ->
  take max (k :: filter (fun k' => k' <> k) ks) =
    (if decide (k ∈ take max ks) then k :: filter (fun k' => k' <> k) (take max ks)
     else take max (k :: take max ks)).
Proof.
  intros Hnd.
  assert (Hsk : forall l : list key_t, k ∉ l -> filter (fun k' => k' <> k) l = l).
  { intros l. induction l as [|x l IH]; intros Hl; [done|].
    apply not_elem_of_cons in Hl as [Hx Hl]. rewrite filter_cons_True by done. by rewrite IH. }
  destruct max as [|max]; [done|]. cbn [take]. case_decide as Hin.
  - f_equal. revert max Hin. induction ks as [|x ks IH]; intros max Hin;
      [by apply not_elem_of_nil in Hin|].
    apply NoDup_cons in Hnd as [Hx Hnd]. cbn [take] in *.
    destruct (decide (x = k)) as [->|Hne].
    + rewrite !filter_cons_False by auto. rewrite (Hsk ks Hx), (Hsk (take max ks)); [done|].
      intros Hk. apply Hx. apply elem_of_take in Hk as (i & Hk & _). by eapply list_elem_of_lookup_2.
    + rewrite !filter_cons_True by done. apply elem_of_cons in Hin as [?|Hin]; [done|].
      destruct max as [|max]; [by apply not_elem_of_nil in Hin|]. cbn [take]. f_equal. by apply IH.
  - f_equal. rewrite firstn_firstn, Nat.min_l by lia.
    revert max Hin. induction ks as [|x ks IH]; intros max Hin; [done|].
    apply NoDup_cons in Hnd as [Hx Hnd]. cbn [take] in *. apply not_elem_of_cons in Hin as [Hne Hin].
    rewrite filter_cons_True by done. destruct max as [|max]; [done|]. cbn [take]. f_equal.
    by apply IH.
Qed.

Lemma spec_get_elem (l : list (key_t * value_t)) k : is_Some (spec_get l k) <-> k ∈ map fst l.
Proof.
  unfold spec_get. rewrite !fmap_is_Some. split.
  - intros [[i [k' v]] E]. apply list_find_Some in E as (Hl & Ek & _). simpl in Ek. subst k'.
    apply list_elem_of_fmap. exists (k, v). split; [done|]. by eapply list_elem_of_lookup_2.
  - intros Hin. apply list_elem_of_fmap in Hin as ([k' v] & -> & Hin).
    by apply (list_find_elem_of _ _ (k', v)).
Qed.

Lemma touch_keys max (l l1 : list (key_t * value_t)) k v r :
  spec_step max l (OGetOrPut k v) = (r, l1) ->
  map fst l1 = if decide (k ∈ map fst l) then k :: filter (fun k' => k' <> k) (map fst l)
               else take max (k :: map fst l).
Proof.
  cbn [spec_step]. pose proof (spec_get_elem l k) as Hin. destruct (spec_get l k) as [w|].
  - intros [= <- <-]. rewrite decide_True by (by apply Hin). unfold spec_touch. cbn [map fst]. f_equal.
    clear Hin. induction l as [|[k' v'] l IH]; [done|]. cbn [map]. rewrite !filter_cons. simpl.
    case_decide; cbn [map]; by rewrite ?IH.
  - intros [= <- <-]. rewrite decide_False by (intros Hk; apply Hin in Hk; by destruct Hk).
    by rewrite <- firstn_map.
Qed.

(** C27. The eviction is least-recently-used: after any sequence of [getOrPut]
    accesses to a new cache, the keys it holds are the [max] most recently
    accessed distinct ones, most recent first. *)
Theorem lru_keeps_most_recent max os :
  exists rs c, lru_run (lru_new max) (map (fun kv => OGetOrPut kv.1 kv.2) os) = Ok (rs, c) /\
    map fst (contents c) = take max (recency [] os).
Proof.
  destruct (lru_refines_core max (map (fun kv => OGetOrPut kv.1 kv.2) os)) as (c & E & Hc & _).
  eexists _, c. split; [exact E|]. rewrite Hc. clear c E Hc.
  change (@nil (key_t * value_t)) with (@nil (key_t * value_t)).
  assert (Hgen : forall l ks, NoDup ks -> map fst l = take max ks ->
    map fst (spec_run max l (map (fun kv => OGetOrPut kv.1 kv.2) os)).2 = take max (recency ks os)).
  { induction os as [|[k v] os IH]; intros l ks Hnd Hl; cbn [map spec_run recency]; [done|].
    destruct (spec_step max l (OGetOrPut (k, v).1 (k, v).2)) as [r l1] eqn:Es.
    specialize (IH l1 (k :: filter (fun k' => k' <> k) ks)).
    destruct (spec_run max l1 _) as [rs l2]. simpl in *. apply IH.
    - constructor; [|by apply NoDup_filter]. rewrite list_elem_of_filter. tauto.
    - rewrite take_touch by done. rewrite <- Hl. apply touch_keys in Es. done. }
  apply (Hgen [] []); [by apply NoDup_nil_2|by rewrite take_nil].
Qed.

End lru.
