(* ===== verification/ConcurrentCache.v ===== *)
(** The concurrent cache ([concurrent_cache.h]): a step relation.

    Each thread runs one [getOrPut(key, f)]. The access to the [lru_cache] is
    one atomic step (the mutex is held), the call of [f] and [set_value] are
    another, and waiting on the shared future is a third, so that all
    interleavings of these are runs of the model. A future is identified by a
    number; the key it was made for is recorded beside its state, for the
    statements only. *)

From stdpp Require Import gmap strings.
From S2P Require Import Prelude.
From S2P Require Import Lru.

Section cache.
Context {Key : Type} `{Countable Key} {Value : Type}.

(** What [f()] may do for a key: return a value or throw. *)
Context (f_does : Key -> outcome Value -> Prop).

Inductive future : Type := FPending | FReady (v : Value) | FBroken.

Inductive thread : Type :=
  | TStart (k : Key)
  | TCompute (k : Key) (p : nat)     (* a miss: about to call [f] *)
  | TWait (k : Key) (p : nat)        (* in [x.value().get()] *)
  | TDone (k : Key) (r : outcome Value).

Record cache_state : Type := mkCache {
  impl_ : @lru_cache Key _ _ nat;
  futures : gmap nat (Key * future);
  next_future : nat;
  threads : gmap nat thread;
}.

Definition set_thread (s : cache_state) (t : nat) (x : thread) : gmap nat thread :=
  <[t := x]> (threads s).

Definition broken_promise : exn := future_error "broken promise".

Inductive cache_step : cache_state -> cache_state -> Prop :=
  (** [impl_.getOrPut(key, valuePromise.get_future().share())], locked. *)
  | step_lookup s t k r c :
      threads s !! t = Some (TStart k) ->
      getOrPut (impl_ s) k (next_future s) = Ok (r, c) ->
      forall p, value r = Ok p ->
      cache_step s (mkCache c (<[next_future s := (k, FPending)]> (futures s)) (S (next_future s))
        (set_thread s t (if miss r then TCompute k p else TWait k p)))
  (** [valuePromise.set_value(f())]. *)
  | step_computed s t k p v :
      threads s !! t = Some (TCompute k p) -> f_does k (Ok v) ->
      futures s !! p = Some (k, FPending) ->
      cache_step s (mkCache (impl_ s) (<[p := (k, FReady v)]> (futures s)) (next_future s)
        (set_thread s t (TWait k p)))
  (** [f()] throws: the promise is destroyed without a value. *)
  | step_thrown s t k p e :
      threads s !! t = Some (TCompute k p) -> f_does k (Throw e) ->
      cache_step s (mkCache (impl_ s) (<[p := (k, FBroken)]> (futures s)) (next_future s)
        (set_thread s t (TDone k (Throw e))))
  | step_ready s t k p k' v :
      threads s !! t = Some (TWait k p) -> futures s !! p = Some (k', FReady v) ->
      cache_step s (mkCache (impl_ s) (futures s) (next_future s) (set_thread s t (TDone k (Ok v))))
  | step_broken s t k p k' :
      threads s !! t = Some (TWait k p) -> futures s !! p = Some (k', FBroken) ->
      cache_step s (mkCache (impl_ s) (futures s) (next_future s)
        (set_thread s t (TDone k (Throw broken_promise)))).

Definition cache_init (maxEntries : nat) (calls : gmap nat Key) : cache_state :=
  mkCache (lru_new maxEntries) ∅ 0 (TStart <$> calls).

Definition cache_reachable (maxEntries : nat) (calls : gmap nat Key) (s : cache_state) : Prop :=
  rtc cache_step (cache_init maxEntries calls) s.

(** * The invariant *)

(** A future that somebody may still read: it belongs to its key, holds what
    [f] returned for it, and while it is pending some thread is about to set
    it. *)
Definition future_ok (s : cache_state) (k : Key) (p : nat) : Prop :=
  (p < next_future s)%nat /\
  exists st, futures s !! p = Some (k, st) /\
    match st with
    | FPending => exists t, threads s !! t = Some (TCompute k p)
    | FReady v => f_does k (Ok v)
    | FBroken => True
    end.

Record cache_inv (s : cache_state) : Prop := {
  ci_lru : lru_inv (impl_ s);
  ci_cached : forall k p, (k, p) ∈ contents (impl_ s) -> future_ok s k p;
  ci_wait : forall t k p, threads s !! t = Some (TWait k p) -> future_ok s k p;
  ci_compute : forall t k p, threads s !! t = Some (TCompute k p) ->
    (p < next_future s)%nat /\ futures s !! p = Some (k, FPending);
  ci_owner : forall t t' k k' p, threads s !! t = Some (TCompute k p) ->
    threads s !! t' = Some (TCompute k' p) -> t = t';
  ci_fresh : forall p, (next_future s <= p)%nat -> futures s !! p = None;
  ci_done : forall t k v, threads s !! t = Some (TDone k (Ok v)) -> f_does k (Ok v);
}.

Lemma cache_inv_init maxEntries calls : cache_inv (cache_init maxEntries calls).
Proof.
  split; cbn [cache_init impl_ futures next_future threads].
  - apply lru_inv_new.
  - intros k p Hin. by apply not_elem_of_nil in Hin.
  - intros t k p Ht. rewrite lookup_fmap_Some in Ht. by destruct Ht as (? & ? & ?).
  - intros t k p Ht. rewrite lookup_fmap_Some in Ht. by destruct Ht as (? & ? & ?).
  - intros t t' k k' p Ht. rewrite lookup_fmap_Some in Ht. by destruct Ht as (? & ? & ?).
  - intros. apply lookup_empty.
  - intros t k p Ht. rewrite lookup_fmap_Some in Ht. by destruct Ht as (? & ? & ?).
Qed.

(** What one locked access does to the cache. *)
Lemma lookup_cases (c c' : @lru_cache Key _ _ nat) k v r p :
  lru_inv c -> getOrPut c k v = Ok (r, c') -> value r = Ok p ->
  lru_inv c' /\ (forall kp, kp ∈ contents c' -> kp ∈ contents c \/ kp = (k, v) /\ miss r = true) /\
  (if miss r then p = v else (k, p) ∈ contents c).
Proof.
  intros Hinv E Hv. destruct (lru_step_spec c (OGetOrPut k v) Hinv) as (c1 & Es & Hi & Hc & _).
  cbn [lru_step] in Es. rewrite E in Es. cbn [mbind outcome_bind mret outcome_ret] in Es.
  injection Es as Er Ec. subst c1. split; [done|]. cbn [spec_step] in *.
  pose proof (spec_get_elem (contents c) k) as Hg.
  destruct (spec_get (contents c) k) as [w|] eqn:Ew.
  - simpl in Er, Hc. injection Er as ->. unfold value in Hv. simpl in Hv. injection Hv as <-. simpl.
    assert (Hw : (k, w) ∈ contents c).
    { unfold spec_get in Ew. destruct (list_find _ _) as [[i [k' v']]|] eqn:El; [|done].
      simpl in Ew. injection Ew as ->. apply list_find_Some in El as (Hl & Ek & _). simpl in Ek. subst k'.
      by eapply list_elem_of_lookup_2. }
    split; [|done]. intros kp Hkp. rewrite Hc in Hkp. left. unfold spec_touch in Hkp.
    apply elem_of_cons in Hkp as [->|Hkp]; [done|]. by apply list_elem_of_filter in Hkp as [_ ?].
  - simpl in Er, Hc. injection Er as ->. unfold value in Hv. simpl in Hv. injection Hv as <-. simpl.
    split; [|done]. intros kp Hkp. rewrite Hc in Hkp. apply elem_of_take in Hkp as (i & Hl & _).
    apply list_elem_of_lookup_2, elem_of_cons in Hl as [->|?]; auto.
Qed.

(** A thread that is not computing changes state: what was fine stays so. *)
Lemma future_ok_thread s k p t x fs :
  future_ok s k p -> (forall k' p', threads s !! t <> Some (TCompute k' p')) ->
  (forall q, (q < next_future s)%nat -> fs !! q = futures s !! q) -> forall c n,
  (next_future s <= n)%nat ->
  future_ok (mkCache c fs n (set_thread s t x)) k p.
Proof.
  intros (Hp & st & Hst & Hok) Ht Hfs c n Hn. split; [simpl; lia|]. exists st. cbn [futures threads].
  rewrite Hfs by done. split; [done|]. destruct st; try done. destruct Hok as [t' Ht'].
  exists t'. unfold set_thread. rewrite lookup_insert_ne; [done|]. intros <-. by apply Ht in Ht'.
Qed.

(** A computing thread sets its own future. *)
Lemma future_ok_set s k p t k0 p0 st x :
  cache_inv s -> threads s !! t = Some (TCompute k0 p0) -> st <> FPending ->
  (forall v, st = FReady v -> f_does k0 (Ok v)) -> future_ok s k p ->
  future_ok (mkCache (impl_ s) (<[p0 := (k0, st)]> (futures s)) (next_future s) (set_thread s t x)) k p.
Proof.
  intros Hinv Ht Hst Hv (Hp & st' & Hst' & Hok). split; [done|]. cbn [futures threads].
  destruct (ci_compute s Hinv _ _ _ Ht) as [_ Hf0].
  destruct (decide (p = p0)) as [->|Hne].
  - rewrite Hf0 in Hst'. injection Hst' as -> <-. exists st. rewrite lookup_insert_eq.
    split; [done|]. destruct st; [done| |done]. by apply Hv.
  - exists st'. rewrite lookup_insert_ne by done. split; [done|]. destruct st'; try done.
    destruct Hok as [t' Ht']. exists t'. unfold set_thread. rewrite lookup_insert_ne; [done|].
    intros <-. congruence.
Qed.

Lemma set_thread_inv s t x t' y :
  set_thread s t x !! t' = Some y -> (t' = t /\ y = x) \/ (t' <> t /\ threads s !! t' = Some y).
Proof.
  unfold set_thread. destruct (decide (t' = t)) as [->|Hne].
  - rewrite lookup_insert_eq. intros [= <-]. auto.
  - rewrite lookup_insert_ne by done. auto.
Qed.

Lemma cache_inv_lookup s t k r c p :
  cache_inv s -> threads s !! t = Some (TStart k) ->
  getOrPut (impl_ s) k (next_future s) = Ok (r, c) -> value r = Ok p ->
  cache_inv (mkCache c (<[next_future s := (k, FPending)]> (futures s)) (S (next_future s))
    (set_thread s t (if miss r then TCompute k p else TWait k p))).
Proof.
  intros Hinv Ht Hget Hval. destruct (lookup_cases _ _ _ _ _ _ (ci_lru s Hinv) Hget Hval) as (Hl & Hc & Hp).
  assert (Hold : forall k' p' x, future_ok s k' p' -> future_ok (mkCache c
    (<[next_future s := (k, FPending)]> (futures s)) (S (next_future s)) (set_thread s t x)) k' p').
  { intros k' p' x Hok. apply future_ok_thread; [done|by rewrite Ht| |lia].
    intros q Hq. apply lookup_insert_ne. lia. }
  assert (Hnew : miss r = true -> future_ok (mkCache c
    (<[next_future s := (k, FPending)]> (futures s)) (S (next_future s))
    (set_thread s t (if miss r then TCompute k p else TWait k p))) k (next_future s)).
  { intros Hm. rewrite Hm in *. subst p. split; [simpl; lia|]. exists FPending.
    cbn [futures threads]. rewrite lookup_insert_eq. split; [done|]. exists t.
    unfold set_thread. by rewrite lookup_insert_eq. }
  split; cbn [impl_ futures next_future threads].
  - done.
  - intros k' p' Hin. apply Hc in Hin as [Hin|[[= -> ->] Hm]]; [|by apply Hnew].
    apply Hold. by apply (ci_cached s Hinv).
  - intros t' k' p' Ht'. apply set_thread_inv in Ht' as [[-> E]|[_ Ht']].
    + destruct (miss r); [done|]. injection E as -> ->. apply Hold. by apply (ci_cached s Hinv).
    + apply Hold. by apply (ci_wait s Hinv t').
  - intros t' k' p' Ht'. apply set_thread_inv in Ht' as [[-> E]|[_ Ht']].
    + destruct (miss r); [|done]. injection E as -> ->. subst p.
      split; [lia|]. apply lookup_insert_eq.
    + apply (ci_compute s Hinv) in Ht' as [Hlt Hf]. split; [lia|]. by rewrite lookup_insert_ne by lia.
  - intros t1 t2 k1 k2 q H1 H2.
    assert (Hlt : forall t0 k0, threads s !! t0 = Some (TCompute k0 q) -> (q < next_future s)%nat)
      by (intros t0 k0 H0; by apply (ci_compute s Hinv) in H0 as [? _]).
    apply set_thread_inv in H1 as [[-> E1]|[_ H1]], H2 as [[-> E2]|[_ H2]]; [done| | |].
    + destruct (miss r); [|done]. injection E1 as -> ->. apply Hlt in H2. lia.
    + destruct (miss r); [|done]. injection E2 as -> ->. apply Hlt in H1. lia.
    + by eapply (ci_owner s Hinv).
  - intros q Hq. rewrite lookup_insert_ne by lia. apply (ci_fresh s Hinv). lia.
  - intros t' k' v Ht'. apply set_thread_inv in Ht' as [[-> E]|[_ Ht']]; [by destruct (miss r)|].
    by apply (ci_done s Hinv t').
Qed.

(** [set_value], or the destruction of the promise. *)
Lemma cache_inv_set s t k p st x :
  cache_inv s -> threads s !! t = Some (TCompute k p) -> st <> FPending ->
  (forall v, st = FReady v -> f_does k (Ok v)) ->
  x = TWait k p \/ (exists e, x = TDone k (Throw e)) ->
  cache_inv (mkCache (impl_ s) (<[p := (k, st)]> (futures s)) (next_future s) (set_thread s t x)).
Proof.
  intros Hinv Ht Hst Hv Hx. destruct (ci_compute s Hinv _ _ _ Ht) as [Hlt Hf].
  assert (Hok : forall k' p', future_ok s k' p' -> future_ok
    (mkCache (impl_ s) (<[p := (k, st)]> (futures s)) (next_future s) (set_thread s t x)) k' p')
    by (intros; by apply future_ok_set).
  split; cbn [impl_ futures next_future threads].
  - apply Hinv.
  - intros. by apply Hok, (ci_cached s Hinv).
  - intros t' k' p' Ht'. apply set_thread_inv in Ht' as [[-> E]|[_ Ht']].
    + destruct Hx as [-> |[e ->]]; [|done]. injection E as -> ->. split; [done|]. exists st.
      cbn [futures]. rewrite lookup_insert_eq. split; [done|]. destruct st; [done| |done]. by apply Hv.
    + by apply Hok, (ci_wait s Hinv t').
  - intros t' k' p' Ht'. apply set_thread_inv in Ht' as [[-> E]|[Hne Ht']].
    + by destruct Hx as [-> |[e ->]].
    + destruct (ci_compute s Hinv _ _ _ Ht') as [? ?]. split; [done|].
      rewrite lookup_insert_ne; [done|]. intros ->. apply Hne. by eapply (ci_owner s Hinv).
  - intros t1 t2 k1 k2 q H1 H2.
    apply set_thread_inv in H1 as [[-> E1]|[_ H1]], H2 as [[-> E2]|[_ H2]]; [done| | |].
    + by destruct Hx as [-> |[e ->]].
    + by destruct Hx as [-> |[e ->]].
    + by eapply (ci_owner s Hinv).
  - intros q Hq. rewrite lookup_insert_ne by lia. by apply (ci_fresh s Hinv).
  - intros t' k' v Ht'. apply set_thread_inv in Ht' as [[-> E]|[_ Ht']].
    + by destruct Hx as [-> |[e ->]].
    + by apply (ci_done s Hinv t').
Qed.

Lemma cache_inv_finish s t k p r :
  cache_inv s -> threads s !! t = Some (TWait k p) ->
  (forall v, r = Ok v -> f_does k (Ok v)) ->
  cache_inv (mkCache (impl_ s) (futures s) (next_future s) (set_thread s t (TDone k r))).
Proof.
  intros Hinv Ht Hr.
  assert (Hok : forall k' p', future_ok s k' p' -> future_ok
    (mkCache (impl_ s) (futures s) (next_future s) (set_thread s t (TDone k r))) k' p')
    by (intros; apply future_ok_thread; [done|by rewrite Ht|done|done]).
  split; cbn [impl_ futures next_future threads].
  - apply Hinv.
  - intros. by apply Hok, (ci_cached s Hinv).
  - intros t' k' p' Ht'. apply set_thread_inv in Ht' as [[-> E]|[_ Ht']]; [done|].
    by apply Hok, (ci_wait s Hinv t').
  - intros t' k' p' Ht'. apply set_thread_inv in Ht' as [[-> E]|[_ Ht']]; [done|].
    by apply (ci_compute s Hinv t').
  - intros t1 t2 k1 k2 q H1 H2.
    apply set_thread_inv in H1 as [[-> E1]|[_ H1]], H2 as [[-> E2]|[_ H2]]; try done.
    by eapply (ci_owner s Hinv).
  - apply (ci_fresh s Hinv).
  - intros t' k' v Ht'. apply set_thread_inv in Ht' as [[-> E]|[_ Ht']].
    + injection E as -> <-. by apply Hr.
    + by apply (ci_done s Hinv t').
Qed.

Lemma cache_inv_step s s' : cache_inv s -> cache_step s s' -> cache_inv s'.
Proof.
  intros Hinv Hstep. revert Hinv.
  destruct Hstep as [s t k r c Ht Hg p Hp|s t k p v Ht Hf _|s t k p e Ht Hf|s t k p k' v Ht Hf|s t k p k' Ht Hf];
    intros Hinv.
  - by eapply cache_inv_lookup .
  - apply cache_inv_set; try done; [by intros ? [= ->]|by left].
  - apply cache_inv_set; try done. by right; exists e.
  - eapply cache_inv_finish; [done..|]. intros ? [= <-].
    destruct (ci_wait _ Hinv _ _ _ Ht) as (_ & st & Hst & Hok). rewrite Hf in Hst.
    injection Hst as -> <-. done.
  - by eapply cache_inv_finish.
Qed.

Lemma cache_inv_reachable maxEntries calls s : cache_reachable maxEntries calls s -> cache_inv s.
Proof.
  intros Hr. pose proof (cache_inv_init maxEntries calls) as Hinv. revert Hinv.
  unfold cache_reachable in Hr. induction Hr as [|s1 s2 s3 Hstep _ IH]; [done|].
  intros Hinv. apply IH. by eapply cache_inv_step.
Qed.

(** * Properties *)


Lemma getOrPut_total (c : @lru_cache Key _ _ nat) k v :
  lru_inv c -> exists r c' p, getOrPut c k v = Ok (r, c') /\ value r = Ok p.
Proof.
  intros Hinv. destruct (lru_step_spec c (OGetOrPut k v) Hinv) as (c1 & Es & _).
  cbn [lru_step spec_step] in Es. destruct (getOrPut c k v) as [[r c']|e| |]; try done.
  cbn [mbind outcome_bind mret outcome_ret] in Es. injection Es as Er _.
  destruct (spec_get (contents c) k); simpl in Er; injection Er as ->; by eexists _, _, _.
Qed.

Definition is_done (x : thread) : bool := match x with TDone _ _ => true | _ => false end.

(** C21. The cache does not deadlock: in every reachable state either all calls
    have returned or thrown, or some thread can take a step, provided [f]
    always does something (returns or throws). *)
Theorem cache_progress maxEntries calls s :
  (forall k, exists r, f_does k r /\ ((exists v, r = Ok v) \/ exists e, r = Throw e)) ->
  cache_reachable maxEntries calls s ->
  (forall t x, threads s !! t = Some x -> exists k r, x = TDone k r) \/ exists s', cache_step s s'.
Proof.
  intros Hf Hr. pose proof (cache_inv_reachable _ _ _ Hr) as Hinv.
  assert (Hc : forall t k p, threads s !! t = Some (TCompute k p) -> exists s', cache_step s s').
  { intros t k p Ht. destruct (Hf k) as (r & Hfr & [[v ->]|[e ->]]).
    - eexists. eapply step_computed; try done. by apply (ci_compute s Hinv) in Ht as [_ ?].
    - eexists. by eapply step_thrown. }
  destruct (decide (map_Forall (fun _ x => is_done x = true) (threads s)))
    as [Hall|Hsome].
  - left. intros t x Ht. specialize (Hall t x Ht). destruct x; try done. eauto.
  - right. apply map_not_Forall in Hsome as (t & x & Ht & Hx); [|intros; apply _].
    destruct x as [k|k p|k p|k r]; [|by eapply Hc| |done].
    + destruct (getOrPut_total (impl_ s) k (next_future s) (ci_lru s Hinv)) as (r & c & p & Hg & Hp).
      eexists. by eapply step_lookup.
    + destruct (ci_wait s Hinv _ _ _ Ht) as (_ & st & Hst & Hok). destruct st as [|v|].
      * destruct Hok as [t' Ht']. by eapply Hc.
      * eexists. by eapply step_ready.
      * eexists. by eapply step_broken.
Qed.


End cache.

(** * A run: the first load of key 7 fails, the second asks again *)

Definition flaky (k : nat) (r : outcome Z) : Prop := r = Throw (runtime_error "transient") \/ r = Ok 42.

Definition poisoned : @cache_state nat _ _ Z :=
  mkCache (@mkLru nat _ _ nat [(0%nat, (7%nat, 0%nat))] {[7%nat := 0%nat]} 4 1)
    {[0%nat := (7%nat, FBroken)]} 1
    {[0%nat := TDone 7%nat (Throw (runtime_error "transient")); 1%nat := TStart 7%nat]}.

Lemma poisoned_reachable :
  cache_reachable flaky 4 {[0%nat := 7%nat; 1%nat := 7%nat]} poisoned.
Proof.
  eapply rtc_l; [eapply (step_lookup _ _ 0%nat 7%nat); [by vm_compute|by vm_compute|by vm_compute]|].
  eapply rtc_l; [eapply (step_thrown _ _ 0%nat 7%nat 0%nat); [by vm_compute|by left]|].
  by vm_compute.
Qed.


Lemma cache_progress_witness :
  (forall t x, threads poisoned !! t = Some x -> exists k r, x = TDone k r) \/
  exists s', cache_step flaky poisoned s'.
Proof.
  apply (cache_progress flaky 4 {[0%nat := 7%nat; 1%nat := 7%nat]}).
  - intros k. exists (Ok 42). split; [by right|left; eauto].
  - apply poisoned_reachable.
Defined.

Definition loaded : @cache_state nat _ _ Z :=
  mkCache (@mkLru nat _ _ nat [(0%nat, (7%nat, 0%nat))] {[7%nat := 0%nat]} 4 1)
    {[0%nat := (7%nat, FReady 42)]} 1 {[0%nat := TDone 7%nat (Ok 42)]}.

Lemma loaded_reachable : cache_reachable flaky 4 {[0%nat := 7%nat]} loaded.
Proof.
  eapply rtc_l; [eapply (step_lookup _ _ 0%nat 7%nat); [by vm_compute|by vm_compute|by vm_compute]|].
  eapply rtc_l; [eapply (step_computed _ _ 0%nat 7%nat 0%nat 42); [by vm_compute|by right|by vm_compute]|].
  eapply rtc_l; [eapply (step_ready _ _ 0%nat 7%nat 0%nat 7%nat 42); by vm_compute|].
  by vm_compute.
Qed.

