(* ===== verification/NarrowDown.v ===== *)
(** The in-memory index of a sorted list ([narrowdown.h]).

    The pseudo-keys are packed, as C strings, in one array; an entry keeps the
    offset of its pseudo-key there. [grid] is the abstract index: the list of
    pseudo-keys and positions it stands for. *)

From stdpp Require Import strings.
From S2P Require Import Prelude.

Record Entry : Type := mkEntry { pseudoKeyOffset : Z; lindex : Z }.

Record NarrowDown : Type := mkNarrow { keyContentArea : bytes; entries : list Entry }.

Record NRange : Type := mkNRange { begin : Z; end_ : Z }.

Definition NarrowDown_new : NarrowDown := mkNarrow [] [].

(** The bytes from the offset to the next zero. *)
Fixpoint c_string (l : bytes) : outcome bytes :=
  match l with
  | [] => Undef
  | c :: l => if c =? 0 then mret [] else s ← c_string l; mret (c :: s)
  end.

Definition getKeyContent (n : NarrowDown) (e : Entry) : outcome bytes :=
  c_string (drop (Z.to_nat (pseudoKeyOffset e)) (keyContentArea n)).

(** [pred(entry, key)] and [pred(key, entry)]. *)
Definition pred_entry_key (n : NarrowDown) (e : Entry) (key : bytes) : outcome bool :=
  s ← getKeyContent n e; mret (str_leb s key).
Definition pred_key_entry (n : NarrowDown) (key : bytes) (e : Entry) : outcome bool :=
  s ← getKeyContent n e; mret (str_ltb key s).

Definition addEntry (n : NarrowDown) (s : bytes) (i : Z) : NarrowDown :=
  mkNarrow (keyContentArea n ++ s ++ [0])
    (entries n ++ [mkEntry (u32 (Zlen (keyContentArea n))) i]).

(** [std::mismatch]: the length of the common prefix. *)
Fixpoint mismatch (a b : bytes) : nat :=
  match a, b with
  | x :: a, y :: b => if x =? y then S (mismatch a b) else O
  | _, _ => O
  end.

Definition shortestStringInBetween (a b : bytes) : outcome bytes :=
  ASSERT (str_leb a b) ;;
  mret (take (Nat.min (length b) (mismatch a b + 1)) b).

Definition add (n : NarrowDown) (key : bytes) (i : Z) (nextKey : bytes) : outcome NarrowDown :=
  throw_when (str_ltb nextKey key) (ZimFileFormatError "Dirent table is not properly sorted") ;;
  match last (entries n) with
  | None => mret (addEntry n key i)
  | Some back =>
      pseudoKey ← shortestStringInBetween key nextKey;
      b ← pred_key_entry n pseudoKey back;
      throw_when b (ZimFileFormatError "Dirent table is not properly sorted") ;;
      ASSERT (lindex back <? i) ;;
      mret (addEntry n pseudoKey i)
  end.

Definition close (n : NarrowDown) (key : bytes) (i : Z) : outcome NarrowDown :=
  b ← (match last (entries n) with None => mret true | Some back => pred_entry_key n back key end);
  ASSERT b ;;
  ASSERT (match last (entries n) with None => true | Some back => lindex back <? i end) ;;
  mret (addEntry n key i).

Definition entry_at (n : NarrowDown) (i : Z) : outcome Entry :=
  match entries n !! Z.to_nat i with Some e => mret e | None => Undef end.

Definition getRange (n : NarrowDown) (key : bytes) : outcome NRange :=
  it ← upper_bound (length (entries n))
         (fun i => e ← entry_at n i; pred_key_entry n key e) 0 (Zlen (entries n));
  if it =? 0 then mret (mkNRange 0 0)
  else
    prev ← entry_at n (it - 1);
    if it =? Zlen (entries n) then mret (mkNRange (lindex prev) (u32 (lindex prev + 1)))
    else e ← entry_at n it; mret (mkNRange (lindex prev) (u32 (lindex e + 1))).

(** * The abstract index *)

Abbreviation grid := (list (bytes * Z)).

Fixpoint packed (g : grid) : bytes :=
  match g with
  | [] => []
  | (s, _) :: g => s ++ [0] ++ packed g
  end.

Fixpoint grid_entries (off : Z) (g : grid) : list Entry :=
  match g with
  | [] => []
  | (s, i) :: g => mkEntry off i :: grid_entries (off + Zlen s + 1) g
  end.

Definition no_zero (s : bytes) : Prop := Forall (fun c => c <> 0) s.

(** [n] represents [g]. *)
Record represents (n : NarrowDown) (g : grid) : Prop := {
  rep_area : keyContentArea n = packed g;
  rep_entries : entries n = grid_entries 0 g;
  rep_keys : Forall (fun p => no_zero p.1) g;
  rep_fits : Zlen (packed g) < 2 ^ 32;
}.

(** * Lemmas *)

Lemma c_string_app s k : no_zero s -> c_string (s ++ 0 :: k) = Ok s.
Proof.
  induction 1 as [|c s Hc Hs IH]; cbn [app c_string]; [done|].
  rewrite (proj2 (Z.eqb_neq c 0)) by done. by rewrite IH.
Qed.

Lemma packed_app g h : packed (g ++ h) = packed g ++ packed h.
Proof. induction g as [|[s i] g IH]; cbn [packed app]; [done|]. by rewrite IH, <- !app_assoc. Qed.

Lemma grid_entries_app off g h :
  grid_entries off (g ++ h) = grid_entries off g ++ grid_entries (off + Zlen (packed g)) h.
Proof.
  revert off. induction g as [|[s i] g IH]; intros off; cbn [grid_entries packed app].
  - change (Zlen []) with 0. by rewrite Z.add_0_r.
  - rewrite IH. rewrite Zlen_app, Zlen_cons. do 2 f_equal. f_equal. lia.
Qed.

Lemma grid_entries_length off g : length (grid_entries off g) = length g.
Proof. revert off. induction g as [|[s i] g IH]; intros off; simpl; auto. Qed.

Lemma grid_entries_lookup off g i s l :
  g !! i = Some (s, l) ->
  grid_entries off g !! i = Some (mkEntry (off + Zlen (packed (take i g))) l) /\
  exists k, packed g = packed (take i g) ++ s ++ 0 :: k.
Proof.
  intros Hi. pose proof (lookup_lt_Some _ _ _ Hi) as Hlt.
  assert (Hlen : length (take i g) = i) by (rewrite length_take; lia).
  pose proof (take_drop_middle _ _ _ Hi) as Eg.
  revert Hlen Eg. generalize (take i g) as g1, (drop (S i) g) as g2. intros g1 g2 Hlen <-.
  rewrite grid_entries_app, packed_app. split.
  - rewrite lookup_app_r by (rewrite grid_entries_length; lia).
    rewrite grid_entries_length, Hlen, Nat.sub_diag. reflexivity.
  - exists (packed g2). reflexivity.
Qed.

Section represents.
Context (n : NarrowDown) (g : grid).
Hypothesis Hrep : represents n g.

Lemma entry_at_rep i s l :
  0 <= i -> g !! Z.to_nat i = Some (s, l) ->
  exists e, entry_at n i = Ok e /\ lindex e = l /\ getKeyContent n e = Ok s.
Proof.
  intros Hi Hg. destruct (grid_entries_lookup 0 g _ _ _ Hg) as [He (k & Ek)].
  unfold entry_at. rewrite (rep_entries _ _ Hrep), He. eexists. split; [done|]. split; [done|].
  unfold getKeyContent. cbn [pseudoKeyOffset]. rewrite (rep_area _ _ Hrep), Ek, Z.add_0_l.
  unfold Zlen. rewrite Nat2Z.id, drop_app_length.
  apply c_string_app. pose proof (rep_keys _ _ Hrep) as Hk. rewrite Forall_lookup in Hk.
  apply (Hk _ _ Hg).
Qed.

Lemma last_rep : last (entries n) = None /\ g = [] \/
  exists e s l, last (entries n) = Some e /\ last g = Some (s, l) /\ lindex e = l /\
    getKeyContent n e = Ok s.
Proof.
  destruct (last g) as [[s l]|] eqn:El.
  - right. rewrite last_lookup in El.
    destruct (entry_at_rep (Z.of_nat (pred (length g))) s l) as (e & He & Hl & Hk);
      [lia|by rewrite Nat2Z.id|].
    exists e, s, l. split; [|done]. unfold entry_at in He. rewrite Nat2Z.id in He.
    rewrite last_lookup, (rep_entries _ _ Hrep), grid_entries_length.
    rewrite (rep_entries _ _ Hrep) in He.
    destruct (grid_entries 0 g !! pred (length g)); [by injection He as ->|done].
  - left. apply last_None in El. split; [|done].
    rewrite (rep_entries _ _ Hrep), El. done.
Qed.

Lemma addEntry_rep s i :
  no_zero s -> Zlen (packed g) + Zlen s + 1 < 2 ^ 32 -> represents (addEntry n s i) (g ++ [(s, i)]).
Proof.
  intros Hs Hlt. destruct Hrep as [Ha He Hk Hf]. unfold addEntry. split; cbn [keyContentArea entries].
  - rewrite packed_app, Ha. cbn [packed]. by rewrite app_nil_r.
  - rewrite grid_entries_app, He, Ha. cbn [grid_entries]. pose proof (Zlen_nonneg (packed g)).
    by rewrite u32_small by lia.
  - apply Forall_app. split; [done|]. by repeat constructor.
  - rewrite packed_app, Zlen_app. cbn [packed]. rewrite !Zlen_app. change (Zlen [0]) with 1.
    change (Zlen []) with 0. lia.
Qed.

(** The range for a key, when the pseudo-keys are sorted. *)
Lemma getRange_rep key :
  (forall i j s l s' l', (i <= j)%nat -> g !! i = Some (s, l) -> g !! j = Some (s', l') -> str_le s s') ->
  Forall (fun p => 0 <= p.2 < 2 ^ 32 - 1) g ->
  exists it, 0 <= it <= Zlen g /\
    (forall i s l, 0 <= i < it -> g !! Z.to_nat i = Some (s, l) -> str_le s key) /\
    (forall i s l, it <= i -> g !! Z.to_nat i = Some (s, l) -> str_lt key s) /\
    getRange n key =
      (if it =? 0 then Ok (mkNRange 0 0)
       else match g !! Z.to_nat (it - 1) with
       | Some (_, l) =>
           match g !! Z.to_nat it with
           | Some (_, l') => Ok (mkNRange l (l' + 1))
           | None => Ok (mkNRange l (l + 1))
           end
       | None => Undef
       end).
Proof.
  intros Hsorted Hidx.
  set (p := fun i => match g !! Z.to_nat i with Some (s, _) => str_ltb key s | None => true end).
  destruct (upper_bound_spec (length (entries n)) (fun i => e ← entry_at n i; pred_key_entry n key e) p
    0 (Zlen (entries n))) as (it & Eit & Hit & Hlo & Hhi).
  { apply Zlen_nonneg. }
  { unfold Zlen. lia. }
  { intros i Hi. rewrite (rep_entries _ _ Hrep) in Hi. unfold Zlen in Hi. rewrite grid_entries_length in Hi.
    destruct (lookup_lt_is_Some_2 g (Z.to_nat i)) as [[s l] Hg]; [lia|].
    destruct (entry_at_rep i s l) as (e & -> & _ & Hk); [lia|done|]. cbn [mbind outcome_bind].
    unfold pred_key_entry. rewrite Hk. unfold p. by rewrite Hg. }
  { intros i j Hij _. unfold p. destruct (g !! Z.to_nat j) as [[s' l']|] eqn:Ej; [|done].
    destruct (g !! Z.to_nat i) as [[s l]|] eqn:Ei.
    - rewrite !str_ltb_lt. intros Hlt. eapply str_lt_le_trans; [exact Hlt|].
      eapply (Hsorted (Z.to_nat i) (Z.to_nat j)); [lia|done..].
    - apply lookup_lt_Some in Ej. apply lookup_ge_None in Ei. lia. }
  assert (Elen : Zlen (entries n) = Zlen g)
    by (rewrite (rep_entries _ _ Hrep); unfold Zlen; by rewrite grid_entries_length).
  rewrite Elen in *. exists it. split; [lia|]. split; [|split].
  - intros i s l Hi Hg. specialize (Hlo i Hi). unfold p in Hlo. rewrite Hg in Hlo.
    apply str_not_lt. intros Hlt. apply str_ltb_lt in Hlt. congruence.
  - intros i s l Hi Hg. apply str_ltb_lt.
    assert (i < Zlen g) by (apply lookup_lt_Some in Hg; unfold Zlen; lia).
    specialize (Hhi i ltac:(lia)). unfold p in Hhi. by rewrite Hg in Hhi.
  - unfold getRange. rewrite Elen, Eit. cbn [mbind outcome_bind].
    destruct (Z.eqb_spec it 0) as [?|Hne]; [done|].
    rewrite Forall_lookup in Hidx.
    destruct (lookup_lt_is_Some_2 g (Z.to_nat (it - 1))) as [[s l] Hg]; [unfold Zlen in *; lia|].
    pose proof (Hidx _ _ Hg) as Hl. simpl in Hl.
    destruct (entry_at_rep (it - 1) s l) as (e & -> & El & _); [lia|done|].
    cbn [mbind outcome_bind]. rewrite Hg, El.
    destruct (Z.eqb_spec it (Zlen g)) as [->|Hlt].
    + rewrite (lookup_ge_None_2 g) by (unfold Zlen; lia). by rewrite u32_small by lia.
    + destruct (lookup_lt_is_Some_2 g (Z.to_nat it)) as [[s' l'] Hg']; [unfold Zlen in *; lia|].
      pose proof (Hidx _ _ Hg') as Hl'. simpl in Hl'.
      destruct (entry_at_rep it s' l') as (e' & -> & El' & _); [lia|done|].
      cbn [mbind outcome_bind]. rewrite Hg', El'. by rewrite u32_small by lia.
Qed.

End represents.

Lemma mismatch_le a b : str_le a b -> str_le a (take (Nat.min (length b) (mismatch a b + 1)) b) /\
  str_le (take (Nat.min (length b) (mismatch a b + 1)) b) b.
Proof.
  unfold str_le. revert b. induction a as [|x a IH]; intros [|y b].
  1, 3: by simpl.
  { intros _. cbn [length mismatch Nat.add Nat.min take str_cmp]. rewrite Nat.min_0_r.
    split; [done|]. cbn [take]. rewrite Z.compare_refl. by destruct b. }
  cbn [length mismatch str_cmp]. rewrite Z.eqb_compare.
  destruct (Z.compare_spec x y) as [->|Hlt|Hgt]; [| |done].
  - intros Hle. cbn [Nat.add Nat.min take str_cmp]. rewrite Z.compare_refl. by apply IH.
  - intros _. cbn [Nat.add Nat.min take str_cmp]. rewrite Z.compare_refl, Nat.min_0_r.
    rewrite (proj2 (Z.compare_lt_iff x y)) by done. split; [done|]. cbn [take]. by destruct b.
Qed.

Lemma shortest_ok a b :
  str_le a b -> exists s, shortestStringInBetween a b = Ok s /\ str_le a s /\ str_le s b /\
    exists k, s = take k b.
Proof.
  intros Hle. unfold shortestStringInBetween. rewrite (proj2 (str_leb_le a b)) by done.
  eexists. split; [done|]. destruct (mismatch_le a b Hle). eauto.
Qed.
