(* ===== verification/Lookup.v ===== *)
(** Looking an entry up by namespace and path ([dirent_lookup.h]).

    The implementation behind the lookup ([Impl] in the source) is a number of
    entries and a function that reads one; [dirent_table] says it serves a sorted
    list of entries. *)

From Stdlib Require Import Ascii.
From stdpp Require Import gmap strings.
From S2P Require Import Prelude.
From S2P Require Import Dirent.
From S2P Require Import NarrowDown.

Section Lookup.
Context (getDirentCount : Z) (getDirent : Z -> outcome Dirent.t).

Definition direntKey (d : Dirent.t) : bytes := Dirent.getNamespace d :: Dirent.getUrl d.

Definition getDirentKey (i : Z) : outcome bytes := d ← getDirent i; mret (direntKey d).

Record DirentLookup : Type := mkLookup {
  namespaceBoundaryCache : gmap Z Z;
  direntCount : Z;
  lookupGrid : NarrowDown;
}.

(** [for (i = 0; i < direntCount-1; i += step)]. *)
Fixpoint lookup_grid_loop (fuel : nat) (step i : Z) (grid : NarrowDown) : outcome NarrowDown :=
  if i <? u32 (getDirentCount - 1) then
    match fuel with
    | O => Diverge
    | S fuel =>
        key ← getDirentKey i;
        nextKey ← getDirentKey (i + 1);
        grid ← add grid key i nextKey;
        lookup_grid_loop fuel step (u32 (i + step)) grid
    end
  else mret grid.

Definition DirentLookup_new (cacheEntryCount : Z) : outcome DirentLookup :=
  if getDirentCount =? 0 then mret (mkLookup ∅ getDirentCount NarrowDown_new)
  else if cacheEntryCount =? 0 then Undef
  else
    let step := Z.max 1 (getDirentCount / cacheEntryCount) in
    grid ← lookup_grid_loop (Z.to_nat getDirentCount) step 0 NarrowDown_new;
    key ← getDirentKey (getDirentCount - 1);
    grid ← close grid key (getDirentCount - 1);
    mret (mkLookup ∅ getDirentCount grid).

Fixpoint namespace_begin_loop (fuel : nat) (ch lower upper : Z) : outcome (Z * Z) :=
  if 1 <? u32 (upper - lower) then
    match fuel with
    | O => Diverge
    | S fuel =>
        let m := u32 (lower + u32 (upper - lower) / 2) in
        d ← getDirent m;
        if schar ch <=? schar (Dirent.getNamespace d) then namespace_begin_loop fuel ch lower m
        else namespace_begin_loop fuel ch m upper
    end
  else mret (lower, upper).

Definition getNamespaceBeginOffset (ch : Z) : outcome Z :=
  ASSERT (32 <=? schar ch) ;;
  ASSERT (schar ch <=? 127) ;;
  d ← getDirent 0;
  '(lower, upper) ← namespace_begin_loop (S (Z.to_nat getDirentCount)) ch 0 getDirentCount;
  mret (if schar (Dirent.getNamespace d) <? schar ch then upper else lower).

Definition getNamespaceEndOffset (ch : Z) : outcome Z :=
  ASSERT (32 <=? schar ch) ;;
  ASSERT (schar ch <? 127) ;;
  getNamespaceBeginOffset (u8 (ch + 1)).

Definition cache_boundary (t : DirentLookup) (ch ret : Z) : DirentLookup :=
  mkLookup (<[ch := ret]> (namespaceBoundaryCache t)) (direntCount t) (lookupGrid t).

Definition getNamespaceRangeBegin (t : DirentLookup) (ch : Z) : outcome (Z * DirentLookup) :=
  ASSERT (32 <=? schar ch) ;;
  ASSERT (schar ch <=? 127) ;;
  match namespaceBoundaryCache t !! ch with
  | Some second => mret (second, t)
  | None =>
      ret ← getNamespaceBeginOffset ch;
      mret (ret, cache_boundary t ch ret)
  end.

Definition getNamespaceRangeEnd (t : DirentLookup) (ns : Z) : outcome (Z * DirentLookup) :=
  getNamespaceRangeBegin t (u8 (ns + 1)).

(** Three-way comparison of the searched entry with an entry of the table. *)
Definition find_compare (ns : Z) (url : bytes) (d : Dirent.t) : comparison :=
  if schar ns <? schar (Dirent.getNamespace d) then Lt
  else if schar (Dirent.getNamespace d) <? schar ns then Gt
  else str_cmp url (Dirent.getUrl d).

Fixpoint find_loop (fuel : nat) (ns : Z) (url : bytes) (l u : Z) : outcome (bool * Z) :=
  match fuel with
  | O => Diverge
  | S fuel =>
      let p := u32 (l + u32 (u - l) / 2) in
      d ← getDirent p;
      match find_compare ns url d with
      | Lt => find_loop fuel ns url l p
      | Gt => if l =? p then mret (false, u) else find_loop fuel ns url p u
      | Eq => mret (true, p)
      end
  end.

Definition find (t : DirentLookup) (ns : Z) (url : bytes) : outcome (bool * Z) :=
  r ← getRange (lookupGrid t) (ns :: url);
  let l := begin r in
  let u := end_ r in
  if l =? u then mret (false, l) else find_loop (S (Z.to_nat (u - l))) ns url l u.

(** * The table behind the lookup *)

Section table.
Context (ds : list Dirent.t).

Definition key (i : Z) : bytes := from_option direntKey [] (ds !! Z.to_nat i).

Record dirent_table : Prop := {
  table_count : getDirentCount = Zlen ds;
  table_bound : getDirentCount <= 2 ^ 31;
  table_get : forall i d, 0 <= i -> ds !! Z.to_nat i = Some d -> getDirent i = Ok d;
  table_ascii : Forall (fun d => 0 < Dirent.ns d < 128 /\ no_zero (Dirent.url d)) ds;
  table_sorted : forall i j, 0 <= i -> i <= j -> j < getDirentCount -> str_le (key i) (key j);
}.

Hypothesis Htable : dirent_table.
Abbreviation n := getDirentCount.

Lemma table_lookup i : 0 <= i < n -> exists d, getDirent i = Ok d /\ key i = direntKey d /\
  0 < Dirent.ns d < 128 /\ no_zero (Dirent.url d).
Proof.
  intros Hi. rewrite (table_count Htable) in Hi.
  destruct (lookup_lt_is_Some_2 ds (Z.to_nat i)) as [d Hd]; [unfold Zlen in Hi; lia|].
  exists d. rewrite (table_get Htable i d) by (done || lia). unfold key. rewrite Hd.
  pose proof (table_ascii Htable) as Ha. rewrite Forall_lookup in Ha. destruct (Ha _ _ Hd). done.
Qed.

Lemma getDirentKey_table i : 0 <= i < n -> getDirentKey i = Ok (key i) /\ no_zero (key i).
Proof.
  intros Hi. destruct (table_lookup i Hi) as (d & Hd & -> & Hns & Hurl).
  unfold getDirentKey. rewrite Hd. split; [done|]. constructor; [unfold Dirent.getNamespace; lia|done].
Qed.

(** ** The grid *)

(** Every pseudo-key is between the key it is recorded for and the next one. *)
Record grid_spec (g : grid) : Prop := {
  grid_between : forall k s l, g !! k = Some (s, l) ->
    0 <= l < n /\ str_le (key l) s /\ (l + 1 < n -> str_le s (key (l + 1)));
  grid_sorted : forall i j s l s' l', (i <= j)%nat ->
    g !! i = Some (s, l) -> g !! j = Some (s', l') -> str_le s s';
  grid_first : forall s l, g !! 0%nat = Some (s, l) -> s = key 0;
}.

Lemma grid_spec_nil : grid_spec [].
Proof. by split. Qed.

Lemma grid_spec_snoc g s l :
  grid_spec g -> 0 <= l < n -> str_le (key l) s -> (l + 1 < n -> str_le s (key (l + 1))) ->
  (forall s' l', last g = Some (s', l') -> l' < l) -> (g = [] -> s = key 0) ->
  grid_spec (g ++ [(s, l)]).
Proof.
  intros [Hb Hs Hf] Hl Hlo Hhi Hlast Hfirst. split.
  - intros k s' l'. rewrite lookup_app_Some. intros [Hk|[_ Hk]]; [by apply (Hb k)|].
    apply list_lookup_singleton_Some in Hk as [_ [= <- <-]]. done.
  - intros i j s1 l1 s2 l2 Hij. rewrite !lookup_app_Some, !list_lookup_singleton_Some.
    intros [Hi|[Hi [Ei Ei']]] [Hj|[Hj [Ej Ej']]]; simplify_eq.
    + by apply (Hs i j s1 l1 s2 l2).
    + destruct (last g) as [[s' l']|] eqn:El; [|apply last_None in El; by subst].
      specialize (Hlast _ _ eq_refl). pose proof El as El'. rewrite last_lookup in El.
      apply lookup_lt_Some in Hi as Hilt.
      transitivity s'. { eapply (Hs i (pred (length g))); [lia|done..]. }
      destruct (Hb _ _ _ El) as (Hl' & _ & Hnext).
      transitivity (key (l' + 1)); [apply Hnext; lia|].
      transitivity (key l2); [|done]. apply (table_sorted Htable); lia.
    + apply lookup_lt_Some in Hj. lia.
    + reflexivity.
  - destruct g as [|[s0 l0] g]; simpl.
    + intros s' l' [= <- <-]. auto.
    + intros s' l' [= <- <-]. by eapply Hf.
Qed.

(** The narrowed range brackets the place of the searched key. *)
Lemma getRange_grid nd g q :
  represents nd g -> grid_spec g -> g <> [] -> (forall s l, last g = Some (s, l) -> l = n - 1) ->
  (getRange nd q = Ok (mkNRange 0 0) /\ str_lt q (key 0)) \/
  exists l u, getRange nd q = Ok (mkNRange l u) /\ 0 <= l < u /\ u <= n /\
    str_le (key l) q /\ (u < n -> str_lt q (key u)).
Proof.
  intros Hrep [Hb Hs Hf] Hg Hlast. pose proof (table_bound Htable) as Hn.
  destruct (getRange_rep nd g Hrep q Hs) as (it & Hit & Hlo & Hhi & E).
  { apply Forall_lookup. intros k [s l] Hk. destruct (Hb _ _ _ Hk). simpl. lia. }
  rewrite E. clear E. destruct (Z.eqb_spec it 0) as [->|Hne].
  { left. split; [done|]. destruct g as [|[s l] g]; [done|].
    rewrite <- (Hf s l eq_refl). by apply (Hhi 0 s l). }
  right. destruct (lookup_lt_is_Some_2 g (Z.to_nat (it - 1))) as [[s l] Hl]; [unfold Zlen in *; lia|].
  rewrite Hl. destruct (Hb _ _ _ Hl) as (Hln & Hkl & _).
  assert (Hle : str_le (key l) q) by (transitivity s; [done|apply (Hlo (it - 1) s l); [lia|done]]).
  destruct (g !! Z.to_nat it) as [[s' l']|] eqn:Hl'.
  - destruct (Hb _ _ _ Hl') as (Hln' & _ & Hnext). pose proof (Hhi it _ _ ltac:(lia) Hl') as Hq.
    exists l, (l' + 1). split; [done|].
    assert (l <= l').
    { destruct (Z.le_gt_cases l l') as [|Hgt]; [done|exfalso].
      apply (str_lt_irrefl q). eapply str_lt_le_trans; [exact Hq|].
      transitivity (key (l' + 1)); [apply Hnext; lia|].
      transitivity (key l); [|done]. apply (table_sorted Htable); lia. }
    split_and!; [lia|lia|lia|done|].
    intros Hlt. eapply str_lt_le_trans; [exact Hq|]. auto.
  - assert (l = n - 1) as ->.
    { apply (Hlast s l). rewrite last_lookup. apply lookup_ge_None in Hl'.
      replace (pred (length g)) with (Z.to_nat (it - 1)) by (unfold Zlen in *; lia). done. }
    exists (n - 1), (n - 1 + 1). split_and!; [done|lia|lia|lia|done|lia].
Qed.

(** ** Building the grid *)

Section build.
Context (K step : Z).
Hypothesis Hkey : forall i, 0 <= i < n -> Zlen (key i) <= K.
Hypothesis Hstep : 1 <= step <= n.
Hypothesis Hfit : ((n - 1) / step + 2) * (K + 1) < 2 ^ 32.

(** The state of the loop before index [i]. *)
Record building (nd : NarrowDown) (g : grid) (i : Z) : Prop := {
  b_rep : represents nd g;
  b_spec : grid_spec g;
  b_pos : i = step * Zlen g;
  b_last : forall s l, last g = Some (s, l) -> l < i /\ l < n - 1;
  b_short : Forall (fun p => Zlen p.1 <= K) g;
}.

Lemma packed_short g : Forall (fun p => Zlen p.1 <= K) g -> Zlen (packed g) <= Zlen g * (K + 1).
Proof.
  induction 1 as [|[s l] g Hs Hg IH]; cbn [packed]; [done|].
  rewrite !Zlen_app, !Zlen_cons, Zlen_nil. simpl in Hs. lia.
Qed.

Lemma packed_fits nd g i (s : bytes) :
  building nd g i -> i <= n - 1 + step -> Zlen s <= K -> (i <= n - 1 \/ Zlen g <= (n - 1) / step + 1) ->
  Zlen (packed g) + Zlen s + 1 < 2 ^ 32.
Proof.
  intros [_ _ Hi _ Hshort] Hle Hs Hc. pose proof (packed_short g Hshort) as Hp.
  assert (Hg : Zlen g <= (n - 1) / step + 1).
  { destruct Hc as [Hc|Hc]; [|done].
    assert (Zlen g <= (n - 1) / step) by (apply Z.div_le_lower_bound; lia). lia. }
  pose proof (Zlen_nonneg g). pose proof (Zlen_nonneg s).
  assert (Zlen g * (K + 1) <= ((n - 1) / step + 1) * (K + 1)) by (apply Z.mul_le_mono_nonneg_r; lia).
  lia.
Qed.

Lemma add_building nd g i :
  building nd g i -> i < n - 1 ->
  exists nd' s, add nd (key i) i (key (i + 1)) = Ok nd' /\ building nd' (g ++ [(s, i)]) (i + step).
Proof.
  intros Hb Hi. pose proof Hb as [Hrep Hspec Hpos Hlast Hshort].
  assert (0 <= i) by (rewrite Hpos; pose proof (Zlen_nonneg g); nia).
  assert (Hkk : str_le (key i) (key (i + 1))) by (apply (table_sorted Htable); lia).
  destruct (getDirentKey_table i) as [_ Hz]; [lia|]. destruct (getDirentKey_table (i + 1)) as [_ Hz']; [lia|].
  assert (Hnext : forall s, str_le (key i) s -> str_le s (key (i + 1)) -> no_zero s -> Zlen s <= K ->
    (g = [] -> s = key 0) -> building (addEntry nd s i) (g ++ [(s, i)]) (i + step)).
  { intros s Hlo Hhi Hsz Hsl H0. split.
    - apply addEntry_rep; [done|done|]. eapply packed_fits; eauto; lia.
    - apply grid_spec_snoc; auto; [lia|apply Hlast].
    - rewrite Zlen_app. change (Zlen [(s, i)]) with 1. lia.
    - rewrite last_snoc. intros s' l' [= <- <-]. lia.
    - apply Forall_app. split; [done|]. by constructor. }
  unfold add. destruct (str_ltb (key (i + 1)) (key i)) eqn:E.
  { apply str_ltb_lt, str_not_le in E. done. }
  cbn [throw_when mbind outcome_bind].
  destruct (last_rep nd g Hrep) as [[-> Hg]|(e & s0 & l0 & -> & Hg & Hl & Hk)].
  - exists (addEntry nd (key i) i), (key i). split; [done|]. apply Hnext; auto with zim.
    + apply Hkey. lia.
    + subst g. rewrite Hpos. by change (Zlen []) with 0; rewrite Z.mul_0_r.
  - destruct (shortest_ok _ _ Hkk) as (s & -> & Hlo & Hhi & k & Es). cbn [mbind outcome_bind].
    unfold pred_key_entry. rewrite Hk. cbn [mbind outcome_bind mret outcome_ret].
    destruct (str_ltb s s0) eqn:E0.
    { exfalso. apply str_ltb_lt, str_not_le in E0. apply E0. pose proof Hg as Hg'. rewrite last_lookup in Hg'.
      destruct (grid_between _ Hspec _ _ _ Hg') as (? & _ & Hle). destruct (Hlast _ _ Hg) as [? _].
      transitivity (key (l0 + 1)); [apply Hle; lia|]. transitivity (key i); [|done].
      apply (table_sorted Htable); lia. }
    cbn [throw_when mbind outcome_bind]. rewrite Hl.
    rewrite (proj2 (Z.ltb_lt l0 i)) by (by apply (Hlast s0)). cbn [ASSERT mbind outcome_bind].
    exists (addEntry nd s i), s. split; [done|]. apply Hnext; auto.
    + subst s. by apply Forall_take.
    + assert (Zlen s <= Zlen (key (i + 1))) by (subst s; unfold Zlen; rewrite length_take; lia).
      specialize (Hkey (i + 1)). lia.
    + intros ->. done.
Qed.

Lemma grid_loop_building fuel nd g i :
  building nd g i -> i <= n - 1 + step - 1 -> n <= i + Z.of_nat fuel -> 1 <= n ->
  exists nd' g' i', lookup_grid_loop fuel step i nd = Ok nd' /\ building nd' g' i' /\
    n - 1 <= i' <= n - 1 + step - 1 /\ (g <> [] \/ 1 < n -> g' <> []).
Proof.
  pose proof (table_bound Htable) as Hn.
  revert nd g i. induction fuel as [|fuel IH]; intros nd g i Hb Hi Hfuel H1; cbn [lookup_grid_loop];
    rewrite u32_small by lia.
  all: destruct (Z.ltb_spec i (n - 1)) as [Hlt|Hge];
    [|exists nd, g, i; split_and!; [done|done|lia|lia|]].
  all: try (intros [?|?]; [done|]; intros ->; pose proof (b_pos _ _ _ Hb) as Hp;
    change (Zlen []) with 0 in Hp; lia).
  { lia. }
  assert (0 <= i) by (rewrite (b_pos _ _ _ Hb); pose proof (Zlen_nonneg g); nia).
  destruct (getDirentKey_table i) as [-> _]; [lia|]. destruct (getDirentKey_table (i + 1)) as [-> _]; [lia|].
  cbn [mbind outcome_bind]. destruct (add_building nd g i Hb Hlt) as (nd' & s & -> & Hb').
  cbn [mbind outcome_bind]. rewrite u32_small by lia.
  destruct (IH _ _ _ Hb') as (nd'' & g'' & i'' & E & Hb'' & Hi'' & Hne); [lia..|].
  exists nd'', g'', i''. split_and!; [done|done|lia|lia|].
  intros _. apply Hne. left. by destruct g.
Qed.

End build.

(** The grid the constructor leaves: sorted, closed by the last entry. *)
Definition grid_built (t : DirentLookup) : Prop :=
  (n = 0 /\ lookupGrid t = NarrowDown_new) \/
  exists g, represents (lookupGrid t) g /\ grid_spec g /\ g <> [] /\
    (forall s l, last g = Some (s, l) -> l = n - 1).

Lemma DirentLookup_new_built cacheEntryCount K :
  0 < cacheEntryCount < 2 ^ 32 -> (forall i, 0 <= i < n -> Zlen (key i) <= K) ->
  ((n - 1) / Z.max 1 (n / cacheEntryCount) + 2) * (K + 1) < 2 ^ 32 ->
  exists t, DirentLookup_new cacheEntryCount = Ok t /\ grid_built t.
Proof.
  intros Hc HK Hfit. pose proof (table_bound Htable) as Hn. unfold DirentLookup_new.
  assert (0 <= n) by (rewrite (table_count Htable); apply Zlen_nonneg).
  destruct (Z.eqb_spec n 0) as [E|Hne]; [eexists; split; [done|by left]|].
  rewrite (proj2 (Z.eqb_neq cacheEntryCount 0)) by lia. cbv zeta.
  set (step := Z.max 1 (n / cacheEntryCount)) in *.
  assert (Hstep : 1 <= step <= n).
  { subst step. split; [lia|]. apply Z.max_lub; [lia|]. apply Z.div_le_upper_bound; nia. }
  clearbody step.
  destruct (grid_loop_building K step HK Hstep Hfit (Z.to_nat n) NarrowDown_new [] 0)
    as (nd & g & i & -> & Hb & Hi & Hg); [|lia..|].
  { split; [|apply grid_spec_nil|by rewrite Z.mul_comm|done|constructor]. by split. }
  cbn [mbind outcome_bind]. destruct (getDirentKey_table (n - 1)) as [-> Hz]; [lia|].
  cbn [mbind outcome_bind]. unfold close. pose proof Hb as [Hrep Hspec Hpos Hlast Hshort].
  assert (Hbl : Zlen g <= (n - 1) / step + 1).
  { assert (step * Zlen g - step + 1 <= n) by lia. pose proof (Zlen_nonneg g).
    assert (Zlen g - 1 <= (n - 1) / step) by (apply Z.div_le_lower_bound; lia). lia. }
  assert (Hclosed : grid_built (mkLookup ∅ n (addEntry nd (key (n - 1)) (n - 1)))).
  { right. exists (g ++ [(key (n - 1), n - 1)]). cbn [lookupGrid]. split_and!.
    - apply addEntry_rep; [done|done|]. eapply (packed_fits K step); eauto; [lia|apply HK; lia].
    - apply grid_spec_snoc; auto with zim; [lia|lia|apply Hlast|].
      intros ->. destruct (Z.eq_dec n 1) as [->|]; [done|]. exfalso. apply Hg; [right; lia|done].
    - by destruct g.
    - rewrite last_snoc. by intros s l [= <- <-]. }
  exists (mkLookup ∅ n (addEntry nd (key (n - 1)) (n - 1))). split; [|done].
  destruct (last_rep nd g Hrep) as [[-> _]|(e & s & l & -> & Hgl & -> & Hk)]; [done|].
  destruct (Hlast _ _ Hgl) as [_ Hl]. pose proof Hgl as Hg'. rewrite last_lookup in Hg'.
  destruct (grid_between _ Hspec _ _ _ Hg') as (? & _ & Hle).
  unfold pred_entry_key. rewrite Hk. cbn [mbind outcome_bind mret outcome_ret].
  rewrite (proj2 (str_leb_le s (key (n - 1)))).
  - cbn [ASSERT mbind outcome_bind]. by rewrite (proj2 (Z.ltb_lt l (n - 1))) by done.
  - transitivity (key (l + 1)); [apply Hle; lia|]. apply (table_sorted Htable); lia.
Qed.

(** ** The bisections *)

Lemma schar_ascii c : 0 <= c < 128 -> schar c = c.
Proof. intros. unfold schar. by rewrite (proj2 (Z.ltb_lt c 128)) by lia. Qed.

Lemma find_compare_ascii c path d :
  0 <= c < 128 -> 0 < Dirent.ns d < 128 -> find_compare c path d = str_cmp (c :: path) (direntKey d).
Proof.
  intros Hc Hd. unfold find_compare, direntKey, Dirent.getNamespace, Dirent.getUrl.
  rewrite !schar_ascii by lia. cbn [str_cmp].
  destruct (Z.compare_spec c (Dirent.ns d)) as [->|Hlt|Hgt].
  - by rewrite !Z.ltb_irrefl.
  - by rewrite (proj2 (Z.ltb_lt _ _)) by done.
  - rewrite (proj2 (Z.ltb_ge c _)) by lia. by rewrite (proj2 (Z.ltb_lt _ c)) by done.
Qed.

(** The result of a search for [q]: an entry with this key, or the place where
    it would be inserted. *)
Definition found (q : bytes) (r : bool * Z) : Prop :=
  if r.1 then 0 <= r.2 < n /\ key r.2 = q
  else 0 <= r.2 <= n /\ (forall j, 0 <= j < r.2 -> str_lt (key j) q) /\
       (forall j, r.2 <= j < n -> str_lt q (key j)).

Lemma find_loop_found c path fuel l u :
  0 <= c < 128 -> 0 <= l < u -> u <= n -> u - l <= Z.of_nat fuel ->
  str_le (key l) (c :: path) -> (u < n -> str_lt (c :: path) (key u)) ->
  exists r, find_loop fuel c path l u = Ok r /\ found (c :: path) r.
Proof.
  intros Hc. pose proof (table_bound Htable) as Hn. revert l u.
  induction fuel as [|fuel IH]; intros l u Hlu Hun Hfuel Hl Hu; [lia|cbn [find_loop]].
  assert (Hh : 0 <= (u - l) / 2 < u - l /\ (u - l <> 1 -> 0 < (u - l) / 2)).
  { split; [split; [apply Z.div_pos|apply Z.div_lt]; lia|].
    intros. assert (1 <= (u - l) / 2) by (apply Z.div_le_lower_bound; lia). lia. }
  rewrite (u32_small (u - l)), u32_small by lia. revert Hh.
  generalize ((u - l) / 2). intros h Hh. assert (Hp : l <= l + h < u /\ (l = l + h -> u = l + 1)) by lia.
  revert Hp. generalize (l + h). intros p Hpu. clear h Hh.
  destruct (table_lookup p) as (d & -> & Hp & Hns & _); [lia|]. cbn [mbind outcome_bind].
  rewrite find_compare_ascii, <- Hp by done. destruct (str_cmp (c :: path) (key p)) eqn:E.
  - exists (true, p). split; [done|]. apply str_cmp_eq in E. unfold found. simpl. rewrite E. split; [lia|done].
  - apply IH; [|lia|lia|done|done]. split; [lia|].
    destruct (Z.eq_dec l p) as [Ep|]; [|lia]. rewrite Ep in Hl. by apply str_not_lt in Hl.
  - assert (Hgt : str_lt (key p) (c :: path)) by (unfold str_lt; by rewrite str_cmp_antisym, E).
    destruct (Z.eqb_spec l p) as [Ep|]; [|apply IH; auto with zim; lia].
    exists (false, u). split; [done|]. unfold found. cbn [fst snd].
    destruct Hpu as [_ Hpu]. specialize (Hpu Ep). subst p.
    split_and!; [lia|lia| |].
    + intros j Hj. apply str_le_lt_trans with (key l); [|done]. apply (table_sorted Htable); lia.
    + intros j Hj. apply str_lt_le_trans with (key u); [apply Hu; lia|]. apply (table_sorted Htable); lia.
Qed.

Lemma find_built t c path :
  grid_built t -> 0 <= c < 128 -> exists r, find t c path = Ok r /\ found (c :: path) r.
Proof.
  intros Ht Hc. pose proof (table_bound Htable) as Hn. unfold find.
  destruct Ht as [[E ->]|(g & Hrep & Hspec & Hg & Hlast)].
  - exists (false, 0). split; [done|]. unfold found. cbn [fst snd]. split_and!; lia.
  - destruct (getRange_grid _ _ (c :: path) Hrep Hspec Hg Hlast) as [[-> Hq]|(l & u & -> & Hlu & Hun & Hl & Hu)];
      cbn [mbind outcome_bind begin end_].
    + exists (false, 0). split; [done|]. unfold found. cbn [fst snd].
      assert (0 <= n) by (rewrite (table_count Htable); apply Zlen_nonneg).
      split_and!; [lia|lia|lia|]. intros j Hj. apply str_lt_le_trans with (key 0); [done|].
      apply (table_sorted Htable); lia.
    + rewrite (proj2 (Z.eqb_neq l u)) by lia. apply find_loop_found; auto; lia.
Qed.

(** A namespace above 127 compares below every entry as a [char], and above
    every key as the first byte of a string. *)
Lemma find_compare_negative c path d :
  128 <= c < 256 -> 0 < Dirent.ns d < 128 -> find_compare c path d = Lt.
Proof.
  intros Hc Hd. unfold find_compare, schar, Dirent.getNamespace.
  rewrite (proj2 (Z.ltb_ge c 128)), (proj2 (Z.ltb_lt (Dirent.ns d) 128)) by lia.
  by rewrite (proj2 (Z.ltb_lt _ _)) by lia.
Qed.

Lemma find_loop_negative c path fuel l u :
  128 <= c < 256 -> 0 <= l <= u -> l < n -> u <= n -> find_loop fuel c path l u = Diverge.
Proof.
  intros Hc. pose proof (table_bound Htable) as Hn. revert u.
  induction fuel as [|fuel IH]; intros u Hlu Hl Hu; [done|cbn [find_loop]].
  assert (Hh : 0 <= (u - l) / 2 <= u - l) by (split; [apply Z.div_pos|apply Z.div_le_upper_bound]; lia).
  assert (Hp : l + (u - l) / 2 < n).
  { destruct (Z.eq_dec l u) as [->|]; [rewrite Z.sub_diag; change (0 / 2) with 0; lia|].
    assert ((u - l) / 2 < u - l) by (apply Z.div_lt; lia). lia. }
  rewrite (u32_small (u - l)), u32_small by lia.
  destruct (table_lookup (l + (u - l) / 2)) as (d & -> & _ & Hns & _); [lia|]. cbn [mbind outcome_bind].
  rewrite find_compare_negative by done. apply IH; lia.
Qed.

Lemma getRange_negative t c path :
  grid_built t -> 1 <= n -> 128 <= c < 256 ->
  exists l, getRange (lookupGrid t) (c :: path) = Ok (mkNRange l n) /\ 0 <= l < n.
Proof.
  intros Ht H1 Hc. assert (Hlt : forall j, 0 <= j < n -> str_lt (key j) (c :: path)).
  { intros j Hj. destruct (table_lookup j Hj) as (d & _ & -> & Hns & _).
    unfold str_lt, direntKey, Dirent.getNamespace. cbn [str_cmp].
    by rewrite (proj2 (Z.compare_lt_iff (Dirent.ns d) c)) by lia. }
  destruct Ht as [[E _]|(g & Hrep & Hspec & Hg & Hlast)]; [lia|].
  destruct (getRange_grid _ _ (c :: path) Hrep Hspec Hg Hlast) as [[_ Hq]|(l & u & E & Hlu & Hun & _ & Hu)].
  - exfalso. apply (str_lt_irrefl (key 0)). eapply str_lt_trans; [apply Hlt; lia|done].
  - exists l. destruct (Z.eq_dec u n) as [->|]; [split; [done|lia]|].
    exfalso. apply (str_lt_irrefl (key u)). eapply str_lt_trans; [apply Hlt; lia|apply Hu; lia].
Qed.

(** ** The namespaces *)

Definition ns_at (i : Z) : Z := from_option Dirent.ns 0 (ds !! Z.to_nat i).

Lemma ns_lookup i : 0 <= i < n -> exists d, getDirent i = Ok d /\ ns_at i = Dirent.ns d /\ 0 < ns_at i < 128.
Proof.
  intros Hi. destruct (table_lookup i Hi) as (d & Hd & Hk & Hns & _).
  exists d. assert (ns_at i = Dirent.ns d) as ->; [|done].
  unfold key, ns_at in *. destruct (ds !! Z.to_nat i); [|done]. simpl in *. by injection Hk.
Qed.

Lemma ns_sorted i j : 0 <= i -> i <= j -> j < n -> ns_at i <= ns_at j.
Proof.
  intros Hi Hij Hj. pose proof (table_sorted Htable i j Hi Hij Hj) as Hle.
  destruct (table_lookup i) as (d & Hd & Hki & _); [lia|]. destruct (table_lookup j) as (d' & Hd' & Hkj & _); [lia|].
  rewrite Hki, Hkj in Hle. unfold str_le in Hle. cbn [direntKey str_cmp] in Hle.
  destruct (ns_lookup i) as (d0 & E0 & -> & _); [lia|]. destruct (ns_lookup j) as (d0' & E0' & -> & _); [lia|].
  rewrite Hd in E0. rewrite Hd' in E0'. injection E0 as <-. injection E0' as <-.
  unfold Dirent.getNamespace in Hle. destruct (Z.compare_spec (Dirent.ns d) (Dirent.ns d')); [lia|lia|done].
Qed.

(** [i] is the first entry whose namespace is at least [ch]. *)
Definition boundary (ch i : Z) : Prop :=
  0 <= i <= n /\ (forall j, 0 <= j < i -> ns_at j < ch) /\ (forall j, i <= j < n -> ch <= ns_at j).

Lemma namespace_begin_loop_spec fuel ch lower upper :
  32 <= ch <= 127 -> 0 <= lower < upper -> upper <= n -> upper - lower <= Z.of_nat fuel ->
  (0 < lower -> ns_at lower < ch) -> (upper < n -> ch <= ns_at upper) ->
  exists lo, namespace_begin_loop fuel ch lower upper = Ok (lo, lo + 1) /\ 0 <= lo < n /\
    (0 < lo -> ns_at lo < ch) /\ (lo + 1 < n -> ch <= ns_at (lo + 1)).
Proof.
  intros Hch. pose proof (table_bound Htable) as Hn. revert lower upper.
  induction fuel as [|fuel IH]; intros l u Hlu Hun Hfuel Hl Hu; [lia|cbn [namespace_begin_loop]].
  rewrite (u32_small (u - l)) by lia. destruct (Z.ltb_spec 1 (u - l)) as [Hlt|Hge].
  2:{ exists l. assert (u = l + 1) as -> by lia. split_and!; auto; lia. }
  assert (Hh : 0 < (u - l) / 2 < u - l)
    by (split; [assert (1 <= (u - l) / 2) by (apply Z.div_le_lower_bound; lia); lia|apply Z.div_lt; lia]).
  rewrite u32_small by lia. destruct (ns_lookup (l + (u - l) / 2)) as (d & -> & Ens & Hns); [lia|].
  cbn [mbind outcome_bind]. unfold Dirent.getNamespace. rewrite !schar_ascii, <- Ens by lia.
  destruct (Z.leb_spec ch (ns_at (l + (u - l) / 2))); apply IH; auto; lia.
Qed.

Lemma getNamespaceBeginOffset_boundary ch :
  1 <= n -> 32 <= ch <= 127 -> exists i, getNamespaceBeginOffset ch = Ok i /\ boundary ch i.
Proof.
  intros H1 Hch. unfold getNamespaceBeginOffset. rewrite schar_ascii by lia.
  rewrite (proj2 (Z.leb_le 32 ch)), (proj2 (Z.leb_le ch 127)) by lia. cbn [ASSERT mbind outcome_bind].
  destruct (ns_lookup 0) as (d & -> & Ens & Hns); [lia|]. cbn [mbind outcome_bind].
  destruct (namespace_begin_loop_spec (S (Z.to_nat n)) ch 0 n) as (lo & -> & Hlo & Hbelow & Habove); [lia..|].
  cbn [mbind outcome_bind]. unfold Dirent.getNamespace. rewrite schar_ascii, <- Ens by lia.
  destruct (Z.ltb_spec (ns_at 0) ch) as [Hlt|Hge]; eexists; (split; [done|]); unfold boundary.
  - split_and!; [lia|lia| |].
    + intros j Hj. assert (ns_at j <= ns_at lo) by (apply ns_sorted; lia).
      destruct (Z.eq_dec lo 0) as [->|]; lia.
    + intros j Hj. assert (ns_at (lo + 1) <= ns_at j) by (apply ns_sorted; lia). lia.
  - assert (lo = 0) as ->.
    { destruct (Z.eq_dec lo 0); [done|]. assert (ns_at 0 <= ns_at lo) by (apply ns_sorted; lia). lia. }
    split_and!; [lia|lia|lia|]. intros j Hj. assert (ns_at 0 <= ns_at j) by (apply ns_sorted; lia). lia.
Qed.

Lemma boundary_unique ch i j : boundary ch i -> boundary ch j -> i = j.
Proof.
  intros (Hi & Hil & Hir) (Hj & Hjl & Hjr).
  destruct (Z.lt_trichotomy i j) as [Hlt|[|Hlt]]; [|done|].
  - specialize (Hir i ltac:(lia)). specialize (Hjl i ltac:(lia)). lia.
  - specialize (Hil j ltac:(lia)). specialize (Hjr j ltac:(lia)). lia.
Qed.

(** The boundaries the cache remembers are right. *)
Definition cache_valid (t : DirentLookup) : Prop :=
  map_Forall (fun ch i => boundary ch i) (namespaceBoundaryCache t).

Lemma getNamespaceRangeBegin_boundary t ch :
  1 <= n -> cache_valid t -> 32 <= ch <= 127 ->
  exists i t', getNamespaceRangeBegin t ch = Ok (i, t') /\ boundary ch i /\ cache_valid t' /\
    lookupGrid t' = lookupGrid t.
Proof.
  intros H1 Hv Hch. unfold getNamespaceRangeBegin. rewrite schar_ascii by lia.
  rewrite (proj2 (Z.leb_le 32 ch)), (proj2 (Z.leb_le ch 127)) by lia. cbn [ASSERT mbind outcome_bind].
  destruct (namespaceBoundaryCache t !! ch) as [i|] eqn:E; [by exists i, t; eauto|].
  destruct (getNamespaceBeginOffset_boundary ch H1 Hch) as (i & -> & Hi). cbn [mbind outcome_bind].
  eexists i, _. split_and!; [done|done| |done]. unfold cache_valid, cache_boundary. cbn [namespaceBoundaryCache].
  by apply map_Forall_insert_2.
Qed.

Lemma key_bound K : Forall (fun d => Zlen (direntKey d) <= K) ds -> forall i, 0 <= i < n -> Zlen (key i) <= K.
Proof.
  intros HK i Hi. rewrite (table_count Htable) in Hi.
  destruct (lookup_lt_is_Some_2 ds (Z.to_nat i)) as [d Hd]; [unfold Zlen in Hi; lia|].
  unfold key. rewrite Hd. rewrite Forall_lookup in HK. apply (HK _ _ Hd).
Qed.

End table.
End Lookup.

(** * Properties *)

(** C6. [DirentLookup] finds the entries. Built over any sorted table of entries
    (ASCII namespaces, no zero byte in the paths), whatever the number of
    entries it is asked to keep in memory, as long as its packed pseudo-keys
    fit 32-bit offsets: [find] returns, and either with the index of an entry
    with that namespace and path, or, when there is none, with the index
    at which it would have to be inserted. *)
Theorem find_correct (n : Z) (getDirent : Z -> outcome Dirent.t) (ds : list Dirent.t) (cacheEntryCount K ns : Z)
    (path : bytes) :
  dirent_table n getDirent ds ->
  0 < cacheEntryCount < 2 ^ 32 -> Forall (fun d => Zlen (direntKey d) <= K) ds ->
  ((n - 1) / Z.max 1 (n / cacheEntryCount) + 2) * (K + 1) < 2 ^ 32 ->
  0 <= ns < 128 ->
  exists t r, DirentLookup_new n getDirent cacheEntryCount = Ok t /\
    find getDirent t ns path = Ok r /\ found n ds (ns :: path) r.
Proof.
  intros Ht Hc HK Hfit Hns.
  destruct (DirentLookup_new_built n getDirent ds Ht cacheEntryCount K Hc) as (t & Et & Hbuilt); [|done|].
  - by apply key_bound with getDirent.
  - destruct (find_built n getDirent ds Ht t ns path Hbuilt Hns) as (r & Er & Hr). by exists t, r.
Qed.

(** C33. [find] never returns when it is asked for a namespace above 127, a byte
    that is negative as a [char], in a table of ASCII namespaces:
    [NarrowDown] compares the key as unsigned bytes and sends the search to the
    end of the table, the bisection compares the namespace as a signed [char]
    and keeps going down, and [l == p] is tested on the way up only. No
    number of steps is enough. *)
Theorem find_negative_namespace_hangs (n : Z) (getDirent : Z -> outcome Dirent.t) (ds : list Dirent.t)
    (cacheEntryCount K ns : Z) (path : bytes) :
  dirent_table n getDirent ds -> 1 <= n ->
  0 < cacheEntryCount < 2 ^ 32 -> Forall (fun d => Zlen (direntKey d) <= K) ds ->
  ((n - 1) / Z.max 1 (n / cacheEntryCount) + 2) * (K + 1) < 2 ^ 32 ->
  128 <= ns < 256 ->
  exists t r, DirentLookup_new n getDirent cacheEntryCount = Ok t /\
    getRange (lookupGrid t) (ns :: path) = Ok r /\ begin r <> end_ r /\
    forall fuel, find_loop getDirent fuel ns path (begin r) (end_ r) = Diverge.
Proof.
  intros Ht H1 Hc HK Hfit Hns.
  destruct (DirentLookup_new_built n getDirent ds Ht cacheEntryCount K Hc) as (t & Et & Hbuilt); [|done|].
  - by apply key_bound with getDirent.
  - destruct (getRange_negative n getDirent ds Ht t ns path Hbuilt H1 Hns) as (l & Er & Hl).
    exists t, (mkNRange l n). split_and!; [done|done|simpl; lia|]. intros fuel.
    apply (find_loop_negative n getDirent ds Ht); simpl; lia.
Qed.

(** The range of a namespace is the range of its entries: on a
    sorted table, [getNamespaceRangeBegin] and [getNamespaceRangeEnd], which
    keep the boundaries they compute in a cache, return bounds between which lie exactly
    the entries of the namespace, and leave a cache that is still valid. *)
Theorem namespace_range (n : Z) (getDirent : Z -> outcome Dirent.t) (ds : list Dirent.t) (t : DirentLookup) (ns : Z) :
  dirent_table n getDirent ds -> 1 <= n -> cache_valid n ds t -> 32 <= ns < 127 ->
  exists b e t1 t2,
    getNamespaceRangeBegin n getDirent t ns = Ok (b, t1) /\
    getNamespaceRangeEnd n getDirent t1 ns = Ok (e, t2) /\
    cache_valid n ds t2 /\
    forall i d, ds !! i = Some d -> (Dirent.ns d = ns <-> b <= Z.of_nat i < e).
Proof.
  intros Ht H1 Hv Hns.
  destruct (getNamespaceRangeBegin_boundary n getDirent ds Ht t ns H1 Hv) as (b & t1 & Eb & Hb & Hv1 & _); [lia|].
  destruct (getNamespaceRangeBegin_boundary n getDirent ds Ht t1 (ns + 1) H1 Hv1) as (e & t2 & Ee & He & Hv2 & _); [lia|].
  exists b, e, t1, t2. unfold getNamespaceRangeEnd. rewrite u8_small by lia. split_and!; [done..|].
  intros i d Hd. destruct Hb as (_ & Hb & Hb'). destruct He as (_ & He & He').
  assert (Hi : 0 <= Z.of_nat i < n) by (rewrite (table_count _ _ _ Ht); apply lookup_lt_Some in Hd; unfold Zlen; lia).
  assert (Hn : ns_at ds (Z.of_nat i) = Dirent.ns d) by (unfold ns_at; by rewrite Nat2Z.id, Hd).
  specialize (Hb (Z.of_nat i)). specialize (Hb' (Z.of_nat i)). specialize (He (Z.of_nat i)).
  specialize (He' (Z.of_nat i)). rewrite Hn in *. lia.
Qed.

(** * Witnesses *)

Definition list_dirents (ds : list Dirent.t) (i : Z) : outcome Dirent.t :=
  match ds !! Z.to_nat i with Some d => Ok d | None => Throw (out_of_range "entry index out of range") end.

Definition some_dirents : list Dirent.t :=
  [ Dirent.mk 0 0 0 0 0 (chr "C"%char) [] (lit "about") [];
    Dirent.mk 0 0 0 1 0 (chr "C"%char) [] (lit "index") [];
    Dirent.mk 1 0 0 2 0 (chr "M"%char) [] (lit "Title") [] ].

Lemma some_dirents_table : dirent_table 3 (list_dirents some_dirents) some_dirents.
Proof.
  split; [done|done| | |].
  - intros i d _ Hd. unfold list_dirents. by rewrite Hd.
  - repeat constructor; vm_compute; done || (intros; discriminate).
  - intros i j Hi Hij Hj. assert (Ci : i = 0 \/ i = 1 \/ i = 2) by lia.
    assert (Cj : j = 0 \/ j = 1 \/ j = 2) by lia.
    destruct Ci as [-> | [-> | ->]], Cj as [-> | [-> | ->]]; try lia; by vm_compute.
Qed.

Lemma some_dirents_bound : Forall (fun d => Zlen (direntKey d) <= 6) some_dirents.
Proof. repeat constructor; by vm_compute. Qed.

Lemma find_correct_witness :
  (exists t r, DirentLookup_new 3 (list_dirents some_dirents) 2 = Ok t /\
    find (list_dirents some_dirents) t (chr "C"%char) (lit "index") = Ok r /\
    found 3 some_dirents (lit "Cindex") r) /\
  (t ← DirentLookup_new 3 (list_dirents some_dirents) 2;
   a ← find (list_dirents some_dirents) t (chr "C"%char) (lit "index");
   b ← find (list_dirents some_dirents) t (chr "C"%char) (lit "home");
   mret (a, b)) = Ok ((true, 1), (false, 1)).
Proof.
  split; [|by vm_compute].
  apply (find_correct 3 (list_dirents some_dirents) some_dirents 2 6 (chr "C"%char) (lit "index"));
    [apply some_dirents_table|lia|apply some_dirents_bound|by vm_compute|by vm_compute].
Defined.

Lemma find_negative_namespace_hangs_witness :
  exists t r, DirentLookup_new 3 (list_dirents some_dirents) 2 = Ok t /\
    getRange (lookupGrid t) (200 :: lit "index") = Ok r /\ begin r <> end_ r /\
    forall fuel, find_loop (list_dirents some_dirents) fuel 200 (lit "index") (begin r) (end_ r) = Diverge.
Proof.
  apply (find_negative_namespace_hangs 3 (list_dirents some_dirents) some_dirents 2 6 200 (lit "index"));
    [apply some_dirents_table|lia|lia|apply some_dirents_bound|by vm_compute|lia].
Defined.

Lemma namespace_range_witness :
  exists b e t1 t2,
    getNamespaceRangeBegin 3 (list_dirents some_dirents) (mkLookup ∅ 3 NarrowDown_new) (chr "C"%char) = Ok (b, t1) /\
    getNamespaceRangeEnd 3 (list_dirents some_dirents) t1 (chr "C"%char) = Ok (e, t2) /\
    cache_valid 3 some_dirents t2 /\
    forall i d, some_dirents !! i = Some d -> (Dirent.ns d = chr "C"%char <-> b <= Z.of_nat i < e).
Proof.
  apply (namespace_range 3 (list_dirents some_dirents) some_dirents (mkLookup ∅ 3 NarrowDown_new) (chr "C"%char));
    [apply some_dirents_table|lia|apply map_Forall_empty|by vm_compute].
Defined.
