(* ===== verification/Tools.v ===== *)
(** The small tools of the library ([tools.cpp], [envvalue.cpp]). *)

From Stdlib Require Import Ascii.
From stdpp Require Import strings.
From S2P Require Import Prelude.

(** * Strings *)

(** [s.find(p) == 0]. *)
Definition starts_with (p s : bytes) : bool := bool_decide (take (length p) s = p).

(** [s.find(p) != std::string::npos]. *)
Fixpoint contains (p s : bytes) : bool :=
  starts_with p s || match s with [] => false | _ :: s => contains p s end.

Definition isCompressibleMimetype (mimetype : bytes) : bool :=
  starts_with (lit "text") mimetype
  || contains (lit "+xml") mimetype
  || contains (lit "+json") mimetype
  || bool_decide (mimetype = lit "application/javascript")
  || bool_decide (mimetype = lit "application/json").

(** The inner loop: the index of the next space, or the end. *)
Fixpoint countWords_skip (fuel : nat) (text : bytes) (length i : Z) : outcome Z :=
  if i <? length then
    match fuel with
    | O => Diverge
    | S fuel =>
        c ← mem_get text i;
        if c =? chr " " then mret i else countWords_skip fuel text length (u32 (i + 1))
    end
  else mret i.

Fixpoint countWords_loop (fuel : nat) (text : bytes) (length i numWords : Z) : outcome Z :=
  if i <? length then
    match fuel with
    | O => Diverge
    | S fuel =>
        i ← countWords_skip (Z.to_nat length) text length i;
        countWords_loop fuel text length (u32 (i + 1)) (u32 (numWords + 1))
    end
  else mret numWords.

Definition countWords (text : bytes) : outcome Z :=
  let length := u32 (Zlen text) in
  countWords_loop (Z.to_nat length) text length 0 1.

(** [s[i]] of a constant string: the terminating zero at its length. *)
Definition str_at (s : bytes) (i : Z) : Z := nth (Z.to_nat i) s 0.

Definition parseLongPath (longPath : bytes) : outcome (Z * bytes) :=
  let slash := chr "/" in
  let i := if str_at longPath 0 =? slash then 1 else 0 in
  throw_when ((Zlen longPath <? i + 1) || (str_at longPath i =? slash) ||
              ((i + 1 <? Zlen longPath) && negb (str_at longPath (i + 1) =? slash)))
    (runtime_error "Cannot parse path") ;;
  let ns := str_at longPath i in
  let shortPath := drop (Z.to_nat (Z.min (i + 2) (u32 (Zlen longPath)))) longPath in
  mret (ns, shortPath).

(** * The environment *)

Class Env : Type := { getenv : bytes -> option bytes }.

(** [std::istringstream >> unsigned] and [>> char]: blanks are skipped; a number is an
    optional sign and decimal digits; it is negated modulo 2^32 after a minus;
    one that is too big gives the largest value and fails, an absent one gives 0
    and fails; nothing is stored at the end of the stream. *)
Definition is_space (c : Z) : bool := (c =? 32) || ((9 <=? c) && (c <=? 13)).
Definition is_digit (c : Z) : bool := (48 <=? c) && (c <=? 57).

Fixpoint drop_spaces (s : bytes) : bytes :=
  match s with
  | c :: s' => if is_space c then drop_spaces s' else s
  | [] => []
  end.

Fixpoint digits (acc : Z) (s : bytes) : Z * bytes :=
  match s with
  | c :: s' => if is_digit c then digits (10 * acc + (c - 48)) s' else (acc, s)
  | [] => (acc, [])
  end.

(** The value, the rest of the stream, and whether the stream is still good. *)
Definition read_unsigned (def : Z) (s : bytes) : Z * bytes * bool :=
  match drop_spaces s with
  | [] => (def, [], false)
  | s =>
      let '(neg, s) := match s with
                       | c :: s' => if c =? chr "-" then (true, s') else if c =? chr "+" then (false, s') else (false, s)
                       | [] => (false, s)
                       end in
      match s with
      | c :: _ =>
          if is_digit c then
            let '(v, s) := digits 0 s in
            if 2 ^ 32 <=? v then (2 ^ 32 - 1, s, false) else (if neg : bool then u32 (- v) else v, s, true)
          else (0, s, false)
      | [] => (0, [], false)
      end
  end.

Definition read_char (def : Z) (s : bytes) : Z := match drop_spaces s with c :: _ => c | [] => def end.

Section env.
Context `{Env}.

Definition envValue (env : bytes) (def : Z) : Z :=
  match getenv env with
  | Some v => (read_unsigned def v).1.1
  | None => def
  end.

Definition envMemSize (env : bytes) (def : Z) : Z :=
  match getenv env with
  | Some v =>
      let '(def, s, good) := read_unsigned def v in
      let unit := if (good : bool) then read_char 0 s else 0 in
      if (unit =? chr "k") || (unit =? chr "K") then u32 (def * 1024)
      else if (unit =? chr "m") || (unit =? chr "M") then u32 (def * (1024 * 1024))
      else if (unit =? chr "g") || (unit =? chr "G") then u32 (def * (1024 * 1024 * 1024))
      else def
  | None => def
  end.

End env.

(** * Lemmas *)

(** The pieces of a text between its spaces; a final space ends a piece and does
    not start another. *)
Fixpoint pieces (text : bytes) : Z :=
  match text with
  | [] => 0
  | [c] => 1
  | c :: text => if c =? 32 then 1 + pieces text else pieces text
  end.

Lemma pieces_cons c text :
  pieces (c :: text) = if c =? 32 then 1 + pieces text else Z.max 1 (pieces text).
Proof.
  assert (Hstep : forall c d l, pieces (c :: d :: l) = if c =? 32 then 1 + pieces (d :: l) else pieces (d :: l)) by done.
  assert (Hpos : forall l d, 1 <= pieces (d :: l)).
  { induction l as [|e l IH]; intros d; [done|]. rewrite Hstep. specialize (IH e). destruct (d =? 32); lia. }
  destruct text as [|d text].
  - cbn [pieces]. by destruct (c =? 32).
  - rewrite Hstep. specialize (Hpos text d). destruct (c =? 32); [done|]. lia.
Qed.

Lemma pieces_nonneg l : 0 <= pieces l.
Proof. induction l as [|c l IH]; [done|]. rewrite pieces_cons. destruct (Z.eqb c 32); lia. Qed.

Lemma pieces_app a b :
  Forall (fun c => c <> 32) a -> pieces (a ++ 32 :: b) = 1 + pieces b.
Proof.
  intros Ha. induction Ha as [|c a Hc Ha IH]; cbn [app]; rewrite pieces_cons; [done|].
  rewrite (proj2 (Z.eqb_neq c 32)) by done. rewrite IH.
  pose proof (pieces_nonneg b). lia.
Qed.

Lemma pieces_last a : Forall (fun c => c <> 32) a -> a <> [] -> pieces a = 1.
Proof.
  intros Ha. induction Ha as [|c a Hc Ha IH]; [done|]. intros _. rewrite pieces_cons.
  rewrite (proj2 (Z.eqb_neq c 32)) by done. destruct a; [done|]. by rewrite IH.
Qed.

Lemma mem_get_drop (text : bytes) i c rest :
  0 <= i -> drop (Z.to_nat i) text = c :: rest -> mem_get text i = Ok c /\ drop (Z.to_nat (i + 1)) text = rest.
Proof.
  intros Hi Hd. assert (Hl : text !! Z.to_nat i = Some c).
  { rewrite <- (Nat.add_0_r (Z.to_nat i)), <- lookup_drop, Hd. done. }
  pose proof (lookup_lt_Some _ _ _ Hl) as Hlt. split.
  - unfold mem_get. rewrite (proj2 (Z.leb_le 0 i)), (proj2 (Z.ltb_lt i _)) by (unfold Zlen; lia).
    cbn [andb]. by rewrite (nth_lookup_Some _ _ _ _ Hl).
  - replace (Z.to_nat (i + 1)) with (S (Z.to_nat i)) by lia.
    rewrite <- (drop_drop text 1 (Z.to_nat i)) at 1 || rewrite <- Nat.add_1_r, <- drop_drop.
    all: by rewrite Hd.
Qed.

Lemma countWords_skip_spec fuel text i :
  0 <= i <= Zlen text -> Zlen text < 2 ^ 32 - 1 -> Zlen text - i <= Z.of_nat fuel ->
  exists a b, drop (Z.to_nat i) text = a ++ b /\ Forall (fun c => c <> 32) a /\
    (b = [] \/ exists b', b = 32 :: b') /\ countWords_skip fuel text (Zlen text) i = Ok (i + Zlen a).
Proof.
  revert i. induction fuel as [|fuel IH]; intros i Hi Hlt Hfuel; cbn [countWords_skip].
  all: destruct (Z.ltb_spec i (Zlen text)) as [Hc|Hc].
  all: try (exists [], []; rewrite drop_ge by (unfold Zlen in *; lia); rewrite Zlen_nil, Z.add_0_r;
    split_and!; [done|constructor|by left|done]).
  { lia. }
  destruct (drop (Z.to_nat i) text) as [|c rest] eqn:Ed.
  { apply (f_equal length) in Ed. rewrite length_drop in Ed. unfold Zlen in *. simpl in Ed. lia. }
  destruct (mem_get_drop text i c rest ltac:(lia) Ed) as [-> Er]. cbn [mbind outcome_bind].
  change (chr " ") with 32. destruct (Z.eqb_spec c 32) as [->|Hne].
  - exists [], (32 :: rest). rewrite Zlen_nil, Z.add_0_r. split_and!; [done|constructor|right; by eexists|done].
  - rewrite u32_small by lia. destruct (IH (i + 1)) as (a & b & E & Ha & Hb & ->); [lia..|].
    exists (c :: a), b. rewrite Er in E. subst rest. rewrite Zlen_cons.
    split_and!; [by rewrite E|by constructor|done|f_equal; lia].
Qed.

Lemma countWords_loop_spec fuel text i n :
  0 <= i <= Zlen text -> Zlen text < 2 ^ 32 - 1 -> Zlen text - i <= Z.of_nat fuel ->
  0 <= n -> n + Zlen text - i < 2 ^ 32 ->
  countWords_loop fuel text (Zlen text) i n = Ok (n + pieces (drop (Z.to_nat i) text)).
Proof.
  revert i n. induction fuel as [|fuel IH]; intros i n Hi Hlt Hfuel Hn Hnb; cbn [countWords_loop].
  all: destruct (Z.ltb_spec i (Zlen text)) as [Hc|Hc].
  all: try (rewrite drop_ge by (unfold Zlen in *; lia); cbn [pieces]; by rewrite Z.add_0_r).
  { lia. }
  destruct (countWords_skip_spec (Z.to_nat (Zlen text)) text i) as (a & b & E & Ha & Hb & ->); [lia..|].
  cbn [mbind outcome_bind].
  assert (Hab : Zlen a + Zlen b = Zlen text - i).
  { rewrite <- Zlen_app, <- E. apply Zlen_drop. lia. }
  pose proof (Zlen_nonneg a). pose proof (Zlen_nonneg b).
  rewrite !u32_small by lia. destruct Hb as [->|[b' ->]].
  - rewrite Zlen_nil in Hab. rewrite E, app_nil_r.
    assert (a <> []) by (intros ->; change (@Zlen Z []) with 0 in *; lia).
    rewrite pieces_last by done.
    destruct fuel; cbn [countWords_loop]; by rewrite (proj2 (Z.ltb_ge _ _)) by lia.
  - rewrite Zlen_cons in Hab. pose proof (Zlen_nonneg b'). rewrite IH by lia.
    rewrite E, pieces_app by done. f_equal.
    replace (Z.to_nat (i + Zlen a + 1)) with (Z.to_nat i + (length a + 1))%nat by (unfold Zlen; lia).
    rewrite <- drop_drop, E, <- drop_drop, drop_app_length. simpl. rewrite drop_0. lia.
Qed.

(** * Properties *)

(** [countWords] returns one more than the number of pieces the spaces cut
    the text into: its counter starts at 1 and is incremented for every piece,
    so that even the empty text has one word, and "a word" has three. *)
Theorem countWords_counts_one_more (text : bytes) :
  Zlen text < 2 ^ 32 - 1 -> countWords text = Ok (1 + pieces text).
Proof.
  intros Hlt. pose proof (Zlen_nonneg text). unfold countWords. rewrite u32_small by lia.
  rewrite countWords_loop_spec by lia. by rewrite drop_0.
Qed.

Lemma countWords_counts_one_more_witness :
  countWords (lit "a word") = Ok (1 + pieces (lit "a word")) /\ countWords (lit "a word") = Ok 3.
Proof. split; [apply countWords_counts_one_more; vm_compute; done|by vm_compute]. Defined.

(** [parseLongPath] takes apart what [getLongUrl] puts together, with or
    without the leading slash of an absolute path: for a namespace that is not a
    slash, "N/path" and "/N/path" both give the namespace and the path. *)
Theorem parseLongPath_roundtrip (ns : Z) (path : bytes) :
  ns <> chr "/" -> Zlen path < 2 ^ 32 - 3 ->
  parseLongPath ([ns] ++ lit "/" ++ path) = Ok (ns, path) /\
  parseLongPath (lit "/" ++ [ns] ++ lit "/" ++ path) = Ok (ns, path).
Proof.
  intros Hns Hlen. pose proof (Zlen_nonneg path). change (lit "/") with [47]. change (chr "/") with 47 in Hns.
  unfold parseLongPath. change (chr "/") with 47. cbn [app]. rewrite !Zlen_cons. split.
  - change (str_at (ns :: 47 :: path) 0) with ns. rewrite (proj2 (Z.eqb_neq ns 47)) by done.
    cbv beta iota zeta. change (0 + 1) with 1. change (0 + 2) with 2.
    change (str_at (ns :: 47 :: path) 1) with 47. change (str_at (ns :: 47 :: path) 0) with ns.
    rewrite (proj2 (Z.eqb_neq ns 47)), (proj2 (Z.ltb_ge (1 + (1 + Zlen path)) 1)) by (done || lia).
    rewrite Z.eqb_refl, andb_false_r. cbn [orb throw_when mbind outcome_bind].
    by rewrite u32_small, Z.min_l by lia.
  - change (str_at (47 :: ns :: 47 :: path) 0) with 47. rewrite Z.eqb_refl.
    cbv beta iota zeta. change (1 + 1) with 2. change (1 + 2) with 3.
    change (str_at (47 :: ns :: 47 :: path) 2) with 47. change (str_at (47 :: ns :: 47 :: path) 1) with ns.
    rewrite (proj2 (Z.eqb_neq ns 47)), (proj2 (Z.ltb_ge (1 + (1 + (1 + Zlen path))) 2)) by (done || lia).
    rewrite Z.eqb_refl, andb_false_r. cbn [orb throw_when mbind outcome_bind].
    by rewrite u32_small, Z.min_l by lia.
Qed.

Lemma parseLongPath_roundtrip_witness :
  parseLongPath (lit "A/index.html") = Ok (chr "A", lit "index.html") /\
  parseLongPath (lit "/A/index.html") = Ok (chr "A", lit "index.html").
Proof. apply (parseLongPath_roundtrip (chr "A") (lit "index.html")); vm_compute; done. Defined.
