(* ===== verification/Accessors.v ===== *)
(** From an index to an entry ([dirent_accessor.cpp]).

    The direct accessor goes through the pointer table and keeps the entries it
    read in an LRU cache; the indirect one goes through an index of indices
    (the title listing) first. [entry_of] is what the direct accessor promises:
    the entry the table points to. The lookups and the archive above only rely
    on it ([getDirent_spec] discharges it). *)

From stdpp Require Import gmap strings.
From S2P Require Import Prelude.
From S2P Require Import Types.
From S2P Require Import Readers.
From S2P Require Import Dirent.
From S2P Require Import Lru.

Definition entry_out_of_range : exn := out_of_range "entry index out of range".

Section accessors.
Context `{Reader R}.

Record DirectDirentAccessor : Type := mkDirect {
  mp_direntReader : R;                       (* the archive the [DirentReader] reads *)
  m_direntBuffer : bytes;                    (* the vector it keeps *)
  mp_urlPtrReader : BufferReader;
  m_direntCount : Z;
  m_direntCache : @lru_cache Z _ _ Dirent.t;
}.

Definition DirectDirentAccessor_new (direntReader : R) (urlPtrReader : BufferReader) (direntCount : Z)
    (cacheSize : nat) : DirectDirentAccessor :=
  mkDirect direntReader [] urlPtrReader direntCount (lru_new cacheSize).

Definition with_direntCache (a : DirectDirentAccessor) (c : @lru_cache Z _ _ Dirent.t) : DirectDirentAccessor :=
  mkDirect (mp_direntReader a) (m_direntBuffer a) (mp_urlPtrReader a) (m_direntCount a) c.

Definition with_direntBuffer (a : DirectDirentAccessor) (b : bytes) : DirectDirentAccessor :=
  mkDirect (mp_direntReader a) b (mp_urlPtrReader a) (m_direntCount a) (m_direntCache a).

Definition getOffset (a : DirectDirentAccessor) (idx : Z) : outcome Z :=
  if m_direntCount a <=? idx then Throw entry_out_of_range
  else read_uint 8 (mp_urlPtrReader a) (u64 (8 * idx)).

Definition accessor_readDirent (a : DirectDirentAccessor) (offset : Z) :
    outcome (Dirent.t * DirectDirentAccessor) :=
  '(d, buffer) ← readDirent (mp_direntReader a) (m_direntBuffer a) offset;
  mret (d, with_direntBuffer a buffer).

(** [DirectDirentAccessor::getDirent]. *)
Definition getDirent (a : DirectDirentAccessor) (idx : Z) : outcome (Dirent.t * DirectDirentAccessor) :=
  '(v, cache) ← get (m_direntCache a) idx;
  let a := with_direntCache a cache in
  if hit v then d ← value v; mret (d, a)
  else
    direntOffset ← getOffset a idx;
    '(dirent, a) ← accessor_readDirent a direntOffset;
    cache ← put (m_direntCache a) idx dirent;
    mret (dirent, with_direntCache a cache).

(** What it promises: the entry at the offset the table gives. *)
Definition entry_of (a : DirectDirentAccessor) (idx : Z) : outcome Dirent.t :=
  direntOffset ← getOffset a idx;
  readDirent_fresh (mp_direntReader a) direntOffset.

Record IndirectDirentAccessor : Type := mkIndirect {
  mp_indexReader : BufferReader;
  t_direntCount : Z;
}.

Definition getDirectIndex (t : IndirectDirentAccessor) (idx : Z) : outcome Z :=
  if t_direntCount t <=? idx then Throw entry_out_of_range
  else read_uint 4 (mp_indexReader t) (u64 (4 * idx)).

(** [IndirectDirentAccessor::getDirent], over the direct accessor [a]. *)
Definition getDirent_indirect (t : IndirectDirentAccessor) (a : DirectDirentAccessor) (idx : Z) :
    outcome (Dirent.t * DirectDirentAccessor) :=
  directIndex ← getDirectIndex t idx;
  getDirent a directIndex.

(** The same through the promise. *)
Definition title_entry_of (t : IndirectDirentAccessor) (a : DirectDirentAccessor) (idx : Z) : outcome Dirent.t :=
  directIndex ← getDirectIndex t idx;
  entry_of a directIndex.

(** * The cache is transparent *)

(** Every cached entry is the one a read would give. *)
Record accessor_ok (a : DirectDirentAccessor) : Prop := {
  a_lru : lru_inv (m_direntCache a);
  a_sound : Forall (fun kv => entry_of a kv.1 = Ok kv.2) (contents (m_direntCache a));
}.

(** The accessors of one archive: they differ by the cache and the vector. *)
Definition same_archive (a b : DirectDirentAccessor) : Prop :=
  mp_direntReader b = mp_direntReader a /\ mp_urlPtrReader b = mp_urlPtrReader a /\
  m_direntCount b = m_direntCount a.

Lemma entry_of_same a b idx : same_archive a b -> entry_of b idx = entry_of a idx.
Proof. intros (E1 & E2 & E3). unfold entry_of, getOffset. by rewrite E1, E2, E3. Qed.

Lemma get_cached a idx :
  accessor_ok a -> exists v c, get (m_direntCache a) idx = Ok (v, c) /\ accessor_ok (with_direntCache a c) /\
    ((hit v = true /\ exists d, value v = Ok d /\ entry_of a idx = Ok d) \/ hit v = false).
Proof.
  intros [Hi Hs]. destruct (lru_step_spec _ (OGet idx) Hi) as (c & E & Hi' & Hc & _).
  cbn [lru_step spec_step] in E, Hc. apply bind_Ok in E as ([v c'] & -> & E).
  destruct (spec_get (contents (m_direntCache a)) idx) as [d|] eqn:Eg; simpl in E; injection E as -> ->;
    eexists _, c; (split; [done|]); simpl in Hc.
  - apply spec_get_in in Eg. pose proof Hs as Hs'. rewrite Forall_forall in Hs. specialize (Hs _ Eg). simpl in Hs.
    split; [|left; split; [done|by exists d]]. split; [done|]. cbn [m_direntCache with_direntCache].
    rewrite Hc. by apply Forall_touch.
  - split; [|by right]. split; [done|]. cbn [m_direntCache with_direntCache]. by rewrite Hc.
Qed.

Lemma put_cached a idx d :
  accessor_ok a -> entry_of a idx = Ok d ->
  exists c, put (m_direntCache a) idx d = Ok c /\ accessor_ok (with_direntCache a c).
Proof.
  intros [Hi Hs] Hd. destruct (lru_step_spec _ (OPut idx d) Hi) as (c & E & Hi' & Hc & _).
  cbn [lru_step spec_step] in E, Hc. apply bind_Ok in E as (c' & -> & E).
  exists c'. split; [done|].
  destruct (spec_get (contents (m_direntCache a)) idx) as [w|]; simpl in E, Hc; injection E as ->.
  - split; [done|]. cbn [m_direntCache with_direntCache]. rewrite Hc. by apply Forall_touch.
  - split; [done|]. cbn [m_direntCache with_direntCache]. rewrite Hc. apply Forall_take. by constructor.
Qed.

Section transparent.
Context (a0 : DirectDirentAccessor).
Hypothesis read_length : forall off n data, r_read (mp_direntReader a0) off n = Ok data -> Zlen data = n.
Hypothesis size_bound : r_size (mp_direntReader a0) < 2 ^ 63.

Lemma getDirent_spec a idx d :
  same_archive a0 a -> accessor_ok a -> entry_of a0 idx = Ok d ->
  exists a', getDirent a idx = Ok (d, a') /\ same_archive a0 a' /\ accessor_ok a'.
Proof.
  intros Hsame Hok Hd. pose proof Hd as Hd0. rewrite <- (entry_of_same a0 a) in Hd by done.
  destruct (get_cached a idx Hok) as (v & c & Eg & Hok' & Hv). unfold getDirent. rewrite Eg.
  cbn [mbind outcome_bind].
  destruct Hv as [(-> & d' & -> & Hd')| ->]; cbn [mbind outcome_bind].
  - rewrite Hd in Hd'. injection Hd' as <-. eauto.
  - change (getOffset (with_direntCache a c) idx) with (getOffset a idx).
    unfold entry_of in Hd. destruct (getOffset a idx) as [off| | |] eqn:Eo; try done. cbn [mbind outcome_bind] in *.
    assert (Hoff : 0 <= off).
    { unfold getOffset in Eo. destruct (_ <=? _); [done|]. unfold read_uint in Eo. inv_outcome.
      apply fromLittleEndian_fits. }
    destruct Hsame as (E1 & E2 & E3). unfold accessor_readDirent. cbn [mp_direntReader m_direntBuffer with_direntCache].
    unfold readDirent_fresh in Hd. rewrite E1 in *.
    pose proof (readDirent_ext (mp_direntReader a0) read_length (m_direntBuffer a) off Hoff size_bound) as Hext.
    destruct Hext as [|[d1 b1] [d2 b2] Ed| |]; try done. simpl in Ed. subst d2.
    cbn [mbind outcome_bind mret outcome_ret] in *. injection Hd as ->.
    set (a1 := with_direntBuffer (with_direntCache a c) b2).
    assert (Hs1 : same_archive a0 a1) by done.
    assert (Hd1 : entry_of a1 idx = Ok d) by (rewrite (entry_of_same a0 a1 idx Hs1); exact Hd0).
    destruct (put_cached a1 idx d) as (c' & -> & Hok2); [|done|].
    { destruct Hok' as [Hi Hs]. split; [done|]. eapply Forall_impl; [exact Hs|].
      intros kv Hkv. rewrite <- Hkv. by apply entry_of_same. }
    cbn [mbind outcome_bind]. by eexists.
Qed.

(** The entries for the indices [idxs], asked for in this order. *)
Fixpoint getDirents (a : DirectDirentAccessor) (idxs : list Z) : outcome (list Dirent.t * DirectDirentAccessor) :=
  match idxs with
  | [] => mret ([], a)
  | idx :: idxs =>
      '(d, a) ← getDirent a idx;
      '(ds, a) ← getDirents a idxs;
      mret (d :: ds, a)
  end.

Lemma getDirents_spec idxs ds a :
  same_archive a0 a -> accessor_ok a -> Forall2 (fun i d => entry_of a0 i = Ok d) idxs ds ->
  exists a', getDirents a idxs = Ok (ds, a').
Proof.
  intros Hs Ha Hds. revert a Hs Ha. induction Hds as [|i d idxs ds Hd _ IH]; intros a Hs Ha; cbn [getDirents].
  { by eexists. }
  destruct (getDirent_spec a i d Hs Ha Hd) as (a1 & -> & Hs1 & Ha1). cbn [mbind outcome_bind].
  destruct (IH a1 Hs1 Ha1) as (a2 & ->). by eexists.
Qed.

End transparent.
End accessors.

(** * Properties *)

(** C29. The entry cache and the vector of the [DirentReader] are invisible:
    whatever the size of the cache and the sequence of indices asked for, with
    repetitions, [getDirent] returns each time the entry that parsing the
    archive at the offset of the pointer table gives. *)
Theorem accessor_cache_invisible `{Reader R} (r : R) (ptrs : BufferReader) (count : Z) (cacheSize : nat)
    (idxs : list Z) (ds : list Dirent.t) :
  (forall off n data, r_read r off n = Ok data -> Zlen data = n) -> r_size r < 2 ^ 63 ->
  let a := DirectDirentAccessor_new r ptrs count cacheSize in
  Forall2 (fun i d => entry_of a i = Ok d) idxs ds ->
  exists a', getDirents a idxs = Ok (ds, a').
Proof.
  intros Hlen Hsz a Hds. apply (getDirents_spec a Hlen Hsz idxs ds a); [done| |done].
  split; [apply lru_inv_new|constructor].
Qed.

(** * Witnesses *)

(** Two entries one after the other, and their table. *)
Definition two_dirents : bytes :=
  dirent_bytes 0 67 0 [0; 0] (lit "a") (lit "A") ++ dirent_bytes 0xffff 67 0 [0] (lit "b") [].
Definition two_pointers : BufferReader :=
  mkBufferReader (mkBuffer (toLittleEndian 8 0 ++ toLittleEndian 8 20) 0 16).

Lemma accessor_cache_invisible_witness :
  exists ds a', getDirents (DirectDirentAccessor_new (memory_reader (two_dirents ++ repeat 0 512)) two_pointers 2 1)
    [0; 1; 1; 0] = Ok (ds, a') /\ map Dirent.getTitle ds = [lit "A"; lit "b"; lit "b"; lit "A"].
Proof.
  set (a := DirectDirentAccessor_new (memory_reader (two_dirents ++ repeat 0 512)) two_pointers 2 1).
  set (d0 := Dirent.mk 0 0 0 0 0 67 (lit "A") (lit "a") []).
  set (d1 := Dirent.mk 0xffff 0 0 0 0 67 [] (lit "b") []).
  destruct (accessor_cache_invisible (memory_reader (two_dirents ++ repeat 0 512)) two_pointers 2 1
    [0; 1; 1; 0] [d0; d1; d1; d0]) as (a' & E).
  - apply memory_read_length.
  - by vm_compute.
  - repeat constructor; by vm_compute.
  - exists [d0; d1; d1; d0], a'. split; [exact E|by vm_compute].
Defined.
