(* ===== verification/FileImpl.v ===== *)
(** An open archive ([fileimpl.h], [fileimpl.cpp]).

    [FileImpl] is the state of the C++ object; its operations run in [FM], which
    keeps the state an exception leaves. Dirents are read through the promise of
    the accessor ([Accessors.entry_of]): its cache is invisible. Clusters are
    shared mutable objects: [clusters] holds them, a [ClusterHandle] is a
    position in it, and the cluster cache holds futures of handles. *)

From Stdlib Require Import Ascii.
From stdpp Require Import gmap sorting strings.
From S2P Require Import Prelude.
From S2P Require Import Types.
From S2P Require Import Readers.
From S2P Require Import Files.
From S2P Require Import Compression.
From S2P Require Import Streams.
From S2P Require Import Header.
From S2P Require Import Md5.
From S2P Require Import Dirent.
From S2P Require Import Cluster.
From S2P Require Import Lru.
From S2P Require Import NarrowDown.
From S2P Require Import Lookup.
From S2P Require Import Tools.
From S2P Require Import Accessors.

Definition DIRENT_CACHE_SIZE : Z := 512.
Definition DIRENT_LOOKUP_CACHE_SIZE : Z := 1024.
Definition CLUSTER_CACHE_SIZE : Z := 16.

Section fileimpl.
Context `{OS} `{LzmaLib} `{ZstdLib} `{Env}.

Record FileImpl : Type := mkFileImpl {
  zimFile : FileCompound;
  archiveStartOffset : Z;
  zimReader : AnyReader;
  header : Fileheader;
  clusterOffsetReader : BufferReader;
  mp_urlDirentAccessor : @DirectDirentAccessor AnyReader;
  mp_titleDirentAccessor : option IndirectDirentAccessor;
  clusterCache : @lru_cache Z _ _ nat;      (* futures, by cluster number *)
  futures : list (option nat);              (* the handle, or a broken promise *)
  clusters : list Cluster;
  m_newNamespaceScheme : bool;
  m_startUserEntry : Z;
  m_endUserEntry : Z;
  mimeTypes : list bytes;
  articleListByCluster : list (Z * Z);
  orderOnceFlag : bool;
  m_direntLookup : option DirentLookup;
}.

Abbreviation FM := (stm FileImpl).

(** Assignments to the fields. *)
Definition with_title (a : option IndirectDirentAccessor) (f : FileImpl) : FileImpl :=
  mkFileImpl (zimFile f) (archiveStartOffset f) (zimReader f) (header f) (clusterOffsetReader f)
    (mp_urlDirentAccessor f) a (clusterCache f) (futures f) (clusters f) (m_newNamespaceScheme f)
    (m_startUserEntry f) (m_endUserEntry f) (mimeTypes f) (articleListByCluster f) (orderOnceFlag f) (m_direntLookup f).
Definition with_clusters (cc : @lru_cache Z _ _ nat) (fs : list (option nat)) (cs : list Cluster) (f : FileImpl) : FileImpl :=
  mkFileImpl (zimFile f) (archiveStartOffset f) (zimReader f) (header f) (clusterOffsetReader f)
    (mp_urlDirentAccessor f) (mp_titleDirentAccessor f) cc fs cs (m_newNamespaceScheme f)
    (m_startUserEntry f) (m_endUserEntry f) (mimeTypes f) (articleListByCluster f) (orderOnceFlag f) (m_direntLookup f).
Definition with_scheme (ns : bool) (b e : Z) (f : FileImpl) : FileImpl :=
  mkFileImpl (zimFile f) (archiveStartOffset f) (zimReader f) (header f) (clusterOffsetReader f)
    (mp_urlDirentAccessor f) (mp_titleDirentAccessor f) (clusterCache f) (futures f) (clusters f) ns
    b e (mimeTypes f) (articleListByCluster f) (orderOnceFlag f) (m_direntLookup f).
Definition with_mimeTypes (m : list bytes) (f : FileImpl) : FileImpl :=
  mkFileImpl (zimFile f) (archiveStartOffset f) (zimReader f) (header f) (clusterOffsetReader f)
    (mp_urlDirentAccessor f) (mp_titleDirentAccessor f) (clusterCache f) (futures f) (clusters f) (m_newNamespaceScheme f)
    (m_startUserEntry f) (m_endUserEntry f) m (articleListByCluster f) (orderOnceFlag f) (m_direntLookup f).
Definition with_articles (l : list (Z * Z)) (once : bool) (f : FileImpl) : FileImpl :=
  mkFileImpl (zimFile f) (archiveStartOffset f) (zimReader f) (header f) (clusterOffsetReader f)
    (mp_urlDirentAccessor f) (mp_titleDirentAccessor f) (clusterCache f) (futures f) (clusters f) (m_newNamespaceScheme f)
    (m_startUserEntry f) (m_endUserEntry f) (mimeTypes f) l once (m_direntLookup f).
Definition with_lookup (t : DirentLookup) (f : FileImpl) : FileImpl :=
  mkFileImpl (zimFile f) (archiveStartOffset f) (zimReader f) (header f) (clusterOffsetReader f)
    (mp_urlDirentAccessor f) (mp_titleDirentAccessor f) (clusterCache f) (futures f) (clusters f) (m_newNamespaceScheme f)
    (m_startUserEntry f) (m_endUserEntry f) (mimeTypes f) (articleListByCluster f) (orderOnceFlag f) (Some t).

(** ** Readers of the sections *)

(** The helper [readOffset]. *)
Definition readOffset (reader : BufferReader) (idx : Z) : outcome Z :=
  read_uint 8 reader (u64 (8 * idx)).

Definition sectionSubReader (zimReader : AnyReader) (sectionName : string) (offset size : Z) : outcome BufferReader :=
  if can_read zimReader offset size then
    buf ← r_get_buffer zimReader offset size;
    mret (mkBufferReader buf)
  else Throw (ZimFileFormatError (sectionName +:+ " outside (or not fully inside) ZIM file.")).

(** [None] is the null pointer. *)
Definition makeFileReader (zimFile : FileCompound) (offset size : Z) : outcome (option AnyReader) :=
  match fc_parts zimFile with
  | [] => mret None
  | (_, firstAndOnlyPart) :: _ =>
      if fc_is_multiPart zimFile then
        ASSERT (offset =? 0) ;;
        ASSERT (size =? fc_fsize zimFile) ;;
        r ← Multi_whole zimFile; mret (Some (AMulti r))
      else mret (Some (AFile (mkFileReader (fp_fhandle firstAndOnlyPart) offset size)))
  end.

(** ** Simple observers *)

Definition getCountArticles (f : FileImpl) : Z := articleCount (header f).
Definition getCountClusters (f : FileImpl) : Z := clusterCount (header f).
Definition getFilesize (f : FileImpl) : Z := r_size (zimReader f).
Definition getUserEntryCount (f : FileImpl) : Z := u32 (m_endUserEntry f - m_startUserEntry f).
Definition is_multiPart (f : FileImpl) : bool := fc_is_multiPart (zimFile f).
Definition getFilename (f : FileImpl) : bytes := fc_filename (zimFile f).

Definition getFileParts (f : FileImpl) (offset size : Z) : nat * nat := locate_range (zimFile f) offset size.

(** ** Entries *)

Definition dirent_of (f : FileImpl) (idx : Z) : outcome Dirent.t := entry_of (mp_urlDirentAccessor f) idx.

Definition FileImpl_getDirent (idx : Z) : FM Dirent.t :=
  f ← gets id; lift (dirent_of f idx).

(** Through the title accessor; a null one is undefined. *)
Definition getIndexByTitle (idx : Z) : FM Z :=
  f ← gets id;
  match mp_titleDirentAccessor f with
  | Some t => lift (getDirectIndex t idx)
  | None => lift Undef
  end.

Definition getDirentByTitle (idx : Z) : FM Dirent.t :=
  f ← gets id;
  match mp_titleDirentAccessor f with
  | Some t => lift (title_entry_of t (mp_urlDirentAccessor f) idx)
  | None => lift Undef
  end.

(** [direntLookup()]: built at the first use. *)
Definition direntLookup : FM DirentLookup :=
  f ← gets id;
  match m_direntLookup f with
  | Some t => mret t
  | None =>
      let cacheSize := envValue (lit "ZIM_DIRENTLOOKUPCACHE") DIRENT_LOOKUP_CACHE_SIZE in
      t ← lift (DirentLookup_new (m_direntCount (mp_urlDirentAccessor f)) (dirent_of f) cacheSize);
      modify (with_lookup t) ;;
      mret t
  end.

(** [findx(ns, url)]. *)
Definition findx (ns : Z) (url : bytes) : FM (bool * Z) :=
  t ← direntLookup;
  f ← gets id;
  lift (Lookup.find (dirent_of f) t ns url).

(** [findx(url)]. *)
Definition findx_long (url : bytes) : FM (bool * Z) :=
  catching ('(ns, path) ← lift (parseLongPath url); findx ns path)
    (fun _ => true) (fun _ => mret (false, 0)).

Definition FileImpl_getNamespaceBeginOffset (ch : Z) : FM Z :=
  t ← direntLookup;
  f ← gets id;
  '(i, t) ← lift (getNamespaceRangeBegin (m_direntCount (mp_urlDirentAccessor f)) (dirent_of f) t ch);
  modify (with_lookup t) ;;
  mret i.

Definition FileImpl_getNamespaceEndOffset (ch : Z) : FM Z :=
  t ← direntLookup;
  f ← gets id;
  '(i, t) ← lift (getNamespaceRangeEnd (m_direntCount (mp_urlDirentAccessor f)) (dirent_of f) t ch);
  modify (with_lookup t) ;;
  mret i.

Definition direntCompareTitle (ns : Z) (title : bytes) (dirent : Dirent.t) : comparison :=
  let direntNs := Dirent.getNamespace dirent in
  if schar ns <? schar direntNs then Lt
  else if schar direntNs <? schar ns then Gt
  else str_cmp title (Dirent.getTitle dirent).

Fixpoint findxByTitle_loop (fuel : nat) (ns : Z) (title : bytes) (l u : Z) : FM (bool * Z * Z) :=
  if 1 <? u32 (u - l) then
    match fuel with
    | O => lift Diverge
    | S fuel =>
        let p := u32 (l + u32 (u - l) / 2) in
        d ← getDirentByTitle p;
        match direntCompareTitle ns title d with
        | Lt => findxByTitle_loop fuel ns title l p
        | Gt => findxByTitle_loop fuel ns title p u
        | Eq => mret (true, p, u)
        end
    end
  else mret (false, l, u).

Definition title_count (f : FileImpl) : outcome Z :=
  match mp_titleDirentAccessor f with Some t => mret (t_direntCount t) | None => Undef end.

Definition findxByTitle (ns : Z) (title : bytes) : FM (bool * Z) :=
  f ← gets id;
  u ← lift (title_count f);
  if 0 =? u then mret (false, 0)
  else
    '(ok, l, u) ← findxByTitle_loop (Z.to_nat u) ns title 0 u;
    if (ok : bool) then mret (true, l)
    else
      d ← getDirentByTitle l;
      match direntCompareTitle ns title d with
      | Eq => mret (true, l)
      | Lt => mret (false, l)
      | Gt => mret (false, u)
      end.

(** ** Clusters *)

Definition getClusterOffset (idx : Z) : FM Z :=
  f ← gets id; lift (readOffset (clusterOffsetReader f) idx).

(** A new shared object. *)
Definition new_cluster (c : Cluster) : FM nat :=
  f ← gets id;
  modify (with_clusters (clusterCache f) (futures f) (clusters f ++ [c])) ;;
  mret (length (clusters f)).

Definition readCluster (idx : Z) : FM nat :=
  clusterOffset ← getClusterOffset idx;
  f ← gets id;
  c ← lift (Cluster_read (zimReader f) clusterOffset);
  new_cluster c.

(** [clusterCache.getOrPut(key, f)] in one thread: a future that is in the cache is
    already resolved, or its promise was broken by a call that threw. *)
Definition clusterCache_getOrPut (key : Z) (load : FM nat) : FM nat :=
  f ← gets id;
  '(x, cache) ← lift (Lru.getOrPut (clusterCache f) key (length (futures f)));
  if miss x then
    modify (with_clusters cache (futures f ++ [None]) (clusters f)) ;;
    h ← load;
    modify (fun f' => with_clusters (clusterCache f') (<[length (futures f) := Some h]> (futures f')) (clusters f') f') ;;
    mret h
  else
    modify (with_clusters cache (futures f) (clusters f)) ;;
    id ← lift (value x);
    match futures f !! id with
    | Some (Some h) => mret h
    | Some None => lift (Throw (future_error "broken promise"))
    | None => lift Undef
    end.

Definition getCluster (idx : Z) : FM nat :=
  f ← gets id;
  if getCountClusters f <=? idx then lift (Throw (ZimFileFormatError "cluster index out of range"))
  else clusterCache_getOrPut idx (readCluster idx).

(** A call on the cluster of a handle. *)
Definition on_cluster {A} (h : nat) (op : Cluster -> outcome (A * Cluster)) : FM A :=
  f ← gets id;
  match clusters f !! h with
  | Some c =>
      '(a, c) ← lift (op c);
      modify (fun f' => with_clusters (clusterCache f') (futures f') (<[h := c]> (clusters f')) f') ;;
      mret a
  | None => lift Undef
  end.

Definition observe_cluster {A} (h : nat) (op : Cluster -> outcome A) : FM A :=
  on_cluster h (fun c => a ← op c; mret (a, c)).

Definition FileImpl_getBlobOffset (clusterIdx blobIdx : Z) : FM Z :=
  h ← getCluster clusterIdx;
  compressed ← observe_cluster h (fun c => mret (isCompressed c));
  if (compressed : bool) then mret 0
  else
    a ← getClusterOffset clusterIdx;
    b ← observe_cluster h (fun c => getBlobOffset c blobIdx);
    mret (off_add a b).

(** ** The title listing *)

(** [getTitleAccessor(offset, size, name)]. *)
Definition getTitleAccessor (offset size : Z) (name : string) : FM IndirectDirentAccessor :=
  f ← gets id;
  titleIndexReader ← lift (sectionSubReader (zimReader f) name offset size);
  mret (mkIndirect titleIndexReader (u32 (size / 4))).

(** [getTitleAccessor(path)]; [None] is the null pointer. *)
Definition getTitleAccessor_path (path : bytes) : FM (option IndirectDirentAccessor) :=
  result ← findx (chr "X") path;
  if (result : bool * Z).1 then
    dirent ← FileImpl_getDirent result.2;
    cluster ← getCluster (Dirent.getClusterNumber dirent);
    compressed ← observe_cluster cluster (fun c => mret (isCompressed c));
    if (compressed : bool) then mret None
    else
      clusterOffset ← getClusterOffset (Dirent.getClusterNumber dirent);
      blobOffset ← observe_cluster cluster (fun c => getBlobOffset c (Dirent.getBlobNumber dirent));
      titleSize ← observe_cluster cluster (fun c => getBlobSize c (Dirent.getBlobNumber dirent));
      a ← getTitleAccessor (off_add clusterOffset blobOffset) titleSize "Title index table";
      mret (Some a)
  else mret None.

(** ** The header checks and the MIME types *)

Definition quickCheckForCorruptFile : FM unit :=
  f ← gets id;
  (if getCountClusters f =? 0 then mret tt
   else
     lastOffset ← getClusterOffset (u32 (getCountClusters f - 1));
     lift (throw_when (getFilesize f <? lastOffset)
       (ZimFileFormatError "last cluster offset larger than file size; file corrupt"))) ;;
  lift (throw_when (hasChecksum (header f) && negb (getChecksumPos (header f) =? u64 (getFilesize f - 16)))
    (ZimFileFormatError "Checksum position is not valid")).

Definition getMimeListEndUpperLimit : FM Z :=
  f ← gets id;
  let result := Z.min (Z.min (urlPtrPos (header f)) (titleIdxPos (header f))) (clusterPtrPos (header f)) in
  if getCountArticles f =? 0 then mret result
  else
    a ← lift (getOffset (mp_urlDirentAccessor f) 0);
    b ← lift (readOffset (clusterOffsetReader f) 0);
    mret (Z.min (Z.min result a) b).

(** [while ( *p != '\0')] over the buffer [mem], of which the list occupies the
    bytes up to [bufferEnd]. Every string takes a byte at least. *)
Fixpoint mime_loop (fuel : nat) (mem : bytes) (p bufferEnd : Z) (acc : list bytes) : outcome (list bytes) :=
  c ← mem_get mem p;
  if c =? 0 then mret acc
  else match fuel with
  | O => Diverge
  | S fuel =>
      rest ← mem_read mem p (bufferEnd - p);
      match list_find (fun b => b = 0) rest with
      | None => Throw (ZimFileFormatError "Error getting mimelists.")
      | Some (len, _) =>
          let mimeType := take len rest in
          mime_loop fuel mem (p + Z.of_nat len + 1) bufferEnd (acc ++ [mimeType])
      end
  end.

Definition readMimeTypes : FM unit :=
  endMimeList ← getMimeListEndUpperLimit;
  f ← gets id;
  lift (throw_when (endMimeList <=? mimeListPos (header f)) (ZimFileFormatError "Bad ZIM archive")) ;;
  let size := u64 (endMimeList - mimeListPos (header f)) in
  buffer ← lift (r_get_buffer (zimReader f) (mimeListPos (header f)) size);
  p ← lift (Buffer_data buffer 0);
  types ← lift (mime_loop (Z.to_nat size) (m_mem buffer) p (p + size) (mimeTypes f));
  modify (with_mimeTypes types) ;;
  let newScheme := 1 <=? minorVersion (header f) in
  modify (with_scheme newScheme (m_startUserEntry f) (m_endUserEntry f)) ;;
  if newScheme then
    b ← FileImpl_getNamespaceBeginOffset (chr "C");
    modify (with_scheme newScheme b (m_endUserEntry f)) ;;
    e ← FileImpl_getNamespaceEndOffset (chr "C");
    modify (with_scheme newScheme b e)
  else modify (with_scheme newScheme (m_startUserEntry f) (getCountArticles f)).

Definition getMimeType (f : FileImpl) (idx : Z) : outcome bytes :=
  match mimeTypes f !! Z.to_nat idx with
  | Some m => mret m
  | None => Throw (ZimFileFormatError "unknown mime type code")
  end.

(** ** Opening *)

(** The exceptions [header.read] is rethrown as. *)
Definition read_header_of (r : AnyReader) : outcome Fileheader :=
  match Fileheader_read r with
  | Throw (ZimFileFormatError e) => Throw (ZimFileFormatError e)
  | Throw _ => Throw (ZimFileFormatError "error reading zim-file header.")
  | o => o
  end.

(** The body of the constructor after the accessors are made. *)
Definition FileImpl_init : FM unit :=
  quickCheckForCorruptFile ;;
  a ← getTitleAccessor_path (lit "listing/titleOrdered/v1");
  modify (with_title a) ;;
  match a with
  | Some _ => readMimeTypes
  | None =>
      f ← gets id;
      let titleSize := u64 (4 * articleCount (header f)) in
      t ← getTitleAccessor (titleIdxPos (header f)) titleSize "Title index table";
      modify (with_title (Some t)) ;;
      readMimeTypes
  end.

(** The constructor [FileImpl(zimFile, offset, size)]. *)
Definition FileImpl_new (zimFile : FileCompound) (offset size : Z) : outcome FileImpl :=
  reader ← makeFileReader zimFile offset size;
  match reader with
  | None => Throw (ZimFileFormatError "can't open zim-file")
  | Some zimReader =>
      throw_when (r_size zimReader <? Fileheader_size)
        (ZimFileFormatError "zim-file is too small to contain a header") ;;
      header ← read_header_of zimReader;
      urlPtrReader ← sectionSubReader zimReader "Dirent pointer table" (urlPtrPos header)
                       (u64 (8 * articleCount header));
      clusterOffsetReader ← sectionSubReader zimReader "Cluster pointer table" (clusterPtrPos header)
                              (u64 (8 * clusterCount header));
      let direntCache := Z.to_nat (envValue (lit "ZIM_DIRENTCACHE") DIRENT_CACHE_SIZE) in
      let clusterCache := lru_new (Z.to_nat (envValue (lit "ZIM_CLUSTERCACHE") CLUSTER_CACHE_SIZE)) in
      let accessor := DirectDirentAccessor_new zimReader urlPtrReader (articleCount header) direntCache in
      match FileImpl_init (mkFileImpl zimFile offset zimReader header clusterOffsetReader accessor None
              clusterCache [] [] false 0 0 [] [] false None) with
      | (Ok _, f) => Ok f
      | (Throw e, _) => Throw e
      | (Undef, _) => Undef
      | (Diverge, _) => Diverge
      end
  end.

(** [FileImpl(fname)], [FileImpl(fd)] and [FileImpl(fd, offset, size)]. *)
Definition FileImpl_open (fname : bytes) : outcome FileImpl :=
  zimFile ← FileCompound_new fname; FileImpl_new zimFile 0 (fc_fsize zimFile).
Definition FileImpl_open_fd (fd : Z) : outcome FileImpl :=
  zimFile ← FileCompound_fd fd; FileImpl_new zimFile 0 (fc_fsize zimFile).
Definition FileImpl_open_embedded (fd offset size : Z) : outcome FileImpl :=
  zimFile ← FileCompound_fd fd; FileImpl_new zimFile offset size.

(** ** The order of the clusters *)

(** The loop under [call_once]: what it pushed stays when it throws. *)
Fixpoint cluster_order_loop (fuel : nat) (i endIdx : Z) : FM unit :=
  if i <? endIdx then
    match fuel with
    | O => lift Diverge
    | S fuel =>
        f ← gets id;
        indexOffset ← lift (getOffset (mp_urlDirentAccessor f) i);
        mimeType ← lift (read_uint 2 (zimReader f) indexOffset);
        (if (mimeType =? Dirent.redirectMimeType) || (mimeType =? Dirent.linktargetMimeType)
            || (mimeType =? Dirent.deletedMimeType) then
           modify (with_articles (articleListByCluster f ++ [(0, i)]) (orderOnceFlag f))
         else
           clusterNumber ← lift (read_uint 4 (zimReader f) (off_add indexOffset 8));
           modify (with_articles (articleListByCluster f ++ [(clusterNumber, i)]) (orderOnceFlag f))) ;;
        cluster_order_loop fuel (u32 (i + 1)) endIdx
    end
  else mret tt.

(** [operator<=] of the pairs [std::sort] orders. *)
Definition pair_le (x y : Z * Z) : Prop := x.1 < y.1 \/ x.1 = y.1 /\ x.2 <= y.2.

#[export] Instance pair_le_dec : RelDecision pair_le.
Proof. intros x y. unfold pair_le. solve_decision. Defined.

Definition order_once : FM unit :=
  f ← gets id;
  if orderOnceFlag f then mret tt
  else
    cluster_order_loop (Z.to_nat (m_endUserEntry f)) (m_startUserEntry f) (m_endUserEntry f) ;;
    f ← gets id;
    modify (with_articles (merge_sort pair_le (articleListByCluster f)) true).

Definition getIndexByClusterOrder (idx : Z) : FM Z :=
  order_once ;;
  f ← gets id;
  match articleListByCluster f !! Z.to_nat idx with
  | Some p => mret p.2
  | None => lift (Throw entry_out_of_range)
  end.

(** ** The checksum *)

Fixpoint checksum_hex (chksum : Buffer) (i : nat) : outcome bytes :=
  match i with
  | O => mret []
  | S i =>
      v ← Buffer_at chksum (15 - Z.of_nat i);
      r ← checksum_hex chksum i;
      mret (nth (Z.to_nat (Z.shiftr v 4)) hex 0 :: nth (Z.to_nat (Z.land v 0xf)) hex 0 :: r)
  end.

Definition getChecksum (f : FileImpl) : outcome bytes :=
  if negb (hasChecksum (header f)) then mret []
  else
    try_catch (chksum ← r_get_buffer (zimReader f) (getChecksumPos (header f)) 16; checksum_hex chksum 16)
      (fun _ => true) (fun _ => mret []).

(** One part, byte by byte, up to the checksum. *)
Fixpoint verify_bytes (stream : bytes) (md5ctx : zim_MD5_CTX) (currentPos checksumPos : Z) :
    outcome (zim_MD5_CTX * Z) :=
  if currentPos <? checksumPos then
    match stream with
    | [] => mret (md5ctx, currentPos)
    | ch :: stream =>
        md5ctx ← zim_MD5Update md5ctx [ch] 1;
        verify_bytes stream md5ctx (u64 (currentPos + 1)) checksumPos
    end
  else mret (md5ctx, currentPos).

(** The parts are opened by name; one that cannot be opened has no byte. *)
Fixpoint verify_parts (parts : list (Range * FilePart)) (md5ctx : zim_MD5_CTX) (currentPos checksumPos : Z) :
    outcome (zim_MD5_CTX * Z) :=
  match parts with
  | [] => mret (md5ctx, currentPos)
  | (_, part) :: parts =>
      let stream := match os_open (fp_filename part) with Some l => l | None => [] end in
      '(md5ctx, currentPos) ← verify_bytes stream md5ctx currentPos checksumPos;
      if currentPos =? checksumPos then mret (md5ctx, currentPos)
      else verify_parts parts md5ctx currentPos checksumPos
  end.

(** [garbage] is the uninitialised buffer of the MD5 context. *)
Definition verify (garbage : bytes) (f : FileImpl) : outcome bool :=
  if negb (hasChecksum (header f)) then mret false
  else
    let checksumPos := getChecksumPos (header f) in
    '(md5ctx, currentPos) ← verify_parts (fc_parts (zimFile f)) (zim_MD5Init garbage) 0 checksumPos;
    if negb (currentPos =? checksumPos) then mret false
    else
      chksumFile ← r_get_buffer (zimReader f) (getChecksumPos (header f)) 16;
      chksumCalc ← zim_MD5Final md5ctx;
      data ← mem_read (m_mem chksumFile) (m_ptr chksumFile) 16;
      mret (bool_decide (data = chksumCalc)).

(** ** The integrity checks *)

(** [for (i = 0; i < n; ++i)] that stops with [false] at the first failing
    index. *)
Fixpoint check_from (n : nat) (i : Z) (ok : Z -> outcome bool) : outcome bool :=
  match n with
  | O => mret true
  | S n => b ← ok i; if (b : bool) then check_from n (u32 (i + 1)) ok else mret false
  end.

Definition validRangeEnd (f : FileImpl) : Z :=
  if hasChecksum (header f) then getChecksumPos (header f) else r_size (zimReader f).

Definition ptr_ok (f : FileImpl) (minSize offset : Z) : bool :=
  negb ((offset <? 80) || (validRangeEnd f <? off_add offset minSize)).

Definition checkDirentPtrs (f : FileImpl) : outcome bool :=
  check_from (Z.to_nat (getCountArticles f)) 0 (fun i =>
    offset ← getOffset (mp_urlDirentAccessor f) i; mret (ptr_ok f 11 offset)).

Definition checkClusterPtrs (f : FileImpl) : outcome bool :=
  check_from (Z.to_nat (getCountClusters f)) 0 (fun i =>
    offset ← readOffset (clusterOffsetReader f) i; mret (ptr_ok f 1 offset)).

(** The loops that compare every entry with the one before. *)
Fixpoint order_from (n : nat) (i : Z) (get : Z -> outcome Dirent.t) (in_order : Dirent.t -> Dirent.t -> bool)
    (prev : option Dirent.t) : outcome bool :=
  match n with
  | O => mret true
  | S n =>
      d ← get i;
      if match prev with Some p => negb (in_order p d) | None => false end then mret false
      else order_from n (u32 (i + 1)) get in_order (Some d)
  end.

Definition checkDirentOrder (f : FileImpl) : outcome bool :=
  order_from (Z.to_nat (getCountArticles f)) 0 (dirent_of f)
    (fun p d => str_ltb (Dirent.getLongUrl p) (Dirent.getLongUrl d)) None.

Definition pseudoTitle (d : Dirent.t) : bytes := [Dirent.getNamespace d] ++ lit "/" ++ Dirent.getTitle d.

(** An index entry out of range stops the check before the entry is read. *)
Fixpoint checkTitleListing_loop (n : nat) (i : Z) (f : FileImpl) (t : IndirectDirentAccessor) (totalCount : Z)
    (prev : option Dirent.t) : outcome bool :=
  match n with
  | O => mret true
  | S n =>
      index ← getDirectIndex t i;
      if totalCount <=? index then mret false
      else
        d ← title_entry_of t (mp_urlDirentAccessor f) i;
        if match prev with Some p => negb (str_leb (pseudoTitle p) (pseudoTitle d)) | None => false end then mret false
        else checkTitleListing_loop n (u32 (i + 1)) f t totalCount (Some d)
  end.

Definition checkTitleListing (f : FileImpl) (t : IndirectDirentAccessor) (totalCount : Z) : outcome bool :=
  checkTitleListing_loop (Z.to_nat (t_direntCount t)) 0 f t totalCount None.

Definition checkTitleIndex : FM bool :=
  f ← gets id;
  let count := getCountArticles f in
  t ← getTitleAccessor (titleIdxPos (header f)) (u64 (4 * articleCount (header f))) "Full Title index table";
  ret ← lift (checkTitleListing f t count);
  t ← getTitleAccessor_path (lit "listing/titleOrdered/v1");
  match t with
  | Some t => b ← lift (checkTitleListing f t count); mret (andb ret b)
  | None => mret ret
  end.

Definition checkDirentMimeTypes (f : FileImpl) : outcome bool :=
  check_from (Z.to_nat (getCountArticles f)) 0 (fun i =>
    dirent ← dirent_of f i;
    mret (negb (Dirent.isArticle dirent && (Zlen (mimeTypes f) <=? Dirent.getMimeType dirent)))).

Definition checkIntegrity (garbage : bytes) (checkType : IntegrityCheck) : FM bool :=
  f ← gets id;
  match checkType with
  | CHECKSUM => lift (verify garbage f)
  | DIRENT_PTRS => lift (checkDirentPtrs f)
  | DIRENT_ORDER => lift (checkDirentOrder f)
  | TITLE_INDEX => checkTitleIndex
  | CLUSTER_PTRS => lift (checkClusterPtrs f)
  | DIRENT_MIMETYPES => lift (checkDirentMimeTypes f)
  | COUNT => ASSERT_false ← lift (ASSERT false); mret false
  end.

(** * Looking up by title *)

Section title.
Context (f : FileImpl) (t : IndirectDirentAccessor) (ts : list Dirent.t).

Definition titleKey (d : Dirent.t) : bytes := Dirent.getNamespace d :: Dirent.getTitle d.
Definition title_at (i : Z) : bytes := from_option titleKey [] (ts !! Z.to_nat i).

(** The title listing of [f] serves the entries [ts], sorted by namespace and title. *)
Record title_table : Prop := {
  tt_accessor : mp_titleDirentAccessor f = Some t;
  tt_count : t_direntCount t = Zlen ts;
  tt_bound : Zlen ts < 2 ^ 31;
  tt_get : forall i d, 0 <= i -> ts !! Z.to_nat i = Some d -> title_entry_of t (mp_urlDirentAccessor f) i = Ok d;
  tt_ascii : Forall (fun d => 0 < Dirent.ns d < 128) ts;
  tt_sorted : forall i j, 0 <= i -> i <= j -> j < Zlen ts -> str_le (title_at i) (title_at j);
}.

Definition title_found (q : bytes) (r : bool * Z) : Prop :=
  if r.1 then 0 <= r.2 < Zlen ts /\ title_at r.2 = q
  else 0 <= r.2 <= Zlen ts /\ (forall j, 0 <= j < r.2 -> str_lt (title_at j) q) /\
       (forall j, r.2 <= j < Zlen ts -> str_lt q (title_at j)).

Hypothesis Htt : title_table.

Lemma title_lookup i : 0 <= i < Zlen ts -> exists d, getDirentByTitle i f = (Ok d, f) /\
  title_at i = titleKey d /\ 0 < Dirent.ns d < 128.
Proof.
  intros Hi. destruct (lookup_lt_is_Some_2 ts (Z.to_nat i)) as [d Hd]; [unfold Zlen in Hi; lia|].
  exists d. unfold getDirentByTitle, gets, mbind, stm_bind, lift, id. rewrite (tt_accessor Htt).
  rewrite (tt_get Htt i d) by (done || lia). unfold title_at. rewrite Hd.
  pose proof (tt_ascii Htt) as Ha. rewrite Forall_lookup in Ha. split; [done|]. split; [done|]. by eapply Ha.
Qed.

Lemma direntCompareTitle_ascii c title d :
  0 <= c < 128 -> 0 < Dirent.ns d < 128 -> direntCompareTitle c title d = str_cmp (c :: title) (titleKey d).
Proof.
  intros Hc Hd. unfold direntCompareTitle, titleKey, Dirent.getNamespace.
  rewrite !schar_ascii by lia. cbn [str_cmp].
  destruct (Z.compare_spec c (Dirent.ns d)) as [->|Hlt|Hgt].
  - by rewrite !Z.ltb_irrefl.
  - by rewrite (proj2 (Z.ltb_lt _ _)) by done.
  - rewrite (proj2 (Z.ltb_ge c _)) by lia. by rewrite (proj2 (Z.ltb_lt _ c)) by done.
Qed.

Lemma str_cmp_Gt a b : str_cmp a b = Gt -> str_lt b a.
Proof. unfold str_lt. intros E. by rewrite str_cmp_antisym, E. Qed.

Lemma findxByTitle_loop_spec fuel c title l u :
  0 <= c < 128 -> 0 <= l < u -> u <= Zlen ts -> u - l <= Z.of_nat fuel ->
  (0 < l -> str_lt (title_at l) (c :: title)) -> (u < Zlen ts -> str_lt (c :: title) (title_at u)) ->
  (exists p u', findxByTitle_loop fuel c title l u f = (Ok (true, p, u'), f) /\
     0 <= p < Zlen ts /\ title_at p = c :: title) \/
  (exists p, findxByTitle_loop fuel c title l u f = (Ok (false, p, p + 1), f) /\ 0 <= p < Zlen ts /\
     (0 < p -> str_lt (title_at p) (c :: title)) /\ (p + 1 < Zlen ts -> str_lt (c :: title) (title_at (p + 1)))).
Proof.
  intros Hc. pose proof (tt_bound Htt) as Hn. revert l u.
  induction fuel as [|fuel IH]; intros l u Hlu Hun Hfuel Hl Hu; [lia|cbn [findxByTitle_loop]].
  rewrite (u32_small (u - l)) by lia. destruct (Z.ltb_spec 1 (u - l)) as [Hlt|Hge].
  2:{ right. exists l. assert (u = l + 1) as -> by lia. split_and!; auto; lia. }
  assert (Hh : 0 < (u - l) / 2 < u - l)
    by (split; [assert (1 <= (u - l) / 2) by (apply Z.div_le_lower_bound; lia); lia|apply Z.div_lt; lia]).
  rewrite u32_small by lia. revert Hh. generalize ((u - l) / 2). intros h Hh.
  assert (Hp : l < l + h < u) by lia. revert Hp. generalize (l + h). clear h Hh. intros p Hp.
  destruct (title_lookup p) as (d & Ed & Ep & Hd); [lia|].
  unfold mbind at 1 2, stm_bind at 1 2. rewrite Ed, direntCompareTitle_ascii, <- Ep by done.
  destruct (str_cmp (c :: title) (title_at p)) eqn:E.
  - left. exists p, u. apply str_cmp_eq in E. split_and!; [done|lia|lia|done].
  - apply IH; auto; lia.
  - apply IH; auto using str_cmp_Gt; lia.
Qed.

Lemma findxByTitle_found c title :
  0 <= c < 128 -> exists r, findxByTitle c title f = (Ok r, f) /\ title_found (c :: title) r.
Proof.
  intros Hc. pose proof (Zlen_nonneg ts) as Hts. pose proof (tt_bound Htt) as Hn.
  unfold findxByTitle, gets, id. unfold mbind at 1, stm_bind at 1. unfold mbind at 1, stm_bind at 1.
  unfold lift at 1, title_count. rewrite (tt_accessor Htt), (tt_count Htt). cbn [mret outcome_ret].
  destruct (Z.eqb_spec 0 (Zlen ts)) as [E|Hne].
  { exists (false, 0). split; [done|]. unfold title_found. cbn [fst snd]. split_and!; lia. }
  unfold mbind at 1, stm_bind at 1.
  destruct (findxByTitle_loop_spec (Z.to_nat (Zlen ts)) c title 0 (Zlen ts))
    as [(p & u' & -> & Hp & Ep)|(p & -> & Hp & Hlo & Hhi)]; [lia..| |].
  { by exists (true, p). }
  destruct (title_lookup p Hp) as (d & Ed & Ep & Hd). unfold mbind at 1, stm_bind at 1.
  rewrite Ed, direntCompareTitle_ascii, <- Ep by done.
  destruct (str_cmp (c :: title) (title_at p)) eqn:E; eexists; (split; [done|]); unfold title_found; cbn [fst snd].
  - apply str_cmp_eq in E. done.
  - assert (p = 0) as ->.
    { destruct (Z.eq_dec p 0); [done|]. exfalso. apply (str_lt_irrefl (c :: title)).
      eapply str_lt_trans; [exact E|]. apply Hlo. lia. }
    split_and!; [lia|lia|lia|]. intros j Hj. eapply str_lt_le_trans; [exact E|]. apply (tt_sorted Htt); lia.
  - apply str_cmp_Gt in E. split_and!; [lia|lia| |].
    + intros j Hj. eapply str_le_lt_trans; [|exact E]. apply (tt_sorted Htt); lia.
    + intros j Hj. eapply str_lt_le_trans; [apply Hhi; lia|]. apply (tt_sorted Htt); lia.
Qed.

End title.

(** * The MIME type list *)

Definition mime_bytes (types : list bytes) : bytes := concat (map (fun m => m ++ [0]) types).

Lemma list_find_zero m k : no_nul m -> list_find (fun b => b = 0) (m ++ 0 :: k) = Some (length m, 0).
Proof.
  induction 1 as [|x m Hx Hm IH]; [done|]. cbn [app list_find]. rewrite decide_False by done. by rewrite IH.
Qed.

Lemma mime_loop_app fuel types pre k e acc :
  Forall (fun m => m <> [] /\ no_nul m) types -> (length types <= fuel)%nat ->
  e = Zlen (pre ++ mime_bytes types ++ k) ->
  exists fuel', (fuel = fuel' + length types)%nat /\
  mime_loop fuel (pre ++ mime_bytes types ++ k) (Zlen pre) e acc =
    mime_loop fuel' (pre ++ mime_bytes types ++ k) (Zlen pre + Zlen (mime_bytes types)) e (acc ++ types).
Proof.
  intros Ht. revert fuel pre acc. induction Ht as [|m types [Hne Hm] Ht IH]; intros fuel pre acc Hf He.
  { exists fuel. simpl. change (Zlen (mime_bytes [])) with 0. rewrite Z.add_0_r, app_nil_r. split; [lia|done]. }
  destruct fuel as [|fuel]; [simpl in Hf; lia|].
  destruct (IH fuel (pre ++ m ++ [0]) (acc ++ [m])) as (fuel' & -> & E); [simpl in Hf; lia| |].
  { rewrite He. unfold mime_bytes. cbn [map concat]. by rewrite <- !app_assoc. }
  exists fuel'. split; [simpl; lia|].
  unfold mime_bytes in *. cbn [map concat] in *. rewrite <- !app_assoc in *. cbn [app] in *.
  set (tail := concat (map (fun m => m ++ [0]) types) ++ k) in *.
  pose proof (Zlen_nonneg pre). pose proof (Zlen_nonneg m). pose proof (Zlen_nonneg tail).
  assert (Hmem : Zlen (pre ++ m ++ 0 :: tail) = Zlen pre + (Zlen m + (1 + Zlen tail)))
    by (rewrite !Zlen_app, Zlen_cons; lia).
  assert (He' : e - Zlen pre = Zlen (m ++ 0 :: tail)) by (rewrite He, Hmem, Zlen_app, Zlen_cons; lia).
  cbn [mime_loop Nat.add length]. destruct m as [|c m]; [done|].
  rewrite <- app_comm_cons in *.
  destruct (mem_get_drop (pre ++ c :: m ++ 0 :: tail) (Zlen pre) c (m ++ 0 :: tail)) as [-> _]; [lia| |].
  { unfold Zlen. by rewrite Nat2Z.id, drop_app_length. }
  cbn [mbind outcome_bind]. rewrite (proj2 (Z.eqb_neq c 0)) by (by inversion Hm).
  rewrite mem_read_ok by lia. cbn [mbind outcome_bind].
  rewrite slice_app_r by lia. rewrite Z.sub_diag, He', slice_all.
  rewrite (app_comm_cons m (0 :: tail) c), list_find_zero by done. rewrite take_app_length.
  replace (Zlen pre + Z.of_nat (length (c :: m)) + 1) with (Zlen (pre ++ (c :: m) ++ [0]))
    by (unfold Zlen; rewrite !length_app; simpl; lia).
  cbn [app] in E |- *. rewrite E. f_equal.
  repeat (rewrite Zlen_app || rewrite Zlen_cons). change (@Zlen Z []) with 0. lia.
Qed.

(** * The integrity checks *)

Lemma check_from_all n i ok (good : Z -> bool) :
  0 <= i -> i + Z.of_nat n < 2 ^ 32 -> (forall j, i <= j < i + Z.of_nat n -> ok j = Ok (good j)) ->
  check_from n i ok = Ok (forallb good (seqZ i (Z.of_nat n))).
Proof.
  revert i. induction n as [|n IH]; intros i Hi Hlt Hok; cbn [check_from]; [done|].
  rewrite Hok by lia. cbn [mbind outcome_bind]. rewrite seqZ_cons by lia. cbn [forallb].
  destruct (good i); [|done]. rewrite u32_small by lia. rewrite IH by (lia || (intros; apply Hok; lia)).
  cbn [andb]. do 3 f_equal; lia.
Qed.

Lemma order_from_sorted n i get (in_order : Dirent.t -> Dirent.t -> bool) ds :
  0 <= i -> i + Z.of_nat n < 2 ^ 32 ->
  (forall j, i <= j < i + Z.of_nat n -> exists d, get j = Ok d /\ ds !! Z.to_nat (j - i) = Some d) ->
  length ds = n -> forall prev, order_from n i get in_order prev =
    Ok (bool_decide (Sorted (fun p d => in_order p d = true) (option_list prev ++ ds))).
Proof.
  revert i ds. induction n as [|n IH]; intros i ds Hi Hlt Hget Hlen prev; cbn [order_from].
  { destruct ds; [|done]. rewrite app_nil_r. destruct prev; rewrite bool_decide_true; repeat constructor. }
  destruct ds as [|d ds]; [done|]. injection Hlen as Hlen.
  destruct (Hget i) as (d' & -> & Hd); [lia|]. rewrite Z.sub_diag in Hd. injection Hd as <-.
  cbn [mbind outcome_bind]. rewrite u32_small by lia.
  assert (Hnext : order_from n (i + 1) get in_order (Some d) =
    Ok (bool_decide (Sorted (fun p d => in_order p d = true) (d :: ds)))).
  { rewrite (IH (i + 1) ds); [done|lia|lia| |done]. intros j Hj. destruct (Hget j) as (e & He & Hds); [lia|].
    exists e. split; [done|]. replace (Z.to_nat (j - i)) with (S (Z.to_nat (j - (i + 1)))) in Hds by lia. done. }
  destruct prev as [p|]; cbn [option_list app]; [|exact Hnext].
  destruct (in_order p d) eqn:E; cbn [negb].
  - rewrite Hnext. f_equal. apply bool_decide_ext. split.
    + intros Hs. constructor; [done|by constructor].
    + by inversion 1.
  - rewrite bool_decide_false; [done|]. intros Hs. inversion_clear Hs as [|? ? _ Hhd]. inversion_clear Hhd. congruence.
Qed.

(** * The cluster order *)

(** The pair [getIndexByClusterOrder] records for entry [i]. *)
Definition order_pair (f : FileImpl) (i : Z) : outcome (Z * Z) :=
  indexOffset ← getOffset (mp_urlDirentAccessor f) i;
  mimeType ← read_uint 2 (zimReader f) indexOffset;
  if (mimeType =? Dirent.redirectMimeType) || (mimeType =? Dirent.linktargetMimeType)
     || (mimeType =? Dirent.deletedMimeType) then mret (0, i)
  else clusterNumber ← read_uint 4 (zimReader f) (off_add indexOffset 8); mret (clusterNumber, i).

Lemma order_loop_step fuel i e f p :
  i < e -> order_pair f i = Ok p ->
  cluster_order_loop (S fuel) i e f =
    cluster_order_loop fuel (u32 (i + 1)) e (with_articles (articleListByCluster f ++ [p]) (orderOnceFlag f) f).
Proof.
  intros Hi Hp. cbn [cluster_order_loop]. rewrite (proj2 (Z.ltb_lt i e)) by done.
  unfold order_pair in Hp. apply bind_Ok in Hp as (off & Hoff & Hp). apply bind_Ok in Hp as (mime & Hmime & Hp).
  unfold mbind, stm_bind, gets, id, lift. rewrite Hoff, Hmime.
  destruct (_ || _); [by injection Hp as <-|].
  apply bind_Ok in Hp as (c & Hc & Hp). rewrite Hc. by injection Hp as <-.
Qed.

Lemma order_pair_articles l b f i : order_pair (with_articles l b f) i = order_pair f i.
Proof. done. Qed.

Lemma order_loop_all fuel i e f ps :
  0 <= i <= e -> e < 2 ^ 32 -> e - i <= Z.of_nat fuel ->
  Forall2 (fun j p => order_pair f j = Ok p) (seqZ i (e - i)) ps ->
  cluster_order_loop fuel i e f = (Ok tt, with_articles (articleListByCluster f ++ ps) (orderOnceFlag f) f).
Proof.
  revert i f ps. induction fuel as [|fuel IH]; intros i f ps Hi He Hfuel Hps.
  all: destruct (Z.eq_dec i e) as [->|Hne].
  all: try (rewrite Z.sub_diag in Hps; inversion Hps; cbn [cluster_order_loop];
    rewrite (proj2 (Z.ltb_ge e e)), app_nil_r by lia; by destruct f).
  { lia. }
  rewrite seqZ_cons in Hps by lia. apply Forall2_cons_inv_l in Hps as (p & ps' & Hp & Hps & ->).
  rewrite (order_loop_step fuel i e f p) by (lia || done). rewrite u32_small by lia.
  rewrite (IH (i + 1) _ ps'); [|lia..|].
  - unfold with_articles; cbn [articleListByCluster orderOnceFlag]. rewrite <- app_assoc. done.
  - replace (e - (i + 1)) with (Z.pred (e - i)) by lia. change (i + 1) with (Z.succ i). exact Hps.
Qed.

#[export] Instance pair_le_total : Total pair_le.
Proof. intros [a b] [c d]. unfold pair_le. simpl. lia. Qed.
#[export] Instance pair_le_trans : Transitive pair_le.
Proof. intros [a b] [c d] [e g]. unfold pair_le. simpl. lia. Qed.

End fileimpl.
