(* ===== verification/FileImplProps.v ===== *)
(** What holds of an open archive: its checks, its listings, its checksum. *)

From Stdlib Require Import Ascii.
From stdpp Require Import gmap sorting strings.
From S2P Require Import Prelude.
From S2P Require Import Types.
From S2P Require Import Readers.
From S2P Require Import Files.
From S2P Require Import Compression.
From S2P Require Import Streams.
From S2P Require Import Header.
From S2P Require Import Md5.
From S2P Require Import Dirent.
From S2P Require Import Cluster.
From S2P Require Import Lru.
From S2P Require Import NarrowDown.
From S2P Require Import Lookup.
From S2P Require Import Tools.
From S2P Require Import Accessors.
From S2P Require Import FileImpl.

Lemma long_urls_sorted ds :
  Sorted (fun p d => str_ltb (Dirent.getLongUrl p) (Dirent.getLongUrl d) = true) ds <->
  Sorted str_lt (map Dirent.getLongUrl ds).
Proof.
  induction ds as [|d ds IH]; cbn [map]; [split; constructor|].
  assert (Hhd : HdRel (fun p d => str_ltb (Dirent.getLongUrl p) (Dirent.getLongUrl d) = true) d ds <->
    HdRel str_lt (Dirent.getLongUrl d) (map Dirent.getLongUrl ds)).
  { destruct ds as [|e ds]; cbn [map]; (split; intros Hr; constructor); inversion Hr; by apply str_ltb_lt. }
  split; intros Hs; inversion_clear Hs; constructor; (by apply IH) || by apply Hhd.
Qed.

Section checksum.
Context `{OSSpec} `{LzmaLib} `{ZstdLib} `{Env}.

Lemma verify_bytes_ok stream c msg cp :
  md5_at c msg -> Zlen msg <= cp -> Zlen msg + Zlen stream < 2 ^ 63 ->
  exists c', verify_bytes stream c (Zlen msg) cp = Ok (c', Z.min cp (Zlen (msg ++ stream))) /\
    md5_at c' (take (Z.to_nat cp) (msg ++ stream)).
Proof.
  revert c msg. induction stream as [|ch stream IH]; intros c msg Hc Hle Hlt; cbn [verify_bytes];
    destruct (Z.ltb_spec (Zlen msg) cp) as [Hcp|Hcp].
  - exists c. rewrite app_nil_r, Z.min_r by lia. split; [done|]. by rewrite take_ge by (unfold Zlen in *; lia).
  - exists c. rewrite app_nil_r, Z.min_l by lia. split; [do 2 f_equal; lia|]. by rewrite take_ge by (unfold Zlen in *; lia).
  - rewrite Zlen_cons in Hlt. pose proof (Zlen_nonneg stream). pose proof (Zlen_nonneg msg).
    destruct (zim_MD5Update_ok c msg [ch] [] Hc) as (c1 & E & Hc1); [by vm_compute|].
    rewrite app_nil_r in E. change (Zlen [ch]) with 1 in E. rewrite E. cbn [mbind outcome_bind].
    rewrite u64_small by lia.
    replace (Zlen msg + 1) with (Zlen (msg ++ [ch])) by (by rewrite Zlen_app).
    assert (Hm : Zlen (msg ++ [ch]) = Zlen msg + 1) by (by rewrite Zlen_app).
    destruct (IH c1 (msg ++ [ch]) Hc1) as (c2 & E2 & Hc2); [lia..|].
    exists c2. rewrite <- app_assoc in E2, Hc2. done.
  - assert (cp = Zlen msg) as -> by lia. pose proof (Zlen_nonneg (ch :: stream)).
    exists c. rewrite Zlen_app, Z.min_l by lia. split; [done|].
    unfold Zlen. by rewrite Nat2Z.id, take_app_length.
Qed.

(** The names of the parts still lead to their content. *)
Definition parts_reopen (parts : list (Range * FilePart)) : Prop :=
  Forall (fun p => os_open (fp_filename p.2) = Some (fp_fhandle p.2)) parts.

Lemma verify_parts_ok parts c msg cp :
  parts_reopen parts -> md5_at c msg -> Zlen msg <= cp -> Zlen msg + Zlen (parts_content parts) < 2 ^ 63 ->
  exists c', verify_parts parts c (Zlen msg) cp = Ok (c', Z.min cp (Zlen (msg ++ parts_content parts))) /\
    md5_at c' (take (Z.to_nat cp) (msg ++ parts_content parts)).
Proof.
  intros Hp. revert c msg. induction Hp as [|[rg p] parts Ho Hp IH]; intros c msg Hc Hle Hlt; cbn [verify_parts].
  - unfold parts_content. cbn [map concat]. exists c. rewrite app_nil_r, Z.min_r by lia.
    split; [done|]. by rewrite take_ge by (unfold Zlen in *; lia).
  - simpl in Ho. rewrite Ho. unfold parts_content in *. cbn [map concat snd] in *.
    set (rest := concat (map (fun p => fp_fhandle p.2) parts)) in *.
    rewrite Zlen_app in Hlt. pose proof (Zlen_nonneg rest). pose proof (Zlen_nonneg (fp_fhandle p)).
    destruct (verify_bytes_ok (fp_fhandle p) c msg cp Hc Hle) as (c1 & -> & Hc1); [lia|].
    cbn [mbind outcome_bind]. rewrite app_assoc.
    destruct (Z.eqb_spec (Z.min cp (Zlen (msg ++ fp_fhandle p))) cp) as [Ecp|Ecp].
    + exists c1. assert (Hmin : Z.min cp (Zlen ((msg ++ fp_fhandle p) ++ rest)) = cp) by (rewrite Zlen_app; lia).
      rewrite Ecp, Hmin. split; [done|].
      rewrite take_app_le by (unfold Zlen in *; lia). done.
    + rewrite Z.min_r by lia. rewrite take_ge in Hc1 by (unfold Zlen in *; lia).
      apply IH; [done|lia|]. rewrite Zlen_app. lia.
Qed.

Lemma verify_eq garbage f :
  length garbage = 64%nat -> hasChecksum (header f) = true -> parts_reopen (fc_parts (zimFile f)) ->
  r_wf (zimReader f) -> Zlen (parts_content (fc_parts (zimFile f))) < 2 ^ 63 ->
  let cp := getChecksumPos (header f) in
  0 <= cp <= Zlen (parts_content (fc_parts (zimFile f))) -> cp + 16 <= r_size (zimReader f) ->
  verify garbage f = Ok (bool_decide
    (slice (r_content (zimReader f)) cp 16 = md5 (take (Z.to_nat cp) (parts_content (fc_parts (zimFile f)))))).
Proof.
  intros Hg Hc Hp Hr Hlt cp Hcp Hsz. unfold verify. rewrite Hc. cbn [negb]. fold cp.
  destruct (verify_parts_ok (fc_parts (zimFile f)) (zim_MD5Init garbage) [] cp) as (c & E & Hat);
    [done|by apply md5_at_init|rewrite Zlen_nil; lia|rewrite Zlen_nil; lia|].
  change (Zlen []) with 0 in E. rewrite E. cbn [app mbind outcome_bind] in *.
  rewrite Z.min_l by lia. rewrite Z.eqb_refl. cbn [negb].
  destruct (r_buffer_in (zimReader f) cp 16) as (b & -> & Hwf & Hbs & Hbc);
    [done|lia|lia|lia|unfold max_read; lia|]. cbn [mbind outcome_bind].
  rewrite (zim_MD5Final_ok c _ Hat). cbn [mbind outcome_bind].
  destruct Hwf as (? & ? & ? & ?). rewrite mem_read_ok by lia. cbn [mbind outcome_bind].
  unfold Buffer_content in Hbc. rewrite Hbs in Hbc. by rewrite Hbc.
Qed.

End checksum.

(** * Properties *)

Section properties.
Context `{OSSpec} `{LzmaLib} `{ZstdLib} `{Env}.

(** C30. Looking up by title: in an archive whose title listing is sorted (ASCII
    namespaces), [findxByTitle] returns for every namespace and title, either with the
    position in the listing of an entry that has them, or with the position at
    which such an entry would be inserted. *)
Theorem findxByTitle_correct (f : FileImpl) (t : IndirectDirentAccessor) (ts : list Dirent.t) (ns : Z) (title : bytes) :
  title_table f t ts -> 0 <= ns < 128 ->
  exists r, findxByTitle ns title f = (Ok r, f) /\ title_found ts (ns :: title) r.
Proof. intros Ht Hns. by apply findxByTitle_found with t. Qed.

(** The MIME type list is read back: from the strings, each followed by its
    zero, and the empty string at the end, the loop recovers exactly the
    strings, in order, whatever follows; its fuel (the size of the zone) is
    enough. Without the final empty string it reads the byte after the zone: undefined when the
    zone ends its memory. *)
Theorem mime_list_read (types : list bytes) (pre rest : bytes) (acc : list bytes) :
  Forall (fun m => m <> [] /\ no_nul m) types ->
  (let mem := pre ++ mime_bytes types ++ 0 :: rest in
   mime_loop (Z.to_nat (Zlen mem)) mem (Zlen pre) (Zlen mem) acc = Ok (acc ++ types)) /\
  (let mem := pre ++ mime_bytes types in
   mime_loop (Z.to_nat (Zlen mem)) mem (Zlen pre) (Zlen mem) acc = Undef).
Proof.
  intros Ht. assert (Hlen : (length types <= length (mime_bytes types))%nat).
  { clear -Ht. unfold mime_bytes. induction Ht as [|m types ? ? IH]; [done|]. cbn [map concat length].
    rewrite !length_app. simpl. lia. }
  split; intros mem.
  - destruct (mime_loop_app (Z.to_nat (Zlen mem)) types pre (0 :: rest) (Zlen mem) acc Ht) as (fuel & Ef & E);
      [unfold mem, Zlen; rewrite !length_app; lia|done|].
    unfold mem at 2. rewrite E. rewrite <- Zlen_app, app_assoc.
    destruct (mem_get_drop ((pre ++ mime_bytes types) ++ 0 :: rest) (Zlen (pre ++ mime_bytes types)) 0 rest)
      as [Eg _]; [apply Zlen_nonneg|unfold Zlen; by rewrite Nat2Z.id, drop_app_length|].
    destruct fuel; cbn [mime_loop]; by rewrite Eg.
  - destruct (mime_loop_app (Z.to_nat (Zlen mem)) types pre [] (Zlen mem) acc Ht) as (fuel & Ef & E);
      [unfold mem, Zlen; rewrite !length_app; lia|by rewrite app_nil_r|].
    rewrite app_nil_r in E. fold mem in E. rewrite E.
    assert (Eg : mem_get mem (Zlen pre + Zlen (mime_bytes types)) = Undef).
    { unfold mem_get. rewrite (proj2 (Z.ltb_ge _ (Zlen mem))) by (unfold mem; rewrite Zlen_app; lia).
      by rewrite andb_false_r. }
    destruct fuel; cbn [mime_loop]; by rewrite Eg.
Qed.

(** C22. [verify] compares the 16 bytes at the checksum position of the archive
    with the MD5 digest of the bytes before that position of the files it is stored
    in (and decides nothing else): it is the check of the archive when the
    archive is the whole of its files, single or split. *)
Theorem verify_is_md5 (garbage : bytes) (f : FileImpl) :
  length garbage = 64%nat -> hasChecksum (header f) = true -> parts_reopen (fc_parts (zimFile f)) ->
  r_wf (zimReader f) -> Zlen (parts_content (fc_parts (zimFile f))) < 2 ^ 63 ->
  r_content (zimReader f) = parts_content (fc_parts (zimFile f)) ->
  let cp := getChecksumPos (header f) in
  0 <= cp -> cp + 16 <= r_size (zimReader f) ->
  verify garbage f = Ok (bool_decide
    (slice (r_content (zimReader f)) cp 16 = md5 (take (Z.to_nat cp) (r_content (zimReader f))))).
Proof.
  intros Hg Hc Hp Hr Hlt Eq cp Hcp Hsz. unfold cp in *. pose proof (r_size_content _ Hr) as Hs. rewrite Eq in *.
  rewrite (verify_eq garbage f) by (done || lia). by rewrite Eq.
Qed.

(** The checksum of an archive embedded in a larger file is not verified:
    the archive is read from [offset] on, but [verify] digests the file from its
    beginning. A correct archive fails the check unless the first bytes of the
    file happen to have the same digest. *)
Theorem verify_embedded_reads_container (garbage : bytes) (f : FileImpl) (rg : Range) (file name : bytes) (offset size : Z) :
  length garbage = 64%nat -> hasChecksum (header f) = true ->
  fc_parts (zimFile f) = [(rg, mkFilePart name file (Zlen file))] -> os_open name = Some file ->
  zimReader f = AFile (mkFileReader file offset size) ->
  0 <= offset -> offset + size <= Zlen file -> 0 <= size ->
  let cp := getChecksumPos (header f) in
  0 <= cp -> cp + 16 <= size ->
  let archive := slice file offset size in
  slice archive cp 16 = md5 (take (Z.to_nat cp) archive) ->
  verify garbage f = Ok (bool_decide (md5 (take (Z.to_nat cp) archive) = md5 (take (Z.to_nat cp) file))).
Proof.
  intros Hg Hc Hparts Hopen Hr Hoff Hend Hsz cp Hcp Hcs archive Hmd5.
  pose proof (os_file_size _ _ Hopen) as Hfs.
  assert (Hcontent : parts_content (fc_parts (zimFile f)) = file)
    by (rewrite Hparts; unfold parts_content; cbn [map concat snd fp_fhandle]; by rewrite app_nil_r).
  assert (Hwf : r_wf (zimReader f)).
  { rewrite Hr. change (FileReader_wf (mkFileReader file offset size)).
    unfold FileReader_wf. cbn [fr_offset fr_size fr_fhandle]. lia. }
  rewrite (verify_eq garbage f); try done.
  - rewrite Hcontent. fold cp. rewrite Hr. change (r_content (AFile (mkFileReader file offset size))) with archive.
    by rewrite Hmd5.
  - rewrite Hparts. by repeat constructor.
  - by rewrite Hcontent.
  - rewrite Hcontent. fold cp. lia.
  - fold cp. rewrite Hr. change (r_size (AFile (mkFileReader file offset size))) with size. lia.
Qed.

Lemma checkDirentPtrs_iff (f : FileImpl) (offs : Z -> Z) :
  0 <= getCountArticles f < 2 ^ 32 ->
  (forall i, 0 <= i < getCountArticles f -> getOffset (mp_urlDirentAccessor f) i = Ok (offs i)) ->
  exists b, checkDirentPtrs f = Ok b /\ (b = true <-> forall i, 0 <= i < getCountArticles f ->
    80 <= offs i /\ u64 (offs i + 11) <= validRangeEnd f).
Proof.
  intros Hn Hget. unfold checkDirentPtrs. eexists. split.
  - apply (check_from_all _ 0 _ (fun i => ptr_ok f 11 (offs i))); [lia|lia|].
    intros j Hj. rewrite Hget by lia. done.
  - rewrite Z2Nat.id by lia. rewrite forallb_forall. split; intros Hall i Hi.
    + specialize (Hall i). rewrite <- list_elem_of_In, elem_of_seqZ in Hall. specialize (Hall ltac:(lia)).
      unfold ptr_ok in Hall. change (off_add (offs i) 11) with (u64 (offs i + 11)) in Hall.
      bool_to_prop. lia.
    + rewrite <- list_elem_of_In, elem_of_seqZ in Hi. specialize (Hall i ltac:(lia)).
      unfold ptr_ok. change (off_add (offs i) 11) with (u64 (offs i + 11)).
      rewrite (proj2 (Z.ltb_ge (offs i) 80)), (proj2 (Z.ltb_ge (validRangeEnd f) _)) by lia. done.
Qed.


(** C31. The check of the dirent pointers returns whether every pointer [o] has
    [80 <= o] and [o + 11 <= end], the sum being taken modulo 2^64. *)
Theorem checkDirentPtrs_decides (f : FileImpl) (offs : Z -> Z) :
  0 <= getCountArticles f < 2 ^ 32 ->
  (forall i, 0 <= i < getCountArticles f -> getOffset (mp_urlDirentAccessor f) i = Ok (offs i)) ->
  exists b, checkDirentPtrs f = Ok b /\ (b = true <-> forall i, 0 <= i < getCountArticles f ->
    80 <= offs i /\ u64 (offs i + 11) <= validRangeEnd f).
Proof. apply checkDirentPtrs_iff. Qed.

(** A pointer in the last 11 bytes of the 64-bit range passes the check, since its sum
    with the minimal size of a dirent wraps around, although no entry can be
    read there. *)
Theorem checkDirentPtrs_accepts_wrapped (f : FileImpl) (o : Z) :
  getCountArticles f = 1 -> getOffset (mp_urlDirentAccessor f) 0 = Ok o ->
  mp_direntReader (mp_urlDirentAccessor f) = zimReader f ->
  r_size (zimReader f) < 2 ^ 63 -> 2 ^ 64 - 11 <= o < 2 ^ 64 -> 11 <= validRangeEnd f ->
  checkDirentPtrs f = Ok true /\
  dirent_of f 0 = Throw (ZimFileFormatError "Invalid dirent pointer").
Proof.
  intros Hn Hget Hreader Hsz Ho Hend. split.
  - destruct (checkDirentPtrs_iff f (fun _ => o)) as (b & -> & Hb); [lia| |].
    { intros i Hi. by replace i with 0 by lia. }
    f_equal. apply Hb. intros i Hi. split; [lia|].
    replace (o + 11) with (o + 11 - 2 ^ 64 + 1 * 2 ^ 64) by lia. unfold u64, wrap.
    rewrite Z.mod_add, Z.mod_small by lia. lia.
  - unfold dirent_of, entry_of. rewrite Hget. cbn [mbind outcome_bind]. unfold readDirent_fresh, readDirent.
    rewrite Hreader. by rewrite (proj2 (Z.leb_le _ o)) by lia.
Qed.

(** [checkDirentOrder] returns whether the entries, read in the order of the
    pointer table, have strictly increasing long paths (namespace, slash, path):
    sorted and without duplicates. *)
Theorem checkDirentOrder_decides (f : FileImpl) (ds : list Dirent.t) :
  getCountArticles f = Zlen ds -> Zlen ds < 2 ^ 32 ->
  (forall i d, ds !! Z.to_nat i = Some d -> 0 <= i -> dirent_of f i = Ok d) ->
  exists b, checkDirentOrder f = Ok b /\
    (b = true <-> StronglySorted str_lt (map Dirent.getLongUrl ds)).
Proof.
  intros Hn Hlt Hget. unfold checkDirentOrder. eexists. split.
  - apply (order_from_sorted _ 0 (dirent_of f) _ ds); [lia|rewrite Hn; lia| |rewrite Hn; unfold Zlen; lia].
    intros j Hj. destruct (lookup_lt_is_Some_2 ds (Z.to_nat j)) as [d Hd]; [unfold Zlen in *; lia|].
    exists d. rewrite Z.sub_0_r. split; [apply Hget; [done|lia]|done].
  - rewrite bool_decide_eq_true. cbn [option_list app]. split.
    + intros Hs. apply Sorted_StronglySorted; [intros x y z; apply str_lt_trans|].
      by apply (proj1 (long_urls_sorted ds)).
    + intros Hs. by apply (proj2 (long_urls_sorted ds)), StronglySorted_Sorted.
Qed.

(** Iterating in cluster order: in an archive whose user entries can be read,
    [getIndexByClusterOrder] enumerates every user entry once, in
    increasing order of cluster number (0 for the redirects), entries of a cluster by index;
    past the number of entries it throws. The order is computed once. *)
Theorem cluster_order_sorted (f : FileImpl) (ps : list (Z * Z)) :
  orderOnceFlag f = false -> articleListByCluster f = [] ->
  0 <= m_startUserEntry f <= m_endUserEntry f -> m_endUserEntry f < 2 ^ 32 ->
  Forall2 (fun j p => order_pair f j = Ok p) (seqZ (m_startUserEntry f) (getUserEntryCount f)) ps ->
  exists l f', Permutation l ps /\ StronglySorted pair_le l /\
    (forall idx, 0 <= idx -> getIndexByClusterOrder idx f =
       (match l !! Z.to_nat idx with Some p => Ok p.2 | None => Throw entry_out_of_range end, f')) /\
    (forall idx, getIndexByClusterOrder idx f' = (fst (getIndexByClusterOrder idx f), f')).
Proof.
  intros Hflag Hempty Hrange Hend Hps.
  unfold getUserEntryCount in Hps. rewrite u32_small in Hps by lia.
  set (l := merge_sort pair_le ps).
  exists l, (with_articles l true f).
  assert (Honce : order_once f = (Ok tt, with_articles l true f)).
  { unfold order_once, gets, id. unfold mbind at 1, stm_bind at 1. rewrite Hflag.
    unfold mbind at 1, stm_bind at 1. rewrite (order_loop_all _ _ _ _ ps) by (done || lia).
    unfold mbind at 1, stm_bind at 1, modify. rewrite Hempty. done. }
  split_and!.
  - apply merge_sort_Permutation.
  - apply StronglySorted_merge_sort; apply _.
  - intros idx Hidx. unfold getIndexByClusterOrder. unfold mbind at 1, stm_bind at 1. rewrite Honce.
    unfold mbind, stm_bind, gets, id. cbn [articleListByCluster with_articles].
    by destruct (l !! Z.to_nat idx).
  - intros idx. unfold getIndexByClusterOrder. unfold mbind at 1, stm_bind at 1.
    change (order_once (with_articles l true f)) with (@Ok unit tt, with_articles l true f).
    unfold mbind at 2, stm_bind at 2. rewrite Honce. unfold mbind, stm_bind, gets, id.
    cbn [articleListByCluster with_articles]. by destruct (l !! Z.to_nat idx).
Qed.

End properties.

(** * A small archive *)

(** Three entries (an article, a redirect to it, a metadata), one raw cluster. *)
Definition sample_mimes : bytes := mime_bytes [lit "text/plain"] ++ [0].
Definition sample_d0 : bytes := dirent_bytes 0 67 0 [0; 0] (lit "a") (lit "Z").
Definition sample_d1 : bytes := dirent_bytes 0xffff 67 0 [0] (lit "b") [].
Definition sample_d2 : bytes := dirent_bytes 0 77 0 [0; 1] (lit "Language") [].
Definition sample_cluster : bytes :=
  cluster_info zimcompNone false :: cluster_payload false [lit "hello"; lit "eng"].

Definition p_d0 : Z := 80 + Zlen sample_mimes.
Definition p_d1 : Z := p_d0 + Zlen sample_d0.
Definition p_d2 : Z := p_d1 + Zlen sample_d1.
Definition p_cluster : Z := p_d2 + Zlen sample_d2.
Definition p_url : Z := p_cluster + Zlen sample_cluster.
Definition p_cptr : Z := p_url + 24.
Definition p_title : Z := p_cptr + 8.
Definition p_sum : Z := p_title + 12.

Definition sample_fileheader : Fileheader :=
  mkFileheader 5 1 (repeat 7 16) 3 p_title p_url 80 1 p_cptr 0 (2 ^ 32 - 1) p_sum.

Definition sample_body : bytes :=
  Fileheader_write sample_fileheader ++ sample_mimes ++ sample_d0 ++ sample_d1 ++ sample_d2 ++ sample_cluster ++
  concat (map (toLittleEndian 8) [p_d0; p_d1; p_d2]) ++ toLittleEndian 8 p_cluster ++
  concat (map (toLittleEndian 4) [0; 1; 2]).

Definition sample_archive : bytes := Eval vm_compute in sample_body ++ md5 sample_body.

Definition sample_os : OS := os_of [(lit "z", sample_archive)] max_read.
Definition no_env : Env := {| getenv _ := None |}.

#[local] Existing Instance sample_os.
#[local] Existing Instance copy_lzma.
#[local] Existing Instance copy_zstd.
#[local] Existing Instance no_env.

Definition sample_open : outcome FileImpl := FileImpl_open (lit "z").

Definition sample_impl : FileImpl := Eval vm_compute in
  match sample_open with
  | Ok f => f
  | _ => mkFileImpl (mkFileCompound [] [] 0) 0 (buffer_of []) sample_fileheader two_pointers
           (DirectDirentAccessor_new (buffer_of []) two_pointers 0 0) None (lru_new 0) [] [] false 0 0 [] [] false None
  end.

Lemma sample_opens : sample_open = Ok sample_impl.
Proof. by vm_compute. Qed.

Lemma sample_os_spec : @OSSpec sample_os.
Proof. apply os_of_spec. repeat constructor. Qed.

Definition sample_dirents : list Dirent.t :=
  [ Dirent.mk 0 0 0 0 0 67 (lit "Z") (lit "a") [];
    Dirent.mk 0xffff 0 0 0 0 67 [] (lit "b") [];
    Dirent.mk 0 0 0 1 0 77 [] (lit "Language") [] ].

Definition sample_title : IndirectDirentAccessor := Eval vm_compute in
  match mp_titleDirentAccessor sample_impl with Some t => t | None => mkIndirect two_pointers 0 end.

Lemma sample_title_table : title_table sample_impl sample_title sample_dirents.
Proof.
  split; [by vm_compute..| | |].
  - intros i d Hi Hd. assert (Hlt : i < 3) by (apply lookup_lt_Some in Hd; simpl in Hd; lia).
    assert (Ci : i = 0 \/ i = 1 \/ i = 2) by lia.
    destruct Ci as [-> | [-> | ->]]; vm_compute in Hd; injection Hd as <-; by vm_compute.
  - repeat constructor; by vm_compute.
  - intros i j Hi Hij Hj. change (Zlen sample_dirents) with 3 in Hj.
    assert (Ci : i = 0 \/ i = 1 \/ i = 2) by lia. assert (Cj : j = 0 \/ j = 1 \/ j = 2) by lia.
    destruct Ci as [-> | [-> | ->]], Cj as [-> | [-> | ->]]; try lia; by vm_compute.
Qed.

Lemma findxByTitle_correct_witness :
  (exists r, findxByTitle 67 (lit "Z") sample_impl = (Ok r, sample_impl) /\
    title_found sample_dirents (67 :: lit "Z") r) /\
  (findxByTitle 67 (lit "Z") sample_impl).1 = Ok (true, 0) /\
  (findxByTitle 67 (lit "a") sample_impl).1 = Ok (false, 1).
Proof.
  split; [|by vm_compute].
  apply (findxByTitle_correct sample_impl sample_title sample_dirents 67 (lit "Z"));
    [apply sample_title_table|lia].
Defined.

Lemma mime_list_read_witness :
  let mem := lit "xx" ++ mime_bytes [lit "text/html"; lit "image/png"] ++ 0 :: [1; 2] in
  mime_loop (Z.to_nat (Zlen mem)) mem 2 (Zlen mem) [] = Ok [lit "text/html"; lit "image/png"].
Proof.
  apply (mime_list_read [lit "text/html"; lit "image/png"] (lit "xx") [1; 2] []).
  repeat constructor; try done; by vm_compute.
Defined.

Lemma verify_is_md5_witness :
  verify (repeat 0 64) sample_impl = Ok true.
Proof.
  rewrite (verify_is_md5 (H1 := sample_os_spec) (repeat 0 64) sample_impl); [by vm_compute|done|by vm_compute|..].
  all: try by vm_compute.
  all: repeat constructor; by vm_compute.
Defined.

Lemma checkDirentPtrs_decides_witness :
  exists b, checkDirentPtrs sample_impl = Ok b /\ (b = true <-> forall i, 0 <= i < getCountArticles sample_impl ->
    80 <= nth (Z.to_nat i) [p_d0; p_d1; p_d2] 0 /\ u64 (nth (Z.to_nat i) [p_d0; p_d1; p_d2] 0 + 11) <= validRangeEnd sample_impl).
Proof.
  apply (checkDirentPtrs_decides sample_impl (fun i => nth (Z.to_nat i) [p_d0; p_d1; p_d2] 0)).
  - by vm_compute.
  - intros i Hi. change (getCountArticles sample_impl) with 3 in Hi.
    assert (Ci : i = 0 \/ i = 1 \/ i = 2) by lia. destruct Ci as [-> | [-> | ->]]; by vm_compute.
Defined.

Lemma checkDirentOrder_decides_witness :
  exists b, checkDirentOrder sample_impl = Ok b /\
    (b = true <-> StronglySorted str_lt (map Dirent.getLongUrl sample_dirents)).
Proof.
  apply (checkDirentOrder_decides sample_impl sample_dirents); [by vm_compute..|].
  intros i d Hd Hi. assert (Hlt : i < 3) by (apply lookup_lt_Some in Hd; simpl in Hd; lia).
  assert (Ci : i = 0 \/ i = 1 \/ i = 2) by lia.
  destruct Ci as [-> | [-> | ->]]; vm_compute in Hd; injection Hd as <-; by vm_compute.
Defined.

Lemma cluster_order_sorted_witness :
  exists l f', Permutation l [(0, 0); (0, 1)] /\ StronglySorted pair_le l /\
    (forall idx, 0 <= idx -> getIndexByClusterOrder idx sample_impl =
       (match l !! Z.to_nat idx with Some p => Ok p.2 | None => Throw entry_out_of_range end, f')) /\
    (forall idx, getIndexByClusterOrder idx f' = (fst (getIndexByClusterOrder idx sample_impl), f')).
Proof.
  apply (cluster_order_sorted sample_impl [(0, 0); (0, 1)]);
    [by vm_compute|by vm_compute|by vm_compute|by vm_compute|].
  change (seqZ (m_startUserEntry sample_impl) (getUserEntryCount sample_impl)) with [0; 1].
  constructor; [by vm_compute|]. constructor; [by vm_compute|constructor].
Defined.

(** The same archive after one byte of another file, opened by its descriptor. *)
Definition embedded_os : OS := os_of [(lit "/dev/fd/3", 1 :: sample_archive)] max_read.

Lemma embedded_os_spec : @OSSpec embedded_os.
Proof. apply os_of_spec. repeat constructor. Qed.

Definition embedded_open : outcome FileImpl := @FileImpl_open_embedded embedded_os copy_lzma copy_zstd no_env 3 1 234.

Definition embedded_impl : FileImpl := Eval vm_compute in
  match embedded_open with Ok f => f | _ => sample_impl end.

Lemma embedded_opens : embedded_open = Ok embedded_impl.
Proof. by vm_compute. Qed.

Lemma verify_embedded_reads_container_witness :
  embedded_open = Ok embedded_impl /\ @verify embedded_os copy_lzma copy_zstd (repeat 0 64) embedded_impl = Ok false.
Proof.
  split; [apply embedded_opens|].
  rewrite (@verify_embedded_reads_container embedded_os embedded_os_spec copy_lzma copy_zstd (repeat 0 64) embedded_impl
    (mkRange 0 235) (1 :: sample_archive) (lit "/dev/fd/3") 1 234); by vm_compute.
Defined.

(** The sample with one entry, whose pointer is [2^64 - 5]. *)
Definition wrapped_impl : FileImpl :=
  let h := sample_fileheader in
  mkFileImpl (zimFile sample_impl) 0 (zimReader sample_impl)
    (mkFileheader 5 1 (uuid h) 1 (titleIdxPos h) (urlPtrPos h) 80 1 (clusterPtrPos h) 0 (2 ^ 32 - 1) (checksumPos h))
    (clusterOffsetReader sample_impl)
    (DirectDirentAccessor_new (zimReader sample_impl)
       (mkBufferReader (mkBuffer (toLittleEndian 8 (2 ^ 64 - 5)) 0 8)) 1 0)
    None (lru_new 0) [] [] false 0 0 [] [] false None.

Lemma checkDirentPtrs_accepts_wrapped_witness :
  checkDirentPtrs wrapped_impl = Ok true /\
  dirent_of wrapped_impl 0 = Throw (ZimFileFormatError "Invalid dirent pointer").
Proof.
  apply (checkDirentPtrs_accepts_wrapped wrapped_impl (2 ^ 64 - 5)); by vm_compute.
Defined.
