(* ===== verification/Archive.v ===== *)
(** The public interface of an archive ([archive.h], [archive.cpp],
    [entry.cpp], [item.cpp]).

    An [Entry] and an [Item] hold the index and the dirent they were created
    with. The ranges and iterators of the header are modelled with the iterator's
    own lazily created entry. *)

From Stdlib Require Import Ascii.
From stdpp Require Import gmap sorting strings.
From S2P Require Import Prelude.
From S2P Require Import Types.
From S2P Require Import Readers.
From S2P Require Import Files.
From S2P Require Import Compression.
From S2P Require Import Streams.
From S2P Require Import Header.
From S2P Require Import Md5.
From S2P Require Import Dirent.
From S2P Require Import Cluster.
From S2P Require Import Lru.
From S2P Require Import NarrowDown.
From S2P Require Import Lookup.
From S2P Require Import Tools.
From S2P Require Import Accessors.
From S2P Require Import FileImpl.
From S2P Require Import FileImplProps.

Section archive.
Context `{OS} `{LzmaLib} `{ZstdLib} `{Env}.

Abbreviation FM := (stm FileImpl).

(** * Entries and items *)

Record Entry : Type := mkEntry { e_idx : Z; e_dirent : Dirent.t }.
Record Item : Type := mkItem { i_idx : Z; i_dirent : Dirent.t }.

Definition Entry_new (idx : Z) : FM Entry := d ← FileImpl_getDirent idx; mret (mkEntry idx d).
Definition Item_new (idx : Z) : FM Item := d ← FileImpl_getDirent idx; mret (mkItem idx d).

Definition dirent_path (d : Dirent.t) : FM bytes :=
  f ← gets id; mret (if m_newNamespaceScheme f then Dirent.getUrl d else Dirent.getLongUrl d).

Definition Entry_getTitle (e : Entry) : bytes := Dirent.getTitle (e_dirent e).
Definition Entry_getPath (e : Entry) : FM bytes := dirent_path (e_dirent e).
Definition Entry_isRedirect (e : Entry) : bool := Dirent.isRedirect (e_dirent e).

Definition not_a_redirect : exn := InvalidType "is not a redirect entry.".
Definition is_a_redirect : exn := InvalidType "is a redirect entry.".

Definition Entry_getRedirectEntry (e : Entry) : FM Entry :=
  if negb (Entry_isRedirect e) then lift (Throw not_a_redirect)
  else Entry_new (Dirent.getRedirectIndex (e_dirent e)).

(** [getItem(false)]. *)
Definition Entry_getItem_nofollow (e : Entry) : FM Item :=
  if Entry_isRedirect e then lift (Throw is_a_redirect) else Item_new (e_idx e).

(** [while (nextEntry.isRedirect() && --watchdog)]. *)
Fixpoint redirect_loop (watchdog : nat) (nextEntry : Entry) : FM Entry :=
  if Entry_isRedirect nextEntry then
    match watchdog with
    | O | 1%nat => mret nextEntry
    | S watchdog =>
        e ← Entry_getRedirectEntry nextEntry;
        redirect_loop watchdog e
    end
  else mret nextEntry.

Definition Entry_getRedirect (e : Entry) : FM Item :=
  nextEntry ← Entry_getRedirectEntry e;
  nextEntry ← redirect_loop 50 nextEntry;
  Entry_getItem_nofollow nextEntry.

Definition Entry_getItem (e : Entry) (follow : bool) : FM Item :=
  if Entry_isRedirect e then
    if negb follow then lift (Throw is_a_redirect) else Entry_getRedirect e
  else Item_new (e_idx e).

Definition Item_getTitle (i : Item) : bytes := Dirent.getTitle (i_dirent i).
Definition Item_getPath (i : Item) : FM bytes := dirent_path (i_dirent i).
Definition Item_getMimetype (i : Item) : FM bytes :=
  f ← gets id; lift (getMimeType f (Dirent.getMimeType (i_dirent i))).

(** The cluster of an item. *)
Definition Item_cluster (i : Item) : FM nat := getCluster (Dirent.getClusterNumber (i_dirent i)).

Definition Item_getSize (i : Item) : FM Z :=
  cluster ← Item_cluster i;
  observe_cluster cluster (fun c => getBlobSize c (Dirent.getBlobNumber (i_dirent i))).

(** [getData(offset, size)]. *)
Definition Item_getData_part (i : Item) (offset size : Z) : FM Blob :=
  cluster ← Item_cluster i;
  on_cluster cluster (fun c => getBlob_part c (Dirent.getBlobNumber (i_dirent i)) offset size).

Definition Item_getData (i : Item) (offset : Z) : FM Blob :=
  s ← Item_getSize i;
  Item_getData_part i offset (u64 (s - offset)).

Definition Item_getDirectAccessInformation (i : Item) : FM (bytes * Z) :=
  cluster ← Item_cluster i;
  compressed ← observe_cluster cluster (fun c => mret (isCompressed c));
  if (compressed : bool) then mret ([], 0)
  else
    full_offset ← FileImpl_getBlobOffset (Dirent.getClusterNumber (i_dirent i)) (Dirent.getBlobNumber (i_dirent i));
    f ← gets id;
    let full_offset := off_add full_offset (archiveStartOffset f) in
    size ← Item_getSize i;
    f ← gets id;
    let '(first, second) := getFileParts f full_offset size in
    if negb (bool_decide (S first = second)) then mret ([], 0)
    else
      match fc_parts (zimFile f) !! first with
      | Some (range, part) => mret (fp_filename part, off_sub full_offset (rg_min range))
      | None => lift Undef
      end.

(** * [Archive] *)

Definition Archive_getEntryCount (f : FileImpl) : Z := getUserEntryCount f.
Definition Archive_getUuid (f : FileImpl) : bytes := uuid (header f).

(** The conversion of a blob to a string. *)
Definition blob_to_string (b : Blob) : FM bytes := lift (Blob_string b).

Definition getMetadata (name : bytes) : FM bytes :=
  r ← findx (chr "M") name;
  lift (throw_when (negb (r : bool * Z).1) (EntryNotFound "Cannot find metadata")) ;;
  entry ← Entry_new r.2;
  item ← Entry_getItem entry true;
  data ← Item_getData item 0;
  blob_to_string data.

(** [for (idx = start; idx != end; idx++)]. *)
Fixpoint metadata_loop (fuel : nat) (idx end_idx : Z) (ret : list bytes) : FM (list bytes) :=
  if idx =? end_idx then mret ret
  else match fuel with
  | O => lift Diverge
  | S fuel =>
      dirent ← FileImpl_getDirent idx;
      metadata_loop fuel (u32 (idx + 1)) end_idx (ret ++ [Dirent.getUrl dirent])
  end.

Definition getMetadataKeys : FM (list bytes) :=
  start ← FileImpl_getNamespaceBeginOffset (chr "M");
  end_idx ← FileImpl_getNamespaceEndOffset (chr "M");
  metadata_loop (Z.to_nat (end_idx - start)) start end_idx [].

Definition getEntryByPath_idx (idx : Z) : FM Entry :=
  f ← gets id;
  if getCountArticles f <=? idx then lift (Throw entry_out_of_range) else Entry_new idx.

(** The first of the lookups [rs] that finds something. *)
Fixpoint first_found (rs : list (FM (bool * Z))) (k : Z -> FM Entry) (none : FM Entry) : FM Entry :=
  match rs with
  | [] => none
  | r :: rs => x ← r; if (x : bool * Z).1 then k x.2 else first_found rs k none
  end.

Definition cannot_find_entry : FM Entry := lift (Throw (EntryNotFound "Cannot find entry")).

Definition getEntryByPath (path : bytes) : FM Entry :=
  f ← gets id;
  if m_newNamespaceScheme f then
    r ← findx (chr "C") path;
    if (r : bool * Z).1 then Entry_new r.2
    else
      r ← catching ('(ns, p) ← lift (parseLongPath path);
                    r ← findx (chr "C") p;
                    if (r : bool * Z).1 then e ← Entry_new r.2; mret (Some e) else mret None)
            is_runtime_error (fun _ => mret None);
      match r with
      | Some e => mret e
      | None => cannot_find_entry
      end
  else
    r ← findx_long path;
    if (r : bool * Z).1 then Entry_new r.2
    else first_found (map (fun ns => findx ns path) [chr "A"; chr "I"; chr "J"; chr "-"]) Entry_new cannot_find_entry.

Definition getEntryByTitle_idx (idx : Z) : FM Entry :=
  i ← getIndexByTitle idx; Entry_new i.

Definition getEntryByTitle (title : bytes) : FM Entry :=
  first_found (map (fun ns => findxByTitle ns title) [chr "C"; chr "A"; chr "I"; chr "J"; chr "-"])
    getEntryByTitle_idx cannot_find_entry.

Definition getEntryByClusterOrder (idx : Z) : FM Entry :=
  i ← getIndexByClusterOrder idx; Entry_new i.

Definition getMainEntry : FM Entry :=
  r ← findx (chr "W") (lit "mainPage");
  if (r : bool * Z).1 then getEntryByPath_idx r.2
  else
    f ← gets id;
    if negb (hasMainPage (header f)) then lift (Throw (EntryNotFound "No main page"))
    else getEntryByPath_idx (mainPage (header f)).

Definition hasMainEntry (f : FileImpl) : bool := hasMainPage (header f).

Definition favicon_lookups : list (FM (bool * Z)) :=
  ns ← [chr "W"; chr "-"; chr "I"]; path ← [lit "favicon"; lit "favicon.png"]; [findx ns path].

Definition getFaviconEntry : FM Entry :=
  first_found favicon_lookups getEntryByPath_idx (lift (Throw (EntryNotFound "Cannot find favicon entry"))).

Definition is_EntryNotFound (e : exn) : bool := match e with EntryNotFound _ => true | _ => false end.

Definition hasFaviconEntry : FM bool :=
  catching (getFaviconEntry ;; mret true) is_EntryNotFound (fun _ => mret false).

(** Whether the entry found can be accessed directly in the file. *)
Definition directly_accessible (idx : Z) : FM bool :=
  entry ← Entry_new idx;
  item ← Entry_getItem entry true;
  accessInfo ← Item_getDirectAccessInformation item;
  mret (negb ((accessInfo : bytes * Z).2 =? 0)).

Definition hasFulltextIndex : FM bool :=
  r ← findx (chr "X") (lit "fulltext/xapian");
  r ← (if (r : bool * Z).1 then mret r else findx (chr "Z") (lit "/fulltextIndex/xapian"));
  if (r : bool * Z).1 then directly_accessible r.2 else mret false.

Definition hasTitleIndex : FM bool :=
  r ← findx (chr "X") (lit "title/xapian");
  if (r : bool * Z).1 then directly_accessible r.2 else mret false.

(** ** Ranges *)

Inductive EntryOrder : Type := pathOrder | titleOrder | efficientOrder.

Record EntryRange : Type := mkEntryRange { rng_order : EntryOrder; rng_begin : Z; rng_end : Z }.

Definition iterByPath (f : FileImpl) : EntryRange := mkEntryRange pathOrder (m_startUserEntry f) (m_endUserEntry f).
Definition iterByTitle (f : FileImpl) : EntryRange := mkEntryRange titleOrder (m_startUserEntry f) (m_endUserEntry f).
Definition iterEfficient (f : FileImpl) : EntryRange := mkEntryRange efficientOrder 0 (Archive_getEntryCount f).

(** [s.back()++]; undefined on an empty string. *)
Definition back_incr (s : bytes) : outcome bytes :=
  match last s with
  | Some c => mret (removelast s ++ [u8 (c + 1)])
  | None => Undef
  end.

Definition findByPath (path : bytes) : FM EntryRange :=
  f ← gets id;
  if bool_decide (path = []) || bool_decide (path = lit "/") then mret (iterByPath f)
  else if m_newNamespaceScheme f then
    b ← findx (chr "C") path;
    path ← lift (back_incr path);
    e ← findx (chr "C") path;
    mret (mkEntryRange pathOrder (b : bool * Z).2 (e : bool * Z).2)
  else
    match parseLongPath path with
    | Ok (ns, path) =>
        b ← findx ns path;
        '(ns, path) ← lift (match path with
                            | [] => mret (u8 (ns + 1), [])
                            | _ => p ← back_incr path; mret (ns, p)
                            end);
        e ← findx ns path;
        mret (mkEntryRange pathOrder (b : bool * Z).2 (e : bool * Z).2)
    | _ => mret (mkEntryRange pathOrder 0 0)
    end.

Definition findByTitle (title : bytes) : FM EntryRange :=
  f ← gets id;
  let ns := if m_newNamespaceScheme f then chr "C" else chr "A" in
  b ← findxByTitle ns title;
  title ← lift (back_incr title);
  e ← findxByTitle ns title;
  mret (mkEntryRange titleOrder (b : bool * Z).2 (e : bool * Z).2).

Definition _toPathOrder (order : EntryOrder) (idx : Z) : FM Z :=
  match order with
  | pathOrder => mret idx
  | titleOrder => getIndexByTitle idx
  | efficientOrder => getIndexByClusterOrder idx
  end.

(** ** Iterators *)

Record iterator : Type := mkIterator { it_order : EntryOrder; it_idx : Z; it_entry : option Entry }.

Definition range_begin (r : EntryRange) : iterator := mkIterator (rng_order r) (rng_begin r) None.
Definition range_end (r : EntryRange) : iterator := mkIterator (rng_order r) (rng_end r) None.

(** The copy constructor: [new Entry( *other.m_entry)]. *)
Definition iterator_copy (it : iterator) : outcome iterator :=
  match it_entry it with
  | Some e => mret (mkIterator (it_order it) (it_idx it) (Some e))
  | None => Undef
  end.

Definition iterator_eqb (a b : iterator) : bool := it_idx a =? it_idx b.

Definition iterator_incr (it : iterator) : iterator := mkIterator (it_order it) (u32 (it_idx it + 1)) None.
Definition iterator_decr (it : iterator) : iterator := mkIterator (it_order it) (u32 (it_idx it - 1)) None.

(** [operator++(int)] and [operator--(int)]: the copy, and the iterator moved. *)
Definition iterator_postincr (it : iterator) : outcome (iterator * iterator) :=
  old ← iterator_copy it; mret (old, iterator_incr it).
Definition iterator_postdecr (it : iterator) : outcome (iterator * iterator) :=
  old ← iterator_copy it; mret (old, iterator_decr it).

(** [operator*]: the entry, created at the first use. *)
Definition iterator_deref (it : iterator) : FM (Entry * iterator) :=
  match it_entry it with
  | Some e => mret (e, it)
  | None =>
      i ← _toPathOrder (it_order it) (it_idx it);
      e ← Entry_new i;
      mret (e, mkIterator (it_order it) (it_idx it) (Some e))
  end.

(** [for (auto& entry : range)]: the entries seen. *)
Fixpoint range_loop (fuel : nat) (it last : iterator) : FM (list Entry) :=
  if iterator_eqb it last then mret []
  else match fuel with
  | O => lift Diverge
  | S fuel =>
      '(e, it) ← iterator_deref it;
      es ← range_loop fuel (iterator_incr it) last;
      mret (e :: es)
  end.

Definition range_entries (r : EntryRange) : FM (list Entry) :=
  range_loop (Z.to_nat (u32 (rng_end r - rng_begin r))) (range_begin r) (range_end r).

(** ** Checks *)

Definition Archive_check (garbage : bytes) (f : FileImpl) : outcome bool := verify garbage f.

(** The integrity check of number [i] of the enumeration. *)
Definition all_checks : list IntegrityCheck :=
  [CHECKSUM; DIRENT_PTRS; DIRENT_ORDER; TITLE_INDEX; CLUSTER_PTRS; DIRENT_MIMETYPES].

Fixpoint run_checks (garbage : bytes) (checks : list (IntegrityCheck * bool)) : FM bool :=
  match checks with
  | [] => mret true
  | (c, test) :: checks =>
      if test then
        b ← checkIntegrity garbage c;
        if negb b then mret false else run_checks garbage checks
      else run_checks garbage checks
  end.

Definition is_ZimFileFormatError (e : exn) : bool := match e with ZimFileFormatError _ => true | _ => false end.

Definition validate (garbage : bytes) (zimPath : bytes) (checksToRun : list bool) : outcome bool :=
  try_catch (f ← FileImpl_open zimPath; (run_checks garbage (zip all_checks checksToRun) f).1)
    is_ZimFileFormatError (fun _ => mret false).

(** * Lemmas: redirects *)

Lemma Entry_new_eq f idx d : dirent_of f idx = Ok d -> Entry_new idx f = (Ok (mkEntry idx d), f).
Proof. intros E. unfold Entry_new, FileImpl_getDirent, mbind, stm_bind, gets, lift, id. by rewrite E. Qed.

Lemma Item_new_eq f idx d : dirent_of f idx = Ok d -> Item_new idx f = (Ok (mkItem idx d), f).
Proof. intros E. unfold Item_new, FileImpl_getDirent, mbind, stm_bind, gets, lift, id. by rewrite E. Qed.

(** [n] redirects lead from the entry [d] of index [i] to the entry [d'] of index [j],
    which is not one. *)
Inductive resolves (f : FileImpl) : nat -> Z -> Dirent.t -> Z -> Dirent.t -> Prop :=
  | resolves_here i d : Dirent.isRedirect d = false -> resolves f 0 i d i d
  | resolves_next n i d d1 j d' :
      Dirent.isRedirect d = true -> dirent_of f (Dirent.getRedirectIndex d) = Ok d1 ->
      resolves f n (Dirent.getRedirectIndex d) d1 j d' -> resolves f (S n) i d j d'.

(** The entry [d] and the [n] next ones are redirects. *)
Inductive redirects (f : FileImpl) : nat -> Dirent.t -> Prop :=
  | redirects_O d : Dirent.isRedirect d = true -> redirects f 0 d
  | redirects_S n d d1 :
      Dirent.isRedirect d = true -> dirent_of f (Dirent.getRedirectIndex d) = Ok d1 ->
      redirects f n d1 -> redirects f (S n) d.

Lemma getRedirectEntry_eq f i d d1 :
  Dirent.isRedirect d = true -> dirent_of f (Dirent.getRedirectIndex d) = Ok d1 ->
  Entry_getRedirectEntry (mkEntry i d) f = (Ok (mkEntry (Dirent.getRedirectIndex d) d1), f).
Proof.
  intros Hd E. unfold Entry_getRedirectEntry, Entry_isRedirect. cbn [e_dirent]. rewrite Hd. cbn [negb].
  by apply Entry_new_eq.
Qed.

Lemma redirect_loop_resolves f n w i d j d' :
  resolves f n i d j d' -> (n < w)%nat -> redirect_loop w (mkEntry i d) f = (Ok (mkEntry j d'), f).
Proof.
  intros Hr. revert w. induction Hr as [i d Hd|n i d d1 j d' Hd Hd1 Hr IH]; intros w Hw;
    destruct w as [|w]; try lia; cbn [redirect_loop]; unfold Entry_isRedirect; cbn [e_dirent]; rewrite Hd; [done|].
  destruct w as [|w]; [lia|]. erewrite stm_bind_Ok by (by apply getRedirectEntry_eq). apply IH. lia.
Qed.

Lemma redirect_loop_long f n w i d :
  redirects f n d -> (w <= S n)%nat ->
  exists e, redirect_loop w (mkEntry i d) f = (Ok e, f) /\ Entry_isRedirect e = true.
Proof.
  intros Hr. revert w i. induction Hr as [d Hd|n d d1 Hd Hd1 Hr IH]; intros w i Hw;
    (destruct w as [|[|w]]; cbn [redirect_loop]; unfold Entry_isRedirect; cbn [e_dirent]; rewrite Hd;
      [by eexists|by eexists|]); [lia|].
  erewrite stm_bind_Ok by (by apply getRedirectEntry_eq). apply (IH (S w)). lia.
Qed.

Lemma resolves_end f n i d j d' : resolves f n i d j d' -> Dirent.isRedirect d' = false.
Proof. by induction 1. Qed.

Lemma getItem_resolves f n i j d d' :
  resolves f n i d j d' -> (n <= 50)%nat -> dirent_of f j = Ok d' ->
  Entry_getItem (mkEntry i d) true f = (Ok (mkItem j d'), f).
Proof.
  intros Hr Hn Hj. pose proof (resolves_end _ _ _ _ _ _ Hr) as Hend.
  unfold Entry_getItem, Entry_isRedirect. cbn [e_dirent e_idx].
  inversion Hr as [i0 d0 Hd|m i0 d0 d1 j0 d0' Hd Hd1 Hr1]; subst; rewrite Hd.
  { by apply Item_new_eq. }
  cbn [negb]. unfold Entry_getRedirect. erewrite stm_bind_Ok by (by apply getRedirectEntry_eq).
  erewrite stm_bind_Ok by (by eapply redirect_loop_resolves; [exact Hr1|lia]).
  unfold Entry_getItem_nofollow, Entry_isRedirect. cbn [e_dirent e_idx]. rewrite Hend. by apply Item_new_eq.
Qed.

(** * Lemmas: prefixes *)

(** The strings that start with [p c] are those between it and its successor. *)
Lemma prefix_between p c k :
  str_le (p ++ [c]) k /\ str_lt k (p ++ [c + 1]) <-> exists t, k = p ++ [c] ++ t.
Proof.
  unfold str_le, str_lt. split.
  - revert k. induction p as [|x p IH]; intros [|y k]; cbn [app str_cmp]; try (intros [? ?]; done).
    + intros [Hle Hlt]. destruct (Z.compare_spec c y) as [->|Hc|Hc]; [by eexists| |done].
      destruct (Z.compare_spec y (c + 1)) as [->|Hc'|Hc']; [|lia|done]. by destruct k.
    + intros [Hle Hlt]. destruct (Z.compare_spec x y) as [->|Hc|Hc]; [| |done].
      * rewrite Z.compare_refl in Hlt. destruct (IH k) as (t & ->); [done|]. by eexists.
      * rewrite (proj2 (Z.compare_gt_iff y x)) in Hlt by done. done.
  - intros (t & ->). induction p as [|x p IH]; cbn [app str_cmp].
    + rewrite Z.compare_refl. rewrite (proj2 (Z.compare_lt_iff c (c + 1))) by lia. by destruct t.
    + by rewrite !Z.compare_refl.
Qed.

(** * Lemmas: paths *)

(** The entries of [f] are [ds], sorted by namespace and path without
    duplicates, and its lookup is built. *)
Record path_table (f : FileImpl) (ds : list Dirent.t) : Prop := {
  pt_table : dirent_table (m_direntCount (mp_urlDirentAccessor f)) (dirent_of f) ds;
  pt_strict : forall i j, 0 <= i -> i < j -> j < Zlen ds -> str_lt (key ds i) (key ds j);
  pt_lookup : exists t, m_direntLookup f = Some t /\
    grid_built (m_direntCount (mp_urlDirentAccessor f)) ds t;
}.

Section paths.
Context (f : FileImpl) (ds : list Dirent.t).
Hypothesis Hpt : path_table f ds.

Lemma findx_found c path :
  0 <= c < 128 -> exists r, findx c path f = (Ok r, f) /\ found (Zlen ds) ds (c :: path) r.
Proof.
  intros Hc. destruct (pt_lookup _ _ Hpt) as (t & Et & Ht).
  destruct (find_built _ _ ds (pt_table _ _ Hpt) t c path Ht Hc) as (r & Er & Hr).
  exists r. rewrite (table_count _ _ _ (pt_table _ _ Hpt)) in Hr. split; [|done].
  unfold findx, direntLookup, mbind, stm_bind, gets, id. rewrite Et. unfold mret, stm_ret, lift. by rewrite Er.
Qed.

(** Where the search for [q] ends, the keys pass from below [q] to at least
    [q]. *)
Lemma found_splits q r : found (Zlen ds) ds q r -> 0 <= r.2 <= Zlen ds /\
  forall j, 0 <= j < Zlen ds -> (str_lt (key ds j) q <-> j < r.2).
Proof.
  intros Hr. destruct r as [[] i]; unfold found in Hr; cbn [fst snd] in *.
  - destruct Hr as [Hi <-]. split; [lia|]. intros j Hj. split; intros Hlt.
    + destruct (Z.lt_ge_cases j i) as [|Hge]; [done|exfalso].
      destruct (Z.eq_dec i j) as [->|]; [by apply (str_lt_irrefl (key ds j))|].
      apply (str_lt_irrefl (key ds j)). eapply str_lt_trans; [exact Hlt|]. apply (pt_strict _ _ Hpt); lia.
    + apply (pt_strict _ _ Hpt); lia.
  - destruct Hr as (Hi & Hlo & Hhi). split; [done|]. intros j Hj. split; intros Hlt; [|apply Hlo; lia].
    destruct (Z.lt_ge_cases j i) as [|Hge]; [done|exfalso].
    apply (str_lt_irrefl q). eapply str_lt_trans; [apply (Hhi j); lia|done].
Qed.

Lemma back_incr_snoc s c : c < 255 -> 0 <= c -> back_incr (s ++ [c]) = Ok (s ++ [c + 1]).
Proof. intros. unfold back_incr. by rewrite last_snoc, removelast_last, u8_small by lia. Qed.

Lemma findByPath_range s c :
  m_newNamespaceScheme f = true -> 0 <= c < 255 -> s ++ [c] <> lit "/" ->
  exists b e, findByPath (s ++ [c]) f = (Ok (mkEntryRange pathOrder b e), f) /\ 0 <= b <= Zlen ds /\ 0 <= e <= Zlen ds /\
    forall i d, ds !! i = Some d ->
      (Dirent.ns d = 67 /\ (exists t, Dirent.url d = s ++ [c] ++ t)) <-> b <= Z.of_nat i < e.
Proof.
  intros Hns Hc Hp.
  destruct (findx_found 67 (s ++ [c])) as (r1 & E1 & Hr1); [lia|].
  destruct (findx_found 67 (s ++ [c + 1])) as (r2 & E2 & Hr2); [lia|].
  apply found_splits in Hr1 as [Hb1 Hr1]. apply found_splits in Hr2 as [Hb2 Hr2].
  exists r1.2, r2.2. split_and!; try lia.
  - unfold findByPath. rewrite stm_gets. unfold id. rewrite bool_decide_false by (by destruct s).
    rewrite bool_decide_false by done. cbn [orb]. rewrite Hns. change (chr "C") with 67.
    erewrite stm_bind_Ok by exact E1. erewrite stm_lift_Ok by (apply back_incr_snoc; lia).
    by erewrite stm_bind_Ok by exact E2.
  - intros i d Hd. assert (Hi : 0 <= Z.of_nat i < Zlen ds) by (apply lookup_lt_Some in Hd; unfold Zlen; lia).
    assert (Hk : key ds (Z.of_nat i) = Dirent.ns d :: Dirent.url d)
      by (unfold key; rewrite Nat2Z.id, Hd; done).
    specialize (Hr1 _ Hi). specialize (Hr2 _ Hi). rewrite Hk in *.
    pose proof (prefix_between (67 :: s) c (Dirent.ns d :: Dirent.url d)) as Hpre. cbn [app] in *.
    assert (Hle : str_le (67 :: s ++ [c]) (Dirent.ns d :: Dirent.url d) <-> r1.2 <= Z.of_nat i)
      by (rewrite <- str_not_lt; split; intros; [|intros Hlt]; [apply Z.nlt_ge; tauto|apply Hr1 in Hlt; lia]).
    rewrite <- Hr2, <- Hle, Hpre. split.
    + intros [-> [t ->]]. by exists t.
    + intros [t [= -> ->]]. split; [done|by exists t].
Qed.

End paths.

End archive.

(** * Lemmas: the contents of the items *)

Section contents.
Context `{OSSpec} `{LzmaLib} `{ZstdLib} `{Env}.
Context (lzma_spec : @DecoderSpec LZMA_INFO) (zstd_spec : @DecoderSpec ZSTD_INFO).
(** The blobs of cluster [k], its compression, whether its offsets are 64-bit, and the bytes that follow its blobs. *)
Context (blobs_at : Z -> list bytes) (comp_at : Z -> CompressionType) (ext_at : Z -> bool) (rest_at : Z -> bytes).

(** The archive stores them. *)
Record stored (f : FileImpl) : Prop := {
  st_reader : r_wf (zimReader f);
  st_payload : forall k, 0 <= k < getCountClusters f -> payload_ok (ext_at k) (blobs_at k);
  st_bytes : forall k, 0 <= k < getCountClusters f -> exists off enc,
    readOffset (clusterOffsetReader f) k = Ok off /\ 0 <= off /\
    drop (Z.to_nat off) (r_content (zimReader f)) = cluster_info (comp_at k) (ext_at k) :: enc /\ enc <> [] /\
    encodes lzma_spec zstd_spec (comp_at k) enc (cluster_payload (ext_at k) (blobs_at k) ++ rest_at k);
}.

Definition cluster_is (c : Cluster) (k : Z) : Prop :=
  cluster_at lzma_spec zstd_spec c (blobs_at k) (rest_at k) /\ isExtended c = ext_at k /\ getCompression c = comp_at k.

(** Every open cluster [h] is cluster [owners !! h] of the archive, and the futures of the cache
    hold clusters of their keys. *)
Record cache_inv (owners : list Z) (f : FileImpl) : Prop := {
  ci_lru : lru_inv (clusterCache f);
  ci_owners : Forall2 (fun c k => cluster_is c k /\ 0 <= k < getCountClusters f) (clusters f) owners;
  ci_cache : Forall (fun kv => exists h, futures f !! kv.2 = Some (Some h) /\ owners !! h = Some kv.1)
    (contents (clusterCache f));
}.

(** [f'] is [f] with other clusters open. *)
Definition reopened (f f' : FileImpl) : Prop := exists cc fs cs, f' = with_clusters cc fs cs f.

Lemma reopened_refl f : reopened f f.
Proof. exists (clusterCache f), (futures f), (clusters f). by destruct f. Qed.
Lemma reopened_trans f g h : reopened f g -> reopened g h -> reopened f h.
Proof. intros (a & b & c & ->) (a' & b' & c' & ->). by exists a', b', c'. Qed.
Lemma reopened_stored f f' : reopened f f' -> stored f -> stored f'.
Proof. intros (cc & fs & cs & ->) [? ? ?]. by split. Qed.

Lemma readCluster_ok f k :
  stored f -> 0 <= k < getCountClusters f ->
  exists c, readCluster k f = (Ok (length (clusters f)), with_clusters (clusterCache f) (futures f) (clusters f ++ [c]) f) /\
    cluster_is c k.
Proof.
  intros Hst Hk. destruct (st_bytes f Hst k Hk) as (off & enc & Eoff & Hoff & Hdrop & Hne & Henc).
  destruct (Cluster_read_in lzma_spec zstd_spec _ off (comp_at k) (ext_at k) enc (blobs_at k) (rest_at k)
    (st_reader f Hst) Hoff Hdrop Henc Hne (st_payload f Hst k Hk)) as (c & Ec & Hcomp & Hext & Hat).
  exists c. split; [|done]. unfold readCluster, getClusterOffset, new_cluster.
  unfold mbind, stm_bind, gets, lift, id. rewrite Eoff. by rewrite Ec.
Qed.

Lemma getCluster_ok owners f k :
  stored f -> cache_inv owners f -> 0 <= k < getCountClusters f ->
  exists h f' owners', getCluster k f = (Ok h, f') /\ cache_inv owners' f' /\ owners' !! h = Some k /\ reopened f f'.
Proof.
  intros Hst [Hlru Hown Hcache] Hk. unfold getCluster. rewrite stm_gets. unfold id.
  rewrite (proj2 (Z.leb_gt _ k)) by lia. unfold clusterCache_getOrPut. rewrite stm_gets. unfold id.
  destruct (getOrPut_Forall _ (clusterCache f) k (length (futures f)) Hlru Hcache)
    as (x & c' & Eg & Hlru' & [(Hm & w & Hv & (h & Hfut & Hh) & Hall)|(Hm & Hall)]);
    erewrite stm_lift_Ok by exact Eg; cbv beta iota; rewrite Hm.
  - rewrite stm_modify. erewrite stm_lift_Ok by exact Hv. cbn [fst snd] in Hfut, Hh. rewrite Hfut.
    exists h, (with_clusters c' (futures f) (clusters f) f), owners. split; [done|].
    split_and!; [by split|done|by exists c', (futures f), (clusters f)].
  - rewrite stm_modify. set (f1 := with_clusters c' (futures f ++ [None]) (clusters f) f).
    assert (Hst1 : stored f1) by (apply (reopened_stored f); [by eexists _, _, _|done]).
    destruct (readCluster_ok f1 k Hst1 Hk) as (c & Ec & Hc). erewrite stm_bind_Ok by exact Ec. rewrite stm_modify.
    exists (length (clusters f)), (with_clusters c' (futures f ++ [Some (length (clusters f))]) (clusters f ++ [c]) f), (owners ++ [k]).
    pose proof (Forall2_length _ _ _ Hown) as Hlen. split_and!.
    + unfold mret, stm_ret. f_equal. unfold f1, with_clusters; cbn [futures clusters clusterCache].
      rewrite insert_app_r_alt, Nat.sub_diag by done. done.
    + split; [done| |]; cbn [clusters futures clusterCache with_clusters].
      * apply Forall2_app; [done|]. constructor; [by split|constructor].
      * apply Hall.
        { intros kv (h & Hfut & Hh). exists h. split; by apply lookup_app_l_Some. }
        exists (length (clusters f)). cbn [fst snd]. split; [by apply list_lookup_middle|]. rewrite Hlen. by apply list_lookup_middle.
    + rewrite Hlen. by apply list_lookup_middle.
    + by eexists _, _, _.
Qed.

Lemma on_cluster_ok {A} owners f h k (op : Cluster -> outcome (A * Cluster)) (P : A -> Prop) :
  cache_inv owners f -> owners !! h = Some k ->
  (forall c, cluster_is c k -> exists a c', op c = Ok (a, c') /\ P a /\ cluster_is c' k) ->
  exists a f', on_cluster h op f = (Ok a, f') /\ P a /\ cache_inv owners f' /\ reopened f f'.
Proof.
  intros [Hlru Hown Hcache] Hh Hop.
  destruct (Forall2_lookup_r _ _ _ _ _ Hown Hh) as (c & Hc & Hck & Hk).
  destruct (Hop c Hck) as (a & c' & Eop & HP & Hc').
  exists a, (with_clusters (clusterCache f) (futures f) (<[h := c']> (clusters f)) f). split_and!.
  - unfold on_cluster. rewrite stm_gets. unfold id. rewrite Hc. by erewrite stm_lift_Ok by exact Eop.
  - done.
  - split; [done| |done]. cbn [clusters with_clusters].
    rewrite <- (list_insert_id owners h k Hh). by apply Forall2_insert.
  - by eexists _, _, _.
Qed.

Section item.
Context (i : Item) (k n : Z) (b : bytes).
Hypothesis Hk : Dirent.getClusterNumber (i_dirent i) = k.
Hypothesis Hn : Dirent.getBlobNumber (i_dirent i) = n.
Hypothesis Hn0 : 0 <= n.
Hypothesis Hb : blobs_at k !! Z.to_nat n = Some b.

Lemma Item_getSize_ok owners f :
  stored f -> cache_inv owners f -> 0 <= k < getCountClusters f ->
  exists f' owners', Item_getSize i f = (Ok (Zlen b), f') /\ cache_inv owners' f' /\ reopened f f'.
Proof.
  intros Hst Hci Hkr. destruct (getCluster_ok owners f k Hst Hci Hkr) as (h & f1 & ow1 & E1 & Hci1 & Hh & Hr1).
  destruct (on_cluster_ok ow1 f1 h k (fun c => a ← getBlobSize c n; mret (a, c)) (fun s => s = Zlen b) Hci1 Hh)
    as (s & f2 & E2 & -> & Hci2 & Hr2).
  { intros c (Hat & He & Hcm). exists (Zlen b), c. split; [|done].
    assert (Hok : payload_ok (isExtended c) (blobs_at k)) by (rewrite He; apply (st_payload f Hst k Hkr)).
    by rewrite (getBlobSize_in lzma_spec zstd_spec c (blobs_at k) (rest_at k) Hok c n b) by done. }
  exists f2, ow1. split_and!; [|done|by eapply reopened_trans].
  unfold Item_getSize, Item_cluster, observe_cluster. rewrite Hk, Hn.
  by erewrite stm_bind_Ok by exact E1.
Qed.

Lemma Item_getData_part_ok owners f off size :
  stored f -> cache_inv owners f -> 0 <= k < getCountClusters f -> 0 <= off < Zlen b -> 0 < size ->
  exists x f' owners', Item_getData_part i off size f = (Ok x, f') /\
    Blob_string x = Ok (slice b off (Z.min size (Zlen b - off))) /\ cache_inv owners' f' /\ reopened f f'.
Proof.
  intros Hst Hci Hkr Hoff Hsize. destruct (getCluster_ok owners f k Hst Hci Hkr) as (h & f1 & ow1 & E1 & Hci1 & Hh & Hr1).
  destruct (on_cluster_ok ow1 f1 h k (fun c => getBlob_part c n off size)
    (fun x => Blob_string x = Ok (slice b off (Z.min size (Zlen b - off)))) Hci1 Hh)
    as (x & f2 & E2 & Hx & Hci2 & Hr2).
  { intros c (Hat & He & Hcm).
    assert (Hok : payload_ok (isExtended c) (blobs_at k)) by (rewrite He; apply (st_payload f Hst k Hkr)).
    destruct (getBlob_part_in lzma_spec zstd_spec c (blobs_at k) (rest_at k) Hok c n b off size)
      as (x & c' & E & ? & ? & ?); [done..|].
    pose proof (getBlob_part_compression _ _ _ _ _ _ E) as Hc'.
    exists x, c'. unfold cluster_is, getCompression in *. split_and!; congruence || done. }
  exists x, f2, ow1. split_and!; [|done|done|by eapply reopened_trans].
  unfold Item_getData_part, Item_cluster. rewrite Hk, Hn. by erewrite stm_bind_Ok by exact E1.
Qed.

Lemma Item_getData_ok owners f :
  stored f -> cache_inv owners f -> 0 <= k < getCountClusters f -> b <> [] ->
  exists x f' owners', Item_getData i 0 f = (Ok x, f') /\ Blob_string x = Ok b /\ cache_inv owners' f' /\ reopened f f'.
Proof.
  intros Hst Hci Hkr Hne. destruct (Item_getSize_ok owners f Hst Hci Hkr) as (f1 & ow1 & E1 & Hci1 & Hr1).
  assert (Hlen : 0 < Zlen b) by (destruct b; [done|rewrite Zlen_cons; pose proof (Zlen_nonneg l); lia]).
  assert (Hmax : Zlen b <= max_read).
  { destruct (st_payload f Hst k Hkr) as (_ & _ & Hall & _). rewrite Forall_lookup in Hall. eauto. }
  assert (Hkr1 : 0 <= k < getCountClusters f1) by (destruct Hr1 as (? & ? & ? & ->); done).
  unfold max_read in *.
  destruct (Item_getData_part_ok ow1 f1 0 (Zlen b) (reopened_stored _ _ Hr1 Hst) Hci1 Hkr1) as (x & f2 & ow2 & E2 & Hx & Hci2 & Hr2);
    [lia..|].
  exists x, f2, ow2. rewrite Z.sub_0_r, Z.min_id, slice_all in Hx. split_and!; [|done|done|by eapply reopened_trans].
  unfold Item_getData. erewrite stm_bind_Ok by exact E1. rewrite Z.sub_0_r, u64_small by lia. exact E2.
Qed.

End item.
End contents.

(** * Properties *)

Section properties.
Context `{OSSpec} `{LzmaLib} `{ZstdLib} `{Env}.

(** The data of the items, read in this order. *)
Fixpoint read_items (items : list Item) : stm FileImpl (list bytes) :=
  match items with
  | [] => mret []
  | i :: items =>
      data ← Item_getData i 0;
      s ← blob_to_string data;
      rest ← read_items items;
      mret (s :: rest)
  end.

(** C4. Reading the archive: in an archive that stores, cluster by cluster (raw or
    compressed, 32 or 64-bit offsets), the blobs [blobs_at], the data of any sequence of items, with
    repetitions and in any order, is the sequence of their blobs, whatever the
    size of the cluster cache: opening, caching, evicting and reopening clusters
    that are decoded lazily never shows. *)
Theorem archive_items_read lzma_spec zstd_spec blobs_at comp_at ext_at rest_at (f : FileImpl) (cacheSize : nat)
    (items : list Item) (bs : list bytes) :
  stored lzma_spec zstd_spec blobs_at comp_at ext_at rest_at f ->
  clusterCache f = lru_new cacheSize -> clusters f = [] ->
  Forall2 (fun i b => let k := Dirent.getClusterNumber (i_dirent i) in
      0 <= k < getCountClusters f /\ 0 <= Dirent.getBlobNumber (i_dirent i) /\
      blobs_at k !! Z.to_nat (Dirent.getBlobNumber (i_dirent i)) = Some b /\ b <> []) items bs ->
  exists f', read_items items f = (Ok bs, f').
Proof.
  intros Hst Hcc Hcl Hitems.
  assert (Hinv : exists owners, cache_inv lzma_spec zstd_spec blobs_at comp_at ext_at rest_at owners f).
  { exists []. split; rewrite ?Hcc, ?Hcl; [apply lru_inv_new|constructor|constructor]. }
  clear Hcc Hcl. revert f Hst Hinv Hitems. revert bs.
  induction items as [|i items IH]; intros bs f Hst [owners Hinv] Hitems; inversion Hitems as [|? b ? bs' Hi Hrest]; subst.
  { by exists f. }
  cbv zeta in Hi. destruct Hi as (Hk & Hn & Hb & Hne).
  destruct (Item_getData_ok lzma_spec zstd_spec blobs_at comp_at ext_at rest_at i _ _ b eq_refl eq_refl Hn Hb owners f Hst Hinv Hk Hne)
    as (x & f1 & ow1 & E & Hx & Hinv1 & Hr).
  cbn [read_items]. erewrite stm_bind_Ok by exact E. unfold blob_to_string. erewrite stm_lift_Ok by exact Hx.
  destruct (IH bs' f1) as (f2 & E2).
  - by apply (reopened_stored lzma_spec zstd_spec blobs_at comp_at ext_at rest_at f).
  - by exists ow1.
  - destruct Hr as (? & ? & ? & ->). exact Hrest.
  - exists f2. by erewrite stm_bind_Ok by exact E2.
Qed.

(** Following redirects: when at most 50 redirects lead from an entry to one that is not a redirect,
    [getItem(true)] is the item of the latter. *)
Theorem redirects_followed (f : FileImpl) (n : nat) (i j : Z) (d d' : Dirent.t) :
  resolves f n i d j d' -> (n <= 50)%nat -> dirent_of f j = Ok d' ->
  Entry_getItem (mkEntry i d) true f = (Ok (mkItem j d'), f).
Proof. apply getItem_resolves. Qed.

(** A chain of more than 50 redirects, in particular a cycle, is given up:
    [getItem(true)] throws [InvalidType]. *)
Theorem redirects_given_up (f : FileImpl) (n : nat) (i : Z) (d : Dirent.t) :
  redirects f n d -> (50 <= n)%nat ->
  Entry_getItem (mkEntry i d) true f = (Throw is_a_redirect, f).
Proof.
  intros Hr Hn. unfold Entry_getItem, Entry_isRedirect. cbn [e_dirent e_idx].
  inversion Hr as [d0 Hd|m d0 d1 Hd Hd1 Hr1]; subst; rewrite Hd; [lia|].
  cbn [negb]. unfold Entry_getRedirect. erewrite stm_bind_Ok by (by apply getRedirectEntry_eq).
  destruct (redirect_loop_long f m 50 (Dirent.getRedirectIndex d) d1 Hr1) as (e & E & He); [lia|].
  erewrite stm_bind_Ok by exact E. unfold Entry_getItem_nofollow. by rewrite He.
Qed.


Lemma title_loop_throws f t fuel i e :
  mp_titleDirentAccessor f = Some t -> 0 <= i <= t_direntCount t -> t_direntCount t < e -> e < 2 ^ 32 ->
  e - i <= Z.of_nat fuel ->
  (forall j, i <= j < t_direntCount t -> exists ix d, getDirectIndex t j = Ok ix /\ dirent_of f ix = Ok d) ->
  range_loop fuel (mkIterator titleOrder i None) (mkIterator titleOrder e None) f = (Throw entry_out_of_range, f).
Proof.
  intros Ht Hi He He32. revert i Hi. induction fuel as [|fuel IH]; intros i Hi Hfuel Hall; [lia|].
  cbn [range_loop]. unfold iterator_eqb. cbn [it_idx]. rewrite (proj2 (Z.eqb_neq i e)) by lia.
  assert (Hidx : getIndexByTitle i f = (getDirectIndex t i, f))
    by (unfold getIndexByTitle; rewrite stm_gets; unfold id; by rewrite Ht).
  destruct (Z.eq_dec i (t_direntCount t)) as [->|Hne].
  - apply stm_bind_Throw. unfold iterator_deref. cbn [it_entry it_order it_idx _toPathOrder].
    apply stm_bind_Throw. rewrite Hidx. unfold getDirectIndex. by rewrite Z.leb_refl.
  - destruct (Hall i) as (ix & d & Eix & Ed); [lia|].
    assert (Ederef : iterator_deref (mkIterator titleOrder i None) f =
      (Ok (mkEntry ix d, mkIterator titleOrder i (Some (mkEntry ix d))), f)).
    { unfold iterator_deref. cbn [it_entry it_order it_idx _toPathOrder].
      erewrite stm_bind_Ok by (rewrite Hidx, Eix; done). by erewrite stm_bind_Ok by (by apply Entry_new_eq). }
    erewrite stm_bind_Ok by exact Ederef. cbv beta iota. unfold iterator_incr. cbn [it_idx it_order].
    rewrite u32_small by lia. apply stm_bind_Throw. apply IH; [lia|lia|]. intros j Hj. apply Hall. lia.
Qed.

(** Iterating in title order runs off the listing: [iterByTitle] takes the
    positions of the user entries in the path order as positions in the title
    listing. When the archive has a listing of its front articles only
    ([listing/titleOrdered/v1]) with fewer entries than that, the iteration ends with
    [std::out_of_range], after the entries the listing has. *)
Theorem iterByTitle_past_listing (f : FileImpl) (t : IndirectDirentAccessor) :
  mp_titleDirentAccessor f = Some t -> 0 <= m_startUserEntry f <= t_direntCount t ->
  t_direntCount t < m_endUserEntry f -> m_endUserEntry f < 2 ^ 32 ->
  (forall j, m_startUserEntry f <= j < t_direntCount t ->
     exists ix d, getDirectIndex t j = Ok ix /\ dirent_of f ix = Ok d) ->
  range_entries (iterByTitle f) f = (Throw entry_out_of_range, f).
Proof.
  intros Ht Hs He He32 Hall. unfold range_entries, iterByTitle, range_begin, range_end.
  cbn [rng_order rng_begin rng_end]. rewrite u32_small by lia.
  apply title_loop_throws with t; (done || lia).
Qed.

End properties.

(** * Witnesses *)

#[local] Existing Instance sample_os.
#[local] Existing Instance copy_lzma.
#[local] Existing Instance copy_zstd.
#[local] Existing Instance no_env.

Definition sample_rest : bytes := drop (Z.to_nat p_url) sample_archive.

Lemma sample_stored :
  stored (H1 := sample_os_spec) copy_lzma_spec copy_zstd_spec (fun _ => [lit "hello"; lit "eng"]) (fun _ => zimcompNone) (fun _ => false) (fun _ => sample_rest)
    sample_impl.
Proof.
  split.
  - repeat constructor; by vm_compute.
  - intros k _. repeat constructor; by vm_compute.
  - intros k Hk. change (getCountClusters sample_impl) with 1 in Hk. assert (k = 0) as -> by lia.
    exists p_cluster, (drop (Z.to_nat p_cluster + 1) sample_archive).
    split_and!; by vm_compute.
Qed.

Lemma archive_items_read_witness :
  exists f', read_items [mkItem 2 (nth 2 sample_dirents Dirent.new); mkItem 0 (nth 0 sample_dirents Dirent.new);
      mkItem 2 (nth 2 sample_dirents Dirent.new)] sample_impl = (Ok [lit "eng"; lit "hello"; lit "eng"], f').
Proof.
  apply (archive_items_read (H1 := sample_os_spec) copy_lzma_spec copy_zstd_spec (fun _ => [lit "hello"; lit "eng"]) (fun _ => zimcompNone) (fun _ => false)
    (fun _ => sample_rest) sample_impl 16); [apply sample_stored|by vm_compute|by vm_compute|].
  repeat constructor; by vm_compute.
Defined.

Lemma redirects_followed_witness :
  Entry_getItem (mkEntry 1 (nth 1 sample_dirents Dirent.new)) true sample_impl =
    (Ok (mkItem 0 (nth 0 sample_dirents Dirent.new)), sample_impl).
Proof.
  apply (redirects_followed sample_impl 1); [|lia|by vm_compute].
  eapply resolves_next; [by vm_compute|by vm_compute|]. by constructor.
Defined.

(** The sample, whose entry 1 redirects to itself. *)
Definition cyclic_impl : FileImpl :=
  mkFileImpl (zimFile sample_impl) 0 (buffer_of (dirent_bytes 0xffff 67 0 [0] (lit "b") [] ++ repeat 0 512))
    (header sample_impl) (clusterOffsetReader sample_impl)
    (DirectDirentAccessor_new (buffer_of (dirent_bytes 0xffff 67 0 [0] (lit "b") [] ++ repeat 0 512))
       (mkBufferReader (mkBuffer (toLittleEndian 8 0) 0 8)) 1 0)
    None (lru_new 0) [] [] true 0 1 [] [] false None.

Lemma redirects_given_up_witness :
  Entry_getItem (mkEntry 0 (nth 1 sample_dirents Dirent.new)) true cyclic_impl = (Throw is_a_redirect, cyclic_impl).
Proof.
  apply (redirects_given_up cyclic_impl 50); [|lia].
  do 50 (eapply redirects_S with (d1 := nth 1 sample_dirents Dirent.new); [by vm_compute|by vm_compute|]). by constructor.
Defined.

Lemma sample_cases i : 0 <= i < 3 -> i = 0 \/ i = 1 \/ i = 2.
Proof. lia. Qed.

Lemma sample_dirent_table : dirent_table 3 (dirent_of sample_impl) sample_dirents.
Proof.
  split; [by vm_compute|by vm_compute| | |].
  - intros i d Hi Hd. assert (Hlt : i < 3) by (apply lookup_lt_Some in Hd; simpl in Hd; lia).
    destruct (sample_cases i) as [-> | [-> | ->]]; [lia|..]; vm_compute in Hd; injection Hd as <-; by vm_compute.
  - repeat constructor; vm_compute; done || (intros; discriminate).
  - intros i j Hi Hij Hj.
    destruct (sample_cases i) as [-> | [-> | ->]]; [lia|..];
      (destruct (sample_cases j) as [-> | [-> | ->]]; [lia|..]); try lia; by vm_compute.
Qed.

Lemma sample_path_table : path_table sample_impl sample_dirents.
Proof.
  split.
  - exact sample_dirent_table.
  - intros i j Hi Hij Hj. change (Zlen sample_dirents) with 3 in Hj.
    destruct (sample_cases i) as [-> | [-> | ->]]; [lia|..];
      (destruct (sample_cases j) as [-> | [-> | ->]]; [lia|..]); try lia; by vm_compute.
  - destruct (m_direntLookup sample_impl) as [t|] eqn:Et; [|by vm_compute in Et].
    exists t. split; [done|].
    destruct (DirentLookup_new_built 3 (dirent_of sample_impl) sample_dirents sample_dirent_table 1024 9) as (t' & E & Hb);
      [lia| |by vm_compute|].
    + intros i Hi. destruct (sample_cases i Hi) as [-> | [-> | ->]]; by vm_compute.
    + assert (Eg : lookupGrid t' = lookupGrid t).
      { assert (E' : lookupGrid <$> m_direntLookup sample_impl =
          match DirentLookup_new 3 (dirent_of sample_impl) 1024 with Ok t' => Some (lookupGrid t') | _ => None end)
          by (by vm_compute).
        rewrite Et, E in E'. by injection E'. }
      unfold grid_built in *. by rewrite <- Eg.
Qed.


(** The sample with a listing of one article. *)
Definition listed_impl : FileImpl := with_title (Some (mkIndirect (mp_indexReader sample_title) 1)) sample_impl.

Lemma iterByTitle_past_listing_witness :
  range_entries (iterByTitle listed_impl) listed_impl = (Throw entry_out_of_range, listed_impl).
Proof.
  apply (iterByTitle_past_listing listed_impl (mkIndirect (mp_indexReader sample_title) 1));
    [by vm_compute|by vm_compute|by vm_compute|by vm_compute|].
  intros j Hj. change (m_startUserEntry listed_impl) with 0 in Hj. change (t_direntCount _) with 1 in Hj.
  assert (j = 0) as -> by lia. exists 0, (nth 0 sample_dirents Dirent.new). by vm_compute.
Defined.
