(* ===== verification/Opening.v ===== *)
(** Opening an archive: the constructor of [FileImpl] on a well-formed archive.

    [well_formed] says what the bytes of an archive are, field by field;
    [opening_ok] that the constructor accepts them and what the object it makes
    then serves: the promise on which the theorems of [Archive] and
    [FileImplProps] rely. *)

From Stdlib Require Import Ascii.
From stdpp Require Import gmap sorting strings.
From S2P Require Import Prelude.
From S2P Require Import Types.
From S2P Require Import Readers.
From S2P Require Import Files.
From S2P Require Import Compression.
From S2P Require Import Streams.
From S2P Require Import Header.
From S2P Require Import Md5.
From S2P Require Import Dirent.
From S2P Require Import Cluster.
From S2P Require Import Lru.
From S2P Require Import NarrowDown.
From S2P Require Import Lookup.
From S2P Require Import Tools.
From S2P Require Import Accessors.
From S2P Require Import FileImpl.
From S2P Require Import FileImplProps.
From S2P Require Import Archive.

(** * The MIME zone *)

(** The loop over a zone that ends somewhere after the empty string. *)
Lemma mime_loop_zone fuel types pre k e acc :
  Forall (fun m => m <> [] /\ no_nul m) types -> (length types <= fuel)%nat ->
  Zlen (pre ++ mime_bytes types) < e -> e <= Zlen (pre ++ mime_bytes types ++ 0 :: k) ->
  mime_loop fuel (pre ++ mime_bytes types ++ 0 :: k) (Zlen pre) e acc = Ok (acc ++ types).
Proof.
  intros Ht. revert fuel pre acc. induction Ht as [|m types [Hne Hm] Ht IH]; intros fuel pre acc Hf He He'.
  { unfold mime_bytes. cbn [map concat app].
    destruct (mem_get_drop (pre ++ 0 :: k) (Zlen pre) 0 k) as [Eg _]; [apply Zlen_nonneg| |].
    { unfold Zlen. by rewrite Nat2Z.id, drop_app_length. }
    rewrite app_nil_r. destruct fuel; cbn [mime_loop]; by rewrite Eg. }
  destruct fuel as [|fuel]; [simpl in Hf; lia|].
  specialize (IH fuel (pre ++ m ++ [0]) (acc ++ [m])). unfold mime_bytes in *. cbn [map concat] in *.
  rewrite <- !app_assoc in *. cbn [app] in *.
  set (tail := concat (map (fun m => m ++ [0]) types) ++ 0 :: k) in *.
  assert (Et : Zlen tail = Zlen (concat (map (fun m => m ++ [0]) types)) + (1 + Zlen k))
    by (unfold tail; rewrite Zlen_app; by rewrite Zlen_cons).
  revert He He' IH. rewrite !Zlen_app, !Zlen_cons. change (@Zlen Z []) with 0. intros He He' IH.
  pose proof (Zlen_nonneg pre). pose proof (Zlen_nonneg m). pose proof (Zlen_nonneg (concat (map (fun m => m ++ [0]) types))).
  destruct m as [|c m]; [done|]. rewrite <- app_comm_cons in *. cbn [mime_loop].
  destruct (mem_get_drop (pre ++ c :: m ++ 0 :: tail) (Zlen pre) c (m ++ 0 :: tail)) as [-> _]; [lia| |].
  { unfold Zlen. by rewrite Nat2Z.id, drop_app_length. }
  cbn [mbind outcome_bind]. rewrite (proj2 (Z.eqb_neq c 0)) by (by inversion Hm).
  assert (Hn : 0 <= e - Zlen pre - Zlen (c :: m) - 1) by lia.
  assert (Hmem : Zlen (pre ++ c :: m ++ 0 :: tail) = Zlen pre + (Zlen (c :: m) + (1 + Zlen tail)))
    by (unfold Zlen; rewrite !length_app; cbn [length]; rewrite length_app; cbn [length]; lia).
  assert (Eb : slice (pre ++ c :: m ++ 0 :: tail) (Zlen pre) (e - Zlen pre) =
    (c :: m) ++ 0 :: take (Z.to_nat (e - Zlen pre - Zlen (c :: m) - 1)) tail).
  { rewrite slice_app_r, Z.sub_diag by lia. unfold slice. cbn [Z.to_nat drop].
    replace (Z.to_nat (e - Zlen pre)) with (length (c :: m) + S (Z.to_nat (e - Zlen pre - Zlen (c :: m) - 1)))%nat
      by (unfold Zlen in *; lia).
    by rewrite drop_0, (app_comm_cons m (0 :: tail) c), firstn_app_2. }
  rewrite mem_read_ok, Eb by lia. cbn [mbind outcome_bind]. rewrite list_find_zero by done.
  rewrite take_app_length.
  replace (Zlen pre + Z.of_nat (length (c :: m)) + 1) with (Zlen pre + (Zlen (c :: m) + (1 + 0)))
    by (unfold Zlen; lia).
  cbn [app] in IH |- *. apply IH; [simpl in Hf; lia| |]; rewrite Zlen_cons in *; lia.
Qed.

(** * Looking up a path *)

Section paths.
Context `{OSSpec} `{LzmaLib} `{ZstdLib} `{Env}.
Context (f : FileImpl) (ds : list Dirent.t).
Hypothesis Hpt : path_table f ds.

Lemma key_at i d : ds !! i = Some d -> key ds (Z.of_nat i) = direntKey d.
Proof. intros Hd. unfold key. by rewrite Nat2Z.id, Hd. Qed.

Lemma findx_present i d :
  ds !! i = Some d -> findx (Dirent.ns d) (Dirent.url d) f = (Ok (true, Z.of_nat i), f).
Proof.
  intros Hd. assert (Hi : 0 <= Z.of_nat i < Zlen ds) by (apply lookup_lt_Some in Hd; unfold Zlen; lia).
  pose proof (table_ascii _ _ _ (pt_table _ _ Hpt)) as Ha. rewrite Forall_lookup in Ha. destruct (Ha _ _ Hd) as [Hns _].
  destruct (findx_found f ds Hpt (Dirent.ns d) (Dirent.url d)) as (q & E & Hq); [lia|]. rewrite E.
  pose proof (found_splits f ds Hpt _ q Hq) as [_ Hsp]. destruct q as [[] p]; unfold found in Hq; cbn [fst snd] in *.
  - destruct Hq as [Hp Ek]. do 3 f_equal. change (Dirent.ns d :: Dirent.url d) with (direntKey d) in Ek.
    rewrite <- (key_at i d Hd) in Ek.
    destruct (Z.lt_trichotomy p (Z.of_nat i)) as [Hlt|[|Hlt]]; [|done|]; exfalso;
      apply (str_lt_irrefl (key ds p)); [rewrite Ek at 2|rewrite Ek at 1]; apply (pt_strict _ _ Hpt); lia.
  - exfalso. destruct Hq as (Hp & Hlo & Hhi). change (Dirent.ns d :: Dirent.url d) with (direntKey d) in *.
    rewrite <- (key_at i d Hd) in Hlo, Hhi. destruct (Z.lt_ge_cases (Z.of_nat i) p).
    + apply (str_lt_irrefl (key ds (Z.of_nat i))). apply Hlo; lia.
    + apply (str_lt_irrefl (key ds (Z.of_nat i))). apply Hhi; lia.
Qed.

Lemma findx_absent c path :
  0 <= c < 128 -> Forall (fun d => direntKey d <> c :: path) ds -> exists p, findx c path f = (Ok (false, p), f).
Proof.
  intros Hc Hall. destruct (findx_found f ds Hpt c path Hc) as ([[] p] & E & Hq); [|by exists p].
  exfalso. unfold found in Hq. cbn [fst snd] in Hq. destruct Hq as [Hp Ek].
  destruct (lookup_lt_is_Some_2 ds (Z.to_nat p)) as [d Hd]; [unfold Zlen in Hp; lia|].
  rewrite Forall_lookup in Hall. apply (Hall _ _ Hd). rewrite <- Ek. unfold key. by rewrite Hd.
Qed.

End paths.

(** * Well-formed archives *)

(** Where a blob lies in a cluster that is not compressed. *)
Lemma blob_in_cluster (content : bytes) off comp ext (bs : list bytes) rest n b :
  0 <= off -> drop (Z.to_nat off) content = cluster_info comp ext :: cluster_payload ext bs ++ rest -> bs !! n = Some b ->
  let pos := off + (1 + header_size ext bs + Zlen (concat (take n bs))) in
  slice content pos (Zlen b) = b /\ 0 <= pos /\ pos + Zlen b <= Zlen content.
Proof.
  intros Hoff Hd Hb pos.
  set (pre := cluster_info comp ext :: concat (map (toLittleEndian (offset_bytes ext)) (offsets_from (header_size ext bs) bs)) ++
    concat (take n bs)).
  set (post := concat (drop (S n) bs) ++ rest).
  assert (Hdrop : drop (Z.to_nat off) content = pre ++ b ++ post).
  { rewrite Hd. unfold cluster_payload, pre, post. cbn [app]. rewrite <- !app_assoc. do 2 f_equal.
    transitivity (concat (take n bs ++ b :: drop (S n) bs) ++ rest);
      [by rewrite (take_drop_middle _ _ _ Hb)|]. rewrite concat_app. cbn [concat]. by rewrite <- !app_assoc. }
  assert (Hpre : Zlen pre = 1 + header_size ext bs + Zlen (concat (take n bs))).
  { unfold pre. rewrite Zlen_cons, Zlen_app. rewrite concat_ints_length, offsets_from_length by apply offset_bytes_cases.
    unfold header_size. lia. }
  assert (Hpos : pos = off + Zlen pre) by (unfold pos; lia).
  pose proof (Zlen_nonneg pre). pose proof (Zlen_nonneg b). pose proof (Zlen_nonneg post).
  assert (Hlen : Zlen content = off + (Zlen pre + (Zlen b + Zlen post)) \/ Zlen content < off).
  { destruct (Z.lt_ge_cases (Zlen content) off) as [|Hge]; [by right|left].
    pose proof (Zlen_drop content off) as E. rewrite Hdrop, !Zlen_app in E. lia. }
  destruct Hlen as [Hlen|Hlen].
  2:{ rewrite drop_ge in Hdrop by (unfold Zlen in Hlen; lia). discriminate Hdrop. }
  split_and!; [|lia|lia].
  unfold slice. rewrite Hpos, Z2Nat.inj_add, <- drop_drop, Hdrop by lia.
  unfold Zlen. by rewrite !Nat2Z.id, drop_app_length, take_app_length.
Qed.

Section opening.
Context `{OSSpec} `{LzmaLib} `{ZstdLib} `{Env}.
Context (lzma_spec : @DecoderSpec LZMA_INFO) (zstd_spec : @DecoderSpec ZSTD_INFO).
(** The archive: its bytes, its header, the entries and their offsets, the MIME types, the offsets and the
    blobs of the clusters (their compression, the width of their offsets, the bytes behind them). *)
Context (r : AnyReader) (h : Fileheader) (offs : list Z) (ds : list Dirent.t) (mimes : list bytes).
Context (cluster_off : Z -> Z) (blobs_at : Z -> list bytes) (comp_at : Z -> CompressionType).
Context (ext_at : Z -> bool) (rest_at : Z -> bytes).

Abbreviation content := (r_content r).

(** The number [v], of [N] bytes, is stored at [pos]. *)
Definition int_at (N : nat) (pos v : Z) : Prop :=
  slice content pos (Z.of_nat N) = toLittleEndian N v /\ fits (8 * Z.of_nat N) v.

Definition title_v1 : bytes := chr "X" :: lit "listing/titleOrdered/v1".
Definition mime_end : Z := 80 + Zlen (mime_bytes mimes) + 1.

Record well_formed : Prop := {
  wf_reader : r_wf r;
  wf_size : r_size r <= max_read;
  wf_header : slice content 0 80 = Fileheader_write h;
  wf_fits : header_fits h;
  wf_sane : header_sane h;
  wf_mimePos : mimeListPos h = 80;
  wf_checksum : checksumPos h = r_size r - 16;
  wf_count : articleCount h = Zlen ds;
  wf_bound : 1 <= Zlen ds < 2 ^ 31;
  wf_url_end : urlPtrPos h + 8 * Zlen ds <= r_size r;
  wf_entries : Forall2 (fun off d => readDirent_fresh r off = Ok d) offs ds;
  wf_ptrs : forall i off, offs !! i = Some off -> int_at 8 (urlPtrPos h + 8 * Z.of_nat i) off /\ mime_end <= off;
  wf_ascii : Forall (fun d => 0 < Dirent.ns d < 128 /\ no_zero (Dirent.url d)) ds;
  wf_sorted : StronglySorted str_lt (map direntKey ds);
  wf_cluster_end : clusterPtrPos h + 8 * clusterCount h <= r_size r;
  wf_cluster_ptr : forall k, 0 <= k < clusterCount h ->
    int_at 8 (clusterPtrPos h + 8 * k) (cluster_off k) /\ mime_end <= cluster_off k <= r_size r;
  wf_clusters : forall k, 0 <= k < clusterCount h -> exists enc,
    drop (Z.to_nat (cluster_off k)) content = cluster_info (comp_at k) (ext_at k) :: enc /\ enc <> [] /\
    encodes lzma_spec zstd_spec (comp_at k) enc (cluster_payload (ext_at k) (blobs_at k) ++ rest_at k);
  wf_payload : forall k, 0 <= k < clusterCount h -> payload_ok (ext_at k) (blobs_at k);
  wf_mimes : Forall (fun m => m <> [] /\ no_nul m) mimes;
  wf_mime_bytes : slice content 80 (mime_end - 80) = mime_bytes mimes ++ [0];
  wf_mime_end : mime_end <= urlPtrPos h /\ mime_end <= titleIdxPos h /\ mime_end <= clusterPtrPos h;
}.

(** Where the title listing comes from, and its bytes. *)
Inductive title_source : bytes -> Prop :=
  | title_listing i d b :
      ds !! i = Some d -> direntKey d = title_v1 -> let k := Dirent.getClusterNumber d in
      0 <= k < clusterCount h -> comp_at k = zimcompDefault \/ comp_at k = zimcompNone ->
      0 <= Dirent.getBlobNumber d -> blobs_at k !! Z.to_nat (Dirent.getBlobNumber d) = Some b -> b <> [] ->
      title_source b
  | title_table_of_header :
      Forall (fun d => direntKey d <> title_v1) ds -> titleIdxPos h + 4 * Zlen ds <= r_size r ->
      title_source (slice content (titleIdxPos h) (4 * Zlen ds)).

(** The size of the index of the lookup fits its 32-bit offsets. *)
Definition lookup_fits : Prop :=
  let n := Zlen ds in
  let c := envValue (lit "ZIM_DIRENTLOOKUPCACHE") DIRENT_LOOKUP_CACHE_SIZE in
  0 < c < 2 ^ 32 /\ exists K, Forall (fun d => Zlen (direntKey d) <= K) ds /\ ((n - 1) / Z.max 1 (n / c) + 2) * (K + 1) < 2 ^ 32.

Hypothesis Hwf : well_formed.

Lemma content_size : Zlen content = r_size r.
Proof. symmetry. apply r_size_content, Hwf. Qed.

Lemma size_80 : 80 <= r_size r.
Proof.
  pose proof (wf_mime_end Hwf). pose proof (wf_url_end Hwf). pose proof (wf_bound Hwf).
  pose proof (Zlen_nonneg (mime_bytes mimes)). unfold mime_end in *. lia.
Qed.

(** A section of numbers, and its reader. *)
Lemma section_reader name N pos n (v : Z -> Z) :
  (N = 2 \/ N = 4 \/ N = 8)%nat -> 0 <= pos -> 0 < n -> pos + Z.of_nat N * n <= r_size r ->
  (forall i, 0 <= i < n -> int_at N (pos + Z.of_nat N * i) (v i)) ->
  exists b, sectionSubReader r name pos (u64 (Z.of_nat N * n)) = Ok (mkBufferReader b) /\
    forall i, 0 <= i < n -> read_uint N (mkBufferReader b) (u64 (Z.of_nat N * i)) = Ok (v i).
Proof.
  intros HN Hpos Hn Hend Hv. pose proof (wf_size Hwf) as Hsz. unfold max_read in *.
  assert (HN' : 2 <= Z.of_nat N <= 8) by lia.
  rewrite u64_small by lia. unfold sectionSubReader.
  rewrite can_read_spec by (apply Hwf || lia). rewrite bool_decide_true by done.
  destruct (r_buffer_in r pos (Z.of_nat N * n)) as (b & -> & Hb & Hbs & Hbc); [apply Hwf|unfold max_read; lia..|].
  exists b. split; [done|]. intros i Hi. destruct (Hv i Hi) as [Hs Hf].
  rewrite u64_small by lia. assert (Hbw : r_wf (mkBufferReader b)) by done.
  rewrite read_uint_in; [|done|lia|lia|unfold max_read; lia|unfold r_size; simpl; unfold BufferReader_size; simpl; nia].
  change (r_content (mkBufferReader b)) with (Buffer_content b).
  rewrite Hbc, slice_slice by nia. rewrite Hs, from_to_LittleEndian by done. f_equal. by apply wrap_small.
Qed.

Lemma header_read : read_header_of r = Ok h.
Proof.
  assert (Hst : Header.stored h = h).
  { assert (E : getChecksumPos h = checksumPos h) by (unfold getChecksumPos, hasChecksum; by rewrite (wf_mimePos Hwf)).
    unfold Header.stored. rewrite E. clear. by destruct h. }
  unfold read_header_of. rewrite (read_written r h); [|apply Hwf|apply (proj1 (wf_sane Hwf))|apply Hwf|apply size_80|apply Hwf].
  rewrite Hst, (proj2 (sanity_check_spec h (proj1 (wf_sane Hwf)))) by apply (wf_sane Hwf). done.
Qed.

(** ** The object during the construction *)

(** The fields that are set before the body of the constructor. *)
Record based (f : FileImpl) : Prop := {
  bs_reader : zimReader f = r;
  bs_header : header f = h;
  bs_clusters : forall k, 0 <= k < clusterCount h -> readOffset (clusterOffsetReader f) k = Ok (cluster_off k);
  bs_count : m_direntCount (mp_urlDirentAccessor f) = Zlen ds;
  bs_ptrs : forall i off, offs !! i = Some off -> getOffset (mp_urlDirentAccessor f) (Z.of_nat i) = Ok off;
  bs_direntReader : mp_direntReader (mp_urlDirentAccessor f) = r;
}.

(** [f'] differs from the based [f] in what the body of the constructor sets. *)
Ltac based := match goal with Hb : based _ |- based _ => split; apply Hb end.

Lemma cluster_count : 1 <= clusterCount h <= Zlen ds.
Proof.
  pose proof (wf_sane Hwf) as (_ & Hz & _ & _ & _ & _ & Hle & _). pose proof (wf_count Hwf).
  pose proof (wf_bound Hwf). pose proof (wf_fits Hwf) as (_ & _ & _ & _ & [Hc _] & _). lia.
Qed.

Lemma based_dirent f i d : based f -> ds !! i = Some d -> dirent_of f (Z.of_nat i) = Ok d.
Proof.
  intros Hb Hd. destruct (Forall2_lookup_r _ _ _ _ _ (wf_entries Hwf) Hd) as (off & Hoff & E).
  unfold dirent_of, entry_of. rewrite (bs_ptrs f Hb i off Hoff). cbn [mbind outcome_bind].
  by rewrite (bs_direntReader f Hb).
Qed.

Lemma keys_sorted i j : 0 <= i -> i < j -> j < Zlen ds -> str_lt (key ds i) (key ds j).
Proof.
  intros Hi Hij Hj. unfold key. pose proof (wf_sorted Hwf) as Hs.
  destruct (lookup_lt_is_Some_2 ds (Z.to_nat i)) as [d Hd]; [unfold Zlen in Hj; lia|].
  destruct (lookup_lt_is_Some_2 ds (Z.to_nat j)) as [e He]; [unfold Zlen in Hj; lia|].
  rewrite Hd, He. simpl. rewrite <- (take_drop_middle ds _ d Hd), map_app in Hs. cbn [map] in Hs.
  apply StronglySorted_app in Hs as (_ & _ & Hs). apply StronglySorted_inv in Hs as [_ Hs].
  rewrite Forall_forall in Hs. apply Hs, list_elem_of_In, in_map, list_elem_of_In.
  apply list_elem_of_lookup. exists (Z.to_nat j - S (Z.to_nat i))%nat. rewrite lookup_drop.
  by replace (S (Z.to_nat i) + (Z.to_nat j - S (Z.to_nat i)))%nat with (Z.to_nat j) by lia.
Qed.

Lemma based_table f : based f -> dirent_table (m_direntCount (mp_urlDirentAccessor f)) (dirent_of f) ds.
Proof.
  intros Hb. pose proof (wf_bound Hwf). rewrite (bs_count f Hb). split.
  - done.
  - lia.
  - intros i d Hi Hd. rewrite <- (Z2Nat.id i) by done. by apply based_dirent.
  - apply Hwf.
  - intros i j Hi Hij Hj. destruct (Z.eq_dec i j) as [->|]; [reflexivity|].
    apply str_lt_le, keys_sorted; lia.
Qed.

Lemma based_stored f : based f -> stored lzma_spec zstd_spec blobs_at comp_at ext_at rest_at f.
Proof.
  intros Hb. split; unfold getCountClusters; rewrite ?(bs_header f Hb), ?(bs_reader f Hb).
  - apply Hwf.
  - apply Hwf.
  - intros k Hk. destruct (wf_clusters Hwf k Hk) as (enc & Hd & Hne & He).
    exists (cluster_off k), enc. split_and!; try done; [by apply Hb|].
    destruct (wf_cluster_ptr Hwf k Hk) as [[_ Hf] _]. apply Hf.
Qed.

Lemma quickCheck_ok f : based f -> quickCheckForCorruptFile f = (Ok tt, f).
Proof.
  intros Hb. pose proof cluster_count. pose proof (wf_bound Hwf). pose proof (wf_fits Hwf) as (_ & _ & _ & _ & [Hc Hc'] & _).
  unfold quickCheckForCorruptFile. rewrite stm_gets. unfold id, getCountClusters, getFilesize.
  rewrite (bs_header f Hb), (bs_reader f Hb). rewrite (proj2 (Z.eqb_neq (clusterCount h) 0)) by lia.
  rewrite u32_small by lia. unfold getClusterOffset.
  destruct (wf_cluster_ptr Hwf (clusterCount h - 1)) as [_ Hlast]; [lia|].
  unfold mbind, stm_bind, gets, id, lift. rewrite (bs_clusters f Hb) by lia.
  rewrite (proj2 (Z.ltb_ge (r_size r) _)) by lia. cbn [throw_when].
  unfold hasChecksum, getChecksumPos, hasChecksum. rewrite (wf_mimePos Hwf). cbn [Z.leb Z.compare Pos.compare Pos.compare_cont].
  pose proof size_80. pose proof (wf_size Hwf). unfold max_read in *.
  rewrite (wf_checksum Hwf), u64_small by lia. by rewrite Z.eqb_refl.
Qed.

(** ** The lookup *)

Lemma new_lookup_cache n get c t : DirentLookup_new n get c = Ok t -> namespaceBoundaryCache t = ∅.
Proof.
  unfold DirentLookup_new. intros E. destruct (_ =? _); [by injection E as <-|]. destruct (_ =? _); [done|]. by inv_outcome.
Qed.

Lemma lookup_built f :
  lookup_fits -> based f -> m_direntLookup f = None ->
  exists t, direntLookup f = (Ok t, with_lookup t f) /\ path_table (with_lookup t f) ds /\ cache_valid (Zlen ds) ds t.
Proof.
  intros (Hc & K & HK & Hfit) Hb Hnone. pose proof (based_table f Hb) as Ht.
  destruct (DirentLookup_new_built _ _ ds Ht (envValue (lit "ZIM_DIRENTLOOKUPCACHE") DIRENT_LOOKUP_CACHE_SIZE) K)
    as (t & Et & Hg); [done|by eapply key_bound|by rewrite (bs_count f Hb)|].
  exists t. split_and!.
  - unfold direntLookup. rewrite stm_gets. unfold id. rewrite Hnone. by erewrite stm_lift_Ok by exact Et.
  - split; [exact Ht|intros; by apply keys_sorted|]. by exists t.
  - unfold cache_valid. rewrite (new_lookup_cache _ _ _ _ Et). apply map_Forall_empty.
Qed.

Lemma findx_built {A} f t ns path (k : bool * Z -> stm FileImpl A) :
  direntLookup f = (Ok t, with_lookup t f) -> (findx ns path ≫= k) f = (findx ns path ≫= k) (with_lookup t f).
Proof.
  intros E. assert (Ef : findx ns path f = findx ns path (with_lookup t f)) by (unfold findx; by erewrite stm_bind_Ok by exact E).
  unfold mbind, stm_bind. by rewrite Ef.
Qed.

(** ** The title listing *)

(** The accessor gives the numbers of the listing [b]. *)
Definition serves_listing (t : IndirectDirentAccessor) (b : bytes) : Prop :=
  t_direntCount t = Zlen b / 4 /\
  forall j, 0 <= j < Zlen b / 4 -> getDirectIndex t j = Ok (fromLittleEndian 4 (slice b (4 * j) 4)).

Lemma getTitleAccessor_ok f off n name :
  based f -> 0 <= off -> 0 < n -> off + n <= r_size r ->
  exists t, getTitleAccessor off n name f = (Ok t, f) /\ serves_listing t (slice content off n).
Proof.
  intros Hb Hoff Hn Hend. pose proof (wf_size Hwf) as Hsz. unfold max_read in *. pose proof content_size.
  unfold getTitleAccessor. rewrite stm_gets. unfold id, sectionSubReader. rewrite (bs_reader f Hb).
  rewrite can_read_spec by (apply Hwf || lia). rewrite bool_decide_true by done.
  destruct (r_buffer_in r off n) as (b & E & Hbw & Hbs & Hbc); [apply Hwf|unfold max_read; lia..|].
  eexists. split; [by erewrite stm_lift_Ok by (rewrite E; done)|].
  assert (Hq : 0 <= n / 4 <= n) by (split; [apply Z.div_pos; lia|apply Z.div_le_upper_bound; lia]).
  assert (Hq4 : 4 * (n / 4) <= n) by (apply Z.mul_div_le; lia).
  unfold serves_listing, getDirectIndex. cbn [t_direntCount mp_indexReader].
  rewrite Zlen_slice, u32_small by lia. split; [done|]. intros j Hj.
  rewrite (proj2 (Z.leb_gt _ j)) by lia. rewrite u64_small by lia.
  assert (Hw : r_wf (mkBufferReader b)) by done.
  rewrite read_uint_in; [|done|lia|lia|unfold max_read; lia|unfold r_size; simpl; unfold BufferReader_size; simpl; lia].
  change (r_content (mkBufferReader b)) with (Buffer_content b). by rewrite Hbc.
Qed.

(** Where a blob of an uncompressed cluster lies. *)
Lemma blob_position k n b :
  0 <= k < clusterCount h -> comp_at k = zimcompDefault \/ comp_at k = zimcompNone ->
  0 <= n -> blobs_at k !! Z.to_nat n = Some b ->
  let pos := cluster_off k + (1 + header_size (ext_at k) (blobs_at k) + Zlen (concat (take (Z.to_nat n) (blobs_at k)))) in
  slice content pos (Zlen b) = b /\ 0 <= pos /\ pos + Zlen b <= r_size r.
Proof.
  intros Hk Hc Hn Hb. destruct (wf_clusters Hwf k Hk) as (enc & Hd & _ & He).
  destruct (wf_cluster_ptr Hwf k Hk) as [[_ [Hoff _]] _].
  assert (Henc : enc = cluster_payload (ext_at k) (blobs_at k) ++ rest_at k) by (by destruct Hc as [E|E]; rewrite E in He).
  rewrite Henc in Hd. rewrite <- content_size. exact (blob_in_cluster _ _ _ _ _ _ _ _ Hoff Hd Hb).
Qed.

Abbreviation cluster_is := (cluster_is lzma_spec zstd_spec blobs_at comp_at ext_at rest_at).
Abbreviation cache_inv := (cache_inv lzma_spec zstd_spec blobs_at comp_at ext_at rest_at).

Lemma observe_ok {A} owners f i k (op : Cluster -> outcome A) v :
  cache_inv owners f -> owners !! i = Some k -> (forall c, cluster_is c k -> op c = Ok v) ->
  exists f', observe_cluster i op f = (Ok v, f') /\ cache_inv owners f' /\ reopened f f'.
Proof.
  intros Hci Hi Hop.
  destruct (on_cluster_ok lzma_spec zstd_spec blobs_at comp_at ext_at rest_at owners f i k
    (fun c => a ← op c; mret (a, c)) (eq v) Hci Hi) as (a & f' & E & <- & Hci' & Hr).
  { intros c Hc. exists v, c. by rewrite (Hop c Hc). }
  by exists f'.
Qed.

Lemma based_reopened f f' : reopened f f' -> based f -> based f'.
Proof. intros (cc & fs & cs & ->) Hb. based. Qed.

(** The position of the blob, as [getTitleAccessor_path] computes it. *)
Lemma listing_found f i d b :
  based f -> path_table f ds -> cache_inv [] f ->
  ds !! i = Some d -> direntKey d = title_v1 -> let k := Dirent.getClusterNumber d in
  0 <= k < clusterCount h -> comp_at k = zimcompDefault \/ comp_at k = zimcompNone ->
  0 <= Dirent.getBlobNumber d -> blobs_at k !! Z.to_nat (Dirent.getBlobNumber d) = Some b -> b <> [] ->
  exists a f' owners, getTitleAccessor_path (lit "listing/titleOrdered/v1") f = (Ok (Some a), f') /\
    serves_listing a b /\ cache_inv owners f' /\ reopened f f'.
Proof.
  intros Hb Hpt Hci Hd Hkey k Hk Hcomp Hn Hblob Hne.
  pose proof (findx_present f ds Hpt i d Hd) as Ef.
  injection Hkey as Ens Eurl. unfold Dirent.getNamespace in Ens. unfold Dirent.getUrl in Eurl. rewrite Ens, Eurl in Ef.
  unfold getTitleAccessor_path. erewrite stm_bind_Ok by exact Ef. cbn [fst snd]. cbv iota.
  assert (Ed : FileImpl_getDirent (Z.of_nat i) f = (Ok d, f))
    by (unfold FileImpl_getDirent; rewrite stm_gets; unfold id, lift; by rewrite (based_dirent f i d)).
  erewrite stm_bind_Ok by exact Ed. fold k.
  assert (Hkc : 0 <= k < getCountClusters f) by (unfold getCountClusters; by rewrite (bs_header f Hb)).
  destruct (getCluster_ok lzma_spec zstd_spec blobs_at comp_at ext_at rest_at [] f k (based_stored f Hb) Hci Hkc)
    as (c & f1 & ow & E1 & Hci1 & Hc & Hr1).
  erewrite stm_bind_Ok by exact E1.
  destruct (observe_ok ow f1 c k (fun c => mret (isCompressed c)) false Hci1 Hc) as (f2 & E2 & Hci2 & Hr2).
  { intros c' (_ & _ & Ec). unfold isCompressed, getCompression in *. rewrite Ec. by destruct Hcomp as [-> | ->]. }
  erewrite stm_bind_Ok by exact E2. cbv iota.
  assert (Hb2 : based f2) by (eapply based_reopened; [exact Hr2|]; by eapply based_reopened).
  assert (E3 : getClusterOffset k f2 = (Ok (cluster_off k), f2))
    by (unfold getClusterOffset; rewrite stm_gets; unfold id, lift; by rewrite (bs_clusters f2 Hb2)).
  erewrite stm_bind_Ok by exact E3. pose proof (wf_payload Hwf k Hk) as Hpok.
  pose proof (lookup_lt_Some _ _ _ Hblob) as Hlt.
  destruct (observe_ok ow f2 c k (fun c => getBlobOffset c (Dirent.getBlobNumber d)) (1 + header_size (ext_at k) (blobs_at k) +
    Zlen (concat (take (Z.to_nat (Dirent.getBlobNumber d)) (blobs_at k)))) Hci2 Hc) as (f3 & E4 & Hci3 & Hr3).
  { intros c' (Hat & He & _). rewrite <- He in *.
    rewrite (getBlobOffset_in lzma_spec zstd_spec c' (blobs_at k) (rest_at k)); [done|done|done|unfold Zlen; lia]. }
  erewrite stm_bind_Ok by exact E4.
  destruct (observe_ok ow f3 c k (fun c => getBlobSize c (Dirent.getBlobNumber d)) (Zlen b) Hci3 Hc) as (f4 & E5 & Hci4 & Hr4).
  { intros c' (Hat & He & _). rewrite <- He in *.
    by apply (getBlobSize_in lzma_spec zstd_spec c' (blobs_at k) (rest_at k)). }
  erewrite stm_bind_Ok by exact E5.
  assert (Hr : reopened f f4) by (do 3 (eapply reopened_trans; [|eassumption]); done).
  destruct (blob_position k (Dirent.getBlobNumber d) b Hk Hcomp Hn Hblob) as (Hs & Hp & Hend).
  destruct (wf_cluster_ptr Hwf k Hk) as [[_ [Hoff _]] _]. pose proof (wf_size Hwf). unfold max_read in *.
  rewrite off_add_small by (pose proof (Zlen_nonneg b); lia).
  destruct (getTitleAccessor_ok f4 (cluster_off k + (1 + header_size (ext_at k) (blobs_at k) +
    Zlen (concat (take (Z.to_nat (Dirent.getBlobNumber d)) (blobs_at k))))) (Zlen b) "Title index table") as (a & Ea & Ha).
  - by eapply based_reopened.
  - lia.
  - destruct b; [done|]. rewrite Zlen_cons. pose proof (Zlen_nonneg b). lia.
  - lia.
  - rewrite Hs in Ha. exists a, f4, ow. split_and!; [|done..]. by erewrite stm_bind_Ok by exact Ea.
Qed.

(** ** The MIME types and the user entries *)

Lemma mimes_length : (length mimes <= Z.to_nat (Zlen (mime_bytes mimes)))%nat.
Proof.
  pose proof (wf_mimes Hwf) as Hm. clear -Hm. unfold mime_bytes. induction Hm as [|m l _ _ IH]; [simpl; lia|].
  cbn [map concat length]. rewrite !Zlen_app. change (Zlen [0]) with 1.
  pose proof (Zlen_nonneg m). pose proof (Zlen_nonneg (concat (map (fun m => m ++ [0]) l))). lia.
Qed.

(** The bytes between the header and [e], wherever [e] is behind the list. *)
Lemma mime_zone b n :
  Buffer_wf b -> m_size b = n -> Buffer_content b = slice content 80 n -> mime_end - 80 <= n -> 80 + n <= r_size r ->
  mime_loop (Z.to_nat n) (m_mem b) (m_ptr b) (m_ptr b + n) [] = Ok mimes.
Proof.
  intros (Hp & Hs & Hfit & _) Hn Hbc Hlo Hhi. pose proof content_size. pose proof mimes_length as Hlen.
  unfold mime_end in Hlo. pose proof (Zlen_nonneg (mime_bytes mimes)).
  assert (Hsplit : slice content 80 n = mime_bytes mimes ++ 0 :: slice content mime_end (80 + n - mime_end)).
  { change (mime_bytes mimes ++ 0 :: slice content mime_end (80 + n - mime_end))
      with (mime_bytes mimes ++ [0] ++ slice content mime_end (80 + n - mime_end)).
    rewrite app_assoc, <- (wf_mime_bytes Hwf).
    replace n with (mime_end - 80 + (80 + n - mime_end)) at 1 by lia.
    rewrite slice_split by (unfold mime_end; lia). do 2 f_equal. lia. }
  set (pre := take (Z.to_nat (m_ptr b)) (m_mem b)).
  set (k := slice content mime_end (80 + n - mime_end) ++ drop (Z.to_nat (m_ptr b + n)) (m_mem b)).
  assert (Hmem : m_mem b = pre ++ mime_bytes mimes ++ 0 :: k).
  { unfold k. rewrite app_comm_cons, (app_assoc (mime_bytes mimes)), <- Hsplit, <- Hbc. unfold Buffer_content, slice, pre.
    rewrite Hn, Z2Nat.inj_add, <- drop_drop by lia. by rewrite !take_drop. }
  assert (Hpre : Zlen pre = m_ptr b).
  { unfold pre, Zlen. rewrite length_take. unfold Zlen in Hfit. lia. }
  rewrite Hmem, <- Hpre. rewrite Hmem, Hn, <- Hpre in Hfit.
  apply mime_loop_zone; [apply Hwf|lia| |lia]. rewrite Zlen_app. lia.
Qed.

Lemma getMimeListEndUpperLimit_ok f :
  based f -> exists e, getMimeListEndUpperLimit f = (Ok e, f) /\ mime_end <= e /\ e <= clusterPtrPos h.
Proof.
  intros Hb. pose proof cluster_count. pose proof (wf_bound Hwf). pose proof (wf_mime_end Hwf).
  unfold getMimeListEndUpperLimit. rewrite stm_gets. unfold id, getCountArticles.
  rewrite (bs_header f Hb), (wf_count Hwf). rewrite (proj2 (Z.eqb_neq (Zlen ds) 0)) by lia.
  destruct (lookup_lt_is_Some_2 ds 0) as [d Hd]; [unfold Zlen in *; lia|].
  destruct (Forall2_lookup_r _ _ _ _ _ (wf_entries Hwf) Hd) as (off & Hoff & _).
  pose proof (bs_ptrs f Hb 0%nat off Hoff) as Eo. simpl in Eo. erewrite stm_lift_Ok by exact Eo.
  erewrite stm_lift_Ok by (apply (bs_clusters f Hb); lia).
  destruct (wf_ptrs Hwf 0%nat off Hoff) as [_ Ho]. destruct (wf_cluster_ptr Hwf 0) as [_ Hc]; [lia|].
  eexists. split; [done|]. lia.
Qed.

(** [b] and [e] are the bounds of the user entries. *)
Definition user_range (b e : Z) : Prop :=
  if 1 <=? minorVersion h then
    0 <= b <= Zlen ds /\ 0 <= e <= Zlen ds /\ forall i d, ds !! i = Some d -> (Dirent.ns d = 67 <-> b <= Z.of_nat i < e)
  else b = 0 /\ e = Zlen ds.

Lemma namespace_bounds b e : boundary (Zlen ds) ds 67 b -> boundary (Zlen ds) ds 68 e ->
  forall i d, ds !! i = Some d -> (Dirent.ns d = 67 <-> b <= Z.of_nat i < e).
Proof.
  intros (_ & Hb & Hb') (_ & He & He') i d Hd.
  assert (Hi : 0 <= Z.of_nat i < Zlen ds) by (apply lookup_lt_Some in Hd; unfold Zlen; lia).
  assert (Hn : ns_at ds (Z.of_nat i) = Dirent.ns d) by (unfold ns_at; by rewrite Nat2Z.id, Hd).
  specialize (Hb (Z.of_nat i)). specialize (Hb' (Z.of_nat i)). specialize (He (Z.of_nat i)).
  specialize (He' (Z.of_nat i)). rewrite Hn in *. lia.
Qed.

Lemma namespace_offset f t c :
  based f -> m_direntLookup f = Some t -> cache_valid (Zlen ds) ds t -> 32 <= c <= 127 ->
  exists i t', FileImpl_getNamespaceBeginOffset c f = (Ok i, with_lookup t' f) /\
    getNamespaceRangeBegin (m_direntCount (mp_urlDirentAccessor f)) (dirent_of f) t c = Ok (i, t') /\
    boundary (Zlen ds) ds c i /\ cache_valid (Zlen ds) ds t' /\ lookupGrid t' = lookupGrid t.
Proof.
  intros Hb Ht Hv Hc. pose proof (based_table f Hb) as Htab. pose proof (wf_bound Hwf).
  rewrite <- (bs_count f Hb) in Hv.
  destruct (getNamespaceRangeBegin_boundary _ _ ds Htab t c) as (i & t' & E & Hi & Hv' & Hg);
    [rewrite (bs_count f Hb); lia|done|done|].
  exists i, t'. rewrite (bs_count f Hb) in Hi, Hv'. split_and!; [|done..].
  unfold FileImpl_getNamespaceBeginOffset, direntLookup, mbind, stm_bind, gets, id.
  rewrite Ht. unfold mret, stm_ret, lift. by rewrite E.
Qed.

Lemma readMimeTypes_ok f t :
  based f -> m_direntLookup f = Some t -> cache_valid (Zlen ds) ds t ->
  mimeTypes f = [] -> m_startUserEntry f = 0 ->
  exists t' b e, readMimeTypes f = (Ok tt, with_scheme (1 <=? minorVersion h) b e (with_lookup t' (with_mimeTypes mimes f))) /\
    lookupGrid t' = lookupGrid t /\ user_range b e.
Proof.
  intros Hb Ht Hv Hm Hs. destruct (getMimeListEndUpperLimit_ok f Hb) as (e & Ee & Hlo & Hhi).
  pose proof (wf_cluster_end Hwf). pose proof cluster_count. pose proof (wf_size Hwf). unfold max_read in *.
  pose proof (Zlen_nonneg (mime_bytes mimes)).
  assert (H80 : 81 <= e) by (unfold mime_end in Hlo; lia).
  unfold readMimeTypes. erewrite stm_bind_Ok by exact Ee. rewrite stm_gets. unfold id.
  rewrite (bs_header f Hb), (wf_mimePos Hwf), (bs_reader f Hb).
  rewrite (proj2 (Z.leb_gt e 80)) by lia. cbn [throw_when]. erewrite stm_lift_Ok by done.
  rewrite u64_small by lia.
  destruct (r_buffer_in r 80 (e - 80)) as (b & Eb & Hbw & Hbs & Hbc); [apply Hwf|lia|lia|lia|unfold max_read; lia|].
  erewrite stm_lift_Ok by exact Eb.
  erewrite stm_lift_Ok by (apply Buffer_data_Ok; split; [lia|done]). rewrite Z.add_0_r, Hm.
  erewrite stm_lift_Ok by (apply mime_zone; [done|done|done|lia|lia]). rewrite stm_modify, stm_modify.
  cbv zeta. rewrite Hs. unfold user_range. destruct (1 <=? minorVersion h) eqn:En.
  - set (f1 := with_scheme true 0 (m_endUserEntry f) (with_mimeTypes mimes f)).
    assert (Hb1 : based f1) by based.
    destruct (namespace_offset f1 t 67) as (i & t1 & E1 & _ & Hi & Hv1 & Hg1); [done|done|done|lia|].
    erewrite stm_bind_Ok by exact E1. rewrite stm_modify.
    set (f2 := with_scheme true i (m_endUserEntry f) (with_lookup t1 f1)).
    assert (Hb2 : based f2) by based.
    destruct (namespace_offset f2 t1 68) as (j & t2 & _ & E2 & Hj & Hv2 & Hg2); [done|done|done|lia|].
    assert (E3 : FileImpl_getNamespaceEndOffset (chr "C") f2 = (Ok j, with_lookup t2 f2)).
    { unfold FileImpl_getNamespaceEndOffset, direntLookup, mbind, stm_bind, gets, id.
      cbn [m_direntLookup f2 with_scheme with_lookup]. unfold mret, stm_ret, lift, getNamespaceRangeEnd.
      change (u8 (chr "C" + 1)) with 68. by rewrite E2. }
    exists t2, i, j. split; [by erewrite stm_bind_Ok by exact E3|]. split; [by rewrite Hg2, Hg1|].
    split; [apply Hi|]. split; [apply Hj|]. by apply namespace_bounds.
  - exists t, 0, (Zlen ds). split_and!; [|done..].
    unfold modify, getCountArticles. cbn [header with_scheme with_mimeTypes]. rewrite (bs_header f Hb), (wf_count Hwf).
    f_equal. destruct f. unfold with_scheme, with_lookup, with_mimeTypes. simpl in *. by rewrite Ht.
Qed.

(** ** The constructor *)

(** What the object serves, the title listing being [b]. *)
Record opened (b : bytes) (f : FileImpl) : Prop := {
  op_reader : zimReader f = r;
  op_header : header f = h;
  op_paths : path_table f ds;
  op_stored : stored lzma_spec zstd_spec blobs_at comp_at ext_at rest_at f;
  op_cache : exists owners, cache_inv owners f;
  op_title : exists t, mp_titleDirentAccessor f = Some t /\ serves_listing t b;
  op_mimes : mimeTypes f = mimes;
  op_scheme : m_newNamespaceScheme f = (1 <=? minorVersion h);
  op_user : user_range (m_startUserEntry f) (m_endUserEntry f);
}.

(** The files of the object and its place in them. *)
Definition same_file (f f' : FileImpl) : Prop := zimFile f' = zimFile f /\ archiveStartOffset f' = archiveStartOffset f.

(** The object before the body of the constructor. *)
Record fresh (f : FileImpl) : Prop := {
  fr_based : based f;
  fr_lookup : m_direntLookup f = None;
  fr_cache : exists n, clusterCache f = lru_new n;
  fr_clusters : clusters f = [];
  fr_mimes : mimeTypes f = [];
  fr_start : m_startUserEntry f = 0;
}.

Lemma listing_accessor f b :
  lookup_fits -> title_source b -> fresh f ->
  exists a t f' owners, getTitleAccessor_path (lit "listing/titleOrdered/v1") f = (Ok a, f') /\
    path_table (with_lookup t f) ds /\ cache_valid (Zlen ds) ds t /\ cache_inv owners f' /\ reopened (with_lookup t f) f' /\
    match a with
    | Some a => serves_listing a b
    | None => b = slice content (titleIdxPos h) (4 * Zlen ds) /\ titleIdxPos h + 4 * Zlen ds <= r_size r
    end.
Proof.
  intros Hl Hsrc [Hb Hn [n Hc] Hcl _ _].
  destruct (lookup_built f Hl Hb Hn) as (t & Et & Hpt & Hv).
  assert (Hb1 : based (with_lookup t f)) by based.
  assert (Hci : cache_inv [] (with_lookup t f)).
  { split; cbn [clusterCache clusters with_lookup]; rewrite ?Hc, ?Hcl; [apply lru_inv_new|constructor|constructor]. }
  assert (Ef : getTitleAccessor_path (lit "listing/titleOrdered/v1") f =
    getTitleAccessor_path (lit "listing/titleOrdered/v1") (with_lookup t f)).
  { by apply findx_built. }
  destruct Hsrc as [i d b Hd Hkey k Hk Hcomp Hbn Hblob Hne|Hno Hend].
  - destruct (listing_found (with_lookup t f) i d b Hb1 Hpt Hci Hd Hkey Hk Hcomp Hbn Hblob Hne)
      as (a & f' & ow & E & Ha & Hci' & Hr).
    exists (Some a), t, f', ow. by rewrite Ef.
  - destruct (findx_absent (with_lookup t f) ds Hpt (chr "X") (lit "listing/titleOrdered/v1")) as (p & E); [done|done|].
    exists None, t, (with_lookup t f), []. split_and!; [|done..|apply reopened_refl|done|done].
    rewrite Ef. unfold getTitleAccessor_path. by erewrite stm_bind_Ok by exact E.
Qed.

Lemma init_ok f b :
  lookup_fits -> title_source b -> fresh f -> exists f', FileImpl_init f = (Ok tt, f') /\ opened b f' /\ same_file f f'.
Proof.
  intros Hl Hsrc Hfr. pose proof Hfr as [Hb Hn _ _ Hm Hs].
  destruct (listing_accessor f b Hl Hsrc Hfr) as (a & t & f1 & ow & E & Hpt & Hv & Hci & Hr & Ha).
  unfold FileImpl_init. erewrite stm_bind_Ok by (by apply quickCheck_ok). erewrite stm_bind_Ok by exact E.
  rewrite stm_modify. destruct Hr as (cc & fs & cs & ->).
  assert (Hend : forall a, serves_listing a b ->
    exists f', readMimeTypes (with_title (Some a) (with_clusters cc fs cs (with_lookup t f))) = (Ok tt, f') /\ opened b f' /\ same_file f f').
  { clear Ha E a. intros a Ha. set (f2 := with_title (Some a) (with_clusters cc fs cs (with_lookup t f))).
    assert (Hb2 : based f2) by based.
    destruct (readMimeTypes_ok f2 t Hb2) as (t' & i & j & E & Hg & Hu); [done..|].
    eexists. split; [exact E|]. split; [|done]. split; cbn [zimReader header mimeTypes m_newNamespaceScheme with_scheme with_lookup
      with_mimeTypes with_title with_clusters f2]; try done; [by apply Hb|by apply Hb| | | |by exists a].
    - destruct Hpt as [Ht Hst (t0 & Et0 & Hg0)]. split; [exact Ht|exact Hst|].
      exists t'. split; [done|]. injection Et0 as <-. unfold grid_built in *. by rewrite Hg.
    - apply based_stored. based.
    - exists ow. by destruct Hci. }
  destruct a as [a|]; [by apply Hend|]. destruct Ha as [-> Hend'].
  rewrite stm_gets. unfold id. set (f2 := with_title None _). assert (Hb2 : based f2) by based.
  change (header f2) with (header f). rewrite (bs_header f Hb), (wf_count Hwf).
  pose proof (wf_bound Hwf). rewrite u64_small by lia.
  destruct (wf_fits Hwf) as (_ & _ & _ & _ & _ & _ & [Hpos _] & _).
  destruct (getTitleAccessor_ok f2 (titleIdxPos h) (4 * Zlen ds) "Title index table") as (a & E2 & Ha); [done|lia|lia|lia|].
  erewrite stm_bind_Ok by exact E2. rewrite stm_modify. by apply Hend.
Qed.

Lemma new_ok zf offset size b :
  makeFileReader zf offset size = Ok (Some r) -> lookup_fits -> title_source b ->
  exists f, FileImpl_new zf offset size = Ok f /\ opened b f /\ zimFile f = zf /\ archiveStartOffset f = offset.
Proof.
  intros Hr Hl Hsrc. pose proof size_80. pose proof (wf_bound Hwf). pose proof cluster_count.
  pose proof (wf_fits Hwf) as (_ & _ & _ & _ & _ & [Hu _] & _ & [Hc _] & _). pose proof (wf_size Hwf). unfold max_read in *.
  unfold FileImpl_new. rewrite Hr. cbn [mbind outcome_bind]. unfold Fileheader_size.
  rewrite (proj2 (Z.ltb_ge (r_size r) 80)) by lia. cbn [throw_when mbind outcome_bind].
  rewrite header_read. cbn [mbind outcome_bind]. rewrite (wf_count Hwf).
  destruct (section_reader "Dirent pointer table" 8 (urlPtrPos h) (Zlen ds) (fun i => nth (Z.to_nat i) offs 0))
    as (ub & Eu & Hub); [by auto|done|lia|apply Hwf| |].
  { intros i Hi. destruct (lookup_lt_is_Some_2 ds (Z.to_nat i)) as [d Hd]; [unfold Zlen in Hi; lia|].
    destruct (Forall2_lookup_r _ _ _ _ _ (wf_entries Hwf) Hd) as (off & Hoff & _).
    rewrite (nth_lookup_Some _ _ _ _ Hoff). destruct (wf_ptrs Hwf _ _ Hoff) as [Hp _]. by rewrite Z2Nat.id in Hp by lia. }
  destruct (section_reader "Cluster pointer table" 8 (clusterPtrPos h) (clusterCount h) cluster_off)
    as (cb & Ec & Hcb); [by auto|done|lia|apply Hwf| |].
  { intros k Hk. by apply (wf_cluster_ptr Hwf). }
  change (Z.of_nat 8) with 8 in *. rewrite Eu. cbn [mbind outcome_bind]. rewrite Ec. cbn [mbind outcome_bind].
  match goal with |- exists f, match ?m with (_, _) => _ end = _ /\ _ =>
    destruct m as [o f'] eqn:E; lazymatch type of E with FileImpl_init ?f0 = _ => destruct (init_ok f0 b Hl Hsrc) as (f2 & E2 & Hop & [Hzf Hao]) end end.
  - split; try done; [|by eexists]. split; cbn [zimReader header clusterOffsetReader mp_urlDirentAccessor]; try done.
    intros i off Hoff. unfold getOffset. cbn [DirectDirentAccessor_new m_direntCount mp_urlPtrReader].
    assert (Hi : Z.of_nat i < Zlen ds).
    { apply lookup_lt_Some in Hoff. pose proof (Forall2_length _ _ _ (wf_entries Hwf)). unfold Zlen. lia. }
    rewrite (proj2 (Z.leb_gt (Zlen ds) _)) by lia. rewrite Hub by lia. by rewrite Nat2Z.id, (nth_lookup_Some _ _ _ _ Hoff).
  - rewrite E2 in E. injection E as <- <-. by exists f2.
Qed.

End opening.

(** * Properties *)

(** C5. A well-formed archive opens: when the bytes behind the reader are those of an
    archive (header, MIME list, entries sorted by namespace and path, pointer lists, clusters,
    a title listing in an uncompressed cluster or at the position the header gives), the
    constructor succeeds, and the object serves the entries, the blobs of the clusters, the title
    listing, the MIME types and the range of the user entries of the archive, so that
    what is proved about an open archive holds of it. *)
Theorem well_formed_opens `{OSSpec} `{LzmaLib} `{ZstdLib} `{Env} lzma_spec zstd_spec (r : AnyReader) (h : Fileheader)
    (offs : list Z) (ds : list Dirent.t) (mimes : list bytes) cluster_off blobs_at comp_at ext_at rest_at
    (zimFile : FileCompound) (offset size : Z) (listing : bytes) :
  well_formed lzma_spec zstd_spec r h offs ds mimes cluster_off blobs_at comp_at ext_at rest_at ->
  makeFileReader zimFile offset size = Ok (Some r) -> lookup_fits ds ->
  title_source r h ds blobs_at comp_at listing ->
  exists f, FileImpl_new zimFile offset size = Ok f /\
    opened lzma_spec zstd_spec r h ds mimes blobs_at comp_at ext_at rest_at listing f.
Proof. intros Hw Hr Hl Hs. destruct (new_ok _ _ _ _ _ _ _ _ _ _ _ _ Hw zimFile offset size _ Hr Hl Hs) as (f & E & Ho & _). by exists f. Qed.

(** * Witness: the sample archive *)

#[local] Existing Instance sample_os.
#[local] Existing Instance sample_os_spec.
#[local] Existing Instance copy_lzma.
#[local] Existing Instance copy_zstd.
#[local] Existing Instance no_env.

Definition sample_reader : AnyReader := zimReader sample_impl.

Lemma sample_well_formed :
  well_formed copy_lzma_spec copy_zstd_spec sample_reader sample_fileheader [p_d0; p_d1; p_d2] sample_dirents
    [lit "text/plain"] (fun _ => p_cluster) (fun _ => [lit "hello"; lit "eng"]) (fun _ => zimcompNone) (fun _ => false)
    (fun _ => sample_rest).
Proof.
  assert (Hk : forall k, 0 <= k < clusterCount sample_fileheader -> k = 0)
    by (intros k Hk; change (clusterCount sample_fileheader) with 1 in Hk; lia).
  assert (Hs : header_sane sample_fileheader).
  { unfold header_sane. split; [by left|]. split; [split; intros E; by vm_compute in E|]. split; [by left|].
    split_and!; try by vm_compute. right. by vm_compute. }
  split.
  - by vm_compute.
  - by vm_compute.
  - by vm_compute.
  - unfold header_fits, fits. split_and!; by vm_compute.
  - exact Hs.
  - done.
  - by vm_compute.
  - done.
  - done.
  - by vm_compute.
  - repeat constructor; by vm_compute.
  - intros [|[|[|i]]] off Hoff; vm_compute in Hoff; try (injection Hoff as <-); try done;
      (split; [split; [by vm_compute|split; by vm_compute]|by vm_compute]).
  - repeat constructor; vm_compute; done || (intros; discriminate).
  - repeat constructor; by vm_compute.
  - by vm_compute.
  - intros k Hk'. rewrite (Hk k Hk'). split; [split; [by vm_compute|split; by vm_compute]|split; by vm_compute].
  - intros k Hk'. exists (drop (Z.to_nat p_cluster + 1) sample_archive). split_and!; by vm_compute.
  - intros k Hk'. repeat constructor; by vm_compute.
  - repeat constructor; by vm_compute.
  - by vm_compute.
  - split_and!; by vm_compute.
Qed.

Lemma well_formed_opens_witness :
  exists f, FileImpl_new (zimFile sample_impl) 0 (fc_fsize (zimFile sample_impl)) = Ok f /\
    mimeTypes f = [lit "text/plain"] /\ path_table f sample_dirents.
Proof.
  destruct (well_formed_opens copy_lzma_spec copy_zstd_spec sample_reader sample_fileheader
    [p_d0; p_d1; p_d2] sample_dirents [lit "text/plain"] (fun _ => p_cluster) (fun _ => [lit "hello"; lit "eng"])
    (fun _ => zimcompNone) (fun _ => false) (fun _ => sample_rest) (zimFile sample_impl) 0 (fc_fsize (zimFile sample_impl))
    (slice (r_content sample_reader) (titleIdxPos sample_fileheader) 12)) as (f & E & Hf).
  - apply sample_well_formed.
  - by vm_compute.
  - split; [by vm_compute|]. exists 9. split; [repeat constructor; by vm_compute|by vm_compute].
  - apply (title_table_of_header sample_reader sample_fileheader sample_dirents); [repeat constructor; by vm_compute|by vm_compute].
  - exists f. split; [exact E|]. split; [apply Hf|apply Hf].
Defined.
