(* ===== verification/DirectAccess.v ===== *)
(** Direct access to the data of an item ([Item::getDirectAccessInformation]): the file
    that holds it, which may be one of the parts of the archive, and its position there. The
    indexes of an archive are opened that way. *)

From Stdlib Require Import Ascii.
From stdpp Require Import gmap strings.
From S2P Require Import Prelude.
From S2P Require Import Types.
From S2P Require Import Readers.
From S2P Require Import Files.
From S2P Require Import Compression.
From S2P Require Import Streams.
From S2P Require Import Header.
From S2P Require Import Dirent.
From S2P Require Import Cluster.
From S2P Require Import Lru.
From S2P Require Import Lookup.
From S2P Require Import Accessors.
From S2P Require Import FileImpl.
From S2P Require Import FileImplProps.
From S2P Require Import Archive.
From S2P Require Import Opening.

(** * The part that holds some bytes *)

(** The name of the part that holds the [n] bytes at [pos], and their position in it. *)
Fixpoint part_holding (parts : list (Range * FilePart)) (pos n : Z) : option (bytes * Z) :=
  match parts with
  | [] => None
  | (rg, p) :: parts =>
      if (rg_min rg <=? pos) && (pos + n <=? rg_max rg) then Some (fp_filename p, pos - rg_min rg)
      else part_holding parts pos n
  end.

Lemma part_holding_before parts start pos n : parts_ok start parts -> pos < start -> part_holding parts pos n = None.
Proof.
  revert start. induction parts as [|[rg p] parts IH]; intros start; [done|]. cbn [parts_ok part_holding].
  intros (-> & _ & Hne & Hp) Hlt. cbn [rg_min rg_max]. rewrite (proj2 (Z.leb_gt start pos)) by lia. cbn [andb].
  apply (IH _ Hp). lia.
Qed.

Lemma part_holding_bytes parts start pos n name off :
  parts_ok start parts -> start <= pos -> 0 <= n -> part_holding parts pos n = Some (name, off) ->
  exists rg p, (rg, p) ∈ parts /\ fp_filename p = name /\ off = pos - rg_min rg /\ 0 <= off /\ off + n <= Zlen (fp_fhandle p) /\
    slice (fp_fhandle p) off n = slice (parts_content parts) (pos - start) n.
Proof.
  revert start. induction parts as [|[rg p] parts IH]; intros start; [done|].
  cbn [parts_ok part_holding]. intros (-> & _ & Hne & Hp) Hpos Hn. cbn [rg_min rg_max].
  rewrite (proj2 (Z.leb_le start pos)), parts_content_cons by lia. cbn [andb snd]. destruct (Z.leb_spec (pos + n) (start + Zlen (fp_fhandle p))).
  - intros [= <- <-]. exists (mkRange start (start + Zlen (fp_fhandle p))), p. split_and!; [by left|done|done|cbn; lia|cbn; lia|].
    by rewrite slice_app_l by lia.
  - destruct (Z.le_gt_cases (start + Zlen (fp_fhandle p)) pos) as [Hle|Hgt].
    + intros E. destruct (IH _ Hp Hle Hn E) as (rg' & p' & Hin & Hname & Ho & Hoff & Hend & Es). exists rg', p'.
      split_and!; [by right|done..|]. rewrite Es, slice_app_r by lia. f_equal. lia.
    + by rewrite (part_holding_before _ _ _ _ Hp) by lia.
Qed.

Lemma part_holding_none parts pos n : part_holding parts pos n = None ->
  forall rg p, (rg, p) ∈ parts -> ~ (rg_min rg <= pos /\ pos + n <= rg_max rg).
Proof.
  induction parts as [|[rg p] parts IH]; [by intros _ ? ? ?%not_elem_of_nil|]. cbn [part_holding].
  destruct (Z.leb_spec (rg_min rg) pos), (Z.leb_spec (pos + n) (rg_max rg)); cbn [andb]; [done|..]; intros E rg' p' Hin;
    (apply elem_of_cons in Hin as [[= -> ->]|Hin]; [lia|exact (IH E rg' p' Hin)]).
Qed.

(** What [locate] of the bytes gives. *)
Lemma locate_holding c pos n :
  fc_ok c -> 0 <= pos -> 0 < n -> pos + n <= fc_fsize c ->
  let '(first, second) := locate_range c pos n in
  match part_holding (fc_parts c) pos n with
  | Some (name, off) => S first = second /\ exists rg p, fc_parts c !! first = Some (rg, p) /\ fp_filename p = name /\ off_sub pos (rg_min rg) = off
  | None => S first <> second
  end.
Proof.
  intros (Hp & Hsz & Hmax) Hpos Hn Hend. unfold locate_range. rewrite off_add_small by lia.
  assert (Hpn : pos + n < 2 ^ 63) by lia.
  assert (Hgen : forall parts start, parts_ok start parts -> 0 <= start -> start <= pos -> pos + n <= start + Zlen (parts_content parts) ->
    match part_holding parts pos n with
    | Some (name, off) => S (range_below (mkRange pos (pos + n)) parts) = range_upto (mkRange pos (pos + n)) parts /\
        exists rg p, parts !! range_below (mkRange pos (pos + n)) parts = Some (rg, p) /\ fp_filename p = name /\ off_sub pos (rg_min rg) = off
    | None => S (range_below (mkRange pos (pos + n)) parts) <> range_upto (mkRange pos (pos + n)) parts
    end).
  2:{ apply (Hgen _ 0); [done|lia|lia|]. by rewrite Z.add_0_l, <- Hsz. }
  clear Hp Hsz Hend. induction parts as [|[rg p] parts IH]; intros start.
  { change (Zlen (parts_content [])) with 0. lia. }
  cbn [parts_ok part_holding]. intros (-> & _ & Hne & Hp) Hst Hle. rewrite parts_content_cons, Zlen_app. cbn [snd]. intros Hend.
  cbn [rg_min rg_max range_below range_upto]. unfold less_range. cbn [rg_min rg_max].
  rewrite (proj2 (Z.leb_le start pos)), (proj2 (Z.ltb_ge pos start)) by lia. cbn [andb].
  assert (Hnext : forall e, pos < start + Zlen (fp_fhandle p) -> e = start + Zlen (fp_fhandle p) ->
    range_upto (mkRange pos (pos + n)) parts = O <-> pos + n <= e \/ parts = []).
  { intros e Hlt ->. destruct parts as [|[rg q] parts]; [by split; [right|]|]. destruct Hp as (-> & _). cbn [range_upto]. unfold less_range.
    cbn [rg_min rg_max]. rewrite (proj2 (Z.ltb_lt pos _)) by lia. cbn [andb].
    destruct (Z.leb_spec (pos + n) (start + Zlen (fp_fhandle p))); (split; [by intros; left|by intros [?|?]; try lia])|| (split; [done|by intros [?|?]; [lia|]]). }
  destruct (Z.le_gt_cases (start + Zlen (fp_fhandle p)) pos) as [Hbelow|Hin].
  - rewrite (proj2 (Z.ltb_lt start pos)), (proj2 (Z.leb_le (start + _) pos)), (proj2 (Z.leb_gt (pos + n) (start + _))) by lia. cbn [andb].
    specialize (IH _ Hp ltac:(lia) Hbelow ltac:(lia)). destruct (part_holding parts pos n) as [[name off]|]; [|intros [= E]; by apply IH].
    destruct IH as (E & rg & q & Hq & Hname & Hoff). split; [by f_equal|]. by exists rg, q.
  - rewrite (proj2 (Z.leb_gt (start + _) pos)) by lia. rewrite andb_false_r. specialize (Hnext _ Hin eq_refl).
    destruct (Z.leb_spec (pos + n) (start + Zlen (fp_fhandle p))) as [Hfit|Hout].
    + split; [f_equal; symmetry; apply Hnext; by left|]. eexists _, _. split; [reflexivity|]. cbn [rg_min]. split; [done|].
      apply off_sub_small; lia.
    + rewrite (part_holding_before _ _ _ _ Hp Hin). intros [= E]. symmetry in E. apply Hnext in E as [E|E]; [lia|].
      rewrite E in Hend. change (Zlen (parts_content [])) with 0 in Hend. lia.
Qed.

(** * [Item::getDirectAccessInformation] *)

(** The archive lies in the file from its start. *)
Definition lies_in `{OSSpec} `{LzmaLib} `{ZstdLib} (f : FileImpl) : Prop :=
  fc_ok (zimFile f) /\ 0 <= archiveStartOffset f /\
  r_content (zimReader f) = slice (parts_content (fc_parts (zimFile f))) (archiveStartOffset f) (r_size (zimReader f)) /\
  archiveStartOffset f + r_size (zimReader f) <= fc_fsize (zimFile f).

(** The readers of an archive are made that way. *)
Lemma makeFileReader_lies `{OSSpec} zf off size r :
  fc_ok zf -> 0 <= off -> 0 <= size -> off + size <= fc_fsize zf -> makeFileReader zf off size = Ok (Some r) ->
  r_wf r /\ r_size r = size /\ r_content r = slice (parts_content (fc_parts zf)) off size.
Proof.
  intros (Hp & Hsz & Hmax) Hoff Hsize Hend. unfold makeFileReader, fc_is_multiPart. destruct (fc_parts zf) as [|[rg p] parts] eqn:Eparts; [done|].
  destruct parts as [|q parts].
  - intros [= <-]. rewrite parts_content_cons in *. change (parts_content []) with (@nil Z) in *. rewrite app_nil_r in *. cbn [snd] in *.
    split_and!; [|done|done]. change (FileReader_wf (mkFileReader (fp_fhandle p) off size)). unfold FileReader_wf. cbn. lia.
  - rewrite (proj2 (Z.ltb_lt 1 (Zlen _))) by (rewrite !Zlen_cons; pose proof (Zlen_nonneg parts); lia).
    destruct (Z.eqb_spec off 0) as [->|]; [|done]. destruct (Z.eqb_spec size (fc_fsize zf)) as [->|]; [|done].
    cbn [ASSERT mbind outcome_bind]. unfold Multi_whole, Multi_new. rewrite (proj2 (Z.leb_le 0 _)), Z.add_0_l, u64_small, Z.leb_refl by lia.
    intros [= <-]. split_and!; [|done|change (slice (parts_content (fc_parts zf)) 0 (fc_fsize zf) = slice (parts_content ((rg, p) :: q :: parts)) 0 (fc_fsize zf)); by rewrite Eparts].
    change (Multi_wf (mkMulti zf 0 (fc_fsize zf))). unfold Multi_wf, fc_ok. cbn [mp_source mp_offset mp_size]. rewrite Eparts. split_and!; try done; lia.
Qed.

Section direct.
Context `{OSSpec} `{LzmaLib} `{ZstdLib}.
Context (lzma_spec : @DecoderSpec LZMA_INFO) (zstd_spec : @DecoderSpec ZSTD_INFO).
Context (blobs_at : Z -> list bytes) (comp_at : Z -> CompressionType) (ext_at : Z -> bool) (rest_at : Z -> bytes).

Abbreviation stored := (stored lzma_spec zstd_spec blobs_at comp_at ext_at rest_at).
Abbreviation cache_inv := (cache_inv lzma_spec zstd_spec blobs_at comp_at ext_at rest_at).
Abbreviation cluster_is := (cluster_is lzma_spec zstd_spec blobs_at comp_at ext_at rest_at).

Definition raw (c : CompressionType) : bool := negb (bool_decide (c <> zimcompDefault) && bool_decide (c <> zimcompNone)).

Context (i : Item) (k n : Z) (b : bytes).
Hypothesis Hk : Dirent.getClusterNumber (i_dirent i) = k.
Hypothesis Hn : Dirent.getBlobNumber (i_dirent i) = n.
Hypothesis Hn0 : 0 <= n.
Hypothesis Hb : blobs_at k !! Z.to_nat n = Some b.

(** Where the blob is in the archive. *)
Lemma blob_offset_ok owners f :
  stored f -> cache_inv owners f -> 0 <= k < getCountClusters f -> raw (comp_at k) = true -> r_size (zimReader f) < 2 ^ 63 ->
  exists pos f' owners', FileImpl_getBlobOffset k n f = (Ok pos, f') /\ cache_inv owners' f' /\ reopened f f' /\
    slice (r_content (zimReader f)) pos (Zlen b) = b /\ 0 < pos /\ pos + Zlen b <= r_size (zimReader f).
Proof.
  intros Hst Hci Hkr Hraw Hmax. destruct (getCluster_ok _ _ _ _ _ _ owners f k Hst Hci Hkr) as (c & f1 & ow & E1 & Hci1 & Hc & Hr1).
  destruct (observe_ok _ _ _ _ _ _ ow f1 c k (fun c => mret (isCompressed c)) false Hci1 Hc) as (f2 & E2 & Hci2 & Hr2).
  { intros c' (_ & _ & Ec). unfold isCompressed, getCompression, raw in *. rewrite Ec. destruct (bool_decide _ && _); [done|]. done. }
  destruct (st_bytes _ _ _ _ _ _ f Hst k Hkr) as (off & enc & Eoff & Hoff & Hdrop & _ & Henc).
  assert (E : enc = cluster_payload (ext_at k) (blobs_at k) ++ rest_at k).
  { unfold raw in Hraw. destruct (comp_at k); try done; exact Henc. }
  rewrite E in Hdrop. destruct (blob_in_cluster _ _ _ _ _ _ _ _ Hoff Hdrop Hb) as (Hs & Hp & Hend).
  set (rel := 1 + header_size (ext_at k) (blobs_at k) + Zlen (concat (take (Z.to_nat n) (blobs_at k)))) in *.
  assert (Hrel : 0 < rel).
  { unfold rel, header_size. pose proof (Zlen_nonneg (concat (take (Z.to_nat n) (blobs_at k)))). pose proof (Zlen_nonneg (blobs_at k)).
    pose proof (offset_bytes_cases (ext_at k)). nia. }
  pose proof (lookup_lt_Some _ _ _ Hb) as Hlt.
  destruct (observe_ok _ _ _ _ _ _ ow f2 c k (fun c => getBlobOffset c n) rel Hci2 Hc) as (f3 & E3 & Hci3 & Hr3).
  { intros c' (Hat & He & _). unfold rel. rewrite <- He in *. apply (getBlobOffset_in lzma_spec zstd_spec c' (blobs_at k) (rest_at k));
      [rewrite He; by apply (st_payload _ _ _ _ _ _ f Hst)|done|unfold Zlen; lia]. }
  assert (Hsz : Zlen (r_content (zimReader f)) = r_size (zimReader f)) by (symmetry; apply r_size_content, Hst).
  assert (Hr : reopened f f2) by (by eapply reopened_trans).
  exists (off + rel), f3, ow. pose proof (Zlen_nonneg b). split_and!; [|done|by eapply reopened_trans|done|lia|lia].
  unfold FileImpl_getBlobOffset. erewrite stm_bind_Ok by exact E1. erewrite stm_bind_Ok by exact E2. cbv iota.
  assert (E4 : getClusterOffset k f2 = (Ok off, f2)).
  { destruct Hr as (? & ? & ? & ->). unfold getClusterOffset. rewrite stm_gets. unfold id, lift. cbn [clusterOffsetReader with_clusters]. by rewrite Eoff. }
  erewrite stm_bind_Ok by exact E4. erewrite stm_bind_Ok by exact E3. unfold mret, stm_ret. by rewrite off_add_small by lia.
Qed.

(** What [getDirectAccessInformation] gives. *)
Lemma direct_access_ok owners f :
  stored f -> cache_inv owners f -> 0 <= k < getCountClusters f -> lies_in f -> b <> [] ->
  exists pos f' owners', Item_getDirectAccessInformation i f =
      (Ok (if raw (comp_at k) then default ([], 0) (part_holding (fc_parts (zimFile f)) pos (Zlen b)) else ([], 0)), f') /\
    (raw (comp_at k) = true -> slice (parts_content (fc_parts (zimFile f))) pos (Zlen b) = b /\
      archiveStartOffset f < pos /\ pos + Zlen b <= fc_fsize (zimFile f)) /\
    cache_inv owners' f' /\ reopened f f'.
Proof.
  intros Hst Hci Hkr (Hfc & Hstart & Hcont & Hend) Hne. pose proof Hfc as (_ & _ & Hmax).
  assert (Hlen : 0 < Zlen b).
  { clear -Hne. destruct b as [|x l]; [done|]. rewrite Zlen_cons. pose proof (Zlen_nonneg l). lia. }
  destruct (getCluster_ok _ _ _ _ _ _ owners f k Hst Hci Hkr) as (c & f1 & ow & E1 & Hci1 & Hc & Hr1).
  destruct (observe_ok _ _ _ _ _ _ ow f1 c k (fun c => mret (isCompressed c)) (negb (raw (comp_at k))) Hci1 Hc) as (f2 & E2 & Hci2 & Hr2).
  { intros c' (_ & _ & Ec). unfold isCompressed, getCompression, raw in *. by rewrite Ec, negb_involutive. }
  assert (Hr : reopened f f2) by (by eapply reopened_trans).
  unfold Item_getDirectAccessInformation, Item_cluster. rewrite Hk.
  destruct (raw (comp_at k)) eqn:Hraw.
  2:{ exists 0, f2, ow. split_and!; [|done|done|done]. erewrite stm_bind_Ok by exact E1. by erewrite stm_bind_Ok by exact E2. }
  assert (Hst2 : stored f2) by (by eapply reopened_stored).
  assert (Hsame : zimReader f2 = zimReader f /\ getCountClusters f2 = getCountClusters f) by (by destruct Hr as (? & ? & ? & ->)).
  destruct Hsame as [Hrd Hcc].
  destruct (blob_offset_ok ow f2 Hst2 Hci2) as (pos & f3 & ow3 & E3 & Hci3 & Hr3 & Hs & Hp & Hpe); [by rewrite Hcc|done|rewrite Hrd; lia|].
  rewrite Hrd in Hs, Hpe. assert (Hr' : reopened f f3) by (by eapply reopened_trans).
  destruct (Item_getSize_ok lzma_spec zstd_spec blobs_at comp_at ext_at rest_at i k n b Hk Hn Hn0 Hb ow3 f3) as (f4 & ow4 & E4 & Hci4 & Hr4);
    [by eapply reopened_stored|done|by destruct Hr' as (? & ? & ? & ->)|].
  assert (Hr'' : reopened f f4) by (by eapply reopened_trans).
  exists (archiveStartOffset f + pos), f4, ow4. split_and!; [|intros _; split_and!|done|done].
  - erewrite stm_bind_Ok by exact E1. erewrite stm_bind_Ok by exact E2. cbn [negb]. cbv iota. rewrite Hn.
    erewrite stm_bind_Ok by exact E3. rewrite stm_gets. unfold id.
    replace (archiveStartOffset f3) with (archiveStartOffset f) by (by destruct Hr' as (? & ? & ? & ->)).
    rewrite off_add_small by lia. erewrite stm_bind_Ok by exact E4. rewrite stm_gets. unfold id, getFileParts.
    replace (zimFile f4) with (zimFile f) by (by destruct Hr'' as (? & ? & ? & ->)).
    pose proof (locate_holding (zimFile f) (archiveStartOffset f + pos) (Zlen b) Hfc ltac:(lia) ltac:(lia) ltac:(lia)) as Hloc.
    rewrite (Z.add_comm pos). destruct (locate_range _ _ _) as [first second]. destruct (part_holding _ _ _) as [[name off]|].
    + destruct Hloc as (-> & rg & p & Hat & <- & <-). rewrite bool_decide_true by done. cbn [negb]. by rewrite Hat.
    + rewrite bool_decide_false by done. done.
  - rewrite <- Hs at 2. rewrite Hcont, slice_slice by lia. done.
  - lia.
  - lia.
Qed.

End direct.

(** * Properties *)

(** C8. Direct access to the data of an item: the information is empty when the cluster of the item is compressed, and when no part of
    the archive holds all of the data; otherwise it names a part that does, and gives the position of the data in that file. The archive may lie anywhere in
    its files; the access changes nothing but the clusters that are open. *)
Theorem direct_access `{OSSpec} `{LzmaLib} `{ZstdLib} lzma_spec zstd_spec blobs_at comp_at ext_at rest_at (f : FileImpl) (owners : list Z)
    (i : Item) (b : bytes) :
  let k := Dirent.getClusterNumber (i_dirent i) in
  stored lzma_spec zstd_spec blobs_at comp_at ext_at rest_at f ->
  cache_inv lzma_spec zstd_spec blobs_at comp_at ext_at rest_at owners f -> lies_in f ->
  0 <= k < getCountClusters f -> 0 <= Dirent.getBlobNumber (i_dirent i) ->
  blobs_at k !! Z.to_nat (Dirent.getBlobNumber (i_dirent i)) = Some b -> b <> [] ->
  exists r f' owners', Item_getDirectAccessInformation i f = (Ok r, f') /\
    cache_inv lzma_spec zstd_spec blobs_at comp_at ext_at rest_at owners' f' /\ reopened f f' /\
    if raw (comp_at k)
    then exists pos, slice (parts_content (fc_parts (zimFile f))) pos (Zlen b) = b /\ archiveStartOffset f < pos /\
      ((r = ([], 0) /\ forall rg p, (rg, p) ∈ fc_parts (zimFile f) -> ~ (rg_min rg <= pos /\ pos + Zlen b <= rg_max rg)) \/
       exists rg p, (rg, p) ∈ fc_parts (zimFile f) /\ r = (fp_filename p, pos - rg_min rg) /\ slice (fp_fhandle p) r.2 (Zlen b) = b)
    else r = ([], 0).
Proof.
  intros k Hst Hci Hl Hk Hn Hb Hne.
  destruct (direct_access_ok lzma_spec zstd_spec blobs_at comp_at ext_at rest_at i k _ b eq_refl eq_refl Hn Hb owners f Hst Hci Hk Hl Hne)
    as (pos & f' & ow & E & Hpos & Hci' & Hr).
  eexists _, f', ow. split; [exact E|]. split; [done|]. split; [done|]. destruct (raw (comp_at k)); [|done].
  destruct (Hpos eq_refl) as (Hs & Hlo & Hhi). exists pos. split; [done|]. split; [done|]. destruct Hl as ((Hp & _ & _) & Hst0 & _).
  destruct (part_holding (fc_parts (zimFile f)) pos (Zlen b)) as [[name off]|] eqn:Eh; cbn [from_option id].
  - right. destruct (part_holding_bytes _ 0 pos (Zlen b) name off Hp ltac:(lia) (Zlen_nonneg b) Eh) as (rg & p & Hin & Hname & Hoff & Ho0 & Hend & Es).
    exists rg, p. split; [done|]. rewrite Z.sub_0_r in Es. split; [by f_equal|]. cbn [snd]. congruence.
  - left. split; [done|]. intros rg p Hin Hhold. by apply (part_holding_none _ _ _ Eh rg p Hin).
Qed.

(** * Witness: an archive in two parts, the cut being inside a blob *)

Definition cut : nat := Z.to_nat p_cluster + 16.
Definition split_os : OS := os_of [(lit "zaa", take cut sample_archive); (lit "zab", drop cut sample_archive)] max_read.
Lemma split_os_spec : @OSSpec split_os.
Proof. apply os_of_spec. repeat constructor; by vm_compute. Qed.

#[local] Existing Instance split_os.
#[local] Existing Instance copy_lzma.
#[local] Existing Instance copy_zstd.
#[local] Existing Instance no_env.

Definition split_impl : FileImpl := Eval vm_compute in
  match FileImpl_open (lit "z") with Ok f => f | _ => sample_impl end.

Lemma split_opens : FileImpl_open (lit "z") = Ok split_impl.
Proof. by vm_compute. Qed.

Lemma split_stored :
  stored (H1 := split_os_spec) copy_lzma_spec copy_zstd_spec (fun _ => [lit "hello"; lit "eng"]) (fun _ => zimcompNone) (fun _ => false)
    (fun _ => sample_rest) split_impl.
Proof.
  split.
  - repeat constructor; by vm_compute.
  - intros k _. repeat constructor; by vm_compute.
  - intros k Hk. change (getCountClusters split_impl) with 1 in Hk. assert (k = 0) as -> by lia.
    exists p_cluster, (drop (Z.to_nat p_cluster + 1) sample_archive).
    split_and!; by vm_compute.
Qed.

Lemma split_lies : lies_in (H0 := split_os_spec) split_impl.
Proof.
  unfold lies_in, fc_ok. split_and!; by vm_compute.
Qed.

(** "hello" is cut, "eng" is in the second part. *)
Lemma direct_access_witness :
  exists f1 r f2,
    Item_getDirectAccessInformation (mkItem 0 (nth 0 sample_dirents Dirent.new)) split_impl = (Ok ([], 0), f1) /\
    Item_getDirectAccessInformation (mkItem 2 (nth 2 sample_dirents Dirent.new)) split_impl = (Ok r, f2) /\
    exists part, (r.1 = lit "zaa" /\ part = take cut sample_archive \/ r.1 = lit "zab" /\ part = drop cut sample_archive) /\
      slice part r.2 3 = lit "eng".
Proof.
  destruct (direct_access (H0 := split_os_spec) copy_lzma_spec copy_zstd_spec (fun _ => [lit "hello"; lit "eng"]) (fun _ => zimcompNone) (fun _ => false)
    (fun _ => sample_rest) split_impl [] (mkItem 2 (nth 2 sample_dirents Dirent.new)) (lit "eng")) as (r & f2 & ow & E & _).
  - exact split_stored.
  - split; [exact (lru_inv_new 16)|constructor|constructor].
  - exact split_lies.
  - by vm_compute.
  - by vm_compute.
  - by vm_compute.
  - done.
  - eexists _, r, f2. split; [by vm_compute|]. split; [exact E|].
    assert (Er : (Item_getDirectAccessInformation (mkItem 2 (nth 2 sample_dirents Dirent.new)) split_impl).1 = Ok r) by by rewrite E.
    vm_compute in Er. injection Er as <-. eexists. split; [right; split; reflexivity|]. by vm_compute.
Defined.
