(* ===== verification/Template.v ===== *)
(** The template parser ([template.h], [template.cpp]): a state machine fed one
    character at a time, which calls back with the data between the tags, the
    tokens [<%token%>] and the links [<%/N/title%>].

    The pointer to the member function of the current state is the
    constructor [state]; the callbacks are recorded in [events]. *)

From Stdlib Require Import Ascii.
From stdpp Require Import strings.
From S2P Require Import Prelude.

Inductive state_type : Type :=
  | state_data | state_lt | state_token0 | state_token | state_token_end
  | state_link0 | state_link | state_title | state_title_end.

Inductive Event : Type :=
  | onData (d : bytes)
  | onToken (t : bytes)
  | onLink (ns : Z) (url : bytes).

Record TemplateParser : Type := mkParser {
  event : bool;                 (* whether there is an [Event] to call *)
  data : bytes;
  save : Z;
  token : Z;
  token_e : Z;
  ns : Z;
  state : state_type;
  events : list Event;          (* the calls made so far *)
}.

(** [save], [token], [token_e] and [ns] are uninitialised: [garbage]. *)
Definition TemplateParser_new (ev : bool) (garbage : Z) : TemplateParser :=
  mkParser ev [] garbage garbage garbage garbage state_data [].

Definition set_data (p : TemplateParser) (d : bytes) : TemplateParser :=
  mkParser (event p) d (save p) (token p) (token_e p) (ns p) (state p) (events p).
Definition set_save (p : TemplateParser) (x : Z) : TemplateParser :=
  mkParser (event p) (data p) x (token p) (token_e p) (ns p) (state p) (events p).
Definition set_token (p : TemplateParser) (x : Z) : TemplateParser :=
  mkParser (event p) (data p) (save p) x (token_e p) (ns p) (state p) (events p).
Definition set_token_e (p : TemplateParser) (x : Z) : TemplateParser :=
  mkParser (event p) (data p) (save p) (token p) x (ns p) (state p) (events p).
Definition set_ns (p : TemplateParser) (x : Z) : TemplateParser :=
  mkParser (event p) (data p) (save p) (token p) (token_e p) x (state p) (events p).
Definition set_state (p : TemplateParser) (s : state_type) : TemplateParser :=
  mkParser (event p) (data p) (save p) (token p) (token_e p) (ns p) s (events p).
Definition call (p : TemplateParser) (e : Event) : TemplateParser :=
  mkParser (event p) (data p) (save p) (token p) (token_e p) (ns p) (state p) (events p ++ [e]).

(** [s.substr(pos, n)]. *)
Definition substr (s : bytes) (pos n : Z) : outcome bytes :=
  if Zlen s <? pos then Throw (out_of_range "basic_string::substr")
  else mret (slice s pos (Z.min n (Zlen s - pos))).

(** [data += ch]. *)
Definition push (p : TemplateParser) (ch : Z) : TemplateParser := set_data p (data p ++ [ch]).

Definition on_state_data (p : TemplateParser) (ch : Z) : TemplateParser :=
  let p := push p ch in
  if ch =? chr "<" then set_save (set_state p state_lt) (Zlen (data p) - 1) else p.

Definition on_state_lt (p : TemplateParser) (ch : Z) : TemplateParser :=
  let p := push p ch in
  set_state p (if ch =? chr "%" then state_token0 else state_data).

Definition on_state_token0 (p : TemplateParser) (ch : Z) : TemplateParser :=
  let p := push p ch in
  if ch =? chr "/" then set_state p state_link0
  else set_state (set_token p (Zlen (data p) - 1)) state_token.

Definition on_state_token (p : TemplateParser) (ch : Z) : TemplateParser :=
  let p := push p ch in
  if ch =? chr "%" then set_state p state_token_end else p.

Definition on_state_token_end (p : TemplateParser) (ch : Z) : outcome TemplateParser :=
  if ch =? chr ">" then
    p ← (if event p then
           d ← substr (data p) 0 (save p);
           let p := call p (onData d) in
           t ← substr (data p) (token p) (u64 (Zlen (data p) - token p - 1));
           let p := call p (onToken t) in
           mret (set_data p [])
         else mret p);
    mret (set_state p state_data)
  else mret (set_state (push p ch) state_data).

Definition on_state_link0 (p : TemplateParser) (ch : Z) : TemplateParser :=
  set_state (set_ns (push p ch) ch) state_link.

Definition on_state_link (p : TemplateParser) (ch : Z) : TemplateParser :=
  let p := push p ch in
  if ch =? chr "/" then set_state (set_token p (Zlen (data p))) state_title
  else set_state p state_data.

Definition on_state_title (p : TemplateParser) (ch : Z) : TemplateParser :=
  let p := push p ch in
  if ch =? chr "%" then set_state (set_token_e p (Zlen (data p) - 1)) state_title_end else p.

Definition on_state_title_end (p : TemplateParser) (ch : Z) : outcome TemplateParser :=
  let p := push p ch in
  if ch =? chr ">" then
    p ← (if event p then
           d ← substr (data p) 0 (save p);
           let p := call p (onData d) in
           t ← substr (data p) (token p) (u64 (token_e p - token p));
           mret (call p (onLink (ns p) t))
         else mret p);
    mret (set_state (set_data p []) state_data)
  else mret p.

Definition parse (p : TemplateParser) (ch : Z) : outcome TemplateParser :=
  match state p with
  | state_data => mret (on_state_data p ch)
  | state_lt => mret (on_state_lt p ch)
  | state_token0 => mret (on_state_token0 p ch)
  | state_token => mret (on_state_token p ch)
  | state_token_end => on_state_token_end p ch
  | state_link0 => mret (on_state_link0 p ch)
  | state_link => mret (on_state_link p ch)
  | state_title => mret (on_state_title p ch)
  | state_title_end => on_state_title_end p ch
  end.

Fixpoint parse_string (p : TemplateParser) (s : bytes) : outcome TemplateParser :=
  match s with
  | [] => mret p
  | ch :: s => p ← parse p ch; parse_string p s
  end.

Definition flush (p : TemplateParser) : TemplateParser :=
  let p := if event p then call p (onData (data p)) else p in
  set_state (set_data p []) state_data.

(** The calls of a parser fed [s] and flushed. *)
Definition template_events (garbage : Z) (s : bytes) : outcome (list Event) :=
  p ← parse_string (TemplateParser_new true garbage) s;
  mret (events (flush p)).

(** * The documents *)

(** Text without a tag: a [<] is followed by another character than [%]. *)
Inductive plain : bytes -> Prop :=
  | plain_nil : plain []
  | plain_char c l : c <> chr "<" -> plain l -> plain (c :: l)
  | plain_lt c l : c <> chr "%" -> plain l -> plain (chr "<" :: c :: l).

Inductive tag : Type := TToken (c : Z) (rest : bytes) | TLink (n : Z) (title : bytes).

Definition no_percent (l : bytes) : Prop := Forall (fun c => c <> chr "%") l.

Definition tag_ok (t : tag) : Prop :=
  match t with
  | TToken c rest => c <> chr "/" /\ no_percent rest
  | TLink _ title => no_percent title
  end.

Definition render_tag (t : tag) : bytes :=
  match t with
  | TToken c rest => lit "<%" ++ (c :: rest) ++ lit "%>"
  | TLink n title => lit "<%/" ++ [n] ++ lit "/" ++ title ++ lit "%>"
  end.

Definition tag_event (t : tag) : Event :=
  match t with
  | TToken c rest => onToken (c :: rest)
  | TLink n title => onLink n title
  end.

(** Each tag with the text before it. *)
Definition render (doc : list (bytes * tag)) : bytes := concat (map (fun x => x.1 ++ render_tag x.2) doc).
Definition doc_events (doc : list (bytes * tag)) : list Event :=
  concat (map (fun x => [onData x.1; tag_event x.2]) doc).

(** * Lemmas *)

Lemma parse_string_app p s k : parse_string p (s ++ k) = (p ← parse_string p s; parse_string p k).
Proof.
  revert p. induction s as [|c s IH]; intros p; cbn [app parse_string]; [done|].
  rewrite bind_assoc. destruct (parse p c); cbn [mbind outcome_bind]; auto.
Qed.

Lemma parse_string_snoc p s c : parse_string p (s ++ [c]) = (p ← parse_string p s; parse p c).
Proof.
  rewrite parse_string_app. destruct (parse_string p s); cbn [mbind outcome_bind parse_string]; [|done..].
  by rewrite bind_ret_r.
Qed.

(** The parser at text [d] of a document, with the calls [es] made. *)
Definition at_text (p : TemplateParser) (d : bytes) (es : list Event) : Prop :=
  event p = true /\ data p = d /\ state p = state_data /\ events p = es.

Lemma parse_string_cons p c s q : parse p c = Ok q -> parse_string p (c :: s) = parse_string q s.
Proof. intros E. cbn [parse_string]. by rewrite E. Qed.

Lemma push_len p c : Zlen (data (push p c)) - 1 = Zlen (data p).
Proof. cbn [push set_data data]. rewrite Zlen_app. change (Zlen [c]) with 1. lia. Qed.

Lemma parse_lt p :
  state p = state_data -> parse p (chr "<") = Ok (set_save (set_state (push p (chr "<")) state_lt) (Zlen (data p))).
Proof.
  intros Hs. unfold parse, on_state_data. rewrite Hs. change (chr "<" =? chr "<") with true. cbv beta iota zeta.
  change (data (set_state (push p (chr "<")) state_lt)) with (data (push p (chr "<"))). by rewrite push_len.
Qed.

Lemma run_plain l p d es :
  plain l -> at_text p d es -> exists p', parse_string p l = Ok p' /\ at_text p' (d ++ l) es.
Proof.
  intros Hl. revert p d. induction Hl as [|c l Hc Hl IH|c l Hc Hl IH]; intros p d (He & Hd & Hs & Hev).
  - exists p. rewrite app_nil_r. done.
  - assert (E : parse p c = Ok (push p c))
      by (unfold parse, on_state_data; rewrite Hs, (proj2 (Z.eqb_neq c (chr "<"))) by done; done).
    rewrite (parse_string_cons _ _ _ _ E).
    replace (d ++ c :: l) with ((d ++ [c]) ++ l) by (by rewrite <- app_assoc). apply IH.
    unfold at_text, push, set_data. cbn. by rewrite Hd.
  - rewrite (parse_string_cons _ _ _ _ (parse_lt p Hs)).
    set (q := set_save (set_state (push p (chr "<")) state_lt) (Zlen (data p))).
    assert (E : parse q c = Ok (set_state (push q c) state_data))
      by (unfold parse, on_state_lt; cbn [state q set_save set_state];
          rewrite (proj2 (Z.eqb_neq c (chr "%"))) by done; done).
    rewrite (parse_string_cons _ _ _ _ E).
    replace (d ++ chr "<" :: c :: l) with (((d ++ [chr "<"]) ++ [c]) ++ l) by (by rewrite <- !app_assoc).
    apply IH. unfold at_text, q, push, set_data, set_save, set_state. cbn. by rewrite Hd.
Qed.

Lemma run_state_token l p :
  no_percent l -> state p = state_token -> parse_string p l = Ok (set_data p (data p ++ l)).
Proof.
  intros Hl. revert p. induction Hl as [|c l Hc Hl IH]; intros p Hs; cbn [parse_string].
  - rewrite app_nil_r. by destruct p.
  - unfold parse. rewrite Hs. unfold on_state_token. rewrite (proj2 (Z.eqb_neq c (chr "%"))) by done.
    cbn [mbind outcome_bind mret outcome_ret]. rewrite IH by (by destruct p). unfold push.
    destruct p; simpl. by rewrite <- app_assoc.
Qed.

Lemma run_state_title l p :
  no_percent l -> state p = state_title -> parse_string p l = Ok (set_data p (data p ++ l)).
Proof.
  intros Hl. revert p. induction Hl as [|c l Hc Hl IH]; intros p Hs; cbn [parse_string].
  - rewrite app_nil_r. by destruct p.
  - unfold parse. rewrite Hs. unfold on_state_title. rewrite (proj2 (Z.eqb_neq c (chr "%"))) by done.
    cbn [mbind outcome_bind mret outcome_ret]. rewrite IH by (by destruct p). unfold push.
    destruct p; simpl. by rewrite <- app_assoc.
Qed.

(** Anything may follow the [%] that ends a title, up to the [>]. *)
Lemma run_state_title_end l p :
  Forall (fun c => c <> chr ">") l -> state p = state_title_end -> parse_string p l = Ok (set_data p (data p ++ l)).
Proof.
  intros Hl. revert p. induction Hl as [|c l Hc Hl IH]; intros p Hs; cbn [parse_string].
  - rewrite app_nil_r. by destruct p.
  - unfold parse. rewrite Hs. unfold on_state_title_end. rewrite (proj2 (Z.eqb_neq c (chr ">"))) by done.
    cbn [mbind outcome_bind mret outcome_ret]. rewrite IH by (by destruct p). unfold push.
    destruct p; simpl. by rewrite <- app_assoc.
Qed.

Lemma substr_prefix (d k : bytes) : substr (d ++ k) 0 (Zlen d) = Ok d.
Proof.
  pose proof (Zlen_nonneg d). pose proof (Zlen_nonneg k). unfold substr.
  rewrite (proj2 (Z.ltb_ge _ 0)) by apply Zlen_nonneg. rewrite Zlen_app, Z.min_l by lia.
  rewrite slice_app_l by lia. by rewrite slice_all.
Qed.

Lemma substr_mid (a m k : bytes) : substr (a ++ m ++ k) (Zlen a) (Zlen m) = Ok m.
Proof.
  pose proof (Zlen_nonneg a). pose proof (Zlen_nonneg m). pose proof (Zlen_nonneg k). unfold substr.
  rewrite !Zlen_app. rewrite (proj2 (Z.ltb_ge _ (Zlen a))) by lia. rewrite Z.min_l by lia.
  by rewrite slice_app_mid.
Qed.

(** The parser in a tag opened after the text [d], having read [k] of it. *)
Definition in_tag (p : TemplateParser) (st : state_type) (d k : bytes) (es : list Event) : Prop :=
  event p = true /\ data p = d ++ k /\ save p = Zlen d /\ state p = st /\ events p = es.

Lemma open_tag p d es k :
  at_text p d es -> exists q, parse_string p (60 :: 37 :: k) = parse_string q k /\ in_tag q state_token0 d [60; 37] es.
Proof.
  intros (He & Hd & Hs & Hev). eexists. rewrite (parse_string_cons _ _ _ _ (parse_lt p Hs)).
  split; [by erewrite parse_string_cons by reflexivity|].
  unfold in_tag, push, set_data, set_save, set_state. cbn. rewrite Hd, <- app_assoc. done.
Qed.

Lemma run_token c rest p d es :
  c <> chr "/" -> no_percent rest -> at_text p d es -> Zlen d + Zlen rest < 2 ^ 63 ->
  exists p', parse_string p (render_tag (TToken c rest)) = Ok p' /\
    at_text p' [] (es ++ [onData d; onToken (c :: rest)]).
Proof.
  intros Hc Hrest Hp Hlen. cbn [render_tag]. change (lit "<%") with [60; 37]. change (lit "%>") with [37; 62]. cbn [app].
  destruct (open_tag p d es (c :: rest ++ [37; 62]) Hp) as (q & -> & He & Hd & Hsv & Hs & Hev).
  set (q1 := set_state (set_token (push q c) (Zlen (d ++ [60; 37]))) state_token).
  assert (E1 : parse q c = Ok q1).
  { unfold parse, on_state_token0. rewrite Hs, (proj2 (Z.eqb_neq c (chr "/"))) by done.
    cbv beta iota zeta. by rewrite push_len, Hd. }
  rewrite (parse_string_cons _ _ _ _ E1), parse_string_app, run_state_token by done. cbn [mbind outcome_bind].
  set (q2 := set_data q1 (data q1 ++ rest)). set (q3 := set_state (push q2 37) state_token_end).
  assert (E3 : parse q2 37 = Ok q3) by done. rewrite (parse_string_cons _ _ _ _ E3).
  assert (Hdata : data q3 = (d ++ [60; 37]) ++ (c :: rest) ++ [37]).
  { unfold q3, q2, q1, push, set_state, set_data, set_token. cbn [data]. rewrite Hd, <- !app_assoc. done. }
  assert (Hdata' : data q3 = d ++ ([60; 37] ++ (c :: rest) ++ [37])) by (rewrite Hdata, <- app_assoc; done).
  pose proof (Zlen_nonneg d). pose proof (Zlen_nonneg rest).
  assert (Hsz : u64 (Zlen (data q3) - Zlen (d ++ [60; 37]) - 1) = Zlen (c :: rest)).
  { rewrite Hdata. repeat (rewrite Zlen_app || rewrite Zlen_cons). change (@Zlen Z []) with 0. rewrite u64_small; lia. }
  cbn [parse_string]. unfold parse. change (state q3) with state_token_end. cbv iota. unfold on_state_token_end.
  change (62 =? chr ">") with true. cbv iota. change (event q3) with (event q). rewrite He.
  change (save q3) with (save q). rewrite Hsv.
  assert (Esub : substr (data q3) 0 (Zlen d) = Ok d) by (by rewrite Hdata', substr_prefix).
  rewrite Esub. cbn [mbind outcome_bind].
  cbn [call data token event]. change (token q3) with (Zlen (d ++ [60; 37])). rewrite Hsz, Hdata, substr_mid.
  eexists. split; [reflexivity|]. unfold at_text, set_state, set_data, call. cbn [event data state events mbind outcome_bind].
  change (events q3) with (events q). change (event q3) with (event q). rewrite Hev, <- app_assoc. done.
Qed.

Lemma run_link nn title tail p d es :
  no_percent title -> Forall (fun c => c <> chr ">") tail -> at_text p d es -> Zlen d + Zlen title < 2 ^ 63 ->
  exists p', parse_string p (lit "<%/" ++ [nn] ++ lit "/" ++ title ++ lit "%" ++ tail ++ lit ">") = Ok p' /\
    at_text p' [] (es ++ [onData d; onLink nn title]).
Proof.
  intros Ht Htail Hp Hlen. change (lit "<%/") with [60; 37; 47].
  change (lit "/") with [47]. change (lit "%") with [37]. change (lit ">") with [62]. cbn [app].
  destruct (open_tag p d es (47 :: nn :: 47 :: title ++ 37 :: tail ++ [62]) Hp) as (q & -> & He & Hd & Hsv & Hs & Hev).
  set (q0 := set_state (push q 47) state_link0).
  assert (E0 : parse q 47 = Ok q0) by (unfold parse; rewrite Hs; done).
  set (q1 := set_state (set_ns (push q0 nn) nn) state_link).
  assert (E1 : parse q0 nn = Ok q1) by done.
  assert (Hd1 : data (push q1 47) = d ++ [60; 37; 47; nn; 47]).
  { unfold q1, q0, push, set_state, set_data, set_ns. cbn [data]. rewrite Hd, <- !app_assoc. done. }
  set (q2 := set_state (set_token (push q1 47) (Zlen (data (push q1 47)))) state_title).
  assert (E2 : parse q1 47 = Ok q2) by done.
  rewrite (parse_string_cons _ _ _ _ E0), (parse_string_cons _ _ _ _ E1), (parse_string_cons _ _ _ _ E2).
  rewrite parse_string_app, run_state_title by done. cbn [mbind outcome_bind].
  set (q3 := set_data q2 (data q2 ++ title)).
  assert (Hd3 : data q3 = (d ++ [60; 37; 47; nn; 47]) ++ title) by (by rewrite <- Hd1).
  set (q4 := set_state (set_token_e (push q3 37) (Zlen (data q3))) state_title_end).
  assert (E4 : parse q3 37 = Ok q4).
  { unfold parse. change (state q3) with state_title. unfold on_state_title. change (37 =? chr "%") with true. cbv beta iota zeta.
    by rewrite push_len. }
  rewrite (parse_string_cons _ _ _ _ E4), parse_string_app, run_state_title_end by done. cbn [mbind outcome_bind].
  set (q5 := set_data q4 (data q4 ++ tail)).
  assert (Hdata : data (push q5 62) = (d ++ [60; 37; 47; nn; 47]) ++ title ++ (37 :: tail ++ [62])).
  { change (data (push q5 62)) with (((data q3 ++ [37]) ++ tail) ++ [62]). rewrite Hd3, <- !app_assoc. done. }
  assert (Hdata' : data (push q5 62) = d ++ ([60; 37; 47; nn; 47] ++ title ++ (37 :: tail ++ [62])))
    by (rewrite Hdata, <- app_assoc; done).
  pose proof (Zlen_nonneg d). pose proof (Zlen_nonneg title).
  assert (Hsz : u64 (token_e q5 - token q5) = Zlen title).
  { change (token_e q5) with (Zlen (data q3)). change (token q5) with (Zlen (data (push q1 47))).
    rewrite Hd3, Hd1. repeat (rewrite Zlen_app || rewrite Zlen_cons). change (@Zlen Z []) with 0. rewrite u64_small; lia. }
  cbn [parse_string]. unfold parse. change (state q5) with state_title_end. cbv iota. unfold on_state_title_end.
  change (62 =? chr ">") with true. cbv beta iota zeta. change (event (push q5 62)) with (event q). rewrite He.
  change (save (push q5 62)) with (save q). rewrite Hsv.
  assert (Esub : substr (data (push q5 62)) 0 (Zlen d) = Ok d) by (by rewrite Hdata', substr_prefix).
  rewrite Esub. cbn [mbind outcome_bind].
  cbn [call data token token_e event ns]. change (token_e (push q5 62)) with (token_e q5).
  change (token (push q5 62)) with (token q5). rewrite Hsz, Hdata.
  change (token q5) with (Zlen (data (push q1 47))). rewrite Hd1, substr_mid.
  eexists. split; [reflexivity|]. unfold at_text, set_state, set_data, call. cbn [event data state events mbind outcome_bind].
  change (events (push q5 62)) with (events q). change (event (push q5 62)) with (event q). rewrite Hev, <- app_assoc. done.
Qed.

Lemma run_tag t p d es :
  tag_ok t -> at_text p d es -> Zlen d + Zlen (render_tag t) < 2 ^ 63 ->
  exists p', parse_string p (render_tag t) = Ok p' /\ at_text p' [] (es ++ [onData d; tag_event t]).
Proof.
  destruct t as [c rest|n title]; cbn [tag_ok tag_event]; intros Ht Hp Hlen.
  - destruct Ht. apply run_token; [done..|]. cbn [render_tag] in Hlen. rewrite !Zlen_app, Zlen_cons in Hlen.
    change (Zlen (lit "<%")) with 2 in Hlen. change (Zlen (lit "%>")) with 2 in Hlen. lia.
  - destruct (run_link n title [] p d es) as (p' & E & Hp'); [done|constructor|done| |by exists p'].
    cbn [render_tag] in Hlen. rewrite !Zlen_app in Hlen. change (Zlen (lit "<%/")) with 3 in Hlen.
    change (Zlen (lit "%>")) with 2 in Hlen. change (Zlen [n]) with 1 in Hlen. change (Zlen (lit "/")) with 1 in Hlen. lia.
Qed.

Lemma run_doc doc p es :
  Forall (fun x => plain x.1 /\ tag_ok x.2) doc -> at_text p [] es -> Zlen (render doc) < 2 ^ 63 ->
  exists p', parse_string p (render doc) = Ok p' /\ at_text p' [] (es ++ doc_events doc).
Proof.
  intros Hdoc. revert p es. induction Hdoc as [|[d t] doc [Hd Ht] Hdoc IH]; intros p es Hp Hlen.
  { exists p. unfold doc_events. cbn [map concat]. by rewrite app_nil_r. }
  unfold render, doc_events in *. cbn [map concat fst snd] in *. rewrite !Zlen_app in Hlen.
  pose proof (Zlen_nonneg d). pose proof (Zlen_nonneg (render_tag t)).
  match type of Hlen with context [Zlen (concat ?l)] => pose proof (Zlen_nonneg (concat l)) end.
  rewrite <- app_assoc, parse_string_app.
  destruct (run_plain d p [] es Hd Hp) as (p1 & -> & Hp1). cbn [mbind outcome_bind app] in *. rewrite parse_string_app.
  destruct (run_tag t p1 d es Ht Hp1) as (p2 & -> & Hp2); [lia|]. cbn [mbind outcome_bind].
  destruct (IH p2 _ Hp2) as (p3 & -> & Hp3); [lia|]. exists p3. split; [done|].
  by rewrite <- app_assoc in Hp3.
Qed.

(** * Properties *)

(** C32. Parsing a template gives back what it was made of: for any document of
    tokens and links with text between them and after the last, the calls are, in order,
    [onData] with each text, [onToken] or [onLink] with the name, or
    the namespace and title, of each tag, and [onData] with the rest. *)
Theorem template_roundtrip (garbage : Z) (doc : list (bytes * tag)) (rest : bytes) :
  Forall (fun x => plain x.1 /\ tag_ok x.2) doc -> plain rest -> Zlen (render doc) < 2 ^ 63 ->
  template_events garbage (render doc ++ rest) = Ok (doc_events doc ++ [onData rest]).
Proof.
  intros Hdoc Hrest Hlen. unfold template_events. rewrite parse_string_app.
  destruct (run_doc doc (TemplateParser_new true garbage) [] Hdoc) as (p & -> & Hp); [done|done|].
  cbn [mbind outcome_bind]. destruct (run_plain rest p [] _ Hrest Hp) as (p' & -> & He & Hd & Hs & Hev).
  cbn [mbind outcome_bind mret outcome_ret]. f_equal. unfold flush. rewrite He, Hd. cbn. by rewrite Hev.
Qed.

(** The parser loses text: after the [%] of a link it skips everything up to
    the next [>], so that [<%/N/title%tail>] is taken for [<%/N/title%>] whatever
    the tail, which appears in no call. *)
Theorem template_link_tail_lost (garbage nn : Z) (title tail rest : bytes) :
  no_percent title -> Forall (fun c => c <> chr ">") tail -> plain rest -> Zlen title < 2 ^ 63 ->
  template_events garbage (lit "<%/" ++ [nn] ++ lit "/" ++ title ++ lit "%" ++ tail ++ lit ">" ++ rest) =
    Ok [onData []; onLink nn title; onData rest].
Proof.
  intros Ht Htail Hrest Hlen. unfold template_events.
  replace (lit "<%/" ++ [nn] ++ lit "/" ++ title ++ lit "%" ++ tail ++ lit ">" ++ rest)
    with ((lit "<%/" ++ [nn] ++ lit "/" ++ title ++ lit "%" ++ tail ++ lit ">") ++ rest) by (by rewrite <- !app_assoc).
  rewrite parse_string_app.
  destruct (run_link nn title tail (TemplateParser_new true garbage) [] []) as (p & -> & Hp); [done|done|done|done|].
  cbn [mbind outcome_bind]. destruct (run_plain rest p [] _ Hrest Hp) as (p' & -> & He & Hd & Hs & Hev).
  cbn [mbind outcome_bind mret outcome_ret]. f_equal. unfold flush. rewrite He, Hd. cbn. by rewrite Hev.
Qed.

Lemma template_roundtrip_witness :
  template_events 0 (lit "<html><%content%> <%/A/Article%></html>") =
    Ok [onData (lit "<html>"); onToken (lit "content"); onData (lit " "); onLink (chr "A") (lit "Article");
        onData (lit "</html>")].
Proof.
  apply (template_roundtrip 0 [(lit "<html>", TToken (chr "c") (lit "ontent")); (lit " ", TLink (chr "A") (lit "Article"))]
    (lit "</html>")); [|apply (plain_lt 47); [done|]; repeat (apply plain_char; [done|]); constructor|by vm_compute].
  constructor; [|constructor; [|constructor]]; split; cbn [fst snd].
  - apply (plain_lt 104); [done|]. repeat (apply plain_char; [done|]). constructor.
  - split; [done|]. repeat constructor; done.
  - apply plain_char; [done|constructor].
  - repeat constructor; done.
Defined.

Lemma template_link_tail_lost_witness :
  template_events 0 (lit "<%/A/x% lost >y") = Ok [onData []; onLink (chr "A") (lit "x"); onData (lit "y")].
Proof.
  apply (template_link_tail_lost 0 (chr "A") (lit "x") (lit " lost ") (lit "y")).
  - repeat constructor; done.
  - repeat constructor; done.
  - apply plain_char; [done|constructor].
  - by vm_compute.
Defined.
