(* ===== verification/Workers.v ===== *)
(** The threads of the creator ([writer/queue.h], [writer/workers.cpp],
    [writer/clusterWorker.cpp]) as a step relation.

    The thread that uses the creator hands the full clusters over through two
    queues: one of tasks, from which any number of workers take the clusters to
    close (that is, to compress), and one of clusters to write, which a single
    writer empties in order, each cluster once a worker has closed it. Every
    step is one critical section (or one atomic access); the pauses of
    [microsleep] and the turns of a loop that find nothing to do are not steps. *)

From stdpp Require Import relations strings.
From S2P Require Import Prelude.
From S2P Require Import Types.
From S2P Require Import Readers.
From S2P Require Import Files.
From S2P Require Import Compression.
From S2P Require Import Streams.
From S2P Require Import Cluster.
From S2P Require Import WCluster.

(** * A file open for writing *)

Record out_file : Type := mkOut { o_bytes : bytes; o_pos : Z }.

(** [write(fd, data, size)]: the gap after the end of the file, if any, is
    filled with zeros. *)
Definition out_write (f : out_file) (data : bytes) : out_file :=
  let n := Z.to_nat (o_pos f) in
  match data with
  | [] => f
  | _ => mkOut (take n (o_bytes f) ++ repeat 0 (n - length (o_bytes f)) ++ data ++
                drop (n + length data) (o_bytes f))
           (o_pos f + Zlen data)
  end.

Definition lseek_set (f : out_file) (pos : Z) : out_file := mkOut (o_bytes f) pos.
Definition lseek_end (f : out_file) : out_file := mkOut (o_bytes f) (Zlen (o_bytes f)).

(** * [Queue] *)

Definition MAX_QUEUE_SIZE : nat := 10.

(** [pushToQueue] waits until the queue is not longer than that, then pushes, in
    two critical sections. *)
Definition queue_room {A} (q : list A) : Prop := (length q <= MAX_QUEUE_SIZE)%nat.
Definition queue_push {A} (q : list A) (x : A) : list A := q ++ [x].
Definition getHead {A} (q : list A) : option A := head q.
Definition popFromQueue {A} (q : list A) : option (A * list A) :=
  match q with [] => None | x :: q => Some (x, q) end.

(** * The program of the main thread *)

Inductive action : Type :=
  | NewTask (cluster : nat)              (* new ClusterTask(cluster) *)
  | TaskRoom | PushTask (t : option nat) (* taskList.pushToQueue(t) *)
  | WriteRoom | PushWrite (c : option nat) (* clusterToWrite.pushToQueue(c) *)
  | AwaitTasks                           (* while (ClusterTask::waiting_task.load() > 0) *)
  | JoinWorkers | JoinWriter.

(** What [closeCluster] does for the cluster [c]. *)
Definition closeCluster_actions (c : nat) : list action :=
  [NewTask c; TaskRoom; PushTask (Some c); WriteRoom; PushWrite (Some c)].

(** The end of [finishZimCreation], with [nbWorkers] workers. *)
Definition quit_actions (nbWorkers : nat) : list action :=
  concat (repeat [TaskRoom; PushTask None] nbWorkers) ++ [JoinWorkers; WriteRoom; PushWrite None; JoinWriter].
Definition join_actions (nbWorkers : nat) : list action := AwaitTasks :: quit_actions nbWorkers.

Definition main_program (nbWorkers : nat) (clustersList : list nat) : list action :=
  concat (map closeCluster_actions clustersList) ++ join_actions nbWorkers.

(** * The state and the steps *)

(** A worker between two tasks, in [task->run], before [delete task], returned. *)
Inductive worker : Type := Waiting | RunningTask (c : nat) | TaskDone (c : nat) | Returned.
Inductive writer_state : Type := WriterWaiting | Writing (c : nat) | WriterReturned.

Section threads.
Context `{OS} `{LzmaLib} `{ZstdLib} (fuel : nat).

Record threads : Type := mkThreads {
  clusters : list WCluster.t;
  taskList : list (option nat);
  clusterToWrite : list (option nat);
  waiting_task : nat;
  workers : list worker;
  writer : writer_state;
  out_fd : out_file;
  program : list action;
}.

Definition threads_init (nbWorkers : nat) (cl : list WCluster.t) (fd : out_file) (clustersList : list nat) : threads :=
  mkThreads cl [] [] 0 (repeat Waiting nbWorkers) WriterWaiting fd (main_program nbWorkers clustersList).

Inductive thread_step : threads -> threads -> Prop :=
  | main_new cl tq wq n ws wr fd m c :
      thread_step (mkThreads cl tq wq n ws wr fd (NewTask c :: m)) (mkThreads cl tq wq (S n) ws wr fd m)
  | main_task_room cl tq wq n ws wr fd m :
      queue_room tq ->
      thread_step (mkThreads cl tq wq n ws wr fd (TaskRoom :: m)) (mkThreads cl tq wq n ws wr fd m)
  | main_push_task cl tq wq n ws wr fd m t :
      thread_step (mkThreads cl tq wq n ws wr fd (PushTask t :: m))
        (mkThreads cl (queue_push tq t) wq n ws wr fd m)
  | main_write_room cl tq wq n ws wr fd m :
      queue_room wq ->
      thread_step (mkThreads cl tq wq n ws wr fd (WriteRoom :: m)) (mkThreads cl tq wq n ws wr fd m)
  | main_push_write cl tq wq n ws wr fd m c :
      thread_step (mkThreads cl tq wq n ws wr fd (PushWrite c :: m))
        (mkThreads cl tq (queue_push wq c) n ws wr fd m)
  | main_await cl tq wq ws wr fd m :
      thread_step (mkThreads cl tq wq 0 ws wr fd (AwaitTasks :: m)) (mkThreads cl tq wq 0 ws wr fd m)
  | main_join_workers cl tq wq n ws wr fd m :
      Forall (eq Returned) ws ->
      thread_step (mkThreads cl tq wq n ws wr fd (JoinWorkers :: m)) (mkThreads cl tq wq n ws wr fd m)
  | main_join_writer cl tq wq n ws fd m :
      thread_step (mkThreads cl tq wq n ws WriterReturned fd (JoinWriter :: m))
        (mkThreads cl tq wq n ws WriterReturned fd m)
  (** [taskRunner] *)
  | worker_pop cl tq tq' wq n ws wr fd m i c :
      ws !! i = Some Waiting -> popFromQueue tq = Some (Some c, tq') ->
      thread_step (mkThreads cl tq wq n ws wr fd m) (mkThreads cl tq' wq n (<[i := RunningTask c]> ws) wr fd m)
  | worker_return cl tq tq' wq n ws wr fd m i :
      ws !! i = Some Waiting -> popFromQueue tq = Some (None, tq') ->
      thread_step (mkThreads cl tq wq n ws wr fd m) (mkThreads cl tq' wq n (<[i := Returned]> ws) wr fd m)
  | worker_run cl tq wq n ws wr fd m i c cluster cluster' :
      ws !! i = Some (RunningTask c) -> cl !! c = Some cluster -> WCluster.close fuel cluster = Ok cluster' ->
      thread_step (mkThreads cl tq wq n ws wr fd m)
        (mkThreads (<[c := cluster']> cl) tq wq n (<[i := TaskDone c]> ws) wr fd m)
  | worker_delete cl tq wq n ws wr fd m i c :
      ws !! i = Some (TaskDone c) ->
      thread_step (mkThreads cl tq wq n ws wr fd m) (mkThreads cl tq wq (pred n) (<[i := Waiting]> ws) wr fd m)
  (** [clusterWriter] *)
  | writer_pop cl tq wq wq' n ws fd m c cluster :
      getHead wq = Some (Some c) -> cl !! c = Some cluster -> WCluster.closed cluster = true ->
      popFromQueue wq = Some (Some c, wq') ->
      thread_step (mkThreads cl tq wq n ws WriterWaiting fd m) (mkThreads cl tq wq' n ws (Writing c) fd m)
  | writer_return cl tq wq n ws fd m :
      getHead wq = Some None ->
      thread_step (mkThreads cl tq wq n ws WriterWaiting fd m) (mkThreads cl tq wq n ws WriterReturned fd m)
  | writer_write cl tq wq n ws fd m c cluster data :
      cl !! c = Some cluster -> WCluster.write (WCluster.setOffset cluster (o_pos fd)) = Ok data ->
      thread_step (mkThreads cl tq wq n ws (Writing c) fd m)
        (mkThreads (<[c := WCluster.clear_data (WCluster.setOffset cluster (o_pos fd))]> cl) tq wq n ws
           WriterWaiting (out_write fd data) m).

(** An exception that leaves a thread ends the process ([std::terminate]). *)
Inductive thread_crash : threads -> Prop :=
  | crash_close s i c cluster e :
      workers s !! i = Some (RunningTask c) -> clusters s !! c = Some cluster ->
      WCluster.close fuel cluster = Throw e -> thread_crash s
  | crash_write s c cluster e :
      writer s = Writing c -> clusters s !! c = Some cluster ->
      WCluster.write (WCluster.setOffset cluster (o_pos (out_fd s))) = Throw e -> thread_crash s.

(** * The sequential specification: one cluster after the other *)

Definition finish_cluster (c : WCluster.t) (fd : out_file) : outcome (WCluster.t * out_file) :=
  c ← WCluster.close fuel c;
  let c := WCluster.setOffset c (o_pos fd) in
  data ← WCluster.write c;
  mret (WCluster.clear_data c, out_write fd data).

Fixpoint finish_clusters (ids : list nat) (cl : list WCluster.t) (fd : out_file) :
    outcome (list WCluster.t * out_file) :=
  match ids with
  | [] => mret (cl, fd)
  | i :: ids =>
      match cl !! i with
      | None => Undef
      | Some c => '(c, fd) ← finish_cluster c fd; finish_clusters ids (<[i := c]> cl) fd
      end
  end.

End threads.

(** * Lemmas on lists of actions and of workers *)

Definition Tpush (m : list action) : list (option nat) :=
  omap (fun a => match a with PushTask t => Some t | _ => None end) m.
Definition Wpush (m : list action) : list (option nat) :=
  omap (fun a => match a with PushWrite c => Some c | _ => None end) m.
Definition news (m : list action) : list nat :=
  omap (fun a => match a with NewTask c => Some c | _ => None end) m.

Definition running_of (w : worker) : option nat := match w with RunningTask c => Some c | _ => None end.
Definition finished_of (w : worker) : option nat := match w with TaskDone c => Some c | _ => None end.
Definition alive_of (w : worker) : option unit := match w with Returned => None | _ => Some tt end.
Definition running (ws : list worker) : list nat := omap running_of ws.
Definition finished (ws : list worker) : list nat := omap finished_of ws.
Definition alive (ws : list worker) : list unit := omap alive_of ws.
Definition holding (wr : writer_state) : list nat :=
  match wr with Writing c => [c] | _ => [] end.

(** What a thread relies on in the rest [m] of the program. *)
Definition head_ok (m : list action) : Prop :=
  match m with
  | TaskRoom :: m => None ∈ Tpush m
  | AwaitTasks :: m => news m = [] /\ (forall c, Some c ∉ Tpush m) /\ None ∈ Tpush m
  | WriteRoom :: m => None ∈ Tpush m \/ AwaitTasks ∉ m
  | JoinWorkers :: m => Tpush m = [] /\ AwaitTasks ∉ m
  | JoinWriter :: m => m = []
  | _ => True
  end /\ (forall c, Some c ∈ Tpush m -> Some c ∈ Wpush m) /\ (length (news m) <= length (omap id (Tpush m)))%nat.

Fixpoint tails (Q : list action -> Prop) (m : list action) : Prop :=
  Q m /\ match m with [] => True | _ :: m => tails Q m end.

Lemma omap_update {A B} (f : A -> option B) (l : list A) i x y :
  l !! i = Some x ->
  exists k, omap f l ≡ₚ option_list (f x) ++ k /\ omap f (<[i := y]> l) ≡ₚ option_list (f y) ++ k.
Proof.
  intros Hi. exists (omap f (take i l) ++ omap f (drop (S i) l)).
  rewrite <- (take_drop_middle l i x Hi) at 1. rewrite insert_take_drop by by eapply lookup_lt_Some.
  rewrite !omap_app. cbn [omap list_omap].
  split; destruct (f _); simpl; rewrite ?Permutation_middle; done.
Qed.

Lemma worker_update ws i w w' :
  ws !! i = Some w ->
  exists kr kf ka,
    running ws ≡ₚ option_list (running_of w) ++ kr /\
    running (<[i := w']> ws) ≡ₚ option_list (running_of w') ++ kr /\
    finished ws ≡ₚ option_list (finished_of w) ++ kf /\
    finished (<[i := w']> ws) ≡ₚ option_list (finished_of w') ++ kf /\
    alive ws ≡ₚ option_list (alive_of w) ++ ka /\
    alive (<[i := w']> ws) ≡ₚ option_list (alive_of w') ++ ka.
Proof.
  intros Hi.
  destruct (omap_update running_of ws i w w' Hi) as (kr & ? & ?).
  destruct (omap_update finished_of ws i w w' Hi) as (kf & ? & ?).
  destruct (omap_update alive_of ws i w w' Hi) as (ka & ? & ?).
  by exists kr, kf, ka.
Qed.

Lemma Tpush_app m k : Tpush (m ++ k) = Tpush m ++ Tpush k.
Proof. apply omap_app. Qed.
Lemma Wpush_app m k : Wpush (m ++ k) = Wpush m ++ Wpush k.
Proof. apply omap_app. Qed.
Lemma news_app m k : news (m ++ k) = news m ++ news k.
Proof. apply omap_app. Qed.

Lemma quit_pushes nw :
  Tpush (quit_actions nw) = repeat None nw /\ Wpush (quit_actions nw) = [None] /\ news (quit_actions nw) = [].
Proof.
  unfold quit_actions. induction nw as [|nw (IH1 & IH2 & IH3)]; [done|]. cbn [repeat concat].
  rewrite <- app_assoc, Tpush_app, Wpush_app, news_app, IH1, IH2, IH3. done.
Qed.

Lemma main_pushes nw ids :
  Tpush (main_program nw ids) = map Some ids ++ repeat None nw /\
  Wpush (main_program nw ids) = map Some ids ++ [None] /\ news (main_program nw ids) = ids.
Proof.
  unfold main_program. induction ids as [|i ids (IH1 & IH2 & IH3)]; [apply (quit_pushes nw)|].
  cbn [map concat]. rewrite <- app_assoc, Tpush_app, Wpush_app, news_app, IH1, IH2, IH3. done.
Qed.

#[export] Instance action_eq_dec : EqDecision action.
Proof. solve_decision. Defined.
#[export] Instance writer_state_eq_dec : EqDecision writer_state.
Proof. solve_decision. Defined.

Lemma cons_self {A} (x : A) l : l <> x :: l.
Proof. intros E. apply (f_equal length) in E. simpl in E. lia. Qed.

Lemma alive_returned ws : Forall (eq Returned) ws -> alive ws = [].
Proof. induction 1 as [|w ws <- _ IH]; done. Qed.

Lemma not_some_repeat (c n : nat) : Some c ∉ repeat None n.
Proof. intros Hc. apply list_elem_of_In, repeat_spec in Hc. done. Qed.

Lemma somes_nulls n : omap id (repeat (@None nat) n) = [].
Proof. by induction n. Qed.
Lemma somes_map (l : list nat) : omap id (map Some l) = l.
Proof. induction l as [|x l IH]; [done|]. cbn. by rewrite IH. Qed.

Lemma head_ok_quiet a m :
  Tpush m = [] -> news m = [] -> (a = JoinWorkers -> AwaitTasks ∉ m) -> (a = WriteRoom -> AwaitTasks ∉ m) ->
  (a = JoinWriter -> m = []) -> a <> AwaitTasks -> a <> TaskRoom -> (forall c, a <> NewTask c) ->
  (forall t, a <> PushTask t) -> head_ok (a :: m).
Proof.
  intros Ht Hn Hjw Hwr Hj Ha1 Ha2 Ha3 Ha4. unfold head_ok.
  assert (E : Tpush (a :: m) = Tpush m) by (destruct a; done || (by edestruct Ha4)).
  assert (E' : news (a :: m) = news m) by (destruct a; done || (by edestruct Ha3)).
  rewrite E, E', Ht, Hn. split; [|split; [intros c Hc; by inversion Hc|done]].
  destruct a; auto; done.
Qed.

Lemma not_await m : Forall (fun a => a <> AwaitTasks) m -> AwaitTasks ∉ m.
Proof. intros Hm Hin. rewrite Forall_forall in Hm. by apply (Hm AwaitTasks). Qed.

Lemma tails_quit nw : tails head_ok (quit_actions nw).
Proof.
  unfold quit_actions. induction nw as [|nw IH]; cbn [repeat concat app tails].
  - assert (Hnil : head_ok []) by (split; [done|split; [intros c Hc; inversion Hc|done]]).
    repeat match goal with
    | |- head_ok (_ :: _) => apply head_ok_quiet; try done; intros _; apply not_await; by repeat constructor
    | |- head_ok [] => exact Hnil
    | |- _ /\ _ => split
    end; done.
  - fold (quit_actions nw). destruct (quit_pushes nw) as (Et & _ & En).
    assert (Hs : forall c, Some c ∉ None :: Tpush (quit_actions nw)).
    { intros c Hc. rewrite Et in Hc. by apply (not_some_repeat c (S nw)). }
    split; [|split; [|exact IH]]; unfold head_ok.
    all: change (news (TaskRoom :: PushTask None :: quit_actions nw)) with (news (quit_actions nw)).
    all: change (news (PushTask None :: quit_actions nw)) with (news (quit_actions nw)); rewrite En.
    + split; [left|]. split; [|simpl; lia]. intros c Hc. by edestruct Hs.
    + split; [done|]. split; [|simpl; lia]. intros c Hc. by edestruct Hs.
Qed.

Lemma tails_main nw ids : tails head_ok (main_program (S nw) ids).
Proof.
  unfold main_program. induction ids as [|i ids IH].
  - destruct (quit_pushes (S nw)) as (Et & Ew & En). split; [|apply tails_quit].
    change (concat (map closeCluster_actions []) ++ join_actions (S nw)) with (AwaitTasks :: quit_actions (S nw)).
    unfold head_ok. change (Tpush (AwaitTasks :: ?m)) with (Tpush m). change (news (AwaitTasks :: ?m)) with (news m).
    rewrite Et, En. split_and!; [done|intros c; apply not_some_repeat|left| |simpl; lia].
    intros c Hc. by edestruct not_some_repeat.
  - cbn [map concat]. rewrite <- app_assoc. fold (main_program (S nw) ids) in *.
    destruct (main_pushes (S nw) ids) as (Et & Ew & En).
    assert (Hnone : None ∈ Tpush (main_program (S nw) ids)).
    { rewrite Et. apply elem_of_app. right. left. }
    assert (Hord : forall c, Some c ∈ Tpush (main_program (S nw) ids) -> Some c ∈ Wpush (main_program (S nw) ids)).
    { intros c. rewrite Et, Ew, !elem_of_app. intros [Hc|Hc]; [by left|by edestruct not_some_repeat]. }
    assert (Hlen : (length (news (main_program (S nw) ids)) <= length (omap id (Tpush (main_program (S nw) ids))))%nat).
    { by rewrite Et, En, omap_app, somes_map, somes_nulls, app_nil_r. }
    revert IH Hnone Hord Hlen. generalize (main_program (S nw) ids). intros m IH Hnone Hord Hlen.
    cbn [closeCluster_actions app tails]. split_and!; try exact IH; unfold head_ok, Tpush, Wpush, news in *;
      cbn [omap list_omap length id] in *; (split; [try done; try (left; done); (by right) || (left; by right) || idtac|]); (split; [|lia || (simpl; lia)]).
    all: intros c Hc; repeat (apply elem_of_cons in Hc as [Hc|Hc]; [simplify_eq; repeat constructor|]); repeat right; auto.
Qed.

(** * Lemmas on the sequential specification *)

Section spec_facts.
Context `{OS} `{LzmaLib} `{ZstdLib} (fuel : nat).

Lemma finish_clusters_app a b cl fd :
  finish_clusters fuel (a ++ b) cl fd =
    ('(cl, fd) ← finish_clusters fuel a cl fd; finish_clusters fuel b cl fd).
Proof.
  revert cl fd. induction a as [|i a IH]; intros cl fd; [by cbn; destruct (finish_clusters _ _ _ _)|].
  cbn [app finish_clusters]. destruct (cl !! i); [|done].
  destruct (finish_cluster fuel _ fd) as [[c' fd']| | |]; [|done..]. apply IH.
Qed.

Lemma finish_clusters_other a cl fd cl' fd' i :
  finish_clusters fuel a cl fd = Ok (cl', fd') -> i ∉ a -> cl' !! i = cl !! i.
Proof.
  revert cl fd. induction a as [|j a IH]; intros cl fd E Hi; cbn [finish_clusters] in E; [by inv_outcome|].
  rewrite not_elem_of_cons in Hi. destruct Hi as [Hij Hi]. destruct (cl !! j); [|done].
  apply bind_Ok in E as ([c' fd''] & _ & E). rewrite (IH _ _ E Hi). by apply list_lookup_insert_ne.
Qed.

(** One cluster, in the middle of the others. *)
Lemma finish_clusters_at a c b cl fd r :
  finish_clusters fuel (a ++ c :: b) cl fd = Ok r ->
  exists cla fda c0 c1 data,
    finish_clusters fuel a cl fd = Ok (cla, fda) /\ cla !! c = Some c0 /\ WCluster.close fuel c0 = Ok c1 /\
    WCluster.write (WCluster.setOffset c1 (o_pos fda)) = Ok data /\
    finish_clusters fuel (a ++ [c]) cl fd =
      Ok (<[c := WCluster.clear_data (WCluster.setOffset c1 (o_pos fda))]> cla, out_write fda data).
Proof.
  rewrite !finish_clusters_app. intros E. apply bind_Ok in E as ([cla fda] & Ea & E).
  cbn [finish_clusters] in E. destruct (cla !! c) as [c0|] eqn:E0; [|done].
  apply bind_Ok in E as ([c2 fd2] & Ec & _). unfold finish_cluster in Ec.
  apply bind_Ok in Ec as (c1 & Ec1 & Ec). apply bind_Ok in Ec as (data & Ed & _).
  exists cla, fda, c0, c1, data. split_and!; [done..|].
  rewrite Ea. cbn [mbind outcome_bind finish_clusters]. rewrite E0. unfold finish_cluster. rewrite Ec1.
  cbn [mbind outcome_bind]. by rewrite Ed.
Qed.

Lemma close_closed c c1 : WCluster.close fuel c = Ok c1 -> WCluster.closed c1 = true.
Proof.
  unfold WCluster.close. destruct (WCluster.isCompressed c); intros E; inv_outcome; done.
Qed.

End spec_facts.

(** * The invariant of the threads *)

Section invariant.
Context `{OS} `{LzmaLib} `{ZstdLib} (fuel : nat).
(** The clusters handed over, in order, and what becomes of them sequentially. *)
Context (ids : list nat) (cl0 : list WCluster.t) (fd0 : out_file).

(** The cluster once its task has run. *)
Definition closed_form (c : option WCluster.t) : option WCluster.t :=
  match c with
  | Some c0 => match WCluster.close fuel c0 with Ok c1 => Some c1 | _ => c end
  | None => None
  end.

(** [rest] are the clusters whose task is not taken yet, [ran] those whose task has run, [todo] those the
    writer has not taken yet, [written] those it has written, which makes the clusters [clw]. *)
Record threads_inv (s : threads) (rest ran todo written : list nat) (clw : list WCluster.t) : Prop := {
  i_program : tails head_ok (program s);
  i_tasks : taskList s ++ Tpush (program s) = map Some rest ++ repeat None (length (alive (workers s)));
  i_perm : ids ≡ₚ ran ++ running (workers s) ++ rest;
  i_count : (waiting_task s + length (news (program s)) =
             length (finished (workers s)) + length (running (workers s)) + length rest)%nat;
  i_await : AwaitTasks ∉ program s -> running (workers s) = [] /\ finished (workers s) = [] /\ rest = [];
  i_writes : clusterToWrite s ++ Wpush (program s) = map Some todo ++ [None];
  i_order : ids = written ++ holding (writer s) ++ todo;
  i_spec : finish_clusters fuel written cl0 fd0 = Ok (clw, out_fd s);
  i_clusters : forall i, clusters s !! i = if decide (i ∈ ran /\ i ∉ written) then closed_form (clw !! i) else clw !! i;
  i_ran : written ++ holding (writer s) ⊆ ran;
  i_returned : writer s = WriterReturned -> todo = [];
  i_joined : JoinWorkers ∉ program s -> alive (workers s) = [];
  i_end : JoinWriter ∉ program s -> writer s = WriterReturned;
}.

Hypothesis Hnd : NoDup ids.

Lemma inv_disjoint s rest ran todo written clw :
  threads_inv s rest ran todo written clw ->
  (forall c, c ∈ ran -> (c ∉ running (workers s)) /\ (c ∉ rest)) /\
  (forall c, c ∈ running (workers s) -> c ∉ rest) /\
  (forall c, c ∈ written -> (c ∉ holding (writer s)) /\ (c ∉ todo)) /\
  (forall c, c ∈ holding (writer s) -> c ∉ todo) /\ NoDup todo.
Proof.
  intros Hi. pose proof Hnd as Hnd1. rewrite (i_perm _ _ _ _ _ _ Hi) in Hnd1.
  pose proof Hnd as Hnd2. rewrite (i_order _ _ _ _ _ _ Hi) in Hnd2.
  apply NoDup_app in Hnd1 as (_ & Hd1 & Hnd1). apply NoDup_app in Hnd1 as (_ & Hd1' & _).
  apply NoDup_app in Hnd2 as (_ & Hd2 & Hnd2). apply NoDup_app in Hnd2 as (_ & Hd2' & Hnd2).
  split_and!; try done.
  - intros c Hc. specialize (Hd1 c Hc). rewrite elem_of_app in Hd1. tauto.
  - intros c Hc. specialize (Hd2 c Hc). rewrite elem_of_app in Hd2. tauto.
Qed.

(** The steps of the main thread: it moves an action to a queue or a counter, or only waits. *)
Lemma inv_advance cl tq wq n ws wr fd a m tq' wq' n' rest ran todo written clw :
  threads_inv (mkThreads cl tq wq n ws wr fd (a :: m)) rest ran todo written clw ->
  tq' ++ Tpush m = tq ++ Tpush (a :: m) -> wq' ++ Wpush m = wq ++ Wpush (a :: m) ->
  (n' + length (news m) = n + length (news (a :: m)))%nat ->
  (a = AwaitTasks -> running ws = [] /\ finished ws = [] /\ rest = []) ->
  (a = JoinWorkers -> alive ws = []) -> (a = JoinWriter -> wr = WriterReturned) ->
  threads_inv (mkThreads cl tq' wq' n' ws wr fd m) rest ran todo written clw.
Proof.
  intros [Hp Ht Hperm Hc Ha Hw Ho Hs Hcl Hr Hret Hj He] Et Ew En Hawait Hworkers Hwriter.
  assert (Hnot : forall b, b ∉ m -> a <> b -> b ∉ a :: m) by (intros b Hb Hne; by rewrite not_elem_of_cons).
  split; cbn [taskList clusterToWrite waiting_task workers writer out_fd program clusters] in *;
    try done; try congruence; try lia.
  - apply Hp.
  - intros Hin. destruct (decide (a = AwaitTasks)); auto.
  - intros Hin. destruct (decide (a = JoinWorkers)); auto.
  - intros Hin. destruct (decide (a = JoinWriter)); auto.
Qed.

Lemma inv_main s s' rest ran todo written clw a m :
  threads_inv s rest ran todo written clw -> thread_step fuel s s' ->
  program s = a :: m -> program s' = m ->
  threads_inv s' rest ran todo written clw.
Proof.
  intros Hi Hstep Hps Hps'. pose proof Hi as [Hp _ _ Hc Ha _ _ _ _ _ _ _ _].
  inversion Hstep; subst s s'; cbn [program] in Hps, Hps'; subst;
    try (exfalso; by eapply cons_self); simplify_eq; (eapply inv_advance; [exact Hi|..]);
    unfold Tpush, Wpush, news, queue_push; cbn [omap list_omap length]; try done; try lia;
    try (by rewrite <- app_assoc).
  - intros _. destruct Hp as [[[Hn _] _] _]. cbn [waiting_task program workers] in Hc.
    change (news (AwaitTasks :: m)) with (news m) in Hc. rewrite Hn in Hc. cbn [length] in Hc.
    split_and!; apply nil_length_inv; lia.
  - intros _. apply alive_returned. done.
Qed.

(** A worker takes a task. *)
Lemma inv_pop cl tq tq' wq n ws wr fd m i c rest ran todo written clw :
  threads_inv (mkThreads cl tq wq n ws wr fd m) rest ran todo written clw ->
  ws !! i = Some Waiting -> popFromQueue tq = Some (Some c, tq') ->
  exists rest', threads_inv (mkThreads cl tq' wq n (<[i := RunningTask c]> ws) wr fd m) rest' ran todo written clw.
Proof.
  intros [Hp Ht Hperm Hc Ha Hw Ho Hs Hcl Hr Hret Hj He] Hi Hpop.
  destruct tq as [|t tq]; [done|]. injection Hpop as -> ->.
  destruct (worker_update ws i _ (RunningTask c) Hi) as (kr & kf & ka & Er & Er' & Ef & Ef' & Ea & Ea').
  simpl in Er, Er', Ef, Ef', Ea, Ea'.
  cbn [taskList clusterToWrite waiting_task workers writer out_fd program clusters] in *.
  destruct rest as [|c' rest].
  { cbn [map app] in Ht. destruct (length (alive ws)); done. }
  cbn [map app] in Ht. injection Ht as <- Ht. exists rest.
  split; cbn [taskList clusterToWrite waiting_task workers writer out_fd program clusters]; try done.
  - by rewrite Ht, Ea', <- Ea.
  - rewrite Hperm, Er', Er. solve_Permutation.
  - rewrite Er', Ef', <- Ef, Hc, Er. simpl. lia.
  - intros Hin. by destruct (Ha Hin) as (_ & _ & ?).
  - intros Hin. specialize (Hj Hin). by rewrite Hj in Ea; apply Permutation_nil_cons in Ea.
Qed.

(** A worker sees the end. *)
Lemma inv_return cl tq tq' wq n ws wr fd m i rest ran todo written clw :
  threads_inv (mkThreads cl tq wq n ws wr fd m) rest ran todo written clw ->
  ws !! i = Some Waiting -> popFromQueue tq = Some (None, tq') ->
  threads_inv (mkThreads cl tq' wq n (<[i := Returned]> ws) wr fd m) rest ran todo written clw.
Proof.
  intros [Hp Ht Hperm Hc Ha Hw Ho Hs Hcl Hr Hret Hj He] Hi Hpop.
  destruct tq as [|t tq]; [done|]. injection Hpop as -> ->.
  destruct (worker_update ws i _ Returned Hi) as (kr & kf & ka & Er & Er' & Ef & Ef' & Ea & Ea').
  simpl in Er, Er', Ef, Ef', Ea, Ea'.
  cbn [taskList clusterToWrite waiting_task workers writer out_fd program clusters] in *.
  destruct rest as [|c' rest]; [|done]. cbn [map app] in Ht. rewrite Ea in Ht. injection Ht as Ht.
  split; cbn [taskList clusterToWrite waiting_task workers writer out_fd program clusters]; try done.
  - by rewrite Ht, Ea'.
  - by rewrite Er', <- Er.
  - by rewrite Er', Ef', <- Ef, <- Er.
  - intros Hin. destruct (Ha Hin) as (Hr1 & Hf1 & _). rewrite Hr1 in Er. rewrite Hf1 in Ef.
    apply Permutation_nil_l in Er, Ef. subst kr kf.
    split_and!; [by apply Permutation_nil_r in Er'|by apply Permutation_nil_r in Ef'|done].
  - intros Hin. specialize (Hj Hin). by rewrite Hj in Ea; apply Permutation_nil_cons in Ea.
Qed.

(** A worker closes its cluster. *)
Lemma inv_run cl tq wq n ws wr fd m i c cluster cluster' rest ran todo written clw :
  threads_inv (mkThreads cl tq wq n ws wr fd m) rest ran todo written clw ->
  ws !! i = Some (RunningTask c) -> cl !! c = Some cluster -> WCluster.close fuel cluster = Ok cluster' ->
  threads_inv (mkThreads (<[c := cluster']> cl) tq wq n (<[i := TaskDone c]> ws) wr fd m)
    rest (c :: ran) todo written clw.
Proof.
  intros Hinv Hi Hcc Hclose. pose proof (inv_disjoint _ _ _ _ _ _ Hinv) as (Hd & _).
  destruct Hinv as [Hp Ht Hperm Hc Ha Hw Ho Hs Hcl Hr Hret Hj He].
  destruct (worker_update ws i _ (TaskDone c) Hi) as (kr & kf & ka & Er & Er' & Ef & Ef' & Ea & Ea').
  simpl in Er, Er', Ef, Ef', Ea, Ea'.
  cbn [taskList clusterToWrite waiting_task workers writer out_fd program clusters] in *.
  assert (Hcr : c ∈ running ws) by (rewrite Er; left).
  assert (Hnr : c ∉ ran) by (intros Hin; by destruct (Hd c Hin)).
  assert (Hnw : c ∉ written) by (intros Hin; apply Hnr, Hr; apply elem_of_app; by left).
  split; cbn [taskList clusterToWrite waiting_task workers writer out_fd program clusters]; try done.
  - by rewrite Ht, Ea', <- Ea.
  - rewrite Hperm, Er', Er. solve_Permutation.
  - rewrite Er', Ef', <- Ef, Hc, Er. simpl. lia.
  - intros Hin. destruct (Ha Hin) as (Hr1 & _). rewrite Hr1 in Hcr. by inversion Hcr.
  - intros j. destruct (decide (j = c)) as [->|Hne].
    + rewrite list_lookup_insert_eq by by eapply lookup_lt_Some.
      rewrite decide_True by (split; [left|done]). rewrite Hcl, decide_False in Hcc by tauto.
      rewrite Hcc. unfold closed_form. by rewrite Hclose.
    + rewrite list_lookup_insert_ne by done. rewrite Hcl.
      apply decide_ext. rewrite elem_of_cons. tauto.
  - intros j Hj'. right. by apply Hr.
  - intros Hin. specialize (Hj Hin). by rewrite Hj in Ea; apply Permutation_nil_cons in Ea.
Qed.

(** A worker deletes its task. *)
Lemma inv_delete cl tq wq n ws wr fd m i c rest ran todo written clw :
  threads_inv (mkThreads cl tq wq n ws wr fd m) rest ran todo written clw ->
  ws !! i = Some (TaskDone c) ->
  threads_inv (mkThreads cl tq wq (pred n) (<[i := Waiting]> ws) wr fd m) rest ran todo written clw.
Proof.
  intros [Hp Ht Hperm Hc Ha Hw Ho Hs Hcl Hr Hret Hj He] Hi.
  assert (Hnew : (length (news m) <= length rest)%nat).
  { apply (f_equal (omap id)) in Ht. rewrite !omap_app, somes_map, somes_nulls, app_nil_r in Ht. rewrite <- Ht, length_app.
    cbn [program] in Hp. destruct m; destruct Hp as [(_ & _ & Hp) _]; cbn [program]; lia. }
  destruct (worker_update ws i _ Waiting Hi) as (kr & kf & ka & Er & Er' & Ef & Ef' & Ea & Ea').
  simpl in Er, Er', Ef, Ef', Ea, Ea'.
  cbn [taskList clusterToWrite waiting_task workers writer out_fd program clusters] in *.
  split; cbn [taskList clusterToWrite waiting_task workers writer out_fd program clusters]; try done.
  - by rewrite Ht, Ea', <- Ea.
  - by rewrite Er', <- Er.
  - rewrite Er', Ef'. rewrite Ef, Er in Hc. simpl in Hc. lia.
  - intros Hin. destruct (Ha Hin) as (_ & Hf1 & _). by rewrite Hf1 in Ef; apply Permutation_nil_cons in Ef.
  - intros Hin. specialize (Hj Hin). by rewrite Hj in Ea; apply Permutation_nil_cons in Ea.
Qed.

(** The clusters handed over start open, and the sequential specification succeeds on them. *)
Context (result : list WCluster.t * out_file).
Hypothesis Hopen : forall c0 i, i ∈ ids -> cl0 !! i = Some c0 -> WCluster.closed c0 = false.
Hypothesis Hseq : finish_clusters fuel ids cl0 fd0 = Ok result.

(** The writer takes the cluster at the head: it is closed, so its task has run. *)
Lemma inv_writer_pop cl tq wq wq' n ws fd m c cluster rest ran todo written clw :
  threads_inv (mkThreads cl tq wq n ws WriterWaiting fd m) rest ran todo written clw ->
  cl !! c = Some cluster -> WCluster.closed cluster = true -> popFromQueue wq = Some (Some c, wq') ->
  exists todo', threads_inv (mkThreads cl tq wq' n ws (Writing c) fd m) rest ran todo' written clw.
Proof.
  intros Hinv Hcc Hclosed Hpop. pose proof (inv_disjoint _ _ _ _ _ _ Hinv) as (_ & _ & Hd & _).
  destruct Hinv as [Hp Ht Hperm Hc Ha Hw Ho Hs Hcl Hr Hret Hj He].
  cbn [taskList clusterToWrite waiting_task workers writer out_fd program clusters holding] in *.
  destruct wq as [|x wq]; [done|]. injection Hpop as -> ->.
  destruct todo as [|c' todo]; [done|]. cbn [map app] in Hw. injection Hw as <- Hw. exists todo.
  assert (Hcin : c ∈ ids) by (rewrite Ho, !elem_of_app; right; right; left).
  assert (Hnw : c ∉ written) by (intros Hin; destruct (Hd c Hin) as [_ Hn]; apply Hn; left).
  assert (Hran : c ∈ ran).
  { destruct (decide (c ∈ ran)) as [|Hn]; [done|]. exfalso. rewrite Hcl, decide_False in Hcc by tauto.
    rewrite (finish_clusters_other fuel _ _ _ _ _ _ Hs Hnw) in Hcc.
    rewrite (Hopen _ _ Hcin Hcc) in Hclosed. done. }
  split; cbn [taskList clusterToWrite waiting_task workers writer out_fd program clusters holding]; try done.
  - intros j. rewrite elem_of_app, elem_of_cons. intros [Hj'|[->|Hj']]; [|done|inversion Hj'].
    apply Hr. by rewrite app_nil_r.
  - intros Hin. specialize (He Hin). done.
Qed.

Lemma inv_writer_return cl tq wq n ws fd m rest ran todo written clw :
  threads_inv (mkThreads cl tq wq n ws WriterWaiting fd m) rest ran todo written clw ->
  getHead wq = Some None ->
  threads_inv (mkThreads cl tq wq n ws WriterReturned fd m) rest ran todo written clw.
Proof.
  intros [Hp Ht Hperm Hc Ha Hw Ho Hs Hcl Hr Hret Hj He] Hhead.
  cbn [taskList clusterToWrite waiting_task workers writer out_fd program clusters holding] in *.
  split; try done. intros _. destruct wq as [|x wq]; [done|]. injection Hhead as ->.
  by destruct todo.
Qed.

(** What the invariant says of the cluster the writer holds. *)
Lemma inv_held cl tq wq n ws fd m c rest ran todo written clw :
  threads_inv (mkThreads cl tq wq n ws (Writing c) fd m) rest ran todo written clw ->
  exists c1 data, cl !! c = Some c1 /\ WCluster.write (WCluster.setOffset c1 (o_pos fd)) = Ok data /\
    finish_clusters fuel (written ++ [c]) cl0 fd0 =
      Ok (<[c := WCluster.clear_data (WCluster.setOffset c1 (o_pos fd))]> clw, out_write fd data) /\
    (c ∉ written).
Proof.
  intros Hinv. pose proof (inv_disjoint _ _ _ _ _ _ Hinv) as (_ & _ & Hd & _).
  destruct Hinv as [Hp Ht Hperm Hc Ha Hw Ho Hs Hcl Hr Hret Hj He].
  cbn [taskList clusterToWrite waiting_task workers writer out_fd program clusters holding] in *.
  cbn [app] in Ho. rewrite Ho in Hseq.
  destruct (finish_clusters_at fuel _ _ _ _ _ _ Hseq) as (cla & fda & c0 & c1 & data & Ea & E0 & E1 & Ed & Ef).
  rewrite Hs in Ea. injection Ea as <- <-. exists c1, data.
  assert (Hnw : c ∉ written) by (intros Hin; destruct (Hd c Hin) as [Hn _]; apply Hn; left).
  split_and!; try done. rewrite Hcl, decide_True; [by rewrite E0; unfold closed_form; rewrite E1|].
  split; [|done]. apply Hr, elem_of_app. right. left.
Qed.

Lemma inv_write cl tq wq n ws fd m c cluster data rest ran todo written clw :
  threads_inv (mkThreads cl tq wq n ws (Writing c) fd m) rest ran todo written clw ->
  cl !! c = Some cluster -> WCluster.write (WCluster.setOffset cluster (o_pos fd)) = Ok data ->
  exists clw', threads_inv (mkThreads (<[c := WCluster.clear_data (WCluster.setOffset cluster (o_pos fd))]> cl) tq wq n ws
    WriterWaiting (out_write fd data) m) rest ran todo (written ++ [c]) clw'.
Proof.
  intros Hinv Hcc Hdata. destruct (inv_held _ _ _ _ _ _ _ _ _ _ _ _ _ Hinv) as (c1 & data' & E1 & Ed & Ef & Hnw).
  rewrite Hcc in E1. injection E1 as <-. rewrite Hdata in Ed. injection Ed as <-.
  destruct Hinv as [Hp Ht Hperm Hc Ha Hw Ho Hs Hcl Hr Hret Hj He].
  cbn [taskList clusterToWrite waiting_task workers writer out_fd program clusters holding] in *.
  exists (<[c := WCluster.clear_data (WCluster.setOffset cluster (o_pos fd))]> clw).
  split; cbn [taskList clusterToWrite waiting_task workers writer out_fd program clusters holding]; try done.
  - by rewrite Ho, <- app_assoc.
  - intros j. destruct (decide (j = c)) as [->|Hne].
    + rewrite decide_False by (rewrite elem_of_app; intros [_ Hn]; apply Hn; right; left).
      assert (Hlt : (c < length clw)%nat).
      { apply lookup_lt_is_Some. rewrite Hcl in Hcc. case_decide; [|by eexists].
        unfold closed_form in Hcc. destruct (clw !! c); [by eexists|done]. }
      rewrite !list_lookup_insert_eq; [done|done|by eapply lookup_lt_Some].
    + rewrite !list_lookup_insert_ne by done. rewrite Hcl. apply decide_ext.
      rewrite elem_of_app, elem_of_cons, elem_of_nil. tauto.
  - by rewrite app_nil_r.
  - intros Hin. specialize (He Hin). done.
Qed.

Definition threads_ok (s : threads) : Prop := exists rest ran todo written clw, threads_inv s rest ran todo written clw.

Lemma inv_step s s' : threads_ok s -> thread_step fuel s s' -> threads_ok s'.
Proof.
  intros (rest & ran & todo & written & clw & Hi) Hstep. pose proof Hstep as Hstep'. unfold threads_ok.
  destruct Hstep.
  1-8: exists rest, ran, todo, written, clw; eapply inv_main; [exact Hi|exact Hstep'|done|done].
  - edestruct inv_pop as (rest' & ?); [exact Hi|done..|]. by eexists _, _, _, _, _.
  - eexists _, _, _, _, _. by eapply inv_return.
  - eexists _, _, _, _, _. by eapply inv_run.
  - eexists _, _, _, _, _. by eapply inv_delete.
  - edestruct inv_writer_pop as (todo' & ?); [exact Hi|done..|]. by eexists _, _, _, _, _.
  - eexists _, _, _, _, _. by eapply inv_writer_return.
  - edestruct inv_write as (clw' & ?); [exact Hi|done..|]. by eexists _, _, _, _, _.
Qed.

Lemma init_workers nw :
  running (repeat Waiting nw) = [] /\ finished (repeat Waiting nw) = [] /\ length (alive (repeat Waiting nw)) = nw.
Proof. induction nw as [|nw (IH1 & IH2 & IH3)]; [done|].
  split_and!; [exact IH1|exact IH2|]. change (S (length (alive (repeat Waiting nw))) = S nw). by rewrite IH3.
Qed.

Lemma has_join nw :
  AwaitTasks ∈ main_program nw ids /\ JoinWorkers ∈ main_program nw ids /\ JoinWriter ∈ main_program nw ids.
Proof.
  unfold main_program, join_actions, quit_actions. split_and!; apply elem_of_app; right; [left|right|right];
    apply elem_of_app; right; [left|do 3 right; left].
Qed.

Lemma inv_init nw : threads_ok (threads_init (S nw) cl0 fd0 ids).
Proof.
  exists ids, [], ids, [], cl0. unfold threads_init.
  destruct (main_pushes (S nw) ids) as (Et & Ew & En). destruct (init_workers (S nw)) as (Er & Ef & Ea).
  destruct (has_join (S nw)) as (H1' & H2' & H3').
  split; cbn [taskList clusterToWrite waiting_task workers writer out_fd program clusters holding app];
    rewrite ?Er, ?Ef, ?Ea, ?En; try done.
  apply tails_main.
Qed.

Lemma inv_reachable nw s : rtc (thread_step fuel) (threads_init (S nw) cl0 fd0 ids) s -> threads_ok s.
Proof.
  intros Hr. assert (Hgen : forall s0, threads_ok s0 -> rtc (thread_step fuel) s0 s -> threads_ok s).
  { clear Hr. intros s0 Hs0 Hr. induction Hr as [|x y z Hxy _ IH]; [done|]. apply IH. by eapply inv_step. }
  apply (Hgen _ (inv_init nw) Hr).
Qed.

(** ** Progress *)

Lemma inv_closable s rest ran todo written clw i c :
  threads_inv s rest ran todo written clw -> workers s !! i = Some (RunningTask c) ->
  exists cluster cluster', clusters s !! c = Some cluster /\ WCluster.close fuel cluster = Ok cluster'.
Proof.
  intros Hinv Hi. pose proof (inv_disjoint _ _ _ _ _ _ Hinv) as (Hd & _).
  assert (Hrun : c ∈ running (workers s)).
  { unfold running. apply list_elem_of_omap. exists (RunningTask c). split; [|done]. by eapply list_elem_of_lookup_2. }
  assert (Hnr : c ∉ ran) by (intros Hin; by destruct (Hd c Hin)).
  assert (Hin : c ∈ ids) by (rewrite (i_perm _ _ _ _ _ _ Hinv), !elem_of_app; auto).
  assert (Hnw : c ∉ written) by (intros Hw; apply Hnr, (i_ran _ _ _ _ _ _ Hinv), elem_of_app; by left).
  apply list_elem_of_split_l in Hin as (a & b & Eids & Ha). pose proof Hseq as Hseq'. rewrite Eids in Hseq'.
  destruct (finish_clusters_at fuel _ _ _ _ _ _ Hseq') as (cla & fda & c0 & c1 & data & Ea & E0 & E1 & _).
  exists c0, c1. split; [|done]. rewrite (i_clusters _ _ _ _ _ _ Hinv), decide_False by tauto.
  rewrite (finish_clusters_other fuel _ _ _ _ _ _ (i_spec _ _ _ _ _ _ Hinv) Hnw).
  by rewrite <- (finish_clusters_other fuel _ _ _ _ _ _ Ea Ha).
Qed.

(** A worker that has not returned has something to do unless the queue is empty. *)
Lemma worker_can_step s rest ran todo written clw :
  threads_inv s rest ran todo written clw -> alive (workers s) <> [] -> taskList s <> [] ->
  exists s', thread_step fuel s s'.
Proof.
  intros Hinv Hal Hq. destruct (alive (workers s)) as [|u l] eqn:E; [done|].
  assert (Hu : u ∈ omap alive_of (workers s)) by (fold (alive (workers s)); rewrite E; left).
  apply list_elem_of_omap in Hu as (w & Hw & Hu). apply list_elem_of_lookup_1 in Hw as (i & Hi).
  pose proof (fun c => inv_closable s rest ran todo written clw i c Hinv) as Hclose.
  destruct s as [cl tq wq n ws wr fd m]. cbn [workers taskList clusters] in *.
  destruct w as [|c|c|]; [|destruct (Hclose c Hi) as (? & ? & ? & ?)| |done].
  - destruct tq as [|[c|] tq]; [done| |]; eexists; [by eapply worker_pop|by eapply worker_return].
  - eexists. by eapply worker_run.
  - eexists. by eapply worker_delete.
Qed.

Lemma busy_can_step s rest ran todo written clw :
  threads_inv s rest ran todo written clw -> running (workers s) <> [] \/ finished (workers s) <> [] ->
  exists s', thread_step fuel s s'.
Proof.
  intros Hinv Hbusy.
  assert (Hex : exists i w, workers s !! i = Some w /\ (exists c, w = RunningTask c \/ w = TaskDone c)).
  { destruct Hbusy as [Hb|Hb].
    - destruct (running (workers s)) as [|c l] eqn:E; [done|].
      assert (Hc : c ∈ omap running_of (workers s)) by (fold (running (workers s)); rewrite E; left).
      apply list_elem_of_omap in Hc as (w & Hw & Hc). apply list_elem_of_lookup_1 in Hw as (i & Hi).
      destruct w; try done. eauto 10.
    - destruct (finished (workers s)) as [|c l] eqn:E; [done|].
      assert (Hc : c ∈ omap finished_of (workers s)) by (fold (finished (workers s)); rewrite E; left).
      apply list_elem_of_omap in Hc as (w & Hw & Hc). apply list_elem_of_lookup_1 in Hw as (i & Hi).
      destruct w; try done. eauto 10. }
  destruct Hex as (i & w & Hi & c & Hw).
  pose proof (fun c => inv_closable s rest ran todo written clw i c Hinv) as Hclose.
  destruct s as [cl tq wq n ws wr fd m]. cbn [workers clusters] in *.
  destruct Hw as [-> | ->].
  - destruct (Hclose c Hi) as (? & ? & ? & ?). eexists. by eapply worker_run.
  - eexists. by eapply worker_delete.
Qed.

Lemma alive_some s rest ran todo written clw m :
  threads_inv s rest ran todo written clw -> Tpush (program s) = m -> None ∈ m -> alive (workers s) <> [].
Proof.
  intros Hinv <- Hn Hal. pose proof (i_tasks _ _ _ _ _ _ Hinv) as Ht. rewrite Hal in Ht.
  cbn [length repeat] in Ht. rewrite app_nil_r in Ht.
  assert (Hin : None ∈ map Some rest) by (rewrite <- Ht; apply elem_of_app; by right).
  apply list_elem_of_fmap in Hin as (? & ? & _). done.
Qed.

(** The writer has something to do when it is not waiting for a worker. *)
Lemma writer_can_step s rest ran todo written clw :
  threads_inv s rest ran todo written clw -> writer s <> WriterReturned -> clusterToWrite s <> [] ->
  (forall c, head (clusterToWrite s) = Some (Some c) -> c ∈ ran) ->
  exists s', thread_step fuel s s'.
Proof.
  intros Hinv Hret Hq Hran. destruct s as [cl tq wq n ws wr fd m]. cbn [writer clusterToWrite] in *.
  destruct wr as [|c|]; [| |done].
  - destruct wq as [|[c|] wq]; [done| |eexists; by eapply writer_return].
    specialize (Hran c eq_refl). pose proof (inv_disjoint _ _ _ _ _ _ Hinv) as (_ & _ & Hd & _).
    destruct Hinv as [Hp Ht Hperm Hc Ha Hw Ho Hs Hcl Hr Hret' Hj He].
    cbn [taskList clusterToWrite waiting_task workers writer out_fd program clusters holding] in *.
    destruct todo as [|c' todo]; [done|]. cbn [map app] in Hw. injection Hw as <- Hw.
    assert (Hnw : c ∉ written) by (intros Hin; destruct (Hd c Hin) as [_ Hn]; apply Hn; left).
    cbn [app] in Ho. pose proof Hseq as Hseq'. rewrite Ho in Hseq'.
    destruct (finish_clusters_at fuel _ _ _ _ _ _ Hseq') as (cla & fda & c0 & c1 & data & Ea & E0 & E1 & _).
    rewrite Hs in Ea. injection Ea as <- <-.
    assert (Hcc : cl !! c = Some c1) by (rewrite Hcl, decide_True, E0 by done; unfold closed_form; by rewrite E1).
    eexists. eapply writer_pop; [done|exact Hcc|by eapply close_closed|done].
  - destruct (inv_held _ _ _ _ _ _ _ _ _ _ _ _ _ Hinv) as (c1 & data & E1 & Ed & _).
    eexists. by eapply writer_write.
Qed.

(** The main thread waits for room in the queue of clusters to write. *)
Lemma write_room_can_step s rest ran todo written clw m :
  threads_inv s rest ran todo written clw -> program s = WriteRoom :: m -> (1 < length (clusterToWrite s))%nat ->
  exists s', thread_step fuel s s'.
Proof.
  intros Hinv Hm Hlen. pose proof (i_program _ _ _ _ _ _ Hinv) as Hp. rewrite Hm in Hp. destruct Hp as [Hp _].
  destruct Hp as (Hnull & Hord & _).
  assert (Hne : clusterToWrite s <> []) by (intros E; rewrite E in Hlen; simpl in Hlen; lia).
  pose proof (i_writes _ _ _ _ _ _ Hinv) as Hw. rewrite Hm in Hw. change (Wpush (WriteRoom :: m)) with (Wpush m) in *.
  change (Tpush (WriteRoom :: m)) with (Tpush m) in *.
  assert (Hwr : writer s <> WriterReturned).
  { intros Hret. rewrite (i_returned _ _ _ _ _ _ Hinv Hret) in Hw. apply (f_equal length) in Hw.
    rewrite length_app in Hw. simpl in Hw. lia. }
  destruct (clusterToWrite s) as [|[c|] wq] eqn:Ewq; [done| |].
  2:{ eapply writer_can_step; [exact Hinv|done|by rewrite Ewq|]. intros c Hc. by rewrite Ewq in Hc. }
  destruct (decide (c ∈ ran)) as [Hran|Hran].
  { eapply writer_can_step; [exact Hinv|done|by rewrite Ewq|]. intros c' Hc. rewrite Ewq in Hc. by injection Hc as <-. }
  destruct todo as [|c' todo]; [done|]. cbn [map app] in Hw. injection Hw as <- Hw.
  assert (Hin : c ∈ ids) by (rewrite (i_order _ _ _ _ _ _ Hinv), !elem_of_app; right; right; left).
  rewrite (i_perm _ _ _ _ _ _ Hinv), !elem_of_app in Hin. destruct Hin as [?|[Hrun|Hrest]]; [done| |].
  { eapply busy_can_step; [exact Hinv|left]. intros E. rewrite E in Hrun. by inversion Hrun. }
  destruct (decide (AwaitTasks ∈ program s)) as [Haw|Haw].
  2:{ destruct (i_await _ _ _ _ _ _ Hinv Haw) as (_ & _ & E). rewrite E in Hrest. by inversion Hrest. }
  assert (Hnone : None ∈ Tpush m).
  { destruct Hnull as [Hn|Hn]; [done|]. exfalso. apply Hn. rewrite Hm in Haw. by apply elem_of_cons in Haw as [Haw|Haw]. }
  assert (Hal : alive (workers s) <> []) by (eapply alive_some; [exact Hinv|by rewrite Hm|exact Hnone]).
  apply (worker_can_step _ _ _ _ _ _ Hinv Hal). intros Htq. pose proof (i_tasks _ _ _ _ _ _ Hinv) as Ht.
  rewrite Htq, Hm in Ht. change (Tpush (WriteRoom :: m)) with (Tpush m) in Ht. cbn [app] in Ht.
  assert (Hc : Some c ∈ Tpush m) by (rewrite Ht; apply elem_of_app; left; by apply list_elem_of_fmap_2).
  apply Hord in Hc. rewrite Hm in *.
  assert (Hc' : Some c ∈ map Some todo ++ [None]) by (rewrite <- Hw; apply elem_of_app; by right).
  apply elem_of_app in Hc' as [Hc'|Hc']; [|by apply list_elem_of_singleton in Hc'].
  apply list_elem_of_fmap in Hc' as (c' & E & Hc'). injection E as <-.
  pose proof (inv_disjoint _ _ _ _ _ _ Hinv) as (_ & _ & _ & _ & Hndt). apply NoDup_cons in Hndt as [Hndt _]. done.
Qed.

Lemma alive_nil_returned ws : alive ws = [] -> Forall (eq Returned) ws.
Proof. induction ws as [|w ws IH]; intros E; constructor; destruct w; try done; by apply IH. Qed.

Lemma progress_joins s rest ran todo written clw a m :
  threads_inv s rest ran todo written clw -> program s = a :: m -> a = JoinWorkers \/ a = JoinWriter ->
  exists s', thread_step fuel s s'.
Proof.
  intros Hinv Hm Ha. pose proof (i_program _ _ _ _ _ _ Hinv) as Hp. rewrite Hm in Hp. destruct Hp as [Hp _].
  assert (Haw : AwaitTasks ∉ program s).
  { rewrite Hm, not_elem_of_cons. destruct Ha as [-> | ->]; (split; [done|]).
    - by destruct Hp as [[_ Hp] _].
    - destruct Hp as [-> _]. intros Hin. inversion Hin. }
  destruct (i_await _ _ _ _ _ _ Hinv Haw) as (Hrun & Hfin & ->).
  destruct Ha as [-> | ->].
  - destruct (decide (alive (workers s) = [])) as [Hal|Hal].
    { destruct s as [cl tq wq n ws wr fd m']. cbn [program workers] in *. subst m'.
      eexists. apply main_join_workers. by apply alive_nil_returned. }
    apply (worker_can_step _ _ _ _ _ _ Hinv Hal). intros Htq. pose proof (i_tasks _ _ _ _ _ _ Hinv) as Ht.
    rewrite Htq, Hm in Ht. destruct Hp as [[Hp _] _]. change (Tpush (JoinWorkers :: m)) with (Tpush m) in Ht.
    rewrite Hp in Ht. destruct (alive (workers s)); done.
  - destruct (decide (writer s = WriterReturned)) as [Hr|Hr].
    { destruct s as [cl tq wq n ws wr fd m']. cbn [program writer] in *. subst m' wr.
      eexists. apply main_join_writer. }
    pose proof (i_writes _ _ _ _ _ _ Hinv) as Hw. destruct Hp as [-> _]. rewrite Hm in Hw.
    change (Wpush [JoinWriter]) with (@nil (option nat)) in Hw. rewrite app_nil_r in Hw.
    eapply writer_can_step; [exact Hinv|done|rewrite Hw; by destruct todo|].
    intros c Hc. rewrite Hw in Hc. destruct todo as [|c' todo]; [done|]. injection Hc as ->.
    assert (Hin : c ∈ ids) by (rewrite (i_order _ _ _ _ _ _ Hinv), !elem_of_app; right; right; left).
    rewrite (i_perm _ _ _ _ _ _ Hinv), Hrun in Hin. cbn [app] in Hin. by rewrite app_nil_r in Hin.
Qed.

Lemma progress s : threads_ok s -> program s <> [] -> exists s', thread_step fuel s s'.
Proof.
  intros (rest & ran & todo & written & clw & Hinv) Hne. pose proof (i_program _ _ _ _ _ _ Hinv) as Hp.
  destruct (program s) as [|a m] eqn:Hm; [done|]. destruct Hp as [Hp _].
  destruct s as [cl tq wq n ws wr fd m'] eqn:Es. cbn [program] in Hm. subst m'. rewrite <- Es in *.
  assert (Hm : program s = a :: m) by (by rewrite Es).
  destruct a as [c| |t| |c| | |]; try (eapply progress_joins; [exact Hinv|exact Hm|auto]; fail);
    try (rewrite Es; eexists; constructor; fail).
  - destruct (decide (length tq <= MAX_QUEUE_SIZE)%nat) as [Hroom|Hroom];
      [rewrite Es; eexists; by constructor|]. destruct Hp as [Hp _].
    apply (worker_can_step _ _ _ _ _ _ Hinv); [eapply alive_some; [exact Hinv|by rewrite Hm|exact Hp]|].
    rewrite Es. cbn [taskList]. intros ->. simpl in Hroom. lia.
  - destruct (decide (length wq <= MAX_QUEUE_SIZE)%nat) as [Hroom|Hroom];
      [rewrite Es; eexists; by constructor|].
    eapply write_room_can_step; [exact Hinv|exact Hm|]. rewrite Es. cbn [clusterToWrite].
    unfold MAX_QUEUE_SIZE in Hroom. lia.
  - destruct n as [|n]; [rewrite Es; eexists; constructor|].
    destruct Hp as [(Hn & Hs & Hnone) _]. pose proof (i_count _ _ _ _ _ _ Hinv) as Hc.
    destruct (decide (running (workers s) <> [] \/ finished (workers s) <> [])) as [Hb|Hb];
      [by eapply busy_can_step|].
    assert (Hr0 : running (workers s) = []) by (destruct (running (workers s)); [done|exfalso; apply Hb; by left]).
    assert (Hf0 : finished (workers s) = []) by (destruct (finished (workers s)); [done|exfalso; apply Hb; by right]).
    apply (worker_can_step _ _ _ _ _ _ Hinv); [eapply alive_some; [exact Hinv|by rewrite Hm|exact Hnone]|].
    intros Htq. pose proof (i_tasks _ _ _ _ _ _ Hinv) as Ht. rewrite Htq, Hm in Ht.
    change (Tpush (AwaitTasks :: m)) with (Tpush m) in Ht. cbn [app] in Ht.
    rewrite Hr0, Hf0 in Hc. destruct rest as [|c rest].
    { rewrite Es in Hc. cbn [waiting_task] in Hc. simpl in Hc. lia. }
    apply (Hs c). rewrite Ht. left.
Qed.

Lemma final_result s : threads_ok s -> program s = [] -> (clusters s, out_fd s) = result.
Proof.
  intros (rest & ran & todo & written & clw & Hinv) Hm.
  assert (Hno : forall a, a ∉ program s) by (intros a; rewrite Hm; apply not_elem_of_nil).
  pose proof (i_end _ _ _ _ _ _ Hinv (Hno _)) as Hwr.
  destruct (i_await _ _ _ _ _ _ Hinv (Hno _)) as (Hrun & _ & ->).
  pose proof (i_returned _ _ _ _ _ _ Hinv Hwr) as ->. pose proof (i_order _ _ _ _ _ _ Hinv) as Ho.
  rewrite Hwr in Ho. cbn [holding app] in Ho. rewrite app_nil_r in Ho.
  pose proof (i_spec _ _ _ _ _ _ Hinv) as Hs. rewrite <- Ho, Hseq in Hs. injection Hs as ->. f_equal.
  apply list_eq. intros i. rewrite (i_clusters _ _ _ _ _ _ Hinv), decide_False; [done|].
  intros [Hin Hn]. apply Hn. rewrite <- Ho, (i_perm _ _ _ _ _ _ Hinv). apply elem_of_app. by left.
Qed.

Lemma no_crash s : threads_ok s -> ~ thread_crash fuel s.
Proof.
  intros (rest & ran & todo & written & clw & Hinv) Hcr. destruct Hcr as [s i c cluster e Hi Hc He|s c cluster e Hw Hc He].
  - destruct (inv_closable _ _ _ _ _ _ _ _ Hinv Hi) as (c0 & c1 & E0 & E1). congruence.
  - destruct s as [cl tq wq n ws wr fd m]. cbn [writer clusters out_fd] in *. subst wr.
    destruct (inv_held _ _ _ _ _ _ _ _ _ _ _ _ _ Hinv) as (c1 & data & E1 & Ed & _). congruence.
Qed.

End invariant.

(** * A measure *)

Definition worker_weight (w : worker) : nat :=
  match w with Waiting => 1 | RunningTask _ => 3 | TaskDone _ => 2 | Returned => 0 end.
Definition writer_weight (w : writer_state) : nat :=
  match w with WriterWaiting => 1 | Writing _ => 2 | WriterReturned => 0 end.

Lemma weight_insert ws i w w' :
  ws !! i = Some w ->
  (sum_list_with worker_weight (<[i := w']> ws) + worker_weight w =
   sum_list_with worker_weight ws + worker_weight w')%nat.
Proof.
  revert i. induction ws as [|x ws IH]; intros [|i] Hi; try done.
  - injection Hi as ->. simpl. lia.
  - specialize (IH i Hi). change (<[S i := w']> (x :: ws)) with (x :: <[i := w']> ws). simpl in *. lia.
Qed.

Section measure.
Context `{OS} `{LzmaLib} `{ZstdLib} (fuel : nat).

Definition threads_weight (s : threads) : nat :=
  10 * length (program s) + 4 * length (taskList s) + 4 * length (clusterToWrite s) +
  sum_list_with worker_weight (workers s) + writer_weight (writer s).

Lemma step_weight s s' : thread_step fuel s s' -> (threads_weight s' < threads_weight s)%nat.
Proof.
  unfold threads_weight. destruct 1; cbn [program taskList clusterToWrite workers writer];
    unfold queue_push; rewrite ?length_app; cbn [length writer_weight]; try lia.
  all: repeat match goal with
    | Hq : popFromQueue ?q = Some _ |- _ => destruct q; [discriminate Hq|injection Hq as -> ->]
    | Hi : ?ws !! ?i = Some ?w |- context [<[?i := ?w']> ?ws] =>
        pose proof (weight_insert ws i w w' Hi); clear Hi
    end; cbn [length worker_weight] in *; lia.
Qed.

Lemma nsteps_weight k s s' :
  nsteps (thread_step fuel) k s s' -> (k + threads_weight s' <= threads_weight s)%nat.
Proof. induction 1 as [|k x y z Hxy _ IH]; [simpl; lia|]. apply step_weight in Hxy. lia. Qed.

End measure.

(** * Properties *)

Section properties.
Context `{OS} `{LzmaLib} `{ZstdLib} (fuel : nat).

(** C10. The threads write what one thread would: with at least one worker, and
    clusters on which closing and writing one after the other succeeds, no
    thread ends with an exception, the threads never block each other before
    the main thread has finished, and when it has, the clusters and the file
    (so the offset of every cluster) are those of the sequential run, in
    whatever order the threads took their steps. *)
Theorem threads_deterministic (nbWorkers : nat) (ids : list nat) cl0 fd0 result s :
  (0 < nbWorkers)%nat -> NoDup ids ->
  (forall c0 i, i ∈ ids -> cl0 !! i = Some c0 -> WCluster.closed c0 = false) ->
  finish_clusters fuel ids cl0 fd0 = Ok result ->
  rtc (thread_step fuel) (threads_init nbWorkers cl0 fd0 ids) s ->
  ~ thread_crash fuel s /\
  (program s <> [] -> exists s', thread_step fuel s s') /\
  (program s = [] -> (clusters s, out_fd s) = result).
Proof.
  intros Hnw Hnd Hopen Hseq Hr. destruct nbWorkers as [|nw]; [lia|].
  pose proof (inv_reachable fuel ids cl0 fd0 Hnd result Hopen Hseq nw s Hr) as Hok. split_and!.
  - by eapply no_crash.
  - by eapply progress.
  - by eapply final_result.
Qed.


(** Without a worker the main thread waits for ever. *)
Definition stalled (ids : list nat) (s : threads) : Prop :=
  workers s = [] /\ (waiting_task s + length (news (program s)) = length ids)%nat /\
  exists m, program s = m ++ AwaitTasks :: quit_actions 0 /\ Forall (fun a => a <> AwaitTasks) m.

Lemma stalled_step ids s s' : ids <> [] -> stalled ids s -> thread_step fuel s s' -> stalled ids s'.
Proof.
  intros Hids (Hws & Hn & m0 & Hm & Hall) Hxy. unfold stalled.
  destruct Hxy; cbn [workers waiting_task program] in *;
    try (by subst; rewrite lookup_nil in *); try (split_and!; [done|done|by exists m0]).
  all: destruct m0 as [|a m0]; [try discriminate Hm|injection Hm as <- Hm; inversion Hall; subst;
    split_and!; [done|unfold news in *; cbn [omap list_omap length app] in *; lia|by exists m0]].
  injection Hm as ->. change (news (AwaitTasks :: quit_actions 0)) with (@nil nat) in Hn.
  destruct ids; [done|]. simpl in Hn. lia.
Qed.

(** [configNbWorkers(0)] never ends: with no worker and a cluster to close, the
    main thread waits for ever in [finishZimCreation] for tasks nobody takes. *)
Theorem no_worker_never_ends (ids : list nat) cl0 fd0 s :
  ids <> [] -> rtc (thread_step fuel) (threads_init 0 cl0 fd0 ids) s -> program s <> [].
Proof.
  intros Hids Hr. assert (Hgen : forall s0, stalled ids s0 -> rtc (thread_step fuel) s0 s -> stalled ids s).
  { clear Hr. intros s0 Hs0 Hr. induction Hr as [|x y z Hxy _ IH]; [done|]. apply IH. by eapply stalled_step. }
  assert (Hinit : stalled ids (threads_init 0 cl0 fd0 ids)).
  { unfold stalled, threads_init. cbn [workers waiting_task program].
    destruct (main_pushes 0 ids) as (_ & _ & ->). split_and!; [done|done|].
    exists (concat (map closeCluster_actions ids)). split; [done|].
    apply Forall_concat, Forall_fmap, Forall_true. intros i. by repeat constructor. }
  destruct (Hgen _ Hinit Hr) as (_ & _ & m & -> & _). by destruct m.
Qed.

End properties.

(** * Witnesses *)

#[local] Existing Instance copy_lzma.
#[local] Existing Instance copy_zstd.
#[local] Existing Instance two_parts.

Definition two_clusters : list WCluster.t :=
  [cluster_of zimcompNone [StringProvider_new (lit "hello")]; cluster_of zimcompNone [StringProvider_new (lit "bye")]].

Definition fd_start : out_file := mkOut [] 4.

Definition two_finished : list WCluster.t * out_file := Eval vm_compute in
  match finish_clusters 10 [0; 1]%nat two_clusters fd_start with Ok r => r | _ => ([], fd_start) end.

Lemma threads_deterministic_witness :
  ~ thread_crash 10 (threads_init 2 two_clusters fd_start [0; 1]%nat) /\
  (exists s, thread_step 10 (threads_init 2 two_clusters fd_start [0; 1]%nat) s).
Proof.
  destruct (threads_deterministic 10 2 [0; 1]%nat two_clusters fd_start two_finished
    (threads_init 2 two_clusters fd_start [0; 1]%nat)) as (Hc & Hp & _).
  - lia.
  - apply NoDup_cons. split; [by rewrite list_elem_of_singleton|apply NoDup_singleton].
  - intros c0 i Hi E. destruct i as [|[|i]]; [by injection E as <-|by injection E as <-|done].
  - by vm_compute.
  - apply rtc_refl.
  - split; [exact Hc|by apply Hp].
Defined.


Lemma no_worker_never_ends_witness : program (threads_init 0 two_clusters fd_start [0; 1]%nat) <> [].
Proof.
  apply (no_worker_never_ends 10 [0; 1]%nat two_clusters fd_start); [done|apply rtc_refl].
Defined.
