(* ===== verification/Creator.v ===== *)
(** The creator of archives ([zim/writer/creator.h], [writer/creator.cpp],
    [writer/creatordata.h], [writer/direntPool.h], [writer/handler.h],
    [writer/titleListingHandler.cpp], [zim/writer/item.h], [writer/item.cpp]). The
    handlers of a build with Xapian show as the entries and the contents of their
    indexes ([IndexHandler]); what they do with the items is in [Indexing].

    [CreatorData] is the state of the C++ object. A [Dirent*] is a position in
    [pool], a [Cluster*] a position in [heap]; both only grow. The operations
    run in [CM], which keeps the state an exception leaves. The clusters that
    [closeCluster] hands over to the threads are closed and written by
    [finish_clusters], which is what the threads do in whatever order they run
    ([Workers.threads_deterministic]). *)

From Stdlib Require Import Ascii.
From stdpp Require Import gmap sorting strings.
From S2P Require Import Prelude.
From S2P Require Import Types.
From S2P Require Import Readers.
From S2P Require Import Files.
From S2P Require Import Compression.
From S2P Require Import Streams.
From S2P Require Import Header.
From S2P Require Import Md5.
From S2P Require Import Dirent.
From S2P Require Import WDirent.
From S2P Require Import Cluster.
From S2P Require Import WCluster.
From S2P Require Import Tools.
From S2P Require Import Workers.

(** * [std::set] with a comparison *)

Section ordered_set.
Context {A : Type} (less : A -> A -> bool).

(** [insert]: the set, and the equivalent element that was there, if any. *)
Fixpoint set_insert (x : A) (l : list A) : list A * option A :=
  match l with
  | [] => ([x], None)
  | y :: l =>
      if less y x then let '(l, r) := set_insert x l in (y :: l, r)
      else if less x y then (x :: y :: l, None)
      else (y :: l, Some y)
  end.

Fixpoint set_find (x : A) (l : list A) : option A :=
  match l with
  | [] => None
  | y :: l => if less y x then set_find x l else if less x y then None else Some y
  end.

(** [erase(key)]. *)
Fixpoint set_erase (x : A) (l : list A) : list A :=
  match l with
  | [] => []
  | y :: l => if less y x then y :: set_erase x l else if less x y then y :: l else l
  end.

End ordered_set.

(** * Items *)

Inductive HintKeys : Type := COMPRESS | FRONT_ARTICLE.

#[export] Instance HintKeys_eq_dec : EqDecision HintKeys.
Proof. solve_decision. Defined.

(** [std::map<HintKeys, uint64_t>]. *)
Abbreviation Hints := (list (HintKeys * Z)).

(** [hints.at(key)], [None] for the exception. *)
Fixpoint hint_at (key : HintKeys) (hints : Hints) : option Z :=
  match hints with
  | [] => None
  | (k, v) :: hints => if bool_decide (k = key) then Some v else hint_at key hints
  end.

Section creator.
Context `{OS} `{LzmaLib} `{ZstdLib}.

(** The virtual functions of an [Item] the creator calls. *)
Record WItem : Type := mkWItem {
  getPath : bytes;
  getTitle : bytes;
  getMimeType : bytes;
  getContentProvider : outcome ContentProvider;
  getHints : Hints;
}.

Definition StringItem_create (path mimetype title content : bytes) : WItem :=
  mkWItem path title mimetype (mret (SharedStringProvider_new content)) [].
Definition FileItem_new (path mimetype title filepath : bytes) : WItem :=
  mkWItem path title mimetype (FileProvider_new filepath) [].

(** * The state *)

(** [TitleListingHandler], and [TitleListingHandlerV1] when [h_v1]. *)
Record Handler : Type := mkHandler {
  h_v1 : bool;
  m_dirents : list nat;
  mp_dirent : option nat;
}.

Record CreatorData : Type := mkData {
  minChunkSize : Z;
  compression : CompressionType;
  pool : list WDirent.t;
  dirents : list nat;
  unresolvedRedirectDirents : list nat;
  mainPageDirent : option nat;
  mimeTypesMap : gmap bytes Z;
  rmimeTypesMap : gmap Z bytes;
  mimeTypesList : list bytes;
  nextMimeIdx : Z;
  heap : list WCluster.t;
  clustersList : list nat;
  compCluster : nat;
  uncompCluster : nat;
  isEmpty : bool;
  isExtended : bool;
  m_direntHandlers : list Handler;
  m_titleListBlobOffset : Z;
  nbRedirectItems : Z;
  nbCompItems : Z;
  nbUnCompItems : Z;
  nbClusters : Z;
  nbCompClusters : Z;
  nbUnCompClusters : Z;
}.

Abbreviation CM := (stm CreatorData).

(** Assignments to the fields. *)
Definition with_entries (p : list WDirent.t) (ds us : list nat) (mp : option nat) (s : CreatorData) : CreatorData :=
  mkData (minChunkSize s) (compression s) p ds us mp (mimeTypesMap s) (rmimeTypesMap s) (mimeTypesList s)
    (nextMimeIdx s) (heap s) (clustersList s) (compCluster s) (uncompCluster s) (isEmpty s) (isExtended s)
    (m_direntHandlers s) (m_titleListBlobOffset s) (nbRedirectItems s) (nbCompItems s) (nbUnCompItems s)
    (nbClusters s) (nbCompClusters s) (nbUnCompClusters s).
Definition with_mimes (m : gmap bytes Z) (r : gmap Z bytes) (l : list bytes) (n : Z) (s : CreatorData) : CreatorData :=
  mkData (minChunkSize s) (compression s) (pool s) (dirents s) (unresolvedRedirectDirents s) (mainPageDirent s) m r l
    n (heap s) (clustersList s) (compCluster s) (uncompCluster s) (isEmpty s) (isExtended s)
    (m_direntHandlers s) (m_titleListBlobOffset s) (nbRedirectItems s) (nbCompItems s) (nbUnCompItems s)
    (nbClusters s) (nbCompClusters s) (nbUnCompClusters s).
Definition with_heap (h : list WCluster.t) (l : list nat) (c u : nat) (empty ext : bool) (s : CreatorData) : CreatorData :=
  mkData (minChunkSize s) (compression s) (pool s) (dirents s) (unresolvedRedirectDirents s) (mainPageDirent s)
    (mimeTypesMap s) (rmimeTypesMap s) (mimeTypesList s) (nextMimeIdx s) h l c u empty ext
    (m_direntHandlers s) (m_titleListBlobOffset s) (nbRedirectItems s) (nbCompItems s) (nbUnCompItems s)
    (nbClusters s) (nbCompClusters s) (nbUnCompClusters s).
Definition with_handlers (hs : list Handler) (o : Z) (s : CreatorData) : CreatorData :=
  mkData (minChunkSize s) (compression s) (pool s) (dirents s) (unresolvedRedirectDirents s) (mainPageDirent s)
    (mimeTypesMap s) (rmimeTypesMap s) (mimeTypesList s) (nextMimeIdx s) (heap s) (clustersList s) (compCluster s)
    (uncompCluster s) (isEmpty s) (isExtended s) hs o (nbRedirectItems s) (nbCompItems s) (nbUnCompItems s)
    (nbClusters s) (nbCompClusters s) (nbUnCompClusters s).
Definition with_stats (r ci ui c cc uc : Z) (s : CreatorData) : CreatorData :=
  mkData (minChunkSize s) (compression s) (pool s) (dirents s) (unresolvedRedirectDirents s) (mainPageDirent s)
    (mimeTypesMap s) (rmimeTypesMap s) (mimeTypesList s) (nextMimeIdx s) (heap s) (clustersList s) (compCluster s)
    (uncompCluster s) (isEmpty s) (isExtended s) (m_direntHandlers s) (m_titleListBlobOffset s) r ci ui c cc uc.

(** The constructor: two clusters, two handlers; [minClusterSize] is set just after. *)
Definition CreatorData_new (c : CompressionType) (minClusterSize : Z) : CreatorData :=
  mkData minClusterSize c [] [] [] None ∅ ∅ [] 0 [WCluster.new c; WCluster.new zimcompNone] [] 0 1 true false
    [mkHandler false [] None; mkHandler true [] None] 0 0 0 0 0 0 0.

(** * Entries *)

Definition deref (p : list WDirent.t) (d : nat) : WDirent.t := default (WDirent.new 0 []) (p !! d).

Definition UrlCompare (p : list WDirent.t) (d1 d2 : nat) : bool := WDirent.compareUrl (deref p d1) (deref p d2).
Definition TitleCompare (p : list WDirent.t) (d1 d2 : nat) : bool := WDirent.compareTitle (deref p d1) (deref p d2).

Definition with_pool (p : list WDirent.t) (s : CreatorData) : CreatorData :=
  with_entries p (dirents s) (unresolvedRedirectDirents s) (mainPageDirent s) s.
Definition with_dirents (ds us : list nat) (s : CreatorData) : CreatorData :=
  with_entries (pool s) ds us (mainPageDirent s) s.
Definition with_mainPage (mp : option nat) (s : CreatorData) : CreatorData :=
  with_entries (pool s) (dirents s) (unresolvedRedirectDirents s) mp s.

(** [pool.getDirent()]: the arrays of the pool never move. *)
Definition pool_getDirent : CM nat :=
  s ← gets id;
  modify (with_pool (pool s ++ [WDirent.new 0 []])) ;;
  mret (length (pool s)).

Definition on_dirent (d : nat) (f : WDirent.t -> WDirent.t) : CM unit :=
  modify (fun s => with_pool (<[d := f (deref (pool s) d)]> (pool s)) s).

Definition addDirent (dirent : nat) : CM unit :=
  s ← gets id;
  let less := UrlCompare (pool s) in
  let isRedirect d := WDirent.isRedirect (deref (pool s) d) in
  let '(inserted, ret) := set_insert less dirent (dirents s) in
  added ← (match ret with
    | None => modify (with_dirents inserted (unresolvedRedirectDirents s)) ;; mret true
    | Some existing =>
        if isRedirect existing && negb (isRedirect dirent) then
          let us := set_erase less existing (unresolvedRedirectDirents s) in
          let ds := set_erase less existing (dirents s) in
          modify (with_dirents (set_insert less dirent ds).1 us) ;; mret true
        else mret false
    end);
  if (added : bool) && isRedirect dirent then
    modify (fun s => with_dirents (dirents s) (set_insert less dirent (unresolvedRedirectDirents s)).1 s) ;;
    modify (fun s => with_stats (u32 (nbRedirectItems s + 1)) (nbCompItems s) (nbUnCompItems s) (nbClusters s)
                       (nbCompClusters s) (nbUnCompClusters s) s)
  else mret tt.

Definition getMimeTypeIdx (mimeType : bytes) : CM Z :=
  s ← gets id;
  match mimeTypesMap s !! mimeType with
  | Some i => mret i
  | None =>
      let n := nextMimeIdx s in
      lift (throw_when (65535 <=? n) (runtime_error "too many distinct mime types")) ;;
      modify (with_mimes (<[mimeType := n]> (mimeTypesMap s)) (<[n := mimeType]> (rmimeTypesMap s))
        (mimeTypesList s) (u16 (n + 1))) ;;
      mret n
  end.

Definition getMimeType_idx (s : CreatorData) (mimeTypeIdx : Z) : outcome bytes :=
  match rmimeTypesMap s !! mimeTypeIdx with
  | Some m => mret m
  | None => Throw (runtime_error "mime type index not found")
  end.

Definition createDirent (ns : Z) (path mimetype title : bytes) : CM nat :=
  dirent ← pool_getDirent;
  on_dirent dirent (fun d => WDirent.setNamespace d ns) ;;
  on_dirent dirent (fun d => WDirent.setPath d path) ;;
  m ← getMimeTypeIdx mimetype;
  on_dirent dirent (fun d => WDirent.setMimeType d m) ;;
  on_dirent dirent (fun d => WDirent.setTitle d title) ;;
  addDirent dirent ;;
  mret dirent.

Definition createItemDirent (item : WItem) : CM nat :=
  let mimetype := if bool_decide (getMimeType item = []) then lit "application/octet-stream"
                  else getMimeType item in
  createDirent (chr "C") (getPath item) mimetype (getTitle item).

(** [setRedirect(nullptr)]: the union holds no entry to follow. *)
Definition setRedirect_null (d : WDirent.t) : WDirent.t :=
  WDirent.mk WDirent.redirectMimeType (WDirent.DirectInfo 0 0) (WDirent.ns d) (WDirent.path d)
    (WDirent.title d) (WDirent.cluster d) (WDirent.redirectNs d) (WDirent.redirectPath d) (WDirent.idx d)
    (WDirent.offset d) (WDirent.removed d).

Definition createRedirectDirent (ns : Z) (path title : bytes) (targetNs : Z) (targetPath : bytes) : CM nat :=
  dirent ← pool_getDirent;
  on_dirent dirent (fun d => WDirent.setNamespace d ns) ;;
  on_dirent dirent (fun d => WDirent.setPath d path) ;;
  on_dirent dirent (fun d => WDirent.setTitle d title) ;;
  on_dirent dirent (fun d => WDirent.setRedirectNs d targetNs) ;;
  on_dirent dirent (fun d => WDirent.setRedirectPath d targetPath) ;;
  on_dirent dirent setRedirect_null ;;
  addDirent dirent ;;
  mret dirent.

(** * Clusters *)

Definition cluster_at (s : CreatorData) (c : nat) : WCluster.t := default (WCluster.new zimcompNone) (heap s !! c).

(** [closeCluster]: the clusters pushed to the queues are those of [clustersList], in this order. *)
Definition closeCluster (compressed : bool) : CM nat :=
  s ← gets id;
  let cluster := if compressed then compCluster s else uncompCluster s in
  modify (with_stats (nbRedirectItems s) (nbCompItems s) (nbUnCompItems s) (u32 (nbClusters s + 1))
    (if compressed then u32 (nbCompClusters s + 1) else nbCompClusters s)
    (if compressed then nbUnCompClusters s else u32 (nbUnCompClusters s + 1))) ;;
  let c := WCluster.setClusterIndex (cluster_at s cluster) (u32 (Zlen (clustersList s))) in
  let fresh := length (heap s) in
  modify (fun s => with_heap (<[cluster := c]> (heap s) ++ [WCluster.new (if compressed then compression s else zimcompNone)])
    (clustersList s ++ [cluster]) (if compressed then fresh else compCluster s)
    (if compressed then uncompCluster s else fresh) (isEmpty s) (isExtended s || WCluster.isExtended c) s) ;;
  mret fresh.

Definition addItemData (dirent : nat) (provider : ContentProvider) (compressContent : bool) : CM unit :=
  let itemSize := WCluster.getSize provider in
  modify (fun s => with_heap (heap s) (clustersList s) (compCluster s) (uncompCluster s)
    (isEmpty s && negb (0 <? itemSize)) (isExtended s) s) ;;
  s ← gets id;
  let cluster := if compressContent then compCluster s else uncompCluster s in
  let c := cluster_at s cluster in
  cluster ← (if negb (WCluster.count c =? 0) then
      size ← lift (WCluster.size c);
      if u64 (minChunkSize s * 1024) <=? u64 (size + itemSize) then closeCluster compressContent else mret cluster
    else mret cluster);
  s ← gets id;
  d ← lift (WDirent.setCluster (deref (pool s) dirent) cluster (WCluster.count (cluster_at s cluster)));
  modify (fun s => with_pool (<[dirent := d]> (pool s)) s) ;;
  modify (fun s => with_heap (<[cluster := WCluster.addContent (cluster_at s cluster) provider]> (heap s))
    (clustersList s) (compCluster s) (uncompCluster s) (isEmpty s) (isExtended s) s) ;;
  modify (fun s => with_stats (nbRedirectItems s) (if compressContent then u32 (nbCompItems s + 1) else nbCompItems s)
    (if compressContent then nbUnCompItems s else u32 (nbUnCompItems s + 1)) (nbClusters s) (nbCompClusters s)
    (nbUnCompClusters s) s).

(** * Handlers *)

(** [handle(dirent, hints)] of one handler. *)
Definition handler_handle (dirent : nat) (hints : Hints) (h : Handler) : Handler :=
  let isFront := match hint_at FRONT_ARTICLE hints with Some v => negb (v =? 0) | None => false end in
  if negb (h_v1 h) || isFront then mkHandler (h_v1 h) (m_dirents h ++ [dirent]) (mp_dirent h) else h.

(** [data->handle(dirent, hints)]; [data->handle(dirent, item)] passes the item's hints. *)
Definition handle (dirent : nat) (hints : Hints) : CM unit :=
  modify (fun s => with_handlers (map (handler_handle dirent hints) (m_direntHandlers s)) (m_titleListBlobOffset s) s).

Definition no_handler : Handler := mkHandler false [] None.
Definition handler_at (s : CreatorData) (k : nat) : Handler := default no_handler (m_direntHandlers s !! k).
Definition set_handler (k : nat) (h : Handler) : CM unit :=
  modify (fun s => with_handlers (<[k := h]> (m_direntHandlers s)) (m_titleListBlobOffset s) s).

Definition createDirent_of (h : Handler) : CM nat :=
  createDirent (chr "X") (if h_v1 h then lit "listing/titleOrdered/v1" else lit "listing/titleOrdered/v0")
    (lit "application/octet-stream+zimlisting") [].

(** [getDirent()]: the entry of handler [k], created at the first call. *)
Definition handler_getDirent (k : nat) : CM nat :=
  s ← gets id;
  match mp_dirent (handler_at s k) with
  | Some d => mret d
  | None =>
      d ← createDirent_of (handler_at s k);
      s ← gets id;
      let h := handler_at s k in
      set_handler k (mkHandler (h_v1 h) (m_dirents h) (Some d)) ;;
      mret d
  end.

(** The order [stop] sorts by: [std::sort] leaves the order of equivalent entries open, a stable
    order is taken. *)
Definition title_le (p : list WDirent.t) (d1 d2 : nat) : Prop := TitleCompare p d2 d1 = false.

#[export] Instance title_le_dec p : RelDecision (title_le p).
Proof. intros x y. unfold title_le. solve_decision. Defined.

Definition handler_stop (p : list WDirent.t) (h : Handler) : Handler :=
  mkHandler (h_v1 h)
    (merge_sort (title_le p) (filter (fun d => WDirent.removed (deref p d) = false) (m_dirents h))) (mp_dirent h).

(** [ListingProvider]: the indices of the entries, four bytes each. *)
Definition ListingProvider_new (p : list WDirent.t) (ds : list nat) : ContentProvider :=
  UserProvider (u64 (Zlen ds * 4)) (map (fun d => toLittleEndian 4 (WDirent.idx (deref p d))) ds).

(** * Adding *)

Definition addItem (item : WItem) : CM unit :=
  let compressContent := match hint_at COMPRESS (getHints item) with
                         | Some v => negb (v =? 0)
                         | None => isCompressibleMimetype (getMimeType item)
                         end in
  dirent ← createItemDirent item;
  provider ← lift (getContentProvider item);
  addItemData dirent provider compressContent ;;
  handle dirent (getHints item).

Definition addMetadata (name : bytes) (provider : ContentProvider) (mimetype : bytes) : CM unit :=
  let compressContent := isCompressibleMimetype mimetype in
  dirent ← createDirent (chr "M") name mimetype [];
  addItemData dirent provider compressContent ;;
  handle dirent [].

Definition addMetadata_string (name content mimetype : bytes) : CM unit :=
  addMetadata name (StringProvider_new content) mimetype.

Definition addRedirection (path title targetPath : bytes) (hints : Hints) : CM unit :=
  dirent ← createRedirectDirent (chr "C") path title (chr "C") targetPath;
  handle dirent hints.

(** * Resolving *)

(** One redirect whose target is looked for. *)
Definition resolveRedirect (s : CreatorData) (dirent : nat) : CreatorData :=
  let d := deref (pool s) dirent in
  (** The temporary entry of the target, which is in no pool. *)
  let tmpDirent := WDirent.new (WDirent.redirectNs d) (WDirent.redirectPath d) in
  match set_find (fun x y => WDirent.compareUrl x.2 y.2) (0%nat, tmpDirent)
          (map (fun e => (e, deref (pool s) e)) (dirents s)) with
  | Some (target, _) => with_pool (<[dirent := WDirent.setRedirect d target]> (pool s)) s
  | None =>
      with_entries (<[dirent := WDirent.markRemoved d]> (pool s))
        (set_erase (UrlCompare (pool s)) dirent (dirents s)) (unresolvedRedirectDirents s)
        (if bool_decide (mainPageDirent s = Some dirent) then None else mainPageDirent s) s
  end.

Definition resolveRedirectIndexes : CM unit :=
  modify (fun s => fold_left resolveRedirect (unresolvedRedirectDirents s) s).

Fixpoint set_indexes (p : list WDirent.t) (idx : Z) (ds : list nat) : list WDirent.t :=
  match ds with
  | [] => p
  | d :: ds => set_indexes (<[d := WDirent.setIdx (deref p d) idx]> p) (u32 (idx + 1)) ds
  end.

Definition setEntryIndexes : CM unit :=
  modify (fun s => with_pool (set_indexes (pool s) 0 (dirents s)) s).

(** A [std::map] in the order of its keys. *)
Definition key_le {B} (x y : Z * B) : Prop := x.1 <= y.1.
#[export] Instance key_le_dec {B} : RelDecision (@key_le B).
Proof. intros x y. unfold key_le. solve_decision. Defined.

Definition oldMImeList (s : CreatorData) : list bytes :=
  map snd (merge_sort key_le (map_to_list (rmimeTypesMap s))).

(** [mapping[i]]: the last [j] whose string is the [i]-th of the old list. *)
Definition mapping_at (newList : list bytes) (m : bytes) : Z :=
  foldl (fun acc jm => if bool_decide (m = jm.2) then u16 (Z.of_nat jm.1) else acc) 0 (imap pair newList).

(** The last loop; [mapping[...]] out of range is undefined. *)
Fixpoint remap_mimeTypes (mapping : list Z) (p : list WDirent.t) (ds : list nat) : outcome (list WDirent.t) :=
  match ds with
  | [] => mret p
  | d :: ds =>
      if WDirent.isItem (deref p d) then
        match mapping !! Z.to_nat (WDirent.mimeType (deref p d)) with
        | Some m => remap_mimeTypes mapping (<[d := WDirent.setMimeType (deref p d) m]> p) ds
        | None => Undef
        end
      else remap_mimeTypes mapping p ds
  end.

Definition resolveMimeTypes : CM unit :=
  s ← gets id;
  let old := oldMImeList s in
  let new := merge_sort str_le (mimeTypesList s ++ old) in
  let mapping := map (mapping_at new) old in
  modify (with_mimes (mimeTypesMap s) (rmimeTypesMap s) new (nextMimeIdx s)) ;;
  p ← lift (remap_mimeTypes mapping (pool s) (dirents s));
  modify (with_pool p).

(** * Finishing *)

Definition CLUSTER_BASE_OFFSET : Z := 1024.

(** The configuration of a [Creator]. *)
Record Creator : Type := mkCreator {
  m_compression : CompressionType;
  m_minClusterSize : Z;
  m_nbWorkers : nat;
  m_mainPath : bytes;
  m_faviconPath : bytes;
  m_uuid : bytes;
}.

(** A new [Creator] with the given UUID. *)
Definition Creator_new (uuid : bytes) : Creator := mkCreator zimcompZstd (1024 - 64) 4 [] [] uuid.

Definition configCompression (comptype : CompressionType) (c : Creator) : outcome Creator :=
  match comptype with
  | zimcompBzip2 | zimcompZip => Throw (runtime_error "Compression method not enabled in this library")
  | _ => mret (mkCreator comptype (m_minClusterSize c) (m_nbWorkers c) (m_mainPath c) (m_faviconPath c) (m_uuid c))
  end.
Definition configMinClusterSize (size : Z) (c : Creator) : Creator :=
  mkCreator (m_compression c) size (m_nbWorkers c) (m_mainPath c) (m_faviconPath c) (m_uuid c).
Definition configNbWorkers (n : nat) (c : Creator) : Creator :=
  mkCreator (m_compression c) (m_minClusterSize c) n (m_mainPath c) (m_faviconPath c) (m_uuid c).
Definition setMainPath (p : bytes) (c : Creator) : Creator :=
  mkCreator (m_compression c) (m_minClusterSize c) (m_nbWorkers c) p (m_faviconPath c) (m_uuid c).
Definition setFaviconPath (p : bytes) (c : Creator) : Creator :=
  mkCreator (m_compression c) (m_minClusterSize c) (m_nbWorkers c) (m_mainPath c) p (m_uuid c).
Definition setUuid (u : bytes) (c : Creator) : Creator :=
  mkCreator (m_compression c) (m_minClusterSize c) (m_nbWorkers c) (m_mainPath c) (m_faviconPath c) u.

(** The temporary file just after [CreatorData] was made. *)
Definition startZimCreation (c : Creator) : CreatorData := CreatorData_new (m_compression c) (m_minClusterSize c).
Definition out_fd_start : out_file := lseek_set (mkOut [] 0) CLUSTER_BASE_OFFSET.

(** The entries of the favicon and of the main page. *)
Definition create_mandatory (c : Creator) : CM unit :=
  (if bool_decide (m_faviconPath c = []) then mret tt
   else
     dirent ← createRedirectDirent (chr "W") (lit "favicon") [] (chr "C") (m_faviconPath c);
     handle dirent []) ;;
  (if bool_decide (m_mainPath c = []) then mret tt
   else
     dirent ← createRedirectDirent (chr "W") (lit "mainPage") [] (chr "C") (m_mainPath c);
     modify (with_mainPage (Some dirent)) ;;
     handle dirent []).

(** [mp_titleListingHandler->handle] of the entry of a handler. *)
Definition listing_handle (dirent : nat) : CM unit :=
  modify (fun s => with_handlers (<[0%nat := handler_handle dirent [] (handler_at s 0)]> (m_direntHandlers s))
                     (m_titleListBlobOffset s) s).
Definition create_handler_dirent (k : nat) : CM unit :=
  dirent ← handler_getDirent k;
  listing_handle dirent.

(** A handler that builds an index, which a build with Xapian puts before those of the listings: the path of its entry,
    and the provider it gives once it is stopped. The indexing itself is in Indexing. *)
Record IndexHandler : Type := mkIndexHandler { ih_path : bytes; ih_provider : outcome ContentProvider }.

(** Their entries, each created at the first call of [getDirent] and kept. *)
Fixpoint create_index_dirents (ix : list IndexHandler) : CM (list nat) :=
  match ix with
  | [] => mret []
  | h :: ix =>
      dirent ← createDirent (chr "X") (ih_path h) (lit "application/octet-stream+xapian") [];
      listing_handle dirent ;;
      dirents ← create_index_dirents ix;
      mret (dirent :: dirents)
  end.

(** Their contents, which are not compressed. *)
Fixpoint finish_indexes (ix : list (IndexHandler * nat)) : CM unit :=
  match ix with
  | [] => mret tt
  | (h, dirent) :: ix =>
      provider ← lift (ih_provider h);
      addItemData dirent provider false ;;
      finish_indexes ix
  end.

(** [stop], and the content of handler [k]. *)
Definition finish_handler (k : nat) : CM unit :=
  modify (fun s => with_handlers (<[k := handler_stop (pool s) (handler_at s k)]> (m_direntHandlers s))
                     (m_titleListBlobOffset s) s) ;;
  dirent ← handler_getDirent k;
  s ← gets id;
  addItemData dirent (ListingProvider_new (pool s) (m_dirents (handler_at s k))) false ;;
  if (k =? 0)%nat then
    s ← gets id;
    b ← lift (WDirent.getBlobNumber (deref (pool s) dirent));
    match WCluster.blobOffsets (cluster_at s (uncompCluster s)) !! Z.to_nat b with
    | Some o => modify (with_handlers (m_direntHandlers s) o)
    | None => lift Undef
    end
  else mret tt.

(** [if (cluster->count()) closeCluster(compressed)]. *)
Definition close_last (compressed : bool) : CM unit :=
  s ← gets id;
  if WCluster.count (cluster_at s (if compressed then compCluster s else uncompCluster s)) =? 0 then mret tt
  else closeCluster compressed ;; mret tt.

Definition prepare (c : Creator) (ix : list IndexHandler) : CM unit :=
  create_mandatory c ;;
  indexes ← create_index_dirents ix;
  create_handler_dirent 0 ;; create_handler_dirent 1 ;;
  resolveRedirectIndexes ;;
  setEntryIndexes ;;
  resolveMimeTypes ;;
  finish_indexes (zip ix indexes) ;;
  finish_handler 0 ;; finish_handler 1 ;;
  close_last true ;; close_last false.

Definition dirent_idx (s : CreatorData) (d : nat) : Z := WDirent.idx (deref (pool s) d).
Definition cluster_idx (s : CreatorData) (c : nat) : Z := WCluster.index (cluster_at s c).

(** [fillHeader] and the positions [write] sets. *)
Definition fillHeader (c : Creator) (s : CreatorData) (header : Fileheader) : outcome Fileheader :=
  match mp_dirent (handler_at s 0) ≫= fun d => WDirent.cluster (deref (pool s) d) with
  | None => Undef
  | Some k =>
      let cluster := cluster_at s k in
      dataOffset ← WCluster.getDataOffset cluster;
      mret (mkFileheader (if isExtended s then zimExtendedMajorVersion else zimClassicMajorVersion) zimMinorVersion
        (m_uuid c) (u32 (Zlen (dirents s)))
        (off_add (off_add (WCluster.offset cluster) dataOffset) (m_titleListBlobOffset s))
        (urlPtrPos header) Fileheader_size (u32 (Zlen (clustersList s))) (clusterPtrPos header)
        (match mainPageDirent s with Some d => dirent_idx s d | None => 2 ^ 32 - 1 end) (2 ^ 32 - 1)
        (checksumPos header))
  end.

Definition with_positions (h : Fileheader) (url cluster checksum : Z) : Fileheader :=
  mkFileheader (majorVersion h) (minorVersion h) (uuid h) (articleCount h) (titleIdxPos h) url (mimeListPos h)
    (clusterCount h) cluster (mainPage h) (layoutPage h) checksum.

Definition out_writes (fd : out_file) (l : list bytes) : out_file := fold_left out_write l fd.

(** The entries one after the other; each keeps its offset. *)
Fixpoint write_dirents (s : CreatorData) (p : list WDirent.t) (fd : out_file) (ds : list nat) :
    outcome (list WDirent.t * out_file) :=
  match ds with
  | [] => mret (p, fd)
  | d :: ds =>
      let e := WDirent.setOffset (deref p d) (o_pos fd) in
      data ← WDirent.write (dirent_idx s) (cluster_idx s) e;
      write_dirents s (<[d := e]> p) (out_write fd data) ds
  end.

(** The checksum loop: [read(out_fd, batch_read, 1024)] until the end of the file. *)
Fixpoint checksum_loop (fuel : nat) (rest : bytes) (md5ctx : zim_MD5_CTX) : outcome zim_MD5_CTX :=
  match fuel with
  | O => Diverge
  | S fuel =>
      let batch := take 1024 rest in
      if Zlen batch =? 0 then mret md5ctx
      else
        md5ctx ← zim_MD5Update md5ctx batch (Zlen batch);
        checksum_loop fuel (drop 1024 rest) md5ctx
  end.

(** [Creator::write]: [garbage] is what the MD5 context holds. *)
Definition Creator_write (garbage : bytes) (c : Creator) (s : CreatorData) (fd : out_file) : outcome bytes :=
  header ← fillHeader c s (Fileheader_new 0);
  let fd := lseek_set fd (mimeListPos header) in
  let fd := out_writes fd (map (fun m => m ++ [0]) (mimeTypesList s)) in
  let fd := out_write fd [0] in
  ASSERT (o_pos fd <? CLUSTER_BASE_OFFSET) ;;
  let fd := lseek_end fd in
  '(p, fd) ← write_dirents s (pool s) fd (dirents s);
  let urlPtrPos := o_pos fd in
  let fd := out_writes fd (map (fun d => toLittleEndian 8 (WDirent.offset (deref p d))) (dirents s)) in
  let clusterPtrPos := o_pos fd in
  let fd := out_writes fd (map (fun k => toLittleEndian 8 (WCluster.offset (cluster_at s k))) (clustersList s)) in
  let header := with_positions header urlPtrPos clusterPtrPos (o_pos fd) in
  let fd := lseek_set fd 0 in
  let fd := out_write fd (Fileheader_write header) in
  let content := o_bytes fd in
  md5ctx ← checksum_loop (S (length content)) content (zim_MD5Init garbage);
  digest ← zim_MD5Final md5ctx;
  mret (o_bytes (out_write (lseek_end fd) digest)).

(** [finishZimCreation]: what the file renamed to the final name holds. A build without Xapian has no index. *)
Definition finishZimCreation (fuel : nat) (garbage : bytes) (c : Creator) (ix : list IndexHandler) : CM bytes :=
  prepare c ix ;;
  s ← gets id;
  '(h, fd) ← lift (finish_clusters fuel (clustersList s) (heap s) out_fd_start);
  modify (with_heap h (clustersList s) (compCluster s) (uncompCluster s) (isEmpty s) (isExtended s)) ;;
  s ← gets id;
  lift (Creator_write garbage c s fd).

End creator.
