(* ===== verification/Building.v ===== *)
(** The state of the creator while entries are added to it.

    [building es cs hs mp s]: the entries [es] were added to [s], in this order, the
    contents of its clusters are [cs], its handlers are [hs] and the entry of
    the main page is [mp]. Every operation that adds is a transition on these. *)

From Stdlib Require Import Ascii.
From stdpp Require Import gmap sorting strings.
From S2P Require Import Prelude.
From S2P Require Import Types.
From S2P Require Import Readers.
From S2P Require Import Files.
From S2P Require Import Compression.
From S2P Require Import Streams.
From S2P Require Import Dirent.
From S2P Require Import WDirent.
From S2P Require Import Cluster.
From S2P Require Import WCluster.
From S2P Require Import Lookup.
From S2P Require Import Tools.
From S2P Require Import Workers.
From S2P Require Import Creator.

(** * Lists up to their order *)

#[export] Instance Zlen_perm {A} : Proper ((≡ₚ) ==> (=)) (@Zlen A).
Proof. intros l k E. unfold Zlen. by rewrite E. Qed.

#[export] Instance concat_perm {A} : Proper ((≡ₚ) ==> (≡ₚ)) (@concat A).
Proof.
  intros l k. induction 1 as [|x l k _ IH|x y l|l k m _ IH1 _ IH2]; cbn [concat]; [done|by rewrite IH| |by rewrite IH1].
  rewrite !app_assoc. apply Permutation_app_tail, Permutation_app_comm.
Qed.

Lemma map_lookup_Some {A B} (f : A -> B) l i x : l !! i = Some x -> map f l !! i = Some (f x).
Proof. exact (list_lookup_fmap_Some_2 f l i x). Qed.

(** * Sorted lists and [std::set] *)

Section ordered.
Context {A : Type} (k : A -> bytes) (less : A -> A -> bool).
Hypothesis Hless : forall x y, less x y = str_ltb (k x) (k y).

(** Strictly sorted by the keys. *)
Definition sorted_by (l : list A) : Prop := StronglySorted str_lt (map k l).

Lemma less_true x y : less x y = true <-> str_lt (k x) (k y).
Proof. rewrite Hless. apply str_ltb_lt. Qed.
Lemma less_false x y : less x y = false <-> str_le (k y) (k x).
Proof. rewrite <- str_not_lt, <- less_true. by destruct (less x y). Qed.

Lemma set_insert_fresh x l :
  sorted_by l -> k x ∉ map k l ->
  exists l', set_insert less x l = (l', None) /\ l' ≡ₚ x :: l /\ sorted_by l'.
Proof.
  unfold sorted_by. induction l as [|y l IH]; intros Hs Hx; cbn [set_insert map] in *.
  { exists [x]. split_and!; [done|done|]. by repeat constructor. }
  apply not_elem_of_cons in Hx as [Hxy Hx]. apply StronglySorted_inv in Hs as [Hs Hy].
  destruct (less y x) eqn:E1; [apply less_true in E1|apply less_false in E1].
  - destruct (IH Hs Hx) as (l' & -> & Hp & Hs'). exists (y :: l'). split_and!; [done|rewrite Hp; apply perm_swap|].
    constructor; [done|]. rewrite Hp. cbn [map]. by constructor.
  - destruct (less x y) eqn:E2; [apply less_true in E2|apply less_false in E2].
    + exists (x :: y :: l). split_and!; [done|done|]. constructor; [by constructor|]. constructor; [done|].
      eapply Forall_impl; [exact Hy|]. intros z Hz. by eapply str_lt_trans.
    + by destruct Hxy; apply str_le_antisym.
Qed.

Lemma set_find_present x y l :
  sorted_by l -> y ∈ l -> k x = k y -> set_find less x l = Some y.
Proof.
  unfold sorted_by. intros Hs Hy Ek. induction l as [|z l IH]; [by apply not_elem_of_nil in Hy|].
  cbn [set_find map] in *. apply StronglySorted_inv in Hs as [Hs Hz]. apply elem_of_cons in Hy as [->|Hy].
  - rewrite !Hless, Ek. assert (E : str_ltb (k z) (k z) = false).
    { destruct (str_ltb _ _) eqn:E; [|done]. apply str_ltb_lt in E. by apply str_lt_irrefl in E. }
    by rewrite E.
  - rewrite (proj2 (less_true z x)); [by apply IH|]. rewrite Ek. rewrite Forall_forall in Hz.
    apply Hz. by apply list_elem_of_In, in_map, list_elem_of_In.
Qed.

(** Replacing what the keys do not depend on. *)
Lemma sorted_by_ext (k' : A -> bytes) l : (forall x, x ∈ l -> k' x = k x) -> map k' l = map k l.
Proof. intros Hk. apply map_ext_in. intros x Hx. by apply Hk, list_elem_of_In. Qed.

End ordered.

(** * Entries *)

(** What an entry of the archive is: an item with its MIME type and, once it has
    it, its content, or a redirect to a namespace and path. *)
Inductive wkind : Type :=
  | KItem (mime : bytes) (data : option bytes)
  | KRedirect (targetNs : Z) (targetPath : bytes).

Record wentry : Type := mkWEntry { we_ns : Z; we_path : bytes; we_title : bytes; we_kind : wkind }.

Definition we_key (e : wentry) : bytes := we_ns e :: we_path e.
Definition is_redirect (e : wentry) : bool := match we_kind e with KRedirect _ _ => true | KItem _ _ => false end.
Definition we_mime (e : wentry) : option bytes := match we_kind e with KItem m _ => Some m | _ => None end.
Definition set_data (b : bytes) (e : wentry) : wentry :=
  match we_kind e with KItem m _ => mkWEntry (we_ns e) (we_path e) (we_title e) (KItem m (Some b)) | _ => e end.

Definition wkey (d : WDirent.t) : bytes := WDirent.ns d :: WDirent.path d.

(** Blob [n] of cluster [c] is [b]. *)
Definition blob_is (cs : list (list bytes)) (c : nat) (n : Z) (b : bytes) : Prop :=
  0 <= n /\ exists bs, cs !! c = Some bs /\ bs !! Z.to_nat n = Some b.

(** [d] stands for [e], [r] being the MIME types by index. *)
Record dirent_is (r : gmap Z bytes) (cs : list (list bytes)) (e : wentry) (d : WDirent.t) : Prop := {
  di_ns : WDirent.ns d = we_ns e;
  di_path : WDirent.path d = we_path e;
  di_title : WDirent.title d = we_title e;
  di_removed : WDirent.removed d = false;
  di_kind : match we_kind e with
            | KItem m data =>
                r !! WDirent.mimeType d = Some m /\ exists n, WDirent.info d = WDirent.DirectInfo 0 n /\
                match data with
                | Some b => exists c, WDirent.cluster d = Some c /\ blob_is cs c n b
                | None => WDirent.cluster d = None
                end
            | KRedirect ns path =>
                WDirent.mimeType d = WDirent.redirectMimeType /\
                WDirent.redirectNs d = ns /\ WDirent.redirectPath d = path
            end;
}.

(** The MIME maps are inverse of each other, over the indices below [n]. *)
Record mimes_ok (m : gmap bytes Z) (r : gmap Z bytes) (n : Z) : Prop := {
  mo_inverse : forall x i, m !! x = Some i <-> r !! i = Some x;
  mo_bound : forall i, is_Some (r !! i) <-> 0 <= i < n;
  mo_size : 0 <= n <= 65535;
}.

(** All contents together. *)
Definition total (cs : list (list bytes)) : Z := Zlen (concat (concat cs)).
Definition blob_count (cs : list (list bytes)) : Z := Zlen (concat cs).

Section building.
Context `{OS} `{LzmaLib} `{ZstdLib}.
(** The compression of the archive and the size from which a cluster is closed. *)
Context {comp : CompressionType} {chunk : Z}.

Record building (r : gmap Z bytes) (es : list wentry) (cs : list (list bytes)) (hs : list Handler) (mp : option nat) (s : CreatorData) : Prop := {
  bd_pool : Forall2 (dirent_is r cs) es (pool s);
  bd_range : forall i x, r !! i = Some x -> 0 <= i < 65535;
  bd_ascii : Forall (fun e => 0 < we_ns e < 128) es;
  bd_dirents : dirents s ≡ₚ seq 0 (length es);
  bd_sorted : sorted_by (fun d => wkey (deref (pool s) d)) (dirents s);
  bd_redirects : forall d, d ∈ unresolvedRedirectDirents s <-> exists e, es !! d = Some e /\ is_redirect e = true;
  bd_unsorted : sorted_by (fun d => wkey (deref (pool s) d)) (unresolvedRedirectDirents s);
  bd_heap : Forall2 (fun c bs => holds c bs /\ WCluster.closed c = false) (heap s) cs;
  bd_ids : clustersList s ++ [compCluster s; uncompCluster s] ≡ₚ seq 0 (length cs);
  bd_full : forall j c, clustersList s !! j = Some c -> cs !! c <> Some [] /\ WCluster.index (cluster_at s c) = Z.of_nat j;
  bd_comp : forall c, WCluster.compression (cluster_at s c) = comp \/ WCluster.compression (cluster_at s c) = zimcompNone;
  bd_uncomp : WCluster.compression (cluster_at s (uncompCluster s)) = zimcompNone;
  bd_ext : isExtended s = false;
  bd_handlers : m_direntHandlers s = hs;
  bd_main : mainPageDirent s = mp;
  bd_config : compression s = comp /\ minChunkSize s = chunk;
}.

(** The MIME types are still being collected. *)
Record mimes_open (r : gmap Z bytes) (es : list wentry) (s : CreatorData) : Prop := {
  mi_map : rmimeTypesMap s = r;
  mi_ok : mimes_ok (mimeTypesMap s) r (nextMimeIdx s);
  mi_used : forall m, m ∈ dom (mimeTypesMap s) -> exists e, e ∈ es /\ we_mime e = Some m;
  mi_list : mimeTypesList s = [];
}.

(** What adding a content leaves as it is. *)
Record same_tables (s s' : CreatorData) : Prop := {
  sm_mimes : mimeTypesMap s' = mimeTypesMap s /\ rmimeTypesMap s' = rmimeTypesMap s /\
    mimeTypesList s' = mimeTypesList s /\ nextMimeIdx s' = nextMimeIdx s;
  sm_dirents : dirents s' = dirents s;
  sm_idx : forall d, WDirent.idx (deref (pool s') d) = WDirent.idx (deref (pool s) d);
  sm_redirects : forall d, WDirent.isRedirect (deref (pool s) d) = true -> deref (pool s') d = deref (pool s) d;
  sm_title : m_titleListBlobOffset s' = m_titleListBlobOffset s;
  sm_placed : forall d c, WDirent.cluster (deref (pool s) d) = Some c -> (c < length (heap s))%nat ->
    WDirent.cluster (deref (pool s') d) = Some c /\ (c < length (heap s'))%nat /\
    WCluster.compression (cluster_at s' c) = WCluster.compression (cluster_at s c);
}.

Lemma same_tables_refl s : same_tables s s.
Proof. by split. Qed.

Lemma same_tables_trans s1 s2 s3 : same_tables s1 s2 -> same_tables s2 s3 -> same_tables s1 s3.
Proof.
  intros [(A1 & A2 & A3 & A4) B1 C1 D1 E1 F1] [(A1' & A2' & A3' & A4') B2 C2 D2 E2 F2].
  split; [split_and!|..]; try congruence.
  - intros d Hd. rewrite D2, D1; [done|done|]. by rewrite D1.
  - intros d c Hd Hc. destruct (F1 d c Hd Hc) as (Hd1 & Hc1 & G1). destruct (F2 d c Hd1 Hc1) as (? & ? & G2).
    split_and!; [done|done|]. by rewrite G2.
Qed.

Lemma mimes_open_same r es es' s s' :
  same_tables s s' -> (forall e m, e ∈ es -> we_mime e = Some m -> exists e', e' ∈ es' /\ we_mime e' = Some m) ->
  mimes_open r es s -> mimes_open r es' s'.
Proof.
  intros [(E1 & E2 & E3 & E4) _ _ _ _ _] Hes [? ? Hu ?]. split; try congruence.
  intros m. rewrite E1. intros Hm. destruct (Hu m Hm) as (e & He & Hem). by eapply Hes.
Qed.

Lemma building_new :
  building ∅ [] [[]; []] [mkHandler false [] None; mkHandler true [] None] None (CreatorData_new comp chunk) /\
  mimes_open ∅ [] (CreatorData_new comp chunk).
Proof.
  split; split; try done.
  - constructor.
  - intros d. split; [intros Hd; by apply not_elem_of_nil in Hd|]. intros (e & He & _). by rewrite lookup_nil in He.
  - constructor.
  - repeat constructor.
  - intros [|[|c]]; [by left|by right|by right].
  - split; cbn [CreatorData_new mimeTypesMap nextMimeIdx]; [|intros i; rewrite lookup_empty|lia].
    + intros x i. by rewrite !lookup_empty.
    + split; [by intros []|lia].
Qed.

(** ** The order of the entries *)

(** The comparison of two entries, by namespace and then by path or title. *)
Lemma compare_ns n1 n2 a b : 0 <= n1 < 128 -> 0 <= n2 < 128 ->
  (schar n1 <? schar n2) || ((n1 =? n2) && str_ltb a b) = str_ltb (n1 :: a) (n2 :: b).
Proof.
  intros H1' H2'. unfold str_ltb. rewrite !schar_ascii by done. cbn [str_cmp].
  destruct (Z.compare_spec n1 n2) as [->|Hlt|Hgt].
  - by rewrite Z.ltb_irrefl, Z.eqb_refl.
  - by rewrite (proj2 (Z.ltb_lt _ _)) by done.
  - rewrite (proj2 (Z.ltb_ge _ _)) by lia. by rewrite (proj2 (Z.eqb_neq _ _)) by lia.
Qed.

Lemma compareUrl_key d1 d2 :
  0 <= WDirent.ns d1 < 128 -> 0 <= WDirent.ns d2 < 128 -> WDirent.compareUrl d1 d2 = str_ltb (wkey d1) (wkey d2).
Proof. apply compare_ns. Qed.

Definition ascii_pool (p : list WDirent.t) : Prop := Forall (fun d => 0 <= WDirent.ns d < 128) p.

Lemma deref_ascii p d : ascii_pool p -> 0 <= WDirent.ns (deref p d) < 128.
Proof.
  intros Hp. unfold deref. destruct (p !! d) as [x|] eqn:E; simpl; [|lia].
  unfold ascii_pool in Hp. rewrite Forall_lookup in Hp. by apply (Hp d).
Qed.

Lemma UrlCompare_key p x y : ascii_pool p -> UrlCompare p x y = str_ltb (wkey (deref p x)) (wkey (deref p y)).
Proof. intros Hp. apply compareUrl_key; by apply deref_ascii. Qed.

Lemma deref_lookup p i d : p !! i = Some d -> deref p i = d.
Proof. intros E. unfold deref. by rewrite E. Qed.

(** A new entry, whose key is not in the set. *)
Lemma addDirent_ok n s :
  ascii_pool (pool s) ->
  let key d := wkey (deref (pool s) d) in
  sorted_by key (dirents s) -> sorted_by key (unresolvedRedirectDirents s) ->
  unresolvedRedirectDirents s ⊆ dirents s -> key n ∉ map key (dirents s) ->
  exists ds us a b c d e f, addDirent n s = (Ok tt, with_stats a b c d e f (with_dirents ds us s)) /\
    ds ≡ₚ n :: dirents s /\ sorted_by key ds /\ sorted_by key us /\
    us ≡ₚ (if WDirent.isRedirect (deref (pool s) n) then n :: unresolvedRedirectDirents s else unresolvedRedirectDirents s).
Proof.
  intros Hp key Hs Hu Hsub Hn. pose proof (fun x y => UrlCompare_key (pool s) x y Hp) as Hless.
  destruct (set_insert_fresh key (UrlCompare (pool s)) Hless n (dirents s) Hs Hn) as (ds & E & Hds & Hsd).
  unfold addDirent. rewrite stm_gets. unfold id. rewrite E.
  erewrite stm_bind_Ok by (rewrite stm_modify; done). cbn [andb].
  destruct (WDirent.isRedirect (deref (pool s) n)) eqn:Er.
  - destruct (set_insert_fresh key (UrlCompare (pool s)) Hless n (unresolvedRedirectDirents s) Hu) as (us & Eu & Hus & Hsu).
    { intros Hin. apply Hn. apply list_elem_of_In in Hin. apply in_map_iff in Hin as (x & Ex & Hx).
      apply list_elem_of_In. rewrite <- Ex. apply in_map. by apply list_elem_of_In, Hsub, list_elem_of_In. }
    exists ds, us. eexists _, _, _, _, _, _. split; [|done].
    rewrite stm_modify. unfold modify. f_equal. cbn [unresolvedRedirectDirents dirents pool with_dirents with_entries].
    rewrite Eu. unfold with_stats, with_dirents, with_entries. reflexivity.
  - exists ds, (unresolvedRedirectDirents s), (nbRedirectItems s), (nbCompItems s), (nbUnCompItems s), (nbClusters s),
      (nbCompClusters s), (nbUnCompClusters s). split; [|done].
    unfold mret, stm_ret. reflexivity.
Qed.

(** ** The MIME types *)

Lemma getMimeTypeIdx_ok mime s :
  mimes_ok (mimeTypesMap s) (rmimeTypesMap s) (nextMimeIdx s) ->
  mime ∈ dom (mimeTypesMap s) \/ nextMimeIdx s < 65535 ->
  exists i m r n, getMimeTypeIdx mime s = (Ok i, with_mimes m r (mimeTypesList s) n s) /\
    mimes_ok m r n /\ r !! i = Some mime /\ rmimeTypesMap s ⊆ r /\
    (forall x, x ∈ dom m -> x = mime \/ x ∈ dom (mimeTypesMap s)).
Proof.
  intros Hm Hroom. pose proof Hm as [Hi Hb Hsz]. unfold getMimeTypeIdx. rewrite stm_gets. unfold id.
  destruct (mimeTypesMap s !! mime) as [i|] eqn:E.
  - exists i, (mimeTypesMap s), (rmimeTypesMap s), (nextMimeIdx s). split_and!; [by destruct s|done| |done|by right].
    by apply Hi.
  - assert (Hlt : nextMimeIdx s < 65535) by (destruct Hroom as [Hr|]; [by apply elem_of_dom in Hr as [? Hr]; congruence|done]).
    rewrite (proj2 (Z.leb_gt 65535 _)) by lia. cbn [throw_when]. erewrite stm_lift_Ok by done.
    rewrite stm_modify. unfold mret, stm_ret.
    assert (Hfresh : rmimeTypesMap s !! nextMimeIdx s = None).
    { apply eq_None_not_Some. intros Hs. apply Hb in Hs. lia. }
    eexists _, _, _, _. split; [done|]. rewrite u16_small by lia. split_and!.
    + split; [| |lia].
      * intros x j. destruct (decide (x = mime)) as [->|Hx].
        -- rewrite lookup_insert_eq. split.
           ++ intros [= <-]. by rewrite lookup_insert_eq.
           ++ destruct (decide (j = nextMimeIdx s)) as [->|Hj]; [done|]. rewrite lookup_insert_ne by done.
              intros Hr. apply Hi in Hr. congruence.
        -- rewrite lookup_insert_ne by done. destruct (decide (j = nextMimeIdx s)) as [->|Hj].
           ++ rewrite lookup_insert_eq. split; [intros Hx'; apply Hi in Hx'; congruence|congruence].
           ++ rewrite lookup_insert_ne by done. apply Hi.
      * intros j. rewrite lookup_insert_is_Some, Hb. lia.
    + by rewrite lookup_insert_eq.
    + by apply insert_subseteq.
    + intros x. rewrite dom_insert. set_solver.
Qed.

(** ** Adding an entry *)

Lemma dirent_is_mono r r' cs cs' e d :
  r ⊆ r' -> (forall c n b, blob_is cs c n b -> blob_is cs' c n b) -> dirent_is r cs e d -> dirent_is r' cs' e d.
Proof.
  intros Hr Hc [? ? ? ? Hk]. split; try done. destruct (we_kind e) as [m [b|]|]; [| |done].
  - destruct Hk as (Hm & n & Hi & c & Hcl & Hb). split; [by eapply lookup_weaken|]. eauto 10.
  - destruct Hk as (Hm & n & Hi & Hcl). split; [by eapply lookup_weaken|]. eauto.
Qed.

Lemma dirent_is_key r cs e d : dirent_is r cs e d -> wkey d = we_key e.
Proof. intros [E1 E2 _ _ _]. unfold wkey, we_key. by rewrite E1, E2. Qed.

Lemma dirent_is_redirect (r : gmap Z bytes) cs e d :
  (forall i x, r !! i = Some x -> 0 <= i < 65535) -> dirent_is r cs e d -> WDirent.isRedirect d = is_redirect e.
Proof.
  intros Hm [_ _ _ _ Hk]. unfold WDirent.isRedirect, is_redirect. destruct (we_kind e) as [x data|].
  - destruct Hk as (Hr & _). apply Hm in Hr. apply Z.eqb_neq. unfold WDirent.redirectMimeType. lia.
  - destruct Hk as (-> & _). done.
Qed.

Lemma deref_key r cs es p i e :
  Forall2 (dirent_is r cs) es p -> es !! i = Some e -> wkey (deref p i) = we_key e.
Proof.
  intros Hp He. destruct (Forall2_lookup_l _ _ _ _ _ Hp He) as (d & Hd & Hi).
  rewrite (deref_lookup _ _ _ Hd). by eapply dirent_is_key.
Qed.

Lemma deref_app p k i : (i < length p)%nat -> deref (p ++ k) i = deref p i.
Proof. intros Hi. unfold deref. by rewrite lookup_app_l. Qed.

Lemma pool_ascii r cs es p : Forall2 (dirent_is r cs) es p -> Forall (fun e => 0 < we_ns e < 128) es -> ascii_pool p.
Proof.
  intros Hp Ha. unfold ascii_pool. rewrite Forall_lookup. intros i d Hd.
  destruct (Forall2_lookup_r _ _ _ _ _ Hp Hd) as (e & He & [E _ _ _ _]). rewrite Forall_lookup in Ha.
  specialize (Ha _ _ He). rewrite E. simpl in Ha. lia.
Qed.

Lemma mimes_ok_range m r n : mimes_ok m r n -> forall i x, r !! i = Some x -> 0 <= i < 65535.
Proof.
  intros [_ Hb Hn] i x Hi. assert (Hs : is_Some (r !! i)) by (by eexists). apply Hb in Hs. lia.
Qed.

Lemma add_entry r0 es cs hs mp s e d m r n :
  building r0 es cs hs mp s -> mimes_open r0 es s -> dirent_is r cs e d -> 0 < we_ns e < 128 -> we_key e ∉ map we_key es ->
  mimes_ok m r n -> r0 ⊆ r -> (forall x, x ∈ dom m -> we_mime e = Some x \/ x ∈ dom (mimeTypesMap s)) ->
  exists s', addDirent (length (pool s)) (with_mimes m r (mimeTypesList s) n (with_pool (pool s ++ [d]) s)) = (Ok tt, s') /\
    building r (es ++ [e]) cs hs mp s' /\ mimes_open r (es ++ [e]) s' /\ m_titleListBlobOffset s' = m_titleListBlobOffset s.
Proof.
  intros Hb Ho Hd Hns Hkey Hm Hr Hdom. pose proof (mimes_ok_range _ _ _ Hm) as Hrange. set (s1 := with_mimes m r (mimeTypesList s) n (with_pool (pool s ++ [d]) s)).
  assert (Hpool : Forall2 (dirent_is r cs) (es ++ [e]) (pool s ++ [d])).
  { apply Forall2_app; [|by constructor]. eapply Forall2_impl; [apply (bd_pool _ _ _ _ _ _ Hb)|].
    intros. by eapply dirent_is_mono. }
  assert (Ha : Forall (fun e => 0 < we_ns e < 128) (es ++ [e])) by (apply Forall_app; split; [apply Hb|by constructor]).
  pose proof (Forall2_length _ _ _ (bd_pool _ _ _ _ _ _ Hb)) as Hlen.
  assert (Hin : forall x, x ∈ dirents s -> (x < length (pool s))%nat).
  { intros x Hx. rewrite (bd_dirents _ _ _ _ _ _ Hb) in Hx. apply elem_of_seq in Hx. lia. }
  assert (Hsub : unresolvedRedirectDirents s ⊆ dirents s).
  { intros x Hx. apply (bd_redirects _ _ _ _ _ _ Hb) in Hx as (e' & He & _).
    rewrite (bd_dirents _ _ _ _ _ _ Hb). apply elem_of_seq. apply lookup_lt_Some in He. lia. }
  assert (Hext : forall l, l ⊆ dirents s ->
    map (fun x => wkey (deref (pool s1) x)) l = map (fun x => wkey (deref (pool s) x)) l).
  { intros l Hl. apply sorted_by_ext. intros x Hx. unfold s1. cbn [pool with_mimes with_pool with_entries].
    by rewrite deref_app by auto. }
  assert (Hnew : deref (pool s1) (length (pool s)) = d) by (apply deref_lookup; by apply list_lookup_middle).
  destruct (addDirent_ok (length (pool s)) s1) as (ds & us & a & b & c & d0 & e0 & f0 & E & Hds & Hsd & Hsu & Hus).
  - by eapply pool_ascii.
  - unfold sorted_by. rewrite Hext; [apply (bd_sorted _ _ _ _ _ _ Hb)|done].
  - unfold sorted_by. change (unresolvedRedirectDirents s1) with (unresolvedRedirectDirents s).
    rewrite Hext; [apply (bd_unsorted _ _ _ _ _ _ Hb)|done].
  - exact Hsub.
  - change (dirents s1) with (dirents s). rewrite Hext by done. rewrite Hnew.
    intros Hx. apply list_elem_of_In, in_map_iff in Hx as (x & Ex & Hx). apply list_elem_of_In in Hx.
    apply Hkey. rewrite <- (dirent_is_key _ _ _ _ Hd), <- Ex.
    destruct (lookup_lt_is_Some_2 es x) as [e' He']; [rewrite Hlen; auto|].
    rewrite (deref_key _ _ _ _ _ _ (bd_pool _ _ _ _ _ _ Hb) He'). apply list_elem_of_In, in_map, list_elem_of_In.
    by eapply list_elem_of_lookup_2.
  - eexists. split; [exact E|]. clear E.
    pose proof Hb as [_ _ _ Hdir _ Hred _ Hheap Hids Hfull Hcomp Hun Hx Hhs Hmp Hcfg].
    destruct Ho as [Hmap _ Hused Hlist].
    split; [|split; [|done]]; split; cbn [pool rmimeTypesMap mimeTypesMap dirents unresolvedRedirectDirents nextMimeIdx mimeTypesList heap clustersList
      compCluster uncompCluster isExtended m_direntHandlers mainPageDirent compression minChunkSize with_stats with_dirents
      with_mimes with_pool with_entries s1]; try done.
    + rewrite Hds. change (dirents s1) with (dirents s). rewrite Hdir, length_app, Nat.add_1_r, seq_S, Nat.add_0_l, Hlen.
      by rewrite Permutation_app_comm.
    + intros x. rewrite Hus, Hnew, (dirent_is_redirect r cs e d Hrange Hd).
      change (unresolvedRedirectDirents s1) with (unresolvedRedirectDirents s).
      assert (Hlast : (es ++ [e]) !! length (pool s) = Some e) by (rewrite <- Hlen; by apply list_lookup_middle).
      assert (Hold : forall e', es !! x = Some e' -> (es ++ [e]) !! x = Some e') by (intros; by apply lookup_app_l_Some).
      assert (Hback : forall e', (es ++ [e]) !! x = Some e' -> x <> length (pool s) -> es !! x = Some e').
      { intros e' He' Hxn. rewrite lookup_app_l in He'; [done|]. apply lookup_lt_Some in He'. rewrite length_app in He'. simpl in He'. lia. }
      destruct (is_redirect e) eqn:Er; rewrite ?elem_of_cons, Hred.
      * split; [intros [->|(e' & He' & Hr')]; eauto|]. intros (e' & He' & Hr').
        destruct (decide (x = length (pool s))) as [->|Hxn]; [by left|right]. eauto.
      * split; [intros (e' & He' & Hr'); eauto|]. intros (e' & He' & Hr').
        destruct (decide (x = length (pool s))) as [->|Hxn]; [congruence|]. eauto.
    + intros x Hx'. destruct (Hdom x Hx') as [He|Hold]; [exists e; split; [|done]|].
      * apply elem_of_app. right. by left.
      * destruct (Hused x Hold) as (e' & He' & Hm'). exists e'. split; [|done]. apply elem_of_app. by left.
Qed.

(** The new entry at the end of the pool. *)
Lemma pool_getDirent_eq s : pool_getDirent s = (Ok (length (pool s)), with_pool (pool s ++ [WDirent.new 0 []]) s).
Proof. done. Qed.

Lemma on_dirent_last p d f s : on_dirent (length p) f (with_pool (p ++ [d]) s) = (Ok tt, with_pool (p ++ [f d]) s).
Proof.
  unfold on_dirent, modify. f_equal. cbn [pool with_pool with_entries].
  rewrite (deref_lookup _ _ d) by (by apply list_lookup_middle). rewrite insert_app_r_alt, Nat.sub_diag by done. done.
Qed.

Lemma createDirent_ok r0 es cs hs mp s ns path mime title :
  building r0 es cs hs mp s -> mimes_open r0 es s -> 0 < ns < 128 -> ns :: path ∉ map we_key es ->
  mime ∈ dom (mimeTypesMap s) \/ nextMimeIdx s < 65535 ->
  exists r s', createDirent ns path mime title s = (Ok (length es), s') /\
    building r (es ++ [mkWEntry ns path title (KItem mime None)]) cs hs mp s' /\
    mimes_open r (es ++ [mkWEntry ns path title (KItem mime None)]) s' /\ m_titleListBlobOffset s' = m_titleListBlobOffset s.
Proof.
  intros Hb Ho Hns Hkey Hroom. rewrite (Forall2_length _ _ _ (bd_pool _ _ _ _ _ _ Hb)).
  unfold createDirent. erewrite stm_bind_Ok by apply pool_getDirent_eq.
  do 2 (erewrite stm_bind_Ok by apply on_dirent_last).
  set (q := pool s ++ [_]).
  destruct (getMimeTypeIdx_ok mime (with_pool q s)) as (i & m & r & n & E & Hm & Hi & Hr & Hdom);
    [cbn [mimeTypesMap rmimeTypesMap nextMimeIdx with_pool with_entries]; rewrite (mi_map _ _ _ Ho); apply Ho|done|].
  erewrite stm_bind_Ok by exact E. cbn [mimeTypesList with_pool with_entries] in *.
  change (with_mimes m r (mimeTypesList s) n (with_pool q s)) with (with_pool q (with_mimes m r (mimeTypesList s) n s)).
  unfold q. do 2 (erewrite stm_bind_Ok by apply on_dirent_last).
  cbv beta. set (d := WDirent.setTitle _ _).
  destruct (add_entry r0 es cs hs mp s (mkWEntry ns path title (KItem mime None)) d m r n) as (s' & E' & Hb' & Ho' & Ht); try done.
  - split; try done. cbn [we_kind]. split; [done|]. by exists 0.
  - cbn [rmimeTypesMap with_pool with_entries] in Hr. by rewrite (mi_map _ _ _ Ho) in Hr.
  - intros x Hx. destruct (Hdom x Hx) as [->|]; [by left|by right].
  - exists r, s'. split; [|done].
    change (with_mimes m r (mimeTypesList s) n (with_pool (pool s ++ [d]) s))
      with (with_pool (pool s ++ [d]) (with_mimes m r (mimeTypesList s) n s)) in E'.
    by erewrite stm_bind_Ok by exact E'.
Qed.

Lemma createRedirectDirent_ok r es cs hs mp s ns path title tns tpath :
  building r es cs hs mp s -> mimes_open r es s -> 0 < ns < 128 -> ns :: path ∉ map we_key es ->
  exists s', createRedirectDirent ns path title tns tpath s = (Ok (length es), s') /\
    building r (es ++ [mkWEntry ns path title (KRedirect tns tpath)]) cs hs mp s' /\
    mimes_open r (es ++ [mkWEntry ns path title (KRedirect tns tpath)]) s'.
Proof.
  intros Hb Ho Hns Hkey. rewrite (Forall2_length _ _ _ (bd_pool _ _ _ _ _ _ Hb)).
  unfold createRedirectDirent. erewrite stm_bind_Ok by apply pool_getDirent_eq.
  do 6 (erewrite stm_bind_Ok by apply on_dirent_last).
  cbv beta. set (d := setRedirect_null _).
  destruct (add_entry r es cs hs mp s (mkWEntry ns path title (KRedirect tns tpath)) d (mimeTypesMap s) (rmimeTypesMap s) (nextMimeIdx s))
    as (s' & E' & Hb' & Ho' & _); try done;
    [rewrite (mi_map _ _ _ Ho); apply Ho|by rewrite (mi_map _ _ _ Ho)|by right|].
  rewrite (mi_map _ _ _ Ho) in Hb', Ho'.
  exists s'. split; [|done].
  change (with_mimes (mimeTypesMap s) (rmimeTypesMap s) (mimeTypesList s) (nextMimeIdx s) (with_pool (pool s ++ [d]) s))
    with (with_pool (pool s ++ [d]) s) in E'.
  by erewrite stm_bind_Ok by exact E'.
Qed.

Lemma handle_ok r es cs hs mp s d hints :
  building r es cs hs mp s ->
  exists s', handle d hints s = (Ok tt, s') /\ building r es cs (map (handler_handle d hints) hs) mp s' /\
    (mimes_open r es s -> mimes_open r es s').
Proof.
  intros Hb. eexists. split; [done|]. split; [|by intros []]. destruct Hb. split; try done.
  cbn [m_direntHandlers with_handlers]. congruence.
Qed.

(** ** Clusters *)

Lemma map_nth_all {A} (d : A) l : map (fun i => nth i l d) (seq 0 (length l)) = l.
Proof.
  induction l as [|x l IH]; [done|]. cbn [length seq map nth]. f_equal. rewrite <- seq_shift, map_map. exact IH.
Qed.

(** The clusters that are closed hold something each, so there are no more of them than blobs. *)
Lemma closed_count r es cs hs mp s : building r es cs hs mp s -> Zlen (clustersList s) <= blob_count cs.
Proof.
  intros Hb. pose proof (bd_ids _ _ _ _ _ _ Hb) as Hids. pose proof (bd_full _ _ _ _ _ _ Hb) as Hfull.
  unfold blob_count. rewrite <- (map_nth_all [] cs) at 1. rewrite <- Hids, map_app, concat_app, Zlen_app.
  assert (Hpos : 0 <= Zlen (concat (map (fun i => nth i cs []) [compCluster s; uncompCluster s]))) by apply Zlen_nonneg.
  assert (Hle : Zlen (clustersList s) <= Zlen (concat (map (fun i => nth i cs []) (clustersList s)))); [|lia].
  assert (Hall : Forall (fun c => nth c cs [] <> []) (clustersList s)).
  { apply Forall_lookup. intros j c Hc. destruct (Hfull j c Hc) as [Hne _].
    assert (Hlt : (c < length cs)%nat).
    { apply list_elem_of_lookup_2 in Hc. assert (Hin : c ∈ clustersList s ++ [compCluster s; uncompCluster s])
        by (apply elem_of_app; by left). rewrite Hids in Hin. apply elem_of_seq in Hin. lia. }
    destruct (lookup_lt_is_Some_2 cs c Hlt) as [bs Hbs]. rewrite (nth_lookup_Some _ _ _ _ Hbs). congruence. }
  clear -Hall. induction Hall as [|c l Hc _ IH]; [done|]. cbn [map concat]. rewrite Zlen_cons, Zlen_app.
  destruct (nth c cs []) as [|x bs]; [done|]. rewrite Zlen_cons. pose proof (Zlen_nonneg bs). lia.
Qed.

Lemma concat_insert {A} (l : list (list A)) i x y : l !! i = Some x -> concat (<[i := x ++ y]> l) ≡ₚ concat l ++ y.
Proof.
  revert i. induction l as [|z l IH]; intros [|i] Hi; try done; cbn [lookup list_lookup] in Hi.
  - injection Hi as ->. cbn [insert list_insert concat]. rewrite <- !app_assoc. apply Permutation_app_head, Permutation_app_comm.
  - cbn [insert list_insert concat]. rewrite <- app_assoc. by apply Permutation_app_head, IH.
Qed.

Lemma total_insert cs c bs b : cs !! c = Some bs ->
  total (<[c := bs ++ [b]]> cs) = total cs + Zlen b /\ blob_count (<[c := bs ++ [b]]> cs) = blob_count cs + 1.
Proof.
  intros Hc. pose proof (concat_insert cs c bs [b] Hc) as Hp. unfold total, blob_count. split.
  - rewrite Hp, concat_app, Zlen_app. cbn [concat]. by rewrite app_nil_r.
  - rewrite Hp, Zlen_app. done.
Qed.

Lemma total_app cs : total (cs ++ [[]]) = total cs /\ blob_count (cs ++ [[]]) = blob_count cs.
Proof. unfold total, blob_count. rewrite concat_app. cbn [concat]. by rewrite !app_nil_r. Qed.

Lemma total_part cs c bs : cs !! c = Some bs -> Zlen (concat bs) <= total cs /\ Zlen bs <= blob_count cs.
Proof.
  intros Hc. pose proof (take_drop_middle cs c bs Hc) as E. unfold total, blob_count. rewrite <- E.
  rewrite concat_app, Zlen_app. cbn [concat]. rewrite !concat_app, !Zlen_app.
  split; [|pose proof (Zlen_nonneg (concat (take c cs))); pose proof (Zlen_nonneg (concat (drop (S c) cs))); lia].
  pose proof (Zlen_nonneg (concat (concat (take c cs)))). pose proof (Zlen_nonneg (concat (concat (drop (S c) cs)))). lia.
Qed.

Lemma blob_part (bs : list bytes) b : b ∈ bs -> Zlen b <= Zlen (concat bs).
Proof.
  induction 1 as [b bs|b x bs _ IH]; cbn [concat]; rewrite Zlen_app;
    [pose proof (Zlen_nonneg (concat bs))|pose proof (Zlen_nonneg x)]; lia.
Qed.

Lemma not_extended c bs : holds c bs -> Zlen (concat bs) <= UINT32_MAX -> WCluster.isExtended c = false.
Proof.
  intros Hh Hle. rewrite (h_ext _ _ Hh). apply not_true_is_false. intros E. apply existsb_exists in E as (b & Hin & Hb).
  apply list_elem_of_In, blob_part in Hin. apply Z.ltb_lt in Hb. lia.
Qed.

(** The cluster that is being filled. *)
Definition active (compressed : bool) (s : CreatorData) : nat := if compressed then compCluster s else uncompCluster s.

Lemma active_lookup r es cs hs mp s cc : building r es cs hs mp s ->
  exists c bs, heap s !! active cc s = Some c /\ cs !! active cc s = Some bs /\ holds c bs /\ WCluster.closed c = false.
Proof.
  intros Hb. assert (Hin : active cc s ∈ clustersList s ++ [compCluster s; uncompCluster s]).
  { apply elem_of_app. right. unfold active. destruct cc; [left|right; left]. }
  rewrite (bd_ids _ _ _ _ _ _ Hb) in Hin. apply elem_of_seq in Hin.
  destruct (lookup_lt_is_Some_2 cs (active cc s)) as [bs Hbs]; [lia|].
  destruct (Forall2_lookup_r _ _ _ _ _ (bd_heap _ _ _ _ _ _ Hb) Hbs) as (c & Hc & Hh & Hcl). by exists c, bs.
Qed.

Lemma heap_length r es cs hs mp s : building r es cs hs mp s -> length (heap s) = length cs.
Proof. intros Hb. by apply (Forall2_length _ _ _ (bd_heap _ _ _ _ _ _ Hb)). Qed.

Lemma ids_nodup r es cs hs mp s : building r es cs hs mp s -> NoDup (clustersList s ++ [compCluster s; uncompCluster s]).
Proof. intros Hb. rewrite (bd_ids _ _ _ _ _ _ Hb). apply NoDup_seq. Qed.

Lemma cluster_at_lookup s c x : heap s !! c = Some x -> cluster_at s c = x.
Proof. intros E. unfold cluster_at. by rewrite E. Qed.

Lemma holds_index c bs i : holds c bs -> holds (WCluster.setClusterIndex c i) bs.
Proof. by intros []. Qed.

Lemma blob_is_app cs k c n b : blob_is cs c n b -> blob_is (cs ++ k) c n b.
Proof. intros (Hn & bs & Hbs & Hb). split; [done|]. exists bs. split; [by apply lookup_app_l_Some|done]. Qed.

Lemma closeCluster_ok r es cs hs mp s cc :
  building r es cs hs mp s -> total cs <= UINT32_MAX -> blob_count cs < 2 ^ 32 -> cs !! active cc s <> Some [] ->
  exists s', closeCluster cc s = (Ok (length cs), s') /\ building r es (cs ++ [[]]) hs mp s' /\
    active cc s' = length cs /\ active (negb cc) s' = active (negb cc) s /\
    clustersList s' = clustersList s ++ [active cc s] /\ pool s' = pool s /\ same_tables s s'.
Proof.
  intros Hb Htot Hcount Hne. destruct (active_lookup r es cs hs mp s cc Hb) as (c & bs & Hc & Hbs & Hh & Hcl).
  pose proof (heap_length _ _ _ _ _ _ Hb) as Hlen. pose proof (ids_nodup _ _ _ _ _ _ Hb) as Hnd.
  pose proof (closed_count _ _ _ _ _ _ Hb) as Hcc. pose proof (Zlen_nonneg (clustersList s)).
  pose proof Hb as [Hpool Hrange Hasc Hdir Hsort Hred Hus Hheap Hids Hfull Hcomp Hun Hx Hhs Hmp [Hcfg Hchunk]].
  unfold closeCluster. rewrite stm_gets. unfold id. fold (active cc s). rewrite stm_modify, stm_modify.
  rewrite (cluster_at_lookup s _ c Hc), u32_small by lia.
  set (c' := WCluster.setClusterIndex c (Zlen (clustersList s))).
  assert (Hlt : (active cc s < length (heap s))%nat) by by eapply lookup_lt_Some.
  eexists. split; [rewrite <- Hlen; done|].
  cbn [heap clustersList compCluster uncompCluster isEmpty isExtended with_stats].
  set (fresh := WCluster.new _).
  assert (Hat : forall k, default (WCluster.new zimcompNone) ((<[active cc s := c']> (heap s) ++ [fresh]) !! k) =
    if decide (k = active cc s) then c' else if decide (k = length (heap s)) then fresh else cluster_at s k).
  { intros k. unfold cluster_at. destruct (decide (k = active cc s)) as [->|Hk].
    - rewrite lookup_app_l by (by rewrite length_insert). by rewrite list_lookup_insert_eq.
    - destruct (decide (k = length (heap s))) as [->|Hk'].
      + rewrite lookup_app_r by (by rewrite length_insert). by rewrite length_insert, Nat.sub_diag.
      + destruct (decide (k < length (heap s))%nat).
        * rewrite lookup_app_l by (by rewrite length_insert). by rewrite list_lookup_insert_ne.
        * rewrite lookup_app_r, length_insert by (rewrite length_insert; lia).
          rewrite (lookup_ge_None_2 (heap s)) by lia. rewrite lookup_ge_None_2; [done|simpl; lia]. }
  assert (Hnot : active cc s ∉ clustersList s).
  { apply NoDup_app in Hnd as (_ & Hnd & _). intros Hin. apply (Hnd _ Hin). unfold active. destruct cc; [left|right; left]. }
  assert (Hfresh : length (heap s) ∉ clustersList s).
  { intros Hin. assert (Hin' : length (heap s) ∈ clustersList s ++ [compCluster s; uncompCluster s]) by (apply elem_of_app; by left).
    rewrite Hids in Hin'. apply elem_of_seq in Hin'. lia. }
  split; [|split_and!; [by destruct cc..|split; try done]].
  split; cbn [pool rmimeTypesMap mimeTypesMap dirents unresolvedRedirectDirents nextMimeIdx mimeTypesList heap clustersList
      compCluster uncompCluster isExtended m_direntHandlers mainPageDirent compression minChunkSize with_stats with_heap]; try done.
  - eapply Forall2_impl; [exact Hpool|]. intros e d. apply dirent_is_mono; [done|]. intros *. apply blob_is_app.
  - apply Forall2_app; [|repeat constructor; apply holds_new].
    rewrite <- (list_insert_id cs _ _ Hbs). apply Forall2_insert; [done|]. split; [by apply holds_index|done].
  - rewrite length_app, Nat.add_1_r, seq_S, Nat.add_0_l, <- Hids, Hlen. unfold active.
    destruct cc; rewrite <- !app_assoc; apply Permutation_app_head; cbn [app]; solve_Permutation.
  - intros j k Hj. unfold cluster_at. cbn [heap]. rewrite Hat. apply lookup_app_Some in Hj as [Hj|[Hj Hk]].
    + assert (Hk : k ∈ clustersList s) by by eapply list_elem_of_lookup_2.
      rewrite decide_False by congruence. rewrite decide_False by congruence.
      destruct (Hfull j k Hj) as [Hk1 Hk2]. split; [|done]. intros Hk3. apply Hk1.
      apply lookup_app_Some in Hk3 as [|[Hk3 _]]; [done|]. exfalso.
      assert (Hin' : k ∈ clustersList s ++ [compCluster s; uncompCluster s]) by (apply elem_of_app; by left).
      rewrite Hids in Hin'. apply elem_of_seq in Hin'. lia.
    + apply list_lookup_singleton_Some in Hk as [Hj' <-]. rewrite decide_True by done. split.
      * by rewrite lookup_app_l by apply (lookup_lt_Some _ _ _ Hbs).
      * unfold c'. cbn [WCluster.index WCluster.setClusterIndex]. unfold Zlen. lia.
  - intros k. unfold cluster_at. cbn [heap]. rewrite Hat. destruct (decide (k = active cc s)) as [->|].
    + unfold c'. cbn [WCluster.compression WCluster.setClusterIndex]. rewrite <- (cluster_at_lookup s _ c Hc). apply Hcomp.
    + destruct (decide _); [|apply Hcomp]. unfold fresh. destruct cc; [left; by rewrite <- Hcfg|by right].
  - unfold cluster_at. cbn [heap]. rewrite Hat. unfold active in *. destruct cc.
    + destruct (decide _) as [E|]; [|].
      * exfalso. apply NoDup_app in Hnd as (_ & _ & Hnd). apply NoDup_cons in Hnd as [Hnd _]. apply Hnd. rewrite E. left.
      * destruct (decide _) as [E|]; [|done]. exfalso.
        assert (Hin' : uncompCluster s ∈ clustersList s ++ [compCluster s; uncompCluster s]) by (apply elem_of_app; right; right; left).
        rewrite Hids, E in Hin'. apply elem_of_seq in Hin'. lia.
    + rewrite decide_False by lia. by rewrite decide_True.
  - rewrite Hx. apply (not_extended c bs Hh). destruct (total_part cs _ bs Hbs). lia.
  - intros d k Hd Hk. split; [done|]. split; [cbn [heap with_heap with_stats]; rewrite length_app, length_insert; lia|].
    unfold cluster_at at 1. cbn [heap with_heap with_stats]. rewrite Hat. destruct (decide (k = active cc s)) as [->|].
    + unfold c'. cbn [WCluster.compression WCluster.setClusterIndex]. by rewrite (cluster_at_lookup s _ c Hc).
    + by rewrite decide_False by lia.
Qed.

(** ** Adding a content *)

Lemma count_length r es cs hs mp s k bs :
  building r es cs hs mp s -> cs !! k = Some bs -> WCluster.count (cluster_at s k) = Zlen bs.
Proof.
  intros Hb Hk. destruct (Forall2_lookup_r _ _ _ _ _ (bd_heap _ _ _ _ _ _ Hb) Hk) as (c & Hc & Hh & _).
  rewrite (cluster_at_lookup s k c Hc). apply (h_count _ _ Hh).
Qed.

(** The entry gets the next blob of the active cluster. *)
Lemma place_ok r es cs hs mp s i e m p b cc :
  building r es cs hs mp s -> es !! i = Some e -> we_kind e = KItem m None -> provides p b ->
  total cs + Zlen b <= UINT32_MAX -> blob_count cs + 1 < 2 ^ 32 ->
  exists bs d, cs !! active cc s = Some bs /\
    WDirent.setCluster (deref (pool s) i) (active cc s) (WCluster.count (cluster_at s (active cc s))) = Ok d /\
    WDirent.info d = WDirent.DirectInfo 0 (Zlen bs) /\ WDirent.cluster d = Some (active cc s) /\
    WDirent.idx d = WDirent.idx (deref (pool s) i) /\ WDirent.isRedirect (deref (pool s) i) = false /\
    building r (<[i := set_data b e]> es) (<[active cc s := bs ++ [b]]> cs) hs mp
      (with_heap (<[active cc s := WCluster.addContent (cluster_at s (active cc s)) p]> (heap s)) (clustersList s) (compCluster s)
        (uncompCluster s) (isEmpty s) (isExtended s) (with_pool (<[i := d]> (pool s)) s)).
Proof.
  intros Hb He Hkind Hp Htot Hcount. destruct (active_lookup r es cs hs mp s cc Hb) as (c & bs & Hc & Hbs & Hh & Hcl).
  pose proof Hb as [Hpool Hrange Hasc Hdir Hsort Hred Hus Hheap Hids Hfull Hcomp Hun Hx Hhs Hmp Hcfg].
  destruct (Forall2_lookup_l _ _ _ _ _ Hpool He) as (d & Hd & Hdi). rewrite (deref_lookup _ _ _ Hd).
  rewrite (count_length _ _ _ _ _ _ _ _ Hb Hbs), (cluster_at_lookup s _ c Hc).
  pose proof (dirent_is_redirect _ _ _ _ Hrange Hdi) as Hr. unfold is_redirect in Hr. rewrite Hkind in Hr.
  destruct Hdi as [Ens Epath Etitle Erem Ekind]. rewrite Hkind in Ekind. destruct Ekind as (Hmime & n0 & Hinfo & Hnone).
  unfold WDirent.setCluster, WDirent.isItem. rewrite Hr, Hinfo. cbn [negb ASSERT mbind outcome_bind].
  set (d' := WDirent.mk _ _ _ _ _ _ _ _ _ _ _). exists bs, d'. split_and!; try done; [by rewrite (deref_lookup _ _ _ Hd)..|].
  destruct (total_part cs _ bs Hbs) as [Hle1 Hle2]. unfold UINT32_MAX in *.
  assert (Hkey : forall x, wkey (deref (<[i := d']> (pool s)) x) = wkey (deref (pool s) x)).
  { intros x. unfold deref. destruct (decide (x = i)) as [->|Hxi]; [|by rewrite list_lookup_insert_ne].
    rewrite list_lookup_insert_eq by by eapply lookup_lt_Some. by rewrite Hd. }
  assert (Hblobs : forall k n x, blob_is cs k n x -> blob_is (<[active cc s := bs ++ [b]]> cs) k n x).
  { intros k n x (Hn & xs & Hxs & Hnx). split; [done|]. destruct (decide (k = active cc s)) as [->|Hk].
    - exists (bs ++ [b]). rewrite list_lookup_insert_eq by by eapply lookup_lt_Some. split; [done|].
      assert (xs = bs) as -> by congruence. by apply lookup_app_l_Some.
    - exists xs. by rewrite list_lookup_insert_ne. }
  assert (Hcid : forall k, WCluster.compression (default (WCluster.new zimcompNone)
      (<[active cc s := WCluster.addContent c p]> (heap s) !! k)) = WCluster.compression (cluster_at s k) /\
    WCluster.index (default (WCluster.new zimcompNone)
      (<[active cc s := WCluster.addContent c p]> (heap s) !! k)) = WCluster.index (cluster_at s k)).
  { intros k. destruct (decide (k = active cc s)) as [->|Hk].
    - rewrite list_lookup_insert_eq by by eapply lookup_lt_Some. by rewrite (cluster_at_lookup s _ c Hc).
    - by rewrite list_lookup_insert_ne. }
  split; cbn [pool rmimeTypesMap mimeTypesMap dirents unresolvedRedirectDirents nextMimeIdx mimeTypesList heap clustersList
      compCluster uncompCluster isExtended m_direntHandlers mainPageDirent compression minChunkSize with_stats with_heap with_pool
      with_entries]; try done.
  - apply Forall2_insert; [eapply Forall2_impl; [exact Hpool|]; intros; by eapply dirent_is_mono|].
    unfold set_data. rewrite Hkind. split; try done. cbn [we_kind]. split; [done|]. exists (Zlen bs). split; [done|].
    exists (active cc s). split; [done|]. split; [apply Zlen_nonneg|]. exists (bs ++ [b]).
    rewrite list_lookup_insert_eq by by eapply lookup_lt_Some. split; [done|].
    unfold Zlen. rewrite Nat2Z.id. by apply list_lookup_middle.
  - apply Forall_insert; [done|]. unfold set_data. rewrite Hkind. cbn [we_ns]. rewrite Forall_lookup in Hasc. by apply (Hasc i).
  - by rewrite length_insert.
  - unfold sorted_by. rewrite (map_ext _ _ Hkey). exact Hsort.
  - intros x. rewrite Hred. destruct (decide (x = i)) as [->|Hxi]; [|by rewrite list_lookup_insert_ne].
    rewrite list_lookup_insert_eq by by eapply lookup_lt_Some. split; intros (e' & He' & Hr'); exfalso.
    + assert (e' = e) as -> by congruence. unfold is_redirect in Hr'. by rewrite Hkind in Hr'.
    + injection He' as <-. unfold is_redirect, set_data in Hr'. by rewrite Hkind in Hr'.
  - unfold sorted_by. rewrite (map_ext _ _ Hkey). exact Hus.
  - apply Forall2_insert; [done|]. split; [|done]. apply holds_add; [done|done|lia|lia].
  - by rewrite length_insert.
  - intros j k Hj. destruct (Hfull j k Hj) as [Hk1 Hk2]. split.
    + destruct (decide (k = active cc s)) as [->|Hk]; [|by rewrite list_lookup_insert_ne].
      rewrite list_lookup_insert_eq by by eapply lookup_lt_Some. by destruct bs.
    + rewrite <- Hk2. apply Hcid.
  - intros k. unfold cluster_at. cbn [heap with_heap]. destruct (Hcid k) as [-> _]. apply Hcomp.
  - unfold cluster_at. cbn [heap with_heap]. destruct (Hcid (uncompCluster s)) as [-> _]. exact Hun.
Qed.

Lemma building_empty r es cs hs mp s x :
  building r es cs hs mp s ->
  building r es cs hs mp (with_heap (heap s) (clustersList s) (compCluster s) (uncompCluster s) x (isExtended s) s).
Proof. intros []. by split. Qed.

(** The cluster the content goes to: the active one, or a new one after it was closed. *)
Lemma room_ok r es cs hs mp s itemSize cc :
  building r es cs hs mp s -> total cs <= UINT32_MAX -> blob_count cs < 2 ^ 32 ->
  exists cs' s',
    (if negb (WCluster.count (cluster_at s (active cc s)) =? 0) then
       size ← lift (WCluster.size (cluster_at s (active cc s)));
       if u64 (minChunkSize s * 1024) <=? u64 (size + itemSize) then closeCluster cc else mret (active cc s)
     else mret (active cc s)) s = (Ok (active cc s'), s') /\
    building r es cs' hs mp s' /\ total cs' = total cs /\ blob_count cs' = blob_count cs /\ pool s' = pool s /\
    same_tables s s'.
Proof.
  intros Hb Htot Hcount. destruct (active_lookup r es cs hs mp s cc Hb) as (c & bs & Hc & Hbs & Hh & Hcl).
  assert (Hsame : exists cs' s', (mret (active cc s) : stm CreatorData nat) s = (Ok (active cc s'), s') /\ building r es cs' hs mp s' /\
    total cs' = total cs /\ blob_count cs' = blob_count cs /\ pool s' = pool s /\ same_tables s s')
    by (exists cs, s; by split_and!).
  rewrite (count_length _ _ _ _ _ _ _ _ Hb Hbs). destruct (Z.eqb_spec (Zlen bs) 0) as [|Hne]; cbn [negb]; [exact Hsame|].
  rewrite (cluster_at_lookup s _ c Hc). unfold WCluster.size. rewrite Hcl. erewrite stm_lift_Ok by done.
  destruct (_ <=? _); [|exact Hsame].
  destruct (closeCluster_ok r es cs hs mp s cc Hb Htot Hcount) as (s' & E & Hb' & Ha & _ & _ & Hp & Ht); [rewrite Hbs; by intros [= ->]|].
  exists (cs ++ [[]]), s'. rewrite Ha. destruct (total_app cs). done.
Qed.

Lemma addItemData_ok r es cs hs mp s i e m p b cc :
  building r es cs hs mp s -> es !! i = Some e -> we_kind e = KItem m None -> provides p b ->
  total cs + Zlen b <= UINT32_MAX -> blob_count cs + 1 < 2 ^ 32 ->
  exists cs' s', addItemData i p cc s = (Ok tt, s') /\ building r (<[i := set_data b e]> es) cs' hs mp s' /\
    total cs' = total cs + Zlen b /\ blob_count cs' = blob_count cs + 1 /\
    WDirent.cluster (deref (pool s') i) = Some (active cc s') /\ same_tables s s'.
Proof.
  intros Hb He Hkind Hp Htot Hcount. pose proof (Zlen_nonneg b).
  unfold addItemData. rewrite stm_modify, stm_gets. unfold id. cbv zeta.
  set (s0 := with_heap _ _ _ _ (isEmpty s && _) _ s).
  assert (Hb0 : building r es cs hs mp s0) by by apply building_empty.
  destruct (room_ok r es cs hs mp s0 (WCluster.getSize p) cc Hb0) as (cs1 & s1 & E & Hb1 & Ht1 & Hc1 & _ & Hoff); [lia|lia|].
  fold (active cc s0). erewrite stm_bind_Ok by exact E. rewrite stm_gets. unfold id.
  destruct (place_ok r es cs1 hs mp s1 i e m p b cc) as (bs & d & Hbs & Ed & _ & Hcl & Hidx & Hitem & Hb2); [done..|lia|lia|].
  erewrite stm_lift_Ok by exact Ed. rewrite stm_modify, stm_modify. unfold modify.
  destruct (total_insert cs1 _ bs b Hbs) as [Ht2 Hc2].
  eexists _, _. split; [reflexivity|]. split; [|split; [by rewrite Ht2, Ht1|split; [by rewrite Hc2, Hc1|]]].
  - clear -Hb2. destruct Hb2. split; assumption.
  - destruct (Forall2_lookup_l _ _ _ _ _ (bd_pool _ _ _ _ _ _ Hb1) He) as (x & Hx & [_ _ _ _ Hxk]).
    assert (Hat : forall k, deref (<[i := d]> (pool s1)) k = if decide (k = i) then d else deref (pool s1) k).
    { intros k. unfold deref. destruct (decide (k = i)) as [->|Hk]; [|by rewrite list_lookup_insert_ne].
      by rewrite list_lookup_insert_eq by apply (lookup_lt_Some _ _ _ Hx). }
    split.
    + cbn [pool with_stats with_heap with_pool with_entries]. rewrite Hat, decide_True by done. exact Hcl.
    + apply (same_tables_trans s s0); [by split|]. apply (same_tables_trans s0 s1); [exact Hoff|].
      split; try done.
      * intros k. cbn [pool with_stats with_heap with_pool with_entries]. rewrite Hat. by destruct (decide (k = i)) as [->|].
      * intros k. cbn [pool with_stats with_heap with_pool with_entries]. rewrite Hat. destruct (decide (k = i)) as [->|]; [|done]. congruence.
      * intros k q Hk Hq. cbn [pool heap with_stats with_heap with_pool with_entries]. rewrite Hat, length_insert.
        destruct (decide (k = i)) as [->|].
        { exfalso. rewrite (deref_lookup _ _ _ Hx) in Hk. rewrite Hkind in Hxk. destruct Hxk as (_ & n & _ & Hnone). congruence. }
        split_and!; [done|done|]. unfold cluster_at. cbn [heap with_stats with_heap with_pool with_entries].
        destruct (decide (q = active cc s1)) as [->|]; [|by rewrite list_lookup_insert_ne].
        rewrite list_lookup_insert_eq by done. done.
Qed.

(** ** The number of MIME types *)

Definition mime_values (r : gmap Z bytes) : list bytes := map snd (map_to_list r).

Lemma mime_keys m r n : mimes_ok m r n -> map fst (map_to_list r) ≡ₚ seqZ 0 n.
Proof.
  intros [_ Hb Hn]. assert (Hfst : NoDup (map fst (map_to_list r))) by exact (NoDup_fst_map_to_list r).
  apply NoDup_Permutation; [done|apply NoDup_seqZ|].
  intros k. rewrite elem_of_seqZ, list_elem_of_fmap. specialize (Hb k). split.
  - intros ([k' v] & -> & Hin). apply elem_of_map_to_list in Hin. simpl in *. rewrite Hin in Hb.
    assert (Hs : is_Some (Some v)) by by eexists. apply Hb in Hs. lia.
  - intros Hk. destruct (proj2 Hb) as [v Hv]; [lia|]. exists (k, v). split; [done|]. by apply elem_of_map_to_list.
Qed.

Lemma mime_values_spec m r n : mimes_ok m r n ->
  NoDup (mime_values r) /\ Zlen (mime_values r) = n /\ forall x, x ∈ mime_values r <-> x ∈ dom m.
Proof.
  intros Hok. pose proof (mime_keys _ _ _ Hok) as Hkeys. destruct Hok as [Hi Hb Hn].
  unfold mime_values. pose proof (NoDup_map_to_list r) as Hnd. split_and!.
  - rewrite NoDup_alt. intros i j x Hx Hy. apply list_lookup_fmap_Some in Hx as ([k v] & E1 & Hx).
    apply list_lookup_fmap_Some in Hy as ([k' v'] & E2 & Hy). simpl in *. subst.
    assert (Hk : r !! k = Some v') by (apply elem_of_map_to_list; by eapply list_elem_of_lookup_2).
    assert (Hk' : r !! k' = Some v') by (apply elem_of_map_to_list; by eapply list_elem_of_lookup_2).
    apply Hi in Hk, Hk'. assert (k = k') as -> by congruence. exact (NoDup_lookup _ _ _ _ Hnd Hx Hy).
  - rewrite Zlen_map, <- (Zlen_map fst), Hkeys. unfold Zlen. rewrite length_seqZ. lia.
  - intros x. rewrite list_elem_of_fmap, elem_of_dom. split.
    + intros ([k v] & -> & Hin). apply elem_of_map_to_list in Hin. exists k. by apply Hi.
    + intros [k Hk]. exists (k, x). split; [done|]. apply elem_of_map_to_list. by apply Hi.
Qed.

(** At most 65535 MIME types [M] can be in use. *)
Lemma mime_room r es s M mime :
  mimes_open r es s -> (forall e x, e ∈ es -> we_mime e = Some x -> x ∈ M) -> mime ∈ M -> Zlen M <= 65535 ->
  mime ∈ dom (mimeTypesMap s) \/ nextMimeIdx s < 65535.
Proof.
  intros Ho HM Hmime Hlen. destruct (mime_values_spec _ _ _ (mi_ok _ _ _ Ho)) as (Hnd & Hn & Hin).
  destruct (decide (mime ∈ dom (mimeTypesMap s))) as [|Hnot]; [by left|right].
  assert (Hle : (length (mime :: mime_values r) <= length M)%nat).
  { apply submseteq_length, NoDup_submseteq; [constructor; [by rewrite Hin|done]|].
    intros x [->|Hx]%elem_of_cons; [done|]. apply Hin in Hx.
    destruct (mi_used _ _ _ Ho x Hx) as (e & He & Hm). by eapply HM. }
  cbn [length] in Hle. unfold Zlen in *. lia.
Qed.

(** ** The calls that add *)

Inductive addition : Type :=
  | AddItem (item : WItem)
  | AddMetadata (name : bytes) (provider : ContentProvider) (mimetype : bytes)
  | AddRedirection (path title targetPath : bytes) (hints : Hints).

Definition add (a : addition) : stm CreatorData unit :=
  match a with
  | AddItem item => addItem item
  | AddMetadata name provider mimetype => addMetadata name provider mimetype
  | AddRedirection path title targetPath hints => addRedirection path title targetPath hints
  end.

Fixpoint add_all (l : list addition) : stm CreatorData unit :=
  match l with [] => mret tt | a :: l => add a ;; add_all l end.

(** The entry a call is meant to add. *)
Inductive adds : addition -> wentry -> Prop :=
  | adds_item item p b :
      getContentProvider item = Ok p -> provides p b ->
      adds (AddItem item) (mkWEntry (chr "C") (getPath item) (getTitle item)
        (KItem (if bool_decide (getMimeType item = []) then lit "application/octet-stream" else getMimeType item) (Some b)))
  | adds_metadata name p mime b :
      provides p b -> adds (AddMetadata name p mime) (mkWEntry (chr "M") name [] (KItem mime (Some b)))
  | adds_redirection path title target hints :
      adds (AddRedirection path title target hints) (mkWEntry (chr "C") path title (KRedirect (chr "C") target)).

Definition hints_of (a : addition) : Hints :=
  match a with AddItem item => getHints item | AddMetadata _ _ _ => [] | AddRedirection _ _ _ hints => hints end.

Definition data_size (e : wentry) : Z := match we_kind e with KItem _ (Some b) => Zlen b | _ => 0 end.

Lemma set_last (es : list wentry) e e' : <[length es := e']> (es ++ [e]) = es ++ [e'].
Proof. rewrite insert_app_r_alt, Nat.sub_diag by done. done. Qed.

(** A content does not change the MIME types in use. *)
Lemma mimes_open_data r es e s s' b :
  same_tables s s' -> mimes_open r (es ++ [e]) s -> mimes_open r (es ++ [set_data b e]) s'.
Proof.
  intros Hs. apply mimes_open_same; [done|]. intros x m [Hx| ->%list_elem_of_singleton]%elem_of_app Hm.
  - exists x. split; [|done]. apply elem_of_app. by left.
  - exists (set_data b e). split; [apply elem_of_app; right; left|]. unfold set_data, we_mime in *. by destruct (we_kind e).
Qed.

Lemma add_content_ok r0 es cs hs mp s ns path mime title p b cc hints :
  building r0 es cs hs mp s -> mimes_open r0 es s -> 0 < ns < 128 -> ns :: path ∉ map we_key es ->
  mime ∈ dom (mimeTypesMap s) \/ nextMimeIdx s < 65535 ->
  provides p b -> total cs + Zlen b <= UINT32_MAX -> blob_count cs + 1 < 2 ^ 32 ->
  let es' := es ++ [mkWEntry ns path title (KItem mime (Some b))] in
  exists r cs' s1 s2 s', createDirent ns path mime title s = (Ok (length es), s1) /\
    addItemData (length es) p cc s1 = (Ok tt, s2) /\ handle (length es) hints s2 = (Ok tt, s') /\
    building r es' cs' (map (handler_handle (length es) hints) hs) mp s' /\ mimes_open r es' s' /\
    total cs' = total cs + Zlen b /\ blob_count cs' = blob_count cs + 1.
Proof.
  intros Hb Ho Hns Hkey Hroom Hp Htot Hcount es'.
  destruct (createDirent_ok r0 es cs hs mp s ns path mime title Hb Ho Hns Hkey Hroom) as (r & s1 & E1 & Hb1 & Ho1 & _).
  destruct (addItemData_ok r _ cs hs mp s1 (length es) (mkWEntry ns path title (KItem mime None)) mime p b cc Hb1)
    as (cs' & s2 & E2 & Hb2 & Ht & Hc & _ & Hs); [by apply list_lookup_middle|done..|].
  rewrite set_last in Hb2. destruct (handle_ok r _ cs' hs mp s2 (length es) hints Hb2) as (s' & E3 & Hb3 & Ho3).
  exists r, cs', s1, s2, s'. split_and!; try done. apply Ho3. exact (mimes_open_data _ _ _ _ _ b Hs Ho1).
Qed.

Lemma add_ok r0 es cs hs mp s M a e :
  building r0 es cs hs mp s -> mimes_open r0 es s -> adds a e -> we_key e ∉ map we_key es ->
  (forall e' x, e' ∈ es ++ [e] -> we_mime e' = Some x -> x ∈ M) -> Zlen M <= 65535 ->
  total cs + data_size e <= UINT32_MAX -> blob_count cs + 1 < 2 ^ 32 ->
  exists r cs' s', add a s = (Ok tt, s') /\
    building r (es ++ [e]) cs' (map (handler_handle (length es) (hints_of a)) hs) mp s' /\ mimes_open r (es ++ [e]) s' /\
    total cs' = total cs + data_size e /\ blob_count cs' <= blob_count cs + 1.
Proof.
  intros Hb Ho Ha Hkey HM HMlen Htot Hcount.
  assert (Hroom : forall x, we_mime e = Some x -> x ∈ dom (mimeTypesMap s) \/ nextMimeIdx s < 65535).
  { intros x Hx. eapply mime_room; [exact Ho| |eapply HM; [|exact Hx]|done].
    - intros e' x' He'. apply HM. apply elem_of_app. by left.
    - apply elem_of_app. right. by left. }
  destruct Ha as [item p b Ep Hp|name p mime b Hp|path title target hints]; cbn [add hints_of] in *.
  - set (mime := if bool_decide _ then _ else _) in *.
    destruct (add_content_ok r0 es cs hs mp s (chr "C") (getPath item) mime (getTitle item) p b
      (match hint_at COMPRESS (getHints item) with Some v => negb (v =? 0) | None => isCompressibleMimetype (getMimeType item) end)
      (getHints item) Hb Ho) as (r & cs' & s1 & s2 & s' & E1 & E2 & E3 & Hb' & Ho' & Ht & Hc); [done|done|by apply Hroom|done..|].
    exists r, cs', s'. split_and!; [|done|done|done|lia]. unfold addItem, createItemDirent. fold mime.
    erewrite stm_bind_Ok by exact E1. erewrite stm_lift_Ok by exact Ep. by erewrite stm_bind_Ok by exact E2.
  - destruct (add_content_ok r0 es cs hs mp s (chr "M") name mime [] p b (isCompressibleMimetype mime) [] Hb Ho)
      as (r & cs' & s1 & s2 & s' & E1 & E2 & E3 & Hb' & Ho' & Ht & Hc); [done|done|by apply Hroom|done..|].
    exists r, cs', s'. split_and!; [|done|done|done|lia]. unfold addMetadata.
    erewrite stm_bind_Ok by exact E1. by erewrite stm_bind_Ok by exact E2.
  - destruct (createRedirectDirent_ok r0 es cs hs mp s (chr "C") path title (chr "C") target Hb Ho) as (s1 & E1 & Hb1 & Ho1); [done|done|].
    destruct (handle_ok r0 _ cs hs mp s1 (length es) hints Hb1) as (s' & E2 & Hb2 & Ho2).
    exists r0, cs, s'. split_and!; [|done|by apply Ho2|unfold data_size; simpl; lia|lia].
    unfold addRedirection. by erewrite stm_bind_Ok by exact E1.
Qed.

(** ** A sequence of calls *)

Definition is_front (a : addition) : bool :=
  match hint_at FRONT_ARTICLE (hints_of a) with Some v => negb (v =? 0) | None => false end.

(** The entries of the front articles, the first call making entry [n]. *)
Fixpoint fronts (n : nat) (l : list addition) : list nat :=
  match l with [] => [] | a :: l => (if is_front a then [n] else []) ++ fronts (S n) l end.

Lemma data_size_nonneg e : 0 <= data_size e.
Proof. unfold data_size. destruct (we_kind e) as [m [b|]|]; [apply Zlen_nonneg|done..]. Qed.

Lemma add_all_ok M l es' r0 es cs l0 l1 mp s :
  building r0 es cs [mkHandler false l0 None; mkHandler true l1 None] mp s -> mimes_open r0 es s -> Forall2 adds l es' ->
  NoDup (map we_key (es ++ es')) -> (forall e x, e ∈ es ++ es' -> we_mime e = Some x -> x ∈ M) -> Zlen M <= 65535 ->
  total cs + Zsum (map data_size es') <= UINT32_MAX -> blob_count cs + Zlen es' < 2 ^ 32 ->
  exists r cs' s', add_all l s = (Ok tt, s') /\
    building r (es ++ es') cs' [mkHandler false (l0 ++ seq (length es) (length l)) None; mkHandler true (l1 ++ fronts (length es) l) None] mp s' /\
    mimes_open r (es ++ es') s' /\
    total cs' = total cs + Zsum (map data_size es') /\ blob_count cs' <= blob_count cs + Zlen es'.
Proof.
  intros Hb Ho Hl. revert r0 es cs l0 l1 s Hb Ho. induction Hl as [|a e l es' Ha Hl IH]; intros r0 es cs l0 l1 s Hb Ho Hnd HM HMlen Htot Hcount.
  { exists r0, cs, s. cbn [length seq fronts]. rewrite !app_nil_r. cbn [map Zsum]. split_and!; [done|done|done|simpl; lia|unfold Zlen; simpl; lia]. }
  change (e :: es') with ([e] ++ es') in Hnd, HM. rewrite app_assoc in Hnd, HM.
  rewrite Zlen_cons in Hcount. cbn [map] in Htot. change (Zsum (data_size e :: map data_size es')) with
    (data_size e + Zsum (map data_size es')) in *.
  pose proof (Zlen_nonneg es'). assert (0 <= Zsum (map data_size es')).
  { apply Zsum_nonneg, Forall_fmap, Forall_true. apply data_size_nonneg. }
  destruct (add_ok r0 es cs _ mp s M a e Hb Ho Ha) as (r1 & cs1 & s1 & E1 & Hb1 & Ho1 & Ht1 & Hc1).
  - rewrite !map_app in Hnd. apply NoDup_app in Hnd as (Hnd & _ & _). apply NoDup_app in Hnd as (_ & Hnd & _).
    intros Hin. apply (Hnd _ Hin). by left.
  - intros e' x He'. apply HM. apply elem_of_app. by left.
  - done.
  - lia.
  - lia.
  - cbn [map] in Hb1. unfold handler_handle in Hb1. cbn [h_v1 negb orb m_dirents mp_dirent] in Hb1. fold (is_front a) in Hb1.
    assert (Hb1' : building r1 (es ++ [e]) cs1 [mkHandler false (l0 ++ [length es]) None;
      mkHandler true (l1 ++ (if is_front a then [length es] else [])) None] mp s1).
    { destruct (is_front a); [exact Hb1|]. by rewrite app_nil_r. }
    destruct (IH _ _ _ _ _ _ Hb1' Ho1) as (r & cs' & s' & E & Hb' & Ho' & Ht' & Hc'); [done|done|done|lia|lia|].
    exists r, cs', s'. rewrite <- !app_assoc, length_app, Nat.add_1_r in Hb'. rewrite <- app_assoc in Ho'. split_and!.
    + cbn [add_all]. by erewrite stm_bind_Ok by exact E1.
    + exact Hb'.
    + exact Ho'.
    + cbn [map]. change (Zsum (data_size e :: map data_size es')) with (data_size e + Zsum (map data_size es')). lia.
    + rewrite Zlen_cons. lia.
Qed.

End building.

#[global] Arguments building {_} comp chunk r es cs hs mp s.
