(* ===== verification/Invariant.v ===== *)
(** What every call keeps of the creator's state.

    [well_kept] is an invariant of [CreatorData] while entries are added:
    whatever is added, twice or with a provider that fails, and wherever a call
    stops with an exception, the tables of the creator stay consistent. *)

From Stdlib Require Import Ascii.
From stdpp Require Import gmap sorting strings.
From S2P Require Import Prelude.
From S2P Require Import Types.
From S2P Require Import Readers.
From S2P Require Import Files.
From S2P Require Import Compression.
From S2P Require Import Streams.
From S2P Require Import Dirent.
From S2P Require Import WDirent.
From S2P Require Import Cluster.
From S2P Require Import WCluster.
From S2P Require Import Tools.
From S2P Require Import Workers.
From S2P Require Import Creator.
From S2P Require Import Building.

(** * [std::set], when an equivalent element is there *)

Section ordered.
Context {A : Type} (k : A -> bytes) (less : A -> A -> bool).
Hypothesis Hless : forall x y, less x y = str_ltb (k x) (k y).

Lemma less_irrefl x y : k x = k y -> less x y = false.
Proof. intros E. apply (less_false k less Hless). by rewrite E. Qed.

Lemma less_above x y l : Forall (str_lt (k x)) (map k l) -> y ∈ l -> less x y = true.
Proof.
  intros Hall Hy. apply (less_true k less Hless). rewrite Forall_forall in Hall. apply Hall.
  by apply list_elem_of_In, in_map, list_elem_of_In.
Qed.

Lemma set_insert_present x y l :
  sorted_by k l -> y ∈ l -> k y = k x -> set_insert less x l = (l, Some y).
Proof.
  unfold sorted_by. intros Hs Hy Ek. induction l as [|z l IH]; [by apply not_elem_of_nil in Hy|].
  cbn [set_insert map] in *. apply StronglySorted_inv in Hs as [Hs Hz]. apply elem_of_cons in Hy as [->|Hy].
  - by rewrite !less_irrefl.
  - rewrite (Hless z x), <- Ek, <- Hless, (less_above z y l Hz Hy). by rewrite IH.
Qed.

Lemma set_erase_present x l :
  sorted_by k l -> x ∈ l -> exists l1 l2, l = l1 ++ x :: l2 /\ set_erase less x l = l1 ++ l2.
Proof.
  unfold sorted_by. intros Hs Hx. induction l as [|z l IH]; [by apply not_elem_of_nil in Hx|].
  cbn [set_erase map] in *. apply StronglySorted_inv in Hs as [Hs Hz].
  destruct (decide (k x = k z)) as [E|Hne].
  - assert (x = z) as ->.
    { apply elem_of_cons in Hx as [->|Hx]; [done|]. exfalso. pose proof (less_above z x l Hz Hx) as Hl. by rewrite less_irrefl in Hl. }
    rewrite !less_irrefl by done. by exists [], l.
  - apply elem_of_cons in Hx as [->|Hx]; [done|]. rewrite (less_above z x l Hz Hx).
    destruct (IH Hs Hx) as (l1 & l2 & -> & ->). by exists (z :: l1), l2.
Qed.

Lemma sorted_by_sub l1 l2 x : sorted_by k (l1 ++ x :: l2) -> sorted_by k (l1 ++ l2) /\ k x ∉ map k (l1 ++ l2).
Proof.
  unfold sorted_by. rewrite !map_app. cbn [map]. generalize (map k l1) as a, (map k l2) as b. intros a b.
  induction a as [|y a IH]; cbn [app]; intros Hs; apply StronglySorted_inv in Hs as [Hs Hy].
  - split; [done|]. intros Hin. rewrite Forall_forall in Hy. by apply (str_lt_irrefl (k x)), Hy.
  - destruct (IH Hs) as [Hs' Hx]. rewrite Forall_forall in Hy. split.
    + constructor; [done|]. apply Forall_forall. intros z Hz. apply Hy. apply elem_of_app in Hz as [Hz|Hz]; apply elem_of_app;
        [by left|right; by right].
    + intros Hin. apply elem_of_cons in Hin as [E|Hin]; [|done]. apply (str_lt_irrefl y). rewrite <- E at 2. apply Hy.
      apply elem_of_app. right. left.
Qed.

End ordered.

Section invariant.
Context `{OS} `{LzmaLib} `{ZstdLib}.

(** The entries are sorted by namespace and path, without two of the same; the
    unresolved redirects are the redirects among them; the MIME types are numbered
    both ways and every item has one; the clusters handed over are distinct,
    numbered in order, not empty, and none is one of the two open ones; the
    handlers know only entries of the pool. *)
Record well_kept (s : CreatorData) : Prop := {
  wk_ascii : ascii_pool (pool s);
  wk_known : forall d, d ∈ dirents s -> (d < length (pool s))%nat;
  wk_sorted : sorted_by (fun d => wkey (deref (pool s) d)) (dirents s);
  wk_unresolved : forall d, d ∈ unresolvedRedirectDirents s <-> d ∈ dirents s /\ WDirent.isRedirect (deref (pool s) d) = true;
  wk_unsorted : sorted_by (fun d => wkey (deref (pool s) d)) (unresolvedRedirectDirents s);
  wk_mimes : mimes_ok (mimeTypesMap s) (rmimeTypesMap s) (nextMimeIdx s);
  wk_items : forall d, d ∈ dirents s -> WDirent.isRedirect (deref (pool s) d) = false ->
    is_Some (rmimeTypesMap s !! WDirent.mimeType (deref (pool s) d));
  wk_clusters : forall c, c ∈ clustersList s ++ [compCluster s; uncompCluster s] -> (c < length (heap s))%nat;
  wk_distinct : NoDup (clustersList s ++ [compCluster s; uncompCluster s]);
  wk_open : Forall (fun c => WCluster.closed c = false) (heap s);
  wk_index : forall j c, clustersList s !! j = Some c ->
    WCluster.index (cluster_at s c) = u32 (Z.of_nat j) /\ WCluster.count (cluster_at s c) <> 0;
  wk_handlers : Forall (fun h => Forall (fun d => (d < length (pool s))%nat) (m_dirents h)) (m_direntHandlers s);
}.

Lemma well_kept_new c n : well_kept (CreatorData_new c n).
Proof.
  split; cbn [CreatorData_new pool dirents unresolvedRedirectDirents mimeTypesMap rmimeTypesMap nextMimeIdx clustersList compCluster
    uncompCluster heap m_direntHandlers app]; try done.
  - constructor.
  - intros d Hd. by apply not_elem_of_nil in Hd.
  - constructor.
  - intros d. split; [intros Hd; by apply not_elem_of_nil in Hd|]. by intros [Hd _].
  - constructor.
  - split; [intros x i; by rewrite !lookup_empty|intros i; rewrite lookup_empty|lia]. split; [by intros []|lia].
  - intros d Hd. by apply not_elem_of_nil in Hd.
  - intros c' Hc. apply elem_of_cons in Hc as [->|Hc]; [simpl; lia|]. apply list_elem_of_singleton in Hc as ->. simpl. lia.
  - apply (bool_decide_unpack _). by vm_compute.
  - by repeat constructor.
  - by repeat constructor.
Qed.

(** ** What leaves the invariant *)

Lemma deref_insert p n d x : (n < length p)%nat -> deref (<[n := d]> p) x = if decide (x = n) then d else deref p x.
Proof.
  intros Hn. unfold deref. destruct (decide (x = n)) as [->|Hne]; [by rewrite list_lookup_insert_eq|]. by rewrite list_lookup_insert_ne.
Qed.

Lemma sorted_by_same (k k' : nat -> bytes) l : (forall x, x ∈ l -> k' x = k x) -> sorted_by k l -> sorted_by k' l.
Proof. intros Hk. unfold sorted_by. by rewrite (sorted_by_ext k k' l Hk). Qed.

(** Another entry in place of entry [n], which may only change what the tables do not depend on once it is in the set. *)
Lemma well_kept_pool n d s :
  well_kept s -> (n < length (pool s))%nat -> 0 <= WDirent.ns d < 128 ->
  (n ∈ dirents s -> wkey d = wkey (deref (pool s) n) /\ WDirent.mimeType d = WDirent.mimeType (deref (pool s) n)) ->
  well_kept (with_pool (<[n := d]> (pool s)) s).
Proof.
  intros [Ha Hk Hs Hu Hus Hm Hi Hc Hd Ho Hx Hh] Hn Hns Hsame.
  assert (Hat : forall x, x ∈ dirents s -> wkey (deref (<[n := d]> (pool s)) x) = wkey (deref (pool s) x) /\
    WDirent.mimeType (deref (<[n := d]> (pool s)) x) = WDirent.mimeType (deref (pool s) x)).
  { intros x Hin. rewrite deref_insert by done. destruct (decide (x = n)) as [->|]; [by apply Hsame|done]. }
  assert (Hsub : forall x, x ∈ unresolvedRedirectDirents s -> x ∈ dirents s) by (intros x Hx'; by apply Hu).
  split; cbn [with_pool with_entries pool dirents unresolvedRedirectDirents mimeTypesMap rmimeTypesMap nextMimeIdx clustersList compCluster
    uncompCluster heap m_direntHandlers]; rewrite ?length_insert; try done.
  - by apply Forall_insert.
  - eapply sorted_by_same; [|exact Hs]. intros x Hx'. by apply Hat.
  - intros x. rewrite Hu. unfold WDirent.isRedirect. split; intros [Hin Hr]; (split; [done|]); by rewrite (proj2 (Hat x Hin)) in *.
  - eapply sorted_by_same; [|exact Hus]. intros x Hx'. by apply Hat, Hsub.
  - intros x Hin. unfold WDirent.isRedirect. rewrite (proj2 (Hat x Hin)). by apply Hi.
Qed.

Lemma well_kept_more d s : well_kept s -> 0 <= WDirent.ns d < 128 -> well_kept (with_pool (pool s ++ [d]) s).
Proof.
  intros [Ha Hk Hs Hu Hus Hm Hi Hc Hd Ho Hx Hh] Hns.
  assert (Hsub : forall x, x ∈ unresolvedRedirectDirents s -> x ∈ dirents s) by (intros x Hx'; by apply Hu).
  split; cbn [with_pool with_entries pool dirents unresolvedRedirectDirents mimeTypesMap rmimeTypesMap nextMimeIdx clustersList compCluster
    uncompCluster heap m_direntHandlers]; rewrite ?length_app; try done.
  - apply Forall_app. split; [done|]. by constructor.
  - intros x Hin. specialize (Hk x Hin). simpl. lia.
  - eapply sorted_by_same; [|exact Hs]. intros x Hin. by rewrite deref_app by by apply Hk.
  - intros x. rewrite Hu. split; intros [Hin Hr]; (split; [done|]); by rewrite deref_app in * by by apply Hk.
  - eapply sorted_by_same; [|exact Hus]. intros x Hin. by rewrite deref_app by by apply Hk, Hsub.
  - intros x Hin. rewrite deref_app by by apply Hk. by apply Hi.
  - eapply Forall_impl; [exact Hh|]. intros h Hall. eapply Forall_impl; [exact Hall|]. simpl. intros x Hx'. lia.
Qed.

Lemma well_kept_dirents ds us s :
  well_kept s -> (forall d, d ∈ ds -> (d < length (pool s))%nat) ->
  sorted_by (fun d => wkey (deref (pool s) d)) ds -> sorted_by (fun d => wkey (deref (pool s) d)) us ->
  (forall d, d ∈ us <-> d ∈ ds /\ WDirent.isRedirect (deref (pool s) d) = true) ->
  (forall d, d ∈ ds -> WDirent.isRedirect (deref (pool s) d) = false ->
    is_Some (rmimeTypesMap s !! WDirent.mimeType (deref (pool s) d))) ->
  well_kept (with_dirents ds us s).
Proof. intros [Ha Hk Hs Hu Hus Hm Hi Hc Hd Ho Hx Hh] ? ? ? ? ?. by split. Qed.

Lemma well_kept_stats a b c d e f s : well_kept s -> well_kept (with_stats a b c d e f s).
Proof. by intros []. Qed.

(** ** Calls *)

(** From a state with the invariant and [P], the call keeps the invariant, and [Q] holds when it succeeds. *)
Definition keeps {A} (P : CreatorData -> Prop) (m : stm CreatorData A) (Q : A -> CreatorData -> Prop) : Prop :=
  forall s, well_kept s -> P s -> well_kept (m s).2 /\ forall a, (m s).1 = Ok a -> Q a (m s).2.

Lemma keeps_bind {A B} P (m : stm CreatorData A) Q (k : A -> stm CreatorData B) R :
  keeps P m Q -> (forall a, keeps (Q a) (k a) R) -> keeps P (m ≫= k) R.
Proof.
  intros Hm Hk s Hs HP. destruct (Hm s Hs HP) as [Hs1 HQ]. unfold mbind, stm_bind. destruct (m s) as [[a| | |] s1]; simpl in *; try done.
  apply Hk; [done|]. by apply HQ.
Qed.

Lemma keeps_ret {A} (P : CreatorData -> Prop) (a : A) (Q : A -> CreatorData -> Prop) : (forall s, P s -> Q a s) -> keeps P (mret a) Q.
Proof. intros HQ s Hs HP. split; [done|]. intros b [= <-]. by apply HQ. Qed.

Lemma keeps_lift {A} (P : CreatorData -> Prop) (m : outcome A) : keeps P (lift m) (fun a s => P s /\ m = Ok a).
Proof. intros s Hs HP. split; [done|]. by intros a E. Qed.

Lemma keeps_gets {A B} P (g : CreatorData -> A) (k : A -> stm CreatorData B) R :
  (forall s0, keeps (fun s => P s /\ s = s0) (k (g s0)) R) -> keeps P (gets g ≫= k) R.
Proof. intros Hk s Hs HP. rewrite stm_gets. by apply (Hk s). Qed.

Lemma keeps_modify P (f : CreatorData -> CreatorData) (Q : unit -> CreatorData -> Prop) :
  (forall s, well_kept s -> P s -> well_kept (f s) /\ Q tt (f s)) -> keeps P (modify f) Q.
Proof. intros Hf s Hs HP. destruct (Hf s Hs HP). split; [done|]. by intros [] _. Qed.

Lemma keeps_pre {A} (P P' : CreatorData -> Prop) (m : stm CreatorData A) Q : (forall s, P s -> P' s) -> keeps P' m Q -> keeps P m Q.
Proof. intros HP Hm s Hs H'. apply Hm; auto. Qed.

Lemma keeps_post {A} (P : CreatorData -> Prop) (m : stm CreatorData A) (Q Q' : A -> CreatorData -> Prop) :
  (forall a s, Q a s -> Q' a s) -> keeps P m Q -> keeps P m Q'.
Proof. intros HQ Hm s Hs H'. destruct (Hm s Hs H') as [? Hq]. split; [done|]. intros a E. apply HQ, Hq, E. Qed.

Definition always : CreatorData -> Prop := fun _ => True.
Abbreviation done_any := (fun _ _ => True).

(** ** Entries *)

(** Entry [n] is in the pool and not yet in the set; [f] is what has been said of it. *)
Definition fresh_with (n : nat) (f : WDirent.t -> Prop) (s : CreatorData) : Prop :=
  (n < length (pool s))%nat /\ (n ∉ dirents s) /\ f (deref (pool s) n).

Lemma keeps_getDirent : keeps always pool_getDirent (fun n => fresh_with n (fun _ => True)).
Proof.
  intros s Hs _. unfold pool_getDirent. rewrite stm_gets. unfold id. rewrite stm_modify. split.
  - apply well_kept_more; [done|]. simpl. lia.
  - intros n [= <-]. unfold fresh_with. cbn [snd pool dirents with_pool with_entries mret stm_ret]. rewrite length_app. simpl. split_and!; [lia| |done].
    intros Hin. apply (wk_known _ Hs) in Hin. lia.
Qed.

Lemma keeps_on_dirent n (f : WDirent.t -> WDirent.t) (P Q : WDirent.t -> Prop) :
  (forall d, P d -> 0 <= WDirent.ns d < 128 -> Q (f d) /\ 0 <= WDirent.ns (f d) < 128) ->
  keeps (fresh_with n P) (on_dirent n f) (fun _ => fresh_with n Q).
Proof.
  intros Hf. apply keeps_modify. intros s Hs (Hn & Hin & HP).
  destruct (Hf _ HP (deref_ascii _ _ (wk_ascii _ Hs))) as [HQ Hns]. split; [by apply well_kept_pool|].
  unfold fresh_with. cbn [pool dirents with_pool with_entries]. rewrite length_insert, deref_insert by done. by rewrite decide_True.
Qed.

(** [addDirent]: a second entry with the same key is not added, unless it is an item that takes the place of a redirect. *)
Lemma keeps_addDirent n :
  keeps (fun s => fresh_with n (fun d => WDirent.isRedirect d = false -> is_Some (rmimeTypesMap s !! WDirent.mimeType d)) s)
    (addDirent n) (fun _ s => (n < length (pool s))%nat).
Proof.
  intros s Hs (Hn & Hin & Hmime). pose proof Hs as [Ha Hk Hsd Hu Hus Hm Hi Hc Hd Ho Hx Hh].
  set (key := fun d => wkey (deref (pool s) d)). pose proof (fun x y => UrlCompare_key (pool s) x y Ha) as Hless.
  assert (Hsub : unresolvedRedirectDirents s ⊆ dirents s) by (intros x Hx'; by apply Hu).
  destruct (decide (key n ∈ map key (dirents s))) as [Hkey|Hkey].
  - apply list_elem_of_fmap in Hkey as (y & Ey & Hy). unfold addDirent. rewrite stm_gets. unfold id.
    rewrite (set_insert_present key _ Hless n y (dirents s) Hsd Hy) by done.
    destruct (WDirent.isRedirect (deref (pool s) y)) eqn:Ry; [|by split].
    destruct (WDirent.isRedirect (deref (pool s) n)) eqn:Rn; [by split|]. cbn [andb negb]. specialize (Hmime eq_refl).
    destruct (set_erase_present key _ Hless y (dirents s) Hsd Hy) as (l1 & l2 & El & Ed).
    destruct (set_erase_present key _ Hless y (unresolvedRedirectDirents s) Hus) as (u1 & u2 & Eu & Eu'); [by apply Hu|].
    assert (Hsd' := Hsd). rewrite El in Hsd'. destruct (sorted_by_sub key _ _ _ Hsd') as [Hs1 Hk1].
    assert (Hus' := Hus). rewrite Eu in Hus'. destruct (sorted_by_sub key _ _ _ Hus') as [Hs2 Hk2].
    destruct (set_insert_fresh key _ Hless n (l1 ++ l2) Hs1) as (ds & Ei & Hp & Hs3); [by rewrite Ey|].
    assert (Hnk : forall x l, key x ∉ map key l -> x ∉ l) by (intros x l Hnot Hxl; apply Hnot; by apply list_elem_of_In, in_map, list_elem_of_In).
    assert (Hmem : forall x, x ∈ l1 ++ l2 <-> x ∈ dirents s /\ x <> y).
    { intros x. rewrite El. split.
      - intros Hx'. split; [apply elem_of_app in Hx' as [?|?]; apply elem_of_app; [by left|right; by right]|]. intros ->. by apply (Hnk y _ Hk1).
      - intros [Hx' Hne]. apply elem_of_app in Hx' as [?|Hx']; apply elem_of_app; [by left|]. apply elem_of_cons in Hx' as [->|?]; [done|by right]. }
    assert (Humem : forall x, x ∈ u1 ++ u2 <-> x ∈ unresolvedRedirectDirents s /\ x <> y).
    { intros x. rewrite Eu. split.
      - intros Hx'. split; [apply elem_of_app in Hx' as [?|?]; apply elem_of_app; [by left|right; by right]|]. intros ->. by apply (Hnk y _ Hk2).
      - intros [Hx' Hne]. apply elem_of_app in Hx' as [?|Hx']; apply elem_of_app; [by left|]. apply elem_of_cons in Hx' as [->|?]; [done|by right]. }
    rewrite Ed, Eu'. unfold mbind, stm_bind, modify, mret, stm_ret. cbn [fst snd andb]. rewrite Ei. cbn [fst].
    rewrite ?Rn. cbn [fst snd]. split; [|by intros []].
    apply well_kept_dirents; [done| |done|done| |].
    + intros x Hx'. rewrite Hp in Hx'. apply elem_of_cons in Hx' as [->|Hx']; [done|]. apply Hk. by apply Hmem in Hx' as [? _].
    + intros x. rewrite Humem, Hp, elem_of_cons, Hmem, Hu. split.
      * intros ((Hx1 & Hx2) & Hne). split; [right; by split|done].
      * intros ([->|(Hx1 & Hne)] & Hr); [congruence|by split].
    + intros x Hx' Hr. rewrite Hp in Hx'. apply elem_of_cons in Hx' as [->|Hx']; [done|]. apply Hi; [|done]. by apply Hmem in Hx' as [? _].
  - destruct (addDirent_ok n s Ha Hsd Hus Hsub Hkey) as (ds & us & a & b & c & d & e & f & E & Hp & Hs1 & Hs2 & Hp2).
    rewrite E. cbn [fst snd]. split; [|by intros []]. apply well_kept_stats, well_kept_dirents; [done| |done|done| |].
    + intros x Hx'. rewrite Hp in Hx'. apply elem_of_cons in Hx' as [->|Hx']; [done|by apply Hk].
    + intros x. rewrite Hp, elem_of_cons. destruct (WDirent.isRedirect (deref (pool s) n)) eqn:Rn; rewrite Hp2.
      * rewrite elem_of_cons, Hu. split; [intros [->|[? ?]]; (split; [by auto|done])|intros [[->|?] ?]; auto].
      * rewrite Hu. split; [intros [? ?]; split; [by right|done]|]. intros ([->|?] & Hr); [congruence|by split].
    + intros x Hx' Hr. rewrite Hp in Hx'. apply elem_of_cons in Hx' as [->|Hx']; [by apply Hmime|by apply Hi].
Qed.

Lemma well_kept_mimes m r n s :
  well_kept s -> mimes_ok m r n -> rmimeTypesMap s ⊆ r -> well_kept (with_mimes m r (mimeTypesList s) n s).
Proof.
  intros [Ha Hk Hsd Hu Hus Hm Hi Hc Hd Ho Hx Hh] Hok Hsub.
  split; cbn [with_mimes pool dirents unresolvedRedirectDirents mimeTypesMap rmimeTypesMap nextMimeIdx clustersList compCluster
    uncompCluster heap m_direntHandlers]; try done. intros d Hin Hr. destruct (Hi d Hin Hr) as [x Hx']. exists x. by eapply lookup_weaken.
Qed.

Definition registered (i : Z) (s : CreatorData) : Prop := is_Some (rmimeTypesMap s !! i).

Lemma keeps_getMimeTypeIdx n P mime :
  keeps (fresh_with n P) (getMimeTypeIdx mime) (fun i s => fresh_with n P s /\ registered i s).
Proof.
  intros s Hs HP. pose proof Hs as [Ha Hk Hsd Hu Hus Hm Hi Hc Hd Ho Hx Hh].
  destruct (decide (mime ∈ dom (mimeTypesMap s) \/ nextMimeIdx s < 65535)) as [Hroom|Hfull].
  - destruct (getMimeTypeIdx_ok mime s Hm Hroom) as (i & m & r & k & E & Hok & Hri & Hsub & _). rewrite E. cbn [fst snd]. split.
    + by apply well_kept_mimes.
    + intros j [= <-]. split; [exact HP|by exists mime].
  - assert (E : exists e, getMimeTypeIdx mime s = (Throw e, s)).
    { unfold getMimeTypeIdx. rewrite stm_gets. unfold id. destruct (mimeTypesMap s !! mime) eqn:E;
        [exfalso; apply Hfull; left; apply elem_of_dom; by eexists|]. rewrite (proj2 (Z.leb_le 65535 _)) by lia. by eexists. }
    destruct E as [e ->]. by split.
Qed.

Lemma keeps_set_mime n P i :
  keeps (fun s => fresh_with n P s /\ registered i s) (on_dirent n (fun d => WDirent.setMimeType d i))
    (fun _ => fun s => fresh_with n (fun d => WDirent.mimeType d = i) s /\ registered i s).
Proof.
  apply keeps_modify. intros s Hs ((Hn & Hin & HP) & Hr). pose proof (deref_ascii _ n (wk_ascii _ Hs)) as Hns. split; [by apply well_kept_pool|].
  split; [|exact Hr]. unfold fresh_with. cbn [pool dirents with_pool with_entries]. rewrite length_insert, deref_insert by done. by rewrite decide_True.
Qed.

Lemma keeps_set_title n i title :
  keeps (fun s => fresh_with n (fun d => WDirent.mimeType d = i) s /\ registered i s) (on_dirent n (fun d => WDirent.setTitle d title))
    (fun _ => fun s => fresh_with n (fun d => WDirent.isRedirect d = false -> is_Some (rmimeTypesMap s !! WDirent.mimeType d)) s).
Proof.
  apply keeps_modify. intros s Hs ((Hn & Hin & HP) & Hr). pose proof (deref_ascii _ n (wk_ascii _ Hs)) as Hns. split; [by apply well_kept_pool|].
  unfold fresh_with. cbn [pool dirents with_pool with_entries rmimeTypesMap]. rewrite length_insert, deref_insert, decide_True by done.
  split_and!; [done|done|]. intros _. cbn [WDirent.mimeType WDirent.setTitle]. rewrite HP. exact Hr.
Qed.

Definition in_pool (n : nat) (s : CreatorData) : Prop := (n < length (pool s))%nat.

Lemma keeps_createDirent ns path mime title : 0 <= ns < 128 -> keeps always (createDirent ns path mime title) in_pool.
Proof.
  intros Hns. unfold createDirent. eapply keeps_bind; [exact keeps_getDirent|]. intros n.
  eapply keeps_bind; [apply (keeps_on_dirent n _ _ (fun _ => True)); intros; by split|]. intros ?.
  eapply keeps_bind; [apply (keeps_on_dirent n _ _ (fun _ => True)); intros; by split|]. intros ?.
  eapply keeps_bind; [apply keeps_getMimeTypeIdx|]. intros i.
  eapply keeps_bind; [apply keeps_set_mime|]. intros ?. eapply keeps_bind; [apply keeps_set_title|]. intros ?.
  eapply keeps_bind; [apply keeps_addDirent|]. intros ?. apply keeps_ret. by intros s.
Qed.

Lemma keeps_createRedirectDirent ns path title tns tpath : 0 <= ns < 128 -> keeps always (createRedirectDirent ns path title tns tpath) in_pool.
Proof.
  intros Hns. unfold createRedirectDirent. eapply keeps_bind; [exact keeps_getDirent|]. intros n.
  do 5 (eapply keeps_bind; [apply (keeps_on_dirent n _ _ (fun _ => True)); intros; by split|]; intros ?).
  eapply keeps_bind; [apply (keeps_on_dirent n _ _ (fun d => WDirent.isRedirect d = true)); intros; by split|]. intros ?.
  eapply (keeps_bind _ _ (fun _ => in_pool n)); [|intros ?; by apply keeps_ret].
  eapply keeps_pre; [|apply keeps_addDirent]. intros s (? & ? & Hr). split_and!; [done|done|]. congruence.
Qed.

(** ** Contents *)

Lemma well_kept_heap c x e n s :
  well_kept s -> (c < length (heap s))%nat -> WCluster.closed x = false -> WCluster.index x = WCluster.index (cluster_at s c) ->
  c ∉ clustersList s ->
  well_kept (with_heap (<[c := x]> (heap s)) (clustersList s) (compCluster s) (uncompCluster s) e n s).
Proof.
  intros [Ha Hk Hsd Hu Hus Hm Hi Hc Hd Ho Hx Hh] Hlt Hcl Hix Hnot.
  split; cbn [with_heap pool dirents unresolvedRedirectDirents mimeTypesMap rmimeTypesMap nextMimeIdx clustersList compCluster
    uncompCluster heap m_direntHandlers]; rewrite ?length_insert; try done.
  - by apply Forall_insert.
  - intros j c' Hj. unfold cluster_at. cbn [heap with_heap]. rewrite list_lookup_insert_ne; [by apply Hx|].
    intros ->. apply Hnot. by eapply list_elem_of_lookup_2.
Qed.

Lemma active_facts s cc : well_kept s -> (active cc s < length (heap s))%nat /\ (active cc s ∉ clustersList s) /\
  WCluster.closed (cluster_at s (active cc s)) = false.
Proof.
  intros [_ _ _ _ _ _ _ Hc Hd Ho _ _]. assert (Hin : active cc s ∈ [compCluster s; uncompCluster s]) by (destruct cc; [left|right; left]).
  assert (Hlt : (active cc s < length (heap s))%nat) by (apply Hc; apply elem_of_app; by right). split_and!; [done| |].
  - apply NoDup_app in Hd as (_ & Hd & _). intros Hl. exact (Hd _ Hl Hin).
  - destruct (lookup_lt_is_Some_2 (heap s) (active cc s) Hlt) as [x Hx]. rewrite (cluster_at_lookup _ _ _ Hx).
    rewrite Forall_lookup in Ho. by apply (Ho (active cc s)).
Qed.

Lemma keeps_closeCluster n cc :
  keeps (fun s => in_pool n s /\ WCluster.count (cluster_at s (active cc s)) <> 0) (closeCluster cc)
    (fun c s => in_pool n s /\ c = active cc s).
Proof.
  intros s Hs (Hn & Hcount). destruct (active_facts s cc Hs) as (Hlt & Hnot & Hcl). pose proof Hs as [Ha Hk Hsd Hu Hus Hm Hi Hc Hd Ho Hx Hh].
  unfold closeCluster. rewrite stm_gets. unfold id. fold (active cc s). rewrite stm_modify, stm_modify. cbn [fst snd mret stm_ret].
  set (c := WCluster.setClusterIndex _ _). set (fresh := WCluster.new _).
  cbn [heap clustersList compCluster uncompCluster isEmpty isExtended with_stats].
  assert (Hfresh : length (heap s) ∉ clustersList s ++ [compCluster s; uncompCluster s]) by (intros Hin; apply Hc in Hin; lia).
  split; [|intros a [= <-]; split; [exact Hn|by destruct cc]].
  split; cbn [with_heap with_stats pool dirents unresolvedRedirectDirents mimeTypesMap rmimeTypesMap nextMimeIdx clustersList compCluster
    uncompCluster heap m_direntHandlers]; try done.
  - intros x Hin. rewrite length_app, length_insert. simpl.
    assert (Hx' : x ∈ clustersList s ++ [compCluster s; uncompCluster s] \/ x = length (heap s)).
    { rewrite <- app_assoc in Hin. apply elem_of_app in Hin as [?|Hin]; [left; apply elem_of_app; by left|]. unfold active in Hin.
      destruct cc; repeat (apply elem_of_cons in Hin as [->|Hin]); try (by apply not_elem_of_nil in Hin); try (by right);
        left; apply elem_of_app; right; (left || (right; left)). }
    destruct Hx' as [Hx'| ->]; [apply Hc in Hx'; lia|lia].
  - assert (Hp : (clustersList s ++ [active cc s]) ++ [if cc then length (heap s) else compCluster s; if cc then uncompCluster s else length (heap s)]
      ≡ₚ length (heap s) :: clustersList s ++ [compCluster s; uncompCluster s]).
    { rewrite <- app_assoc. cbn [app]. rewrite Permutation_middle. apply Permutation_app_head. unfold active. destruct cc; solve_Permutation. }
    rewrite Hp. by constructor.
  - apply Forall_app. split; [apply Forall_insert; [done|exact Hcl]|]. by constructor.
  - intros j x Hj. unfold cluster_at. cbn [heap with_heap with_stats]. apply lookup_app_Some in Hj as [Hj|[Hj Hx']].
    + assert (Hin : x ∈ clustersList s) by by eapply list_elem_of_lookup_2.
      assert (Hxl : (x < length (heap s))%nat) by (apply Hc, elem_of_app; by left).
      rewrite lookup_app_l by by rewrite length_insert. rewrite list_lookup_insert_ne by congruence. by apply Hx.
    + apply list_lookup_singleton_Some in Hx' as [Hj' <-]. rewrite lookup_app_l by by rewrite length_insert.
      rewrite list_lookup_insert_eq by done. cbn [default]. unfold c. split; [|exact Hcount].
      change (u32 (Zlen (clustersList s)) = u32 (Z.of_nat j)). f_equal. unfold Zlen. lia.
Qed.

Lemma keeps_addItemData n p cc : keeps (in_pool n) (addItemData n p cc) (fun _ => in_pool n).
Proof.
  unfold addItemData. cbv zeta. eapply (keeps_bind _ _ (fun _ => in_pool n)).
  { apply keeps_modify. intros s Hs Hn. split; [|exact Hn]. by destruct Hs. }
  intros ?. apply keeps_gets. intros s0. unfold id. fold (active cc s0).
  eapply (keeps_bind _ _ (fun c s => in_pool n s /\ c = active cc s)).
  { destruct (Z.eqb_spec (WCluster.count (cluster_at s0 (active cc s0))) 0) as [|Hne]; cbn [negb].
    - apply keeps_ret. by intros s [? ->].
    - eapply keeps_bind; [apply keeps_lift|]. intros z. destruct (_ <=? _).
      + eapply keeps_pre; [|apply (keeps_closeCluster n)]. by intros s [[? ->] _].
      + apply keeps_ret. by intros s [[? ->] _]. }
  intros c. apply keeps_gets. intros s1. unfold id.
  eapply keeps_bind; [apply keeps_lift|]. intros d.
  eapply (keeps_bind _ _ (fun _ s => c = active cc s /\ in_pool n s)).
  { apply keeps_modify. intros s Hs (((Hn & ->) & ->) & Hd). split;
      [|split; [done|unfold in_pool; cbn [pool with_pool with_entries]; by rewrite length_insert]].
    assert (Hsame : WDirent.ns d = WDirent.ns (deref (pool s1) n) /\ wkey d = wkey (deref (pool s1) n) /\
      WDirent.mimeType d = WDirent.mimeType (deref (pool s1) n)).
    { unfold WDirent.setCluster in Hd. destruct (WDirent.isItem _); [|done]. injection Hd as <-. done. }
    destruct Hsame as (Ens & Ekey & Emime). apply well_kept_pool; [done|exact Hn| |done].
    rewrite Ens. apply deref_ascii, Hs. }
  intros ?. eapply (keeps_bind _ _ (fun _ => in_pool n)).
  { apply keeps_modify. intros s Hs [-> Hn]. split; [|exact Hn]. destruct (active_facts s cc Hs) as (Hlt & Hnot & Hcl). by apply well_kept_heap. }
  intros ?. apply keeps_modify. intros s Hs Hn. split; [by apply well_kept_stats|exact Hn].
Qed.

Lemma keeps_handle n hints : keeps (in_pool n) (handle n hints) done_any.
Proof.
  apply keeps_modify. intros s Hs Hn. split; [|done]. destruct Hs as [Ha Hk Hsd Hu Hus Hm Hi Hc Hd Ho Hx Hh].
  split; try done. cbn [m_direntHandlers with_handlers pool]. apply Forall_map. eapply Forall_impl; [exact Hh|].
  intros h Hall. unfold handler_handle. destruct (_ || _); [|done]. cbn [m_dirents]. apply Forall_app. split; [done|]. by constructor.
Qed.


(** ** What a call does to the set *)

Lemma keeps_add a : keeps always (add a) done_any.
Proof.
  destruct a as [item|name p mime|path title target hints]; cbn [add].
  - unfold addItem, createItemDirent. cbv zeta. eapply keeps_bind; [by apply keeps_createDirent|]. intros n.
    eapply keeps_bind; [apply keeps_lift|]. intros p. eapply keeps_bind; [|intros ?; apply keeps_handle].
    eapply keeps_pre; [|apply (keeps_addItemData n)]. by intros s [? _].
  - unfold addMetadata. eapply keeps_bind; [by apply keeps_createDirent|]. intros n.
    eapply keeps_bind; [apply keeps_addItemData|]. intros ?. apply keeps_handle.
  - unfold addRedirection. eapply keeps_bind; [by apply keeps_createRedirectDirent|]. intros n. apply keeps_handle.
Qed.

(** The calls one after the other; the program goes on after an exception. *)
Definition attempts (l : list addition) (s : CreatorData) : CreatorData := fold_left (fun s a => (add a s).2) l s.

Lemma attempts_kept l s : well_kept s -> well_kept (attempts l s).
Proof. revert s. induction l as [|a l IH]; intros s Hs; [done|]. apply IH. by apply keeps_add. Qed.

(** A content added to an entry of the pool. *)
Lemma addItemData_runs n p cc s :
  well_kept s -> in_pool n s -> WDirent.isItem (deref (pool s) n) = true ->
  exists s' d, addItemData n p cc s = (Ok tt, s') /\ pool s' = <[n := d]> (pool s) /\ dirents s' = dirents s /\
    m_direntHandlers s' = m_direntHandlers s /\ WDirent.idx d = WDirent.idx (deref (pool s) n) /\
    WDirent.removed d = WDirent.removed (deref (pool s) n).
Proof.
  intros Hs Hn Hitem. unfold addItemData. rewrite stm_modify, stm_gets. unfold id. cbv zeta. fold (active cc s).
  set (s0 := with_heap _ _ _ _ (isEmpty s && _) _ s). destruct (active_facts s cc Hs) as (_ & _ & Hcl).
  assert (Hroom : exists s1 c, (if negb (WCluster.count (cluster_at s0 (active cc s0)) =? 0) then
      size ← lift (WCluster.size (cluster_at s0 (active cc s0)));
      if u64 (minChunkSize s0 * 1024) <=? u64 (size + WCluster.getSize p) then closeCluster cc else mret (active cc s0)
    else mret (active cc s0)) s0 = (Ok c, s1) /\ pool s1 = pool s /\ dirents s1 = dirents s /\ m_direntHandlers s1 = m_direntHandlers s).
  { assert (Hsame : exists s1 c, (mret (active cc s0) : stm CreatorData nat) s0 = (Ok c, s1) /\ pool s1 = pool s /\ dirents s1 = dirents s /\
      m_direntHandlers s1 = m_direntHandlers s) by by eexists _, _.
    destruct (negb (WCluster.count _ =? 0)); [|exact Hsame]. unfold WCluster.size. change (cluster_at s0 (active cc s0)) with (cluster_at s (active cc s)).
    rewrite Hcl. erewrite stm_lift_Ok by done. destruct (_ <=? _); [|exact Hsame]. eexists _, _.
    split; [unfold closeCluster; rewrite stm_gets, stm_modify, stm_modify; reflexivity|]. by split_and!. }
  destruct Hroom as (s1 & c & E & Ep & Ed & Eh). fold (active cc s0). erewrite stm_bind_Ok by exact E. rewrite stm_gets. unfold id.
  rewrite Ep. unfold WDirent.setCluster. rewrite Hitem. cbn [ASSERT mbind outcome_bind mret outcome_ret]. erewrite stm_lift_Ok by done.
  rewrite stm_modify, stm_modify. unfold modify. eexists _, _. split; [reflexivity|].
  cbn [with_stats with_heap with_pool with_entries pool dirents m_direntHandlers]. rewrite Ep. done.
Qed.

Lemma addDirent_twice n y s :
  well_kept s -> y ∈ dirents s -> wkey (deref (pool s) y) = wkey (deref (pool s) n) -> WDirent.isRedirect (deref (pool s) y) = false ->
  addDirent n s = (Ok tt, s).
Proof.
  intros Hs Hy Ey Ry. pose proof (fun x y => UrlCompare_key (pool s) x y (wk_ascii _ Hs)) as Hless.
  unfold addDirent. rewrite stm_gets. unfold id.
  rewrite (set_insert_present (fun d => wkey (deref (pool s) d)) _ Hless n y (dirents s) (wk_sorted _ Hs) Hy Ey). by rewrite Ry.
Qed.

(** The entry made for an item whose path another item has. *)
Lemma createDirent_twice ns path mime title y s :
  well_kept s -> y ∈ dirents s -> wkey (deref (pool s) y) = ns :: path -> WDirent.isRedirect (deref (pool s) y) = false ->
  0 <= ns < 128 -> mime ∈ dom (mimeTypesMap s) \/ nextMimeIdx s < 65535 ->
  exists s' d, createDirent ns path mime title s = (Ok (length (pool s)), s') /\ well_kept s' /\ pool s' = pool s ++ [d] /\
    dirents s' = dirents s /\ m_direntHandlers s' = m_direntHandlers s /\
    WDirent.isItem d = true /\ WDirent.idx d = 0 /\ WDirent.removed d = false.
Proof.
  intros Hs Hy Ekey Ry Hns Hroom. unfold createDirent. erewrite stm_bind_Ok by apply pool_getDirent_eq.
  do 2 (erewrite stm_bind_Ok by apply on_dirent_last). set (q := pool s ++ [_]).
  destruct (getMimeTypeIdx_ok mime (with_pool q s) (wk_mimes _ Hs)) as (i & m & r & n & E & Hm & Hi & Hr & _); [done|].
  erewrite stm_bind_Ok by exact E. cbn [mimeTypesList with_pool with_entries] in *.
  change (with_mimes m r (mimeTypesList s) n (with_pool q s)) with (with_pool q (with_mimes m r (mimeTypesList s) n s)).
  unfold q. do 2 (erewrite stm_bind_Ok by apply on_dirent_last). cbv beta. set (d := WDirent.setTitle _ _).
  set (s1 := with_pool (pool s ++ [d]) (with_mimes m r (mimeTypesList s) n s)).
  assert (Hs1 : well_kept s1) by exact (well_kept_more d _ (well_kept_mimes m r n s Hs Hm Hr) Hns).
  assert (Hlast : deref (pool s1) (length (pool s)) = d) by (apply deref_lookup; by apply list_lookup_middle).
  assert (Hfirst : deref (pool s1) y = deref (pool s) y).
  { unfold s1. cbn [pool with_pool with_entries with_mimes]. apply deref_app. by apply Hs. }
  erewrite stm_bind_Ok by (apply (addDirent_twice _ y s1 Hs1 Hy); [rewrite Hfirst, Hlast; exact Ekey|by rewrite Hfirst]).
  exists s1, d. split_and!; try done. unfold WDirent.isItem, WDirent.isRedirect, d. cbn [WDirent.mimeType WDirent.setTitle WDirent.setMimeType].
  pose proof (mimes_ok_range _ _ _ Hm i mime Hi). unfold WDirent.redirectMimeType. by rewrite (proj2 (Z.eqb_neq i 65535)) by lia.
Qed.

End invariant.

(** * Properties *)

(** C11. The state of the creator stays well formed: whatever is added, in whatever
    order, twice or with a provider that fails, and if the program goes on after an exception, the
    entries are sorted without duplicates, the unresolved redirects are the
    redirects among them, every item has a MIME type, the clusters handed over
    are distinct, numbered in order and not empty, and none of them is filled any more. *)
Theorem creator_state_kept `{OS} `{LzmaLib} `{ZstdLib} (c : Creator) (l : list addition) : well_kept (attempts l (startZimCreation c)).
Proof. apply attempts_kept, well_kept_new. Qed.

(** A second item of the same path is dropped from the entries, but its entry
    stays with the handlers: [addItem] succeeds, the set of entries is the same, and the title
    listing of all entries ends with an entry that is not in the set and so never gets an index: it is listed as entry 0. *)
Theorem duplicate_item_listed `{OS} `{LzmaLib} `{ZstdLib} (c : Creator) (l : list addition) (item : WItem) p y :
  let s := attempts l (startZimCreation c) in
  let mime := if bool_decide (getMimeType item = []) then lit "application/octet-stream" else getMimeType item in
  y ∈ dirents s -> wkey (deref (pool s) y) = chr "C" :: getPath item -> WDirent.isRedirect (deref (pool s) y) = false ->
  getContentProvider item = Ok p -> mime ∈ dom (mimeTypesMap s) \/ nextMimeIdx s < 65535 ->
  exists s' n, addItem item s = (Ok tt, s') /\ dirents s' = dirents s /\ (n ∉ dirents s') /\
    WDirent.idx (deref (pool s') n) = 0 /\ WDirent.removed (deref (pool s') n) = false /\
    forall k h, m_direntHandlers s !! k = Some h -> h_v1 h = false ->
      exists h', m_direntHandlers s' !! k = Some h' /\ m_dirents h' = m_dirents h ++ [n].
Proof.
  intros s mime Hy Ekey Ry Hp Hroom. assert (Hs : well_kept s) by apply attempts_kept, well_kept_new.
  destruct (createDirent_twice (chr "C") (getPath item) mime (getTitle item) y s) as (s1 & d & E1 & Hs1 & Ep & Ed & Eh & Hitem & Hidx & Hrem);
    [done..|]. set (n := length (pool s)) in *.
  assert (Hd : deref (pool s1) n = d) by (apply deref_lookup; rewrite Ep; by apply list_lookup_middle).
  assert (Hn : in_pool n s1) by (unfold in_pool; rewrite Ep, length_app; simpl; lia).
  set (cc := match hint_at COMPRESS (getHints item) with Some v => negb (v =? 0) | None => isCompressibleMimetype (getMimeType item) end).
  destruct (addItemData_runs n p cc s1 Hs1 Hn) as (s2 & d2 & E2 & Ep2 & Ed2 & Eh2 & Hidx2 & Hrem2); [by rewrite Hd|].
  assert (Hd2 : deref (pool s2) n = d2) by (rewrite Ep2; apply deref_lookup; by apply list_lookup_insert_eq).
  eexists _, n. split.
  { unfold addItem, createItemDirent. fold cc. erewrite stm_bind_Ok by exact E1. erewrite stm_lift_Ok by exact Hp.
    erewrite stm_bind_Ok by exact E2. reflexivity. }
  cbn [with_handlers dirents pool m_direntHandlers]. rewrite Hd2, Hidx2, Hrem2, Hd, Ed2, Ed, Eh2, Eh. split_and!; try done.
  - intros Hin. apply (wk_known _ Hs) in Hin. unfold n in Hin. lia.
  - intros k h Hk Hv. exists (handler_handle n (getHints item) h). split; [exact (map_lookup_Some _ _ _ _ Hk)|].
    unfold handler_handle. by rewrite Hv.
Qed.

(** * Witness *)

#[local] Existing Instance two_parts.
#[local] Existing Instance copy_lzma.
#[local] Existing Instance copy_zstd.

Definition page_of (text : string) : WItem :=
  mkWItem (lit "a") [] (lit "text/html") (mret (SharedStringProvider_new (lit text))) [].

Lemma duplicate_item_listed_witness :
  let s := attempts [AddItem (page_of "one")] (startZimCreation (Creator_new (repeat 7 16))) in
  exists s' n, addItem (page_of "two") s = (Ok tt, s') /\ dirents s' = [0%nat] /\ (n ∉ dirents s') /\
    m_dirents (handler_at s' 0) = [0%nat; n].
Proof.
  intros s. destruct (duplicate_item_listed (Creator_new (repeat 7 16)) [AddItem (page_of "one")] (page_of "two")
    (SharedStringProvider_new (lit "two")) 0%nat) as (s' & n & E & Ed & Hn & _ & _ & Hh).
  - by vm_compute; left.
  - by vm_compute.
  - by vm_compute.
  - done.
  - by right.
  - exists s', n. fold s in E, Ed, Hh. split; [exact E|]. split; [exact Ed|]. split; [exact Hn|].
    destruct (Hh 0%nat (mkHandler false [0%nat] None)) as (h' & Hh' & Hm); [by vm_compute|done|].
    unfold handler_at. rewrite Hh'. exact Hm.
Defined.
