(* ===== verification/Finishing.v ===== *)
(** The end of the creation ([Creator::finishZimCreation] up to the writing): the
    entries the creator adds itself, the redirects, the indices of the entries and
    of the MIME types, the title listings and the last clusters.

    Each stage is a transition on [building], and leaves a fact the writer
    relies on: [resolved], [numbered], [mimes_final]. *)

From Stdlib Require Import Ascii.
From stdpp Require Import gmap sorting strings.
From S2P Require Import Prelude.
From S2P Require Import Types.
From S2P Require Import Readers.
From S2P Require Import Files.
From S2P Require Import Compression.
From S2P Require Import Streams.
From S2P Require Import Dirent.
From S2P Require Import WDirent.
From S2P Require Import Cluster.
From S2P Require Import WCluster.
From S2P Require Import Lookup.
From S2P Require Import Tools.
From S2P Require Import Workers.
From S2P Require Import Creator.
From S2P Require Import Building.

(** * What the stages establish *)

(** The entries [create_mandatory] adds, and the entry of the main page, [n] entries being there already. *)
Definition mandatory (c : Creator) : list wentry :=
  (if bool_decide (m_faviconPath c = []) then []
   else [mkWEntry (chr "W") (lit "favicon") [] (KRedirect (chr "C") (m_faviconPath c))]) ++
  (if bool_decide (m_mainPath c = []) then []
   else [mkWEntry (chr "W") (lit "mainPage") [] (KRedirect (chr "C") (m_mainPath c))]).

Definition main_entry (n : nat) (c : Creator) : option nat :=
  if bool_decide (m_mainPath c = []) then None
  else Some (n + (if bool_decide (m_faviconPath c = []) then 0 else 1))%nat.

(** The entry of a title listing. *)
Definition listing_entry (v1 : bool) (data : option bytes) : wentry :=
  mkWEntry (chr "X") (if v1 then lit "listing/titleOrdered/v1" else lit "listing/titleOrdered/v0") []
    (KItem (lit "application/octet-stream+zimlisting") data).

(** The entries of the indexes, with their contents. *)
Definition index_entry (x : bytes * option bytes) : wentry :=
  mkWEntry (chr "X") x.1 [] (KItem (lit "application/octet-stream+xapian") x.2).

(** An index handler, and the path and the content of its entry. *)
Definition index_is `{OS} (h : IndexHandler) (x : bytes * bytes) : Prop :=
  ih_path h = x.1 /\ exists p, ih_provider h = Ok p /\ provides p x.2.

Definition no_data (xs : list (bytes * bytes)) : list (bytes * option bytes) := map (fun x => (x.1, None)) xs.
Definition with_data (xs : list (bytes * bytes)) : list (bytes * option bytes) := map (fun x => (x.1, Some x.2)) xs.

(** Every redirect is bound to the entry it names. *)
Definition resolved (es : list wentry) (s : CreatorData) : Prop :=
  forall i e ns path, es !! i = Some e -> we_kind e = KRedirect ns path ->
    exists j e', es !! j = Some e' /\ we_key e' = ns :: path /\ WDirent.info (deref (pool s) i) = WDirent.RedirectInfo j.

(** Every entry knows its place. *)
Definition numbered (s : CreatorData) : Prop :=
  forall i d, dirents s !! i = Some d -> WDirent.idx (deref (pool s) d) = Z.of_nat i.

(** The MIME types are listed in the order of their indices. *)
Definition mimes_final (r : gmap Z bytes) (s : CreatorData) : Prop :=
  forall i x, r !! i = Some x <-> 0 <= i /\ mimeTypesList s !! Z.to_nat i = Some x.

Section finishing.
Context `{OS} `{LzmaLib} `{ZstdLib} {comp : CompressionType} {chunk : Z}.

Abbreviation building := (building comp chunk).

(** ** Changing entries *)

Lemma building_pool r r' es cs hs mp s p :
  building r es cs hs mp s -> Forall2 (dirent_is r' cs) es p -> (forall i x, r' !! i = Some x -> 0 <= i < 65535) ->
  building r' es cs hs mp (with_pool p s).
Proof.
  intros Hb Hp Hr.
  assert (Hkey : forall l, l ⊆ dirents s -> map (fun d => wkey (deref p d)) l = map (fun d => wkey (deref (pool s) d)) l).
  { intros l Hl. apply sorted_by_ext. intros x Hx. apply Hl in Hx. rewrite (bd_dirents _ _ _ _ _ _ Hb) in Hx.
    apply elem_of_seq in Hx. destruct (lookup_lt_is_Some_2 es x) as [e He]; [lia|].
    by rewrite (deref_key _ _ _ _ _ _ Hp He), (deref_key _ _ _ _ _ _ (bd_pool _ _ _ _ _ _ Hb) He). }
  assert (Hsub : unresolvedRedirectDirents s ⊆ dirents s).
  { intros x Hx. apply (bd_redirects _ _ _ _ _ _ Hb) in Hx as (e' & He & _).
    rewrite (bd_dirents _ _ _ _ _ _ Hb). apply elem_of_seq. apply lookup_lt_Some in He. lia. }
  pose proof Hb as []. split; try done; unfold sorted_by.
  - by rewrite Hkey.
  - by rewrite Hkey.
Qed.

Lemma mimes_open_pool r es s p : mimes_open r es s -> mimes_open r es (with_pool p s).
Proof. by intros []. Qed.

(** The entries stay what they are when one is replaced by one that is the same entry. *)
Lemma pool_insert r cs es p i e d :
  Forall2 (dirent_is r cs) es p -> es !! i = Some e -> dirent_is r cs e d -> Forall2 (dirent_is r cs) es (<[i := d]> p).
Proof. intros Hp He Hd. rewrite <- (list_insert_id es i e He). by apply Forall2_insert. Qed.

(** ** The entries of the creator itself *)

Lemma add_redirect_ok r es cs hs mp s ns path tns tpath :
  building r es cs hs mp s -> mimes_open r es s -> 0 < ns < 128 -> ns :: path ∉ map we_key es ->
  let es' := es ++ [mkWEntry ns path [] (KRedirect tns tpath)] in
  exists s1 s', createRedirectDirent ns path [] tns tpath s = (Ok (length es), s1) /\
    building r es' cs hs mp s1 /\ handle (length es) [] s1 = (Ok tt, s') /\
    building r es' cs (map (handler_handle (length es) []) hs) mp s' /\ mimes_open r es' s'.
Proof.
  intros Hb Ho Hns Hkey es'.
  destruct (createRedirectDirent_ok r es cs hs mp s ns path [] tns tpath Hb Ho Hns Hkey) as (s1 & E1 & Hb1 & Ho1).
  destruct (handle_ok r es' cs hs mp s1 (length es) [] Hb1) as (s' & E2 & Hb2 & Ho2).
  exists s1, s'. auto 10.
Qed.

Lemma building_main r es cs hs mp mp' s : building r es cs hs mp s -> building r es cs hs mp' (with_mainPage mp' s).
Proof. intros []. by split. Qed.

Lemma mandatory_ok c r es cs l0 l1 s :
  building r es cs [mkHandler false l0 None; mkHandler true l1 None] None s -> mimes_open r es s ->
  NoDup (map we_key (es ++ mandatory c)) ->
  exists s', create_mandatory c s = (Ok tt, s') /\
    building r (es ++ mandatory c) cs [mkHandler false (l0 ++ seq (length es) (length (mandatory c))) None; mkHandler true l1 None]
      (main_entry (length es) c) s' /\ mimes_open r (es ++ mandatory c) s'.
Proof.
  intros Hb Ho Hnd. unfold create_mandatory.
  assert (Hfav : exists s1, (if bool_decide (m_faviconPath c = []) then mret tt
     else dirent ← createRedirectDirent (chr "W") (lit "favicon") [] (chr "C") (m_faviconPath c); handle dirent []) s = (Ok tt, s1) /\
     let f := if bool_decide (m_faviconPath c = []) then []
       else [mkWEntry (chr "W") (lit "favicon") [] (KRedirect (chr "C") (m_faviconPath c))] in
     building r (es ++ f) cs [mkHandler false (l0 ++ seq (length es) (length f)) None; mkHandler true l1 None] None s1 /\
     mimes_open r (es ++ f) s1).
  { destruct (bool_decide (m_faviconPath c = [])) eqn:Ef.
    - exists s. cbn [length seq]. by rewrite !app_nil_r.
    - destruct (add_redirect_ok r es cs _ None s (chr "W") (lit "favicon") (chr "C") (m_faviconPath c) Hb Ho)
        as (s1 & s2 & E1 & _ & E2 & Hb2 & Ho2); [done| |].
      { unfold mandatory in Hnd. rewrite Ef, !map_app in Hnd. apply NoDup_app in Hnd as (_ & Hnd & _).
        intros Hin. apply (Hnd _ Hin). left. }
      exists s2. erewrite stm_bind_Ok by exact E1. by split. }
  destruct Hfav as (s1 & E1 & Hb1 & Ho1). erewrite stm_bind_Ok by exact E1. unfold mandatory, main_entry in *.
  set (f := if bool_decide (m_faviconPath c = []) then _ else _) in *.
  destruct (bool_decide (m_mainPath c = [])) eqn:Em.
  - exists s1. by rewrite app_nil_r.
  - destruct (createRedirectDirent_ok r _ cs _ None s1 (chr "W") (lit "mainPage") [] (chr "C") (m_mainPath c) Hb1 Ho1)
      as (s2 & E2 & Hb2 & Ho2); [done| |].
    { rewrite app_assoc, map_app in Hnd. apply NoDup_app in Hnd as (_ & Hnd & _). intros Hin. apply (Hnd _ Hin). left. }
    erewrite stm_bind_Ok by exact E2. rewrite stm_modify.
    destruct (handle_ok r _ cs _ _ _ (length (es ++ f)) [] (building_main _ _ _ _ _ (Some (length (es ++ f))) _ Hb2)) as (s3 & E3 & Hb3 & Ho3).
    exists s3. split; [exact E3|]. rewrite <- !app_assoc in Hb3. rewrite <- app_assoc in Ho3, Ho2.
    split; [|by apply Ho3; destruct Ho2].
    cbn [map handler_handle h_v1 negb orb m_dirents mp_dirent hint_at] in Hb3. rewrite !length_app, seq_app in *. cbn [length seq] in *.
    rewrite <- app_assoc in Hb3. replace (if bool_decide (m_faviconPath c = []) then 0%nat else 1%nat) with (length f) by (unfold f; by case_bool_decide).
    exact Hb3.
Qed.

(** The entry of a title listing, which the handler of the listing of all entries also takes. *)
Lemma listing_dirent_ok r0 es cs hs mp s k h :
  building r0 es cs hs mp s -> mimes_open r0 es s -> hs !! k = Some h -> mp_dirent h = None ->
  we_key (listing_entry (h_v1 h) None) ∉ map we_key es ->
  lit "application/octet-stream+zimlisting" ∈ dom (mimeTypesMap s) \/ nextMimeIdx s < 65535 ->
  let es' := es ++ [listing_entry (h_v1 h) None] in
  let hs' := <[k := mkHandler (h_v1 h) (m_dirents h) (Some (length es))]> hs in
  exists r s', create_handler_dirent k s = (Ok tt, s') /\
    building r es' cs (<[0%nat := handler_handle (length es) [] (default no_handler (hs' !! 0%nat))]> hs') mp s' /\ mimes_open r es' s'.
Proof.
  intros Hb Ho Hk Hnone Hkey Hroom es' hs'.
  destruct (createDirent_ok r0 es cs hs mp s (chr "X") (if h_v1 h then lit "listing/titleOrdered/v1" else lit "listing/titleOrdered/v0")
    (lit "application/octet-stream+zimlisting") [] Hb Ho) as (r & s1 & E1 & Hb1 & Ho1 & _); [done|exact Hkey|done|].
  assert (Hat : forall s', m_direntHandlers s' = hs -> handler_at s' k = h)
    by (intros s' E; unfold handler_at; by rewrite E, Hk).
  eexists r, _. split.
  - unfold create_handler_dirent, listing_handle, handler_getDirent. erewrite stm_bind_Ok.
    2:{ rewrite stm_gets. unfold id. rewrite (Hat s (bd_handlers _ _ _ _ _ _ Hb)), Hnone.
        erewrite stm_bind_Ok by exact E1. rewrite stm_gets. unfold id. rewrite (Hat s1 (bd_handlers _ _ _ _ _ _ Hb1)).
        unfold set_handler. rewrite stm_modify. reflexivity. }
    reflexivity.
  - split; [|by destruct Ho1]. destruct Hb1. split; try done.
    cbn [m_direntHandlers with_handlers]. unfold handler_at. cbn [m_direntHandlers with_handlers].
    by rewrite bd_handlers.
Qed.

Lemma indexes_ok xs ix r0 es cs l0 l1 mp s M :
  Forall2 index_is ix xs ->
  building r0 es cs [mkHandler false l0 None; mkHandler true l1 None] mp s -> mimes_open r0 es s ->
  NoDup (map we_key (es ++ map index_entry (no_data xs))) ->
  (forall e x, e ∈ es ++ map index_entry (no_data xs) -> we_mime e = Some x -> x ∈ M) -> Zlen M <= 65535 ->
  let es' := es ++ map index_entry (no_data xs) in
  exists r s', create_index_dirents ix s = (Ok (seq (length es) (length xs)), s') /\
    building r es' cs [mkHandler false (l0 ++ seq (length es) (length xs)) None; mkHandler true l1 None] mp s' /\
    mimes_open r es' s'.
Proof.
  intros Hix. revert r0 es l0 s. induction Hix as [|h x ix xs [Hpath _] Hix IH]; intros r0 es l0 s Hb Ho Hnd HM HMlen; cbn zeta.
  { exists r0, s. cbn [no_data map length seq]. by rewrite !app_nil_r. }
  unfold no_data in *. cbn [map] in *. change (?a :: ?l) with ([a] ++ l) in Hnd, HM |- *. rewrite app_assoc in Hnd, HM |- *.
  destruct (createDirent_ok r0 es cs _ mp s (chr "X") (ih_path h) (lit "application/octet-stream+xapian") [] Hb Ho)
    as (r1 & s1 & E1 & Hb1 & Ho1 & _); [done| | |].
  { rewrite Hpath. intros Hin. rewrite map_app in Hnd. apply NoDup_app in Hnd as (Hnd & _).
    rewrite map_app in Hnd. apply NoDup_app in Hnd as (_ & Hnd & _). apply (Hnd _ Hin). left. }
  { eapply (mime_room r0 es s M); [done|intros e y He Hy; eapply HM; [|exact Hy]; by rewrite <- app_assoc; apply elem_of_app; left| |done].
    eapply (HM (index_entry (x.1, None))); [|done]. apply elem_of_app. left. apply elem_of_app. right. by left. }
  rewrite Hpath in Hb1, Ho1.
  set (s2 := with_handlers (<[0%nat := handler_handle (length es) [] (handler_at s1 0)]> (m_direntHandlers s1)) (m_titleListBlobOffset s1) s1).
  assert (Hb2 : building r1 (es ++ [index_entry (x.1, None)]) cs [mkHandler false (l0 ++ [length es]) None; mkHandler true l1 None] mp s2).
  { destruct Hb1. split; try done. cbn [m_direntHandlers with_handlers s2]. unfold handler_at. by rewrite bd_handlers. }
  destruct (IH r1 (es ++ [index_entry (x.1, None)]) (l0 ++ [length es]) s2 Hb2) as (r & s' & E & Hb' & Ho'); [by destruct Ho1|done|done|done|].
  rewrite length_app, Nat.add_1_r in E, Hb'. exists r, s'. split; [|rewrite <- (app_assoc l0) in Hb'; by split].
  change ([h] ++ ix) with (h :: ix). cbn [create_index_dirents]. erewrite stm_bind_Ok by exact E1. unfold listing_handle. rewrite stm_modify. fold s2. by erewrite stm_bind_Ok by exact E.
Qed.

(** ** Redirects *)

Lemma set_find_ext {A} (f g : A -> A -> bool) x l :
  (forall y, y ∈ l -> f y x = g y x /\ f x y = g x y) -> set_find f x l = set_find g x l.
Proof.
  induction l as [|y l IH]; intros E; [done|]. cbn [set_find]. destruct (E y) as [-> ->]; [left|].
  rewrite IH; [done|]. intros z Hz. apply E. by right.
Qed.

(** The target is found among the entries. *)
Lemma target_found r es cs hs mp s i e ns path j e' :
  building r es cs hs mp s -> es !! i = Some e -> we_kind e = KRedirect ns path ->
  es !! j = Some e' -> we_key e' = ns :: path ->
  resolveRedirect s i = with_pool (<[i := WDirent.setRedirect (deref (pool s) i) j]> (pool s)) s.
Proof.
  intros Hb He Hkind Hj Hkey. pose proof (bd_pool _ _ _ _ _ _ Hb) as Hpool.
  pose proof (pool_ascii _ _ _ _ Hpool (bd_ascii _ _ _ _ _ _ Hb)) as Hp.
  destruct (Forall2_lookup_l _ _ _ _ _ Hpool He) as (d & Hd & Hdi). unfold resolveRedirect. cbv zeta.
  rewrite !(deref_lookup _ _ _ Hd). destruct Hdi as [_ _ _ _ Hk]. rewrite Hkind in Hk. destruct Hk as (_ & Ens & Epath).
  rewrite Ens, Epath. set (tmp := WDirent.new ns path).
  assert (Hjk : wkey (deref (pool s) j) = ns :: path) by (by rewrite (deref_key _ _ _ _ _ _ Hpool Hj)).
  assert (Hns : 0 <= ns < 128).
  { pose proof (bd_ascii _ _ _ _ _ _ Hb) as Ha. rewrite Forall_lookup in Ha. specialize (Ha _ _ Hj). simpl in Ha.
    injection Hkey as <- _. lia. }
  set (l := map (fun x => (x, deref (pool s) x)) (dirents s)).
  assert (Hfind : set_find (fun x y : nat * WDirent.t => WDirent.compareUrl x.2 y.2) (0%nat, tmp) l = Some (j, deref (pool s) j)).
  { rewrite (set_find_ext _ (fun x y => str_ltb (wkey x.2) (wkey y.2))).
    - apply (set_find_present (fun x : nat * WDirent.t => wkey x.2)); [done| | |].
      + pose proof (bd_sorted _ _ _ _ _ _ Hb) as Hs. unfold sorted_by in *. unfold l. by rewrite map_map.
      + unfold l. apply list_elem_of_fmap. exists j. split; [done|]. rewrite (bd_dirents _ _ _ _ _ _ Hb).
        apply elem_of_seq. apply lookup_lt_Some in Hj. lia.
      + cbn [snd]. by rewrite Hjk.
    - intros y Hy. apply list_elem_of_fmap in Hy as (x & -> & _). cbn [snd].
      pose proof (deref_ascii _ x Hp). split; by apply compareUrl_key. }
  by rewrite Hfind.
Qed.

Lemma redirect_step r es cs hs mp s i e ns path j e' :
  building r es cs hs mp s -> es !! i = Some e -> we_kind e = KRedirect ns path ->
  es !! j = Some e' -> we_key e' = ns :: path -> building r es cs hs mp (resolveRedirect s i).
Proof.
  intros Hb He Hkind Hj Hkey. rewrite (target_found r es cs hs mp s i e ns path j e') by done.
  pose proof (bd_pool _ _ _ _ _ _ Hb) as Hpool.
  destruct (Forall2_lookup_l _ _ _ _ _ Hpool He) as (d & Hd & [? ? ? ? Hk]). rewrite (deref_lookup _ _ _ Hd).
  apply (building_pool r r); [done| |by apply Hb]. eapply pool_insert; [exact Hpool|exact He|].
  rewrite Hkind in Hk. destruct Hk as (_ & ? & ?). split; try done. by rewrite Hkind.
Qed.

Lemma resolveRedirectIndexes_ok r es cs hs mp s :
  building r es cs hs mp s -> mimes_open r es s ->
  (forall e ns path, e ∈ es -> we_kind e = KRedirect ns path -> (ns :: path) ∈ map we_key es) ->
  exists s', resolveRedirectIndexes s = (Ok tt, s') /\ building r es cs hs mp s' /\ mimes_open r es s' /\ resolved es s'.
Proof.
  intros Hb Ho Htgt. eexists. split; [done|].
  assert (Hall : forall i, i ∈ unresolvedRedirectDirents s <-> exists e, es !! i = Some e /\ is_redirect e = true) by apply Hb.
  set (bound s i := forall e ns path, es !! i = Some e -> we_kind e = KRedirect ns path ->
    exists j e', es !! j = Some e' /\ we_key e' = ns :: path /\ WDirent.info (deref (pool s) i) = WDirent.RedirectInfo j).
  assert (Hgen : forall us s, building r es cs hs mp s -> mimes_open r es s ->
    (forall i, i ∈ us -> exists e, es !! i = Some e /\ is_redirect e = true) ->
    let s' := fold_left resolveRedirect us s in
    building r es cs hs mp s' /\ mimes_open r es s' /\ forall i, i ∈ us \/ bound s i -> bound s' i).
  { clear s Hb Ho Hall. induction us as [|i us IH]; intros s Hb Ho Hus; cbn [fold_left].
    { split_and!; [done..|]. intros i [Hi|Hi]; [by apply not_elem_of_nil in Hi|done]. }
    destruct (Hus i) as (e & He & Hr); [left|].
    unfold is_redirect in Hr. destruct (we_kind e) as [|ns path] eqn:Hkind; [done|].
    destruct (list_elem_of_fmap_1 we_key es (ns :: path)) as (e' & Ekey & Hin).
    { eapply Htgt; [|exact Hkind]. by eapply list_elem_of_lookup_2. }
    apply list_elem_of_lookup in Hin as [j Hj].
    pose proof (redirect_step r es cs hs mp s i e ns path j e' Hb He Hkind Hj (eq_sym Ekey)) as Hb1.
    pose proof (target_found r es cs hs mp s i e ns path j e' Hb He Hkind Hj (eq_sym Ekey)) as Es.
    assert (Ho1 : mimes_open r es (resolveRedirect s i)) by (rewrite Es; by apply mimes_open_pool).
    destruct (IH _ Hb1 Ho1) as (Hb' & Ho' & Hbound); [intros k Hk; apply Hus; by right|].
    split_and!; [done..|]. intros k Hk.
    destruct (decide (k = i)) as [->|Hki].
    - apply Hbound. right. intros e1 ns1 path1 He1 Hk1. assert (e1 = e) as -> by congruence. rewrite Hkind in Hk1.
      injection Hk1 as <- <-. exists j, e'. split_and!; [done..|]. rewrite Es. cbn [pool with_pool with_entries].
      rewrite (deref_lookup _ _ _ (list_lookup_insert_eq (pool s) i (WDirent.setRedirect (deref (pool s) i) j)
        ltac:(rewrite <- (Forall2_length _ _ _ (bd_pool _ _ _ _ _ _ Hb)); by eapply lookup_lt_Some))). done.
    - destruct Hk as [Hk|Hk]; [apply elem_of_cons in Hk as [->|Hk]; [done|]; apply Hbound; by left|].
      apply Hbound. right. intros e1 ns1 path1 He1 Hk1. destruct (Hk e1 ns1 path1 He1 Hk1) as (j1 & e2 & ? & ? & E2).
      exists j1, e2. split_and!; [done..|]. rewrite Es. cbn [pool with_pool with_entries]. unfold deref in *.
      by rewrite list_lookup_insert_ne. }
  destruct (Hgen (unresolvedRedirectDirents s) s Hb Ho) as (Hb' & Ho' & Hbound); [intros i; apply Hall|].
  split_and!; [done..|]. intros i e ns path He Hkind. eapply (Hbound i); [left|done..].
  apply Hall. exists e. split; [done|]. unfold is_redirect. by rewrite Hkind.
Qed.

(** ** Indices *)

Lemma set_indexes_length p idx ds : length (set_indexes p idx ds) = length p.
Proof. revert p idx. induction ds as [|d ds IH]; intros p idx; [done|]. cbn [set_indexes]. by rewrite IH, length_insert. Qed.

Lemma set_indexes_other p idx ds d : d ∉ ds -> set_indexes p idx ds !! d = p !! d.
Proof.
  revert p idx. induction ds as [|d' ds IH]; intros p idx Hd; [done|]. cbn [set_indexes].
  apply not_elem_of_cons in Hd as [Hd Hds]. by rewrite IH, list_lookup_insert_ne.
Qed.

Lemma set_indexes_at p idx ds i d :
  NoDup ds -> ds !! i = Some d -> (d < length p)%nat -> 0 <= idx -> idx + Zlen ds <= 2 ^ 32 ->
  set_indexes p idx ds !! d = Some (WDirent.setIdx (deref p d) (idx + Z.of_nat i)).
Proof.
  revert p idx i. induction ds as [|d' ds IH]; intros p idx i Hnd Hi Hlt Hidx Hbound; [done|].
  apply NoDup_cons in Hnd as [Hnot Hnd]. cbn [set_indexes]. rewrite Zlen_cons in Hbound. destruct i as [|i]; simpl in Hi.
  - injection Hi as ->. rewrite set_indexes_other by done. rewrite list_lookup_insert_eq by done. by rewrite Z.add_0_r.
  - assert (Hd : d ∈ ds) by by eapply list_elem_of_lookup_2. pose proof (lookup_lt_Some _ _ _ Hi) as Hl.
    rewrite u32_small by (unfold Zlen in *; lia). rewrite (IH _ _ i); [|done|done|by rewrite length_insert|lia|lia].
    assert (Hne : d' <> d) by congruence. unfold deref. rewrite list_lookup_insert_ne by done. do 2 f_equal. lia.
Qed.

Lemma dirents_nodup r es cs hs mp s : building r es cs hs mp s -> NoDup (dirents s) /\ forall d, d ∈ dirents s <-> (d < length (pool s))%nat.
Proof.
  intros Hb. split; [rewrite (bd_dirents _ _ _ _ _ _ Hb); apply NoDup_seq|]. intros d.
  rewrite (bd_dirents _ _ _ _ _ _ Hb), elem_of_seq, <- (Forall2_length _ _ _ (bd_pool _ _ _ _ _ _ Hb)). lia.
Qed.

Lemma setEntryIndexes_ok r es cs hs mp s :
  building r es cs hs mp s -> mimes_open r es s -> resolved es s -> Zlen es < 2 ^ 32 ->
  exists s', setEntryIndexes s = (Ok tt, s') /\ building r es cs hs mp s' /\ mimes_open r es s' /\ resolved es s' /\ numbered s'.
Proof.
  intros Hb Ho Hres Hlen. destruct (dirents_nodup _ _ _ _ _ _ Hb) as [Hnd Hin].
  pose proof (Forall2_length _ _ _ (bd_pool _ _ _ _ _ _ Hb)) as Hpl.
  assert (Hdl : Zlen (dirents s) = Zlen es) by (rewrite (bd_dirents _ _ _ _ _ _ Hb); unfold Zlen; by rewrite length_seq).
  assert (Hat : forall i d, dirents s !! i = Some d ->
    set_indexes (pool s) 0 (dirents s) !! d = Some (WDirent.setIdx (deref (pool s) d) (Z.of_nat i))).
  { intros i d Hi. rewrite (set_indexes_at _ _ _ i); [done|done|done| |lia|lia].
    apply Hin. by eapply list_elem_of_lookup_2. }
  assert (Hex : forall d x, pool s !! d = Some x -> exists i, set_indexes (pool s) 0 (dirents s) !! d = Some (WDirent.setIdx x i)).
  { intros d x Hd. assert (Hdin : d ∈ dirents s) by (apply Hin; by eapply lookup_lt_Some).
    apply list_elem_of_lookup in Hdin as [i Hi]. exists (Z.of_nat i). by rewrite (Hat i d Hi), (deref_lookup _ _ _ Hd). }
  eexists. split; [done|]. split_and!.
  - apply (building_pool r r); [done| |by apply Hb]. apply Forall2_same_length_lookup_2; [by rewrite set_indexes_length|].
    intros d e y He Hy. destruct (Forall2_lookup_l _ _ _ _ _ (bd_pool _ _ _ _ _ _ Hb) He) as (x & Hx & [? ? ? ? ?]).
    destruct (Hex d x Hx) as [i Hi]. assert (y = WDirent.setIdx x i) as -> by congruence. by split.
  - by apply mimes_open_pool.
  - intros i e ns path He Hkind. destruct (Hres i e ns path He Hkind) as (j & e' & Hj & Hkey & Hinfo).
    exists j, e'. split_and!; [done..|]. destruct (lookup_lt_is_Some_2 (pool s) i) as [x Hx]; [rewrite <- Hpl; by eapply lookup_lt_Some|].
    destruct (Hex i x Hx) as [n Hn]. cbn [pool with_pool with_entries]. rewrite (deref_lookup _ _ _ Hn).
    by rewrite (deref_lookup _ _ _ Hx) in Hinfo.
  - intros i d Hi. cbn [pool with_pool with_entries dirents] in *. by rewrite (deref_lookup _ _ _ (Hat i d Hi)).
Qed.


(** ** MIME types *)

#[local] Instance key_le_trans {B} : Transitive (@key_le B).
Proof. intros x y z. unfold key_le. lia. Qed.
#[local] Instance key_le_total {B} : Total (@key_le B).
Proof. intros x y. unfold key_le. lia. Qed.

Lemma seqZ_sorted m n : StronglySorted Z.le (seqZ m n).
Proof.
  destruct (Z.le_gt_cases n 0) as [|Hn]; [rewrite seqZ_nil by done; constructor|].
  rewrite <- (Z2Nat.id n) by lia. generalize (Z.to_nat n). clear. intros k. revert m.
  induction k as [|k IH]; intros m; [constructor|]. rewrite seqZ_cons by lia.
  constructor; [by replace (Z.pred (Z.of_nat (S k))) with (Z.of_nat k) by lia|].
  apply Forall_seqZ. lia.
Qed.

(** The old list is in the order of the indices. *)
Lemma oldMImeList_at m r n s i :
  mimes_ok m r n -> rmimeTypesMap s = r -> 0 <= i -> oldMImeList s !! Z.to_nat i = r !! i.
Proof.
  intros Hok Hr Hi. unfold oldMImeList. rewrite Hr. set (l := merge_sort key_le (map_to_list r)).
  assert (Hp : l ≡ₚ map_to_list r) by apply merge_sort_Permutation.
  assert (Hfst : map fst l = seqZ 0 n).
  { apply (StronglySorted_unique Z.le).
    - apply (StronglySorted_fmap fst key_le Z.le l); [done|]. apply StronglySorted_merge_sort; apply _.
    - apply seqZ_sorted.
    - rewrite <- (mime_keys _ _ _ Hok). by rewrite Hp. }
  assert (Hlen : length l = Z.to_nat n) by (by rewrite <- (length_map fst), Hfst, length_seqZ).
  destruct (Z.lt_ge_cases i n) as [Hin|Hin].
  - destruct (lookup_lt_is_Some_2 l (Z.to_nat i)) as [[k v] Hk]; [lia|].
    rewrite (map_lookup_Some _ _ _ _ Hk). cbn [snd].
    assert (Ek : map fst l !! Z.to_nat i = Some k) by (by rewrite (map_lookup_Some _ _ _ _ Hk)).
    rewrite Hfst, lookup_seqZ in Ek. destruct Ek as [Ek _].
    symmetry. apply elem_of_map_to_list. rewrite <- Hp. replace i with k by lia. by eapply list_elem_of_lookup_2.
  - rewrite lookup_ge_None_2 by (rewrite length_map; lia). symmetry. apply eq_None_not_Some.
    intros Hs. apply (mo_bound _ _ _ Hok) in Hs. lia.
Qed.

(** [mapping_at] finds the place of a type. *)
Lemma mapping_absent (m : bytes) l (f : nat -> nat) acc : m ∉ l ->
  foldl (fun acc jm => if bool_decide (m = jm.2) then u16 (Z.of_nat jm.1) else acc) acc (imap (fun i x => (f i, x)) l) = acc.
Proof.
  revert f acc. induction l as [|x l IH]; intros f acc Hm; [done|]. apply not_elem_of_cons in Hm as [Hx Hm].
  rewrite imap_cons. cbn [foldl snd]. rewrite bool_decide_false by done. apply (IH (f ∘ S)), Hm.
Qed.

Lemma mapping_present (m : bytes) l (f : nat -> nat) acc j : NoDup l -> l !! j = Some m ->
  foldl (fun acc jm => if bool_decide (m = jm.2) then u16 (Z.of_nat jm.1) else acc) acc (imap (fun i x => (f i, x)) l) =
    u16 (Z.of_nat (f j)).
Proof.
  revert f acc j. induction l as [|x l IH]; intros f acc j Hnd Hj; [done|]. apply NoDup_cons in Hnd as [Hx Hnd].
  rewrite imap_cons. cbn [foldl fst snd]. destruct j as [|j]; simpl in Hj.
  - injection Hj as ->. rewrite bool_decide_true by done. by apply (mapping_absent m l (f ∘ S)).
  - rewrite bool_decide_false; [by apply (IH (f ∘ S))|]. intros ->. apply Hx. by eapply list_elem_of_lookup_2.
Qed.

Lemma mapping_at_ok new j m : NoDup new -> Zlen new <= 65535 -> new !! j = Some m -> mapping_at new m = Z.of_nat j.
Proof.
  intros Hnd Hlen Hj. transitivity (u16 (Z.of_nat j)); [by apply (mapping_present m new (fun i => i) 0 j)|].
  apply lookup_lt_Some in Hj. apply u16_small. unfold Zlen in *. lia.
Qed.

(** The entries of [ds] get the new index of their type. *)
Lemma remap_ok mapping p ds :
  NoDup ds -> (forall d, d ∈ ds -> exists x, p !! d = Some x /\
    (WDirent.isItem x = true -> is_Some (mapping !! Z.to_nat (WDirent.mimeType x)))) ->
  exists p', remap_mimeTypes mapping p ds = Ok p' /\ length p' = length p /\
    (forall d, d ∉ ds -> p' !! d = p !! d) /\
    forall d x, d ∈ ds -> p !! d = Some x -> if WDirent.isItem x
      then exists m, mapping !! Z.to_nat (WDirent.mimeType x) = Some m /\ p' !! d = Some (WDirent.setMimeType x m)
      else p' !! d = Some x.
Proof.
  revert p. induction ds as [|d ds IH]; intros p Hnd Hds; cbn [remap_mimeTypes].
  { exists p. split_and!; [done..|]. intros d x Hd. by apply not_elem_of_nil in Hd. }
  apply NoDup_cons in Hnd as [Hd Hnd]. destruct (Hds d) as (x & Hx & Hm); [left|]. rewrite (deref_lookup _ _ _ Hx).
  assert (Hgen : forall y, p !! d = Some x -> exists p', remap_mimeTypes mapping (<[d := y]> p) ds = Ok p' /\ length p' = length p /\
    (forall d', d' ∉ d :: ds -> p' !! d' = p !! d') /\ p' !! d = Some y /\
    forall d' x', d' ∈ ds -> p !! d' = Some x' -> if WDirent.isItem x'
      then exists m, mapping !! Z.to_nat (WDirent.mimeType x') = Some m /\ p' !! d' = Some (WDirent.setMimeType x' m)
      else p' !! d' = Some x').
  { intros y _. destruct (IH (<[d := y]> p) Hnd) as (p' & E & Hlen & Hout & Hin).
    - intros d' Hd'. assert (Hne : d <> d') by congruence. rewrite list_lookup_insert_ne by done. apply Hds. by right.
    - exists p'. rewrite length_insert in Hlen. split_and!; [done..| | |].
      + intros d' Hd'. apply not_elem_of_cons in Hd' as [Hne Hd']. rewrite Hout by done. by rewrite list_lookup_insert_ne.
      + rewrite Hout by done. apply list_lookup_insert_eq. by eapply lookup_lt_Some.
      + intros d' x' Hd' Hx'. assert (Hne : d <> d') by congruence. apply Hin; [done|]. by rewrite list_lookup_insert_ne. }
  destruct (WDirent.isItem x) eqn:Ei.
  - destruct (Hm eq_refl) as [m Em]. rewrite Em. destruct (Hgen (WDirent.setMimeType x m) Hx) as (p' & E & Hlen & Hout & Hat & Hin).
    exists p'. split_and!; [done..|]. intros d' x' [->|Hd']%elem_of_cons Hx'; [|by apply Hin].
    assert (x' = x) as -> by congruence. rewrite Ei. by exists m.
  - destruct (Hgen x Hx) as (p' & E & Hlen & Hout & Hat & Hin). rewrite list_insert_id in E by done.
    exists p'. split_and!; [done..|]. intros d' x' [->|Hd']%elem_of_cons Hx'; [|by apply Hin].
    assert (x' = x) as -> by congruence. by rewrite Ei.
Qed.

Lemma resolveMimeTypes_ok r es cs hs mp s :
  building r es cs hs mp s -> mimes_open r es s -> resolved es s -> numbered s ->
  exists r' s', resolveMimeTypes s = (Ok tt, s') /\ building r' es cs hs mp s' /\ resolved es s' /\ numbered s' /\
    mimes_final r' s' /\ NoDup (mimeTypesList s') /\
    forall m, m ∈ mimeTypesList s' -> exists e, e ∈ es /\ we_mime e = Some m.
Proof.
  intros Hb [Hmap Hok Hused Hlist] Hres Hnum. destruct (dirents_nodup _ _ _ _ _ _ Hb) as [Hnd Hin].
  destruct (mime_values_spec _ _ _ Hok) as (Hvnd & Hvlen & Hvin).
  set (old := oldMImeList s). set (new := merge_sort str_le (mimeTypesList s ++ old)).
  assert (Hold : old ≡ₚ mime_values r).
  { unfold old, oldMImeList, mime_values. rewrite Hmap. by rewrite (merge_sort_Permutation key_le (map_to_list r)). }
  assert (Hnew : new ≡ₚ old) by (unfold new; rewrite Hlist; apply merge_sort_Permutation).
  assert (Hnewnd : NoDup new) by (by rewrite Hnew, Hold).
  assert (Hnewlen : Zlen new <= 65535) by (rewrite Hnew, Hold, Hvlen; apply Hok).
  assert (Hmapping : forall i x, r !! i = Some x -> exists j, new !! j = Some x /\ map (mapping_at new) old !! Z.to_nat i = Some (Z.of_nat j)).
  { intros i x Hi. pose proof (bd_range _ _ _ _ _ _ Hb i x Hi) as Hir.
    pose proof (oldMImeList_at _ _ _ s i Hok Hmap ltac:(lia)) as Eo. rewrite Hi in Eo.
    assert (Hx : x ∈ new) by (rewrite Hnew; by eapply list_elem_of_lookup_2).
    apply list_elem_of_lookup in Hx as [j Hj]. exists j. split; [done|].
    rewrite (map_lookup_Some _ _ _ _ Eo). by rewrite (mapping_at_ok new j x). }
  assert (Hentry : forall d, (d < length (pool s))%nat -> exists e x, es !! d = Some e /\ pool s !! d = Some x /\ dirent_is r cs e x).
  { intros d Hd. destruct (lookup_lt_is_Some_2 (pool s) d Hd) as [x Hx].
    destruct (Forall2_lookup_r _ _ _ _ _ (bd_pool _ _ _ _ _ _ Hb) Hx) as (e & He & Hdi). by exists e, x. }
  destruct (remap_ok (map (mapping_at new) old) (pool s) (dirents s) Hnd) as (p' & E & Hplen & _ & Hat).
  { intros d Hd. apply Hin in Hd. destruct (Hentry d Hd) as (e & x & He & Hx & Hdi). exists x. split; [done|].
    intros Hitem. pose proof (dirent_is_redirect _ _ _ _ (bd_range _ _ _ _ _ _ Hb) Hdi) as Hr.
    unfold WDirent.isItem in Hitem. rewrite Hr in Hitem. unfold is_redirect in Hitem. destruct Hdi as [_ _ _ _ Hk].
    destruct (we_kind e) as [m data|]; [|done]. destruct Hk as [Hk _]. destruct (Hmapping _ _ Hk) as (j & _ & Ej).
    by eexists. }
  exists (map_seqZ 0 new), (with_pool p' (with_mimes (mimeTypesMap s) (rmimeTypesMap s) new (nextMimeIdx s) s)).
  assert (Hsame : forall d e x, es !! d = Some e -> pool s !! d = Some x -> dirent_is r cs e x ->
    exists m, p' !! d = Some (WDirent.setMimeType x m) /\ dirent_is (map_seqZ 0 new) cs e (WDirent.setMimeType x m)).
  { intros d e x He Hx Hdi. assert (Hd : d ∈ dirents s) by (apply Hin; by eapply lookup_lt_Some).
    pose proof (dirent_is_redirect _ _ _ _ (bd_range _ _ _ _ _ _ Hb) Hdi) as Hr.
    specialize (Hat d x Hd Hx). unfold WDirent.isItem in Hat. rewrite Hr in Hat. unfold is_redirect in Hat.
    destruct Hdi as [? ? ? ? Hk]. destruct (we_kind e) as [m data|ns path] eqn:Hkind.
    - destruct Hk as (Hm & Hk). cbn [negb] in Hat. destruct Hat as (m' & Em & Ep). exists m'. split; [done|].
      split; try done. rewrite Hkind. split; [|exact Hk]. destruct (Hmapping _ _ Hm) as (j & Hj & Ej).
      assert (m' = Z.of_nat j) as -> by congruence. cbn [WDirent.mimeType WDirent.setMimeType].
      by rewrite lookup_map_seqZ_0, Nat2Z.id by lia.
    - cbn [negb] in Hat. exists (WDirent.mimeType x). replace (WDirent.setMimeType x (WDirent.mimeType x)) with x by (by destruct x).
      split; [done|]. split; try done. by rewrite Hkind. }
  assert (Hrange : forall i x, (map_seqZ 0 new : gmap Z bytes) !! i = Some x -> 0 <= i /\ new !! Z.to_nat i = Some x).
  { intros i x Hi. apply lookup_map_seqZ_Some in Hi as [Hi0 Hi]. by rewrite Z.sub_0_r in Hi. }
  assert (Hset : forall d x y, pool s !! d = Some x -> p' !! d = Some y -> exists m, y = WDirent.setMimeType x m).
  { intros d x y Hx Hy. destruct (Forall2_lookup_r _ _ _ _ _ (bd_pool _ _ _ _ _ _ Hb) Hx) as (e & He & Hdi).
    destruct (Hsame d e x He Hx Hdi) as (m & Ep & _). exists m. congruence. }
  split_and!.
  - unfold resolveMimeTypes. rewrite stm_gets. unfold id. cbv zeta. rewrite stm_modify.
    erewrite stm_lift_Ok by exact E. done.
  - apply (building_pool r); [destruct Hb; by split| |].
    + apply Forall2_same_length_lookup_2; [rewrite Hplen; apply (Forall2_length _ _ _ (bd_pool _ _ _ _ _ _ Hb))|].
      intros d e y He Hy. destruct (Forall2_lookup_l _ _ _ _ _ (bd_pool _ _ _ _ _ _ Hb) He) as (x & Hx & Hdi).
      destruct (Hsame d e x He Hx Hdi) as (m & Ep & Hdi'). assert (y = WDirent.setMimeType x m) as -> by congruence. done.
    + intros i x Hi. apply Hrange in Hi as [Hi0 Hi]. apply lookup_lt_Some in Hi. unfold Zlen in Hnewlen. lia.
  - intros i e ns path He Hkind. destruct (Hres i e ns path He Hkind) as (j & e' & Hj & Hkey & Hinfo).
    exists j, e'. split_and!; [done..|]. destruct (Forall2_lookup_l _ _ _ _ _ (bd_pool _ _ _ _ _ _ Hb) He) as (x & Hx & Hdi).
    destruct (Hsame i e x He Hx Hdi) as (m & Ep & _). cbn [pool with_pool with_entries].
    rewrite (deref_lookup _ _ _ Ep). by rewrite (deref_lookup _ _ _ Hx) in Hinfo.
  - intros i d Hi. cbn [pool with_pool with_entries dirents with_mimes] in *. rewrite <- (Hnum i d Hi).
    destruct (Hentry d) as (e & x & He & Hx & Hdi); [apply Hin; by eapply list_elem_of_lookup_2|].
    destruct (Hsame d e x He Hx Hdi) as (m & Ep & _). by rewrite (deref_lookup _ _ _ Ep), (deref_lookup _ _ _ Hx).
  - intros i x. cbn [mimeTypesList with_pool with_entries with_mimes]. split; [apply Hrange|].
    intros [Hi Hx]. by rewrite lookup_map_seqZ_0.
  - done.
  - intros m Hm. cbn [mimeTypesList with_pool with_entries with_mimes] in Hm. apply Hused. apply Hvin. by rewrite <- Hold, <- Hnew.
Qed.


(** ** The title listings *)

(** What entries are sorted by in the listings. *)
Definition title_key (d : WDirent.t) : bytes := WDirent.ns d :: WDirent.getTitle d.
Definition we_title_key (e : wentry) : bytes :=
  we_ns e :: (if bool_decide (we_title e = []) then we_path e else we_title e).
Definition entry_title (es : list wentry) (d : nat) : bytes :=
  match es !! d with Some e => we_title_key e | None => [] end.

Lemma filter_all {A} (P : A -> Prop) `{forall x, Decision (P x)} l : Forall P l -> filter P l = l.
Proof. induction 1 as [|x l Hx _ IH]; [done|]. by rewrite filter_cons_True, IH. Qed.

#[local] Instance title_le_total p : Total (title_le p).
Proof.
  intros x y. unfold title_le, TitleCompare, WDirent.compareTitle. destruct (_ || _) eqn:E1; [|by left]. right.
  apply orb_false_iff. apply orb_true_iff in E1 as [E1|E1].
  - apply Z.ltb_lt in E1. split; [apply Z.ltb_ge; lia|]. apply andb_false_iff. left. apply Z.eqb_neq. intros E. rewrite E in E1. lia.
  - apply andb_true_iff in E1 as [En E1]. apply Z.eqb_eq in En. rewrite En. split; [apply Z.ltb_irrefl|]. rewrite Z.eqb_refl.
    apply str_ltb_lt in E1. apply not_true_is_false. intros E2. apply str_ltb_lt in E2.
    eapply str_lt_irrefl, str_lt_trans; [exact E1|exact E2].
Qed.

(** The listing of a handler: its entries by namespace and title. *)
Lemma handler_stop_ok r es cs hs mp s h :
  building r es cs hs mp s -> Forall (fun d => (d < length es)%nat) (m_dirents h) ->
  let l := m_dirents (handler_stop (pool s) h) in
  l ≡ₚ m_dirents h /\ StronglySorted str_le (map (entry_title es) l).
Proof.
  intros Hb Hall l. unfold handler_stop in l. cbn [m_dirents] in l.
  assert (Hat : forall d, (d < length es)%nat -> exists x, pool s !! d = Some x /\ WDirent.removed x = false /\
    title_key x = entry_title es d).
  { intros d Hd. destruct (lookup_lt_is_Some_2 es d Hd) as [e He].
    destruct (Forall2_lookup_l _ _ _ _ _ (bd_pool _ _ _ _ _ _ Hb) He) as (x & Hx & [Ens Epath Etitle Hrem _]).
    exists x. split_and!; [done..|]. unfold title_key, entry_title, we_title_key, WDirent.getTitle. by rewrite He, Ens, Epath, Etitle. }
  assert (Hp : l ≡ₚ m_dirents h).
  { unfold l. rewrite merge_sort_Permutation. rewrite filter_all; [done|].
    eapply Forall_impl; [exact Hall|]. intros d Hd. destruct (Hat d Hd) as (x & Hx & Hrem & _). by rewrite (deref_lookup _ _ _ Hx). }
  split; [done|].
  pose proof (pool_ascii _ _ _ _ (bd_pool _ _ _ _ _ _ Hb) (bd_ascii _ _ _ _ _ _ Hb)) as Ha.
  rewrite (map_ext_in _ (fun d => title_key (deref (pool s) d))).
  - apply Sorted_StronglySorted; [apply _|]. apply (Sorted_fmap _ (title_le (pool s))); [|apply Sorted_merge_sort, _].
    intros x y Hxy. unfold title_le, TitleCompare, WDirent.compareTitle in Hxy.
    rewrite compare_ns in Hxy by (by apply deref_ascii). apply str_not_lt. intros Hlt. apply str_ltb_lt in Hlt.
    unfold title_key in Hlt. congruence.
  - intros d Hd. apply list_elem_of_In in Hd. rewrite Hp in Hd. rewrite Forall_forall in Hall.
    destruct (Hat d) as (x & Hx & _ & <-); [by apply Hall|]. by rewrite (deref_lookup _ _ _ Hx).
Qed.

Definition listing_bytes (p : list WDirent.t) (l : list nat) : bytes :=
  concat (map (fun d => toLittleEndian 4 (WDirent.idx (deref p d))) l).

Lemma listing_size p l : Zlen (listing_bytes p l) = 4 * Zlen l.
Proof.
  unfold listing_bytes. induction l as [|d l IH]; [done|]. cbn [map concat]. rewrite Zlen_app, IH, Zlen_cons.
  unfold Zlen at 1. rewrite length_toLittleEndian by auto. lia.
Qed.

Lemma listing_provides p l : 4 * Zlen l < 2 ^ 64 -> provides (ListingProvider_new p l) (listing_bytes p l).
Proof.
  intros Hlt. apply provides_user.
  - apply Forall_fmap, Forall_true. intros d E. apply (f_equal length) in E.
    cbn [compose] in E. rewrite length_toLittleEndian in E by auto. done.
  - fold (listing_bytes p l). rewrite listing_size. pose proof (Zlen_nonneg l). rewrite u64_small by lia. lia.
Qed.

Lemma building_handlers r es cs hs mp s hs' o :
  building r es cs hs mp s -> building r es cs hs' mp (with_handlers hs' o s).
Proof. intros []. by split. Qed.

(** [same_tables] up to the position of the listing of all entries. *)
Definition same_but_title (s s' : CreatorData) : Prop :=
  same_tables (with_handlers (m_direntHandlers s) (m_titleListBlobOffset s') s) s'.

(** The content of entry [n] is in a cluster that is not compressed. *)
Definition uncompressed_data (s : CreatorData) (n : nat) : Prop :=
  exists q, WDirent.cluster (deref (pool s) n) = Some q /\ (q < length (heap s))%nat /\
    WCluster.compression (cluster_at s q) = zimcompNone.

Lemma uncompressed_same s s' n : same_but_title s s' -> uncompressed_data s n -> uncompressed_data s' n.
Proof.
  intros [_ _ _ _ _ Hp] (q & Hq & Hlt & Hc). destruct (Hp n q Hq Hlt) as (Hq' & Hlt' & Hc'). exists q. split_and!; [done|done|].
  rewrite Hc'. exact Hc.
Qed.

(** The offset of a blob in its cluster, before the cluster is closed. *)
Lemma blob_offset_at r es cs hs mp s c n b :
  building r es cs hs mp s -> blob_is cs c n b ->
  exists o, WCluster.blobOffsets (cluster_at s c) !! Z.to_nat n = Some o /\ 0 <= o <= total cs.
Proof.
  intros Hb (Hn & bs & Hbs & Hblob). destruct (Forall2_lookup_r _ _ _ _ _ (bd_heap _ _ _ _ _ _ Hb) Hbs) as (cl & Hcl & [Ho _ _ _ _] & _).
  rewrite (cluster_at_lookup s c cl Hcl), Ho. apply lookup_lt_Some in Hblob. eexists. split; [apply offsets_from_lookup; unfold Zlen; lia|].
  destruct (total_part cs c bs Hbs) as [Ht _]. pose proof (Zlen_nonneg (concat (take (Z.to_nat n) bs))).
  rewrite <- (take_drop (Z.to_nat n) bs), concat_app, Zlen_app in Ht. pose proof (Zlen_nonneg (concat (drop (Z.to_nat n) bs))). lia.
Qed.

Lemma plain_data r es cs hs mp s n :
  building r es cs hs mp s -> WDirent.cluster (deref (pool s) n) = Some (active false s) -> uncompressed_data s n.
Proof.
  intros Hb Hcl. exists (active false s). split_and!; [exact Hcl| |exact (bd_uncomp _ _ _ _ _ _ Hb)].
  destruct (active_lookup _ _ _ _ _ _ false Hb) as (x & _ & Hx & _). by eapply lookup_lt_Some.
Qed.

Lemma finish_handler_ok r es cs hs mp s k h n e m :
  building r es cs hs mp s -> hs !! k = Some h -> mp_dirent h = Some n -> es !! n = Some e -> we_kind e = KItem m None ->
  let h' := handler_stop (pool s) h in let b := listing_bytes (pool s) (m_dirents h') in
  total cs + Zlen b <= UINT32_MAX -> blob_count cs + 1 < 2 ^ 32 ->
  exists cs' s', finish_handler k s = (Ok tt, s') /\ building r (<[n := set_data b e]> es) cs' (<[k := h']> hs) mp s' /\
    total cs' = total cs + Zlen b /\ blob_count cs' = blob_count cs + 1 /\ same_but_title s s' /\ uncompressed_data s' n /\
    if (k =? 0)%nat then 0 <= m_titleListBlobOffset s' <= total cs' else m_titleListBlobOffset s' = m_titleListBlobOffset s.
Proof.
  intros Hb Hk Hn He Hkind h' b Htot Hcount. pose proof (listing_size (pool s) (m_dirents h')) as Hsz. fold b in Hsz.
  assert (Htpos : 0 <= total cs) by apply Zlen_nonneg.
  assert (Hh : handler_at s k = h) by (unfold handler_at; by rewrite (bd_handlers _ _ _ _ _ _ Hb), Hk).
  unfold finish_handler. rewrite stm_modify. rewrite Hh, (bd_handlers _ _ _ _ _ _ Hb).
  fold h'. set (s1 := with_handlers (<[k := h']> hs) (m_titleListBlobOffset s) s).
  assert (Hb1 : building r es cs (<[k := h']> hs) mp s1) by by eapply building_handlers.
  assert (Hat : handler_at s1 k = h')
    by (unfold handler_at; cbn [m_direntHandlers s1 with_handlers]; by rewrite list_lookup_insert_eq by by eapply lookup_lt_Some).
  assert (Eg : handler_getDirent k s1 = (Ok n, s1)).
  { unfold handler_getDirent. rewrite stm_gets. unfold id. rewrite Hat. unfold h', handler_stop. cbn [mp_dirent]. by rewrite Hn. }
  erewrite stm_bind_Ok by exact Eg. rewrite stm_gets. unfold id. rewrite Hat.
  destruct (addItemData_ok r es cs _ mp s1 n e m (ListingProvider_new (pool s1) (m_dirents h')) b false Hb1 He Hkind)
    as (cs' & s2 & E & Hb2 & Ht & Hc & Hcl & Hsame); [apply listing_provides; unfold UINT32_MAX in *; lia|done|done|].
  pose proof (plain_data _ _ _ _ _ _ _ Hb2 Hcl) as Hplain.
  erewrite stm_bind_Ok by exact E. destruct (Nat.eqb_spec k 0) as [->|Hk0].
  - rewrite stm_gets. unfold id.
    assert (He' : <[n := set_data b e]> es !! n = Some (set_data b e)) by (apply list_lookup_insert_eq; by eapply lookup_lt_Some).
    destruct (Forall2_lookup_l _ _ _ _ _ (bd_pool _ _ _ _ _ _ Hb2) He') as (d & Hd & Hdi).
    pose proof (dirent_is_redirect _ _ _ _ (bd_range _ _ _ _ _ _ Hb2) Hdi) as Hr.
    rewrite (deref_lookup _ _ _ Hd) in *. unfold is_redirect, set_data in Hr. destruct Hdi as [_ _ _ _ Hdk].
    unfold set_data in Hdk. rewrite Hkind in Hr, Hdk. cbn [we_kind] in Hr, Hdk.
    destruct Hdk as (_ & q & Hinfo & c & Hc' & Hblob). rewrite Hcl in Hc'. injection Hc' as <-.
    erewrite stm_lift_Ok by (unfold WDirent.getBlobNumber; rewrite Hr, Hinfo; done). cbn [active] in Hblob.
    destruct (blob_offset_at _ _ _ _ _ _ _ _ _ Hb2 Hblob) as (o & Eo & Ho). rewrite Eo.
    eexists cs', _. split; [done|]. rewrite (bd_handlers _ _ _ _ _ _ Hb2). split_and!; [by eapply building_handlers|done|done| |exact Hplain|cbn; lia..].
    unfold same_but_title. destruct Hsame. by split.
  - exists cs', s2. split_and!; [done..| |exact Hplain|by rewrite (sm_title _ _ Hsame)]. unfold same_but_title. destruct Hsame. by split.
Qed.

(** ** The last clusters *)

Lemma close_last_ok r es cs hs mp s cc :
  building r es cs hs mp s -> total cs <= UINT32_MAX -> blob_count cs < 2 ^ 32 ->
  exists cs' s', close_last cc s = (Ok tt, s') /\ building r es cs' hs mp s' /\ total cs' = total cs /\ blob_count cs' = blob_count cs /\
    same_tables s s' /\ cs' !! active cc s' = Some [] /\
    (cs !! active (negb cc) s = Some [] -> cs' !! active (negb cc) s' = Some []).
Proof.
  intros Hb Htot Hcount. destruct (active_lookup r es cs hs mp s cc Hb) as (c & bs & Hc & Hbs & Hh & Hcl).
  unfold close_last. rewrite stm_gets. unfold id. fold (active cc s). rewrite (count_length _ _ _ _ _ _ _ _ Hb Hbs).
  destruct (Z.eqb_spec (Zlen bs) 0) as [Hz|Hne].
  - exists cs, s. split_and!; try done. destruct bs; [done|]. rewrite Zlen_cons in Hz. pose proof (Zlen_nonneg bs). lia.
  - destruct (closeCluster_ok r es cs hs mp s cc Hb Htot Hcount) as (s' & E & Hb' & Ha & Ha' & _ & _ & Ht); [rewrite Hbs; by intros [= ->]|].
    exists (cs ++ [[]]), s'. erewrite stm_bind_Ok by exact E. destruct (total_app cs). split_and!; try done.
    + rewrite Ha. by apply list_lookup_middle.
    + rewrite Ha'. intros E'. by apply lookup_app_l_Some.
Qed.


(** ** All stages *)

(** What the stages before the listings leave, and the ones after keep. *)
Record settled (r : gmap Z bytes) (es : list wentry) (s : CreatorData) : Prop := {
  st_resolved : resolved es s;
  st_numbered : numbered s;
  st_mimes : mimes_final r s;
  st_nodup : NoDup (mimeTypesList s);
}.

Lemma settled_same r es cs hs mp s s' :
  building r es cs hs mp s -> settled r es s -> same_but_title s s' -> settled r es s'.
Proof.
  intros Hb [Hres Hnum Hm Hnd] [(E1 & E2 & E3 & E4) Ed Ei Er _ _].
  cbn [mimeTypesList dirents pool with_handlers] in *. split.
  - intros i e ns path He Hkind. destruct (Hres i e ns path He Hkind) as (j & e' & Hj & Hkey & Hinfo).
    exists j, e'. split_and!; [done..|]. rewrite Er; [done|].
    destruct (Forall2_lookup_l _ _ _ _ _ (bd_pool _ _ _ _ _ _ Hb) He) as (d & Hd & Hdi). rewrite (deref_lookup _ _ _ Hd).
    rewrite (dirent_is_redirect _ _ _ _ (bd_range _ _ _ _ _ _ Hb) Hdi). unfold is_redirect. by rewrite Hkind.
  - intros i d. rewrite Ed, Ei. apply Hnum.
  - intros i x. rewrite E3. apply Hm.
  - by rewrite E3.
Qed.

Lemma set_data_key b e : we_key (set_data b e) = we_key e.
Proof. unfold set_data. by destruct (we_kind e). Qed.

Lemma settled_data r es s n e b :
  es !! n = Some e -> settled r es s -> settled r (<[n := set_data b e]> es) s.
Proof.
  intros Hn [Hres Hnum Hm Hnd]. split; try done. pose proof (lookup_lt_Some _ _ _ Hn) as Hlt.
  assert (Hback : forall i e1, <[n := set_data b e]> es !! i = Some e1 -> exists e2, es !! i = Some e2 /\
    forall ns path, we_kind e1 = KRedirect ns path -> we_kind e2 = KRedirect ns path).
  { intros i e1 He1. destruct (decide (i = n)) as [->|Hi]; [|rewrite list_lookup_insert_ne in He1 by done; eauto].
    rewrite list_lookup_insert_eq in He1 by done. injection He1 as <-. exists e. split; [done|]. intros ns path.
    unfold set_data. destruct (we_kind e) eqn:Ek; cbn [we_kind]; congruence. }
  intros i e1 ns path He1 Hkind. destruct (Hback i e1 He1) as (e2 & He2 & Hk2).
  destruct (Hres i e2 ns path He2 (Hk2 _ _ Hkind)) as (j & e' & Hj & Hkey & Hinfo).
  destruct (decide (j = n)) as [->|Hjn].
  - exists n, (set_data b e). assert (e' = e) as -> by congruence. rewrite set_data_key. by rewrite list_lookup_insert_eq.
  - exists j, e'. by rewrite list_lookup_insert_ne.
Qed.

Lemma same_but_title_trans s1 s2 s3 : same_but_title s1 s2 -> same_but_title s2 s3 -> same_but_title s1 s3.
Proof.
  unfold same_but_title. intros [(A1 & A2 & A3 & A4) B1 C1 D1 _ F1] [(A1' & A2' & A3' & A4') B2 C2 D2 _ F2].
  cbn [mimeTypesMap rmimeTypesMap mimeTypesList nextMimeIdx dirents pool with_handlers] in *.
  split; cbn [mimeTypesMap rmimeTypesMap mimeTypesList nextMimeIdx dirents pool with_handlers m_titleListBlobOffset];
    [split_and!|..]; try congruence.
  - intros d Hd. rewrite D2, D1; [done|done|]. by rewrite D1.
  - intros d c Hd Hc. destruct (F1 d c Hd Hc) as (Hd1 & Hc1 & G1). destruct (F2 d c Hd1 Hc1) as (? & ? & G2).
    split_and!; [done|done|]. by rewrite G2.
Qed.

Lemma same_but_title_of s s' : same_tables s s' -> same_but_title s s'.
Proof. unfold same_but_title. intros []. by split. Qed.

Lemma listing_same s s' l : same_but_title s s' -> listing_bytes (pool s') l = listing_bytes (pool s) l.
Proof.
  intros [_ _ Ei _ _ _]. cbn [pool with_handlers] in Ei. unfold listing_bytes. f_equal. apply map_ext. intros d. by rewrite Ei.
Qed.

(** The contents of the indexes, whose entries come after [pre]. *)
Lemma finish_indexes_ok xs ix pre post r cs hs mp s :
  Forall2 index_is ix xs ->
  let es1 := pre ++ map index_entry (no_data xs) ++ post in
  building r es1 cs hs mp s -> settled r es1 s ->
  total cs + Zsum (map (fun x => Zlen x.2) xs) <= UINT32_MAX -> blob_count cs + Zlen xs < 2 ^ 32 ->
  exists cs' s', finish_indexes (zip ix (seq (length pre) (length xs))) s = (Ok tt, s') /\
    let es' := pre ++ map index_entry (with_data xs) ++ post in
    building r es' cs' hs mp s' /\ settled r es' s' /\
    total cs' = total cs + Zsum (map (fun x => Zlen x.2) xs) /\ blob_count cs' = blob_count cs + Zlen xs /\
    same_but_title s s' /\ m_titleListBlobOffset s' = m_titleListBlobOffset s /\
    forall i, (i < length xs)%nat -> uncompressed_data s' (length pre + i).
Proof.
  intros Hix. revert pre cs s. induction Hix as [|h x ix xs [_ (p & Hp & Hprov)] Hix IH]; intros pre cs s es1 Hb Hst Htot Hcount.
  { exists cs, s. cbv zeta. cbn [with_data map app Zsum length]. change (Zlen (@nil (bytes * bytes))) with 0. rewrite !Z.add_0_r.
    split_and!; try done. intros i Hi. lia. }
  cbn [Zsum map] in Htot. rewrite Zlen_cons in Hcount.
  assert (Hxs : 0 <= Zsum (map (fun x : bytes * bytes => Zlen x.2) xs)) by (apply Zsum_nonneg, Forall_fmap, Forall_true; intros; apply Zlen_nonneg).
  pose proof (Zlen_nonneg xs). pose proof (Zlen_nonneg x.2).
  assert (He : es1 !! length pre = Some (index_entry (x.1, None))) by by apply list_lookup_middle.
  destruct (addItemData_ok r es1 cs hs mp s (length pre) _ _ p x.2 false Hb He eq_refl Hprov)
    as (cs1 & s1 & E & Hb1 & Ht1 & Hc1 & Hcl & Hsame); [lia|lia|].
  pose proof (same_but_title_of _ _ Hsame) as Hsame1.
  pose proof (settled_same _ _ _ _ _ _ _ Hb Hst Hsame1) as Hst1. apply (settled_data r es1 s1 (length pre) _ x.2 He) in Hst1.
  assert (Hes : <[length pre := set_data x.2 (index_entry (x.1, None))]> es1 =
    (pre ++ [index_entry (x.1, Some x.2)]) ++ map index_entry (no_data xs) ++ post).
  { unfold es1. rewrite insert_app_r_alt, Nat.sub_diag by done. by rewrite <- app_assoc. }
  rewrite Hes in Hb1, Hst1.
  destruct (IH (pre ++ [index_entry (x.1, Some x.2)]) cs1 s1 Hb1 Hst1) as (cs' & s' & E' & Hb' & Hst' & Ht' & Hc' & Hs' & Htl' & Hun); [lia|lia|].
  exists cs', s'. rewrite length_app, Nat.add_1_r in E', Hun. cbn [length] in *. split.
  { cbn [seq zip zip_with finish_indexes]. erewrite stm_lift_Ok by exact Hp. erewrite stm_bind_Ok by exact E. exact E'. }
  cbv zeta in Hb', Hst' |- *. rewrite <- app_assoc in Hb', Hst'. split_and!; try done.
  - cbn [Zsum map]. lia.
  - rewrite Zlen_cons. lia.
  - by eapply same_but_title_trans.
  - by rewrite Htl', (sm_title _ _ Hsame).
  - intros [|i] Hi.
    + rewrite Nat.add_0_r. eapply uncompressed_same; [exact Hs'|]. by eapply plain_data.
    + replace (length pre + S i)%nat with (S (length pre) + i)%nat by lia. apply Hun. lia.
Qed.

(** The listings and the last clusters, the entries of the listings being [n] and [n + 1]. *)
Lemma contents_ok r es cs l0 l1 mp s :
  let n := length es in let es1 := es ++ [listing_entry false None; listing_entry true None] in
  building r es1 cs [mkHandler false l0 (Some n); mkHandler true l1 (Some (S n))] mp s -> settled r es1 s ->
  Forall (fun d => (d < length es1)%nat) l0 -> Forall (fun d => (d < length es1)%nat) l1 ->
  total cs + 4 * (Zlen l0 + Zlen l1) <= UINT32_MAX -> blob_count cs + 2 < 2 ^ 32 ->
  exists cs' s' b0 k,
    (finish_handler 0 ;; finish_handler 1 ;; close_last true ;; close_last false) s = (Ok tt, s') /\
    let es' := es ++ [listing_entry false (Some b0); listing_entry true (Some (listing_bytes (pool s') k))] in
    (exists hs, building r es' cs' hs mp s') /\ settled r es' s' /\ (forall cc, cs' !! active cc s' = Some []) /\
    total cs' = total cs + 4 * (Zlen l0 + Zlen l1) /\ blob_count cs' = blob_count cs + 2 /\
    0 <= m_titleListBlobOffset s' <= total cs' /\ mp_dirent (handler_at s' 0) = Some n /\
    k ≡ₚ l1 /\ StronglySorted str_le (map (entry_title es') k) /\ same_but_title s s' /\
    uncompressed_data s' (S n).
Proof.
  intros n es1 Hb Hst Hl0 Hl1 Htot Hcount. pose proof (Zlen_nonneg l0). pose proof (Zlen_nonneg l1).
  assert (He0 : es1 !! n = Some (listing_entry false None)) by by apply list_lookup_middle.
  destruct (handler_stop_ok _ _ _ _ _ _ (mkHandler false l0 (Some n)) Hb Hl0) as [Hp0 _]. cbn [m_dirents] in Hp0.
  destruct (finish_handler_ok r es1 cs _ mp s 0 _ n _ _ Hb eq_refl eq_refl He0 eq_refl)
    as (cs2 & s2 & E2 & Hb2 & Ht2 & Hc2 & Hs2 & _ & Htitle); [rewrite listing_size, Hp0; lia|lia|].
  set (b0 := listing_bytes (pool s) _) in *. assert (Hz0 : Zlen b0 = 4 * Zlen l0) by (unfold b0; by rewrite listing_size, Hp0). rewrite Hz0 in Ht2.
  pose proof (settled_same _ _ _ _ _ _ _ Hb Hst Hs2) as Hst2. apply (settled_data r es1 s2 n _ b0 He0) in Hst2.
  set (es2 := <[n := set_data b0 _]> es1) in *.
  assert (Hes2 : es2 = es ++ [listing_entry false (Some b0); listing_entry true None]).
  { unfold es2, es1, n. rewrite insert_app_r_alt, Nat.sub_diag by done. done. }
  assert (He1 : es2 !! S n = Some (listing_entry true None)).
  { rewrite Hes2. change [listing_entry false (Some b0); listing_entry true None] with
      ([listing_entry false (Some b0)] ++ [listing_entry true None]). rewrite app_assoc.
    apply list_lookup_middle. rewrite length_app. simpl. lia. }
  assert (Hlen2 : length es2 = length es1) by (unfold es2; by rewrite length_insert).
  destruct (handler_stop_ok _ _ _ _ _ _ (mkHandler true l1 (Some (S n))) Hb2) as [Hp1 Hsort]; [by rewrite Hlen2|]. cbn [m_dirents] in Hp1, Hsort.
  destruct (finish_handler_ok r es2 cs2 _ mp s2 1 (mkHandler true l1 (Some (S n))) (S n) _ _ Hb2 eq_refl eq_refl He1 eq_refl)
    as (cs3 & s3 & E3 & Hb3 & Ht3 & Hc3 & Hs3 & Hpl3 & Htitle3); [rewrite listing_size, Hp1; lia|lia|].
  set (k := m_dirents (handler_stop (pool s2) (mkHandler true l1 (Some (S n))))) in *.
  set (b1 := listing_bytes (pool s2) k) in *.
  assert (Hz1 : Zlen b1 = 4 * Zlen l1) by (unfold b1; by rewrite listing_size, Hp1). rewrite Hz1 in Ht3.
  pose proof (settled_same _ _ _ _ _ _ _ Hb2 Hst2 Hs3) as Hst3. apply (settled_data r es2 s3 (S n) _ b1 He1) in Hst3.
  set (es3 := <[S n := set_data b1 _]> es2) in *.
  assert (Hes3 : es3 = es ++ [listing_entry false (Some b0); listing_entry true (Some b1)]).
  { unfold es3. rewrite Hes2, insert_app_r_alt by (unfold n; lia). by replace (S n - length es)%nat with 1%nat by (unfold n; lia). }
  destruct (close_last_ok _ _ _ _ _ _ true Hb3) as (cs4 & s4 & E4 & Hb4 & Ht4 & Hc4 & Hs4 & Ha4 & _); [lia|lia|].
  destruct (close_last_ok _ _ _ _ _ _ false Hb4) as (cs5 & s5 & E5 & Hb5 & Ht5 & Hc5 & Hs5 & Ha5 & Ha5'); [lia|lia|].
  pose proof (same_but_title_of _ _ (same_tables_trans _ _ _ Hs4 Hs5)) as Hs35.
  exists cs5, s5, b0, k. split.
  { erewrite stm_bind_Ok by exact E2. erewrite stm_bind_Ok by exact E3. by erewrite stm_bind_Ok by exact E4. }
  assert (Hk : listing_bytes (pool s5) k = b1).
  { rewrite (listing_same s2 s5 k); [done|]. by eapply same_but_title_trans. }
  rewrite Hk. cbv zeta. rewrite <- Hes3. cbn [Nat.eqb] in Htitle, Htitle3. split_and!.
  - eexists. exact Hb5.
  - exact (settled_same _ _ _ _ _ _ _ Hb3 Hst3 Hs35).
  - intros []; [by apply Ha5'|done].
  - lia.
  - lia.
  - rewrite (sm_title _ _ Hs5), (sm_title _ _ Hs4). lia.
  - rewrite (sm_title _ _ Hs5), (sm_title _ _ Hs4). lia.
  - unfold handler_at. rewrite (bd_handlers _ _ _ _ _ _ Hb5). done.
  - done.
  - replace (map (entry_title es3) k) with (map (entry_title es2) k); [done|].
    apply map_ext. intros d. unfold entry_title, es3. destruct (decide (d = S n)) as [->|Hd]; [|by rewrite list_lookup_insert_ne].
    rewrite list_lookup_insert_eq by by eapply lookup_lt_Some. by rewrite He1.
  - exact (same_but_title_trans _ _ _ (same_but_title_trans _ _ _ Hs2 Hs3) Hs35).
  - exact (uncompressed_same _ _ _ Hs35 Hpl3).
Qed.


(** The entries before those of the listings, and all those of an archive made of [es], with the indexes [xs], the contents of
    the listings being [b0] and [b1]. *)
Definition unlisted_entries (c : Creator) (xs : list (bytes * option bytes)) (es : list wentry) : list wentry :=
  (es ++ mandatory c) ++ map index_entry xs.
Definition all_entries (c : Creator) (xs : list (bytes * option bytes)) (es : list wentry) (b0 b1 : option bytes) : list wentry :=
  unlisted_entries c xs es ++ [listing_entry false b0; listing_entry true b1].

Lemma unlisted_length c xs es : length (unlisted_entries c (with_data xs) es) = length (unlisted_entries c (no_data xs) es).
Proof. unfold unlisted_entries, with_data, no_data. by rewrite !length_app, !length_map. Qed.

Lemma prepare_ok c ix xs M r0 es cs l1 s :
  building r0 es cs [mkHandler false (seq 0 (length es)) None; mkHandler true l1 None] None s -> mimes_open r0 es s ->
  Forall2 index_is ix xs ->
  let es1 := all_entries c (no_data xs) es None None in
  let sizes := Zsum (map (fun x => Zlen x.2) xs) in
  NoDup (map we_key es1) -> (forall e x, e ∈ es1 -> we_mime e = Some x -> x ∈ M) -> Zlen M <= 65535 ->
  (forall e ns path, e ∈ es1 -> we_kind e = KRedirect ns path -> (ns :: path) ∈ map we_key es1) ->
  Forall (fun d => (d < length es)%nat) l1 -> total cs + sizes + 4 * (Zlen es1 + Zlen l1) <= UINT32_MAX ->
  blob_count cs + Zlen xs + 2 < 2 ^ 32 ->
  exists r cs' s' b0 k, prepare c ix s = (Ok tt, s') /\
    let es' := all_entries c (with_data xs) es (Some b0) (Some (listing_bytes (pool s') k)) in
    (exists hs, building r es' cs' hs (main_entry (length es) c) s') /\ settled r es' s' /\
    (forall cc, cs' !! active cc s' = Some []) /\
    total cs' = total cs + sizes + 4 * (Zlen es1 + Zlen l1) /\ blob_count cs' = blob_count cs + Zlen xs + 2 /\
    0 <= m_titleListBlobOffset s' <= total cs' /\ mp_dirent (handler_at s' 0) = Some (length (unlisted_entries c (no_data xs) es)) /\
    k ≡ₚ l1 /\ StronglySorted str_le (map (entry_title es') k) /\ mimeTypesList s' ⊆ M /\
    uncompressed_data s' (S (length (unlisted_entries c (no_data xs) es))) /\
    forall i, (i < length xs)%nat -> uncompressed_data s' (length (es ++ mandatory c) + i).
Proof.
  intros Hb Ho Hix es1 sizes Hnd HM HMlen Htgt Hl1 Htot Hcount. unfold all_entries in *.
  set (esm := es ++ mandatory c) in *. set (es0 := unlisted_entries c (no_data xs) es) in *.
  pose proof (Zlen_nonneg l1). pose proof (Zlen_nonneg es1). pose proof (Zlen_nonneg xs). unfold UINT32_MAX in *.
  assert (Htotpos : 0 <= total cs) by apply Zlen_nonneg.
  assert (Hsizes : 0 <= sizes) by (apply Zsum_nonneg, Forall_fmap, Forall_true; intros; apply Zlen_nonneg).
  assert (Hnd0 : NoDup (map we_key es0)) by (unfold es1 in Hnd; rewrite map_app in Hnd; by apply NoDup_app in Hnd as (? & _)).
  destruct (mandatory_ok c r0 es cs _ l1 s Hb Ho) as (s1 & E1 & Hb1 & Ho1).
  { unfold es0, unlisted_entries in Hnd0. rewrite map_app in Hnd0. by apply NoDup_app in Hnd0 as (? & _). }
  fold esm in Hb1, Ho1. rewrite <- seq_app, <- length_app in Hb1. fold esm in Hb1.
  destruct (indexes_ok xs ix r0 esm cs _ l1 _ s1 M Hix Hb1 Ho1) as (r' & s1' & E1' & Hb1' & Ho1'); [exact Hnd0| |done|].
  { intros e x He. apply HM. apply elem_of_app. by left. }
  change (esm ++ map index_entry (no_data xs)) with es0 in Hb1', Ho1'. rewrite <- seq_app in Hb1'.
  assert (Hlen0 : (length esm + length xs = length es0)%nat) by (unfold es0, unlisted_entries, no_data; by rewrite length_app, !length_map).
  rewrite Hlen0 in Hb1'.
  assert (Hsplit : es1 = (es0 ++ [listing_entry false None]) ++ [listing_entry true None]) by (unfold es1; by rewrite <- app_assoc).
  assert (Hnd2 : NoDup (map we_key (es0 ++ [listing_entry false None]))).
  { rewrite Hsplit, map_app in Hnd. by apply NoDup_app in Hnd as (? & _). }
  assert (Hroom : forall r e s, mimes_open r e s -> e ⊆ es1 ->
    lit "application/octet-stream+zimlisting" ∈ dom (mimeTypesMap s) \/ nextMimeIdx s < 65535).
  { intros r e s0 Ho0 Hsub. eapply (mime_room r e s0 M); [done|intros; eapply HM; eauto| |done].
    eapply (HM (listing_entry true None)); [|done]. unfold es1. apply elem_of_app. right. right. left. }
  destruct (listing_dirent_ok r' es0 cs _ _ s1' 0 _ Hb1' Ho1' eq_refl eq_refl) as (r1 & s2 & E2 & Hb2 & Ho2).
  { intros Hin. rewrite map_app in Hnd2. apply NoDup_app in Hnd2 as (_ & Hnd2 & _). apply (Hnd2 _ Hin). left. }
  { eapply Hroom; [exact Ho1'|]. unfold es1. apply list_subseteq_app_l. done. }
  cbn [h_v1] in Hb2, Ho2.
  destruct (listing_dirent_ok r1 _ cs _ _ s2 1 _ Hb2 Ho2 eq_refl eq_refl) as (r2 & s3 & E3 & Hb3 & Ho3).
  { cbn [h_v1]. intros Hin. rewrite Hsplit, map_app in Hnd. apply NoDup_app in Hnd as (_ & Hnd & _). apply (Hnd _ Hin). left. }
  { eapply Hroom; [exact Ho2|]. rewrite Hsplit. apply list_subseteq_app_l. done. }
  cbn [h_v1] in Hb3, Ho3. rewrite <- Hsplit in Hb3, Ho3. rewrite length_app, Nat.add_1_r in Hb3.
  destruct (resolveRedirectIndexes_ok _ _ _ _ _ _ Hb3 Ho3 Htgt) as (s4 & E4 & Hb4 & Ho4 & Hres4).
  destruct (setEntryIndexes_ok _ _ _ _ _ _ Hb4 Ho4 Hres4) as (s5 & E5 & Hb5 & Ho5 & Hres5 & Hnum5); [lia|].
  destruct (resolveMimeTypes_ok _ _ _ _ _ _ Hb5 Ho5 Hres5 Hnum5) as (r & s6 & E6 & Hb6 & Hres6 & Hnum6 & Hm6 & Hmnd6 & Hused6).
  assert (Hlen1 : length es1 = S (S (length es0))) by (unfold es1; rewrite length_app; simpl; lia).
  assert (Hl0 : (seq 0 (length es0) ++ [length es0]) ++ [S (length es0)] = seq 0 (length es1))
    by (rewrite Hlen1, !seq_S, Nat.add_0_l; done).
  set (h0 := handler_handle (S (length es0)) [] (handler_handle (length es0) [] (mkHandler false (seq 0 (length es0)) (Some (length es0))))).
  assert (Hh0 : h0 = mkHandler false (seq 0 (length es1)) (Some (length es0))) by (rewrite <- Hl0; done).
  assert (Hz0 : Zlen (seq 0 (length es1)) = Zlen es1) by (unfold Zlen; by rewrite length_seq).
  assert (Hle : (length es <= length es1)%nat) by (rewrite Hlen1; unfold es0, unlisted_entries; rewrite !length_app; lia).
  assert (Hes1 : es1 = esm ++ map index_entry (no_data xs) ++ [listing_entry false None; listing_entry true None])
    by (unfold es1, es0, unlisted_entries; by rewrite <- app_assoc).
  assert (Hb6' : building r (esm ++ map index_entry (no_data xs) ++ [listing_entry false None; listing_entry true None]) cs
    [mkHandler false (seq 0 (length es1)) (Some (length es0)); mkHandler true l1 (Some (S (length es0)))] (main_entry (length es) c) s6)
    by (rewrite <- Hes1, <- Hh0; exact Hb6).
  rewrite Hes1 in Hres6. clear Hb6.
  destruct (finish_indexes_ok xs ix esm _ r cs _ _ s6 Hix Hb6') as (cs7 & s7 & E7 & Hb7 & Hst7 & Ht7 & Hc7 & Hs7 & _ & Hun7);
    [by split|unfold UINT32_MAX; fold sizes; lia|lia|]. fold sizes in Ht7.
  rewrite app_assoc in Hb7, Hst7. change (esm ++ map index_entry (with_data xs)) with (unlisted_entries c (with_data xs) es) in Hb7, Hst7.
  assert (Hlw : length (unlisted_entries c (with_data xs) es) = length es0) by apply unlisted_length.
  set (esw := unlisted_entries c (with_data xs) es) in *. rewrite <- Hlw in Hb7.
  assert (Hlenw : length (esw ++ [listing_entry false None; listing_entry true None]) = length es1)
    by (unfold es1; by rewrite !length_app, Hlw).
  destruct (contents_ok r esw cs7 (seq 0 (length es1)) l1 _ s7 Hb7 Hst7)
    as (cs' & s' & b0 & k & E8 & Hb8 & Hst & Ha & Ht & Hc & Htl & Hmp & Hk & Hsort & Hsame & Hpl).
  - apply Forall_forall. intros d Hd. apply elem_of_seq in Hd. rewrite Hlenw. lia.
  - eapply Forall_impl; [exact Hl1|]. intros d Hd. simpl in Hd. rewrite Hlenw. lia.
  - rewrite Hz0. unfold UINT32_MAX. lia.
  - lia.
  - rewrite Hz0 in Ht. exists r, cs', s', b0, k. split.
    + unfold prepare. erewrite stm_bind_Ok by exact E1. erewrite stm_bind_Ok by exact E1'. erewrite stm_bind_Ok by exact E2. erewrite stm_bind_Ok by exact E3.
      erewrite stm_bind_Ok by exact E4. erewrite stm_bind_Ok by exact E5. erewrite stm_bind_Ok by exact E6. by erewrite stm_bind_Ok by exact E7.
    + rewrite Hlw in *. split_and!; try done; [lia|lia|lia|lia| |].
      * destruct (same_but_title_trans _ _ _ Hs7 Hsame) as [(_ & _ & Eml & _) _ _ _ _ _]. cbn in Eml. rewrite Eml.
        intros m Hm. destruct (Hused6 m Hm) as (e & He & Hem). by eapply HM.
      * intros i Hi. eapply uncompressed_same; [exact Hsame|]. by apply Hun7.
Qed.


End finishing.
