(* ===== verification/Layout.v ===== *)
(** The bytes of a new archive.

    [file_bytes] is the layout [Creator::write] produces: the header, the MIME
    types, zeros up to byte 1024, the clusters, the entries, the lists of their
    positions, the MD5. [layout_well_formed] shows that such a file is a
    well-formed archive for the reading side ([Opening.well_formed]). *)

From Stdlib Require Import Ascii.
From stdpp Require Import gmap sorting strings.
From S2P Require Import Prelude.
From S2P Require Import Types.
From S2P Require Import Readers.
From S2P Require Import Files.
From S2P Require Import Compression.
From S2P Require Import Streams.
From S2P Require Import Header.
From S2P Require Import Md5.
From S2P Require Import Dirent.
From S2P Require Import WDirent.
From S2P Require Import Cluster.
From S2P Require Import WCluster.
From S2P Require Import Encoding.
From S2P Require Import NarrowDown.
From S2P Require Import Lookup.
From S2P Require Import Tools.
From S2P Require Import FileImpl.
From S2P Require Import Opening.
From S2P Require Import Workers.
From S2P Require Import Creator.
From S2P Require Import Building.

(** * Parts one after the other *)

(** Where the parts [l] begin, the first one at [base]. *)
Fixpoint starts (base : Z) (l : list bytes) : list Z :=
  match l with [] => [] | b :: l => base :: starts (base + Zlen b) l end.

Definition start_of (base : Z) (l : list bytes) (i : nat) : Z := base + Zlen (concat (take i l)).

Lemma starts_lookup base l i o : starts base l !! i = Some o -> o = start_of base l i /\ exists b, l !! i = Some b.
Proof.
  unfold start_of. revert base i. induction l as [|b l IH]; intros base i Hi; [done|]. destruct i as [|i]; simpl in Hi.
  - injection Hi as <-. change (Zlen _) with 0. split; [lia|by exists b].
  - destruct (IH _ _ Hi) as [-> [x Hx]]. cbn [take concat]. rewrite Zlen_app. split; [lia|by exists x].
Qed.

Lemma length_starts base l : length (starts base l) = length l.
Proof. revert base. induction l as [|b l IH]; intros base; [done|]. cbn [starts length]. by rewrite IH. Qed.

Lemma starts_at base l i b : l !! i = Some b -> starts base l !! i = Some (start_of base l i).
Proof.
  intros Hi. apply lookup_lt_Some in Hi. destruct (lookup_lt_is_Some_2 (starts base l) i) as [o Ho];
    [by rewrite length_starts|]. rewrite Ho. f_equal. by apply (starts_lookup _ _ _ _ Ho).
Qed.

Lemma start_bound base l i b : l !! i = Some b -> 0 <= Zlen b /\ base <= start_of base l i /\ start_of base l i + Zlen b <= base + Zlen (concat l).
Proof.
  intros Hi. unfold start_of.
  assert (E : Zlen (concat l) = Zlen (concat (take i l ++ b :: drop (S i) l))) by by rewrite (take_drop_middle l i b Hi).
  rewrite concat_app in E. cbn [concat] in E. rewrite !Zlen_app in E.
  pose proof (Zlen_nonneg (concat (take i l))). pose proof (Zlen_nonneg b). pose proof (Zlen_nonneg (concat (drop (S i) l))). lia.
Qed.

Lemma part_at (a : bytes) l k i b : l !! i = Some b -> slice (a ++ concat l ++ k) (start_of (Zlen a) l i) (Zlen b) = b.
Proof.
  intros Hi. unfold start_of.
  assert (E : concat l = concat (take i l ++ b :: drop (S i) l)) by by rewrite (take_drop_middle l i b Hi).
  rewrite E, concat_app. cbn [concat].
  rewrite <- !app_assoc, (app_assoc a), <- Zlen_app. apply slice_app_mid.
Qed.

Lemma rest_at_part (a : bytes) l k i b : l !! i = Some b ->
  drop (Z.to_nat (start_of (Zlen a) l i)) (a ++ concat l ++ k) = b ++ drop (Z.to_nat (start_of (Zlen a) l i + Zlen b)) (a ++ concat l ++ k).
Proof.
  intros Hi. pose proof (start_bound (Zlen a) l i b Hi) as (Hb & Ha & _). pose proof (Zlen_nonneg a).
  rewrite Z2Nat.inj_add, <- drop_drop by lia. pose proof (part_at a l k i b Hi) as E. unfold slice in E. revert E.
  generalize (drop (Z.to_nat (start_of (Zlen a) l i)) (a ++ concat l ++ k)). intros t E. rewrite <- E at 1. by rewrite take_drop.
Qed.

(** Numbers of [N] bytes, one after the other. *)
Lemma int_part (a : bytes) N (f : nat -> Z) n k i :
  N = 2%nat \/ N = 4%nat \/ N = 8%nat -> (i < n)%nat ->
  slice (a ++ concat (map (fun i => toLittleEndian N (f i)) (seq 0 n)) ++ k) (Zlen a + Z.of_nat N * Z.of_nat i) (Z.of_nat N) =
    toLittleEndian N (f i).
Proof.
  intros HN Hi. set (l := map (fun i => toLittleEndian N (f i)) (seq 0 n)).
  assert (Hl : l !! i = Some (toLittleEndian N (f i))).
  { unfold l. rewrite (map_lookup_Some _ _ _ i); [done|]. by apply lookup_seq. }
  assert (Hs : start_of (Zlen a) l i = Zlen a + Z.of_nat N * Z.of_nat i).
  { unfold start_of, l. rewrite <- (map_map f (toLittleEndian N)). rewrite firstn_map, concat_ints_length by done.
    unfold Zlen at 2. rewrite length_take, length_map, length_seq. lia. }
  rewrite <- Hs. replace (Z.of_nat N) with (Zlen (toLittleEndian N (f i))) by (unfold Zlen; by rewrite length_toLittleEndian).
  by apply part_at.
Qed.

(** A cluster of the file: its compression, its blobs, what they are stored as. *)
Record stored_cluster : Type := mkStored { sc_comp : CompressionType; sc_blobs : list bytes; sc_data : bytes }.

Section layout.
Context `{OSSpec} `{LzmaLib} `{ZstdLib} (K : Codecs).

(** The header, the MIME types, what follows them up to byte 1024, the clusters, the entries with
    their numbers, the MD5. *)
Context (h : Fileheader) (mimes : list bytes) (pad : bytes) (cl : list stored_cluster)
  (dl : list (WDirent.t * list Z)) (digest : bytes).

Definition cluster_bytes (c : stored_cluster) : bytes := cluster_info (sc_comp c) false :: sc_data c.
Definition dirent_out (d : WDirent.t * list Z) : bytes :=
  dirent_bytes (WDirent.mimeType d.1) (WDirent.ns d.1) WDirent.version d.2 (WDirent.path d.1) (stored_title d.1).

Definition front_bytes : bytes := Fileheader_write h ++ mime_bytes mimes ++ [0] ++ pad.
Definition clusters_bytes : list bytes := map cluster_bytes cl.
Definition entries_bytes : list bytes := map dirent_out dl.
Definition cluster_start (k : nat) : Z := start_of 1024 clusters_bytes k.
Definition entry_start (i : nat) : Z := start_of (1024 + Zlen (concat clusters_bytes)) entries_bytes i.
Definition urls_pos : Z := 1024 + Zlen (concat clusters_bytes) + Zlen (concat entries_bytes).
Definition clusters_pos : Z := urls_pos + 8 * Zlen dl.

Definition file_bytes : bytes :=
  front_bytes ++ concat clusters_bytes ++ concat entries_bytes ++
  concat (map (fun i => toLittleEndian 8 (entry_start i)) (seq 0 (length dl))) ++
  concat (map (fun k => toLittleEndian 8 (cluster_start k)) (seq 0 (length cl))) ++ digest.

(** What the parts are. *)
Record layout_ok (di : nat -> Z) (ci : nat -> Z) : Prop := {
  ly_front : Zlen front_bytes = 1024;
  ly_digest : Zlen digest = 16;
  ly_fits : header_fits h;
  ly_version : majorVersion h = 5 \/ majorVersion h = 6;
  ly_counts : articleCount h = Zlen dl /\ clusterCount h = Zlen cl /\ 1 <= Zlen cl <= Zlen dl /\ Zlen dl < 2 ^ 31;
  ly_positions : urlPtrPos h = urls_pos /\ clusterPtrPos h = clusters_pos /\ mimeListPos h = 80 /\
    checksumPos h = clusters_pos + 8 * Zlen cl /\ 1024 <= titleIdxPos h;
  ly_mimes : Forall (fun m => m <> [] /\ no_nul m) mimes;
  ly_clusters : Forall (fun c => stored_as K (sc_comp c) (cluster_payload false (sc_blobs c)) (sc_data c) /\ payload_ok false (sc_blobs c)) cl;
  ly_entries : Forall (fun d => wdirent_ok di ci d.1 d.2 /\ 0 < WDirent.ns d.1 < 128) dl;
  ly_short : Forall (fun d => Zlen (dirent_out d) <= 256) dl;
  ly_sorted : StronglySorted str_lt (map (fun d => wkey d.1) dl);
}.

Context (di ci : nat -> Z).
Hypothesis Hly : layout_ok di ci.

Lemma pointers_size n (f : nat -> Z) : Zlen (concat (map (fun i => toLittleEndian 8 (f i)) (seq 0 n))) = 8 * Z.of_nat n.
Proof.
  rewrite <- (map_map f (toLittleEndian 8)), concat_ints_length by auto. rewrite Zlen_map. unfold Zlen. rewrite length_seq. lia.
Qed.

Lemma file_size : Zlen file_bytes = clusters_pos + 8 * Zlen cl + 16.
Proof.
  unfold file_bytes, clusters_pos, urls_pos. rewrite !Zlen_app, (ly_front _ _ Hly), (ly_digest _ _ Hly), !pointers_size.
  unfold Zlen. lia.
Qed.

Lemma front_split : Zlen (Fileheader_write h) = 80 /\ Zlen (mime_bytes mimes) + 1 + Zlen pad = 944.
Proof.
  pose proof (ly_front _ _ Hly) as Hf. unfold front_bytes in Hf. rewrite !Zlen_app in Hf.
  destruct (ly_fits _ _ Hly) as (_ & _ & Hu & _). rewrite (length_write h Hu) in *. change (Zlen [0]) with 1 in Hf. split; [done|lia].
Qed.

(** Entry [i] is at its position. *)
Lemma entry_at i d : dl !! i = Some d -> slice file_bytes (entry_start i) (Zlen (dirent_out d)) = dirent_out d /\
  1024 <= entry_start i /\ entry_start i + Zlen (dirent_out d) <= urls_pos.
Proof.
  intros Hd. assert (Hi : entries_bytes !! i = Some (dirent_out d)) by by apply map_lookup_Some.
  split.
  - unfold file_bytes, entry_start. rewrite (app_assoc front_bytes), <- (ly_front _ _ Hly), <- Zlen_app. by apply part_at.
  - pose proof (start_bound (1024 + Zlen (concat clusters_bytes)) _ _ _ Hi). unfold entry_start, urls_pos.
    pose proof (Zlen_nonneg (concat clusters_bytes)). lia.
Qed.

Lemma cluster_at_start k c : cl !! k = Some c ->
  drop (Z.to_nat (cluster_start k)) file_bytes =
    cluster_bytes c ++ drop (Z.to_nat (cluster_start k + Zlen (cluster_bytes c))) file_bytes /\
  1024 <= cluster_start k /\ cluster_start k <= urls_pos.
Proof.
  intros Hc. assert (Hk : clusters_bytes !! k = Some (cluster_bytes c)) by by apply map_lookup_Some.
  split.
  - unfold file_bytes, cluster_start. rewrite <- (ly_front _ _ Hly). by apply rest_at_part.
  - pose proof (start_bound 1024 _ _ _ Hk). unfold cluster_start, urls_pos. pose proof (Zlen_nonneg (concat entries_bytes)). lia.
Qed.

Lemma url_pointer i : (i < length dl)%nat ->
  slice file_bytes (urls_pos + 8 * Z.of_nat i) 8 = toLittleEndian 8 (entry_start i).
Proof.
  intros Hi. unfold file_bytes, urls_pos. rewrite <- (ly_front _ _ Hly), <- !Zlen_app.
  rewrite (app_assoc front_bytes), (app_assoc (front_bytes ++ concat clusters_bytes)).
  by apply (int_part _ 8 entry_start (length dl)); auto.
Qed.

Lemma cluster_pointer k : (k < length cl)%nat ->
  slice file_bytes (clusters_pos + 8 * Z.of_nat k) 8 = toLittleEndian 8 (cluster_start k).
Proof.
  intros Hk. unfold file_bytes, clusters_pos, urls_pos.
  replace (8 * Zlen dl) with (Zlen (concat (map (fun i => toLittleEndian 8 (entry_start i)) (seq 0 (length dl)))))
    by (rewrite pointers_size; unfold Zlen; lia).
  rewrite <- (ly_front _ _ Hly), <- !Zlen_app.
  rewrite (app_assoc front_bytes), (app_assoc (front_bytes ++ concat clusters_bytes)),
    (app_assoc ((front_bytes ++ concat clusters_bytes) ++ concat entries_bytes)).
  by apply (int_part _ 8 cluster_start (length cl)); auto.
Qed.

(** ** A well-formed archive *)

Context (r : AnyReader).
Hypothesis Hr : r_wf r.
Hypothesis Hcontent : r_content r = file_bytes.
Hypothesis Hsize : Zlen file_bytes <= max_read.

Definition cluster_of_index (k : Z) : stored_cluster := nth (Z.to_nat k) cl (mkStored zimcompNone [] []).

Lemma reader_size : r_size r = clusters_pos + 8 * Zlen cl + 16.
Proof. rewrite (r_size_content r Hr), Hcontent. apply file_size. Qed.

Lemma starts_bound : 1024 <= urls_pos /\ urls_pos <= clusters_pos.
Proof.
  unfold clusters_pos, urls_pos. pose proof (Zlen_nonneg (concat clusters_bytes)). pose proof (Zlen_nonneg (concat entries_bytes)).
  pose proof (Zlen_nonneg dl). lia.
Qed.

Lemma entry_read i d : dl !! i = Some d -> readDirent_fresh r (entry_start i) = Ok (as_read d.1 d.2).
Proof.
  intros Hd. pose proof (ly_entries _ _ Hly) as Hall. rewrite Forall_lookup in Hall. destruct (Hall i d Hd) as ([Hn Hns Hp Ht] & _).
  pose proof (ly_short _ _ Hly) as Hshort. rewrite Forall_lookup in Hshort. specialize (Hshort i d Hd). simpl in Hshort.
  destruct (entry_at i d Hd) as (Hs & Hlo & Hhi). pose proof file_size as Hfs. pose proof starts_bound. pose proof (Zlen_nonneg cl).
  destruct (wdirent_kind _ _ d.1 d.2 Hn) as (e & Hk & Ee). unfold readDirent_fresh.
  destruct (readDirent_in r [] (entry_start i) (WDirent.mimeType d.1) (WDirent.ns d.1) WDirent.version d.2 (WDirent.path d.1)
    (stored_title d.1) e) as (mb & E); try done.
  - unfold dirent_at. rewrite Hcontent. fold (dirent_out d). unfold max_read. split_and!; [lia|done|lia|lia|by left].
  - by apply stored_title_no_nul.
  - rewrite <- Ee in E. by rewrite E.
Qed.

Lemma mime_end_front : mime_end mimes <= 1024 /\ slice file_bytes 80 (mime_end mimes - 80) = mime_bytes mimes ++ [0].
Proof.
  destruct front_split as [Hh Hz]. pose proof (Zlen_nonneg pad). unfold mime_end. split; [lia|].
  unfold file_bytes, front_bytes. rewrite <- !app_assoc. rewrite (app_assoc (mime_bytes mimes) [0]), <- Hh.
  replace (Zlen (Fileheader_write h) + Zlen (mime_bytes mimes) + 1 - Zlen (Fileheader_write h)) with (Zlen (mime_bytes mimes ++ [0]))
    by (rewrite Zlen_app; change (Zlen [0]) with 1; lia).
  apply slice_app_mid.
Qed.

Lemma cluster_lookup k : 0 <= k < Zlen cl -> cl !! Z.to_nat k = Some (cluster_of_index k).
Proof.
  intros Hk. destruct (lookup_lt_is_Some_2 cl (Z.to_nat k)) as [c Hc]; [unfold Zlen in Hk; lia|].
  rewrite Hc. unfold cluster_of_index. by rewrite (nth_lookup_Some _ _ _ _ Hc).
Qed.

Lemma dirents_key : map direntKey (map (fun d => as_read d.1 d.2) dl) = map (fun d => wkey d.1) dl.
Proof. rewrite map_map. by apply map_ext. Qed.

Lemma layout_sane : header_sane h.
Proof.
  pose proof starts_bound. destruct (ly_positions _ _ Hly) as (Hu & Hc & Hm & Hk & Ht). destruct (ly_counts _ _ Hly) as (Ha & Hcc & Hle & _).
  unfold header_sane. rewrite Hm, Ha, Hcc, Hu, Hc, Hk. split; [apply Hly|]. pose proof (Zlen_nonneg cl). split_and!; try lia.
Qed.

Theorem layout_well_formed :
  well_formed (lzma_dec K) (zstd_dec K) r h (starts (1024 + Zlen (concat clusters_bytes)) entries_bytes)
    (map (fun d => as_read d.1 d.2) dl) mimes (fun k => cluster_start (Z.to_nat k)) (fun k => sc_blobs (cluster_of_index k))
    (fun k => sc_comp (cluster_of_index k)) (fun _ => false)
    (fun k => after_of K (sc_comp (cluster_of_index k))
      (drop (Z.to_nat (cluster_start (Z.to_nat k) + Zlen (cluster_bytes (cluster_of_index k)))) file_bytes)).
Proof.
  pose proof reader_size as Hrs. pose proof file_size as Hfs. pose proof starts_bound as [Hlo Hlo2]. destruct mime_end_front as [Hme Hms].
  destruct (ly_positions _ _ Hly) as (Hu & Hc & Hm & Hk & Ht). destruct (ly_counts _ _ Hly) as (Ha & Hcc & Hle & Hlt).
  assert (Hoff : forall i off, starts (1024 + Zlen (concat clusters_bytes)) entries_bytes !! i = Some off ->
    off = entry_start i /\ exists d, dl !! i = Some d).
  { intros i off Ho. apply starts_lookup in Ho as [-> [b Hb]]. split; [done|]. apply list_lookup_fmap_Some in Hb as (d & _ & Hd). by exists d. }
  assert (Hlen : Zlen (map (fun d => as_read d.1 d.2) dl) = Zlen dl) by apply Zlen_map.
  unfold max_read in Hsize. split; rewrite ?Hlen, ?Hcontent, ?Hu, ?Hc, ?Hcc.
  - done.
  - unfold max_read. lia.
  - unfold file_bytes, front_bytes. rewrite <- app_assoc. pose proof (proj1 front_split) as Hh. rewrite <- Hh.
    rewrite slice_app_l by (pose proof (Zlen_nonneg (Fileheader_write h)); lia). apply slice_all.
  - apply Hly.
  - apply layout_sane.
  - done.
  - lia.
  - done.
  - lia.
  - unfold clusters_pos in Hrs. lia.
  - apply Forall2_same_length_lookup_2; [by rewrite length_starts, length_map; unfold entries_bytes; rewrite length_map|].
    intros i off d Ho Hd. destruct (Hoff i off Ho) as [-> [x Hx]]. rewrite (entry_read i x Hx).
    apply list_lookup_fmap_Some in Hd as (y & -> & Hy). congruence.
  - intros i off Ho. destruct (Hoff i off Ho) as [-> [d Hd]]. destruct (entry_at i d Hd) as (_ & Hlo' & Hhi').
    pose proof (Zlen_nonneg (dirent_out d)). unfold int_at. rewrite Hcontent, url_pointer by by eapply lookup_lt_Some.
    split; [|lia]. split; [done|]. unfold fits. cbn. lia.
  - pose proof (ly_entries _ _ Hly) as Hall. apply Forall_fmap. eapply Forall_impl; [exact Hall|].
    intros d ([_ _ Hp _] & Hns). by split.
  - rewrite dirents_key. apply Hly.
  - lia.
  - intros k Hk'. pose proof (cluster_lookup k Hk') as Hkl. destruct (cluster_at_start _ _ Hkl) as (_ & Hlo' & Hhi').
    unfold int_at. rewrite Hcontent. rewrite <- (Z2Nat.id k) at 1 by lia. rewrite cluster_pointer by by eapply lookup_lt_Some.
    split; [|lia]. split; [done|]. unfold fits. cbn. lia.
  - intros k Hk'. pose proof (cluster_lookup k Hk') as Hkl. destruct (cluster_at_start _ _ Hkl) as (E & _).
    pose proof (ly_clusters _ _ Hly) as Hall. rewrite Forall_lookup in Hall. destruct (Hall _ _ Hkl) as [Hraw Hok].
    eexists. split; [exact E|]. split.
    + destruct Hok as (Hne & _). intros Hnil. apply app_eq_nil in Hnil as [Hnil _]. revert Hnil. apply (stored_as_nonempty K _ _ _ Hraw).
      unfold cluster_payload. by destruct (sc_blobs (cluster_of_index k)).
    + by apply stored_as_encodes.
  - intros k Hk'. pose proof (ly_clusters _ _ Hly) as Hall. rewrite Forall_lookup in Hall.
    by destruct (Hall _ _ (cluster_lookup k Hk')) as [_ Hok].
  - apply Hly.
  - done.
  - lia.
Qed.


End layout.
