(* ===== verification/Writing.v ===== *)
(** Writing the archive ([Creator::finishZimCreation] from the threads on, [Creator::write]).

    A state all stages of [Finishing] have gone through is written as the
    layout of [Layout]: [finish_clusters_ok] for the clusters, [write_ok] for the
    rest of the file. *)

From Stdlib Require Import Ascii.
From stdpp Require Import gmap sorting strings.
From S2P Require Import Prelude.
From S2P Require Import Types.
From S2P Require Import Readers.
From S2P Require Import Files.
From S2P Require Import Compression.
From S2P Require Import Streams.
From S2P Require Import Header.
From S2P Require Import Md5.
From S2P Require Import Dirent.
From S2P Require Import WDirent.
From S2P Require Import Cluster.
From S2P Require Import WCluster.
From S2P Require Import Encoding.
From S2P Require Import Tools.
From S2P Require Import FileImpl.
From S2P Require Import Workers.
From S2P Require Import Creator.
From S2P Require Import Building.
From S2P Require Import Finishing.
From S2P Require Import Layout.

(** * The file *)

Lemma out_write_end b d : out_write (mkOut b (Zlen b)) d = mkOut (b ++ d) (Zlen (b ++ d)).
Proof.
  destruct d as [|x d]; [by rewrite app_nil_r|]. unfold out_write. cbn [o_pos o_bytes]. rewrite Zlen_app. f_equal.
  unfold Zlen. rewrite Nat2Z.id, take_ge, Nat.sub_diag, drop_ge by lia. cbn [repeat app]. by rewrite app_nil_r.
Qed.

Lemma out_writes_end l b : out_writes (mkOut b (Zlen b)) l = mkOut (b ++ concat l) (Zlen (b ++ concat l)).
Proof.
  unfold out_writes. revert b. induction l as [|d l IH]; intros b; cbn [fold_left concat]; [by rewrite app_nil_r|].
  by rewrite out_write_end, IH, <- app_assoc.
Qed.

Lemma out_write_over a z k d : Zlen z = Zlen d ->
  out_write (mkOut (a ++ z ++ k) (Zlen a)) d = mkOut (a ++ d ++ k) (Zlen (a ++ d)).
Proof.
  intros Hz. destruct d as [|x d].
  { apply Zlen_nil_inv in Hz as ->. unfold out_write. by rewrite app_nil_r. }
  unfold out_write. cbn [o_pos o_bytes]. rewrite Zlen_app. f_equal. unfold Zlen in *. rewrite Nat2Z.id, take_app_length.
  rewrite length_app, (proj2 (Nat.sub_0_le _ _)) by lia. cbn [repeat app]. do 2 f_equal.
  rewrite <- drop_drop, drop_app_length. rewrite drop_app_ge by (simpl in *; lia). by replace (length (x :: d) - length z)%nat with 0%nat by lia.
Qed.

Lemma out_write_front z k d : Zlen z = Zlen d -> out_write (mkOut (z ++ k) 0) d = mkOut (d ++ k) (Zlen d).
Proof. exact (out_write_over [] z k d). Qed.

Lemma out_writes_over l a z k : Zlen z = Zlen (concat l) ->
  out_writes (mkOut (a ++ z ++ k) (Zlen a)) l = mkOut (a ++ concat l ++ k) (Zlen (a ++ concat l)).
Proof.
  unfold out_writes. revert a z. induction l as [|d l IH]; intros a z Hz; cbn [fold_left concat] in *.
  { apply Zlen_nil_inv in Hz as ->. by rewrite app_nil_r. }
  rewrite Zlen_app in Hz. rewrite <- (take_drop (length d) z), <- app_assoc.
  pose proof (Zlen_nonneg d). pose proof (Zlen_nonneg (concat l)).
  rewrite out_write_over by (unfold Zlen in *; rewrite length_take; lia). rewrite (app_assoc a d).
  rewrite IH by (unfold Zlen in *; rewrite length_drop; lia). by rewrite <- !app_assoc.
Qed.

(** The file once [body] has been written behind byte 1024. *)
Definition body_file (body : bytes) : out_file :=
  mkOut (if bool_decide (body = []) then [] else repeat 0 1024 ++ body) (1024 + Zlen body).

Lemma body_file_write body d : d <> [] -> out_write (body_file body) d = body_file (body ++ d).
Proof.
  intros Hd. unfold body_file. rewrite (bool_decide_false (body ++ d = [])) by (intros E; by apply app_eq_nil in E as [_ ?]).
  case_bool_decide as Hb.
  - subst body. destruct d as [|x d]; [done|]. unfold out_write. cbn [o_pos o_bytes app]. change (Zlen []) with 0.
    replace (Z.to_nat (1024 + 0)) with 1024%nat by done. rewrite take_nil, drop_nil, app_nil_r. done.
  - assert (E : 1024 + Zlen body = Zlen (repeat 0 1024 ++ body)) by (by rewrite Zlen_app, Zlen_repeat).
    rewrite E, out_write_end, <- app_assoc. f_equal. rewrite !Zlen_app, Zlen_repeat. lia.
Qed.

Section writing.
Context `{OS} `{LzmaLib} `{ZstdLib} (K : Codecs) {comp : CompressionType} {chunk : Z}.

(** ** The clusters *)

(** What becomes of a cluster that is closed and written at [o]. *)
Definition written_at (o : Z) (x y : WCluster.t) : Prop :=
  WCluster.index y = WCluster.index x /\ WCluster.offset y = o /\ WCluster.closed y = true /\
  WCluster.count y = WCluster.count x /\ WCluster.isExtended y = WCluster.isExtended x.

Lemma finish_cluster_ok n fuel x bs body :
  storable K n x bs -> (n <= fuel)%nat -> WCluster.isExtended x = false ->
  exists y, finish_cluster fuel x (body_file body) =
      Ok (y, body_file (body ++ cluster_bytes (mkStored (WCluster.compression x) bs (stored_bytes n x)))) /\
    written_at (1024 + Zlen body) x y.
Proof.
  intros Hst Hle Hext. destruct (close_write K n fuel x bs Hst Hle) as (x1 & Ec & Ew & Hi & Hcl & Hn & He).
  unfold finish_cluster. rewrite Ec. cbn [mbind outcome_bind].
  change (WCluster.write (WCluster.setOffset x1 _)) with (WCluster.write x1). rewrite Ew, Hext. cbn [mbind outcome_bind].
  change (_ :: stored_bytes n x) with (cluster_bytes (mkStored (WCluster.compression x) bs (stored_bytes n x))).
  rewrite body_file_write by done. eexists. split; [reflexivity|]. unfold written_at. by rewrite <- Hi, <- Hn, <- He.
Qed.

(** [x] is a cluster to be written as [k], given the fuel [n]. *)
Record to_write (n : nat) (k : stored_cluster) (x : WCluster.t) : Prop := {
  tw_comp : WCluster.compression x = sc_comp k;
  tw_storable : storable K n x (sc_blobs k);
  tw_data : sc_data k = stored_bytes n x;
  tw_ext : WCluster.isExtended x = false;
  tw_ok : payload_ok false (sc_blobs k);
}.

Lemma finish_clusters_ok n fuel (k : nat -> stored_cluster) ids hp body :
  (n <= fuel)%nat -> NoDup ids -> (forall c, c ∈ ids -> exists x, hp !! c = Some x /\ to_write n (k c) x) ->
  let outs := map (fun c => cluster_bytes (k c)) ids in
  exists hp', finish_clusters fuel ids hp (body_file body) = Ok (hp', body_file (body ++ concat outs)) /\
    (forall c, c ∉ ids -> hp' !! c = hp !! c) /\
    forall j c x, ids !! j = Some c -> hp !! c = Some x -> exists y, hp' !! c = Some y /\
      written_at (start_of (1024 + Zlen body) outs j) x y.
Proof.
  intros Hfuel. revert hp body. induction ids as [|c ids IH]; intros hp body Hnd Hall outs.
  { exists hp. cbn [finish_clusters]. unfold outs. cbn [map concat]. by rewrite app_nil_r. }
  apply NoDup_cons in Hnd as [Hc Hnd]. destruct (Hall c) as (x & Hx & [Hcomp Hst Hdata Hext Hok]); [left|].
  destruct (finish_cluster_ok n fuel x (sc_blobs (k c)) body Hst Hfuel Hext) as (y & E & Hw).
  rewrite Hcomp, <- Hdata in E. replace (mkStored _ _ _) with (k c) in E by by destruct (k c).
  cbn [finish_clusters]. rewrite Hx, E. cbn [mbind outcome_bind].
  assert (Hne : forall c', c' ∈ ids -> c <> c') by congruence.
  destruct (IH (<[c := y]> hp) (body ++ cluster_bytes (k c)) Hnd) as (hp' & E' & Hout & Hat).
  { intros c' Hc'. rewrite list_lookup_insert_ne by auto. apply Hall. by right. }
  exists hp'. rewrite E', <- app_assoc. split_and!; [done| |].
  - intros c' Hc'. apply not_elem_of_cons in Hc' as [Hcc Hc']. rewrite Hout by done. by rewrite list_lookup_insert_ne.
  - intros j c' x' Hj Hx'. destruct j as [|j]; simpl in Hj.
    + injection Hj as <-. assert (x' = x) as -> by congruence. exists y. rewrite Hout by done.
      rewrite list_lookup_insert_eq by by eapply lookup_lt_Some. split; [done|]. unfold start_of. cbn [take concat].
      change (Zlen []) with 0. by rewrite Z.add_0_r.
    + assert (Hc' : c' ∈ ids) by by eapply list_elem_of_lookup_2.
      destruct (Hat j c' x' Hj) as (z & Hz & Hwz); [by rewrite list_lookup_insert_ne by auto|].
      exists z. split; [done|]. unfold start_of in *. unfold outs. cbn [map take concat]. rewrite Zlen_app in *.
      by rewrite Z.add_assoc, <- Z.add_assoc, <- (Z.add_assoc 1024), Z.add_assoc in Hwz |- *.
Qed.

(** ** The entries *)

Lemma numbers_offset di ci d nums o : wdirent_numbers di ci d nums -> wdirent_numbers di ci (WDirent.setOffset d o) nums.
Proof. destruct 1; [by eapply wnum_redirect|by eapply wnum_item]. Qed.

Lemma write_dirents_ok s (nums : nat -> list Z) ds p b :
  NoDup ds -> (forall d, d ∈ ds -> (d < length p)%nat /\ wdirent_numbers (dirent_idx s) (cluster_idx s) (deref p d) (nums d)) ->
  let outs := map (fun d => dirent_out (deref p d, nums d)) ds in
  exists p', write_dirents s p (mkOut b (Zlen b)) ds = Ok (p', mkOut (b ++ concat outs) (Zlen (b ++ concat outs))) /\
    (forall d, d ∉ ds -> deref p' d = deref p d) /\
    forall i d, ds !! i = Some d -> WDirent.offset (deref p' d) = start_of (Zlen b) outs i.
Proof.
  revert p b. induction ds as [|d ds IH]; intros p b Hnd Hall outs.
  { exists p. cbn [write_dirents]. unfold outs. cbn [map concat]. by rewrite app_nil_r. }
  apply NoDup_cons in Hnd as [Hd Hnd]. destruct (Hall d) as [Hlt Hn]; [left|].
  cbn [write_dirents o_pos]. set (e := WDirent.setOffset (deref p d) (Zlen b)).
  rewrite (wdirent_write _ _ e (nums d)) by by apply numbers_offset. cbn [mbind outcome_bind].
  change (dirent_bytes _ _ _ _ _ _) with (dirent_out (deref p d, nums d)). rewrite out_write_end.
  assert (Hother : forall d', d' <> d -> deref (<[d := e]> p) d' = deref p d')
    by (intros d' Hne; unfold deref; by rewrite list_lookup_insert_ne by auto).
  assert (Hself : deref (<[d := e]> p) d = e) by (apply deref_lookup; by apply list_lookup_insert_eq).
  assert (Hne : forall d', d' ∈ ds -> d' <> d) by congruence.
  destruct (IH (<[d := e]> p) (b ++ dirent_out (deref p d, nums d)) Hnd) as (p' & E & Hout & Hat).
  { intros d' Hd'. rewrite length_insert, Hother by auto. apply Hall. by right. }
  assert (Hmap : map (fun d' => dirent_out (deref (<[d := e]> p) d', nums d')) ds = map (fun d' => dirent_out (deref p d', nums d')) ds).
  { apply map_ext_in. intros d' Hd'. rewrite Hother; [done|]. by apply Hne, list_elem_of_In. }
  rewrite Hmap in *. exists p'. rewrite E, <- app_assoc. split_and!; [done| |].
  - intros d' Hd'. apply not_elem_of_cons in Hd' as [Hdd Hd']. by rewrite Hout, Hother.
  - intros i d' Hi. destruct i as [|i]; simpl in Hi.
    + injection Hi as <-. rewrite Hout, Hself by done. unfold start_of.
      change (Zlen (concat (take 0 outs))) with 0. unfold e. cbn [WDirent.offset WDirent.setOffset]. lia.
    + rewrite (Hat i d' Hi). unfold start_of, outs. cbn [map take concat]. rewrite !Zlen_app. lia.
Qed.

(** ** The checksum *)

Lemma checksum_loop_ok fuel rest ctx msg :
  md5_at ctx msg -> (length rest < fuel)%nat ->
  exists ctx', checksum_loop fuel rest ctx = Ok ctx' /\ md5_at ctx' (msg ++ rest).
Proof.
  revert rest ctx msg. induction fuel as [|fuel IH]; intros rest ctx msg Hat Hlt; [lia|]. cbn [checksum_loop].
  destruct (Z.eqb_spec (Zlen (take 1024 rest)) 0) as [Hz|Hz].
  - exists ctx. split; [done|]. destruct rest; [by rewrite app_nil_r|]. simpl in Hz. rewrite Zlen_cons in Hz.
    pose proof (Zlen_nonneg (take 1023 rest)). lia.
  - destruct (zim_MD5Update_ok ctx msg (take 1024 rest) [] Hat) as (ctx1 & E & Hat1).
    { unfold Zlen. rewrite length_take. lia. }
    rewrite app_nil_r in E. rewrite E. cbn [mbind outcome_bind].
    destruct (IH (drop 1024 rest) ctx1 (msg ++ take 1024 rest) Hat1) as (ctx2 & E2 & Hat2).
    { rewrite length_drop. assert (length rest <> 0%nat); [|lia]. intros E0. destruct rest; [done|]. simpl in E0. lia. }
    exists ctx2. split; [done|]. by rewrite <- app_assoc, take_drop in Hat2.
Qed.

Lemma md5_length msg : Zlen (md5 msg) = 16.
Proof.
  unfold md5. destruct (blocks _ _ _) as [[[a b] c] d]. unfold Zlen. rewrite !length_app, !length_le_bytes. done.
Qed.


(** ** The rest of the file *)

(** The file up to the MD5. *)
Definition content_bytes (h : Fileheader) (mimes : list bytes) (body : bytes) (outs : list bytes) (cluster_offs : list Z) : bytes :=
  Fileheader_write h ++ mime_bytes mimes ++ [0] ++ repeat 0 (Z.to_nat (943 - Zlen (mime_bytes mimes))) ++ body ++ concat outs ++
  concat (map (toLittleEndian 8) (starts (1024 + Zlen body) outs)) ++ concat (map (toLittleEndian 8) cluster_offs).

Lemma mime_zone_written mimes body :
  body <> [] -> Zlen (mime_bytes mimes) + 81 < 1024 ->
  out_write (out_writes (lseek_set (body_file body) 80) (map (fun m => m ++ [0]) mimes)) [0] =
    let w := repeat 0 80 ++ (mime_bytes mimes ++ [0]) in
    mkOut (w ++ repeat 0 (Z.to_nat (943 - Zlen (mime_bytes mimes))) ++ body) (Zlen w).
Proof.
  intros Hb Hlt. pose proof (Zlen_nonneg (mime_bytes mimes)) as Hn. set (L := Z.to_nat (Zlen (mime_bytes mimes))).
  assert (E : lseek_set (body_file body) 80 = mkOut (repeat 0 80 ++ repeat 0 (L + 1) ++
    repeat 0 (Z.to_nat (943 - Zlen (mime_bytes mimes))) ++ body) (Zlen (repeat 0 80))).
  { unfold lseek_set, body_file. rewrite bool_decide_false by done. cbn [o_bytes]. f_equal.
    rewrite !app_assoc, <- !repeat_app. do 2 f_equal. unfold L. lia. }
  rewrite E. set (fd := mkOut _ _).
  assert (Ew : forall l, out_write (out_writes fd l) [0] = out_writes fd (l ++ [[0]])) by (intros l; unfold out_writes; by rewrite fold_left_app).
  rewrite Ew. unfold fd. assert (Ec : concat (map (fun m => m ++ [0]) mimes ++ [[0]]) = mime_bytes mimes ++ [0]) by (by rewrite concat_app).
  rewrite out_writes_over, Ec; [by rewrite app_assoc|]. rewrite Ec, Zlen_repeat, Zlen_app. change (Zlen [0]) with 1. unfold L. lia.
Qed.

Lemma write_ok garbage c s h0 (nums : nat -> list Z) body :
  length garbage = 64%nat -> fillHeader c s (Fileheader_new 0) = Ok h0 -> mimeListPos h0 = 80 -> Zlen (uuid h0) = 16 ->
  body <> [] -> Zlen (mime_bytes (mimeTypesList s)) + 81 < 1024 -> NoDup (dirents s) ->
  (forall d, d ∈ dirents s -> (d < length (pool s))%nat /\ wdirent_numbers (dirent_idx s) (cluster_idx s) (deref (pool s) d) (nums d)) ->
  let outs := map (fun d => dirent_out (deref (pool s) d, nums d)) (dirents s) in
  let urls := 1024 + Zlen body + Zlen (concat outs) in
  let h := with_positions h0 urls (urls + 8 * Zlen (dirents s)) (urls + 8 * Zlen (dirents s) + 8 * Zlen (clustersList s)) in
  let content := content_bytes h (mimeTypesList s) body outs (map (fun k => WCluster.offset (cluster_at s k)) (clustersList s)) in
  Creator_write garbage c s (body_file body) = Ok (content ++ md5 content).
Proof.
  intros Hg Hh Hm Hu Hb Hlt Hnd Hall outs urls h content. unfold Creator_write. rewrite Hh. cbn [mbind outcome_bind]. rewrite Hm.
  rewrite mime_zone_written by done. cbv zeta. set (w := repeat 0 80 ++ _).
  pose proof (Zlen_nonneg (mime_bytes (mimeTypesList s))) as Hmb.
  assert (Hw : Zlen w = 80 + Zlen (mime_bytes (mimeTypesList s)) + 1) by (unfold w; rewrite !Zlen_app, Zlen_repeat; change (Zlen [0]) with 1; lia).
  cbn [o_pos]. rewrite (proj2 (Z.ltb_lt _ CLUSTER_BASE_OFFSET)) by (unfold CLUSTER_BASE_OFFSET; lia). cbn [ASSERT mbind outcome_bind].
  set (pad := repeat 0 _). set (x := w ++ pad ++ body). unfold lseek_end. cbn [o_bytes].
  assert (Hx : Zlen x = 1024 + Zlen body) by (unfold x, pad; rewrite !Zlen_app, Zlen_repeat; lia).
  destruct (write_dirents_ok s nums (dirents s) (pool s) x Hnd Hall) as (p' & E & _ & Hat). fold outs in E, Hat. rewrite E.
  cbn [mbind outcome_bind o_pos].
  assert (Eu : map (fun d => toLittleEndian 8 (WDirent.offset (deref p' d))) (dirents s) = map (toLittleEndian 8) (starts (1024 + Zlen body) outs)).
  { apply list_eq. intros i. unfold outs. destruct (dirents s !! i) as [d|] eqn:Hd.
    - rewrite (map_lookup_Some _ _ _ _ Hd), (Hat i d Hd), <- Hx. symmetry. apply map_lookup_Some.
      apply (starts_at _ _ _ (dirent_out (deref (pool s) d, nums d))).
      exact (map_lookup_Some (fun d => dirent_out (deref (pool s) d, nums d)) _ _ _ Hd).
    - apply lookup_ge_None in Hd. rewrite !lookup_ge_None_2; [done| |]; rewrite length_map; [|done]. by rewrite length_starts, length_map. }
  rewrite Eu, out_writes_end. cbn [o_pos]. rewrite <- (map_map (fun k => WCluster.offset (cluster_at s k))).
  set (offs := map _ (clustersList s)) in *. rewrite out_writes_end. cbn [o_pos].
  assert (Hlen8 : forall l, Zlen (concat (map (toLittleEndian 8) l)) = 8 * Zlen l) by (intros l; by rewrite concat_ints_length by auto).
  assert (Hh' : with_positions h0 (Zlen (x ++ concat outs)) (Zlen ((x ++ concat outs) ++ concat (map (toLittleEndian 8) (starts (1024 + Zlen body) outs))))
     (Zlen (((x ++ concat outs) ++ concat (map (toLittleEndian 8) (starts (1024 + Zlen body) outs))) ++ concat (map (toLittleEndian 8) offs))) = h).
  { unfold h, urls. f_equal; rewrite !Zlen_app, ?Hlen8, Hx; unfold offs; rewrite ?Zlen_map; try lia;
      unfold Zlen at 3; rewrite length_starts; unfold outs; rewrite length_map; unfold Zlen; lia. }
  rewrite Hh'. clear Hh'.
  assert (Hw0 : Zlen (Fileheader_write h) = 80) by by apply length_write.
  assert (Ec : o_bytes (out_write (lseek_set (mkOut (((x ++ concat outs) ++ concat (map (toLittleEndian 8) (starts (1024 + Zlen body) outs))) ++
    concat (map (toLittleEndian 8) offs)) (Zlen (((x ++ concat outs) ++ concat (map (toLittleEndian 8) (starts (1024 + Zlen body) outs))) ++
    concat (map (toLittleEndian 8) offs)))) 0) (Fileheader_write h)) = content).
  { unfold lseek_set. cbn [o_bytes]. unfold x, w. rewrite <- !app_assoc.
    rewrite out_write_front by (by rewrite Zlen_repeat). cbn [o_bytes]. done. }
  rewrite Ec. clear Ec.
  destruct (checksum_loop_ok (S (length content)) content _ [] (md5_at_init garbage Hg)) as (ctx & E1 & Hctx); [lia|].
  rewrite E1. cbn [mbind outcome_bind]. rewrite (zim_MD5Final_ok _ _ Hctx). cbn [mbind outcome_bind].
  by rewrite out_write_end.
Qed.


(** With more fuel, the clusters are written the same. *)
Lemma finish_clusters_fuel n fuel (k : nat -> stored_cluster) ids hp fd :
  (n <= fuel)%nat -> NoDup ids -> (forall c, c ∈ ids -> exists x, hp !! c = Some x /\ to_write n (k c) x) ->
  finish_clusters fuel ids hp fd = finish_clusters n ids hp fd.
Proof.
  intros Hfuel. revert hp fd. induction ids as [|c ids IH]; intros hp fd Hnd Hall; [done|]. apply NoDup_cons in Hnd as [Hc Hnd].
  destruct (Hall c) as (x & Hx & [Hcomp [Hsame Hst _] _ _ _]); [left|]. cbn [finish_clusters]. rewrite Hx.
  assert (E : WCluster.close fuel x = WCluster.close n x).
  { pose proof (Hsame fuel Hfuel) as E1. rewrite <- (Hsame n (le_n n)) in E1. unfold stored_data in E1. unfold WCluster.close, WCluster.isCompressed.
    destruct (WCluster.compression x); try done; cbn [bool_decide decide_rel andb]; rewrite ?bool_decide_true by done; cbn [andb]; by rewrite E1. }
  unfold finish_cluster. rewrite E. destruct (WCluster.close n x) as [x1| | |]; try done. cbn [mbind outcome_bind].
  destruct (WCluster.write _); try done. cbn [mbind outcome_bind mret outcome_ret]. apply IH; [done|]. intros c' Hc'.
  rewrite list_lookup_insert_ne by congruence. apply Hall. by right.
Qed.

(** A bound on the size of the clusters that hold [count] blobs of [total] bytes, none being empty. *)
Definition worst_clusters (total count : Z) : Z :=
  match comp with zimcompDefault | zimcompNone => total + 9 * count | _ => 2 * total + 4113 * count end.

Lemma worst_clusters_ge t n : 0 <= t -> 0 <= n -> t + 9 * n <= worst_clusters t n.
Proof. unfold worst_clusters. destruct comp; lia. Qed.

Lemma worst_clusters_mono t n t' n' : t <= t' -> n <= n' -> worst_clusters t n <= worst_clusters t' n'.
Proof. unfold worst_clusters. destruct comp; lia. Qed.

Lemma worst_clusters_add t1 n1 t2 n2 : worst_clusters (t1 + t2) (n1 + n2) = worst_clusters t1 n1 + worst_clusters t2 n2.
Proof. unfold worst_clusters. destruct comp; lia. Qed.

(** ** A finished state *)

(** All entries are there with their contents and fit, no cluster is open, and nothing is too long. *)
Record finished (r : gmap Z bytes) (es : list wentry) (cs : list (list bytes)) (hs : list Handler) (mp : option nat)
    (s : CreatorData) : Prop := {
  fi_building : building comp chunk r es cs hs mp s;
  fi_settled : settled r es s;
  fi_supported : supported comp;
  fi_empty : forall cc, cs !! active cc s = Some [];
  fi_title : 0 <= m_titleListBlobOffset s <= total cs;
  fi_listing : exists n e m b, mp_dirent (handler_at s 0) = Some n /\ es !! n = Some e /\ we_kind e = KItem m (Some b);
  fi_main : forall d, mp = Some d -> (d < length es)%nat;
  fi_complete : forall e m, e ∈ es -> we_kind e <> KItem m None;
  fi_strings : Forall (fun e => no_nul (we_path e) /\ no_nul (we_title e)) es;
  fi_short : Forall (fun e => 18 + Zlen (we_path e) + Zlen (we_title e) <= 256) es;
  fi_mimes : Forall (fun m => m <> [] /\ no_nul m) (mimeTypesList s);
  fi_zone : Zlen (mime_bytes (mimeTypesList s)) + 81 < 1024;
  fi_count : blob_count cs <= Zlen es;
  fi_size : worst_clusters (total cs) (blob_count cs) + 272 * Zlen es + 1040 <= max_read;
}.

Context (r : gmap Z bytes) (es : list wentry) (cs : list (list bytes)) (hs : list Handler) (mp : option nat) (s : CreatorData).
Hypothesis Hf : finished r es cs hs mp s.

Definition nums_of (d : nat) : list Z :=
  match WDirent.info (deref (pool s) d), WDirent.cluster (deref (pool s) d) with
  | WDirent.RedirectInfo j, _ => [dirent_idx s j]
  | WDirent.DirectInfo _ b, Some c => [cluster_idx s c; b]
  | WDirent.DirectInfo c b, None => [c; b]
  end.
Definition entries_of : list (WDirent.t * list Z) := map (fun d => (deref (pool s) d, nums_of d)) (dirents s).

Lemma finished_bounds : 0 <= total cs /\ 0 <= blob_count cs /\ total cs <= UINT32_MAX /\ blob_count cs < 2 ^ 31 /\ Zlen es < 2 ^ 31 /\
  Zlen (dirents s) = Zlen es /\ Zlen (clustersList s) <= blob_count cs.
Proof.
  pose proof (fi_size _ _ _ _ _ _ Hf). unfold max_read in *. assert (0 <= total cs) by apply Zlen_nonneg.
  assert (0 <= blob_count cs) by apply Zlen_nonneg. pose proof (worst_clusters_ge (total cs) (blob_count cs)). pose proof (Zlen_nonneg es). unfold UINT32_MAX. split_and!; try lia.
  - rewrite (bd_dirents _ _ _ _ _ _ (fi_building _ _ _ _ _ _ Hf)). unfold Zlen. by rewrite length_seq.
  - eapply closed_count. apply Hf.
Qed.

(** A blob lies in a cluster of the list. *)
Lemma blob_listed c n b : blob_is cs c n b -> exists j, clustersList s !! j = Some c /\ cluster_idx s c = Z.of_nat j.
Proof.
  intros (Hn & bs & Hbs & Hb). pose proof (fi_building _ _ _ _ _ _ Hf) as Hbd.
  assert (Hin : c ∈ clustersList s ++ [compCluster s; uncompCluster s]).
  { rewrite (bd_ids _ _ _ _ _ _ Hbd). apply elem_of_seq. apply lookup_lt_Some in Hbs. lia. }
  assert (Hne : forall cc, c <> active cc s).
  { intros cc ->. rewrite (fi_empty _ _ _ _ _ _ Hf cc) in Hbs. injection Hbs as <-. done. }
  apply elem_of_app in Hin as [Hin|Hin].
  - apply list_elem_of_lookup in Hin as [j Hj]. exists j. split; [done|]. by apply (bd_full _ _ _ _ _ _ Hbd).
  - apply elem_of_cons in Hin as [->|Hin]; [by destruct (Hne true)|]. apply list_elem_of_singleton in Hin as ->. by destruct (Hne false).
Qed.

Lemma listed_facts j c : clustersList s !! j = Some c ->
  exists x bs, heap s !! c = Some x /\ cs !! c = Some bs /\ holds x bs /\ bs <> [] /\
    (WCluster.compression x = comp \/ WCluster.compression x = zimcompNone) /\
    WCluster.isExtended x = false /\ payload_ok false bs.
Proof.
  intros Hj. pose proof (fi_building _ _ _ _ _ _ Hf) as Hbd. destruct (bd_full _ _ _ _ _ _ Hbd j c Hj) as [Hne _].
  assert (Hin : c ∈ clustersList s ++ [compCluster s; uncompCluster s]) by (apply elem_of_app; left; by eapply list_elem_of_lookup_2).
  rewrite (bd_ids _ _ _ _ _ _ Hbd) in Hin. apply elem_of_seq in Hin. destruct (lookup_lt_is_Some_2 cs c) as [bs Hbs]; [lia|].
  destruct (Forall2_lookup_r _ _ _ _ _ (bd_heap _ _ _ _ _ _ Hbd) Hbs) as (x & Hx & Hh & _). exists x, bs.
  destruct finished_bounds as (? & ? & ? & ? & _). destruct (total_part cs c bs Hbs) as [Ht Hc].
  pose proof (fi_size _ _ _ _ _ _ Hf) as Hsz. pose proof (worst_clusters_ge (total cs) (blob_count cs)).
  unfold max_read in Hsz. pose proof (Zlen_nonneg bs). pose proof (Zlen_nonneg es).
  split_and!; try done; [congruence| |apply (not_extended x bs Hh); lia|].
  - pose proof (bd_comp _ _ _ _ _ _ Hbd c) as Hcomp. by rewrite (cluster_at_lookup s c x Hx) in Hcomp.
  - assert (Hhdr : header_size false bs = 4 * (1 + Zlen bs)) by done.
    unfold payload_ok. rewrite Hhdr. change (2 ^ (8 * Z.of_nat (offset_bytes false) - 1)) with (2 ^ 31). unfold max_read. split_and!; [congruence|lia| |lia|lia].
    apply Forall_forall. intros b Hb. pose proof (blob_part bs b) as Hp. specialize (Hp ltac:(done)). lia.
Qed.

Lemma payload_size bs : Zlen (cluster_payload false bs) = 4 * (1 + Zlen bs) + Zlen (concat bs).
Proof. unfold cluster_payload. rewrite Zlen_app, concat_ints_length, offsets_from_length by auto. simpl. lia. Qed.

(** Enough fuel for every cluster. *)
Lemma fuel_exists : exists n, forall c x bs, c ∈ clustersList s -> heap s !! c = Some x -> cs !! c = Some bs -> storable K n x bs.
Proof.
  assert (Hone : forall c, c ∈ clustersList s -> exists n, forall x bs, heap s !! c = Some x -> cs !! c = Some bs -> storable K n x bs).
  { intros c Hc. apply list_elem_of_lookup in Hc as [j Hj]. destruct (listed_facts j c Hj) as (x & bs & Hx & Hbs & Hh & _ & Hcomp & Hext & Hok).
    destruct (storable_ok K x bs) as [n Hn]; [|done|by rewrite Hext| |].
    - destruct Hcomp as [-> | ->]; [apply Hf|left; by right].
    - rewrite Hext, payload_size. destruct Hok as (_ & _ & _ & Hn & Hl). change (header_size false bs) with (4 * (1 + Zlen bs)) in Hl.
      change (2 ^ (8 * Z.of_nat (offset_bytes false) - 1)) with 2147483648 in Hl. change (2 ^ 61) with 2305843009213693952. lia.
    - exists n. intros x' bs' Hx' Hbs'. congruence. }
  revert Hone. generalize (clustersList s). intros l. induction l as [|c l IH]; intros Hone.
  { exists 0%nat. intros c x bs Hc. by apply not_elem_of_nil in Hc. }
  destruct (Hone c) as [n Hn]; [left|]. destruct IH as [m Hm]; [intros c' Hc'; apply Hone; by right|].
  exists (n + m)%nat. intros c' x bs Hc' Hx Hbs. apply elem_of_cons in Hc' as [->|Hc'].
  - eapply storable_more; [|by apply Hn]. lia.
  - eapply storable_more; [|by apply (Hm c')]. lia.
Qed.

Context (N : nat).
Hypothesis HN : forall c x bs, c ∈ clustersList s -> heap s !! c = Some x -> cs !! c = Some bs -> storable K N x bs.

Definition cluster_of_id (c : nat) : stored_cluster :=
  mkStored (WCluster.compression (cluster_at s c)) (nth c cs []) (stored_bytes N (cluster_at s c)).
Definition clusters_of : list stored_cluster := map cluster_of_id (clustersList s).

Lemma listed_cluster j c : clustersList s !! j = Some c ->
  exists x bs, heap s !! c = Some x /\ cs !! c = Some bs /\
    cluster_of_id c = mkStored (WCluster.compression x) bs (stored_bytes N x) /\ to_write N (cluster_of_id c) x.
Proof.
  intros Hj. destruct (listed_facts j c Hj) as (x & bs & Hx & Hbs & Hh & _ & Hcomp & Hext & Hok). exists x, bs.
  assert (E : cluster_of_id c = mkStored (WCluster.compression x) bs (stored_bytes N x)).
  { unfold cluster_of_id. by rewrite (cluster_at_lookup s c x Hx), (nth_lookup_Some _ _ _ _ Hbs). }
  split_and!; [done..|]. rewrite E. split; cbn [sc_comp sc_blobs sc_data]; try done.
  apply (HN c); [by eapply list_elem_of_lookup_2|done|done].
Qed.

(** Where an entry is in the order of the paths. *)
Lemma entry_position d : (d < length es)%nat -> exists i, dirents s !! i = Some d /\ dirent_idx s d = Z.of_nat i /\ Z.of_nat i < Zlen es.
Proof.
  intros Hd. pose proof (fi_building _ _ _ _ _ _ Hf) as Hbd. assert (Hin : d ∈ dirents s).
  { rewrite (bd_dirents _ _ _ _ _ _ Hbd). apply elem_of_seq. lia. }
  apply list_elem_of_lookup in Hin as [i Hi]. exists i. split; [done|]. split; [by apply (st_numbered _ _ _ (fi_settled _ _ _ _ _ _ Hf))|].
  destruct finished_bounds as (_ & _ & _ & _ & _ & E & _). rewrite <- E. apply lookup_lt_Some in Hi. unfold Zlen. lia.
Qed.

(** ** The entries written *)

Lemma mime_list_short (l : list bytes) : Forall (fun m => m <> []) l -> 2 * Zlen l <= Zlen (mime_bytes l).
Proof.
  induction 1 as [|m l Hm _ IH]; [done|]. unfold mime_bytes in *. cbn [map concat]. rewrite Zlen_cons, !Zlen_app.
  change (Zlen [0]) with 1. destruct m as [|x m]; [done|]. rewrite Zlen_cons. pose proof (Zlen_nonneg m). lia.
Qed.

Lemma entry_numbers ci d e : (forall c, ci c = cluster_idx s c) -> es !! d = Some e ->
  wdirent_ok (dirent_idx s) ci (deref (pool s) d) (nums_of d) /\ 0 < WDirent.ns (deref (pool s) d) < 128 /\
  Zlen (WDirent.path (deref (pool s) d)) + Zlen (WDirent.title (deref (pool s) d)) <= 238.
Proof.
  intros Hci He. pose proof (fi_building _ _ _ _ _ _ Hf) as Hbd. pose proof (fi_settled _ _ _ _ _ _ Hf) as [Hres _ Hmf _].
  destruct (Forall2_lookup_l _ _ _ _ _ (bd_pool _ _ _ _ _ _ Hbd) He) as (x & Hx & [Ens Epath Etitle _ Hk]).
  pose proof (bd_ascii _ _ _ _ _ _ Hbd) as Ha. rewrite Forall_lookup in Ha. specialize (Ha d e He). simpl in Ha.
  pose proof (fi_strings _ _ _ _ _ _ Hf) as Hs. rewrite Forall_lookup in Hs. destruct (Hs d e He) as [Hsp Hst].
  pose proof (fi_short _ _ _ _ _ _ Hf) as Hsh. rewrite Forall_lookup in Hsh. specialize (Hsh d e He). simpl in Hsh.
  destruct finished_bounds as (_ & _ & _ & Hbc & Hes & _ & Hcl). unfold nums_of. rewrite (deref_lookup _ _ _ Hx), Ens, Epath, Etitle.
  split; [|split; [done|lia]]. split; [|rewrite Ens; split; lia|by rewrite Epath|by rewrite Etitle].
  destruct (we_kind e) as [m data|ns path] eqn:Hkind.
  - destruct Hk as (Hm & n & Hinfo & Hdata). destruct data as [b|]; [|by destruct (fi_complete _ _ _ _ _ _ Hf e m); [eapply list_elem_of_lookup_2|]].
    destruct Hdata as (c & Hc & Hblob). rewrite Hinfo, Hc. destruct (blob_listed c n b Hblob) as (j & Hj & Hidx).
    apply Hmf in Hm as [Hm0 Hm]. apply lookup_lt_Some in Hm. apply lookup_lt_Some in Hj.
    pose proof (mime_list_short (mimeTypesList s)) as Hml. pose proof (fi_zone _ _ _ _ _ _ Hf) as Hz.
    assert (Hne : Forall (fun m => m <> []) (mimeTypesList s)) by (eapply Forall_impl; [apply (fi_mimes _ _ _ _ _ _ Hf)|]; by intros ? []).
    specialize (Hml Hne). destruct Hblob as (Hn & bs & Hbs & Hb). destruct (total_part cs c bs Hbs) as [_ Hle]. apply lookup_lt_Some in Hb.
    unfold Zlen in *. eapply wnum_item; [| |exact Hinfo|by rewrite Hc, Hci|rewrite Hidx| ]; unfold fits, Dirent.deletedMimeType; lia.
  - destruct Hk as (Hm & _). destruct (Hres d e ns path He Hkind) as (j & e' & Hj & _ & Hinfo). rewrite (deref_lookup _ _ _ Hx) in Hinfo.
    rewrite Hinfo. destruct (entry_position j) as (i & _ & Hidx & Hi); [by eapply lookup_lt_Some|].
    eapply wnum_redirect; [done|exact Hinfo|done|]. rewrite Hidx. unfold fits. lia.
Qed.

Lemma entry_out_short ci d e : (forall c, ci c = cluster_idx s c) -> es !! d = Some e ->
  Zlen (dirent_out (deref (pool s) d, nums_of d)) <= 256.
Proof.
  intros Hci He. destruct (entry_numbers ci d e Hci He) as (Hok & _ & Hlen). unfold dirent_out. cbn [fst snd].
  pose proof (Zlen_nonneg (WDirent.path (deref (pool s) d))). pose proof (Zlen_nonneg (WDirent.title (deref (pool s) d))).
  rewrite (wdirent_size _ _ _ _ Hok) by lia. unfold WDirent.getDirentSize.
  destruct (WDirent.isRedirect _), (bool_decide _); rewrite !u64_small by (rewrite ?u64_small by lia; lia); lia.
Qed.


(** ** The whole file *)

(** The state after the clusters were written to the heap [hp]. *)
Definition with_written (hp : list WCluster.t) : CreatorData :=
  with_heap hp (clustersList s) (compCluster s) (uncompCluster s) (isEmpty s) (isExtended s) s.

Lemma clusters_written fuel :
  (N <= fuel)%nat -> exists hp, finish_clusters fuel (clustersList s) (heap s) out_fd_start =
      Ok (hp, body_file (concat (clusters_bytes clusters_of))) /\
    (forall c, cluster_idx (with_written hp) c = cluster_idx s c) /\
    forall j c bs, clustersList s !! j = Some c -> cs !! c = Some bs ->
      let y := cluster_at (with_written hp) c in
      WCluster.offset y = cluster_start clusters_of j /\ WCluster.closed y = true /\ WCluster.count y = Zlen bs /\
      WCluster.isExtended y = false.
Proof.
  intros Hfuel. pose proof (fi_building _ _ _ _ _ _ Hf) as Hbd.
  assert (Hnd : NoDup (clustersList s)) by (pose proof (ids_nodup _ _ _ _ _ _ Hbd) as Hnd; by apply NoDup_app in Hnd as (? & _)).
  destruct (finish_clusters_ok N fuel cluster_of_id (clustersList s) (heap s) [] Hfuel Hnd) as (hp & E & Hout & Hat).
  { intros c Hc. apply list_elem_of_lookup in Hc as [j Hj]. destruct (listed_cluster j c Hj) as (x & bs & Hx & _ & _ & Hw). by exists x. }
  cbn [app] in E. rewrite <- map_map in E. fold clusters_of in E. exists hp. split; [exact E|].
  assert (Hwritten : forall j c x, clustersList s !! j = Some c -> heap s !! c = Some x ->
    written_at (cluster_start clusters_of j) x (cluster_at (with_written hp) c)).
  { intros j c x Hj Hx. destruct (Hat j c x Hj Hx) as (y & Hy & Hw).
    assert (Ey : cluster_at (with_written hp) c = y) by (apply cluster_at_lookup; exact Hy). rewrite Ey.
    unfold cluster_start, clusters_of, clusters_bytes. rewrite map_map. exact Hw. }
  split.
  - intros c. unfold cluster_idx. destruct (decide (c ∈ clustersList s)) as [Hc|Hc].
    + apply list_elem_of_lookup in Hc as [j Hj]. destruct (listed_cluster j c Hj) as (x & bs & Hx & _).
      destruct (Hwritten j c x Hj Hx) as (-> & _). by rewrite (cluster_at_lookup s c x Hx).
    + unfold cluster_at. cbn [heap with_written with_heap]. by rewrite Hout.
  - intros j c bs Hj Hbs y. destruct (listed_cluster j c Hj) as (x & bs' & Hx & Hbs' & _ & Hw).
    destruct (Hwritten j c x Hj Hx) as (_ & Ho & Hc & Hn & He). fold y in Ho, Hc, Hn, He. split_and!; [done|done| |].
    + rewrite Hn. assert (bs' = bs) as -> by congruence.
      pose proof (count_length _ _ _ _ _ _ c bs Hbd Hbs) as Hcl. by rewrite (cluster_at_lookup s c x Hx) in Hcl.
    + rewrite He. apply Hw.
Qed.

Lemma pointers_of (f : nat -> Z) l : (forall i o, l !! i = Some o -> o = f i) ->
  map (toLittleEndian 8) l = map (fun i => toLittleEndian 8 (f i)) (seq 0 (length l)).
Proof.
  intros Hl. apply list_eq. intros i. destruct (l !! i) as [o|] eqn:Ho.
  - rewrite (map_lookup_Some _ _ _ _ Ho). symmetry. rewrite (Hl i o Ho).
    apply (map_lookup_Some (fun i => toLittleEndian 8 (f i))). apply lookup_seq. apply lookup_lt_Some in Ho. lia.
  - apply lookup_ge_None in Ho. rewrite !lookup_ge_None_2; [done| |]; rewrite length_map, ?length_seq; done.
Qed.

Lemma clusters_nonempty : 1 <= Zlen (clustersList s).
Proof.
  destruct (fi_listing _ _ _ _ _ _ Hf) as (n & e & m & b & _ & He & Hkind).
  destruct (Forall2_lookup_l _ _ _ _ _ (bd_pool _ _ _ _ _ _ (fi_building _ _ _ _ _ _ Hf)) He) as (x & _ & [_ _ _ _ Hk]).
  rewrite Hkind in Hk. destruct Hk as (_ & q & _ & c & _ & Hblob). destruct (blob_listed c q b Hblob) as (j & Hj & _).
  apply lookup_lt_Some in Hj. unfold Zlen. lia.
Qed.

Lemma clusters_start_bound j c : clustersList s !! j = Some c -> 1024 <= cluster_start clusters_of j <= urls_pos clusters_of entries_of.
Proof.
  intros Hj. assert (Hb : clusters_bytes clusters_of !! j = Some (cluster_bytes (cluster_of_id c))).
  { unfold clusters_bytes, clusters_of. by apply map_lookup_Some, map_lookup_Some. }
  pose proof (start_bound 1024 _ _ _ Hb). unfold cluster_start, urls_pos. pose proof (Zlen_nonneg (concat (entries_bytes entries_of))). lia.
Qed.

(** The size of the clusters and of the entries. *)
Lemma cluster_bytes_size j c : clustersList s !! j = Some c ->
  Zlen (cluster_bytes (cluster_of_id c)) <= worst_clusters (Zlen (concat (nth c cs []))) (Zlen (nth c cs [])).
Proof.
  intros Hj. destruct (listed_facts j c Hj) as (x & bs & Hx & Hbs & _ & Hne & Hcomp & Hext & _). rewrite (nth_lookup_Some _ _ _ _ Hbs).
  assert (Hst : storable K N x bs) by (apply (HN c); [by eapply list_elem_of_lookup_2|done|done]). destruct Hst as [_ _ Hz].
  unfold cluster_of_id, cluster_bytes. cbn [sc_comp sc_data]. rewrite (cluster_at_lookup s c x Hx), Zlen_cons. rewrite Hext, payload_size in Hz.
  assert (1 <= Zlen bs) by (destruct bs; [done|rewrite Zlen_cons; pose proof (Zlen_nonneg bs); lia]). pose proof (Zlen_nonneg (concat bs)).
  unfold worst_clusters. destruct Hcomp as [E|E]; rewrite E in Hz; cbn [worst] in Hz; destruct comp; cbn [worst] in Hz; lia.
Qed.

Lemma clusters_size : Zlen (concat (clusters_bytes clusters_of)) <= worst_clusters (total cs) (blob_count cs).
Proof.
  pose proof (fi_building _ _ _ _ _ _ Hf) as Hbd.
  assert (Hsum : forall l, l ⊆ clustersList s -> Zlen (concat (clusters_bytes (map cluster_of_id l))) <=
    worst_clusters (total (map (fun c => nth c cs []) l)) (blob_count (map (fun c => nth c cs []) l))).
  { intros l. unfold total, blob_count, clusters_bytes. induction l as [|c l IH]; intros Hl; cbn [map concat].
    { change (Zlen _) with 0. unfold worst_clusters. destruct comp; lia. }
    rewrite concat_app, !Zlen_app, worst_clusters_add. apply Z.add_le_mono; [|apply IH; set_solver].
    assert (Hc : c ∈ clustersList s) by (apply Hl; left). apply list_elem_of_lookup in Hc as [j Hj]. by apply (cluster_bytes_size j). }
  assert (Hall : total cs = total (map (fun c => nth c cs []) (clustersList s)) /\
    blob_count cs = blob_count (map (fun c => nth c cs []) (clustersList s))); [|destruct Hall as [-> ->]; by apply Hsum].
  assert (Hp : cs ≡ₚ map (fun c => nth c cs []) (clustersList s ++ [compCluster s; uncompCluster s])).
  { rewrite <- (map_nth_all [] cs) at 1. apply Permutation_map. symmetry. apply Hbd. }
  assert (He : map (fun c => nth c cs []) [compCluster s; uncompCluster s] = [[]; []]).
  { cbn [map]. pose proof (fi_empty _ _ _ _ _ _ Hf true) as H1'. pose proof (fi_empty _ _ _ _ _ _ Hf false) as H2'. simpl in H1', H2'.
    by rewrite (nth_lookup_Some _ _ _ _ H1'), (nth_lookup_Some _ _ _ _ H2'). }
  rewrite map_app, He in Hp. assert (Hc : concat cs ≡ₚ concat (map (fun c => nth c cs []) (clustersList s))).
  { etransitivity; [by apply concat_perm, Hp|]. rewrite concat_app. cbn [concat app]. by rewrite app_nil_r. }
  split; apply Zlen_perm; [by apply concat_perm|done].
Qed.

Lemma entries_size : Zlen (concat (entries_bytes entries_of)) <= 256 * Zlen es /\ length entries_of = length es.
Proof.
  destruct finished_bounds as (_ & _ & _ & _ & _ & E & _).
  assert (Hlen : length entries_of = length es) by (unfold entries_of, Zlen in *; rewrite length_map; lia). split; [|done].
  assert (Hall : Forall (fun b => Zlen b <= 256) (entries_bytes entries_of)).
  { unfold entries_bytes, entries_of. rewrite !Forall_map. apply Forall_forall. intros d Hd. cbv beta.
    assert (Hin : d ∈ dirents s) by done. rewrite (bd_dirents _ _ _ _ _ _ (fi_building _ _ _ _ _ _ Hf)) in Hin. apply elem_of_seq in Hin.
    destruct (lookup_lt_is_Some_2 es d) as [e He]; [lia|]. by apply (entry_out_short (cluster_idx s) d e). }
  replace (Zlen es) with (Zlen (entries_bytes entries_of)) by (unfold entries_bytes, Zlen; rewrite length_map; lia).
  clear -Hall. induction Hall as [|b l Hb _ IH]; [done|]. cbn [concat]. rewrite Zlen_app, Zlen_cons. lia.
Qed.

Lemma layout_bound : urls_pos clusters_of entries_of + 8 * Zlen es + 8 * Zlen (clustersList s) + 16 <= max_read /\
  1024 <= urls_pos clusters_of entries_of.
Proof.
  pose proof clusters_size. destruct entries_size as [He _]. destruct finished_bounds as (? & ? & _ & _ & _ & _ & Hc).
  pose proof (fi_size _ _ _ _ _ _ Hf). pose proof (fi_count _ _ _ _ _ _ Hf). unfold urls_pos.
  pose proof (Zlen_nonneg (concat (clusters_bytes clusters_of))). pose proof (Zlen_nonneg (concat (entries_bytes entries_of))). lia.
Qed.

(** The header, with the position of the listing of all entries. *)
Lemma header_filled fuel c hp :
  Zlen (m_uuid c) = 16 -> finish_clusters fuel (clustersList s) (heap s) out_fd_start = Ok (hp, body_file (concat (clusters_bytes clusters_of))) ->
  (forall j k bs, clustersList s !! j = Some k -> cs !! k = Some bs ->
      let y := cluster_at (with_written hp) k in
      WCluster.offset y = cluster_start clusters_of j /\ WCluster.closed y = true /\ WCluster.count y = Zlen bs /\
      WCluster.isExtended y = false) ->
  exists h0, fillHeader c (with_written hp) (Fileheader_new 0) = Ok h0 /\ majorVersion h0 = 5 /\ minorVersion h0 = 1 /\
    uuid h0 = m_uuid c /\ articleCount h0 = Zlen es /\ clusterCount h0 = Zlen (clustersList s) /\ mimeListPos h0 = 80 /\
    1024 <= titleIdxPos h0 < 2 ^ 62 /\ fits 32 (mainPage h0) /\ layoutPage h0 = 2 ^ 32 - 1 /\
    mainPage h0 = match mp with Some d => dirent_idx s d | None => 2 ^ 32 - 1 end.
Proof.
  intros Hu _ Hw. pose proof (fi_building _ _ _ _ _ _ Hf) as Hbd. destruct layout_bound as [Hlb Hlo].
  destruct finished_bounds as (Ht0 & Hb0 & Ht & Hbc & Hes & Hd & Hcl). pose proof (fi_title _ _ _ _ _ _ Hf). pose proof (Zlen_nonneg es).
  pose proof (Zlen_nonneg (clustersList s)). unfold max_read, UINT32_MAX in *.
  destruct (fi_listing _ _ _ _ _ _ Hf) as (n & e & m & b & Hmp & He & Hkind).
  destruct (Forall2_lookup_l _ _ _ _ _ (bd_pool _ _ _ _ _ _ Hbd) He) as (x & Hx & [_ _ _ _ Hk]).
  rewrite Hkind in Hk. destruct Hk as (_ & q & _ & k & Hxc & Hblob). destruct (blob_listed k q b Hblob) as (j & Hj & _).
  destruct Hblob as (_ & bs & Hbs & _). destruct (Hw j k bs Hj Hbs) as (Ho & Hclosed & Hcount & Hext).
  destruct (total_part cs k bs Hbs) as [_ Hle]. pose proof (Zlen_nonneg bs). pose proof (clusters_start_bound j k Hj).
  assert (Hmain : forall d, mp = Some d -> fits 32 (dirent_idx s d)).
  { intros d Hmpd. destruct (entry_position d) as (i & _ & Hi & Hlt); [by apply (fi_main _ _ _ _ _ _ Hf)|]. rewrite Hi. unfold fits. lia. }
  unfold fillHeader. change (handler_at (with_written hp) 0) with (handler_at s 0). rewrite Hmp. cbn [mbind option_bind].
  change (pool (with_written hp)) with (pool s). rewrite (deref_lookup _ _ _ Hx), Hxc.
  unfold WCluster.getDataOffset. rewrite Hclosed, Hcount, Ho. unfold WCluster.offset_size. rewrite Hext.
  cbn [ASSERT mbind outcome_bind]. rewrite (u32_small (Zlen bs + 1)), u64_small by lia.
  rewrite (off_add_small 1) by lia. cbn [mbind outcome_bind mret outcome_ret].
  rewrite (off_add_small (cluster_start clusters_of j)) by lia.
  change (m_titleListBlobOffset (with_written hp)) with (m_titleListBlobOffset s). rewrite off_add_small by lia.
  eexists. split; [reflexivity|]. cbn [majorVersion minorVersion uuid articleCount clusterCount mimeListPos titleIdxPos mainPage layoutPage].
  change (isExtended (with_written hp)) with (isExtended s). rewrite (bd_ext _ _ _ _ _ _ Hbd).
  change (dirents (with_written hp)) with (dirents s). change (clustersList (with_written hp)) with (clustersList s).
  change (mainPageDirent (with_written hp)) with (mainPageDirent s). rewrite (bd_main _ _ _ _ _ _ Hbd).
  rewrite Hd, !u32_small by lia. split_and!; try done; try lia.
  destruct mp as [d|]; [by apply Hmain|split; lia].
Qed.

Lemma content_file h mimes cl dl offs digest :
  length offs = length cl -> (forall k o, offs !! k = Some o -> o = cluster_start cl k) ->
  content_bytes h mimes (concat (clusters_bytes cl)) (entries_bytes dl) offs ++ digest =
    file_bytes h mimes (repeat 0 (Z.to_nat (943 - Zlen (mime_bytes mimes)))) cl dl digest.
Proof.
  intros Hlen Hoffs. unfold content_bytes, file_bytes, front_bytes. rewrite <- !app_assoc. repeat f_equal.
  - rewrite (pointers_of (entry_start cl dl)); [by rewrite length_starts; unfold entries_bytes; rewrite length_map|].
    intros i o Ho. by apply starts_lookup in Ho as [-> _].
  - rewrite (pointers_of (cluster_start cl)) by done. by rewrite Hlen.
Qed.

(** What [finishZimCreation] writes from a finished state. *)
Lemma archive_ok garbage c :
  length garbage = 64%nat -> Zlen (m_uuid c) = 16 ->
  exists hp fd h out, finish_clusters N (clustersList s) (heap s) out_fd_start = Ok (hp, fd) /\
    Creator_write garbage c (with_written hp) fd = Ok out /\
    let pad := repeat 0 (Z.to_nat (943 - Zlen (mime_bytes (mimeTypesList s)))) in
    let content := take (length out - 16) out in
    out = file_bytes h (mimeTypesList s) pad clusters_of entries_of (md5 content) /\
    layout_ok K h (mimeTypesList s) pad clusters_of entries_of (md5 content) (dirent_idx s) (cluster_idx s) /\
    Zlen out <= max_read /\ minorVersion h = 1 /\
    mainPage h = match mp with Some d => dirent_idx s d | None => 2 ^ 32 - 1 end.
Proof.
  intros Hg Hu. pose proof (fi_building _ _ _ _ _ _ Hf) as Hbd. destruct (clusters_written N (le_n N)) as (hp & E & Hidx & Hw).
  destruct (header_filled N c hp Hu E Hw) as (h0 & Eh & Hmaj & Hmin & Hhu & Hac & Hcc & Hmlp & Htp & Hmpf & Hlp & Hmpv).
  destruct entries_size as [Hesz Helen]. destruct finished_bounds as (Ht0 & Hb0 & Ht & Hbc & Hes & Hd & Hcl).
  destruct layout_bound as [Hlb Hlo]. pose proof clusters_nonempty as Hc1. pose proof (fi_zone _ _ _ _ _ _ Hf) as Hz.
  destruct (dirents_nodup _ _ _ _ _ _ Hbd) as [Hnd Hin].
  assert (Hpl : length (pool s) = length es) by (symmetry; apply (Forall2_length _ _ _ (bd_pool _ _ _ _ _ _ Hbd))).
  assert (Hent : forall d, d ∈ dirents s -> exists e, es !! d = Some e).
  { intros d Hd'. apply Hin in Hd'. apply lookup_lt_is_Some_2. lia. }
  assert (Hbody : concat (clusters_bytes clusters_of) <> []).
  { intros Eb. destruct (clustersList s) as [|c0 l] eqn:El; [done|]. unfold clusters_bytes, clusters_of in Eb. by rewrite El in Eb. }
  set (mimes := mimeTypesList s) in *. set (body := concat (clusters_bytes clusters_of)) in *.
  assert (Hnum : forall d, d ∈ dirents s -> (d < length (pool s))%nat /\
    wdirent_numbers (dirent_idx (with_written hp)) (cluster_idx (with_written hp)) (deref (pool s) d) (nums_of d)).
  { intros d Hd'. destruct (Hent d Hd') as [e He]. split; [by apply Hin|]. apply (entry_numbers (cluster_idx (with_written hp)) d e Hidx He). }
  pose proof (write_ok garbage c (with_written hp) h0 nums_of body Hg Eh Hmlp ltac:(by rewrite Hhu) Hbody Hz Hnd Hnum) as Hwr.
  cbv zeta in Hwr. rewrite <- (map_map (fun d => (deref (pool (with_written hp)) d, nums_of d)) dirent_out) in Hwr.
  change (map (fun d => (deref (pool (with_written hp)) d, nums_of d)) (dirents (with_written hp))) with entries_of in Hwr.
  fold (entries_bytes entries_of) in Hwr.
  change (1024 + Zlen body + Zlen (concat (entries_bytes entries_of))) with (urls_pos clusters_of entries_of) in Hwr.
  set (h := with_positions h0 _ _ _) in Hwr. set (offs := map (fun k => WCluster.offset (cluster_at (with_written hp) k)) _) in Hwr.
  change (mimeTypesList (with_written hp)) with mimes in Hwr. set (content := content_bytes _ _ _ _ _) in Hwr.
  assert (Htake : take (length (content ++ md5 content) - 16) (content ++ md5 content) = content).
  { assert (Hl : length (md5 content) = 16%nat) by (pose proof (md5_length content); unfold Zlen in *; lia).
    apply take_app_exact. rewrite length_app. lia. }
  assert (Hoffs : forall k o, offs !! k = Some o -> o = cluster_start clusters_of k).
  { intros k o Ho. apply list_lookup_fmap_Some in Ho as (c' & -> & Hc'). change (clustersList (with_written hp)) with (clustersList s) in Hc'.
    destruct (listed_cluster k c' Hc') as (x & bs & _ & Hbs & _). by apply (Hw k c' bs Hc' Hbs). }
  assert (Hcl' : Zlen clusters_of = Zlen (clustersList s)) by apply Zlen_map.
  assert (Hel : Zlen entries_of = Zlen es) by (unfold Zlen; by rewrite Helen).
  assert (Hcp : clusters_pos clusters_of entries_of = urls_pos clusters_of entries_of + 8 * Zlen es) by (unfold clusters_pos; by rewrite Hel).
  assert (Hout : content ++ md5 content = file_bytes h mimes (repeat 0 (Z.to_nat (943 - Zlen (mime_bytes mimes)))) clusters_of entries_of (md5 content)).
  { unfold content at 1. apply content_file; [|done]. unfold offs, clusters_of. by rewrite !length_map. }
  assert (Hhp : urlPtrPos h = urls_pos clusters_of entries_of /\ clusterPtrPos h = clusters_pos clusters_of entries_of /\
    checksumPos h = clusters_pos clusters_of entries_of + 8 * Zlen (clustersList s)).
  { unfold h, with_positions. cbn [urlPtrPos clusterPtrPos checksumPos]. change (dirents (with_written hp)) with (dirents s).
    change (clustersList (with_written hp)) with (clustersList s). rewrite Hd, Hcp. done. }
  destruct Hhp as (Hp1 & Hp2 & Hp3).
  assert (Hfits : header_fits h).
  { unfold header_fits. rewrite Hp1, Hp2, Hp3, Hcp. unfold h, with_positions.
    cbn [majorVersion minorVersion uuid articleCount clusterCount titleIdxPos mimeListPos mainPage layoutPage].
    rewrite Hmaj, Hmin, Hhu, Hac, Hcc, Hmlp, Hlp. pose proof (Zlen_nonneg es). unfold fits, max_read in *. split_and!; lia. }
  assert (Hly : layout_ok K h mimes (repeat 0 (Z.to_nat (943 - Zlen (mime_bytes mimes)))) clusters_of entries_of (md5 content)
    (dirent_idx s) (cluster_idx s)).
  { pose proof (Zlen_nonneg (mime_bytes mimes)). split; rewrite ?Hp1, ?Hp2, ?Hp3.
    - unfold front_bytes. rewrite !Zlen_app, Zlen_repeat, length_write by apply Hfits. change (Zlen [0]) with 1. lia.
    - apply md5_length.
    - done.
    - by left.
    - rewrite Hel, Hcl'. pose proof (fi_count _ _ _ _ _ _ Hf). split_and!; [exact Hac|exact Hcc|lia..].
    - rewrite Hcl'. split_and!; [done|done|exact Hmlp|done|apply Htp].
    - apply Hf.
    - unfold clusters_of. apply Forall_map, Forall_forall. intros c' Hc'. apply list_elem_of_lookup in Hc' as [k Hk].
      destruct (listed_cluster k c' Hk) as (x & bs & _ & _ & _ & [Hcomp [_ Hst _] Hdata Hext Hok]). rewrite Hext in Hst. by rewrite <- Hcomp, Hdata.
    - unfold entries_of. apply Forall_map, Forall_forall. intros d Hd'. destruct (Hent d Hd') as [e He].
      destruct (entry_numbers (cluster_idx s) d e (fun _ => eq_refl) He) as (Hok & Hns & _). by split.
    - unfold entries_of. apply Forall_map, Forall_forall. intros d Hd'. destruct (Hent d Hd') as [e He].
      by apply (entry_out_short (cluster_idx s) d e).
    - unfold entries_of. rewrite map_map. exact (bd_sorted _ _ _ _ _ _ Hbd). }
  exists hp, (body_file body), h, (content ++ md5 content). rewrite Htake. cbv zeta.
  split_and!; [done|exact Hwr|exact Hout|exact Hly| |exact Hmin|exact Hmpv].
  rewrite Hout, (file_size _ _ _ _ _ _ _ _ _ Hly), Hcl', Hcp. lia.
Qed.

(** More fuel changes nothing. *)
Lemma archive_fuel fuel fd : (N <= fuel)%nat ->
  finish_clusters fuel (clustersList s) (heap s) fd = finish_clusters N (clustersList s) (heap s) fd.
Proof.
  intros Hfuel. pose proof (fi_building _ _ _ _ _ _ Hf) as Hbd.
  apply (finish_clusters_fuel N fuel cluster_of_id); [done| |].
  - pose proof (ids_nodup _ _ _ _ _ _ Hbd) as Hnd. by apply NoDup_app in Hnd as (? & _).
  - intros c Hc. apply list_elem_of_lookup in Hc as [j Hj]. destruct (listed_cluster j c Hj) as (x & bs & Hx & _ & _ & Hw). by exists x.
Qed.

End writing.
