(* ===== verification/Delivery.v ===== *)
(** What an archive delivers: the state of a creation that is finished ([Writing.finished]), written
    to a file that is open ([Opening.opened]), gives back its entries: pages, metadata, the
    main page, titles, indexes, and nothing for a key it does not have. *)

From Stdlib Require Import Ascii.
From stdpp Require Import gmap sorting strings.
From S2P Require Import Prelude.
From S2P Require Import Types.
From S2P Require Import Readers.
From S2P Require Import Files.
From S2P Require Import Compression.
From S2P Require Import Streams.
From S2P Require Import Header.
From S2P Require Import Md5.
From S2P Require Import Dirent.
From S2P Require Import WDirent.
From S2P Require Import Cluster.
From S2P Require Import WCluster.
From S2P Require Import Encoding.
From S2P Require Import Lru.
From S2P Require Import NarrowDown.
From S2P Require Import Lookup.
From S2P Require Import Tools.
From S2P Require Import Accessors.
From S2P Require Import FileImpl.
From S2P Require Import FileImplProps.
From S2P Require Import Archive.
From S2P Require Import Opening.
From S2P Require Import DirectAccess.
From S2P Require Import Workers.
From S2P Require Import Creator.
From S2P Require Import Building.
From S2P Require Import Finishing.
From S2P Require Import Layout.
From S2P Require Import Writing.

(** * Reading pages *)

Section reading.
Context `{OSSpec} `{LzmaLib} `{ZstdLib} `{Env}.

Abbreviation FM := (stm FileImpl).

(** The title of an entry, and the MIME type and content of the item it leads to. *)
Definition read_entry (e : Entry) : FM (bytes * bytes * bytes) :=
  item ← Entry_getItem e true;
  mime ← Item_getMimetype item;
  data ← Item_getData item 0;
  s ← blob_to_string data;
  mret (Entry_getTitle e, mime, s).

Fixpoint read_pages (paths : list bytes) : FM (list (bytes * bytes * bytes)) :=
  match paths with
  | [] => mret []
  | p :: paths =>
      e ← getEntryByPath p;
      x ← read_entry e;
      rest ← read_pages paths;
      mret (x :: rest)
  end.

Context (lzma_spec : @DecoderSpec LZMA_INFO) (zstd_spec : @DecoderSpec ZSTD_INFO).
Context (r : AnyReader) (h : Fileheader) (ds : list Dirent.t) (mimes : list bytes).
Context (blobs_at : Z -> list bytes) (comp_at : Z -> CompressionType) (ext_at : Z -> bool) (rest_at : Z -> bytes).

Abbreviation opened := (opened lzma_spec zstd_spec r h ds mimes blobs_at comp_at ext_at rest_at).

Lemma opened_reopened b f f' owners :
  opened b f -> reopened f f' -> cache_inv lzma_spec zstd_spec blobs_at comp_at ext_at rest_at owners f' -> opened b f'.
Proof.
  intros Ho Hr Hc. pose proof Hr as (cc & fs & cs & ->). destruct Ho as [? ? [? ? ?] Hst _ ? ? ? ?]. split; try done.
  - eapply reopened_stored; [exact Hr|done].
  - by exists owners.
Qed.

Lemma opened_dirent b f i d : opened b f -> ds !! i = Some d -> dirent_of f (Z.of_nat i) = Ok d.
Proof.
  intros Ho Hd. apply (table_get _ _ _ (pt_table _ _ (op_paths _ _ _ _ _ _ _ _ _ _ _ _ Ho))); [lia|]. by rewrite Nat2Z.id.
Qed.

(** The item of [d'] has the MIME type [m] and the content [b]. *)
Record item_holds (d' : Dirent.t) (m b : bytes) : Prop := {
  ih_item : Dirent.isRedirect d' = false;
  ih_mime : mimes !! Z.to_nat (Dirent.getMimeType d') = Some m;
  ih_cluster : 0 <= Dirent.getClusterNumber d' < clusterCount h;
  ih_blob : 0 <= Dirent.getBlobNumber d';
  ih_data : blobs_at (Dirent.getClusterNumber d') !! Z.to_nat (Dirent.getBlobNumber d') = Some b;
  ih_nonempty : b <> [];
}.

Lemma data_read b f j d' m x :
  opened b f -> item_holds d' m x ->
  exists y f', Item_getData (mkItem j d') 0 f = (Ok y, f') /\ Blob_string y = Ok x /\ opened b f'.
Proof.
  intros Ho [_ _ Hc Hb Hd Hne]. destruct (op_cache _ _ _ _ _ _ _ _ _ _ _ _ Ho) as [owners Hci].
  pose proof (op_stored _ _ _ _ _ _ _ _ _ _ _ _ Ho) as Hst.
  destruct (Item_getData_ok lzma_spec zstd_spec blobs_at comp_at ext_at rest_at (mkItem j d') _ _ x eq_refl eq_refl Hb Hd owners f Hst Hci)
    as (y & f' & ow & E & Ey & Hci' & Hr); [|done|].
  - unfold getCountClusters. by rewrite (op_header _ _ _ _ _ _ _ _ _ _ _ _ Ho).
  - exists y, f'. split_and!; [done..|]. by eapply opened_reopened.
Qed.

Lemma read_entry_ok b f n i j d d' m x :
  opened b f -> resolves f n i d j d' -> (n <= 50)%nat -> dirent_of f j = Ok d' -> item_holds d' m x ->
  exists f', read_entry (mkEntry i d) f = (Ok (Dirent.getTitle d, m, x), f') /\ opened b f'.
Proof.
  intros Ho Hres Hn Hj Hit. destruct (data_read b f j d' m x Ho Hit) as (y & f' & E & Ey & Ho').
  exists f'. split; [|done]. unfold read_entry. erewrite stm_bind_Ok by (by eapply getItem_resolves).
  assert (Em : Item_getMimetype (mkItem j d') f = (Ok m, f)).
  { unfold Item_getMimetype. rewrite stm_gets. unfold id, lift, FileImpl.getMimeType. cbn [i_dirent].
    by rewrite (op_mimes _ _ _ _ _ _ _ _ _ _ _ _ Ho), (ih_mime _ _ _ Hit). }
  erewrite stm_bind_Ok by exact Em. erewrite stm_bind_Ok by exact E. unfold blob_to_string. by erewrite stm_lift_Ok by exact Ey.
Qed.

(** The entry found for a key. *)
Lemma find_entry b f i d : opened b f -> ds !! i = Some d ->
  findx (Dirent.ns d) (Dirent.url d) f = (Ok (true, Z.of_nat i), f) /\ Entry_new (Z.of_nat i) f = (Ok (mkEntry (Z.of_nat i) d), f).
Proof.
  intros Ho Hd. split; [|apply Entry_new_eq; by eapply opened_dirent]. apply findx_present with ds; [|done].
  apply (op_paths _ _ _ _ _ _ _ _ _ _ _ _ Ho).
Qed.

Lemma path_found b f i d path : opened b f -> 1 <= minorVersion h -> ds !! i = Some d -> direntKey d = chr "C" :: path ->
  getEntryByPath path f = (Ok (mkEntry (Z.of_nat i) d), f).
Proof.
  intros Ho Hv Hd Hkey. destruct (find_entry b f i d Ho Hd) as [Ef En]. injection Hkey as Ens Eurl.
  unfold Dirent.getNamespace in Ens. unfold Dirent.getUrl in Eurl. rewrite Ens, Eurl in Ef.
  unfold getEntryByPath. rewrite stm_gets. unfold id. rewrite (op_scheme _ _ _ _ _ _ _ _ _ _ _ _ Ho), (proj2 (Z.leb_le _ _)) by done.
  erewrite stm_bind_Ok by exact Ef. exact En.
Qed.

Lemma metadata_found b f n i j d d' name m x :
  opened b f -> ds !! i = Some d -> direntKey d = chr "M" :: name ->
  resolves f n (Z.of_nat i) d j d' -> (n <= 50)%nat -> dirent_of f j = Ok d' -> item_holds d' m x ->
  exists f', getMetadata name f = (Ok x, f') /\ opened b f'.
Proof.
  intros Ho Hd Hkey Hres Hn Hj Hit. destruct (find_entry b f i d Ho Hd) as [Ef En]. injection Hkey as Ens Eurl.
  unfold Dirent.getNamespace in Ens. unfold Dirent.getUrl in Eurl. rewrite Ens, Eurl in Ef.
  destruct (data_read b f j d' m x Ho Hit) as (y & f' & E & Ey & Ho'). exists f'. split; [|done].
  unfold getMetadata. erewrite stm_bind_Ok by exact Ef. cbn [fst snd negb throw_when]. erewrite stm_lift_Ok by done.
  erewrite stm_bind_Ok by exact En. erewrite stm_bind_Ok by (by eapply getItem_resolves). erewrite stm_bind_Ok by exact E.
  unfold blob_to_string, lift. by rewrite Ey.
Qed.

Lemma main_found b f i d : opened b f -> Z.of_nat i < articleCount h -> ds !! i = Some d -> direntKey d = chr "W" :: lit "mainPage" ->
  getMainEntry f = (Ok (mkEntry (Z.of_nat i) d), f).
Proof.
  intros Ho Hlt Hd Hkey. destruct (find_entry b f i d Ho Hd) as [Ef En]. injection Hkey as Ens Eurl.
  unfold Dirent.getNamespace in Ens. unfold Dirent.getUrl in Eurl. rewrite Ens, Eurl in Ef.
  unfold getMainEntry. erewrite stm_bind_Ok by exact Ef. cbn [fst snd]. unfold getEntryByPath_idx. rewrite stm_gets. unfold id, getCountArticles.
  rewrite (op_header _ _ _ _ _ _ _ _ _ _ _ _ Ho), (proj2 (Z.leb_gt _ _)) by done. exact En.
Qed.

(** The item of an index, where a search looks for it. *)
Lemma index_found b f i d path m x :
  opened b f -> ds !! i = Some d -> direntKey d = chr "X" :: path -> item_holds d m x ->
  comp_at (Dirent.getClusterNumber d) = zimcompNone -> lies_in f ->
  exists pos f', findx (chr "X") path f = (Ok (true, Z.of_nat i), f) /\
    (e ← Entry_new (Z.of_nat i); Entry_getItem e false) f = (Ok (mkItem (Z.of_nat i) d), f) /\
    Item_getDirectAccessInformation (mkItem (Z.of_nat i) d) f =
      (Ok (default ([], 0) (part_holding (fc_parts (zimFile f)) pos (Zlen x))), f') /\
    slice (parts_content (fc_parts (zimFile f))) pos (Zlen x) = x /\
    archiveStartOffset f < pos /\ pos + Zlen x <= fc_fsize (zimFile f).
Proof.
  intros Ho Hd Hkey [Hr _ Hc Hb Hblob Hne] Hraw Hin. destruct (find_entry b f i d Ho Hd) as [Ef En]. injection Hkey as Ens Eurl.
  unfold Dirent.getNamespace in Ens. unfold Dirent.getUrl in Eurl. rewrite Ens, Eurl in Ef.
  destruct (op_cache _ _ _ _ _ _ _ _ _ _ _ _ Ho) as [owners Hci]. pose proof (op_stored _ _ _ _ _ _ _ _ _ _ _ _ Ho) as Hst.
  destruct (direct_access_ok lzma_spec zstd_spec blobs_at comp_at ext_at rest_at (mkItem (Z.of_nat i) d) _ _ x eq_refl eq_refl Hb Hblob owners f Hst Hci)
    as (pos & f' & ow & E & Hpos & _ & _); [|done|done|].
  { unfold getCountClusters. by rewrite (op_header _ _ _ _ _ _ _ _ _ _ _ _ Ho). }
  cbn [i_dirent] in E, Hpos. rewrite Hraw in E, Hpos. destruct (Hpos eq_refl) as (Hs & Hlo & Hhi).
  exists pos, f'. split_and!; [exact Ef| |exact E|done..].
  erewrite stm_bind_Ok by exact En. unfold Entry_getItem, Entry_isRedirect. cbn [e_dirent e_idx]. rewrite Hr.
  apply Item_new_eq. by eapply opened_dirent.
Qed.

Lemma title_found_at b f j i d : opened b f -> 0 <= j < Zlen b / 4 -> fromLittleEndian 4 (slice b (4 * j) 4) = Z.of_nat i ->
  ds !! i = Some d -> getEntryByTitle_idx j f = (Ok (mkEntry (Z.of_nat i) d), f).
Proof.
  intros Ho Hj Ei Hd. destruct (op_title _ _ _ _ _ _ _ _ _ _ _ _ Ho) as (t & Et & _ & Hserve).
  unfold getEntryByTitle_idx, getIndexByTitle. erewrite stm_bind_Ok.
  2:{ rewrite stm_gets. unfold id. rewrite Et. unfold lift. by rewrite Hserve, Ei. }
  apply Entry_new_eq. by eapply opened_dirent.
Qed.

End reading.

(** * What the archive delivers *)

Definition shown_title (e : wentry) : bytes := if bool_decide (we_title e = []) then we_path e else we_title e.

(** [n] redirects lead from entry [i] to the item [j]. *)
Inductive leads (es : list wentry) : nat -> nat -> nat -> Prop :=
  | leads_here i e : es !! i = Some e -> is_redirect e = false -> leads es 0 i i
  | leads_next n i j k e e' ns path :
      es !! i = Some e -> we_kind e = KRedirect ns path -> es !! j = Some e' -> we_key e' = ns :: path ->
      leads es n j k -> leads es (S n) i k.

(** The entry of key [key] shows the title, the MIME type and the content [x]. *)
Record delivers (es : list wentry) (key : bytes) (x : bytes * bytes * bytes) (a k n : nat) : Prop := {
  dl_key : exists e, es !! a = Some e /\ we_key e = key /\ shown_title e = x.1.1;
  dl_leads : leads es n a k;
  dl_short : (n <= 50)%nat;
  dl_item : exists e m b, es !! k = Some e /\ we_kind e = KItem m (Some b) /\ x.1.2 = m /\ x.2 = b /\ b <> [];
}.

Section archive_of_state.
Context `{OSSpec} `{LzmaLib} `{ZstdLib} `{Env}.
Context (K : Codecs).
Context {comp : CompressionType} {chunk : Z}.
Context (r : gmap Z bytes) (es : list wentry) (cs : list (list bytes)) (hs : list Handler) (mp : option nat) (s : CreatorData).
Hypothesis Hf : finished (comp := comp) (chunk := chunk) r es cs hs mp s.
Hypothesis Hnd : NoDup (map we_key es).
Context (N : nat).

Abbreviation cl := (clusters_of cs s N).
Abbreviation dl := (entries_of s).
Definition dirents_of : list Dirent.t := map (fun d => as_read d.1 d.2) dl.

(** The entry as the reader gets it. *)
Definition dirent_at (a : nat) : Dirent.t := as_read (deref (pool s) a) (nums_of s a).

Lemma dirents_of_at i a : dirents s !! i = Some a -> dirents_of !! i = Some (dirent_at a).
Proof. intros Hi. unfold dirents_of, entries_of. rewrite map_map. exact (map_lookup_Some (fun d => as_read (deref (pool s) d) (nums_of s d)) _ _ _ Hi). Qed.

Lemma entry_pool a e : es !! a = Some e -> exists d, pool s !! a = Some d /\ dirent_is r cs e d.
Proof. intros He. exact (Forall2_lookup_l _ _ _ _ _ (bd_pool _ _ _ _ _ _ (fi_building _ _ _ _ _ _ Hf)) He). Qed.

Lemma dirent_at_key a e : es !! a = Some e ->
  direntKey (dirent_at a) = we_key e /\ Dirent.getTitle (dirent_at a) = shown_title e.
Proof.
  intros He. destruct (entry_pool a e He) as (d & Hd & Hdi). unfold dirent_at. rewrite (deref_lookup _ _ _ Hd).
  split; [exact (dirent_is_key _ _ _ _ Hdi)|]. destruct Hdi as [_ Ep Et _ _].
  unfold as_read, with_strings, Dirent.getTitle, stored_title, shown_title, WDirent.getTitle. cbn. rewrite Ep, Et.
  repeat case_bool_decide; naive_solver.
Qed.

Lemma item_delivered a e m b h :
  es !! a = Some e -> we_kind e = KItem m (Some b) -> b <> [] -> clusterCount h = Zlen (clustersList s) ->
  item_holds h (mimeTypesList s) (fun k => sc_blobs (cluster_of_index cl k)) (dirent_at a) m b.
Proof.
  intros He Hkind Hb Hcc. destruct (entry_pool a e He) as (d & Hd & [_ _ _ _ Hk]). rewrite Hkind in Hk.
  destruct Hk as (Hm & n & Hinfo & c & Hc & Hblob). destruct (blob_listed r es cs hs mp s Hf c n b Hblob) as (j & Hj & Hidx).
  pose proof (bd_range _ _ _ _ _ _ (fi_building _ _ _ _ _ _ Hf) _ _ Hm) as Hrange.
  apply (st_mimes _ _ _ (fi_settled _ _ _ _ _ _ Hf)) in Hm as [_ Hm].
  destruct Hblob as (Hn & bs & Hbs & Hbn).
  assert (Hat : dirent_at a = with_strings (Dirent.setItem (Dirent.setVersion Dirent.new WDirent.version) (WDirent.mimeType d) (Z.of_nat j) n)
    (WDirent.ns d) (WDirent.path d) (stored_title d)).
  { unfold dirent_at, nums_of. by rewrite (deref_lookup _ _ _ Hd), Hinfo, Hc, Hidx. }
  assert (Hr : Dirent.isRedirect (dirent_at a) = false).
  { rewrite Hat. unfold Dirent.isRedirect. cbn. apply Z.eqb_neq. unfold Dirent.redirectMimeType. lia. }
  assert (Hcn : Dirent.getClusterNumber (dirent_at a) = Z.of_nat j) by (unfold Dirent.getClusterNumber; rewrite Hr; by rewrite Hat).
  assert (Hbn' : Dirent.getBlobNumber (dirent_at a) = n) by (unfold Dirent.getBlobNumber; rewrite Hr; by rewrite Hat).
  assert (Hm' : Dirent.getMimeType (dirent_at a) = WDirent.mimeType d) by by rewrite Hat.
  split; rewrite ?Hcn, ?Hbn', ?Hm'; try done.
  - rewrite Hcc. apply lookup_lt_Some in Hj. unfold Zlen. lia.
  - unfold cluster_of_index. rewrite Nat2Z.id.
    rewrite (nth_lookup_Some _ _ _ (cluster_of_id cs s N c)); [|by apply map_lookup_Some]. unfold cluster_of_id. cbn [sc_blobs].
    by rewrite (nth_lookup_Some _ _ _ _ Hbs).
Qed.

(** The cluster of an item. *)
Lemma item_cluster a e m b : es !! a = Some e -> we_kind e = KItem m (Some b) ->
  exists j c, WDirent.cluster (deref (pool s) a) = Some c /\ clustersList s !! j = Some c /\
    Dirent.getClusterNumber (dirent_at a) = Z.of_nat j.
Proof.
  intros He Hkind. destruct (entry_pool a e He) as (d & Hd & [_ _ _ _ Hk]). rewrite Hkind in Hk.
  destruct Hk as (Hm & n & Hinfo & c & Hc & Hblob). destruct (blob_listed r es cs hs mp s Hf c n b Hblob) as (j & Hj & Hidx).
  pose proof (bd_range _ _ _ _ _ _ (fi_building _ _ _ _ _ _ Hf) _ _ Hm) as Hrange.
  exists j, c. rewrite (deref_lookup _ _ _ Hd). split_and!; [done|done|]. unfold dirent_at, nums_of.
  rewrite (deref_lookup _ _ _ Hd), Hinfo, Hc, Hidx. unfold Dirent.getClusterNumber.
  assert (E : forall x, Dirent.isRedirect (with_strings (Dirent.setItem x (WDirent.mimeType d) (Z.of_nat j) n) (WDirent.ns d) (WDirent.path d) (stored_title d)) = false).
  { intros x. unfold Dirent.isRedirect. cbn. apply Z.eqb_neq. unfold Dirent.redirectMimeType. lia. }
  unfold as_read. by rewrite E.
Qed.

Lemma uncompressed_at a e m b : es !! a = Some e -> we_kind e = KItem m (Some b) -> uncompressed_data s a ->
  sc_comp (cluster_of_index cl (Dirent.getClusterNumber (dirent_at a))) = zimcompNone.
Proof.
  intros He Hkind (q & Hq & _ & Hcomp). destruct (item_cluster a e m b He Hkind) as (j & c & Hc & Hj & ->).
  assert (c = q) as -> by congruence. unfold cluster_of_index. rewrite Nat2Z.id.
  rewrite (nth_lookup_Some _ _ _ (cluster_of_id cs s N q)); [exact Hcomp|by apply map_lookup_Some].
Qed.

(** The redirect leads where the entry says. *)
Lemma redirect_delivered a e ns path j e' :
  es !! a = Some e -> we_kind e = KRedirect ns path -> es !! j = Some e' -> we_key e' = ns :: path ->
  Dirent.isRedirect (dirent_at a) = true /\ Dirent.getRedirectIndex (dirent_at a) = dirent_idx s j.
Proof.
  intros He Hkind Hj Hkey. destruct (entry_pool a e He) as (d & Hd & [_ _ _ _ Hk]). rewrite Hkind in Hk. destruct Hk as (Hm & _).
  destruct (st_resolved _ _ _ (fi_settled _ _ _ _ _ _ Hf) a e ns path He Hkind) as (j' & e2 & Hj' & Hkey' & Hinfo).
  assert (j' = j) as ->.
  { apply (NoDup_lookup (map we_key es) j' j (ns :: path) Hnd).
    - rewrite (map_lookup_Some _ _ _ _ Hj'). by f_equal.
    - rewrite (map_lookup_Some _ _ _ _ Hj). by f_equal. }
  rewrite (deref_lookup _ _ _ Hd) in Hinfo. unfold dirent_at, nums_of. rewrite (deref_lookup _ _ _ Hd), Hinfo. done.
Qed.

Lemma item_no_redirect a e : es !! a = Some e -> is_redirect e = false -> Dirent.isRedirect (dirent_at a) = false.
Proof.
  intros He Hr. unfold is_redirect in Hr. destruct (we_kind e) as [m [b|]|] eqn:Hkind; [| |done].
  - destruct (entry_pool a e He) as (d & Hd & [_ _ _ _ Hk]). rewrite Hkind in Hk.
    destruct Hk as (Hm & n & Hinfo & c & Hc & _). pose proof (bd_range _ _ _ _ _ _ (fi_building _ _ _ _ _ _ Hf) _ _ Hm) as Hrange.
    unfold dirent_at, nums_of. rewrite (deref_lookup _ _ _ Hd), Hinfo, Hc. unfold Dirent.isRedirect. cbn.
    apply Z.eqb_neq. unfold Dirent.redirectMimeType. lia.
  - exfalso. apply (fi_complete _ _ _ _ _ _ Hf e m); [by eapply list_elem_of_lookup_2|done].
Qed.

(** ** Reading it *)

Context (rd : AnyReader) (h : Fileheader) (comp_at : Z -> CompressionType) (ext_at : Z -> bool) (rest_at : Z -> bytes) (listing : bytes).
Hypothesis Hcount : articleCount h = Zlen es /\ clusterCount h = Zlen (clustersList s) /\ minorVersion h = 1.

Abbreviation opened := (opened (lzma_dec K) (zstd_dec K) rd h dirents_of (mimeTypesList s) (fun k => sc_blobs (cluster_of_index cl k)) comp_at ext_at rest_at listing).

Lemma dirent_served f a : opened f -> (a < length es)%nat -> exists i, dirents_of !! i = Some (dirent_at a) /\ Z.of_nat i = dirent_idx s a /\
  dirent_of f (dirent_idx s a) = Ok (dirent_at a) /\ Z.of_nat i < Zlen es.
Proof.
  intros Ho Ha. destruct (entry_position r es cs hs mp s Hf a Ha) as (i & Hi & Hidx & Hlt). exists i.
  pose proof (dirents_of_at i a Hi) as Hd. split_and!; [done|done| |done]. rewrite Hidx. by eapply opened_dirent.
Qed.

Lemma leads_resolves f n a k : opened f -> leads es n a k ->
  resolves f n (dirent_idx s a) (dirent_at a) (dirent_idx s k) (dirent_at k).
Proof.
  intros Ho. induction 1 as [i e He Hr|n i j k e e' ns path He Hkind Hj Hkey _ IH].
  - apply resolves_here. by eapply item_no_redirect.
  - destruct (redirect_delivered i e ns path j e' He Hkind Hj Hkey) as [Hr Hidx].
    destruct (dirent_served f j Ho) as (_ & _ & _ & Hd & _); [by eapply lookup_lt_Some|].
    eapply resolves_next; [done|by rewrite Hidx|]. by rewrite Hidx.
Qed.

(** An entry that delivers [x] can be read. *)
Lemma delivered f key x a k n : opened f -> delivers es key x a k n ->
  exists i, dirents_of !! i = Some (dirent_at a) /\ direntKey (dirent_at a) = key /\ Z.of_nat i < Zlen es /\
    resolves f n (Z.of_nat i) (dirent_at a) (dirent_idx s k) (dirent_at k) /\ (n <= 50)%nat /\
    dirent_of f (dirent_idx s k) = Ok (dirent_at k) /\ Dirent.getTitle (dirent_at a) = x.1.1 /\
    item_holds h (mimeTypesList s) (fun k => sc_blobs (cluster_of_index cl k)) (dirent_at k) x.1.2 x.2.
Proof.
  intros Ho [(e & He & Hkey & Ht) Hl Hn (e' & m & b & He' & Hkind & Hm & Hb & Hne)].
  destruct (dirent_served f a Ho) as (i & Hi & Hidx & _ & Hlt); [by eapply lookup_lt_Some|].
  destruct (dirent_served f k Ho) as (_ & _ & _ & Hk & _); [by eapply lookup_lt_Some|].
  destruct (dirent_at_key a e He) as [Hdk Hdt]. exists i. split_and!; [done|congruence|done| |done|done|congruence|].
  - rewrite Hidx. by apply leads_resolves.
  - rewrite Hm, Hb. eapply item_delivered; [exact He'|exact Hkind|done|apply Hcount].
Qed.

Lemma pages_delivered paths xs f :
  opened f -> Forall2 (fun p x => exists a k n, delivers es (chr "C" :: p) x a k n) paths xs ->
  exists f', read_pages paths f = (Ok xs, f') /\ opened f'.
Proof.
  intros Ho Hall. revert f Ho. induction Hall as [|p x paths xs (a & k & n & Hd) _ IH]; intros f Ho; [by exists f|].
  destruct (delivered f _ x a k n Ho Hd) as (i & Hi & Hkey & _ & Hres & Hn & Hk & Ht & Hit).
  destruct (read_entry_ok _ _ _ _ _ _ _ _ _ _ listing f n (Z.of_nat i) _ (dirent_at a) (dirent_at k) x.1.2 x.2 Ho Hres Hn Hk Hit) as (f1 & E1 & Ho1).
  destruct (IH f1 Ho1) as (f2 & E2 & Ho2). exists f2. split; [|done]. cbn [read_pages].
  erewrite stm_bind_Ok by (eapply path_found; [exact Ho| |exact Hi|exact Hkey]; destruct Hcount as (_ & _ & ->); lia).
  erewrite stm_bind_Ok by exact E1. erewrite stm_bind_Ok by exact E2. rewrite Ht. by destruct x as [[? ?] ?].
Qed.

Lemma metadata_delivered name x a k n f :
  opened f -> delivers es (chr "M" :: name) x a k n -> exists f', getMetadata name f = (Ok x.2, f') /\ opened f'.
Proof.
  intros Ho Hd. destruct (delivered f _ x a k n Ho Hd) as (i & Hi & Hkey & _ & Hres & Hn & Hk & Ht & Hit). by eapply metadata_found.
Qed.

Lemma main_delivered x a k n f :
  opened f -> delivers es (chr "W" :: lit "mainPage") x a k n -> exists f', (e ← getMainEntry; read_entry e) f = (Ok x, f') /\ opened f'.
Proof.
  intros Ho Hd. destruct (delivered f _ x a k n Ho Hd) as (i & Hi & Hkey & Hlt & Hres & Hn & Hk & Ht & Hit).
  destruct (read_entry_ok _ _ _ _ _ _ _ _ _ _ listing f n (Z.of_nat i) _ (dirent_at a) (dirent_at k) x.1.2 x.2 Ho Hres Hn Hk Hit) as (f1 & E1 & Ho1).
  exists f1. split; [|done]. erewrite stm_bind_Ok by (eapply main_found; [exact Ho|by destruct Hcount as (-> & _)|exact Hi|exact Hkey]).
  rewrite E1, Ht. by destruct x as [[? ?] ?].
Qed.

Lemma title_delivered f j a e k :
  opened f -> listing = listing_bytes (pool s) k -> k !! j = Some a -> es !! a = Some e ->
  exists e', getEntryByTitle_idx (Z.of_nat j) f = (Ok e', f) /\ direntKey (e_dirent e') = we_key e /\ Entry_getTitle e' = shown_title e.
Proof.
  intros Ho Hlist Hj Ha. destruct (dirent_served f a Ho) as (i & Hi & Hidx & _ & Hlt); [by eapply lookup_lt_Some|].
  destruct (dirent_at_key a e Ha) as [Hdk Hdt]. pose proof (lookup_lt_Some _ _ _ Hj) as Hjl.
  exists (mkEntry (Z.of_nat i) (dirent_at a)). split; [|by split]. eapply title_found_at; [exact Ho| | |exact Hi].
  - rewrite Hlist, listing_size. rewrite Z.mul_comm, Z.div_mul by lia. unfold Zlen. lia.
  - rewrite Hlist. unfold listing_bytes. rewrite Hidx.
    assert (Hl : map (fun d => toLittleEndian 4 (WDirent.idx (deref (pool s) d))) k !! j = Some (toLittleEndian 4 (dirent_idx s a)))
      by exact (map_lookup_Some (fun d => toLittleEndian 4 (WDirent.idx (deref (pool s) d))) _ _ _ Hj).
    pose proof (part_at [] _ [] j _ Hl) as Ep. rewrite app_nil_r in Ep. cbn [app] in Ep.
    assert (Es : start_of (@Zlen Z []) (map (fun d => toLittleEndian 4 (WDirent.idx (deref (pool s) d))) k) j = 4 * Z.of_nat j).
    { unfold start_of. rewrite <- (map_map (fun d => WDirent.idx (deref (pool s) d)) (toLittleEndian 4)), firstn_map, concat_ints_length by auto.
      change (@Zlen Z []) with 0. unfold Zlen. rewrite length_take, length_map. lia. }
    rewrite Es in Ep. replace (Zlen (toLittleEndian 4 (dirent_idx s a))) with 4 in Ep by (unfold Zlen; by rewrite length_toLittleEndian by auto).
    rewrite Ep, from_to_LittleEndian by auto. apply wrap_small. rewrite <- Hidx.
    destruct (finished_bounds r es cs hs mp s Hf) as (_ & _ & _ & _ & Hes & _). unfold fits. change (8 * Z.of_nat 4) with 32. lia.
Qed.

(** The index [b] of entry [a], which is not compressed. *)
Lemma index_delivered f a e m b : opened f -> es !! a = Some e -> we_ns e = chr "X" -> we_kind e = KItem m (Some b) -> b <> [] ->
  uncompressed_data s a -> comp_at = (fun k => sc_comp (cluster_of_index cl k)) -> lies_in f ->
  exists i it pos f', findx (chr "X") (we_path e) f = (Ok (true, i), f) /\
    (e ← Entry_new i; Entry_getItem e false) f = (Ok it, f) /\
    Item_getDirectAccessInformation it f = (Ok (default ([], 0) (part_holding (fc_parts (zimFile f)) pos (Zlen b))), f') /\
    slice (parts_content (fc_parts (zimFile f))) pos (Zlen b) = b /\
    archiveStartOffset f < pos /\ pos + Zlen b <= fc_fsize (zimFile f).
Proof.
  intros Ho He Hns Hkind Hb Hpl Hcomp Hin. destruct (dirent_served f a Ho) as (i & Hi & _); [by eapply lookup_lt_Some|].
  destruct (dirent_at_key a e He) as [Hkey _]. unfold we_key in Hkey. rewrite Hns in Hkey.
  exists (Z.of_nat i), (mkItem (Z.of_nat i) (dirent_at a)).
  eapply (index_found _ _ _ _ _ _ _ _ _ _ listing f i (dirent_at a) (we_path e) m b Ho Hi Hkey); [|by rewrite Hcomp; eapply uncompressed_at|done].
  eapply item_delivered; [exact He|exact Hkind|done|apply Hcount].
Qed.

(** No entry has the key. *)
Lemma absent_delivered f ns path : opened f -> 0 <= ns < 128 -> (ns :: path) ∉ map we_key es -> exists p, findx ns path f = (Ok (false, p), f).
Proof.
  intros Ho Hns Hnot. apply (findx_absent f dirents_of); [apply Ho|done|]. apply Forall_lookup. intros i d Hd Hkey.
  unfold dirents_of, entries_of in Hd. rewrite map_map in Hd. apply list_lookup_fmap_Some in Hd as (a & -> & Ha). cbn [fst snd] in Hkey.
  fold (dirent_at a) in Hkey.
  assert (Hlt : (a < length es)%nat).
  { assert (Hin : a ∈ dirents s) by by eapply list_elem_of_lookup_2. rewrite (bd_dirents _ _ _ _ _ _ (fi_building _ _ _ _ _ _ Hf)) in Hin.
    apply elem_of_seq in Hin. lia. }
  destruct (lookup_lt_is_Some_2 es a Hlt) as [e He]. destruct (dirent_at_key a e He) as [Hk _]. apply Hnot.
  rewrite <- Hkey, Hk. apply list_elem_of_fmap_2. by eapply list_elem_of_lookup_2.
Qed.

End archive_of_state.
