(* ===== verification/RoundTrip.v ===== *)
(** From the creator to the reader.

    [create] is a whole run of the creator; what it writes opens, and gives back
    the entries that were added: [creator_roundtrip]. *)

From Stdlib Require Import Ascii.
From stdpp Require Import gmap sorting strings.
From S2P Require Import Prelude.
From S2P Require Import Types.
From S2P Require Import Readers.
From S2P Require Import Files.
From S2P Require Import Compression.
From S2P Require Import Streams.
From S2P Require Import Header.
From S2P Require Import Md5.
From S2P Require Import Dirent.
From S2P Require Import WDirent.
From S2P Require Import Cluster.
From S2P Require Import WCluster.
From S2P Require Import Encoding.
From S2P Require Import Lru.
From S2P Require Import NarrowDown.
From S2P Require Import Lookup.
From S2P Require Import Tools.
From S2P Require Import Accessors.
From S2P Require Import FileImpl.
From S2P Require Import FileImplProps.
From S2P Require Import Archive.
From S2P Require Import Opening.
From S2P Require Import DirectAccess.
From S2P Require Import Workers.
From S2P Require Import Creator.
From S2P Require Import Building.
From S2P Require Import Finishing.
From S2P Require Import Layout.
From S2P Require Import Writing.
From S2P Require Import Delivery.

(** * A whole run *)

(** The calls of the user: [startZimCreation], the additions, [finishZimCreation]. *)
Definition create `{OS} `{LzmaLib} `{ZstdLib} (fuel : nat) (garbage : bytes) (c : Creator) (ix : list IndexHandler) (l : list addition) :
    outcome bytes :=
  ((add_all l ;; finishZimCreation fuel garbage c ix) (startZimCreation c)).1.

(** What an archive can be made of: the additions [l] stand for the entries [es] and the index handlers [ix] provide the
    indexes [xs]; the keys differ, the strings have no zero and are short, the MIME types [M] fit in the first kilobyte and
    the redirects lead somewhere; there is a front article, and the file stays below 2 GiB. *)
Record creatable `{OS} (c : Creator) (ix : list IndexHandler) (xs : list (bytes * bytes)) (l : list addition) (es : list wentry)
    (M : list bytes) : Prop := {
  ct_adds : Forall2 adds l es;
  ct_indexes : Forall2 index_is ix xs;
  ct_supported : supported (m_compression c);
  ct_uuid : Zlen (m_uuid c) = 16;
  ct_keys : NoDup (map we_key es);
  ct_index_keys : NoDup (map fst xs ++ [lit "listing/titleOrdered/v0"; lit "listing/titleOrdered/v1"]);
  ct_strings : Forall (fun e => no_nul (we_path e) /\ no_nul (we_title e)) es;
  ct_index_strings : Forall (fun x => no_nul x.1 /\ 18 + Zlen x.1 <= 256) xs;
  ct_short : Forall (fun e => 18 + Zlen (we_path e) + Zlen (we_title e) <= 256) es;
  ct_mimes : forall e m, e ∈ all_entries c (no_data xs) es None None -> we_mime e = Some m -> m ∈ M;
  ct_mimes_ok : Forall (fun m => m <> [] /\ no_nul m) M;
  ct_zone : Zlen (mime_bytes M) + 81 < 1024;
  ct_targets : forall e ns path, e ∈ all_entries c (no_data xs) es None None -> we_kind e = KRedirect ns path ->
    (ns :: path) ∈ map we_key (all_entries c (no_data xs) es None None);
  ct_front : fronts 0 l <> [];
  ct_size : worst_clusters (comp := m_compression c) (Zsum (map data_size es) + Zsum (map (fun x => Zlen x.2) xs) + 8 * (Zlen es + Zlen xs + 4))
      (Zlen es + Zlen xs + 4) + 272 * (Zlen es + Zlen xs + 4) + 1040 <= max_read;
}.

Section creation.
Context `{OS} `{LzmaLib} `{ZstdLib}.
Context (c : Creator) (ix : list IndexHandler) (xs : list (bytes * bytes)) (l : list addition) (es : list wentry) (M : list bytes).
Hypothesis Hct : creatable c ix xs l es M.

Lemma adds_complete a e : adds a e -> (we_ns e = chr "C" \/ we_ns e = chr "M") /\ forall m, we_kind e <> KItem m None.
Proof. intros []; (split; [by auto|done]). Qed.

Lemma es_user : Forall (fun e => (we_ns e = chr "C" \/ we_ns e = chr "M") /\ forall m, we_kind e <> KItem m None) es.
Proof. pose proof (ct_adds _ _ _ _ _ _ Hct) as Ha. clear Hct. induction Ha as [|a e l' es' Hae _ IH]; constructor; [by eapply adds_complete|done]. Qed.

(** The entries of the creator: none is one of the user's. *)
Definition own_entries (d : list (bytes * option bytes)) (b0 b1 : option bytes) : list wentry :=
  mandatory c ++ map index_entry d ++ [listing_entry false b0; listing_entry true b1].

Lemma all_split d b0 b1 : all_entries c d es b0 b1 = es ++ own_entries d b0 b1.
Proof. unfold all_entries, unlisted_entries, own_entries. by rewrite <- !app_assoc. Qed.

(** With the contents or without. *)
Definition describes (d : list (bytes * option bytes)) : Prop := map fst d = map fst xs.

Lemma describes_no_data : describes (no_data xs).
Proof. unfold describes, no_data. by rewrite map_map. Qed.
Lemma describes_with_data : describes (with_data xs).
Proof. unfold describes, with_data. by rewrite map_map. Qed.

Lemma describes_length d : describes d -> length d = length xs.
Proof. intros Hd. by rewrite <- (length_map fst d), Hd, length_map. Qed.

Lemma own_facts d b0 b1 : describes d ->
  (length (own_entries d b0 b1) <= 4 + length xs)%nat /\ NoDup (map we_key (own_entries d b0 b1)) /\
  Forall (fun e => (we_ns e = chr "W" \/ we_ns e = chr "X") /\ no_nul (we_path e) /\ no_nul (we_title e) /\
    18 + Zlen (we_path e) + Zlen (we_title e) <= 256) (own_entries d b0 b1).
Proof.
  intros Hd. pose proof (describes_length d Hd) as Hlen.
  assert (Hno : forall k : bytes, bool_decide (Forall (fun x => x <> 0) k) = true -> no_nul k) by (intros k Hk; by apply bool_decide_eq_true in Hk).
  assert (Hmand : (length (mandatory c) <= 2)%nat /\ NoDup (map we_key (mandatory c)) /\
    Forall (fun e => we_ns e = chr "W" /\ no_nul (we_path e) /\ no_nul (we_title e) /\
      18 + Zlen (we_path e) + Zlen (we_title e) <= 256) (mandatory c)).
  { unfold mandatory. destruct (bool_decide (m_faviconPath c = [])), (bool_decide (m_mainPath c = []));
      (split; [simpl; lia|split; [apply (bool_decide_unpack _); by vm_compute|]]);
      repeat (apply Forall_cons; split); try apply Forall_nil; try done;
      (split; [done|split_and!; [apply Hno; by vm_compute|apply Hno; by vm_compute|by vm_compute]]). }
  destruct Hmand as (Hml & Hmn & Hmf). set (own := map index_entry d ++ [listing_entry false b0; listing_entry true b1]).
  assert (Hkeys : map we_key own = map (cons (chr "X")) (map fst xs ++ [lit "listing/titleOrdered/v0"; lit "listing/titleOrdered/v1"])).
  { unfold own. by rewrite map_app, <- Hd, map_app, !map_map. }
  unfold own_entries. fold own. rewrite length_app, map_app, Forall_app. split_and!.
  - unfold own. rewrite length_app, length_map. simpl. lia.
  - apply NoDup_app. split_and!; [done| |].
    + intros k Hk Hk'. rewrite Hkeys in Hk'. apply list_elem_of_fmap in Hk as (e & -> & He).
      apply list_elem_of_fmap in Hk' as (path & Ekey & _). rewrite Forall_forall in Hmf. destruct (Hmf e He) as (Hns & _).
      injection Ekey as Ens _. rewrite Ens in Hns. discriminate Hns.
    + rewrite Hkeys. apply NoDup_fmap; [by intros x y [= ->]|]. apply Hct.
  - eapply Forall_impl; [exact Hmf|]. intros e (? & ? & ? & ?). split_and!; auto.
  - apply Forall_app. split.
    + assert (Hall : Forall (fun path => no_nul path /\ 18 + Zlen path <= 256) (map fst d)).
      { rewrite Hd. apply Forall_map. exact (ct_index_strings _ _ _ _ _ _ Hct). }
      apply Forall_map in Hall. apply Forall_map. eapply Forall_impl; [exact Hall|]. intros x [Hx1 Hx2]. cbn [index_entry we_ns we_path we_title].
      change (Zlen (@nil Z)) with 0. split_and!; [by right|exact Hx1|apply Forall_nil_2|lia].
    + assert (Hl : forall v b, (we_ns (listing_entry v b) = chr "W" \/ we_ns (listing_entry v b) = chr "X") /\
        no_nul (we_path (listing_entry v b)) /\ no_nul (we_title (listing_entry v b)) /\
        18 + Zlen (we_path (listing_entry v b)) + Zlen (we_title (listing_entry v b)) <= 256).
      { intros [] b; (split; [by right|]); split_and!; try (apply Hno; by vm_compute); by vm_compute. }
      constructor; [apply Hl|]. constructor; [apply Hl|constructor].
Qed.

Lemma all_keys d b0 b1 : describes d -> NoDup (map we_key (all_entries c d es b0 b1)).
Proof.
  intros Hd. rewrite all_split, map_app. destruct (own_facts d b0 b1 Hd) as (_ & Hnd & Hown). apply NoDup_app. split_and!; [apply Hct| |done].
  intros k Hk Hk'. apply list_elem_of_fmap in Hk as (e & -> & He). apply list_elem_of_fmap in Hk' as (e' & Ekey & He').
  pose proof es_user as Hu. rewrite Forall_forall in Hu. destruct (Hu e He) as [Hns _].
  rewrite Forall_forall in Hown. destruct (Hown e' He') as [Hns' _]. injection Ekey as En _. rewrite En in Hns.
  destruct Hns as [E|E], Hns' as [E'|E']; rewrite E in E'; discriminate E'.
Qed.

Lemma fronts_bound n k : Forall (fun d => (n <= d < n + length k)%nat) (fronts n k) /\ (length (fronts n k) <= length k)%nat.
Proof.
  revert n. induction k as [|a k IH]; intros n; [by split|]. cbn [fronts length]. destruct (IH (S n)) as [Hall Hlen]. rewrite length_app.
  split; [apply Forall_app; split|destruct (is_front a); simpl; lia].
  - destruct (is_front a); [|done]. constructor; [lia|done].
  - eapply Forall_impl; [exact Hall|]. intros d Hd. simpl in *. lia.
Qed.

Lemma mime_bytes_part (k K : list bytes) : NoDup k -> k ⊆ K -> Zlen (mime_bytes k) <= Zlen (mime_bytes K).
Proof.
  intros Hnd Hsub. destruct (submseteq_Permutation k K) as [k' Hp]; [by apply NoDup_submseteq|].
  assert (E : Zlen (mime_bytes K) = Zlen (mime_bytes (k ++ k'))) by (unfold mime_bytes; apply Zlen_perm, concat_perm, Permutation_map, Hp).
  rewrite E. unfold mime_bytes. rewrite map_app, concat_app, Zlen_app. pose proof (Zlen_nonneg (concat (map (fun m => m ++ [0]) k'))). lia.
Qed.

(** The entries of the indexes. *)
Definition index_at (i : nat) : nat := (length (es ++ mandatory c) + i)%nat.

Lemma unlisted_index d : describes d -> length (unlisted_entries c d es) = index_at (length xs).
Proof. intros Hd. unfold unlisted_entries, index_at. by rewrite (length_app (es ++ mandatory c)), length_map, (describes_length d Hd). Qed.

Lemma index_entry_at d b0 b1 i x : d !! i = Some x -> all_entries c d es b0 b1 !! index_at i = Some (index_entry x).
Proof.
  intros Hi. unfold all_entries, unlisted_entries, index_at. rewrite lookup_app_l.
  - rewrite lookup_app_r by lia. replace (_ + i - _)%nat with i by lia. by apply map_lookup_Some.
  - rewrite (length_app (es ++ mandatory c)), length_map. apply lookup_lt_Some in Hi. lia.
Qed.

Lemma own_complete e m b0 b1 : e ∈ own_entries (with_data xs) (Some b0) (Some b1) -> we_kind e <> KItem m None.
Proof.
  intros He Hkind. unfold own_entries, mandatory in He. repeat apply elem_of_app in He as [He|He].
  - destruct (bool_decide _); [by apply not_elem_of_nil in He|]. by apply list_elem_of_singleton in He as ->.
  - destruct (bool_decide _); [by apply not_elem_of_nil in He|]. by apply list_elem_of_singleton in He as ->.
  - apply list_elem_of_fmap in He as (x & -> & Hx). unfold with_data in Hx. by apply list_elem_of_fmap in Hx as (y & -> & _).
  - apply elem_of_cons in He as [->|He]; [done|]. by apply list_elem_of_singleton in He as ->.
Qed.

(** The state before the writing. *)
Lemma creation_finished :
  exists r cs hs s b0 k, (add_all l ;; prepare c ix) (startZimCreation c) = (Ok tt, s) /\
    let es' := all_entries c (with_data xs) es (Some b0) (Some (listing_bytes (pool s) k)) in
    finished (comp := m_compression c) (chunk := m_minClusterSize c) r es' cs hs (main_entry (length es) c) s /\
    k ≡ₚ fronts 0 l /\ StronglySorted str_le (map (entry_title es') k) /\
    uncompressed_data s (S (index_at (length xs))) /\
    forall i, (i < length xs)%nat -> uncompressed_data s (index_at i).
Proof.
  pose proof (ct_size _ _ _ _ _ _ Hct) as Hsz0. unfold max_read in Hsz0. pose proof (Zlen_nonneg es). pose proof (Zlen_nonneg xs).
  assert (Hds : 0 <= Zsum (map data_size es)) by (apply Zsum_nonneg, Forall_fmap, Forall_true, data_size_nonneg).
  set (xz := Zsum (map (fun x => Zlen x.2) xs)) in *.
  assert (Hxz : 0 <= xz) by (apply Zsum_nonneg, Forall_fmap, Forall_true; intros; apply Zlen_nonneg).
  assert (Hsz : Zsum (map data_size es) + xz + 289 * (Zlen es + Zlen xs + 4) + 1040 <= 2147479552).
  { pose proof (worst_clusters_ge (comp := m_compression c) (Zsum (map data_size es) + xz + 8 * (Zlen es + Zlen xs + 4)) (Zlen es + Zlen xs + 4)). lia. }
  destruct (own_facts _ None None describes_no_data) as (Hown4 & _ & _). pose proof (all_keys _ None None describes_no_data) as Hkeys.
  assert (Hone : Zlen (all_entries c (no_data xs) es None None) <= Zlen es + Zlen xs + 4)
    by (rewrite all_split, Zlen_app; unfold Zlen at 2 4; lia).
  assert (Htwo : Zlen es + Zlen xs + 2 <= Zlen (all_entries c (no_data xs) es None None)).
  { rewrite all_split. unfold own_entries. rewrite !Zlen_app. change (Zlen [listing_entry false None; listing_entry true None]) with 2.
    pose proof (Zlen_nonneg (mandatory c)). rewrite Zlen_map. unfold no_data. rewrite Zlen_map. lia. }
  assert (HM : Zlen M <= 65535).
  { pose proof (mime_list_short M) as Hml. pose proof (ct_zone _ _ _ _ _ _ Hct).
    assert (Hne : Forall (fun m => m <> []) M) by (eapply Forall_impl; [apply (ct_mimes_ok _ _ _ _ _ _ Hct)|]; by intros ? []). specialize (Hml Hne). lia. }
  destruct (fronts_bound 0 l) as [Hfr Hfl]. pose proof (Forall2_length _ _ _ (ct_adds _ _ _ _ _ _ Hct)) as Hll.
  destruct (building_new (comp := m_compression c) (chunk := m_minClusterSize c)) as [Hb0 Ho0].
  destruct (add_all_ok M l es ∅ [] [[]; []] [] [] None (startZimCreation c) Hb0 Ho0 (ct_adds _ _ _ _ _ _ Hct))
    as (r1 & cs1 & s1 & E1 & Hb1 & Ho1 & Ht1 & Hc1).
  { cbn [app]. apply Hct. }
  { intros e x He Hx. apply (ct_mimes _ _ _ _ _ _ Hct e x); [|done]. rewrite all_split. apply elem_of_app. by left. }
  { done. }
  { change (total [[]; []]) with 0. unfold UINT32_MAX. lia. }
  { change (blob_count [[]; []]) with 0. lia. }
  change (total [[]; []]) with 0 in Ht1. change (blob_count [[]; []]) with 0 in Hc1.
  cbn [app length] in Hb1, Ho1. rewrite Hll in Hb1.
  assert (Hfz : 0 <= Zlen (fronts 0 l) <= Zlen es) by (unfold Zlen; lia).
  destruct (prepare_ok c ix xs M r1 es cs1 (fronts 0 l) s1 Hb1 Ho1 (ct_indexes _ _ _ _ _ _ Hct) Hkeys (ct_mimes _ _ _ _ _ _ Hct) HM (ct_targets _ _ _ _ _ _ Hct))
    as (r & cs & s & b0 & k & E2 & [hs Hb] & Hst & Hempty & Ht & Hc & Htl & Hmp & Hk & Hsort & Hml & Hpl & Hix).
  { eapply Forall_impl; [exact Hfr|]. intros d Hd. simpl in Hd. lia. }
  { fold xz. unfold UINT32_MAX. lia. }
  { lia. }
  fold xz in Ht. rewrite (unlisted_index _ describes_no_data) in Hmp, Hpl.
  exists r, cs, hs, s, b0, k. split; [by erewrite stm_bind_Ok by exact E1|]. split; [|by split_and!].
  set (b1 := Some (listing_bytes (pool s) k)) in *. set (es' := all_entries c (with_data xs) es (Some b0) b1) in *.
  assert (Hlen' : Zlen es' = Zlen (all_entries c (no_data xs) es None None)).
  { unfold es', all_entries. rewrite !Zlen_app. unfold Zlen. by rewrite unlisted_length. }
  destruct (own_facts _ (Some b0) b1 describes_with_data) as (_ & _ & Hown).
  split; try done.
  - apply Hct.
  - exists (index_at (length xs)), (listing_entry false (Some b0)). eexists _, b0. split_and!; [done| |done].
    unfold es', all_entries. rewrite <- (unlisted_index _ describes_with_data). by apply list_lookup_middle.
  - intros d Hd. unfold main_entry in Hd. destruct (bool_decide (m_mainPath c = [])) eqn:Em; [done|]. injection Hd as <-.
    unfold es', all_entries. rewrite length_app, (unlisted_index _ describes_with_data). unfold index_at. rewrite length_app. simpl.
    destruct (bool_decide (m_faviconPath c = [])); lia.
  - intros e m He. unfold es' in He. rewrite all_split in He. apply elem_of_app in He as [He|He].
    + pose proof es_user as Hu. rewrite Forall_forall in Hu. destruct (Hu e He) as [_ Hn]. apply Hn.
    + exact (own_complete e m b0 _ He).
  - unfold es'. rewrite all_split. apply Forall_app. split; [apply Hct|]. eapply Forall_impl; [exact Hown|]. intros e (_ & ? & ? & _). by split.
  - unfold es'. rewrite all_split. apply Forall_app. split; [apply Hct|]. eapply Forall_impl; [exact Hown|]. by intros e (_ & _ & _ & ?).
  - pose proof (ct_mimes_ok _ _ _ _ _ _ Hct) as Hmok. rewrite Forall_forall in Hmok. apply Forall_forall. intros m Hm. by apply Hmok, Hml.
  - pose proof (mime_bytes_part _ _ (st_nodup _ _ _ Hst) Hml). pose proof (ct_zone _ _ _ _ _ _ Hct). lia.
  - lia.
  - pose proof (worst_clusters_mono (comp := m_compression c) (total cs) (blob_count cs)
      (Zsum (map data_size es) + xz + 8 * (Zlen es + Zlen xs + 4)) (Zlen es + Zlen xs + 4)).
    unfold max_read. lia.
Qed.

End creation.

(** ** The archive serves what was added *)

(** Pages in any sequence, metadata, the main page, the front articles [k] by title, and the indexes [xs]. *)
Record serves `{OSSpec} `{LzmaLib} `{ZstdLib} `{Env} (es : list wentry) (xs : list (bytes * bytes)) (k : list nat) (f : FileImpl) : Prop := {
  sv_pages : forall paths xs, Forall2 (fun p x => exists a j n, delivers es (chr "C" :: p) x a j n) paths xs ->
    exists f', read_pages paths f = (Ok xs, f');
  sv_metadata : forall name x a j n, delivers es (chr "M" :: name) x a j n -> exists f', getMetadata name f = (Ok x.2, f');
  sv_main : forall x a j n, delivers es (chr "W" :: lit "mainPage") x a j n ->
    exists f', (e ← getMainEntry; read_entry e) f = (Ok x, f');
  sv_titles : forall j a e, k !! j = Some a -> es !! a = Some e ->
    exists e', getEntryByTitle_idx (Z.of_nat j) f = (Ok e', f) /\ direntKey (e_dirent e') = we_key e /\ Entry_getTitle e' = shown_title e;
  sv_absent : forall ns path, 0 <= ns < 128 -> (ns :: path) ∉ map we_key es -> exists p, findx ns path f = (Ok (false, p), f);
  sv_indexes : forall path b, (path, b) ∈ xs -> b <> [] -> lies_in f ->
    exists i it pos f', findx (chr "X") path f = (Ok (true, i), f) /\
      (e ← Entry_new i; Entry_getItem e false) f = (Ok it, f) /\
      Item_getDirectAccessInformation it f = (Ok (default ([], 0) (part_holding (fc_parts (zimFile f)) pos (Zlen b))), f') /\
      slice (parts_content (fc_parts (zimFile f))) pos (Zlen b) = b /\
      archiveStartOffset f < pos /\ pos + Zlen b <= fc_fsize (zimFile f);
}.

Lemma stm_assoc {S A B C} (m : stm S A) (k : stm S B) (j : stm S C) s : (m ;; (k ;; j)) s = ((m ;; k) ;; j) s.
Proof. unfold mbind, stm_bind. by destruct (m s) as [[] ?]. Qed.

Lemma keys_listed c d es b0 b1 b0' b1' : map we_key (all_entries c d es b0 b1) = map we_key (all_entries c d es b0' b1').
Proof. unfold all_entries. by rewrite !map_app. Qed.

(** With the contents of the listings unknown, nothing but they is delivered less. *)
Lemma delivers_own c d es b0 b1 key x a j n :
  delivers (all_entries c d es None None) key x a j n -> delivers (all_entries c d es (Some b0) (Some b1)) key x a j n.
Proof.
  assert (Hat : forall i e, all_entries c d es None None !! i = Some e -> exists e', all_entries c d es (Some b0) (Some b1) !! i = Some e' /\
    we_key e' = we_key e /\ is_redirect e' = is_redirect e /\ shown_title e' = shown_title e /\
    ((forall m, we_kind e <> KItem m None) -> e' = e)).
  { intros i e He. unfold all_entries in *. apply lookup_app_Some in He as [He|[Hlen He]].
    - exists e. split; [by apply lookup_app_l_Some|done].
    - rewrite lookup_app_r by done. destruct (i - length (unlisted_entries c d es))%nat as [|[|q]]; simpl in He; try done; injection He as <-;
        (eexists; split; [done|]; split_and!; [done..|]; intros Hk; by edestruct Hk). }
  assert (Hred : forall i e ns path, all_entries c d es None None !! i = Some e -> we_kind e = KRedirect ns path ->
    all_entries c d es (Some b0) (Some b1) !! i = Some e).
  { intros i e ns path He Hk. destruct (Hat i e He) as (e' & He' & _ & _ & _ & Hs). rewrite He'. f_equal. apply Hs. congruence. }
  intros [(e & He & Hkey & Ht) Hl Hn (e1 & m & b & He1 & Hk1 & Hx)]. split; [| |done|].
  - destruct (Hat a e He) as (e' & He' & Ek & _ & Et & _). exists e'. split_and!; congruence.
  - clear -Hat Hred Hl. induction Hl as [i e He Hr|n i j k e e' ns path He Hkind Hj Hkey _ IH].
    + destruct (Hat i e He) as (e' & He' & _ & Er & _). by eapply leads_here; [exact He'|rewrite Er].
    + destruct (Hat j e' Hj) as (e2 & Hj' & Ek & _). by eapply leads_next; [by eapply Hred|exact Hkind|exact Hj'|rewrite Ek|].
  - exists e1, m, b. split; [|done]. destruct (Hat j e1 He1) as (e' & He' & _ & _ & _ & Hs). rewrite He'. f_equal. apply Hs. congruence.
Qed.

Section roundtrip.
Context `{OSSpec} `{LzmaLib} `{ZstdLib} `{Env}.
Context (K : Codecs).
Context (c : Creator) (ix : list IndexHandler) (xs : list (bytes * bytes)) (l : list addition) (es : list wentry) (M : list bytes).
Hypothesis Hct : creatable c ix xs l es M.

(** The creation succeeds, and the file is laid out as the reading side expects. *)
Lemma create_ok garbage :
  length garbage = 64%nat ->
  exists N out r cs hs s b0 k h, (forall fuel, (N <= fuel)%nat -> create fuel garbage c ix l = Ok out) /\
    let es' := all_entries c (with_data xs) es (Some b0) (Some (listing_bytes (pool s) k)) in
    let pad := repeat 0 (Z.to_nat (943 - Zlen (mime_bytes (mimeTypesList s)))) in
    let content := take (length out - 16) out in
    finished (comp := m_compression c) (chunk := m_minClusterSize c) r es' cs hs (main_entry (length es) c) s /\
    k ≡ₚ fronts 0 l /\ StronglySorted str_le (map (entry_title es') k) /\
    uncompressed_data s (S (index_at c es (length xs))) /\
    (forall i, (i < length xs)%nat -> uncompressed_data s (index_at c es i)) /\
    out = file_bytes h (mimeTypesList s) pad (clusters_of cs s N) (entries_of s) (md5 content) /\
    layout_ok K h (mimeTypesList s) pad (clusters_of cs s N) (entries_of s) (md5 content) (dirent_idx s) (cluster_idx s) /\
    Zlen out <= max_read /\ minorVersion h = 1 /\ out = content ++ md5 content.
Proof.
  intros Hg. destruct (creation_finished c ix xs l es M Hct) as (r & cs & hs & s & b0 & k & E & Hf & Hk & Hsort & Hpl & Hix).
  destruct (fuel_exists K r _ cs hs _ s Hf) as [N HN].
  destruct (archive_ok K r _ cs hs (main_entry (length es) c) s Hf N HN garbage c Hg (ct_uuid _ _ _ _ _ _ Hct))
    as (hp & fd & h & out & E1 & E2 & Hout & Hly & Hmax & Hmin & _).
  exists N, out, r, cs, hs, s, b0, k, h. split.
  { intros fuel Hfuel. pose proof (archive_fuel K r _ cs hs (main_entry (length es) c) s Hf N HN fuel out_fd_start Hfuel) as E0.
    rewrite E1 in E0. unfold create, finishZimCreation. rewrite stm_assoc. erewrite stm_bind_Ok by exact E. rewrite stm_gets. unfold id.
    erewrite stm_lift_Ok by exact E0. cbv beta iota. rewrite stm_modify, stm_gets. unfold id, lift. exact E2. }
  cbv zeta. split_and!; try done.
  pose proof (ly_digest _ _ _ _ _ _ _ _ _ Hly) as Hd. set (digest := md5 _) in *.
  assert (Hl : (length digest = 16)%nat) by (unfold Zlen in Hd; lia).
  assert (Hsplit : exists x, out = x ++ digest).
  { rewrite Hout. unfold file_bytes. exists (front_bytes h (mimeTypesList s) (repeat 0 (Z.to_nat (943 - Zlen (mime_bytes (mimeTypesList s))))) ++
      concat (clusters_bytes (clusters_of cs s N)) ++ concat (entries_bytes (entries_of s)) ++
      concat (map (fun i => toLittleEndian 8 (entry_start (clusters_of cs s N) (entries_of s) i)) (seq 0 (length (entries_of s)))) ++
      concat (map (fun i => toLittleEndian 8 (cluster_start (clusters_of cs s N) i)) (seq 0 (length (clusters_of cs s N))))).
    by rewrite <- !app_assoc. }
  destruct Hsplit as [x Hx]. assert (Ex : take (length out - 16) out = x) by (rewrite Hx; apply take_app_exact; rewrite length_app; lia).
  rewrite Ex. exact Hx.
Qed.

(** The index of the lookup is small enough for the default cache, and for any up to a million entries. *)
Lemma small_lookup ds :
  0 < envValue (lit "ZIM_DIRENTLOOKUPCACHE") DIRENT_LOOKUP_CACHE_SIZE <= 2 ^ 20 -> 1 <= Zlen ds ->
  Forall (fun d => Zlen (direntKey d) <= 256) ds -> lookup_fits ds.
Proof.
  intros Hc Hn Hall. unfold lookup_fits. set (cs := envValue _ _) in *. split; [lia|]. exists 256. split; [done|].
  set (n := Zlen ds) in *. assert (Hq : (n - 1) / Z.max 1 (n / cs) <= 2 * cs).
  { destruct (Z.lt_ge_cases n cs) as [Hlt|Hge].
    - rewrite (Z.div_small n cs) by lia. change (1 `max` 0) with 1. rewrite Z.div_1_r. lia.
    - assert (1 <= n / cs) by (apply Z.div_le_lower_bound; lia). rewrite Z.max_r by lia.
      apply Z.div_le_upper_bound; [lia|]. pose proof (Z.mul_succ_div_gt n cs ltac:(lia)) as Hs.
      assert (cs * 1 <= cs * (n / cs)) by (apply Z.mul_le_mono_nonneg_l; lia). rewrite Z.mul_succ_r in Hs. lia. }
  lia.
Qed.

(** What is written opens and serves the entries, from any reader. *)
Lemma archive_opens garbage :
  length garbage = 64%nat -> 0 < envValue (lit "ZIM_DIRENTLOOKUPCACHE") DIRENT_LOOKUP_CACHE_SIZE <= 2 ^ 20 ->
  exists N out k, (forall fuel, (N <= fuel)%nat -> create fuel garbage c ix l = Ok out) /\ Zlen out <= max_read /\
    k ≡ₚ fronts 0 l /\ StronglySorted str_le (map (entry_title es) k) /\
    (exists content, out = content ++ md5 content) /\
    forall zf off size rd, makeFileReader zf off size = Ok (Some rd) -> r_wf rd -> r_content rd = out ->
      exists f, FileImpl_new zf off size = Ok f /\ serves (all_entries c (with_data xs) es None None) xs k f /\
        zimFile f = zf /\ archiveStartOffset f = off /\ zimReader f = rd.
Proof.
  intros Hg Hcache. destruct (create_ok garbage Hg) as (N & out & r & cs & hs & s & b0 & k & h & E & Hf & Hk & Hsort & Hpl & Hix & Hout & Hly & Hmax & Hmin & Hmd5).
  set (es' := all_entries c (with_data xs) es _ _) in *. pose proof (all_keys c ix xs l es M Hct _ (Some b0) (Some (listing_bytes (pool s) k)) (describes_with_data xs)) as Hnd. fold es' in Hnd.
  exists N, out, k. split; [done|]. split; [done|]. split; [done|].
  assert (Hfront : forall d, d ∈ k -> (d < length es)%nat).
  { intros d Hd. rewrite Hk in Hd. destruct (fronts_bound 0 l) as [Hfr _]. rewrite Forall_forall in Hfr.
    pose proof (Forall2_length _ _ _ (ct_adds _ _ _ _ _ _ Hct)). specialize (Hfr d Hd). simpl in Hfr. lia. }
  split.
  { replace (map (entry_title es) k) with (map (entry_title es') k); [done|]. apply map_ext_in. intros d Hd.
    apply list_elem_of_In, Hfront in Hd. unfold entry_title, es'. rewrite all_split, lookup_app_l by done. done. }
  split; [by eexists|]. intros zf off size rd Hrd Hwf Hcontent.
  destruct (finished_bounds _ _ _ _ _ _ Hf) as (_ & _ & _ & _ & Heb & Hdl & _).
  pose proof (ly_counts _ _ _ _ _ _ _ _ _ Hly) as (Hac & Hcc & Hcl & _).
  assert (Hac' : articleCount h = Zlen es') by (rewrite Hac, <- Hdl; apply Zlen_map).
  assert (Hcc' : clusterCount h = Zlen (clustersList s)) by (rewrite Hcc; apply Zlen_map).
  rewrite Hout in Hcontent, Hmax. set (digest := md5 _) in *.
  pose proof (layout_well_formed K h _ _ _ _ digest _ _ Hly rd Hwf Hcontent Hmax) as Hwell.
  change (map (fun d => as_read d.1 d.2) (entries_of s)) with (dirents_of s) in Hwell.
  assert (Hdsl : Zlen (dirents_of s) = Zlen es') by (unfold dirents_of; rewrite Zlen_map, <- Hac; exact Hac').
  (* The title listing. *)
  set (n1 := S (index_at c es (length xs))) in *.
  assert (He1 : es' !! n1 = Some (listing_entry true (Some (listing_bytes (pool s) k)))).
  { unfold es', all_entries, n1. rewrite <- (unlisted_index c xs es _ (describes_with_data xs)). rewrite lookup_app_r by lia.
    by replace (S _ - _)%nat with 1%nat by lia. }
  assert (Hne : listing_bytes (pool s) k <> []).
  { intros E0. pose proof (listing_size (pool s) k) as Hz. rewrite E0 in Hz. change (Zlen []) with 0 in Hz.
    assert (k = []) as -> by (apply Zlen_nil_inv; lia). apply Permutation_nil_l in Hk. by apply (ct_front _ _ _ _ _ _ Hct). }
  destruct (entry_position _ _ _ _ _ _ Hf n1) as (i1 & Hi1 & _); [by eapply lookup_lt_Some|].
  pose proof (item_delivered _ _ _ _ _ _ Hf N n1 _ _ _ h He1 eq_refl Hne Hcc') as [_ _ Hc1 Hb1 Hd1 _].
  destruct (dirent_at_key _ _ _ _ _ _ Hf n1 _ He1) as [Hk1 _].
  pose proof (uncompressed_at _ _ _ _ _ _ Hf N n1 _ _ _ He1 eq_refl Hpl) as Hraw.
  assert (Hsrc : title_source rd h (dirents_of s) (fun k => sc_blobs (cluster_of_index (clusters_of cs s N) k)) (fun k => sc_comp (cluster_of_index (clusters_of cs s N) k))
    (listing_bytes (pool s) k)).
  { eapply title_listing; [exact (dirents_of_at s i1 n1 Hi1)|exact Hk1|exact Hc1|by right|exact Hb1|exact Hd1|exact Hne]. }
  assert (Hlook : lookup_fits (dirents_of s)).
  { apply small_lookup; [done|lia|]. unfold dirents_of, entries_of. rewrite map_map. apply Forall_map, Forall_forall. intros d Hd. cbn [fst snd].
    assert (Hd' : d ∈ dirents s) by done. rewrite (bd_dirents _ _ _ _ _ _ (fi_building _ _ _ _ _ _ Hf)) in Hd'. apply elem_of_seq in Hd'.
    destruct (lookup_lt_is_Some_2 es' d) as [e He]; [lia|]. destruct (dirent_at_key _ _ _ _ _ _ Hf d e He) as [Hdk _].
    fold (dirent_at s d). rewrite Hdk. unfold we_key. rewrite Zlen_cons.
    pose proof (fi_short _ _ _ _ _ _ Hf) as Hsh. rewrite Forall_lookup in Hsh. specialize (Hsh d e He). simpl in Hsh. pose proof (Zlen_nonneg (we_title e)). lia. }
  destruct (new_ok _ _ _ _ _ _ _ _ _ _ _ _ Hwell zf off size _ Hrd Hlook Hsrc) as (f & Ef & Hop & Hzf & Hao).
  assert (Hcount : articleCount h = Zlen es' /\ clusterCount h = Zlen (clustersList s) /\ minorVersion h = 1) by done.
  exists f. split; [exact Ef|]. split; [|by split_and!; [..|apply Hop]]. split.
  - intros paths ps Hall. destruct (pages_delivered K _ _ _ _ _ _ Hf Hnd N _ _ _ _ _ _ Hcount paths ps f Hop) as (f' & E' & _);
      [|by exists f']. eapply Forall2_impl; [exact Hall|]. intros p x (a & j & n & Hd). exists a, j, n. by apply delivers_own.
  - intros name x a j n Hd. destruct (metadata_delivered K _ _ _ _ _ _ Hf Hnd N _ _ _ _ _ _ Hcount name x a j n f Hop)
      as (f' & E' & _); [by apply delivers_own|by exists f'].
  - intros x a j n Hd. destruct (main_delivered K _ _ _ _ _ _ Hf Hnd N _ _ _ _ _ _ Hcount x a j n f Hop)
      as (f' & E' & _); [by apply delivers_own|by exists f'].
  - intros j a e Hj He.
    assert (He' : es' !! a = Some e).
    { assert (Ha : (a < length es)%nat) by (apply Hfront; by eapply list_elem_of_lookup_2). rewrite all_split in He. unfold es'. rewrite all_split.
      rewrite lookup_app_l in He |- * by done. done. }
    by eapply (title_delivered K _ _ _ _ _ _ Hf N _ _ _ _ _ _ f j a e k Hop).
  - intros ns path Hns Hnot. apply (absent_delivered K _ _ _ _ _ _ Hf N _ _ _ _ _ _ f ns path Hop Hns). unfold es'. by rewrite (keys_listed _ _ _ _ _ None None).
  - intros path b Hin Hbne Hlies. apply list_elem_of_lookup in Hin as [i Hi]. pose proof (lookup_lt_Some _ _ _ Hi) as Hlt.
    assert (He : es' !! index_at c es i = Some (index_entry (path, Some b))).
    { apply index_entry_at. unfold with_data. by rewrite (map_lookup_Some _ _ _ _ Hi). }
    exact (index_delivered K _ _ _ _ _ _ Hf N rd h _ _ _ _ Hcount f _ _ _ b Hop He eq_refl eq_refl Hbne (Hix i Hlt) eq_refl Hlies).
Qed.


End roundtrip.

(** * Properties *)

(** The bytes [out] lie in the files of [zf] from [off] on, as [FileImpl] takes them: an archive in several parts fills them. *)
Definition holds_archive (out : bytes) (zf : FileCompound) (off : Z) : Prop :=
  fc_ok zf /\ 0 <= off /\ off + Zlen out <= fc_fsize zf /\ slice (parts_content (fc_parts zf)) off (Zlen out) = out /\
  fc_parts zf <> [] /\ (fc_is_multiPart zf = true -> off = 0 /\ Zlen out = fc_fsize zf).

Lemma holds_reader `{OSSpec} out zf off : holds_archive out zf off ->
  exists rd, makeFileReader zf off (Zlen out) = Ok (Some rd) /\ r_wf rd /\ r_size rd = Zlen out /\ r_content rd = out.
Proof.
  intros (Hfc & Hoff & Hend & Hout & Hne & Hmulti). pose proof (Zlen_nonneg out).
  assert (He : exists rd, makeFileReader zf off (Zlen out) = Ok (Some rd)).
  { unfold makeFileReader. destruct (fc_parts zf) as [|[rg p] parts]; [done|]. destruct (fc_is_multiPart zf); [|by eexists].
    destruct (Hmulti eq_refl) as [-> ->]. rewrite !Z.eqb_refl. cbn [ASSERT mbind outcome_bind]. destruct Hfc as (_ & _ & Hmax).
    unfold Multi_whole, Multi_new. rewrite (proj2 (Z.leb_le 0 _)), Z.add_0_l, u64_small, Z.leb_refl by lia. by eexists. }
  destruct He as [rd Er]. exists rd. destruct (makeFileReader_lies zf off (Zlen out) rd Hfc Hoff ltac:(lia) Hend Er) as (Hwf & Hsz & Hc).
  split_and!; [done..|congruence].
Qed.

(** The archive is the file [name], which holds [out]. *)
Definition plain_parts (name out : bytes) (zf : FileCompound) : Prop :=
  fc_parts zf = [(mkRange 0 (Zlen out), mkFilePart name out (Zlen out))].
Definition plain_file `{OS} `{LzmaLib} `{ZstdLib} (name out : bytes) (f : FileImpl) : Prop := plain_parts name out (zimFile f).

(** An archive in one file. *)
Lemma open_single `{OSSpec} name out :
  os_open name = Some out -> 0 < Zlen out -> exists zf, FileCompound_new name = Ok zf /\ fc_fsize zf = Zlen out /\
    plain_parts name out zf /\ holds_archive out zf 0.
Proof.
  intros Ho Hpos. pose proof (os_file_size _ _ Ho) as Hsz.
  unfold FileCompound_new, FilePart_new, openFile. rewrite Ho. cbn [mbind outcome_bind mret outcome_ret].
  set (c0 := mkFileCompound [] name 0). destruct (addPart_ok c0 name out) as [Hfc Hcont]; [by split_and!|done|cbn; lia|].
  change (Files.getSize out) with (Zlen out). eexists. split; [reflexivity|].
  assert (Hs : fc_fsize (addPart c0 (mkFilePart name out (Zlen out))) = Zlen out).
  { unfold addPart. cbn [fc_fsize fp_size c0]. rewrite off_add_small by lia. lia. }
  split; [done|]. split; [|split_and!; try done; try lia].
  - unfold plain_parts, addPart. cbn [fc_fsize fc_parts fp_size range_emplace c0]. by rewrite off_add_small, Z.add_0_l by lia.
  - rewrite Hcont. apply slice_all.
Qed.

(** Whatever the files are that hold it, the archive opens. *)
Lemma archive_held `{OSSpec} `{LzmaLib} `{ZstdLib} `{Env} (K : Codecs) c ix xs l es M garbage :
  creatable c ix xs l es M -> length garbage = 64%nat ->
  0 < envValue (lit "ZIM_DIRENTLOOKUPCACHE") DIRENT_LOOKUP_CACHE_SIZE <= 2 ^ 20 ->
  exists enough out k, (forall fuel, (enough <= fuel)%nat -> create fuel garbage c ix l = Ok out) /\
    (exists content, out = content ++ md5 content) /\
    k ≡ₚ fronts 0 l /\ StronglySorted str_le (map (entry_title es) k) /\
    (forall name, os_open name = Some out ->
      exists f, FileImpl_open name = Ok f /\ plain_file name out f /\ lies_in f /\
        serves (all_entries c (with_data xs) es None None) xs k f) /\
    forall zf off, holds_archive out zf off ->
      exists f, FileImpl_new zf off (Zlen out) = Ok f /\ lies_in f /\ serves (all_entries c (with_data xs) es None None) xs k f.
Proof.
  intros Hct Hg Hcache. destruct (archive_opens K c ix xs l es M Hct garbage Hg Hcache)
    as (n & out & k & E & _ & Hk & Hsort & Hmd5 & Hopen).
  assert (Hall : forall zf off, holds_archive out zf off ->
    exists f, FileImpl_new zf off (Zlen out) = Ok f /\ zimFile f = zf /\ archiveStartOffset f = off /\ lies_in f /\
      serves (all_entries c (with_data xs) es None None) xs k f).
  { intros zf off Hin. destruct (holds_reader out zf off Hin) as (rd & Er & Hwf & Hsz & Hcont).
    destruct (Hopen zf off (Zlen out) rd Er Hwf Hcont) as (f & Ef & Hs & Hzf & Hao & Hrd). exists f. split_and!; [done..| |done].
    destruct Hin as (Hfc & Hoff & Hend & Hout & _). unfold lies_in. rewrite Hzf, Hao, Hrd, Hsz. split_and!; [done|done|congruence|lia]. }
  exists n, out, k. split_and!; try done.
  - intros name Ho. destruct Hmd5 as [content Hmd5]. assert (Hpos : 0 < Zlen out).
    { rewrite Hmd5, Zlen_app. pose proof (Zlen_nonneg content). assert (Em : Zlen (md5 content) = 16) by apply md5_length. lia. }
    destruct (open_single name out Ho Hpos) as (zf & Ez & Esz & Hparts & Hin). destruct (Hall zf 0 Hin) as (f & Ef & Hzf & Hao & Hl & Hs).
    exists f. split; [|split; [by rewrite <- Hzf in Hparts|by split]]. unfold FileImpl_open. rewrite Ez. cbn [mbind outcome_bind]. by rewrite Esz.
  - intros zf off Hin. destruct (Hall zf off Hin) as (f & Ef & _ & _ & Hl & Hs). by exists f.
Qed.


(** * Witness: a small archive *)

Definition made_creator : Creator :=
  setMainPath (lit "start") (Creator_new (repeat 7 16)).

Definition made_item : WItem :=
  mkWItem (lit "home") (lit "Home") (lit "text/html") (mret (SharedStringProvider_new (lit "hello"))) [(FRONT_ARTICLE, 1)].

(** A page, a redirect to it and a metadata, compressed with Zstandard. *)
Definition made_additions : list addition :=
  [AddItem made_item;
   AddRedirection (lit "start") [] (lit "home") [];
   AddMetadata (lit "Title") (StringProvider_new (lit "T")) (lit "text/plain")].

Definition made_entries : list wentry :=
  [mkWEntry (chr "C") (lit "home") (lit "Home") (KItem (lit "text/html") (Some (lit "hello")));
   mkWEntry (chr "C") (lit "start") [] (KRedirect (chr "C") (lit "home"));
   mkWEntry (chr "M") (lit "Title") [] (KItem (lit "text/plain") (Some (lit "T")))].

Definition made_mimes : list bytes := [lit "text/html"; lit "text/plain"; lit "application/octet-stream+zimlisting"].

Definition made_archive : bytes := Eval vm_compute in
  match @create sample_os copy_lzma copy_zstd 50 (repeat 0 64) made_creator [] made_additions with Ok out => out | _ => [] end.

Definition made_os : OS := os_of [(lit "made", made_archive)] max_read.
Lemma made_os_spec : @OSSpec made_os.
Proof. apply os_of_spec. repeat constructor; by vm_compute. Qed.

#[local] Existing Instance made_os.
#[local] Existing Instance made_os_spec.
#[local] Existing Instance copy_lzma.
#[local] Existing Instance copy_zstd.
#[local] Existing Instance no_env.

Lemma made_all : all_entries made_creator [] made_entries None None = made_entries ++
  [mkWEntry (chr "W") (lit "mainPage") [] (KRedirect (chr "C") (lit "start")); listing_entry false None; listing_entry true None].
Proof. done. Qed.

Lemma made_creatable : creatable made_creator [] [] made_additions made_entries made_mimes.
Proof.
  assert (Hno : forall k : bytes, bool_decide (Forall (fun x => x <> 0) k) = true -> no_nul k) by (intros k Hk; by apply bool_decide_eq_true in Hk).
  split.
  - constructor; [exact (adds_item made_item _ _ eq_refl (provides_shared _))|].
    constructor; [apply adds_redirection|]. constructor; [apply adds_metadata, provides_string|constructor].
  - constructor.
  - by right; right.
  - done.
  - apply (bool_decide_unpack _); by vm_compute.
  - apply (bool_decide_unpack _); by vm_compute.
  - repeat (apply Forall_cons; split); try apply Forall_nil; split; apply Hno; by vm_compute.
  - constructor.
  - repeat (apply Forall_cons; split); try apply Forall_nil; by vm_compute.
  - intros e m He Hm. change (no_data []) with (@nil (bytes * option bytes)) in He. rewrite made_all in He.
    repeat (apply elem_of_cons in He as [->|He]; [try discriminate Hm; injection Hm as <-; apply (bool_decide_unpack _); by vm_compute|]).
    by apply not_elem_of_nil in He.
  - repeat (apply Forall_cons; split); try apply Forall_nil; split; done || (apply Hno; by vm_compute).
  - by vm_compute.
  - intros e ns path He Hk. change (no_data []) with (@nil (bytes * option bytes)) in *. rewrite made_all in *.
    repeat (apply elem_of_cons in He as [->|He]; [try discriminate Hk; injection Hk as <- <-; apply (bool_decide_unpack _); by vm_compute|]).
    by apply not_elem_of_nil in He.
  - done.
  - by vm_compute.
Qed.

(** The page is what every one of three entries leads to. *)
Lemma made_delivers a n key title :
  match all_entries made_creator [] made_entries None None !! a with
  | Some e => (we_key e, shown_title e) | None => ([], []) end = (key, title) ->
  (a, n) = (0, 0)%nat \/ (a, n) = (1, 1)%nat \/ (a, n) = (3, 2)%nat ->
  delivers (all_entries made_creator [] made_entries None None) key (title, lit "text/html", lit "hello") a 0 n.
Proof.
  rewrite made_all. set (es := made_entries ++ [_; _; _]). intros Hkey Ha.
  assert (Hhome : leads es 0 0 0) by (eapply leads_here; reflexivity).
  assert (Hstart : leads es 1 1 0) by (eapply (leads_next es 0 1 0 0); [reflexivity..|exact Hhome]).
  assert (Hmp : leads es 2 3 0) by (eapply (leads_next es 1 3 1 0); [reflexivity..|exact Hstart]).
  split; [| | |eexists _, _, _; split_and!; [reflexivity|reflexivity|reflexivity|reflexivity|done]].
  - destruct Ha as [E|[E|E]]; injection E as -> ->; injection Hkey as <- <-; (eexists; split_and!; reflexivity).
  - destruct Ha as [E|[E|E]]; injection E as -> ->; assumption.
  - destruct Ha as [E|[E|E]]; injection E as -> ->; lia.
Qed.

