(* ===== verification/Html.v ===== *)
(** The HTML parser ([xapian/htmlparse.h], [xapian/htmlparse.cc],
    [xapian/namedentities.h]): a page is cut into texts, opening and closing
    tags, which are handed to the virtual functions of the class; the character
    references of the texts are decoded.

    An iterator of a string is its position; dereferencing [end()] reads the
    zero that ends the string, as the code relies on; an iterator past [end()]
    is undefined. The character classes are those of the C locale. The function
    of Xapian that writes a character in UTF-8 is a parameter. *)

From Stdlib Require Import Ascii.
From stdpp Require Import gmap strings.
From S2P Require Import Prelude.
From S2P Require Import Tools.

(** * Characters and iterators *)

Abbreviation isdigit := is_digit.
Abbreviation isspace := is_space.
Definition isupper (c : Z) : bool := (65 <=? c) && (c <=? 90).
Definition islower (c : Z) : bool := (97 <=? c) && (c <=? 122).
Definition isalpha (c : Z) : bool := isupper c || islower c.
Definition isalnum (c : Z) : bool := isalpha c || isdigit c.
Definition isxdigit (c : Z) : bool := isdigit c || ((65 <=? c) && (c <=? 70)) || ((97 <=? c) && (c <=? 102)).
Definition tolower (c : Z) : Z := if isupper c then c + 32 else c.

Definition p_notdigit (c : Z) : bool := negb (isdigit c).
Definition p_notxdigit (c : Z) : bool := negb (isxdigit c).
Definition p_notalnum (c : Z) : bool := negb (isalnum c).
Definition p_notwhitespace (c : Z) : bool := negb (isspace c).
Definition p_nottag (c : Z) : bool :=
  negb (isalnum c) && negb (c =? chr ".") && negb (c =? chr "-") && negb (c =? chr ":").
Definition p_whitespacegt (c : Z) : bool := isspace c || (c =? chr ">").
Definition p_whitespaceeqgt (c : Z) : bool := isspace c || (c =? chr "=") || (c =? chr ">").

Definition lowercase_string (s : bytes) : bytes := map tolower s.

(** [strchr(set, c) != NULL]: the zero that ends [set] belongs to it. *)
Definition strchr (set : bytes) (c : Z) : bool := (c =? 0) || existsb (Z.eqb c) set.

(** The number of elements before the first one that satisfies [f]. *)
Fixpoint index_of (f : Z -> bool) (l : bytes) : Z :=
  match l with
  | [] => 0
  | c :: l => if f c then 0 else 1 + index_of f l
  end.

Definition deref (s : bytes) (p : Z) : outcome Z := if p =? Zlen s then mret 0 else mem_get s p.

Definition find_if (f : Z -> bool) (s : bytes) (p : Z) : outcome Z :=
  if (0 <=? p) && (p <=? Zlen s) then mret (p + index_of f (drop (Z.to_nat p) s)) else Undef.

Definition find (c : ascii) : bytes -> Z -> outcome Z := find_if (Z.eqb (chr c)).

(** [std::string(first, last)], [s.substr(first - s.begin(), last - first)] and
    [name.assign(s, first - s.begin(), last - first)]. *)
Definition substring (s : bytes) (first last : Z) : outcome bytes :=
  if (0 <=? first) && (first <=? last) && (last <=? Zlen s) then mret (slice s first (last - first)) else Undef.

Definition npos : Z := 2 ^ 64 - 1.

(** [s.find_first_of(...)] and [s.find_first_not_of(...)]. *)
Definition find_char (f : Z -> bool) (s : bytes) (pos : Z) : Z :=
  if Zlen s <? pos then npos
  else let p := pos + index_of f (drop (Z.to_nat pos) s) in if p =? Zlen s then npos else p.

(** The number of elements before the first occurrence of [pat], if there is one. *)
Fixpoint search (pat l : bytes) : option Z :=
  if starts_with pat l then Some 0
  else match l with [] => None | _ :: l => option_map (Z.add 1) (search pat l) end.

(** [s.find(pat, pos)]. *)
Definition find_str (pat s : bytes) (pos : Z) : Z :=
  if Zlen s <? pos then npos
  else match search pat (drop (Z.to_nat pos) s) with Some n => pos + n | None => npos end.

(** * Character references *)

(** [Xapian::Unicode::nonascii_to_utf8]: the bytes it stores. *)
Class XapianUnicode : Type := { nonascii_to_utf8 : Z -> bytes }.

Definition latin_ents : list (string * Z) := [
  ("quot", 34); ("amp", 38); ("apos", 39); ("lt", 60); ("gt", 62); ("nbsp", 160); ("iexcl", 161);
  ("cent", 162); ("pound", 163); ("curren", 164); ("yen", 165); ("brvbar", 166); ("sect", 167);
  ("uml", 168); ("copy", 169); ("ordf", 170); ("laquo", 171); ("not", 172); ("shy", 173); ("reg", 174);
  ("macr", 175); ("deg", 176); ("plusmn", 177); ("sup2", 178); ("sup3", 179); ("acute", 180);
  ("micro", 181); ("para", 182); ("middot", 183); ("cedil", 184); ("sup1", 185); ("ordm", 186);
  ("raquo", 187); ("frac14", 188); ("frac12", 189); ("frac34", 190); ("iquest", 191); ("Agrave", 192);
  ("Aacute", 193); ("Acirc", 194); ("Atilde", 195); ("Auml", 196); ("Aring", 197); ("AElig", 198);
  ("Ccedil", 199); ("Egrave", 200); ("Eacute", 201); ("Ecirc", 202); ("Euml", 203); ("Igrave", 204);
  ("Iacute", 205); ("Icirc", 206); ("Iuml", 207); ("ETH", 208); ("Ntilde", 209); ("Ograve", 210);
  ("Oacute", 211); ("Ocirc", 212); ("Otilde", 213); ("Ouml", 214); ("times", 215); ("Oslash", 216);
  ("Ugrave", 217); ("Uacute", 218); ("Ucirc", 219); ("Uuml", 220); ("Yacute", 221); ("THORN", 222);
  ("szlig", 223); ("agrave", 224); ("aacute", 225); ("acirc", 226); ("atilde", 227); ("auml", 228);
  ("aring", 229); ("aelig", 230); ("ccedil", 231); ("egrave", 232); ("eacute", 233); ("ecirc", 234);
  ("euml", 235); ("igrave", 236); ("iacute", 237); ("icirc", 238); ("iuml", 239); ("eth", 240);
  ("ntilde", 241); ("ograve", 242); ("oacute", 243); ("ocirc", 244); ("otilde", 245); ("ouml", 246);
  ("divide", 247); ("oslash", 248); ("ugrave", 249); ("uacute", 250); ("ucirc", 251); ("uuml", 252);
  ("yacute", 253); ("thorn", 254); ("yuml", 255)].

Definition other_ents : list (string * Z) := [
  ("OElig", 338); ("oelig", 339); ("Scaron", 352); ("scaron", 353); ("Yuml", 376); ("fnof", 402);
  ("circ", 710); ("tilde", 732); ("Alpha", 913); ("Beta", 914); ("Gamma", 915); ("Delta", 916);
  ("Epsilon", 917); ("Zeta", 918); ("Eta", 919); ("Theta", 920); ("Iota", 921); ("Kappa", 922);
  ("Lambda", 923); ("Mu", 924); ("Nu", 925); ("Xi", 926); ("Omicron", 927); ("Pi", 928); ("Rho", 929);
  ("Sigma", 931); ("Tau", 932); ("Upsilon", 933); ("Phi", 934); ("Chi", 935); ("Psi", 936);
  ("Omega", 937); ("alpha", 945); ("beta", 946); ("gamma", 947); ("delta", 948); ("epsilon", 949);
  ("zeta", 950); ("eta", 951); ("theta", 952); ("iota", 953); ("kappa", 954); ("lambda", 955);
  ("mu", 956); ("nu", 957); ("xi", 958); ("omicron", 959); ("pi", 960); ("rho", 961); ("sigmaf", 962);
  ("sigma", 963); ("tau", 964); ("upsilon", 965); ("phi", 966); ("chi", 967); ("psi", 968);
  ("omega", 969); ("thetasym", 977); ("upsih", 978); ("piv", 982); ("ensp", 8194); ("emsp", 8195);
  ("thinsp", 8201); ("zwnj", 8204); ("zwj", 8205); ("lrm", 8206); ("rlm", 8207); ("ndash", 8211);
  ("mdash", 8212); ("lsquo", 8216); ("rsquo", 8217); ("sbquo", 8218); ("ldquo", 8220); ("rdquo", 8221);
  ("bdquo", 8222); ("dagger", 8224); ("Dagger", 8225); ("bull", 8226); ("hellip", 8230);
  ("permil", 8240); ("prime", 8242); ("Prime", 8243); ("lsaquo", 8249); ("rsaquo", 8250);
  ("oline", 8254); ("frasl", 8260); ("euro", 8364); ("image", 8465); ("weierp", 8472); ("real", 8476);
  ("trade", 8482); ("alefsym", 8501); ("larr", 8592); ("uarr", 8593); ("rarr", 8594); ("darr", 8595);
  ("harr", 8596); ("crarr", 8629); ("lArr", 8656); ("uArr", 8657); ("rArr", 8658); ("dArr", 8659);
  ("hArr", 8660); ("forall", 8704); ("part", 8706); ("exist", 8707); ("empty", 8709); ("nabla", 8711);
  ("isin", 8712); ("notin", 8713); ("ni", 8715); ("prod", 8719); ("sum", 8721); ("minus", 8722);
  ("lowast", 8727); ("radic", 8730); ("prop", 8733); ("infin", 8734); ("ang", 8736); ("and", 8743);
  ("or", 8744); ("cap", 8745); ("cup", 8746); ("int", 8747); ("there4", 8756); ("sim", 8764);
  ("cong", 8773); ("asymp", 8776); ("ne", 8800); ("equiv", 8801); ("le", 8804); ("ge", 8805);
  ("sub", 8834); ("sup", 8835); ("nsub", 8836); ("sube", 8838); ("supe", 8839); ("oplus", 8853);
  ("otimes", 8855); ("perp", 8869); ("sdot", 8901); ("lceil", 8968); ("rceil", 8969); ("lfloor", 8970);
  ("rfloor", 8971); ("lang", 9001); ("rang", 9002); ("loz", 9674); ("spades", 9824); ("clubs", 9827);
  ("hearts", 9829); ("diams", 9830)].

Definition ents : list (string * Z) := latin_ents ++ other_ents.

Definition named_ents : gmap bytes Z :=
  fold_left (fun m e => <[lit e.1 := e.2]> m) ents ∅.

(** The value of the leading digits; [strtol] and [strtoul] saturate at the
    bounds of a 64-bit [long]. *)
Definition hex_digit_value (c : Z) : Z :=
  if isdigit c then c - 48 else if isupper c then c - 55 else c - 87.

Definition sscanf_x (s : bytes) : Z :=
  u32 (Z.min (2 ^ 64 - 1) (fold_left (fun v c => 16 * v + hex_digit_value c) s 0)).

Definition atoi (s : bytes) : Z :=
  u32 (Z.min (2 ^ 63 - 1) (fold_left (fun v c => 10 * v + (c - 48)) s 0)).

Section entities.
Context `{XapianUnicode}.

(** The value of the reference whose text starts after the ampersand at [p - 1],
    and the end of that text. *)
Definition read_reference (s : bytes) (p : Z) : outcome (Z * Z) :=
  c ← deref s p;
  if (p <? Zlen s) && (c =? chr "#") then
    let p := p + 1 in
    c ← deref s p;
    if (p <? Zlen s) && ((c =? chr "x") || (c =? chr "X")) then
      let p := p + 1 in
      end_ ← find_if p_notxdigit s p;
      t ← substring s p end_;
      mret (sscanf_x t, end_)
    else
      end_ ← find_if p_notdigit s p;
      t ← substring s p end_;
      mret (atoi t, end_)
  else
    end_ ← find_if p_notalnum s p;
    code ← substring s p end_;
    mret (default 0 (named_ents !! code), end_).

(** The bytes that stand for the character [val] in the text. *)
Definition character (val : Z) : bytes := if val <? 128 then [val] else nonascii_to_utf8 val.

Fixpoint decode_loop (fuel : nat) (s : bytes) (amp : Z) : outcome bytes :=
  match fuel with
  | O => Diverge
  | S fuel =>
      amp ← find "&" s amp;
      if amp =? Zlen s then mret s
      else
        '(val, end_) ← read_reference s (amp + 1);
        c ← deref s end_;
        let end_ := if (end_ <? Zlen s) && (c =? chr ";") then end_ + 1 else end_ in
        if val =? 0 then decode_loop fuel s end_
        else decode_loop fuel (slice s 0 amp ++ character val ++ drop (Z.to_nat end_) s) (amp + 1)
  end.

(** Each turn consumes an ampersand. *)
Definition decode_entities (s : bytes) : outcome bytes := decode_loop (S (length s)) s 0.

End entities.

(** * [HtmlParser] *)

Record HtmlParser : Type := mkHtmlParser {
  parameters : gmap bytes bytes;
  in_script : bool;
  charset : bytes;
}.

Definition with_parameters (p : gmap bytes bytes) (h : HtmlParser) : HtmlParser :=
  mkHtmlParser p (in_script h) (charset h).
Definition with_in_script (b : bool) (h : HtmlParser) : HtmlParser := mkHtmlParser (parameters h) b (charset h).
Definition with_charset (c : bytes) (h : HtmlParser) : HtmlParser := mkHtmlParser (parameters h) (in_script h) c.

(** The constructor leaves [in_script] uninitialised: [parse_html] sets it. *)
Definition HtmlParser_new (garbage : bool) : HtmlParser := mkHtmlParser ∅ garbage [].

(** A class derived from [HtmlParser]: its objects, the base object in each, and
    the virtual functions. *)
Class HtmlHandler (S : Type) : Type := {
  base : S -> HtmlParser;
  set_base : HtmlParser -> S -> S;
  process_text : bytes -> stm S unit;
  opening_tag : bytes -> stm S unit;
  closing_tag : bytes -> stm S unit;
}.

Definition get_parameter (h : HtmlParser) (param : bytes) : option bytes := parameters h !! param.

(** ** The parts of a page that are skipped *)

(** [charset] from the XML declaration at the start of the page, [None] when it is left as it is. *)
Definition xml_encoding (decl : bytes) : outcome (option bytes) :=
  let blank c := existsb (Z.eqb c) (lit " " ++ [9; 13; 10]) in
  let enc := find_str (lit "encoding") decl 0 in
  if enc =? npos then mret None
  else
    let enc := find_char (fun c => negb (blank c)) decl (enc + 8) in
    if (enc =? npos) || (enc =? Zlen decl) then mret None
    else
      c ← deref decl enc;
      if negb (c =? chr "=") then mret None
      else
        let enc := find_char (fun c => negb (blank c)) decl (enc + 1) in
        if (enc =? npos) || (enc =? Zlen decl) then mret None
        else
          quote ← deref decl enc;
          if negb (quote =? 34) && negb (quote =? 39) then mret None
          else
            let enc := enc + 1 in
            let enc_end := find_char (Z.eqb quote) decl enc in
            mret (Some (slice decl enc (Z.min (u64 (enc_end - enc)) (Zlen decl - enc)))).

Definition xml_declaration (body : bytes) (p : Z) : outcome (option bytes) :=
  if negb (p =? 0) || (Zlen body <? 20) then mret None
  else
    c2 ← deref body (p + 2); c3 ← deref body (p + 3); c4 ← deref body (p + 4); c5 ← deref body (p + 5);
    if negb (c2 =? chr "x") || negb (c3 =? chr "m") || negb (c4 =? chr "l") then mret None
    else if negb (strchr (lit " " ++ [9; 13; 10]) c5) then mret None
    else
      decl_end ← find "?" body (p + 6);
      if decl_end =? Zlen body then mret None
      else
        decl ← substring body (p + 6) decl_end;
        r ← xml_encoding decl;
        mret (Some (default (lit "UTF-8") r)).

(** The position after a [>] that follows two dashes, from the [>] at [p]; the end if there is none. *)
Fixpoint comment_end (fuel : nat) (body : bytes) (p : Z) : outcome Z :=
  if p =? Zlen body then mret p
  else
    a ← deref body (p - 1); b ← deref body (p - 2);
    if (a =? chr "-") && (b =? chr "-") then mret p
    else match fuel with
    | O => Diverge
    | S fuel => p ← find ">" body (p + 1); comment_end fuel body p
    end.

(** After [<!], at [start]: [None] for the end of the parsing. *)
Definition skip_declaration (body : bytes) (start : Z) : outcome (option Z) :=
  let end_ := Zlen body in
  let start := start + 1 in
  if start =? end_ then mret None
  else
    let start := start + 1 in
    if start =? end_ then mret None
    else
      a ← deref body (start - 1); b ← deref body start;
      if (a =? chr "-") && (b =? chr "-") then
        let start := start + 1 in
        close ← find ">" body start;
        if close =? end_ then mret None
        else
          p ← comment_end (length body) body close;
          if negb (p =? end_) then
            t ← (if p - start =? 15 then substring body start (p - 2) else mret []);
            if bool_decide (t = lit "htdig_noindex") then
              let i := find_str (lit "<!--/htdig_noindex-->") body (p + 1) in
              if i =? npos then mret None else mret (Some (i + 21))
            else mret (Some (p + 1))
          else mret (Some (close + 1))
      else
        start ← find ">" body (start - 1);
        if start =? end_ then mret None else mret (Some (start + 1)).

Fixpoint php_end (fuel : nat) (body : bytes) (start : Z) : outcome Z :=
  if start =? Zlen body then mret start
  else
    c ← deref body (start - 1);
    if c =? chr "?" then mret start
    else match fuel with
    | O => Diverge
    | S fuel => start ← find ">" body (start + 1); php_end fuel body start
    end.

Definition skip_php (body : bytes) (start : Z) : outcome (option Z) :=
  let start := start + 1 in
  if start =? Zlen body then mret None
  else
    start ← find ">" body (start + 1);
    start ← php_end (length body) body start;
    mret (Some (if start =? Zlen body then start else start + 1)).

(** ** Tags *)

(** The value after the equals sign at [start], and the position after it and the blanks that follow. *)
Definition read_value (body : bytes) (start : Z) : outcome (bytes * Z) :=
  let end_ := Zlen body in
  start ← find_if p_notwhitespace body (start + 1);
  quote ← deref body start;
  '(start, p) ← (if (quote =? 34) || (quote =? 39) then
      p ← find_if (Z.eqb quote) body (start + 1);
      mret (start + 1, p)
    else mret (start, end_));
  p ← (if p =? end_ then find_if p_whitespacegt body start else mret p);
  value ← substring body start p;
  start ← find_if p_notwhitespace body p;
  mret (value, start).

Fixpoint read_parameters (fuel : nat) (body : bytes) (params : gmap bytes bytes) (start : Z) :
    outcome (gmap bytes bytes * Z) :=
  c ← deref body start;
  if (start <? Zlen body) && negb (c =? chr ">") then
    match fuel with
    | O => Diverge
    | S fuel =>
        p ← find_if p_whitespaceeqgt body start;
        name ← substring body start p;
        p ← find_if p_notwhitespace body p;
        c ← deref body p;
        if negb (p =? Zlen body) && (c =? chr "=") then
          '(value, start) ← read_value body p;
          let name := lowercase_string name in
          let params := if bool_decide (name = []) then params
                        else match params !! name with Some _ => params | None => <[name := value]> params end in
          read_parameters fuel body params start
        else read_parameters fuel body params p
    end
  else mret (params, start).

Section parser.
Context `{XapianUnicode} {S : Type} `{HtmlHandler S}.

Definition on_base (f : HtmlParser -> HtmlParser) : stm S unit := modify (fun s => set_base (f (base s)) s).

Definition parse_tag (body : bytes) (start : Z) : stm S (option Z) :=
  c ← lift (deref body start);
  let closing := c =? chr "/" in
  start ← (if closing : bool then lift (find_if p_notwhitespace body (start + 1)) else mret start);
  let p := start in
  start ← lift (find_if p_nottag body start);
  t ← lift (substring body p start);
  let tag := lowercase_string t in
  if closing then
    closing_tag tag ;;
    s ← gets base;
    (if in_script s && bool_decide (tag = lit "script") then on_base (with_in_script false) else mret tt) ;;
    p ← lift (find ">" body start);
    if p =? Zlen body then mret None else mret (Some (p + 1))
  else
    s ← gets base;
    '(params, start) ← lift (read_parameters (length body) body (parameters s) start);
    on_base (with_parameters params) ;;
    opening_tag tag ;;
    on_base (with_parameters ∅) ;;
    (if bool_decide (tag = lit "script") then on_base (with_in_script true) else mret tt) ;;
    c ← lift (deref body start);
    mret (Some (if negb (start =? Zlen body) && (c =? chr ">") then start + 1 else start)).

(** The next tag, comment or declaration, from [p]. *)
Fixpoint find_tag (fuel : nat) (body : bytes) (p : Z) : stm S Z :=
  p ← lift (find "<" body p);
  if p =? Zlen body then mret p
  else
    ch ← lift (deref body (p + 1));
    s ← gets base;
    if (negb (in_script s) && isalpha ch) || (ch =? chr "/") || (ch =? chr "!") then mret p
    else if ch =? chr "?" then
      r ← lift (xml_declaration body p);
      (match r with Some c => on_base (with_charset c) | None => mret tt end) ;;
      mret p
    else match fuel with
    | O => lift Diverge
    | Datatypes.S fuel => find_tag fuel body (p + 1)
    end.

(** After a [<] that starts a tag, a comment, a declaration or PHP code, at [start]. *)
Definition parse_markup (body : bytes) (start : Z) : stm S (option Z) :=
  c ← lift (deref body start);
  if c =? chr "!" then lift (skip_declaration body start)
  else if c =? chr "?" then lift (skip_php body start)
  else parse_tag body start.

(** One turn of the loop of [parse_html]. *)
Definition parse_step (body : bytes) (start : Z) : stm S (option Z) :=
  p ← find_tag (length body) body start;
  (if start <? p then
    text ← lift (substring body start p);
    text ← lift (decode_entities text);
    process_text text
  else mret tt) ;;
  let start := p + 1 in
  if (p =? Zlen body) || (start =? Zlen body) then mret None else parse_markup body start.

Fixpoint parse_loop (fuel : nat) (body : bytes) (start : Z) : stm S unit :=
  match fuel with
  | O => lift Diverge
  | Datatypes.S fuel =>
      r ← parse_step body start;
      match r with None => mret tt | Some start => parse_loop fuel body start end
  end.

(** Each turn moves [start] forward, except the last one. *)
Definition HtmlParser_parse_html (body : bytes) : stm S unit :=
  on_base (with_in_script false) ;;
  on_base (with_parameters ∅) ;;
  parse_loop (length body + 2) body 0.

End parser.
