(* ===== verification/Entities.v ===== *)
(** Positions in a text, and the character references of [HtmlParser::decode_entities]
    ([xapian/htmlparse.cc]): the decoding in place with iterators is that of a definition on lists. *)

From Stdlib Require Import Ascii.
From stdpp Require Import gmap strings.
From S2P Require Import Prelude.
From S2P Require Import Tools.
From S2P Require Import Html.

(** * Positions *)

(** At the position [p] of [s] the text goes on with [l]. *)
Definition cursor (s : bytes) (p : Z) (l : bytes) : Prop := exists pre, s = pre ++ l /\ p = Zlen pre.

Lemma cursor_start s : cursor s 0 s.
Proof. by exists []. Qed.

Lemma cursor_bounds s p l : cursor s p l -> 0 <= p /\ p + Zlen l = Zlen s.
Proof. intros (pre & -> & ->). rewrite Zlen_app. pose proof (Zlen_nonneg pre). lia. Qed.

Lemma cursor_drop s p l : cursor s p l -> drop (Z.to_nat p) s = l.
Proof. intros (pre & -> & ->). unfold Zlen. rewrite Nat2Z.id. apply drop_app_length. Qed.

Lemma cursor_at s p : 0 <= p <= Zlen s -> cursor s p (drop (Z.to_nat p) s).
Proof.
  intros Hp. exists (take (Z.to_nat p) s). split; [by rewrite take_drop|].
  unfold Zlen in *. rewrite length_take. lia.
Qed.

Lemma cursor_skip s p a l : cursor s p (a ++ l) -> cursor s (p + Zlen a) l.
Proof. intros (pre & -> & ->). exists (pre ++ a). by rewrite <- app_assoc, Zlen_app. Qed.

Lemma cursor_next s p c l : cursor s p (c :: l) -> cursor s (p + 1) l.
Proof. intros H. exact (cursor_skip s p [c] l H). Qed.

Lemma cursor_more s p c l : cursor s p (c :: l) -> (p =? Zlen s) = false /\ (p <? Zlen s) = true.
Proof. intros (? & Hb)%cursor_bounds. rewrite Zlen_cons in Hb. pose proof (Zlen_nonneg l). by decide_bool. Qed.

Lemma cursor_end s p : cursor s p [] -> (p =? Zlen s) = true /\ (p <? Zlen s) = false.
Proof. intros (? & Hb)%cursor_bounds. rewrite Zlen_nil in Hb. by decide_bool. Qed.

Lemma deref_cons s p c l : cursor s p (c :: l) -> deref s p = Ok c.
Proof.
  intros H. unfold deref. rewrite (proj1 (cursor_more _ _ _ _ H)). destruct (cursor_bounds _ _ _ H) as [? Hb].
  rewrite Zlen_cons in Hb. pose proof (Zlen_nonneg l). unfold mem_get. decide_bool. f_equal.
  destruct H as (pre & -> & ->). unfold Zlen. rewrite Nat2Z.id, app_nth2, Nat.sub_diag by lia. done.
Qed.

Lemma deref_nil s p : cursor s p [] -> deref s p = Ok 0.
Proof. intros H. unfold deref. by rewrite (proj1 (cursor_end _ _ H)). Qed.

Lemma deref_head s p l : cursor s p l -> deref s p = Ok (hd 0 l).
Proof. destruct l; [apply deref_nil|apply deref_cons]. Qed.

Lemma find_if_cursor f s p l : cursor s p l -> find_if f s p = Ok (p + index_of f l).
Proof.
  intros H. unfold find_if. rewrite (cursor_drop _ _ _ H). apply cursor_bounds in H as [? ?].
  pose proof (Zlen_nonneg l). by decide_bool.
Qed.

Lemma substring_cursor s p a l : cursor s p (a ++ l) -> substring s p (p + Zlen a) = Ok a.
Proof.
  intros H. destruct (cursor_bounds _ _ _ H) as [? Hb]. rewrite Zlen_app in Hb.
  pose proof (Zlen_nonneg a). pose proof (Zlen_nonneg l). unfold substring. decide_bool. cbn. f_equal.
  destruct H as (pre & -> & ->). replace (Zlen pre + Zlen a - Zlen pre) with (Zlen a) by lia. apply slice_app_mid.
Qed.

(** The elements before the first one that satisfies [f], and the others. *)
Fixpoint span (f : Z -> bool) (l : bytes) : bytes * bytes :=
  match l with
  | [] => ([], [])
  | c :: l' => if f c then ([], l) else let '(a, r) := span f l' in (c :: a, r)
  end.

Lemma span_index f l : index_of f l = Zlen (span f l).1.
Proof.
  induction l as [|c l IH]; [done|]. simpl. destruct (f c); [done|]. destruct (span f l). simpl in *.
  rewrite Zlen_cons. lia.
Qed.

Lemma span_app f l : l = (span f l).1 ++ (span f l).2.
Proof. induction l as [|c l IH]; [done|]. simpl. destruct (f c); [done|]. destruct (span f l). simpl in *. by f_equal. Qed.

Lemma span_before f l : Forall (fun c => f c = false) (span f l).1.
Proof. induction l as [|c l IH]; [by constructor|]. simpl. destruct (f c) eqn:E; [by constructor|]. destruct (span f l). by constructor. Qed.

Lemma span_head f l c r : (span f l).2 = c :: r -> f c = true.
Proof.
  induction l as [|d l IH]; [done|]. simpl. destruct (f d) eqn:E; [by intros [= <- _]|]. destruct (span f l). simpl in *. apply IH.
Qed.

(** Where the first part of a text ends: at an element that satisfies [f], or with the text. *)
Definition stops (f : Z -> bool) (l : bytes) : Prop := match l with [] => True | c :: _ => f c = true end.

Lemma span_stop f a l : Forall (fun c => f c = false) a -> stops f l -> span f (a ++ l) = (a, l).
Proof.
  intros Ha Hl. induction Ha as [|c a Hc Ha IH]; simpl.
  - destruct l as [|c l]; [done|]. simpl in *. by rewrite Hl.
  - by rewrite Hc, IH.
Qed.

Lemma span_stops f l : stops f (span f l).2.
Proof. destruct (span f l).2 eqn:E; [done|]. by apply span_head in E. Qed.

Lemma find_stop f s p a l :
  cursor s p (a ++ l) -> Forall (fun c => f c = false) a -> stops f l -> find_if f s p = Ok (p + Zlen a).
Proof. intros H Ha Hl. rewrite (find_if_cursor _ _ _ _ H), span_index, span_stop by done. done. Qed.

(** [find_if] stops at a position of the text. *)
Lemma find_if_at f s p l :
  cursor s p l -> find_if f s p = Ok (p + Zlen (span f l).1) /\ cursor s (p + Zlen (span f l).1) (span f l).2.
Proof.
  intros H. rewrite (find_if_cursor _ _ _ _ H), span_index. split; [done|]. apply cursor_skip. by rewrite <- span_app.
Qed.

(** ** Tokens

    The longest parts of a text without an element that satisfies [f]. *)

Definition glued (f : Z -> bool) (c : Z) (l : bytes) (ts : list bytes) : list bytes :=
  match l, ts with
  | d :: _, t :: ts' => if f d then [c] :: ts else (c :: t) :: ts'
  | _, _ => [c] :: ts
  end.

Fixpoint tokens (f : Z -> bool) (l : bytes) : list bytes :=
  match l with
  | [] => []
  | c :: l => if f c then tokens f l else glued f c l (tokens f l)
  end.

Fixpoint join_with (sep : Z) (ts : list bytes) : bytes :=
  match ts with
  | [] => []
  | [t] => t
  | t :: ts => t ++ sep :: join_with sep ts
  end.

Lemma tokens_nonempty f c l : f c = false -> tokens f (c :: l) <> [].
Proof. intros Hc. cbn [tokens]. rewrite Hc. unfold glued. destruct l as [|d l]; [done|]. destruct (tokens f _); [done|]. by destruct (f d). Qed.

Lemma tokens_skip f a l : Forall (fun c => f c = true) a -> tokens f (a ++ l) = tokens f l.
Proof. induction 1 as [|c a Hc _ IH]; [done|]. cbn [app tokens]. by rewrite Hc. Qed.

Lemma tokens_word f w l :
  w <> [] -> Forall (fun c => f c = false) w -> stops f l -> tokens f (w ++ l) = w :: tokens f l.
Proof.
  intros Hne Hw Hl. induction Hw as [|c w Hc Hw IH]; [done|]. cbn [app tokens]. rewrite Hc. unfold glued. destruct w as [|d w].
  - cbn [app]. destruct l as [|x l]; [done|]. cbn [stops] in Hl. rewrite Hl. by destruct (tokens f _).
  - rewrite IH by done. cbn [app]. inversion Hw as [|? ? Hd]. by rewrite Hd.
Qed.

Lemma tokens_join f sep ts :
  f sep = true -> Forall (fun t => t <> [] /\ Forall (fun c => f c = false) t) ts -> tokens f (join_with sep ts) = ts.
Proof.
  intros Hsep. induction 1 as [|t ts [Hne Ht] Hts IH]; [done|]. cbn [join_with]. destruct ts as [|u ts].
  - rewrite <- (app_nil_r t) at 1. by rewrite tokens_word.
  - rewrite tokens_word by done. f_equal. change (sep :: ?l) with ([sep] ++ l). rewrite tokens_skip by by repeat constructor. exact IH.
Qed.

(** * Character references *)

(** The reference whose text starts with [l], after the ampersand: its value, 0
    for none, and what follows it. *)
Definition reference (l : bytes) : Z * bytes :=
  let '(v, r) :=
    match l with
    | c :: l1 =>
        if c =? chr "#" then
          match l1 with
          | x :: l2 =>
              if (x =? chr "x") || (x =? chr "X") then let '(t, r) := span p_notxdigit l2 in (sscanf_x t, r)
              else let '(t, r) := span p_notdigit l1 in (atoi t, r)
          | [] => (0, [])
          end
        else let '(t, r) := span p_notalnum l in (default 0 (named_ents !! t), r)
    | [] => (0, [])
    end in
  (v, match r with c :: r' => if c =? chr ";" then r' else r | [] => [] end).

Definition is_amp (c : Z) : bool := chr "&" =? c.

(** UTF-8. *)
Definition utf8 (v : Z) : bytes :=
  if v <? 128 then [v]
  else if v <? 2048 then [192 + v / 64; 128 + v mod 64]
  else if v <? 65536 then [224 + v / 4096; 128 + v / 64 mod 64; 128 + v mod 64]
  else [240 + v / 262144; 128 + v / 4096 mod 64; 128 + v / 64 mod 64; 128 + v mod 64].

(** The code points of Unicode. *)
Definition code_point (v : Z) : Prop := 0 <= v < 1114112.

(** What the function of Xapian promises. *)
Class XapianUnicodeSpec `{XapianUnicode} : Prop := {
  utf8_encoded v : 128 <= v -> code_point v -> nonascii_to_utf8 v = utf8 v;
}.

(** [l] with its references decoded. *)
Fixpoint decoded_n (n : nat) (l : bytes) : bytes :=
  match n, l with
  | S n, c :: l =>
      if is_amp c then
        let '(v, r) := reference l in
        if v =? 0 then c :: decoded_n n l else utf8 v ++ decoded_n n r
      else c :: decoded_n n l
  | _, _ => []
  end.
Definition decoded (l : bytes) : bytes := decoded_n (length l) l.

(** The references of [l] are those of characters of Unicode. *)
Fixpoint refs_ok (l : bytes) : Prop :=
  match l with
  | [] => True
  | c :: l => (is_amp c = true -> code_point (reference l).1) /\ refs_ok l
  end.

#[local] Opaque named_ents.

Section references.
Context `{XapianUnicodeSpec}.

Definition no_amp : bytes -> Prop := Forall (fun c => is_amp c = false).

Lemma is_amp_true c : is_amp c = true -> c = chr "&".
Proof. unfold is_amp. intros ?%Z.eqb_eq. done. Qed.

Lemma no_amp_span f l : (forall c, f c = false -> is_amp c = false) -> no_amp (span f l).1.
Proof. intros Hf. eapply Forall_impl; [apply span_before|]. intros c. apply Hf. Qed.


Lemma alnum_no_amp c : p_notalnum c = false -> is_amp c = false.
Proof. unfold is_amp. destruct (chr "&" =? c) eqn:E; [|done]. apply Z.eqb_eq in E. by subst. Qed.
Lemma digit_no_amp c : p_notdigit c = false -> is_amp c = false.
Proof. unfold is_amp. destruct (chr "&" =? c) eqn:E; [|done]. apply Z.eqb_eq in E. by subst. Qed.
Lemma xdigit_no_amp c : p_notxdigit c = false -> is_amp c = false.
Proof. unfold is_amp. destruct (chr "&" =? c) eqn:E; [|done]. apply Z.eqb_eq in E. by subst. Qed.

(** The characters of a reference up to the one that ends it. *)
Lemma find_part f s p l :
  cursor s p l -> exists e, find_if f s p = Ok e /\ substring s p e = Ok (span f l).1 /\ cursor s e (span f l).2.
Proof.
  intros Hl. destruct (find_if_at f s p l Hl) as [E Hc]. eexists. split; [exact E|]. split; [|done].
  apply substring_cursor with (span f l).2. by rewrite <- span_app.
Qed.

Lemma read_reference_at s p l :
  cursor s p l -> exists e t u,
    read_reference s p = Ok ((reference l).1, e) /\ cursor s e u /\ l = t ++ u /\ no_amp t /\
    (reference l).2 = match u with c :: u' => if c =? chr ";" then u' else u | [] => [] end.
Proof.
  intros Hl. unfold read_reference, reference. rewrite (deref_head _ _ _ Hl). cbn [mbind outcome_bind].
  destruct l as [|c l1].
  { rewrite (proj2 (cursor_end _ _ Hl)). destruct (find_part p_notalnum s p [] Hl) as (e & -> & E & Hc).
    cbn [mbind outcome_bind andb]. rewrite E. cbn. exists e, [], []. by repeat constructor. }
  rewrite (proj2 (cursor_more _ _ _ _ Hl)). cbn [hd andb]. destruct (c =? chr "#") eqn:Ehash.
  - apply Z.eqb_eq in Ehash as ->. pose proof (cursor_next _ _ _ _ Hl) as Hl1. rewrite (deref_head _ _ _ Hl1). cbn [mbind outcome_bind].
    destruct l1 as [|x l2].
    { rewrite (proj2 (cursor_end _ _ Hl1)). destruct (find_part p_notdigit s _ [] Hl1) as (e & -> & E & Hc).
      cbn [mbind outcome_bind andb]. rewrite E. cbn. exists e, [chr "#"], []. by repeat constructor. }
    rewrite (proj2 (cursor_more _ _ _ _ Hl1)). cbn [hd andb]. destruct ((x =? chr "x") || (x =? chr "X")) eqn:Ex.
    + pose proof (cursor_next _ _ _ _ Hl1) as Hl2. destruct (find_part p_notxdigit s _ l2 Hl2) as (e & -> & E & Hc).
      cbn [mbind outcome_bind]. rewrite E. cbn [mbind outcome_bind mret outcome_ret].
      pose proof (no_amp_span p_notxdigit l2 xdigit_no_amp) as Hno. pose proof (span_app p_notxdigit l2) as Happ.
      destruct (span p_notxdigit l2) as [t u]. cbn [fst snd] in *. exists e, (chr "#" :: x :: t), u.
      split_and!; [done|done|by rewrite Happ| |done]. constructor; [done|]. constructor; [|done].
      unfold is_amp. apply orb_true_iff in Ex as [->%Z.eqb_eq| ->%Z.eqb_eq]; done.
    + destruct (find_part p_notdigit s _ (x :: l2) Hl1) as (e & -> & E & Hc).
      cbn [mbind outcome_bind]. rewrite E. cbn [mbind outcome_bind mret outcome_ret].
      pose proof (no_amp_span p_notdigit (x :: l2) digit_no_amp) as Hno. pose proof (span_app p_notdigit (x :: l2)) as Happ.
      destruct (span p_notdigit (x :: l2)) as [t u]. cbn [fst snd] in *. exists e, (chr "#" :: t), u.
      split_and!; [done|done|by rewrite Happ| |done]. by constructor.
  - destruct (find_part p_notalnum s p (c :: l1) Hl) as (e & -> & E & Hc).
    cbn [mbind outcome_bind]. rewrite E. cbn [mbind outcome_bind mret outcome_ret].
    pose proof (no_amp_span p_notalnum (c :: l1) alnum_no_amp) as Hno. pose proof (span_app p_notalnum (c :: l1)) as Happ.
    destruct (span p_notalnum (c :: l1)) as [t u]. cbn [fst snd] in *. by exists e, t, u.
Qed.

(** The text of a reference holds no ampersand. *)
Lemma reference_app l : exists t, l = t ++ (reference l).2 /\ no_amp t.
Proof.
  destruct (read_reference_at l 0 l (cursor_start l)) as (e & t & u & _ & _ & -> & Ht & ->).
  destruct u as [|c u]; [by exists t|]. destruct (c =? chr ";") eqn:E; [|by exists t].
  apply Z.eqb_eq in E as ->. exists (t ++ [chr ";"]). split; [by rewrite <- app_assoc|]. apply Forall_app. by repeat constructor.
Qed.

Lemma reference_length l : (length (reference l).2 <= length l)%nat.
Proof. destruct (reference_app l) as (t & E & _). rewrite E at 2. rewrite length_app. lia. Qed.

(** ** [decoded] *)

Lemma decoded_more n m l : (length l <= n)%nat -> (length l <= m)%nat -> decoded_n n l = decoded_n m l.
Proof.
  revert m l. induction n as [|n IH]; intros [|m] [|c l]; cbn [length decoded_n]; try done; [lia..|]. intros Hn Hm.
  pose proof (reference_length l). destruct (is_amp c); [|f_equal; apply IH; lia].
  destruct (reference l) as [v r]. cbn [snd] in *. destruct (v =? 0); f_equal; apply IH; lia.
Qed.

Lemma decoded_cons c l :
  decoded (c :: l) =
    if is_amp c then
      if (reference l).1 =? 0 then c :: decoded l else utf8 (reference l).1 ++ decoded (reference l).2
    else c :: decoded l.
Proof.
  unfold decoded. cbn [length decoded_n]. destruct (is_amp c); [|done].
  pose proof (reference_length l). destruct (reference l) as [v r]. cbn [fst snd] in *.
  destruct (v =? 0); [done|]. f_equal. apply decoded_more; lia.
Qed.

Lemma decoded_app a l : no_amp a -> decoded (a ++ l) = a ++ decoded l.
Proof. induction 1 as [|c a Hc Ha IH]; [done|]. simpl app. by rewrite decoded_cons, Hc, IH. Qed.

Lemma refs_ok_app a l : refs_ok (a ++ l) -> refs_ok l.
Proof. induction a as [|c a IH]; [done|]. intros [_ Hl]. by apply IH. Qed.

Lemma refs_ok_no_amp a l : no_amp a -> refs_ok l -> refs_ok (a ++ l).
Proof. induction 1 as [|c a Hc Ha IH]; [done|]. intros Hl. split; [by rewrite Hc|by apply IH]. Qed.

Lemma refs_ok_reference l : refs_ok l -> refs_ok (reference l).2.
Proof. destruct (reference_app l) as (t & E & _). rewrite E at 1. apply refs_ok_app. Qed.

(** The first byte of a character, and the others, which are no ampersands. *)
Lemma character_bytes v : v <> 0 -> code_point v -> exists c cs, character v = utf8 v /\ utf8 v = c :: cs /\ no_amp cs.
Proof.
  intros Hv Hc. unfold character.
  assert (Hmod : forall z, is_amp (128 + z mod 64) = false).
  { intros z. pose proof (Z.mod_pos_bound z 64 ltac:(lia)). unfold is_amp. change (chr "&") with 38. apply Z.eqb_neq. lia. }
  assert (E : (if v <? 128 then [v] else nonascii_to_utf8 v) = utf8 v).
  { destruct (Z.ltb_spec v 128); [unfold utf8; by decide_bool|]. by apply utf8_encoded. }
  rewrite E. unfold utf8. destruct (v <? 128); [by eexists _, _; repeat constructor|].
  destruct (v <? 2048); [by eexists _, _; repeat constructor|].
  destruct (v <? 65536); by eexists _, _; repeat constructor.
Qed.

(** ** [decode_entities] *)

Fixpoint amps (l : bytes) : nat := match l with [] => 0 | c :: l => (if is_amp c then 1 else 0) + amps l end.

Lemma amps_app a l : amps (a ++ l) = (amps a + amps l)%nat.
Proof. induction a as [|c a IH]; [done|]. simpl. lia. Qed.
Lemma amps_none a : no_amp a -> amps a = 0%nat.
Proof. induction 1 as [|c a Hc _ IH]; [done|]. simpl. by rewrite Hc. Qed.
Lemma amps_length l : (amps l <= length l)%nat.
Proof. induction l as [|c l IH]; simpl; [done|]. destruct (is_amp c); lia. Qed.

Lemma decode_loop_ok fuel pre l :
  (amps l < fuel)%nat -> refs_ok l -> decode_loop fuel (pre ++ l) (Zlen pre) = Ok (pre ++ decoded l).
Proof.
  revert pre l. induction fuel as [|fuel IH]; intros pre l Hfuel Hrefs; [lia|]. cbn [decode_loop].
  assert (Hl : cursor (pre ++ l) (Zlen pre) l) by by exists pre.
  destruct (find_if_at is_amp _ _ _ Hl) as [E Hc]. change (find "&" (pre ++ l) (Zlen pre)) with (find_if is_amp (pre ++ l) (Zlen pre)). rewrite E. cbn [mbind outcome_bind].
  pose proof (span_before is_amp l) as Ha. pose proof (span_app is_amp l) as El. pose proof (span_stops is_amp l) as Hr.
  destruct (span is_amp l) as [a r]. cbn [fst snd] in *. destruct r as [|c r].
  { rewrite (proj1 (cursor_end _ _ Hc)). rewrite app_nil_r in El. subst a. by rewrite <- (app_nil_r l) at 2; rewrite decoded_app, app_nil_r. }
  rewrite (proj1 (cursor_more _ _ _ _ Hc)). simpl in Hr. apply is_amp_true in Hr as ->.
  destruct (read_reference_at _ _ _ (cursor_next _ _ _ _ Hc)) as (e & t & u & Er & He & Et & Ht & E2). rewrite Er.
  cbn [mbind outcome_bind]. rewrite (deref_head _ _ _ He). cbn [mbind outcome_bind].
  set (e' := if (e <? _) && _ then e + 1 else e). subst l.
  assert (He' : cursor (pre ++ a ++ chr "&" :: r) e' (reference r).2).
  { rewrite E2. unfold e'. destruct u as [|x u]; [by rewrite (proj2 (cursor_end _ _ He))|].
    rewrite (proj2 (cursor_more _ _ _ _ He)). cbn [hd andb]. destruct (x =? chr ";"); [by apply cursor_next in He|done]. }
  assert (Hrefs' : code_point (reference r).1 /\ refs_ok r) by (apply refs_ok_app in Hrefs as [Hv ?]; by split; [apply Hv|]).
  destruct Hrefs' as [Hv Hrefs']. rewrite amps_app, amps_none in Hfuel by done. simpl in Hfuel.
  rewrite decoded_app, decoded_cons by done. change (is_amp (chr "&")) with true. cbn iota.
  destruct (reference_app r) as (t' & Et' & Ht'). assert (Hamps : amps r = amps (reference r).2).
  { rewrite Et' at 1. by rewrite amps_app, amps_none. }
  destruct (Z.eqb_spec (reference r).1 0) as [E0|E0].
  - replace e' with (Zlen (pre ++ a ++ chr "&" :: t')).
    2: { destruct (cursor_bounds _ _ _ He') as [_ Hb]. pose proof (f_equal Zlen Et') as Hlen. rewrite !Zlen_app, !Zlen_cons in *. lia. }
    rewrite Et' at 1. replace (pre ++ a ++ chr "&" :: t' ++ (reference r).2) with ((pre ++ a ++ chr "&" :: t') ++ (reference r).2)
      by by rewrite <- !app_assoc.
    rewrite IH; [|lia|by apply refs_ok_reference]. f_equal. rewrite <- !app_assoc. cbn [app]. do 3 f_equal.
    rewrite Et' at 2. by rewrite decoded_app.
  - destruct (character_bytes _ E0 Hv) as (c & cs & Ec & Eu & Hcs). rewrite Ec, (cursor_drop _ _ _ He'), Eu.
    replace (slice (pre ++ a ++ chr "&" :: r) 0 (Zlen pre + Zlen a)) with (pre ++ a).
    2: { rewrite app_assoc. rewrite <- Zlen_app. rewrite slice_app_l by (pose proof (Zlen_nonneg (pre ++ a)); lia). by rewrite slice_all. }
    replace (Zlen pre + Zlen a + 1) with (Zlen (pre ++ a ++ [c])) by (rewrite !Zlen_app, Zlen_cons, Zlen_nil; lia).
    replace ((pre ++ a) ++ (c :: cs) ++ (reference r).2) with ((pre ++ a ++ [c]) ++ cs ++ (reference r).2) by by rewrite <- !app_assoc.
    rewrite IH; [|rewrite amps_app, amps_none by done; lia|by apply refs_ok_no_amp, refs_ok_reference].
    rewrite decoded_app by done. f_equal. by rewrite <- !app_assoc.
Qed.

Lemma decode_entities_ok s : refs_ok s -> decode_entities s = Ok (decoded s).
Proof.
  intros Hs. unfold decode_entities. pose proof (amps_length s). exact (decode_loop_ok (S (length s)) [] s ltac:(lia) Hs).
Qed.

End references.

(** ** Escaping *)

Definition escape_char (c : Z) : bytes :=
  if c =? chr "&" then lit "&amp;"
  else if c =? chr "<" then lit "&lt;"
  else if c =? chr ">" then lit "&gt;"
  else if c =? 34 then lit "&quot;"
  else [c].
Definition escape (s : bytes) : bytes := concat (map escape_char s).

(** A named reference that ends with a semicolon. *)
Lemma reference_named (name : bytes) v l :
  Forall (fun c => p_notalnum c = false) name -> name <> [] -> named_ents !! name = Some v ->
  reference (name ++ chr ";" :: l) = (v, l).
Proof.
  intros Hn Hne Hv. unfold reference. destruct name as [|c name]; [by destruct Hne|]. cbn [app].
  replace (c =? chr "#") with false.
  2: { symmetry. apply Z.eqb_neq. intros ->. by inversion Hn. }
  change (c :: name ++ chr ";" :: l) with ((c :: name) ++ chr ";" :: l).
  rewrite (span_stop _ (c :: name)) by done. by rewrite Hv.
Qed.

Lemma escape_char_spec c l :
  (exists n, escape_char c = chr "&" :: n /\ reference (n ++ l) = (c, l) /\ 0 < c < 128) \/
  (escape_char c = [c] /\ is_amp c = false).
Proof.
  assert (Hent : forall (name : bytes) v, forallb (fun c => negb (p_notalnum c)) name = true -> name <> [] -> named_ents !! name = Some v ->
    0 < v < 128 ->
    exists n, chr "&" :: name ++ [chr ";"] = chr "&" :: n /\ reference (n ++ l) = (v, l) /\ 0 < v < 128).
  { intros name v Hn Hne Hv Hr. exists (name ++ [chr ";"]). split; [done|]. split; [|done]. rewrite <- app_assoc.
    apply reference_named; [|done..]. apply Is_true_eq_left, forallb_True in Hn. eapply Forall_impl; [exact Hn|]. intros x Hx.
    cbv beta in *. destruct (p_notalnum x); [destruct Hx|done]. }
  unfold escape_char.
  destruct (Z.eqb_spec c (chr "&")) as [->|Hamp]; [left; apply (Hent (lit "amp")); by vm_compute|].
  destruct (Z.eqb_spec c (chr "<")) as [->|]; [left; apply (Hent (lit "lt")); by vm_compute|].
  destruct (Z.eqb_spec c (chr ">")) as [->|]; [left; apply (Hent (lit "gt")); by vm_compute|].
  destruct (Z.eqb_spec c 34) as [->|]; [left; apply (Hent (lit "quot")); by vm_compute|].
  right. split; [done|]. unfold is_amp. apply Z.eqb_neq. congruence.
Qed.

Lemma decoded_escape `{XapianUnicodeSpec} s : decoded (escape s) = s.
Proof.
  induction s as [|c s IH]; [done|]. change (escape (c :: s)) with (escape_char c ++ escape s).
  destruct (escape_char_spec c (escape s)) as [(n & -> & E & Hc)|(-> & E)].
  - cbn [app]. rewrite decoded_cons, E. change (is_amp (chr "&")) with true. cbn [fst snd].
    rewrite (proj2 (Z.eqb_neq c 0)) by lia. rewrite IH. unfold utf8. by decide_bool.
  - cbn [app]. by rewrite decoded_cons, E, IH.
Qed.

Lemma refs_ok_escape `{XapianUnicodeSpec} s : refs_ok (escape s).
Proof.
  induction s as [|c s IH]; [done|]. change (escape (c :: s)) with (escape_char c ++ escape s).
  destruct (escape_char_spec c (escape s)) as [(n & -> & E & Hc)|(-> & E)].
  - cbn [app]. split; [intros _; rewrite E; unfold code_point; cbn; lia|].
    destruct (reference_app (n ++ escape s)) as (t & Et & Ht). rewrite E in Et. cbn [snd] in Et. rewrite Et. by apply refs_ok_no_amp.
  - cbn [app]. split; [by rewrite E|done].
Qed.

(** ** Cutting a text

    What follows a text does not change its references when it starts with a
    character that no reference holds. *)

Definition not_in_reference (c : Z) : bool := p_notalnum c && negb (c =? chr "#").

Lemma span_cut f a l : stops f l -> (span f (a ++ l)).1 = (span f a).1.
Proof.
  intros Hl. induction a as [|c a IH]; simpl.
  - destruct l as [|c l]; [done|]. simpl in *. by rewrite Hl.
  - destruct (f c); [done|]. destruct (span f (a ++ l)), (span f a). simpl in *. by rewrite IH.
Qed.

Lemma stops_weaken (f g : Z -> bool) l : (forall c, f c = true -> g c = true) -> stops f l -> stops g l.
Proof. destruct l; simpl; auto. Qed.

Lemma not_in_alnum c : not_in_reference c = true -> p_notalnum c = true.
Proof. unfold not_in_reference. by intros [? ?]%andb_true_iff. Qed.
Lemma alnum_digit c : p_notalnum c = true -> p_notdigit c = true.
Proof. unfold p_notalnum, p_notdigit, isalnum. destruct (is_digit c); [|done]. by rewrite orb_true_r. Qed.
Lemma alnum_xdigit c : p_notalnum c = true -> p_notxdigit c = true.
Proof.
  unfold p_notalnum, p_notxdigit, isalnum, isxdigit, isalpha, isupper, islower, is_digit. intros ?%negb_true_iff. apply negb_true_iff.
  repeat match goal with |- context [?a <=? ?b] => destruct (Z.leb_spec a b) | H : context [?a <=? ?b] |- _ => destruct (Z.leb_spec a b) end;
    simpl in *; try done; lia.
Qed.

Lemma reference_cut a l : stops not_in_reference l -> (reference (a ++ l)).1 = (reference a).1.
Proof.
  intros Hl. pose proof (stops_weaken _ _ _ not_in_alnum Hl) as Halnum.
  pose proof (stops_weaken _ _ _ alnum_digit Halnum) as Hdigit. pose proof (stops_weaken _ _ _ alnum_xdigit Halnum) as Hxdigit.
  unfold reference. destruct a as [|c a1]; cbn [app].
  - destruct l as [|d l]; [done|]. simpl in Hl, Halnum. unfold not_in_reference in Hl. apply andb_true_iff in Hl as [_ ->%negb_true_iff].
    cbn [span]. by rewrite Halnum.
  - destruct (c =? chr "#").
    + destruct a1 as [|x a2]; cbn [app].
      * destruct l as [|d l]; [done|]. simpl in Hdigit, Halnum. cbn [span]. rewrite Hdigit.
        destruct (Z.eqb_spec d (chr "x")) as [->|]; [vm_compute in Halnum; discriminate|].
        destruct (Z.eqb_spec d (chr "X")) as [->|]; [vm_compute in Halnum; discriminate|].
        reflexivity.
      * destruct ((x =? chr "x") || (x =? chr "X")).
        -- pose proof (span_cut _ a2 _ Hxdigit) as Hcut. destruct (span p_notxdigit (a2 ++ l)), (span p_notxdigit a2). cbn [fst snd] in *. by rewrite Hcut.
        -- change (x :: a2 ++ l) with ((x :: a2) ++ l). pose proof (span_cut _ (x :: a2) _ Hdigit) as Hcut.
           destruct (span p_notdigit ((x :: a2) ++ l)), (span p_notdigit (x :: a2)). cbn [fst snd] in *. by rewrite Hcut.
    + change (c :: a1 ++ l) with ((c :: a1) ++ l). pose proof (span_cut _ (c :: a1) _ Halnum) as Hcut.
      destruct (span p_notalnum ((c :: a1) ++ l)), (span p_notalnum (c :: a1)). cbn [fst snd] in *. by rewrite Hcut.
Qed.

Lemma refs_ok_cut a l : stops not_in_reference l -> refs_ok (a ++ l) -> refs_ok a.
Proof.
  intros Hl. induction a as [|c a IH]; [done|]. intros [Hc Ha]. split; [|by apply IH].
  intros Hamp. rewrite <- (reference_cut a l Hl). by apply Hc.
Qed.
