(* ===== verification/MyHtml.v ===== *)
(** The text of a page ([xapian/myhtmlparse.h], [xapian/myhtmlparse.cc]) and what
    the indexer is told of an item ([writer/item.cpp]), in a build with Xapian.

    The transliterator of ICU is a parameter. A [float] is a number of the
    standard library's [SpecFloat], of 24 bits of precision. *)

From Stdlib Require Import Ascii SpecFloat.
From stdpp Require Import gmap strings.
From S2P Require Import Prelude.
From S2P Require Import Tools.
From S2P Require Import Types.
From S2P Require Import Readers.
From S2P Require Import Files.
From S2P Require Import Compression.
From S2P Require Import WCluster.
From S2P Require Import Creator.
From S2P Require Import Html.

(** * [std::istream >> float]

    What the library reads is collected first: a sign, digits with at most one
    point, an exponent. It is an error, which gives 0, when there is no digit or
    when the exponent has none. A number that is too big gives the largest one. *)

Abbreviation float := spec_float.
Definition float_max (sign : bool) : float := S754_finite sign 16777215 104.

(** The digits at the front of a text: their value after [acc], how many, and the rest. *)
Fixpoint take_digits (acc : Z) (n : Z) (s : bytes) : Z * Z * bytes :=
  match s with
  | c :: s' => if is_digit c then take_digits (10 * acc + (c - 48)) (n + 1) s' else (acc, n, s)
  | [] => (acc, n, [])
  end.

Definition take_sign (s : bytes) : bool * bytes :=
  match s with
  | c :: s' => if c =? chr "-" then (true, s') else if c =? chr "+" then (false, s') else (false, s)
  | [] => (false, [])
  end.

(** The number [m * 10 ^ e], rounded to the nearest. *)
Definition round_float (sign : bool) (m e : Z) : float :=
  let signed := if sign then - m else m in
  let r := if m =? 0 then S754_zero sign
           else if 0 <=? e then binary_normalize 24 128 (signed * 10 ^ e) 0 sign
           else let '(q, e', l) := SFdiv_core_binary 24 128 m 0 (10 ^ (- e)) 0 in
             binary_round_aux 24 128 sign q e' l in
  match r with S754_infinity s => float_max s | r => r end.

(** [None] when the stream holds nothing but blanks: nothing is stored then. *)
Definition read_float (s : bytes) : option float :=
  match drop_spaces s with
  | [] => None
  | s =>
      let '(sign, s) := take_sign s in
      let '(m, n, s) := take_digits 0 0 s in
      let '(m, n, k, s) := match s with
        | c :: s' => if c =? chr "." then let '(m, k, s') := take_digits m 0 s' in (m, n + k, k, s') else (m, n, 0, s)
        | [] => (m, n, 0, s)
        end in
      Some (if n =? 0 then S754_zero false
        else match s with
        | c :: s' =>
            if (c =? chr "e") || (c =? chr "E") then
              let '(neg, s') := take_sign s' in
              let '(e, n, _) := take_digits 0 0 s' in
              if n =? 0 then S754_zero false else round_float sign m ((if neg then - e else e) - k)
            else round_float sign m (- k)
        | [] => round_float sign m (- k)
        end)
  end.

(** * [MyHtmlParser] *)

Record MyHtmlParser : Type := mkMyHtml {
  html : HtmlParser;
  in_script_tag : bool;
  in_style_tag : bool;
  pending_space : bool;
  indexing_allowed : bool;
  charset_from_meta : bool;
  latitude : float;
  longitude : float;
  has_geoPosition : bool;
  title : bytes;
  sample : bytes;
  keywords : bytes;
  dump : bytes;
}.

Definition MyHtmlParser_new (garbage : bool) : MyHtmlParser :=
  mkMyHtml (HtmlParser_new garbage) false false false true false (S754_zero false) (S754_zero false) false [] [] [] [].

Definition reset (p : MyHtmlParser) : MyHtmlParser :=
  mkMyHtml (html p) false false false true false (S754_zero false) (S754_zero false) false [] [] [] [].

Definition with_html (h : HtmlParser) (p : MyHtmlParser) : MyHtmlParser :=
  mkMyHtml h (in_script_tag p) (in_style_tag p) (pending_space p) (indexing_allowed p) (charset_from_meta p)
    (latitude p) (longitude p) (has_geoPosition p) (title p) (sample p) (keywords p) (dump p).
Definition with_flags (script style allowed from_meta : bool) (p : MyHtmlParser) : MyHtmlParser :=
  mkMyHtml (html p) script style (pending_space p) allowed from_meta
    (latitude p) (longitude p) (has_geoPosition p) (title p) (sample p) (keywords p) (dump p).
Definition with_position (lat long : float) (has : bool) (p : MyHtmlParser) : MyHtmlParser :=
  mkMyHtml (html p) (in_script_tag p) (in_style_tag p) (pending_space p) (indexing_allowed p) (charset_from_meta p)
    lat long has (title p) (sample p) (keywords p) (dump p).
Definition with_meta (s k : bytes) (p : MyHtmlParser) : MyHtmlParser :=
  mkMyHtml (html p) (in_script_tag p) (in_style_tag p) (pending_space p) (indexing_allowed p) (charset_from_meta p)
    (latitude p) (longitude p) (has_geoPosition p) (title p) s k (dump p).
Definition with_text (pending : bool) (t d : bytes) (p : MyHtmlParser) : MyHtmlParser :=
  mkMyHtml (html p) (in_script_tag p) (in_style_tag p) pending (indexing_allowed p) (charset_from_meta p)
    (latitude p) (longitude p) (has_geoPosition p) t (sample p) (keywords p) d.

Definition set_script (b : bool) (p : MyHtmlParser) : MyHtmlParser :=
  with_flags b (in_style_tag p) (indexing_allowed p) (charset_from_meta p) p.
Definition set_style (b : bool) (p : MyHtmlParser) : MyHtmlParser :=
  with_flags (in_script_tag p) b (indexing_allowed p) (charset_from_meta p) p.
Definition set_pending (p : MyHtmlParser) : MyHtmlParser := with_text true (title p) (dump p) p.

(** ** [process_text] *)

Definition WHITESPACE : bytes := [32; 9; 10; 13].
Definition in_WHITESPACE (c : Z) : bool := existsb (Z.eqb c) WHITESPACE.

(** The loop over the words of [text], from the one at [b]. *)
Fixpoint words_loop (fuel : nat) (text : bytes) (pending : bool) (d : bytes) (b : Z) : outcome (bool * bytes) :=
  if b =? npos then mret (pending, d)
  else match fuel with
  | O => Diverge
  | S fuel =>
      let d := if pending && negb (bool_decide (d = [])) then d ++ [32] else d in
      let e := find_char in_WHITESPACE text b in
      if e =? npos then mret (false, d ++ slice text b (Zlen text - b))
      else words_loop fuel text true (d ++ slice text b (e - b))
             (find_char (fun c => negb (in_WHITESPACE c)) text (e + 1))
  end.

Definition My_process_text (text : bytes) : stm MyHtmlParser unit :=
  p ← gets id;
  if negb (bool_decide (text = [])) && negb (in_script_tag p) && negb (in_style_tag p) then
    let b := find_char (fun c => negb (in_WHITESPACE c)) text 0 in
    '(pending, d) ← lift (words_loop (S (length text)) text (negb (b =? 0) || pending_space p) (dump p) b);
    modify (fun p => with_text pending (title p) d p)
  else mret tt.

(** ** [opening_tag] *)

(** [tag == "..." || ...]. *)
Definition is_one (tag : bytes) (names : list string) : bool := existsb (fun n => bool_decide (tag = lit n)) names.

Definition space_if (b : bool) : stm MyHtmlParser unit := if b then modify set_pending else mret tt.

(** [tag.length() == 2 && strchr("r123456", tag[1])]. *)
Definition is_heading (tag : bytes) : bool :=
  match tag with [_; c] => strchr (lit "r123456") c | _ => false end.

(** The name of the charset in the quoted value that starts at [start]: an escaped
    character stands for itself. *)
Fixpoint quoted_charset (fuel : nat) (content : bytes) (end_ : Z) : outcome (bytes * Z) :=
  if end_ <? Zlen content then
    match fuel with
    | O => Diverge
    | S fuel =>
        ch ← deref content end_;
        if ch =? 34 then mret (content, end_)
        else
          let content := if ch =? 92 then slice content 0 end_ ++ drop (Z.to_nat (end_ + 1)) content else content in
          quoted_charset fuel content (end_ + 1)
    end
  else mret (content, end_).

Definition content_charset (content : bytes) : outcome (option bytes) :=
  let start := find_str (lit "charset=") content 0 in
  if start =? npos then mret None
  else
    let start := start + 8 in
    if start =? Zlen content then mret None
    else
      c ← deref content start;
      '(content, start, end_) ← (if negb (c =? 34) then
          end_ ← find_if (fun ch => (ch <=? 32) || (127 <=? ch) ||
                                    strchr (lit ";()<>@,:" ++ [92; 34] ++ lit "/[]?={}") ch) content start;
          mret (content, start, end_)
        else
          '(content, end_) ← quoted_charset (length content) content (start + 1);
          mret (content, start + 1, end_));
      throw_when (Zlen content <? start) (out_of_range "basic_string") ;;
      mret (Some (slice content start (Z.min (end_ - start) (Zlen content - start)))).

Section handler.
Context `{XapianUnicode}.

(** The value of an uninitialised [float]. *)
Variable garbage : float.

Definition _stof (s : bytes) : float := default garbage (read_float s).

(** A [meta] tag with a name, which is [name], and the content [content]. *)
Definition named_meta (name content : bytes) : stm MyHtmlParser unit :=
  p ← gets id;
  if bool_decide (name = lit "description") then
    if bool_decide (sample p = []) then
      modify (with_meta content (keywords p)) ;;
      s ← lift (decode_entities content);
      modify (with_meta s (keywords p))
    else mret tt
  else if bool_decide (name = lit "keywords") then
    let k := if bool_decide (keywords p = []) then [] else keywords p ++ [32] in
    modify (with_meta (sample p) k) ;;
    content ← lift (decode_entities content);
    modify (with_meta (sample p) (k ++ content))
  else if bool_decide (name = lit "robots") then
    content ← lift (decode_entities content);
    let content := lowercase_string content in
    if contains (lit "none") content || contains (lit "noindex") content then
      modify (with_flags (in_script_tag p) (in_style_tag p) false (charset_from_meta p)) ;;
      lift (Throw (thrown_bool true))
    else mret tt
  else if bool_decide (name = lit "geo.position") then
    let sep_pos := find_str (lit ";") content 0 in
    if sep_pos =? npos then mret tt
    else modify (with_position (_stof (slice content 0 sep_pos)) (_stof (drop (Z.to_nat (sep_pos + 1)) content)) true)
  else mret tt.

Definition meta_tag : stm MyHtmlParser unit :=
  p ← gets id;
  match get_parameter (html p) (lit "content") with
  | Some content =>
      match get_parameter (html p) (lit "name") with
      | Some name => named_meta (lowercase_string name) content
      | None =>
          if charset_from_meta p then mret tt
          else match get_parameter (html p) (lit "http-equiv") with
          | Some hdr =>
              if bool_decide (lowercase_string hdr = lit "content-type") then
                newcharset ← lift (content_charset (lowercase_string content));
                match newcharset with
                | Some newcharset =>
                    if bool_decide (charset (html p) = newcharset) then mret tt
                    else lift (Throw (thrown_string newcharset))
                | None => mret tt
                end
              else mret tt
          | None => mret tt
          end
      end
  | None =>
      if charset_from_meta p then mret tt
      else match get_parameter (html p) (lit "charset") with
      | Some newcharset =>
          let newcharset := lowercase_string newcharset in
          if bool_decide (charset (html p) = newcharset) then mret tt
          else lift (Throw (thrown_string newcharset))
      | None => mret tt
      end
  end.

Definition My_opening_tag (tag : bytes) : stm MyHtmlParser unit :=
  match tag with
  | [] => mret tt
  | c :: _ =>
      if c =? chr "a" then space_if (is_one tag ["address"])
      else if c =? chr "b" then
        if is_one tag ["body"] then modify (fun p => with_text (pending_space p) (title p) [] p)
        else space_if (is_one tag ["blockquote"; "br"])
      else if c =? chr "c" then space_if (is_one tag ["center"])
      else if c =? chr "d" then space_if (is_one tag ["dd"; "dir"; "div"; "dl"; "dt"])
      else if c =? chr "e" then space_if (is_one tag ["embed"])
      else if c =? chr "f" then space_if (is_one tag ["fieldset"; "form"])
      else if c =? chr "h" then space_if (is_heading tag)
      else if c =? chr "i" then space_if (is_one tag ["iframe"; "img"; "isindex"; "input"])
      else if c =? chr "k" then space_if (is_one tag ["keygen"])
      else if c =? chr "l" then space_if (is_one tag ["legend"; "li"; "listing"])
      else if c =? chr "m" then
        if is_one tag ["meta"] then meta_tag
        else space_if (is_one tag ["marquee"; "menu"; "multicol"])
      else if c =? chr "o" then space_if (is_one tag ["ol"; "option"])
      else if c =? chr "p" then space_if (is_one tag ["p"; "pre"; "plaintext"])
      else if c =? chr "q" then space_if (is_one tag ["q"])
      else if c =? chr "s" then
        if is_one tag ["style"] then modify (set_style true)
        else if is_one tag ["script"] then modify (set_script true)
        else space_if (is_one tag ["select"])
      else if c =? chr "t" then space_if (is_one tag ["table"; "td"; "textarea"; "th"])
      else if c =? chr "u" then space_if (is_one tag ["ul"])
      else if c =? chr "x" then space_if (is_one tag ["xmp"])
      else mret tt
  end.

Definition My_closing_tag (tag : bytes) : stm MyHtmlParser unit :=
  match tag with
  | [] => mret tt
  | c :: _ =>
      if c =? chr "a" then space_if (is_one tag ["address"])
      else if c =? chr "b" then
        if is_one tag ["body"] then lift (Throw (thrown_bool true))
        else space_if (is_one tag ["blockquote"; "br"])
      else if c =? chr "c" then space_if (is_one tag ["center"])
      else if c =? chr "d" then space_if (is_one tag ["dd"; "dir"; "div"; "dl"; "dt"])
      else if c =? chr "f" then space_if (is_one tag ["fieldset"; "form"])
      else if c =? chr "h" then space_if (is_heading tag)
      else if c =? chr "i" then space_if (is_one tag ["iframe"])
      else if c =? chr "l" then space_if (is_one tag ["legend"; "li"; "listing"])
      else if c =? chr "m" then space_if (is_one tag ["marquee"; "menu"])
      else if c =? chr "o" then space_if (is_one tag ["ol"; "option"])
      else if c =? chr "p" then space_if (is_one tag ["p"; "pre"])
      else if c =? chr "q" then space_if (is_one tag ["q"])
      else if c =? chr "s" then
        if is_one tag ["style"] then modify (set_style false)
        else if is_one tag ["script"] then modify (set_script false)
        else space_if (is_one tag ["select"])
      else if c =? chr "t" then
        if is_one tag ["title"] then
          modify (fun p => if bool_decide (title p = []) then with_text (pending_space p) (dump p) (title p) p else p)
        else space_if (is_one tag ["table"; "td"; "textarea"; "th"])
      else if c =? chr "u" then space_if (is_one tag ["ul"])
      else if c =? chr "x" then space_if (is_one tag ["xmp"])
      else mret tt
  end.

#[export] Instance MyHtmlParser_handler : HtmlHandler MyHtmlParser := {|
  base := html;
  set_base := with_html;
  process_text := My_process_text;
  opening_tag := My_opening_tag;
  closing_tag := My_closing_tag;
|}.

Definition MyHtmlParser_parse_html (text charset_ : bytes) (charset_from_meta_ : bool) : stm MyHtmlParser unit :=
  on_base (with_charset charset_) ;;
  modify (fun p => with_flags (in_script_tag p) (in_style_tag p) (indexing_allowed p) charset_from_meta_ p) ;;
  HtmlParser_parse_html text.

End handler.

(** * [DefaultIndexData] *)

(** [icu::Transliterator] "Lower; NFD; [:M:] remove; NFC". *)
Class Icu : Type := { transliterate : bytes -> bytes }.

(** The text goes through [c_str]. *)
Definition removeAccents `{Icu} (text : bytes) : bytes :=
  transliterate (slice text 0 (index_of (Z.eqb 0) text)).

Record DefaultIndexData : Type := mkIndexData {
  htmlParser : MyHtmlParser;
  index_title : bytes;
}.

Section index_data.
Context `{OS} `{XapianUnicode} `{Icu}.

(** The values of the uninitialised floats, and of [in_script] before the parsing. *)
Variable garbage : float.
Variable garbage_bool : bool.

Definition DefaultIndexData_new (htmlData title : bytes) : outcome DefaultIndexData :=
  let '(r, p) := catching (MyHtmlParser_parse_html garbage htmlData (lit "UTF-8") true) (fun _ => true) (fun _ => mret tt)
                   (MyHtmlParser_new garbage_bool) in
  _ ← r;
  mret (mkIndexData p title).

Definition hasIndexData (d : DefaultIndexData) : bool := negb (contains (lit "NOINDEX") (dump (htmlParser d))).
Definition index_getTitle (d : DefaultIndexData) : bytes := removeAccents (index_title d).
Definition index_getContent (d : DefaultIndexData) : bytes := removeAccents (dump (htmlParser d)).
Definition index_getKeywords (d : DefaultIndexData) : bytes := removeAccents (keywords (htmlParser d)).
Definition getWordCount (d : DefaultIndexData) : outcome Z := countWords (dump (htmlParser d)).
Definition getGeoPosition (d : DefaultIndexData) : bool * float * float :=
  if has_geoPosition (htmlParser d) then (true, latitude (htmlParser d), longitude (htmlParser d))
  else (false, S754_zero false, S754_zero false).

(** The content of the item, blob by blob up to an empty one. *)
Fixpoint read_all (fuel : nat) (provider : ContentProvider) (ss : bytes) : outcome bytes :=
  match fuel with
  | O => Diverge
  | S fuel =>
      '(blob, provider) ← feed provider;
      match blob with [] => mret ss | _ => read_all fuel provider (ss ++ blob) end
  end.

Definition Item_getIndexData (item : WItem) : outcome DefaultIndexData :=
  provider ← getContentProvider item;
  data ← read_all (provider_fuel provider) provider [];
  DefaultIndexData_new data (getTitle item).

Definition StringItem_getIndexData (content title : bytes) : outcome DefaultIndexData :=
  DefaultIndexData_new content title.

End index_data.
