(* ===== verification/HtmlProps.v ===== *)
(** What the HTML parser promises: a page is cut into the pieces it was put together
    from, the spaces of its text do not depend on how it is cut, and no page
    makes the parser read outside of it or run for ever. *)

From Stdlib Require Import Ascii SpecFloat.
From stdpp Require Import gmap strings.
From S2P Require Import Prelude.
From S2P Require Import Tools.
From S2P Require Import Html.
From S2P Require Import Entities.
From S2P Require Import MyHtml.

#[local] Opaque named_ents.

(** * The text of a page

    The words of the text, with one space between them: a blank makes the next
    word wait for a space, which comes only after another word. *)

Definition squash (s : bool * bytes) (c : Z) : bool * bytes :=
  let '(pending, d) := s in
  if in_WHITESPACE c then (true, d)
  else (false, (if pending && negb (bool_decide (d = [])) then d ++ [32] else d) ++ [c]).

(** No string is longer. *)
Definition string_ok (s : bytes) : Prop := Zlen s < npos.

Lemma find_char_cursor f s p l :
  cursor s p l -> find_char f s p = match (span f l).2 with [] => npos | _ => p + Zlen (span f l).1 end.
Proof.
  intros H. unfold find_char. destruct (cursor_bounds _ _ _ H) as [? Hb]. pose proof (Zlen_nonneg l). decide_bool.
  rewrite (cursor_drop _ _ _ H), span_index. destruct (find_if_at f s p l H) as [_ Hc].
  destruct (span f l) as [a r]. cbn [fst snd] in *. destruct r as [|c r].
  - by rewrite (proj1 (cursor_end _ _ Hc)).
  - by rewrite (proj1 (cursor_more _ _ _ _ Hc)).
Qed.

Lemma squash_word a pending d :
  a <> [] -> Forall (fun c => in_WHITESPACE c = false) a ->
  fold_left squash a (pending, d) = (false, (if pending && negb (bool_decide (d = [])) then d ++ [32] else d) ++ a).
Proof.
  intros Hne Ha. destruct Ha as [|c a Hc Ha]; [done|]. cbn [fold_left squash]. rewrite Hc.
  set (d' := if _ && _ then _ else _). clearbody d'. clear Hne. revert c Hc d'.
  induction Ha as [|x a Hx Ha IH]; intros c Hc d'; [done|]. cbn [fold_left squash]. rewrite Hx. cbn [andb].
  rewrite (IH x Hx). by rewrite <- app_assoc.
Qed.

Lemma squash_blanks a pending d :
  Forall (fun c => in_WHITESPACE c = true) a -> fold_left squash a (pending, d) = (match a with [] => pending | _ => true end, d).
Proof.
  intros Ha. destruct Ha as [|c a Hc Ha]; [done|]. cbn [fold_left squash]. rewrite Hc. clear c Hc.
  induction Ha as [|c a Hc Ha IH]; [done|]. cbn [fold_left squash]. by rewrite Hc.
Qed.

(** From a word at [b] on. *)
Lemma words_loop_ok fuel text pending d b c l :
  string_ok text -> cursor text b (c :: l) -> in_WHITESPACE c = false -> (length l < fuel)%nat ->
  words_loop fuel text pending d b = Ok (fold_left squash (c :: l) (pending, d)).
Proof.
  intros Htext. revert pending d b c l. induction fuel as [|fuel IH]; intros pending d b c l Hcur Hc Hfuel; [lia|]. cbn [words_loop].
  destruct (cursor_bounds _ _ _ Hcur) as [Hb0 Hb]. pose proof (Zlen_nonneg l). unfold string_ok in Htext.
  assert (Hbe : (b =? npos) = false) by (apply Z.eqb_neq; rewrite Zlen_cons in Hb; lia). rewrite Hbe. rewrite (find_char_cursor _ _ _ _ Hcur).
  destruct (find_if_at in_WHITESPACE _ _ _ Hcur) as [_ He]. pose proof (span_before in_WHITESPACE (c :: l)) as Hw.
  pose proof (span_app in_WHITESPACE (c :: l)) as El. pose proof (span_stops in_WHITESPACE (c :: l)) as Hs.
  assert (Hne : (span in_WHITESPACE (c :: l)).1 <> []).
  { cbn [span]. rewrite Hc. by destruct (span in_WHITESPACE l). }
  destruct (span in_WHITESPACE (c :: l)) as [w r]. cbn [fst snd] in *. destruct r as [|x r].
  { rewrite Z.eqb_refl. rewrite app_nil_r in El. rewrite El. rewrite (squash_word w) by assumption. cbn [mret outcome_ret]. do 3 f_equal.
    rewrite <- El. destruct Hcur as (pre & -> & ->). rewrite Zlen_app. replace (Zlen pre + Zlen (c :: l) - Zlen pre) with (Zlen (c :: l)) by lia.
    rewrite <- (app_nil_r (c :: l)) at 1. by rewrite slice_app_mid. }
  assert (Hee : (b + Zlen w =? npos) = false).
  { destruct (cursor_bounds _ _ _ He) as [_ Hb']. rewrite Zlen_cons in Hb'. pose proof (Zlen_nonneg r). apply Z.eqb_neq. lia. }
  rewrite Hee. replace (slice text b (b + Zlen w - b)) with w.
  2: { replace (b + Zlen w - b) with (Zlen w) by lia. destruct Hcur as (pre & -> & ->). rewrite El. by rewrite slice_app_mid. }
  pose proof (cursor_next _ _ _ _ He) as Hn. rewrite (find_char_cursor _ _ _ _ Hn).
  destruct (find_if_at (fun c => negb (in_WHITESPACE c)) _ _ _ Hn) as [_ Hn2].
  pose proof (span_before (fun c => negb (in_WHITESPACE c)) r) as Hbl.
  pose proof (span_app (fun c => negb (in_WHITESPACE c)) r) as Er. pose proof (span_stops (fun c => negb (in_WHITESPACE c)) r) as Hs2.
  destruct (span _ r) as [bl r2]. cbn [fst snd] in *. cbn in Hs.
  rewrite El, fold_left_app. rewrite (squash_word w) by assumption. change (x :: r) with ([x] ++ r). rewrite Er, app_assoc, fold_left_app.
  rewrite squash_blanks.
  2: { constructor; [done|]. eapply Forall_impl; [exact Hbl|]. intros y Hy. by apply negb_false_iff in Hy. }
  cbn [app]. destruct r2 as [|y r2]; [by destruct fuel|].
  apply IH; [done|by apply negb_true_iff in Hs2|].
  apply (f_equal length) in El, Er. rewrite length_app in El, Er. cbn [length] in *. lia.
Qed.

Lemma process_text_ok t p :
  string_ok t -> in_script_tag p = false -> in_style_tag p = false ->
  My_process_text t p = let '(pending, d) := fold_left squash t (pending_space p, dump p) in (Ok tt, with_text pending (title p) d p).
Proof.
  intros Ht Hsc Hst. unfold My_process_text. rewrite stm_gets. unfold id. rewrite Hsc, Hst.
  destruct t as [|c t]; [by destruct p|]. cbn [negb andb]. rewrite bool_decide_eq_false_2 by done. cbn [negb].
  pose proof (cursor_start (c :: t)) as Hcur. rewrite (find_char_cursor _ _ _ _ Hcur). set (g := fun c => negb (in_WHITESPACE c)).
  destruct (find_if_at g _ _ _ Hcur) as [_ Hb]. pose proof (span_before g (c :: t)) as Hbl. pose proof (span_app g (c :: t)) as Et.
  pose proof (span_stops g (c :: t)) as Hs. destruct (span g (c :: t)) as [bl r]. cbn [fst snd] in *. rewrite Et, fold_left_app.
  rewrite squash_blanks by (eapply Forall_impl; [exact Hbl|]; intros y Hy; by apply negb_false_iff in Hy).
  destruct r as [|y r].
  - rewrite app_nil_r in Et. subst bl. by destruct (length (c :: t)).
  - rewrite Z.add_0_l. rewrite (words_loop_ok _ _ _ _ _ y r).
    + cbn [lift mbind outcome_bind]. replace (negb (Zlen bl =? 0) || pending_space p) with (match bl with [] => pending_space p | _ => true end).
      * unfold mbind, stm_bind, lift. destruct (fold_left squash (y :: r) _) as [pe d]. done.
      * destruct bl as [|z bl]; [done|]. rewrite Zlen_cons. pose proof (Zlen_nonneg bl). rewrite (proj2 (Z.eqb_neq _ _)) by lia. done.
    + by rewrite <- Et.
    + by rewrite <- Et.
    + unfold g in Hs. cbn in Hs. by apply negb_true_iff in Hs.
    + rewrite length_app. simpl. lia.
Qed.

(** * Every page is parsed

    The parser never reads outside of the page and comes to its end, or throws
    what a virtual function throws. *)

Definition defined {A} (r : outcome A) : Prop := match r with Ok _ | Throw _ => True | _ => False end.

(** The references in the values of the parameters are those of characters. *)
Definition params_ok (ps : gmap bytes bytes) : Prop := map_Forall (fun _ v => refs_ok v) ps.

(** What the parser asks of the virtual functions: they leave the base object as it
    is, and their calls are defined. *)
Class HtmlHandlerSpec (S : Type) `{HtmlHandler S} : Prop := {
  base_set h s : base (set_base h s) = h;
  process_text_base t s : base (process_text t s).2 = base s;
  opening_tag_base t s : base (opening_tag t s).2 = base s;
  closing_tag_base t s : base (closing_tag t s).2 = base s;
  process_text_defined t s : string_ok t -> defined (process_text t s).1;
  opening_tag_defined t s : params_ok (parameters (base s)) -> defined (opening_tag t s).1;
  closing_tag_defined t s : defined (closing_tag t s).1;
}.

Lemma find_range f s p :
  0 <= p <= Zlen s -> exists a r,
    find_if f s p = Ok (p + Zlen a) /\ cursor s p (a ++ r) /\ Forall (fun c => f c = false) a /\ stops f r /\
    0 <= Zlen a /\ p + Zlen a + Zlen r = Zlen s.
Proof.
  intros Hp. pose proof (cursor_at s p Hp) as Hc. destruct (find_if_at f s p _ Hc) as [E He].
  exists (span f (drop (Z.to_nat p) s)).1, (span f (drop (Z.to_nat p) s)).2. rewrite <- span_app.
  split_and!; [done|done|apply span_before|apply span_stops|apply Zlen_nonneg|]. by destruct (cursor_bounds _ _ _ He).
Qed.

Lemma deref_range s p : 0 <= p <= Zlen s -> exists c, deref s p = Ok c.
Proof. intros Hp. pose proof (cursor_at s p Hp) as Hc. by rewrite (deref_head _ _ _ Hc); eexists. Qed.

Lemma substring_range s a b : 0 <= a -> a <= b -> b <= Zlen s -> exists t, substring s a b = Ok t.
Proof. intros. unfold substring. decide_bool. by eexists. Qed.

Lemma find_char_range f s pos : 0 <= pos -> find_char f s pos = npos \/ pos <= find_char f s pos < Zlen s.
Proof.
  intros Hp. unfold find_char. destruct (Z.ltb_spec (Zlen s) pos); [by left|].
  destruct (find_range f s pos ltac:(lia)) as (a & r & E & _ & _ & _ & Ha & Hlen). unfold find_if in E.
  rewrite (proj2 (Z.leb_le _ _)), (proj2 (Z.leb_le _ _)) in E by lia. cbn in E. injection E as ->.
  pose proof (Zlen_nonneg r). destruct (Z.eqb_spec (pos + Zlen a) (Zlen s)); [by left|right; lia].
Qed.

Lemma starts_with_length p s : starts_with p s = true -> Zlen p <= Zlen s.
Proof.
  unfold starts_with. intros E%bool_decide_eq_true. apply (f_equal length) in E. rewrite length_take in E. unfold Zlen. lia.
Qed.

Lemma search_range pat l n : search pat l = Some n -> 0 <= n /\ n + Zlen pat <= Zlen l.
Proof.
  revert n. induction l as [|c l IH]; intros n; cbn [search].
  - destruct (starts_with pat []) eqn:E; [|done]. intros [= <-]. apply starts_with_length in E. lia.
  - destruct (starts_with pat (c :: l)) eqn:E.
    + intros [= <-]. apply starts_with_length in E. lia.
    + destruct (search pat l) as [m|]; [|done]. intros [= <-]. destruct (IH m eq_refl). rewrite Zlen_cons. lia.
Qed.

Lemma find_str_range pat s pos :
  0 <= pos -> find_str pat s pos = npos \/ pos <= find_str pat s pos /\ find_str pat s pos + Zlen pat <= Zlen s.
Proof.
  intros Hp. unfold find_str. destruct (Z.ltb_spec (Zlen s) pos); [by left|].
  destruct (search pat _) as [n|] eqn:E; [|by left]. right. apply search_range in E as [? E]. rewrite Zlen_drop in E by lia. lia.
Qed.

Lemma cursor_refs_ok s p l : cursor s p l -> refs_ok s -> refs_ok l.
Proof. intros (pre & -> & _). apply refs_ok_app. Qed.

(** Reads at a known position of the text. *)
Ltac read_at s p := let c := fresh "c" in let E := fresh "E" in
  destruct (deref_range s p) as (c & E); [lia|]; rewrite E; clear E; cbn [mbind outcome_bind].
Ltac find_at f s p a r := let E := fresh "E" in
  destruct (find_range f s p) as (a & r & E & ?); [lia|]; destruct_and?; unfold find; rewrite E; clear E; cbn [mbind outcome_bind];
  pose proof (Zlen_nonneg r).
Ltac sub_at s a b := let t := fresh "t" in let E := fresh "E" in
  destruct (substring_range s a b) as (t & E); [lia|lia|lia|]; rewrite E; clear E; cbn [mbind outcome_bind].

(** A result is a position of the page at or after [start], or the end of the parsing. *)
Definition forward (s : bytes) (start : Z) (r : option Z) : Prop :=
  match r with Some p => start <= p <= Zlen s | None => True end.

Lemma xml_encoding_ok decl : exists r, xml_encoding decl = Ok r.
Proof.
  unfold xml_encoding. cbv zeta.
  destruct (find_str_range (lit "encoding") decl 0 ltac:(lia)) as [->|He]; [by eexists|]. change (Zlen (lit "encoding")) with 8 in He.
  set (enc := find_str _ decl 0) in *. destruct (enc =? npos); [by eexists|].
  match goal with |- context [find_char ?f decl (enc + 8)] => destruct (find_char_range f decl (enc + 8) ltac:(lia)) as [->|Hf]; [by eexists|] end.
  set (e2 := find_char _ decl (enc + 8)) in *. destruct ((e2 =? npos) || _); [by eexists|].
  read_at decl e2. destruct (negb _); [by eexists|].
  match goal with |- context [find_char ?f decl (e2 + 1)] => destruct (find_char_range f decl (e2 + 1) ltac:(lia)) as [->|Hf2]; [by eexists|] end.
  set (e3 := find_char _ decl (e2 + 1)) in *. destruct ((e3 =? npos) || _); [by eexists|].
  read_at decl e3. destruct (_ && _); by eexists.
Qed.

Lemma xml_declaration_ok body p : exists r, xml_declaration body p = Ok r.
Proof.
  unfold xml_declaration. destruct (Z.eqb_spec p 0) as [->|]; [|by eexists]. cbn [negb orb].
  destruct (Z.ltb_spec (Zlen body) 20); [by eexists|].
  read_at body (0 + 2). read_at body (0 + 3). read_at body (0 + 4). read_at body (0 + 5).
  destruct (_ || _ || _); [by eexists|]. destruct (negb _); [by eexists|].
  find_at (Z.eqb (chr "?")) body (0 + 6) a r. destruct (_ =? _); [by eexists|]. sub_at body (0 + 6) (0 + 6 + Zlen a).
  destruct (xml_encoding_ok t) as [x ->]. by eexists.
Qed.

Lemma comment_end_ok fuel body p :
  2 <= p <= Zlen body -> Zlen body - p <= Z.of_nat fuel -> exists q, comment_end fuel body p = Ok q /\ p <= q <= Zlen body.
Proof.
  revert p. induction fuel as [|fuel IH]; intros p Hp Hfuel; cbn [comment_end].
  all: destruct (Z.eqb_spec p (Zlen body)); [exists p; split; [done|lia]|]. { lia. }
  read_at body (p - 1). read_at body (p - 2). destruct (_ && _); [exists p; split; [done|lia]|].
  find_at (Z.eqb (chr ">")) body (p + 1) a r. destruct (IH (p + 1 + Zlen a)) as (q & -> & ?); [lia|lia|]. exists q. split; [done|lia].
Qed.

Lemma skip_declaration_ok body start :
  0 <= start < Zlen body -> exists r, skip_declaration body start = Ok r /\ forward body start r.
Proof.
  intros Hs. unfold skip_declaration. cbv zeta.
  destruct (Z.eqb_spec (start + 1) (Zlen body)); [by exists None|]. destruct (Z.eqb_spec (start + 1 + 1) (Zlen body)); [by exists None|].
  read_at body (start + 1 + 1 - 1). read_at body (start + 1 + 1). destruct (_ && _).
  - find_at (Z.eqb (chr ">")) body (start + 1 + 1 + 1) a r. set (close := start + 1 + 1 + 1 + Zlen a) in *.
    destruct (Z.eqb_spec close (Zlen body)); [by exists None|].
    destruct (comment_end_ok (length body) body close) as (p & -> & Hp); [lia|unfold Zlen; lia|]. cbn [mbind outcome_bind].
    destruct (Z.eqb_spec p (Zlen body)); cbn [negb]; [eexists; split; [done|cbn [forward]; lia]|].
    assert (Ht : exists t, (if p - (start + 1 + 1 + 1) =? 15 then substring body (start + 1 + 1 + 1) (p - 2) else mret []) = Ok t).
    { destruct (Z.eqb_spec (p - (start + 1 + 1 + 1)) 15); [apply substring_range; lia|by eexists]. }
    destruct Ht as [t ->]. cbn [mbind outcome_bind]. destruct (bool_decide _); [|eexists; split; [done|cbn [forward]; lia]].
    destruct (find_str_range (lit "<!--/htdig_noindex-->") body (p + 1) ltac:(lia)) as [->|Hi]; [by exists None|].
    change (Zlen (lit "<!--/htdig_noindex-->")) with 21 in Hi. destruct (_ =? npos); [by exists None|]. eexists. split; [done|cbn [forward]; lia].
  - find_at (Z.eqb (chr ">")) body (start + 1 + 1 - 1) a r. destruct (Z.eqb_spec (start + 1 + 1 - 1 + Zlen a) (Zlen body)); [by exists None|].
    eexists. split; [done|cbn [forward]; lia].
Qed.

Lemma php_end_ok fuel body p :
  1 <= p <= Zlen body -> Zlen body - p <= Z.of_nat fuel -> exists q, php_end fuel body p = Ok q /\ p <= q <= Zlen body.
Proof.
  revert p. induction fuel as [|fuel IH]; intros p Hp Hfuel; cbn [php_end].
  all: destruct (Z.eqb_spec p (Zlen body)); [exists p; split; [done|lia]|]. { lia. }
  read_at body (p - 1). destruct (_ =? _); [exists p; split; [done|lia]|].
  find_at (Z.eqb (chr ">")) body (p + 1) a r. destruct (IH (p + 1 + Zlen a)) as (q & -> & ?); [lia|lia|]. exists q. split; [done|lia].
Qed.

Lemma skip_php_ok body start : 0 <= start < Zlen body -> exists r, skip_php body start = Ok r /\ forward body start r.
Proof.
  intros Hs. unfold skip_php. cbv zeta. destruct (Z.eqb_spec (start + 1) (Zlen body)); [by exists None|].
  find_at (Z.eqb (chr ">")) body (start + 1 + 1) a r.
  destruct (php_end_ok (length body) body (start + 1 + 1 + Zlen a)) as (q & -> & ?); [lia|unfold Zlen; lia|]. cbn [mbind outcome_bind].
  destruct (Z.eqb_spec q (Zlen body)); eexists; (split; [done|cbn [forward]; lia]).
Qed.

(** ** Parameters *)

Lemma whitespacegt_stops c : p_whitespacegt c = true -> not_in_reference c = true.
Proof.
  unfold p_whitespacegt, is_space. intros Hc. assert (Hv : c = 32 \/ 9 <= c <= 13 \/ c = 62).
  { apply orb_true_iff in Hc as [Hc|Hc%Z.eqb_eq]; [|by right; right].
    apply orb_true_iff in Hc as [Hc%Z.eqb_eq|Hc]; [by left|]. bool_to_prop. lia. }
  assert (c ∈ [32; 9; 10; 11; 12; 13; 62]) as Hin by (rewrite !elem_of_cons; lia).
  assert (Forall (fun c => not_in_reference c = true) [32; 9; 10; 11; 12; 13; 62]) as Hall by by repeat constructor.
  rewrite Forall_forall in Hall. by apply Hall.
Qed.

Lemma read_value_ok body start :
  refs_ok body -> 0 <= start < Zlen body ->
  exists v p, read_value body start = Ok (v, p) /\ refs_ok v /\ start < p <= Zlen body.
Proof.
  intros Hrefs Hs. unfold read_value. cbv zeta. find_at p_notwhitespace body (start + 1) a r. set (p1 := start + 1 + Zlen a) in *.
  destruct (deref_range body p1 ltac:(lia)) as (quote & Eq). rewrite Eq. cbn [mbind outcome_bind].
  set (isq := (quote =? 34) || (quote =? 39)).
  assert (Hq : exists st p, (if isq then p ← find_if (Z.eqb quote) body (p1 + 1); mret (p1 + 1, p) else mret (p1, Zlen body)) = Ok (st, p) /\
    p1 <= st <= p /\ p <= Zlen body /\ (p = Zlen body \/ exists v u, cursor body st (v ++ u) /\ p = st + Zlen v /\ stops not_in_reference u)).
  { destruct isq eqn:Ei; [|exists p1, (Zlen body); split_and!; [done|lia..|by left]].
    assert (Hp1 : p1 < Zlen body).
    { destruct (Z.eq_dec p1 (Zlen body)) as [E|]; [|lia]. unfold deref in Eq. rewrite E, Z.eqb_refl in Eq.
      injection Eq as <-. unfold isq in Ei. discriminate. }
    find_at (Z.eqb quote) body (p1 + 1) b u. eexists _, _. split; [done|]. split; [lia|]. split; [lia|]. right. exists b, u. split_and!; [done|done|].
    eapply stops_weaken; [|done]. intros x <-%Z.eqb_eq. unfold isq in Ei. by apply orb_true_iff in Ei as [->%Z.eqb_eq| ->%Z.eqb_eq]. }
  destruct Hq as (st & p & -> & Hst & Hp & Hv). cbn [mbind outcome_bind].
  assert (Hval : exists v u, (if p =? Zlen body then find_if p_whitespacegt body st else mret p) = Ok (st + Zlen v) /\
    cursor body st (v ++ u) /\ stops not_in_reference u).
  { destruct (Z.eqb_spec p (Zlen body)) as [->|Hne].
    - find_at p_whitespacegt body st b u. exists b, u. split_and!; [done|done|]. eapply stops_weaken; [apply whitespacegt_stops|done].
    - destruct Hv as [->|(v & u & Hc & -> & Hu)]; [done|]. by exists v, u. }
  destruct Hval as (v & u & -> & Hc & Hu). cbn [mbind outcome_bind]. rewrite (substring_cursor _ _ _ _ Hc). cbn [mbind outcome_bind].
  destruct (cursor_bounds _ _ _ Hc) as [? Hb]. rewrite Zlen_app in Hb. pose proof (Zlen_nonneg u). pose proof (Zlen_nonneg v).
  find_at p_notwhitespace body (st + Zlen v) w x. exists v, (st + Zlen v + Zlen w). split; [done|]. split; [|lia].
  eapply refs_ok_cut; [exact Hu|]. by eapply cursor_refs_ok.
Qed.

Lemma read_parameters_ok fuel body params start :
  refs_ok body -> params_ok params -> 0 <= start <= Zlen body -> Zlen body - start <= Z.of_nat fuel ->
  exists ps p, read_parameters fuel body params start = Ok (ps, p) /\ params_ok ps /\ start <= p <= Zlen body.
Proof.
  intros Hrefs. revert params start. induction fuel as [|fuel IH]; intros params start Hps Hs Hfuel; cbn [read_parameters].
  all: destruct (deref_range body start Hs) as (c & Ec); rewrite Ec; cbn [mbind outcome_bind].
  all: destruct (Z.ltb_spec start (Zlen body)); cbn [andb]; [|exists params, start; split_and!; [done|done|lia..]].
  { lia. }
  destruct (Z.eqb_spec c (chr ">")) as [|Hgt]; cbn [negb]; [exists params, start; split_and!; [done|done|lia..]|].
  find_at p_whitespaceeqgt body start a r. sub_at body start (start + Zlen a). find_at p_notwhitespace body (start + Zlen a) b u.
  set (p := start + Zlen a + Zlen b) in *. destruct (deref_range body p ltac:(lia)) as (c' & Ec'). rewrite Ec'. cbn [mbind outcome_bind].
  destruct (negb (p =? Zlen body) && (c' =? chr "=")) eqn:Eeq.
  - apply andb_true_iff in Eeq as [Hne _]. apply negb_true_iff, Z.eqb_neq in Hne.
    destruct (read_value_ok body p Hrefs ltac:(lia)) as (v & q & -> & Hv & Hq). cbn [mbind outcome_bind].
    destruct (IH (if bool_decide (lowercase_string t = []) then params
                  else match params !! lowercase_string t with Some _ => params | None => <[lowercase_string t := v]> params end) q)
      as (ps & e & -> & Hps' & He); [|lia|lia|exists ps, e; split_and!; [done|done|lia..]].
    destruct (bool_decide _); [done|]. destruct (params !! _); [done|]. by apply map_Forall_insert_2.
  - assert (Hprog : start < p).
    { destruct (Z.eq_dec (Zlen a) 0) as [Ha|]; [|lia]. destruct (Z.eq_dec (Zlen b) 0) as [Hb|]; [|lia]. exfalso.
      apply Zlen_nil_inv in Ha as ->, Hb as ->. replace p with start in * by (unfold p; rewrite !Zlen_nil; lia).
      assert (c' = c) as -> by congruence. rewrite (proj2 (Z.eqb_neq start (Zlen body))) in Eeq by lia. cbn [negb andb] in Eeq.
      match goal with H : cursor body start ([] ++ r) |- _ => pose proof (deref_head _ _ _ H) as Ehd end.
      rewrite Ec in Ehd. injection Ehd as ->. destruct r as [|x r]; [rewrite Zlen_nil in *; lia|].
      match goal with H : cursor body (start + Zlen []) ([] ++ u) |- _ => rewrite Zlen_nil, Z.add_0_r in H; pose proof (deref_head _ _ _ H) as Ehd end.
      rewrite Ec in Ehd. injection Ehd as Ehd. cbn [hd app] in *. destruct u as [|y u]; [rewrite Zlen_nil in *; lia|]. cbn [hd] in Ehd. subst y.
      cbn [stops] in *. unfold p_whitespaceeqgt, p_notwhitespace in *. rewrite Eeq in *. rewrite (proj2 (Z.eqb_neq _ _) Hgt) in *.
      destruct (is_space x); discriminate. }
    destruct (IH params p) as (ps & e & -> & Hps' & He); [done|lia|lia|]. exists ps, e. split_and!; [done|done|lia..].
Qed.

(** ** Calls *)

(** The length of the text of a page is that of a string, even if each of its bytes
    becomes a character of four. *)
Definition page_ok (body : bytes) : Prop := Zlen body < 2 ^ 62.

Lemma decoded_length l : Zlen (decoded l) <= 4 * Zlen l.
Proof.
  remember (length l) as n eqn:En. revert l En. induction (lt_wf n) as [n _ IH]. intros [|c l] ->; [done|].
  assert (Hu : forall v, Zlen (utf8 v) <= 4) by (intros v; unfold utf8; by repeat destruct (_ <? _)).
  rewrite decoded_cons, Zlen_cons. pose proof (IH (length l) ltac:(simpl; lia) l eq_refl) as Hl.
  pose proof (reference_length l) as Hr. pose proof (IH (length (reference l).2) ltac:(simpl; lia) _ eq_refl) as Hl2.
  specialize (Hu (reference l).1). destruct (is_amp c); [destruct (_ =? 0)|]; rewrite ?Zlen_cons, ?Zlen_app; unfold Zlen in *; lia.
Qed.

Lemma string_ok_decoded t : Zlen t < 2 ^ 62 -> refs_ok t -> string_ok (decoded t).
Proof. intros Ht _. unfold string_ok, npos. pose proof (decoded_length t). lia. Qed.

Section safe.
Context `{XapianUnicodeSpec} {S : Type} `{HtmlHandlerSpec S}.

Definition safe {A} (m : stm S A) (Q : A -> Prop) : Prop := forall s, params_ok (parameters (base s)) ->
  match m s with
  | (Ok a, s') => Q a /\ params_ok (parameters (base s'))
  | (Throw _, _) => True
  | _ => False
  end.

Lemma safe_bind {A B} (m : stm S A) (k : A -> stm S B) Q R :
  safe m Q -> (forall a, Q a -> safe (k a) R) -> safe (m ≫= k) R.
Proof.
  intros Hm Hk s Hs. specialize (Hm s Hs). unfold mbind, stm_bind. destruct (m s) as [[a|e| |] s']; [|done..].
  destruct Hm as [Ha Hs']. exact (Hk a Ha s' Hs').
Qed.

Lemma safe_ret {A} (a : A) (Q : A -> Prop) : Q a -> safe (mret a) Q.
Proof. by intros Ha s Hs. Qed.

Lemma safe_lift {A} (m : outcome A) a (Q : A -> Prop) : m = Ok a -> Q a -> safe (lift m) Q.
Proof. intros -> Ha s Hs. done. Qed.

Lemma safe_lift_bind {A B} (m : outcome A) a (k : A -> stm S B) R : m = Ok a -> safe (k a) R -> safe (lift m ≫= k) R.
Proof. intros -> Hk. exact Hk. Qed.

Lemma safe_gets {A B} (g : S -> A) (k : A -> stm S B) R :
  (forall s, params_ok (parameters (base s)) -> safe (k (g s)) R) -> safe (gets g ≫= k) R.
Proof. intros Hk s Hs. exact (Hk s Hs s Hs). Qed.

Lemma safe_on_base f (Q : unit -> Prop) : (forall h, params_ok (parameters h) -> params_ok (parameters (f h))) -> Q tt -> safe (on_base f) Q.
Proof. intros Hf HQ s Hs. cbn. rewrite base_set. split; [done|]. by apply Hf. Qed.

Lemma safe_call (m : stm S unit) : (forall s, base (m s).2 = base s) -> (forall s, params_ok (parameters (base s)) -> defined (m s).1) -> safe m (fun _ => True).
Proof.
  intros Hb Hd s Hs. specialize (Hb s). specialize (Hd s Hs). destruct (m s) as [[u|e| |] s']; cbn in *; [|done..].
  split; [done|]. by rewrite Hb.
Qed.

Lemma find_tag_safe fuel body p :
  0 <= p <= Zlen body -> Zlen body - p <= Z.of_nat fuel ->
  safe (find_tag fuel body p) (fun q => p <= q <= Zlen body /\ stops (Z.eqb (chr "<")) (drop (Z.to_nat q) body)).
Proof.
  revert p. induction fuel as [|fuel IH]; intros p Hp Hfuel; cbn [find_tag].
  all: destruct (find_range (Z.eqb (chr "<")) body p Hp) as (a & r & E & Hc & _ & Hr & Ha & Hlen).
  all: eapply safe_lift_bind; [exact E|]; pose proof (Zlen_nonneg r); set (q := p + Zlen a) in *.
  all: assert (Hq : p <= q <= Zlen body /\ stops (Z.eqb (chr "<")) (drop (Z.to_nat q) body))
    by (split; [lia|]; by rewrite (cursor_drop body q r (cursor_skip _ _ _ _ Hc))).
  all: destruct (Z.eqb_spec q (Zlen body)); [by apply safe_ret|].
  { lia. }
  destruct (deref_range body (q + 1) ltac:(lia)) as (ch & Ech). eapply safe_lift_bind; [exact Ech|].
  apply safe_gets. intros s Hs. destruct (_ || _); [by apply safe_ret|]. destruct (ch =? chr "?").
  - destruct (xml_declaration_ok body q) as (x & Ex). eapply safe_lift_bind; [exact Ex|].
    eapply safe_bind with (Q := fun _ => True); [|intros _ _; by apply safe_ret].
    destruct x; [by apply safe_on_base|by apply safe_ret].
  - intros s' Hs'. specialize (IH (q + 1) ltac:(lia) ltac:(lia) s' Hs'). destruct (find_tag _ _ _ s') as [[x|e| |] s2]; [|done..].
    destruct IH as [[? ?] ?]. split; [|done]. split; [lia|done].
Qed.

Lemma parse_tag_safe body start :
  refs_ok body -> 0 <= start < Zlen body -> safe (parse_tag body start) (forward body start).
Proof.
  intros Hrefs Hs. unfold parse_tag. destruct (deref_range body start ltac:(lia)) as (c & Ec). eapply safe_lift_bind; [exact Ec|].
  cbv zeta. eapply safe_bind with (Q := fun p => start <= p <= Zlen body).
  { destruct (c =? chr "/"); [|apply safe_ret; lia].
    destruct (find_range p_notwhitespace body (start + 1) ltac:(lia)) as (a & r & E & _ & _ & _ & Ha & Hlen). pose proof (Zlen_nonneg r).
    eapply safe_lift; [exact E|]. cbn. lia. }
  intros p Hp. destruct (find_range p_nottag body p ltac:(lia)) as (a & r & E & _ & _ & _ & Ha & Hlen). pose proof (Zlen_nonneg r).
  eapply safe_lift_bind; [exact E|]. destruct (substring_range body p (p + Zlen a)) as (t & Et); [lia..|].
  eapply safe_lift_bind; [exact Et|]. destruct (c =? chr "/").
  - eapply safe_bind; [apply safe_call; intros; [apply closing_tag_base|apply closing_tag_defined]|]. intros _ _.
    apply safe_gets. intros s Hsp. eapply safe_bind with (Q := fun _ => True).
    { destruct (_ && _); [by apply safe_on_base|by apply safe_ret]. }
    intros _ _. destruct (find_range (Z.eqb (chr ">")) body (p + Zlen a) ltac:(lia)) as (b & u & E2 & _ & _ & _ & Hb & Hlen2). pose proof (Zlen_nonneg u).
    eapply safe_lift_bind; [exact E2|]. destruct (Z.eqb_spec (p + Zlen a + Zlen b) (Zlen body)); apply safe_ret; [done|]. cbn [forward]. lia.
  - apply safe_gets. intros s Hsp. destruct (read_parameters_ok (length body) body (parameters (base s)) (p + Zlen a)) as (ps & q & Er & Hps & Hq);
      [done|done|lia|unfold Zlen; lia|].
    eapply safe_lift_bind; [exact Er|]. eapply safe_bind with (Q := fun _ => True); [by apply safe_on_base|]. intros _ _.
    eapply safe_bind; [apply safe_call; intros; [apply opening_tag_base|by apply opening_tag_defined]|]. intros _ _.
    eapply safe_bind with (Q := fun _ => True); [apply safe_on_base; [intros; apply map_Forall_empty|done]|]. intros _ _.
    eapply safe_bind with (Q := fun _ => True).
    { destruct (bool_decide _); [by apply safe_on_base|by apply safe_ret]. }
    intros _ _. destruct (deref_range body q ltac:(lia)) as (c2 & Ec2). eapply safe_lift_bind; [exact Ec2|]. apply safe_ret.
    destruct (Z.eqb_spec q (Zlen body)); cbn [negb andb forward]; [lia|]. destruct (c2 =? _); lia.
Qed.

Lemma parse_step_safe body start :
  page_ok body -> refs_ok body -> 0 <= start <= Zlen body ->
  safe (parse_step body start) (fun r => match r with Some p => start < p <= Zlen body | None => True end).
Proof.
  intros Hpage Hrefs Hs. unfold parse_step. eapply safe_bind; [apply find_tag_safe; [lia|unfold Zlen; lia]|].
  intros p [Hp Hstop]. cbv beta. eapply safe_bind with (Q := fun _ => True).
  { destruct (Z.ltb_spec start p); [|by apply safe_ret]. pose proof (cursor_at body start Hs) as Hc.
    assert (Hcut : drop (Z.to_nat start) body = slice body start (p - start) ++ drop (Z.to_nat p) body).
    { unfold slice. replace (Z.to_nat p) with (Z.to_nat start + Z.to_nat (p - start))%nat by lia. by rewrite <- drop_drop, take_drop. }
    rewrite Hcut in Hc. set (t := slice body start (p - start)) in *.
    assert (Hlen : Zlen t = p - start) by (unfold t; apply Zlen_slice; lia).
    eapply safe_lift_bind; [replace p with (start + Zlen t) by lia; by eapply substring_cursor|].
    assert (Ht : refs_ok t).
    { eapply refs_ok_cut; [|by eapply cursor_refs_ok]. eapply stops_weaken; [|exact Hstop]. by intros x <-%Z.eqb_eq. }
    eapply safe_lift_bind; [by apply decode_entities_ok|].
    apply safe_call; intros; [apply process_text_base|apply process_text_defined]. apply string_ok_decoded; [|done]. unfold page_ok in *. lia. }
  intros _ _. cbv zeta. destruct (Z.eqb_spec p (Zlen body)); [by apply safe_ret|].
  destruct (Z.eqb_spec (p + 1) (Zlen body)); [by apply safe_ret|]. cbn [orb]. unfold parse_markup.
  destruct (deref_range body (p + 1) ltac:(lia)) as (c & Ec). eapply safe_lift_bind; [exact Ec|].
  assert (Hfwd : forall r, forward body (p + 1) r -> match r with Some q => start < q <= Zlen body | None => True end).
  { intros [q|]; cbn [forward]; [lia|done]. }
  destruct (c =? chr "!"); [|destruct (c =? chr "?")].
  - destruct (skip_declaration_ok body (p + 1) ltac:(lia)) as (r & Er & Hr). eapply safe_lift; [exact Er|by apply Hfwd].
  - destruct (skip_php_ok body (p + 1) ltac:(lia)) as (r & Er & Hr). eapply safe_lift; [exact Er|by apply Hfwd].
  - intros s Hsp. pose proof (parse_tag_safe body (p + 1) Hrefs ltac:(lia) s Hsp) as Hx.
    destruct (parse_tag _ _ s) as [[r|e| |] s']; [|done..]. destruct Hx as [Hr ?]. split; [by apply Hfwd|done].
Qed.

Lemma parse_loop_safe fuel body start :
  page_ok body -> refs_ok body -> 0 <= start <= Zlen body -> Zlen body - start < Z.of_nat fuel ->
  safe (parse_loop fuel body start) (fun _ => True).
Proof.
  intros Hpage Hrefs. revert start. induction fuel as [|fuel IH]; intros start Hs Hfuel; [lia|]. cbn [parse_loop].
  eapply safe_bind; [by apply parse_step_safe|]. intros [p|] Hp; [|by apply safe_ret]. apply IH; lia.
Qed.

Lemma parse_html_safe body s : page_ok body -> refs_ok body -> defined (HtmlParser_parse_html body s).1.
Proof.
  intros Hpage Hrefs. set (h := with_parameters ∅ (with_in_script false (base s))).
  assert (E : exists s1, HtmlParser_parse_html body s = parse_loop (length body + 2) body 0 s1 /\ params_ok (parameters (base s1))).
  { eexists. split; [unfold HtmlParser_parse_html, on_base; rewrite !stm_modify; reflexivity|]. rewrite !base_set. apply map_Forall_empty. }
  destruct E as (s1 & -> & Hs1). pose proof (Zlen_nonneg body).
  pose proof (parse_loop_safe (length body + 2) body 0 Hpage Hrefs ltac:(lia) ltac:(unfold Zlen; lia) s1 Hs1) as Hx.
  by destruct (parse_loop _ _ _ _) as [[] ?].
Qed.

End safe.

(** ** [MyHtmlParser] *)

Lemma quoted_charset_ok fuel content e :
  0 <= e -> Zlen content - e <= Z.of_nat fuel -> exists c p, quoted_charset fuel content e = Ok (c, p).
Proof.
  revert content e. induction fuel as [|fuel IH]; intros content e He Hfuel; cbn [quoted_charset].
  all: destruct (Z.ltb_spec e (Zlen content)); [|by eexists _, _]. { lia. }
  read_at content e. destruct (c =? 34); [by eexists _, _|]. apply IH; [lia|]. destruct (c =? 92); [|lia].
  rewrite Zlen_app, Zlen_drop, Zlen_slice by lia. lia.
Qed.

Lemma content_charset_ok content : defined (content_charset content).
Proof.
  unfold content_charset. cbv zeta. destruct (find_str_range (lit "charset=") content 0 ltac:(lia)) as [->|Hs]; [done|].
  change (Zlen (lit "charset=")) with 8 in Hs. set (start := find_str _ content 0) in *. destruct (start =? npos); [done|].
  destruct (Z.eqb_spec (start + 8) (Zlen content)); [done|]. read_at content (start + 8). destruct (negb (c =? 34)).
  - match goal with |- context [find_if ?f content _] => find_at f content (start + 8) a r end. cbn [mbind outcome_bind mret outcome_ret].
    unfold throw_when. by destruct (_ <? _).
  - destruct (quoted_charset_ok (length content) content (start + 8 + 1)) as (c' & p & ->); [lia|unfold Zlen; lia|].
    cbn [mbind outcome_bind mret outcome_ret]. unfold throw_when. by destruct (_ <? _).
Qed.

Section my_html.
Context `{XapianUnicodeSpec}.
Variable garbage : float.

(** A call that keeps the base object, and is defined when [P] holds. *)
Definition quiet (P : Prop) (h : HtmlParser) {A} (m : stm MyHtmlParser A) : Prop := forall s, html s = h ->
  html (m s).2 = h /\ (P -> defined (m s).1).

Lemma quiet_ret P h {A} (a : A) : quiet P h (mret a).
Proof. by intros s Hs. Qed.
Lemma quiet_lift P h {A} (m : outcome A) : (P -> defined m) -> quiet P h (lift m).
Proof. by intros Hm s Hs. Qed.
Lemma quiet_modify P h f : (forall s, html (f s) = html s) -> quiet P h (modify f).
Proof. intros Hf s <-. by rewrite <- (Hf s). Qed.
Lemma quiet_bind P h {A B} (m : stm MyHtmlParser A) (k : A -> stm MyHtmlParser B) : quiet P h m -> (forall a, quiet P h (k a)) -> quiet P h (m ≫= k).
Proof.
  intros Hm Hk s Hs. destruct (Hm s Hs) as [Hb Hd]. unfold mbind, stm_bind. destruct (m s) as [[a|e| |] s']; [|done..]. by apply Hk.
Qed.
Lemma quiet_gets P h {A B} (g : MyHtmlParser -> A) (k : A -> stm MyHtmlParser B) :
  (forall s, html s = h -> quiet P h (k (g s))) -> quiet P h (gets g ≫= k).
Proof. intros Hk s Hs. exact (Hk s Hs s Hs). Qed.
Lemma quiet_if P h {A} (b : bool) (m1 m2 : stm MyHtmlParser A) : quiet P h m1 -> quiet P h m2 -> quiet P h (if b then m1 else m2).
Proof. by destruct b. Qed.
Lemma quiet_space P h b : quiet P h (space_if b).
Proof. apply quiet_if; [by apply quiet_modify|apply quiet_ret]. Qed.
Lemma quiet_throw P h {A} e : quiet P h (lift (Throw e) : stm MyHtmlParser A).
Proof. by apply quiet_lift. Qed.

Create HintDb quiet.
#[local] Hint Resolve quiet_ret quiet_space quiet_throw quiet_if : quiet.
#[local] Hint Extern 1 (quiet _ _ (modify _)) => (apply quiet_modify; intros []; done) : quiet.

Lemma quiet_decode P h v : (P -> refs_ok v) -> quiet P h (lift (decode_entities v)).
Proof. intros Hv. apply quiet_lift. intros ?%Hv. by rewrite decode_entities_ok. Qed.

Lemma quiet_named_meta P h name content : (P -> refs_ok content) -> quiet P h (named_meta garbage name content).
Proof.
  intros Hc. unfold named_meta. apply quiet_gets. intros s Hs. unfold id. repeat apply quiet_if; auto with quiet.
  - apply quiet_bind; [auto with quiet|]. intros _. apply quiet_bind; [by apply quiet_decode|]. auto with quiet.
  - apply quiet_bind; [auto with quiet|]. intros _. apply quiet_bind; [by apply quiet_decode|]. auto with quiet.
  - apply quiet_bind; [by apply quiet_decode|]. intros c. cbv zeta. apply quiet_if; [|apply quiet_ret]. apply quiet_bind; auto with quiet.
Qed.

Lemma quiet_meta h : quiet (params_ok (parameters h)) h (meta_tag garbage).
Proof.
  unfold meta_tag. apply quiet_gets. intros s Hs. unfold id, get_parameter. rewrite Hs.
  destruct (parameters h !! lit "content") as [content|] eqn:Ec.
  - destruct (parameters h !! lit "name") as [name|].
    { apply quiet_named_meta. intros Hp. exact (Hp _ _ Ec). }
    apply quiet_if; [apply quiet_ret|]. destruct (parameters h !! lit "http-equiv"); [|apply quiet_ret].
    apply quiet_if; [|apply quiet_ret]. apply quiet_bind; [apply quiet_lift; intros _; apply content_charset_ok|].
    intros [c|]; auto with quiet.
  - apply quiet_if; [apply quiet_ret|]. destruct (parameters h !! lit "charset"); cbv zeta; auto with quiet.
Qed.

Lemma quiet_opening h tag : quiet (params_ok (parameters h)) h (My_opening_tag garbage tag).
Proof. unfold My_opening_tag. destruct tag as [|c tag]; [apply quiet_ret|]. repeat apply quiet_if; auto using quiet_meta with quiet. Qed.

Lemma quiet_closing h tag : quiet True h (My_closing_tag tag).
Proof.
  unfold My_closing_tag. destruct tag as [|c tag]; [apply quiet_ret|]. repeat apply quiet_if; auto with quiet.
  apply quiet_modify. intros p. by destruct (bool_decide _).
Qed.

Lemma process_text_skipped t p : in_script_tag p || in_style_tag p = true -> My_process_text t p = (Ok tt, p).
Proof.
  intros Hp. unfold My_process_text. rewrite stm_gets. unfold id.
  destruct (in_script_tag p), (in_style_tag p); try done; by rewrite ?andb_false_r.
Qed.

#[export] Instance MyHtmlParser_spec : @HtmlHandlerSpec MyHtmlParser (MyHtmlParser_handler garbage).
Proof.
  split.
  - done.
  - intros t p. cbn [base process_text MyHtmlParser_handler]. unfold My_process_text. rewrite stm_gets. unfold id.
    destruct (_ && _); [|done]. unfold mbind, stm_bind, lift. by destruct (words_loop _ _ _ _ _) as [[]| | |].
  - intros t p. exact (proj1 (quiet_opening (html p) t p eq_refl)).
  - intros t p. exact (proj1 (quiet_closing (html p) t p eq_refl)).
  - intros t p Ht. cbn [process_text MyHtmlParser_handler]. destruct (in_script_tag p || in_style_tag p) eqn:Ep; [by rewrite process_text_skipped|].
    apply orb_false_iff in Ep as [? ?]. rewrite process_text_ok by done. by destruct (fold_left _ _ _).
  - intros t p Hp. exact (proj2 (quiet_opening (html p) t p eq_refl) Hp).
  - intros t p. exact (proj2 (quiet_closing (html p) t p eq_refl) I).
Qed.

End my_html.

(** * Pages put together from pieces *)

Inductive piece : Type :=
  | Text (t : bytes)
  | Open (tag : bytes) (attrs : list (bytes * bytes))
  | Close (tag : bytes)
  | Comment (c : bytes).

Definition render_attr (a : bytes * bytes) : bytes := 32 :: a.1 ++ chr "=" :: 39 :: a.2 ++ [39].
Definition render_attrs (attrs : list (bytes * bytes)) : bytes := concat (map render_attr attrs).

Definition render_piece (p : piece) : bytes :=
  match p with
  | Text t => escape t
  | Open tag attrs => chr "<" :: tag ++ render_attrs attrs ++ [chr ">"]
  | Close tag => chr "<" :: chr "/" :: tag ++ [chr ">"]
  | Comment c => lit "<!--" ++ c ++ lit "-->"
  end.
Definition render (doc : list piece) : bytes := concat (map render_piece doc).

Definition tag_ok (tag : bytes) : Prop :=
  Forall (fun c => p_nottag c = false) tag /\ isalpha (hd 0 tag) = true /\ lowercase_string tag <> lit "script".
Definition attr_ok (a : bytes * bytes) : Prop :=
  a.1 <> [] /\ Forall (fun c => p_whitespaceeqgt c = false) a.1 /\ Forall (fun c => (39 =? c) = false) a.2.

Definition is_text (p : piece) : bool := match p with Text _ => true | _ => false end.

Definition piece_ok (p : piece) : Prop :=
  match p with
  | Text t => t <> []
  | Open tag attrs => tag_ok tag /\ Forall attr_ok attrs
  | Close tag => tag_ok tag
  | Comment c => Forall (fun x => (chr ">" =? x) = false) c /\ c <> lit "htdig_noindex"
  end.

(** Two texts in a row would be one. *)
Fixpoint doc_ok (doc : list piece) : Prop :=
  match doc with
  | [] => True
  | p :: doc => piece_ok p /\ (is_text p = true -> match doc with q :: _ => is_text q = false | [] => True end) /\ doc_ok doc
  end.

(** The first of the parameters of a name counts. *)
Definition add_param (ps : gmap bytes bytes) (a : bytes * bytes) : gmap bytes bytes :=
  match ps !! lowercase_string a.1 with Some _ => ps | None => <[lowercase_string a.1 := a.2]> ps end.

Section render.
Context `{XapianUnicodeSpec} {S : Type} `{HtmlHandlerSpec S}.

(** The calls a piece stands for. *)
Definition run_piece (p : piece) : stm S unit :=
  match p with
  | Text t => process_text t
  | Open tag attrs =>
      on_base (with_parameters (fold_left add_param attrs ∅)) ;;
      opening_tag (lowercase_string tag) ;;
      on_base (with_parameters ∅)
  | Close tag => closing_tag (lowercase_string tag)
  | Comment _ => mret tt
  end.

Fixpoint run (doc : list piece) : stm S unit :=
  match doc with
  | [] => mret tt
  | p :: doc => run_piece p ;; run doc
  end.

(** ** Parameters *)

Lemma find_here f s p c l : cursor s p (c :: l) -> f c = true -> find_if f s p = Ok p.
Proof. intros Hc Hf. rewrite (find_stop f s p [] (c :: l)) by (done || by constructor). by rewrite Zlen_nil, Z.add_0_r. Qed.

Lemma attr_name n : attr_ok n -> exists c l, n.1 = c :: l /\ p_whitespaceeqgt c = false /\ (c =? chr ">") = false /\ (c =? chr "=") = false /\ is_space c = false.
Proof.
  intros (Hne & Hn & _). destruct n as [[|c l] v]; [done|]. exists c, l. inversion Hn as [|? ? Hc]; subst. split; [done|]. split; [done|].
  unfold p_whitespaceeqgt in Hc. apply orb_false_iff in Hc as [Hc ?]. by apply orb_false_iff in Hc as [? ?].
Qed.

(** The closing quote of a value, or nothing, and the blank before the next parameter. *)
Lemma params_blank fuel body params q j a l :
  attr_ok a -> j = [] \/ j = [39] -> cursor body q (j ++ 32 :: a.1 ++ l) ->
  read_parameters (Datatypes.S fuel) body params q = read_parameters fuel body params (q + Zlen j + 1).
Proof.
  intros Ha Hj Hc. destruct (attr_name a Ha) as (c & n & En & _ & _ & Heq & Hsp). cbn [read_parameters].
  assert (Hj2 : Forall (fun c => p_whitespaceeqgt c = false) j) by (destruct Hj as [->| ->]; by repeat constructor).
  assert (Hhd : exists x, deref body q = Ok x /\ (x =? chr ">") = false /\ (q <? Zlen body) = true).
  { rewrite (deref_head _ _ _ Hc). destruct Hj as [->| ->]; eexists; (split; [done|]); (split; [done|]); by apply (cursor_more _ _ _ _ Hc). }
  destruct Hhd as (x & -> & Hx & Hlt). cbn [mbind outcome_bind]. rewrite Hlt, Hx. cbn [negb andb].
  rewrite (find_stop _ _ _ _ _ Hc Hj2) by done. cbn [mbind outcome_bind]. rewrite (substring_cursor _ _ _ _ Hc). cbn [mbind outcome_bind].
  apply cursor_skip in Hc. rewrite (find_stop p_notwhitespace _ _ [32] (a.1 ++ l) Hc).
  2: by repeat constructor. 2: { rewrite En. simpl. unfold p_notwhitespace. by rewrite Hsp. }
  cbn [mbind outcome_bind]. change (Zlen [32]) with 1. apply cursor_next in Hc. rewrite En in Hc. cbn [app] in Hc.
  rewrite (deref_cons _ _ _ _ Hc). cbn [mbind outcome_bind]. by rewrite Heq, andb_false_r.
Qed.

(** A parameter, up to its closing quote. *)
Lemma params_attr fuel body params q a l :
  attr_ok a -> cursor body q (a.1 ++ chr "=" :: 39 :: a.2 ++ 39 :: l) ->
  read_parameters (Datatypes.S fuel) body params q = read_parameters fuel body (add_param params a) (q + Zlen a.1 + 2 + Zlen a.2).
Proof.
  intros Ha Hc. destruct (attr_name a Ha) as (c & n & En & _ & Hgt & _ & _). destruct Ha as (Hne & Hn & Hv). cbn [read_parameters].
  pose proof Hc as Hq. rewrite En in Hq. cbn [app] in Hq. rewrite (deref_cons _ _ _ _ Hq), (proj2 (cursor_more _ _ _ _ Hq)).
  cbn [mbind outcome_bind]. rewrite Hgt. cbn [negb andb].
  rewrite (find_stop _ _ _ _ _ Hc Hn) by done. cbn [mbind outcome_bind]. rewrite (substring_cursor _ _ _ _ Hc). cbn [mbind outcome_bind].
  apply cursor_skip in Hc. rewrite (find_here _ _ _ _ _ Hc) by done. cbn [mbind outcome_bind]. rewrite (deref_cons _ _ _ _ Hc).
  cbn [mbind outcome_bind]. rewrite (proj1 (cursor_more _ _ _ _ Hc)). change (chr "=" =? chr "=") with true. cbn [negb andb].
  assert (Hval : read_value body (q + Zlen a.1) = Ok (a.2, q + Zlen a.1 + 2 + Zlen a.2)).
  { unfold read_value. cbv zeta. apply cursor_next in Hc. rewrite (find_here _ _ _ _ _ Hc) by done. cbn [mbind outcome_bind].
    rewrite (deref_cons _ _ _ _ Hc). cbn [mbind outcome_bind]. change ((39 =? 34) || (39 =? 39)) with true. cbn iota.
    apply cursor_next in Hc. rewrite (find_stop _ _ _ _ _ Hc Hv) by done. cbn [mbind outcome_bind mret outcome_ret].
    pose proof (cursor_skip _ _ _ _ Hc) as He. rewrite (proj1 (cursor_more _ _ _ _ He)). cbn [mbind outcome_bind mret outcome_ret]. rewrite (substring_cursor _ _ _ _ Hc).
    cbn [mbind outcome_bind]. rewrite (find_here _ _ _ _ _ He) by done. cbn [mbind outcome_bind mret outcome_ret]. do 3 f_equal. lia. }
  rewrite Hval. cbn [mbind outcome_bind]. unfold add_param. rewrite bool_decide_eq_false_2; [done|]. rewrite En. done.
Qed.

Lemma params_rest fuel body params q attrs l :
  Forall attr_ok attrs -> cursor body q (39 :: render_attrs attrs ++ chr ">" :: l) -> (2 * length attrs < fuel)%nat ->
  read_parameters fuel body params q = Ok (fold_left add_param attrs params, q + 1 + Zlen (render_attrs attrs)).
Proof.
  intros Hok. revert fuel params q. induction Hok as [|a attrs Ha Hok IH]; intros fuel params q Hc Hfuel.
  - destruct fuel as [|fuel]; [simpl in Hfuel; lia|]. cbn [read_parameters]. rewrite (deref_cons _ _ _ _ Hc), (proj2 (cursor_more _ _ _ _ Hc)).
    cbn [mbind outcome_bind]. change (negb (39 =? chr ">")) with true. cbn [andb].
    rewrite (find_stop _ _ _ [39] _ Hc) by (done || by repeat constructor). cbn [mbind outcome_bind].
    rewrite (substring_cursor _ _ [39] _ Hc). cbn [mbind outcome_bind]. change (Zlen [39]) with 1. pose proof (cursor_next _ _ _ _ Hc) as Hg.
    cbn [app] in Hg. rewrite (find_here _ _ _ _ _ Hg) by done. cbn [mbind outcome_bind]. rewrite (deref_cons _ _ _ _ Hg). cbn [mbind outcome_bind].
    change (chr ">" =? chr "=") with false. rewrite andb_false_r. destruct fuel; cbn [read_parameters]; rewrite (deref_cons _ _ _ _ Hg); cbn [mbind outcome_bind];
      change (negb (chr ">" =? chr ">")) with false; rewrite andb_false_r; cbn [render_attrs map concat fold_left]; by rewrite Zlen_nil, Z.add_0_r.
  - destruct fuel as [|[|fuel]]; [simpl in Hfuel; lia..|]. change (render_attrs (a :: attrs)) with (render_attr a ++ render_attrs attrs) in *.
    unfold render_attr in *. rewrite <- !app_assoc in Hc. cbn [app] in Hc. rewrite <- !app_assoc in Hc. cbn [app] in Hc.
    rewrite (params_blank _ _ _ _ [39] a (chr "=" :: 39 :: a.2 ++ 39 :: render_attrs attrs ++ chr ">" :: l)); [|done|by right|].
    2: { cbn [app]. rewrite <- !app_assoc in Hc. exact Hc. }
    change (39 :: 32 :: ?x) with ([39; 32] ++ x) in Hc. apply cursor_skip in Hc. change (Zlen [39; 32]) with 2 in Hc. change (Zlen [39]) with 1.
    replace (q + 1 + 1) with (q + 2) by lia. rewrite <- !app_assoc in Hc. rewrite (params_attr _ _ _ _ a _ Ha Hc).
    rewrite IH; [|change (a.1 ++ chr "=" :: 39 :: a.2 ++ [39] ++ ?x) with (a.1 ++ (chr "=" :: 39 :: a.2 ++ [39] ++ x)) in Hc; apply cursor_skip in Hc;
                  do 2 apply cursor_next in Hc; apply cursor_skip in Hc; by replace (q + 2 + Zlen a.1 + 2 + Zlen a.2) with (q + 2 + Zlen a.1 + 1 + 1 + Zlen a.2) by lia
                 |simpl in Hfuel; lia].
    cbn [fold_left]. do 2 f_equal. autorewrite with zlen. lia.
Qed.

Lemma params_all fuel body params q attrs l :
  Forall attr_ok attrs -> cursor body q (render_attrs attrs ++ chr ">" :: l) -> (2 * length attrs < fuel)%nat ->
  read_parameters fuel body params q = Ok (fold_left add_param attrs params, q + Zlen (render_attrs attrs)).
Proof.
  intros Hok Hc Hfuel. destruct Hok as [|a attrs Ha Hok].
  - cbn [render_attrs map concat fold_left]. rewrite Zlen_nil, Z.add_0_r. destruct fuel; cbn [read_parameters]; cbn [app render_attrs map concat] in Hc; rewrite (deref_cons _ _ _ _ Hc);
      cbn [mbind outcome_bind]; change (negb (chr ">" =? chr ">")) with false; by rewrite andb_false_r.
  - destruct fuel as [|[|fuel]]; [simpl in Hfuel; lia..|]. change (render_attrs (a :: attrs)) with (render_attr a ++ render_attrs attrs) in *.
    unfold render_attr in *. rewrite <- !app_assoc in Hc. cbn [app] in Hc. rewrite <- !app_assoc in Hc. cbn [app] in Hc. rewrite <- !app_assoc in Hc.
    rewrite (params_blank _ _ _ _ [] a (chr "=" :: 39 :: a.2 ++ [39] ++ render_attrs attrs ++ chr ">" :: l)); [|done|by left|exact Hc].
    apply cursor_next in Hc. rewrite Zlen_nil, Z.add_0_r. rewrite (params_attr _ _ _ _ a _ Ha Hc).
    rewrite (params_rest _ _ _ _ attrs l); [|done| |simpl in Hfuel; lia].
    + cbn [fold_left]. do 2 f_equal. autorewrite with zlen. lia.
    + apply cursor_skip in Hc. do 2 apply cursor_next in Hc. apply cursor_skip in Hc. by replace (q + 1 + Zlen a.1 + 2 + Zlen a.2) with (q + 1 + Zlen a.1 + 1 + 1 + Zlen a.2) by lia.
Qed.

(** ** Tags, comments and texts *)

Lemma render_attrs_length attrs : (2 * length attrs <= length (render_attrs attrs))%nat.
Proof.
  induction attrs as [|a attrs IH]; [done|]. change (render_attrs (a :: attrs)) with (render_attr a ++ render_attrs attrs).
  unfold render_attr. rewrite length_app. cbn [length]. rewrite length_app. cbn [length]. lia.
Qed.

(** The state between two pieces. *)
Definition between (s : S) : Prop := in_script (base s) = false /\ parameters (base s) = ∅.

Lemma tag_first tag l : tag_ok tag -> exists c t, tag ++ l = c :: t /\ isalpha c = true /\
  (c =? chr "!") = false /\ (c =? chr "?") = false /\ (c =? chr "/") = false /\ is_space c = false.
Proof.
  intros (_ & Hc & _). destruct tag as [|c tag]; [done|]. exists c, (tag ++ l). split; [done|]. cbn [hd] in Hc. split; [done|].
  unfold isalpha, isupper, islower, is_space in *. change (chr "!") with 33. change (chr "?") with 63. change (chr "/") with 47.
  assert (65 <= c) by (apply orb_true_iff in Hc as [Hc|Hc]; bool_to_prop; lia).
  split_and!; try (apply Z.eqb_neq; lia).
  rewrite (proj2 (Z.eqb_neq c 32)) by lia. rewrite (proj2 (Z.leb_gt c 13)) by lia. by rewrite andb_false_r.
Qed.

Lemma attrs_stop attrs l : stops p_nottag (render_attrs attrs ++ chr ">" :: l).
Proof. by destruct attrs. Qed.

Lemma script_false tag : tag_ok tag -> bool_decide (lowercase_string tag = lit "script") = false.
Proof. intros (_ & _ & Hs). by apply bool_decide_eq_false_2. Qed.

Lemma open_parsed body p tag attrs l s :
  tag_ok tag -> Forall attr_ok attrs -> between s -> cursor body p (tag ++ render_attrs attrs ++ chr ">" :: l) ->
  parse_tag body p s = (run_piece (Open tag attrs) ≫= fun _ => mret (Some (p + Zlen tag + Zlen (render_attrs attrs) + 1))) s.
Proof.
  intros Ht Ha [_ Hps] Hc. unfold parse_tag. destruct (tag_first tag (render_attrs attrs ++ chr ">" :: l) Ht) as (c & t & E & _ & _ & _ & Hsl & _).
  erewrite stm_lift_Ok by (rewrite E in Hc; by apply (deref_cons _ _ _ _ Hc)). cbv zeta. rewrite Hsl. cbn iota.
  erewrite stm_bind_Ok by reflexivity.
  pose proof Ht as (Htag & _ & _). erewrite stm_lift_Ok by (apply (find_stop _ _ _ _ _ Hc Htag), attrs_stop).
  erewrite stm_lift_Ok by apply (substring_cursor _ _ _ _ Hc). rewrite stm_gets, Hps. pose proof (cursor_skip _ _ _ _ Hc) as Hq.
  pose proof (render_attrs_length attrs). destruct (cursor_bounds _ _ _ Hq) as [_ Hb]. rewrite Zlen_app, Zlen_cons in Hb.
  destruct (cursor_bounds _ _ _ Hc) as [? _]. pose proof (Zlen_nonneg tag). pose proof (Zlen_nonneg l).
  erewrite stm_lift_Ok by (apply (params_all _ _ _ _ attrs l Ha Hq); unfold Zlen in *; lia).
  apply cursor_skip in Hq. rewrite (script_false _ Ht). cbn [run_piece].
  unfold mbind, stm_bind, mret, stm_ret, lift, on_base, modify.
  destruct (opening_tag _ _) as [[u|e| |] s']; [|done..]. rewrite (deref_cons _ _ _ _ Hq), (proj1 (cursor_more _ _ _ _ Hq)). done.
Qed.

Lemma close_parsed body p tag l s :
  tag_ok tag -> between s -> cursor body p (chr "/" :: tag ++ chr ">" :: l) ->
  parse_tag body p s = (run_piece (Close tag) ≫= fun _ => mret (Some (p + 1 + Zlen tag + 1))) s.
Proof.
  intros Ht [Hsc _] Hc. unfold parse_tag. erewrite stm_lift_Ok by apply (deref_cons _ _ _ _ Hc). cbv zeta. change (chr "/" =? chr "/") with true. cbn iota.
  apply cursor_next in Hc. destruct (tag_first tag (chr ">" :: l) Ht) as (c & t & E & _ & _ & _ & _ & Hsp).
  erewrite stm_lift_Ok by (rewrite E in Hc; apply (find_here _ _ _ _ _ Hc); unfold p_notwhitespace; by rewrite Hsp).
  pose proof Ht as (Htag & _ & _). erewrite stm_lift_Ok by by apply (find_stop _ _ _ _ _ Hc Htag).
  erewrite stm_lift_Ok by apply (substring_cursor _ _ _ _ Hc). apply cursor_skip in Hc. cbn [run_piece].
  pose proof (closing_tag_base (lowercase_string tag) s) as Hb.
  unfold mbind, stm_bind. destruct (closing_tag _ s) as [[u|e| |] s']; [|done..]. cbn [snd] in Hb. unfold gets. rewrite Hb, Hsc. cbn [andb].
  unfold lift, mret, stm_ret, find. rewrite (find_here _ _ _ _ _ Hc) by done. by rewrite (proj1 (cursor_more _ _ _ _ Hc)).
Qed.

Lemma comment_skipped body p c l :
  piece_ok (Comment c) -> cursor body p (chr "!" :: chr "-" :: chr "-" :: c ++ lit "-->" ++ l) ->
  skip_declaration body p = Ok (Some (p + 3 + Zlen c + 3)).
Proof.
  intros [Hgt Hne] Hc. unfold skip_declaration. cbv zeta. apply cursor_next in Hc. rewrite (proj1 (cursor_more _ _ _ _ Hc)).
  pose proof (deref_cons _ _ _ _ Hc) as E1. apply cursor_next in Hc. rewrite (proj1 (cursor_more _ _ _ _ Hc)).
  replace (p + 1 + 1 - 1) with (p + 1) by lia. rewrite E1, (deref_cons _ _ _ _ Hc). cbn [mbind outcome_bind].
  change ((chr "-" =? chr "-") && (chr "-" =? chr "-")) with true. cbn iota. apply cursor_next in Hc.
  set (q := p + 1 + 1 + 1) in *.
  change (lit "-->" ++ l) with (lit "--" ++ chr ">" :: l) in Hc. rewrite app_assoc in Hc.
  unfold find. erewrite (find_stop _ _ _ _ _ Hc) by (done || (apply Forall_app; split; [exact Hgt|by repeat constructor])).
  cbn [mbind outcome_bind]. pose proof (cursor_skip _ _ _ _ Hc) as He. rewrite (proj1 (cursor_more _ _ _ _ He)).
  rewrite <- app_assoc in Hc. pose proof (cursor_skip _ _ _ _ Hc) as Hd. cbn [app lit] in Hd. pose proof (cursor_next _ _ _ _ Hd) as Hd2.
  change (Z.of_nat (nat_of_ascii "-")) with (chr "-") in *.
  assert (Hend : comment_end (length body) body (q + Zlen (c ++ lit "--")) = Ok (q + Zlen (c ++ lit "--"))).
  { assert (Elen : q + Zlen (c ++ lit "--") = q + Zlen c + 2) by (rewrite Zlen_app; change (Zlen (lit "--")) with 2; lia).
    rewrite Elen in *. destruct (length body); cbn [comment_end]; rewrite (proj1 (cursor_more _ _ _ _ He));
    replace (q + Zlen c + 2 - 1) with (q + Zlen c + 1) by lia; replace (q + Zlen c + 2 - 2) with (q + Zlen c) by lia;
    rewrite (deref_cons _ _ _ _ Hd2), (deref_cons _ _ _ _ Hd); done. }
  rewrite Hend. cbn [mbind outcome_bind]. rewrite (proj1 (cursor_more _ _ _ _ He)). cbn [negb].
  assert (Elen : Zlen (c ++ lit "--") = Zlen c + 2) by (rewrite Zlen_app; change (Zlen (lit "--")) with 2; lia). rewrite Elen in *.
  assert (Ht : exists t, (if q + (Zlen c + 2) - q =? 15 then substring body q (q + (Zlen c + 2) - 2) else mret []) = Ok t /\ t <> lit "htdig_noindex").
  { destruct (_ =? 15); [|by exists []]. exists c. split; [|done]. replace (q + (Zlen c + 2) - 2) with (q + Zlen c) by lia. by eapply substring_cursor. }
  destruct Ht as (t & -> & Htne). cbn [mbind outcome_bind]. rewrite bool_decide_eq_false_2 by done. unfold q. cbn. do 2 f_equal. lia.
Qed.

Ltac same_end := match goal with |- (_ ≫= fun _ => mret (Some ?x)) _ = (_ ≫= fun _ => mret (Some ?y)) _ =>
  replace x with y by (autorewrite with zlen; lia); reflexivity end.

(** A tag or a comment after its [<]. *)
Lemma markup_parsed body p q l s :
  piece_ok q -> is_text q = false -> between s -> cursor body p (render_piece q ++ l) ->
  (exists c r, render_piece q ++ l = chr "<" :: c :: r /\ (isalpha c = true \/ c = chr "/" \/ c = chr "!")) /\
  parse_markup body (p + 1) s = (run_piece q ≫= fun _ => mret (Some (p + Zlen (render_piece q)))) s.
Proof.
  intros Hq Hnt Hs Hc. destruct q as [t|tag attrs|tag|c]; [done| | |]; cbn [render_piece] in *; unfold parse_markup.
  - destruct Hq as [Ht Ha]. cbn [app] in Hc. rewrite <- !app_assoc in Hc. cbn [app] in Hc.
    destruct (tag_first tag (render_attrs attrs ++ chr ">" :: l) Ht) as (c & t & E & Hal & He1 & He2 & _).
    split; [exists c, t; split; [|by left]; cbn [app]; rewrite <- !app_assoc; cbn [app]; by rewrite E|].
    apply cursor_next in Hc. pose proof Hc as Hc'. rewrite E in Hc'. erewrite stm_lift_Ok by by apply (deref_cons _ _ _ _ Hc').
    rewrite He1, He2, (open_parsed _ _ _ _ _ _ Ht Ha Hs Hc). same_end.
  - cbn [app] in Hc. rewrite <- !app_assoc in Hc. cbn [app] in Hc.
    split; [eexists _, _; split; [done|by right; left]|]. apply cursor_next in Hc.
    erewrite stm_lift_Ok by by apply (deref_cons _ _ _ _ Hc). change (chr "/" =? chr "!") with false. change (chr "/" =? chr "?") with false. cbn iota.
    rewrite (close_parsed _ _ _ _ _ Hq Hs Hc). same_end.
  - rewrite <- !app_assoc in Hc. change (lit "<!--" ++ c ++ lit "-->" ++ l) with (chr "<" :: chr "!" :: chr "-" :: chr "-" :: c ++ lit "-->" ++ l) in Hc.
    split; [eexists _, _; split; [reflexivity|by right; right]|]. apply cursor_next in Hc.
    erewrite stm_lift_Ok by by apply (deref_cons _ _ _ _ Hc). change (chr "!" =? chr "!") with true. cbn iota.
    unfold lift. rewrite (comment_skipped _ _ _ _ Hq Hc). cbn [run_piece]. unfold mbind, stm_bind, mret, stm_ret. do 3 f_equal.
    rewrite !Zlen_app. change (Zlen (lit "<!--")) with 4. change (Zlen (lit "-->")) with 3. lia.
Qed.

(** ** The loop *)

Definition no_lt (l : bytes) : Prop := Forall (fun c => (chr "<" =? c) = false) l.

Lemma escape_no_lt t : no_lt (escape t).
Proof.
  induction t as [|c t IH]; [by constructor|]. change (escape (c :: t)) with (escape_char c ++ escape t). apply Forall_app. split; [|done].
  unfold escape_char. destruct (c =? chr "&"); [by repeat constructor|]. destruct (Z.eqb_spec c (chr "<")); [by repeat constructor|].
  destruct (c =? chr ">"); [by repeat constructor|]. destruct (c =? 34); [by repeat constructor|]. constructor; [|by constructor].
  apply Z.eqb_neq. congruence.
Qed.

Lemma escape_nonempty t : t <> [] -> 0 < Zlen (escape t).
Proof.
  destruct t as [|c t]; [done|]. intros _. change (escape (c :: t)) with (escape_char c ++ escape t). rewrite Zlen_app.
  pose proof (Zlen_nonneg (escape t)). assert (0 < Zlen (escape_char c)); [|lia]. unfold escape_char. by repeat destruct (_ =? _).
Qed.

Lemma find_tag_here fuel body p a c l s :
  no_lt a -> between s -> (isalpha c = true \/ c = chr "/" \/ c = chr "!") -> cursor body p (a ++ chr "<" :: c :: l) ->
  find_tag fuel body p s = (Ok (p + Zlen a), s).
Proof.
  intros Ha [Hsc _] Hch Hc. destruct fuel; cbn [find_tag]; unfold find.
  all: erewrite stm_lift_Ok by by apply (find_stop _ _ _ _ _ Hc Ha).
  all: apply cursor_skip in Hc; rewrite (proj1 (cursor_more _ _ _ _ Hc)); apply cursor_next in Hc.
  all: erewrite stm_lift_Ok by apply (deref_cons _ _ _ _ Hc); rewrite stm_gets, Hsc.
  all: by destruct Hch as [->|[->| ->]].
Qed.

Lemma find_tag_none fuel body p a s : no_lt a -> cursor body p a -> find_tag fuel body p s = (Ok (Zlen body), s).
Proof.
  intros Ha Hc. rewrite <- (app_nil_r a) in Hc. destruct (cursor_end _ _ (cursor_skip _ _ _ _ Hc)) as [E _].
  destruct fuel; cbn [find_tag]; unfold find.
  all: erewrite stm_lift_Ok by by apply (find_stop _ _ _ _ _ Hc Ha).
  all: rewrite E; apply Z.eqb_eq in E; by rewrite E.
Qed.

(** The calls for the text [t] before the next tag, if any. *)
Definition say (t : bytes) : stm S unit := if bool_decide (t = []) then mret tt else process_text t.

Lemma say_between t s u s' : between s -> say t s = (Ok u, s') -> between s'.
Proof.
  intros Hs. unfold say. destruct (bool_decide (t = [])); [by intros [= _ <-]|]. intros E.
  pose proof (process_text_base t s) as Hb. rewrite E in Hb. unfold between in *. cbn [snd] in Hb. by rewrite Hb.
Qed.

Lemma run_piece_between q s u s' : is_text q = false -> between s -> run_piece q s = (Ok u, s') -> between s'.
Proof.
  intros Hq Hs. destruct q as [t|tag attrs|tag|c]; [done| | |]; cbn [run_piece].
  - unfold on_base. rewrite stm_modify. unfold mbind, stm_bind.
    set (s1 := set_base _ s). pose proof (opening_tag_base (lowercase_string tag) s1) as Hb. unfold s1 in Hb at 2. rewrite base_set in Hb.
    destruct (opening_tag _ s1) as [[v|e| |] s2]; cbn [snd] in Hb; try done. unfold modify. intros [= _ <-].
    unfold between. rewrite base_set, Hb. destruct Hs. by split.
  - intros E. pose proof (closing_tag_base (lowercase_string tag) s) as Hb. rewrite E in Hb. unfold between in *. cbn [snd] in Hb. by rewrite Hb.
  - by intros [= _ <-].
Qed.

(** The text of a step is what was escaped. *)
Lemma step_text body p t l s (k : Z -> stm S (option Z)) :
  cursor body p (escape t ++ l) ->
  ((if p <? p + Zlen (escape t) then
      text ← lift (substring body p (p + Zlen (escape t))); text ← lift (decode_entities text); process_text text
    else mret tt) ;; k (p + Zlen (escape t))) s = (say t ;; k (p + Zlen (escape t))) s.
Proof.
  intros Hc. unfold say. destruct (decide (t = [])) as [->|Hne].
  - rewrite bool_decide_eq_true_2 by done. cbn [escape map concat]. rewrite Zlen_nil, Z.add_0_r, Z.ltb_irrefl. done.
  - pose proof (escape_nonempty t Hne). rewrite bool_decide_eq_false_2 by done. rewrite (proj2 (Z.ltb_lt _ _)) by lia.
    assert (E : (text ← lift (substring body p (p + Zlen (escape t))); text ← lift (decode_entities text); process_text text) s = process_text t s).
    { erewrite stm_lift_Ok by apply (substring_cursor _ _ _ _ Hc).
      erewrite stm_lift_Ok; [reflexivity|]. rewrite decode_entities_ok by apply refs_ok_escape. by rewrite decoded_escape. }
    unfold mbind, stm_bind in *. by rewrite E.
Qed.

Lemma step_end body p t s :
  cursor body p (escape t) -> parse_step body p s = (say t ;; mret None) s.
Proof.
  intros Hc. unfold parse_step. erewrite stm_bind_Ok by apply (find_tag_none _ _ _ _ _ (escape_no_lt t) Hc).
  destruct (cursor_bounds _ _ _ Hc) as [_ Hb]. rewrite <- Hb. rewrite <- (app_nil_r (escape t)) in Hc.
  cbv zeta. rewrite (step_text body p t [] s (fun q => if (q =? p + Zlen (escape t)) || _ then mret None else _) Hc).
  by rewrite Z.eqb_refl.
Qed.

Lemma step_piece body p t q l s :
  piece_ok q -> is_text q = false -> between s -> cursor body p (escape t ++ render_piece q ++ l) ->
  parse_step body p s = (say t ;; run_piece q ;; mret (Some (p + Zlen (escape t) + Zlen (render_piece q)))) s.
Proof.
  intros Hq Hnt Hs Hc. unfold parse_step. pose proof (cursor_skip _ _ _ _ Hc) as Hq2.
  destruct (markup_parsed _ _ _ _ s Hq Hnt Hs Hq2) as [(c & r & E & Hch) _].
  erewrite stm_bind_Ok by (rewrite E in Hc; by apply (find_tag_here _ _ _ _ _ _ _ (escape_no_lt t) Hs Hch Hc)). cbv zeta.
  rewrite (step_text body p t _ s (fun q => if (q =? Zlen body) || (q + 1 =? Zlen body) then mret None else parse_markup body (q + 1)) Hc).
  assert (Hend : forall s', between s' -> (if (p + Zlen (escape t) =? Zlen body) || (p + Zlen (escape t) + 1 =? Zlen body) then mret None
      else parse_markup body (p + Zlen (escape t) + 1)) s' = (run_piece q ;; mret (Some (p + Zlen (escape t) + Zlen (render_piece q)))) s').
  { intros s' Hs'. destruct (markup_parsed _ _ _ _ s' Hq Hnt Hs' Hq2) as [_ Em]. pose proof Hq2 as Hq3. rewrite E in Hq3.
    rewrite (proj1 (cursor_more _ _ _ _ Hq3)), (proj1 (cursor_more _ _ _ _ (cursor_next _ _ _ _ Hq3))). exact Em. }
  unfold mbind at 1 2. unfold stm_bind. destruct (say t s) as [[u|e| |] s'] eqn:Es; [|done..]. apply Hend. by eapply say_between.
Qed.

Lemma parse_loop_run fuel body p doc s :
  doc_ok doc -> between s -> cursor body p (render doc) -> (length doc < fuel)%nat -> parse_loop fuel body p s = run doc s.
Proof.
  revert p doc s. induction fuel as [|fuel IH]; intros p doc s Hdoc Hs Hc Hfuel; [lia|]. cbn [parse_loop].
  assert (Hgo : forall t q rest s, piece_ok q -> is_text q = false -> doc_ok rest -> between s -> (length rest < fuel)%nat ->
    cursor body p (escape t ++ render_piece q ++ render rest) ->
    (r ← parse_step body p; match r with None => mret tt | Some start => parse_loop fuel body start end) s = (say t ;; run_piece q ;; run rest) s).
  { clear s Hs doc Hdoc Hc Hfuel. intros t q rest s Hq Hnt Hrest Hs Hlen Hc. pose proof (step_piece _ _ _ _ _ s Hq Hnt Hs Hc) as E.
    do 2 apply cursor_skip in Hc. unfold mbind, stm_bind in *. rewrite E. destruct (say t s) as [[u|e| |] s'] eqn:Es; [|done..].
    pose proof (say_between _ _ _ _ Hs Es) as Hs'. destruct (run_piece q s') as [[v|e| |] s2] eqn:Er; [|done..].
    unfold mret, stm_ret. apply IH; [done|by eapply run_piece_between|done|done]. }
  destruct doc as [|q doc].
  - change (render []) with (escape []) in Hc. pose proof (step_end _ _ _ s Hc) as E. unfold mbind, stm_bind in *. by rewrite E.
  - destruct Hdoc as (Hq & Hsep & Hdoc). destruct q as [t|tag attrs|tag|c].
    2-4: cbn [length] in Hfuel; rewrite (Hgo [] _ doc s Hq eq_refl Hdoc Hs ltac:(lia) Hc); unfold say; by rewrite bool_decide_eq_true_2.
    cbn [run run_piece]. assert (Esay : say t = process_text t) by (unfold say; by rewrite bool_decide_eq_false_2).
    destruct doc as [|q doc].
    + change (render [Text t]) with (escape t ++ []) in Hc. rewrite app_nil_r in Hc. pose proof (step_end _ _ _ s Hc) as E.
      rewrite Esay in E. unfold mbind, stm_bind in *. rewrite E. by destruct (process_text t s) as [[u|e| |] s'].
    + destruct Hdoc as (Hq2 & Hsep2 & Hdoc). cbn [length] in Hfuel. rewrite (Hgo t q doc s Hq2 (Hsep eq_refl) Hdoc Hs ltac:(lia) Hc), Esay. done.
Qed.

Lemma doc_length doc : doc_ok doc -> (length doc <= length (render doc))%nat.
Proof.
  induction doc as [|q doc IH]; [done|]. intros (Hq & _ & Hd). change (render (q :: doc)) with (render_piece q ++ render doc). rewrite length_app.
  specialize (IH Hd). cbn [length]. assert (0 < length (render_piece q))%nat; [|lia].
  destruct q as [t|tag attrs|tag|c]; cbn [render_piece]; [|simpl; lia..]. pose proof (escape_nonempty t Hq). unfold Zlen in *. lia.
Qed.

Lemma html_of_doc doc s : doc_ok doc ->
  HtmlParser_parse_html (render doc) s = (on_base (with_in_script false) ;; on_base (with_parameters ∅) ;; run doc) s.
Proof.
  intros Hdoc. unfold HtmlParser_parse_html, on_base. rewrite !stm_modify. pose proof (doc_length doc Hdoc).
  apply parse_loop_run; [done| |apply cursor_start|lia]. unfold between. rewrite !base_set. done.
Qed.

End render.

(** * The words of a text *)

Abbreviation words := (tokens in_WHITESPACE).
Abbreviation join := (join_with 32).

(** The words [ws] after the text [d]. *)
Definition after (d : bytes) (ws : list bytes) : bytes :=
  match ws with [] => d | _ => (if bool_decide (d = []) then [] else d ++ [32]) ++ join ws end.

Lemma squash_words l d :
  (fold_left squash l (true, d)).2 = after d (words l) /\
  (fold_left squash l (false, d)).2 = match l with c :: _ => if in_WHITESPACE c then after d (words l) else d ++ join (words l) | [] => d end.
Proof.
  revert d. induction l as [|c l IH]; intros d; [done|].
  assert (Hstart : in_WHITESPACE c = false -> forall p, (fold_left squash l (false, p ++ [c])).2 = p ++ join (words (c :: l))).
  { intros Hc p. rewrite (proj2 (IH (p ++ [c]))). cbn [tokens]. rewrite Hc. destruct l as [|e l]; [done|]. unfold glued.
    destruct (in_WHITESPACE e) eqn:Ee.
    - unfold after. destruct (words (e :: l)) as [|w ws]; [done|]. rewrite bool_decide_eq_false_2 by by destruct p.
      rewrite <- !app_assoc. done.
    - destruct (words (e :: l)) as [|w ws] eqn:Ew; [by apply tokens_nonempty in Ew|]. rewrite <- app_assoc. by destruct ws. }
  cbn [fold_left squash]. destruct (in_WHITESPACE c) eqn:Hc.
  - cbn [tokens]. rewrite Hc. split; apply IH.
  - cbn [andb]. split; [|by apply Hstart]. rewrite Hstart by done. unfold after.
    destruct (words (c :: l)) eqn:Ew; [by apply tokens_nonempty in Ew|]. by destruct (decide (d = [])) as [->|]; [|rewrite bool_decide_eq_false_2].
Qed.

Fixpoint process_texts `{XapianUnicode} (texts : list bytes) : stm MyHtmlParser unit :=
  match texts with
  | [] => mret tt
  | t :: texts => My_process_text t ;; process_texts texts
  end.

Lemma process_texts_ok `{XapianUnicode} texts p :
  Forall string_ok texts -> in_script_tag p = false -> in_style_tag p = false ->
  process_texts texts p = let '(pending, d) := fold_left squash (concat texts) (pending_space p, dump p) in (Ok tt, with_text pending (title p) d p).
Proof.
  intros Ht. revert p. induction Ht as [|t texts Ht _ IH]; intros p Hsc Hst; [by destruct p|]. cbn [process_texts concat].
  rewrite fold_left_app. pose proof (process_text_ok t p Ht Hsc Hst) as E. destruct (fold_left squash t _) as [pe d].
  erewrite stm_bind_Ok by exact E. rewrite IH by done. cbn [with_text pending_space dump title]. destruct (fold_left _ _ _). by destruct p.
Qed.

Lemma texts_words `{XapianUnicode} (texts : list bytes) (p : MyHtmlParser) :
  Forall string_ok texts -> in_script_tag p = false -> in_style_tag p = false -> dump p = [] ->
  exists pending, process_texts texts p = (Ok tt, with_text pending (title p) (join (words (concat texts))) p).
Proof.
  intros Ht Hsc Hst Hd. rewrite process_texts_ok by done. rewrite Hd. destruct (squash_words (concat texts) []) as [E1 E2].
  assert (Eafter : forall ws, after [] ws = join ws) by by intros [|].
  destruct (pending_space p).
  - destruct (fold_left _ _ _) as [pe d]. cbn [snd] in E1. rewrite Eafter in E1. subst d. by eexists.
  - destruct (fold_left squash (concat texts) (false, [])) as [pe d]. cbn [snd] in E2. exists pe.
    assert (d = join (words (concat texts))) as Ed; [|by rewrite Ed]. rewrite E2, Eafter. by destruct (concat texts) as [|c l]; [|destruct (in_WHITESPACE c)].
Qed.

(** The data of a page of pieces: the calls are made on a new parser. *)
Definition started : MyHtmlParser :=
  mkMyHtml (mkHtmlParser ∅ false (lit "UTF-8")) false false false true true (S754_zero false) (S754_zero false) false [] [] [] [].

Lemma index_of_doc `{XapianUnicodeSpec} garbage garbage_bool doc title :
  doc_ok doc ->
  DefaultIndexData_new garbage garbage_bool (render doc) title =
    match run (H1 := MyHtmlParser_handler garbage) doc started with
    | (Ok _, p) | (Throw _, p) => Ok (mkIndexData p title)
    | (Undef, _) => Undef
    | (Diverge, _) => Diverge
    end.
Proof.
  intros Hdoc. unfold DefaultIndexData_new, catching, MyHtmlParser_parse_html.
  unfold on_base at 1. rewrite !stm_modify. rewrite html_of_doc by done. unfold on_base at 1 2. rewrite !stm_modify.
  cbn [base set_base MyHtmlParser_handler]. change (with_html _ _) with started. by destruct (run doc started) as [[]].
Qed.

Definition robots_noindex : piece := Open (lit "meta") [(lit "name", lit "robots"); (lit "content", lit "noindex")].

Lemma robots_stop `{XapianUnicode} garbage p :
  exists h, run_piece (H1 := MyHtmlParser_handler garbage) robots_noindex p =
    (Throw (thrown_bool true), with_html h (with_flags (in_script_tag p) (in_style_tag p) false (charset_from_meta p) p)).
Proof. destruct p. eexists. vm_compute. reflexivity. Qed.

(** * Properties *)

(** C16. The references of a text are decoded as the definition on lists says, when
    their values are those of Unicode characters; no text that was escaped is changed by escaping and decoding it. *)
Theorem entities_decoded `{XapianUnicodeSpec} (s : bytes) :
  refs_ok s -> decode_entities s = Ok (decoded s) /\ forall t, decode_entities (escape t) = Ok t.
Proof.
  intros Hs. split; [by apply decode_entities_ok|]. intros t. rewrite decode_entities_ok by apply refs_ok_escape. by rewrite decoded_escape.
Qed.


(** C15. A page put together from texts, tags with quoted parameters, and comments is cut into
    these pieces: the parser calls the virtual functions of any class derived from it with exactly
    the decoded texts and the names and parameters of the tags, in order, and stops where one of them throws. *)
Theorem page_parsed `{XapianUnicodeSpec} {S : Type} `{HtmlHandlerSpec S} (doc : list piece) (s : S) :
  doc_ok doc ->
  HtmlParser_parse_html (render doc) s = (on_base (with_in_script false) ;; on_base (with_parameters ∅) ;; run doc) s.
Proof. apply html_of_doc. Qed.

(** C14. The text of every page is extracted, whatever its markup: the parser never reads
    outside of the page, always comes to an end, and what it throws on the way is caught, as
    long as the character references of the page are those of Unicode characters. *)
Theorem index_data_made `{XapianUnicodeSpec} (garbage : float) (garbage_bool : bool) (htmlData title : bytes) :
  page_ok htmlData -> refs_ok htmlData -> exists d, DefaultIndexData_new garbage garbage_bool htmlData title = Ok d.
Proof.
  intros Hpage Hrefs. unfold DefaultIndexData_new, catching, MyHtmlParser_parse_html.
  set (hh := MyHtmlParser_handler garbage). unfold on_base at 1. rewrite !stm_modify.
  pose proof (parse_html_safe (S := MyHtmlParser) htmlData
    (with_flags false false true true (set_base (with_charset (lit "UTF-8") (base (MyHtmlParser_new garbage_bool))) (MyHtmlParser_new garbage_bool))) Hpage Hrefs) as Hd.
  destruct (HtmlParser_parse_html htmlData _) as [[[]|e| |] p]; cbn [fst defined] in Hd; [..|done|done]; by eexists.
Qed.

(** The indexer is not told that a page asks not to be indexed: the parser notes it
    and stops, but nothing reads that note, and the text up to the [meta] tag is indexed. *)
Theorem noindex_page_indexed `{XapianUnicodeSpec} (garbage : float) (garbage_bool : bool) (t title : bytes) (rest : list piece) :
  string_ok t -> doc_ok (Text t :: robots_noindex :: rest) -> contains (lit "NOINDEX") (join (words t)) = false ->
  exists d, DefaultIndexData_new garbage garbage_bool (render (Text t :: robots_noindex :: rest)) title = Ok d /\
    indexing_allowed (htmlParser d) = false /\ hasIndexData d = true /\ dump (htmlParser d) = join (words t).
Proof.
  intros Ht Hdoc Hno. rewrite index_of_doc by done. cbn [run].
  destruct (texts_words [t] started) as (pe & E); [by repeat constructor|done..|].
  assert (Et : run_piece (H1 := MyHtmlParser_handler garbage) (Text t) started = (Ok tt, with_text pe [] (join (words t)) started)).
  { cbn [process_texts concat] in E. rewrite app_nil_r in E. cbn. unfold mbind, stm_bind in E. by destruct (My_process_text t started) as [[[]| | |] s]. }
  erewrite stm_bind_Ok by exact Et. destruct (robots_stop garbage (with_text pe [] (join (words t)) started)) as [h Er].
  erewrite stm_bind_Throw by exact Er. eexists. split; [reflexivity|]. split_and!; [done| |done].
  change (negb (contains (lit "NOINDEX") (join (words t))) = true). by rewrite Hno.
Qed.

(** * Witnesses *)

(** What the function of Xapian does. *)
#[local] Instance xapian_unicode : XapianUnicode := {| nonascii_to_utf8 v := if v <? 2097152 then utf8 v else [] |}.
#[local] Instance xapian_unicode_spec : XapianUnicodeSpec.
Proof. split. intros v Hv Hc. cbn. unfold code_point in Hc. by rewrite (proj2 (Z.ltb_lt _ _)) by lia. Qed.

(** It stores nothing for a number beyond [0x1fffff]; the search then goes on one
    place too far, which is past the end when the reference ends the text. *)
Lemma reference_to_nothing : decode_entities (lit "a&#x200000;") = Undef.
Proof. by vm_compute. Qed.

(** Quotes written as backquotes. *)
Definition page (s : string) : bytes := map (fun c => if c =? 96 then 34 else c) (lit s).

Definition sample_text : bytes := lit "&lt;b&#62; &#x26;amp; &nothing; caf&eacute;".

Lemma entities_decoded_witness :
  decode_entities sample_text = Ok (lit "<b> &amp; &nothing; caf" ++ [195; 169]).
Proof.
  destruct (entities_decoded sample_text) as [E _]; [vm_compute; by split_and!; intros|]. rewrite E. by vm_compute.
Defined.


Definition sample_doc : list piece :=
  [Open (lit "html") []; Open (lit "META") [(lit "Name", lit "keywords"); (lit "content", lit "a&amp;b"); (lit "name", lit "robots")];
   Text (lit "1 < 2"); Comment (lit " no "); Open (lit "p") []; Text (lit "end"); Close (lit "html")].

Lemma page_parsed_witness :
  let handler := MyHtmlParser_handler (S754_zero false) in
  let r := HtmlParser_parse_html (render sample_doc) started in
  r.1 = Ok tt /\ dump r.2 = lit "1 < 2 end" /\ keywords r.2 = lit "a&b".
Proof.
  intros handler r. unfold r. rewrite (page_parsed (H1 := handler) (H2 := MyHtmlParser_spec (S754_zero false)) sample_doc started).
  - by vm_compute.
  - cbn -[p_nottag p_whitespaceeqgt Z.eqb isalpha lit lowercase_string]. split_and!; try done;
      repeat first [split|constructor]; by vm_compute.
Defined.

Lemma index_data_made_witness :
  exists d, DefaultIndexData_new (S754_zero false) true (page "<meta name=geo.position content=`1;2`><title>T</title><body>w &amp; <b") (lit "t") = Ok d /\
    dump (htmlParser d) = lit "w &".
Proof.
  destruct (index_data_made (S754_zero false) true (page "<meta name=geo.position content=`1;2`><title>T</title><body>w &amp; <b") (lit "t")) as (d & E).
  - by vm_compute.
  - vm_compute. split_and!; by intros.
  - exists d. split; [exact E|]. apply (f_equal (fun o => match o with Ok d => dump (htmlParser d) | _ => [] end)) in E.
    cbv beta iota in E. rewrite <- E. by vm_compute.
Defined.

Lemma noindex_page_indexed_witness :
  exists d, DefaultIndexData_new (S754_zero false) true (render [Text (lit "secret"); robots_noindex]) (lit "t") = Ok d /\
    indexing_allowed (htmlParser d) = false /\ hasIndexData d = true.
Proof.
  destruct (noindex_page_indexed (S754_zero false) true (lit "secret") (lit "t") []) as (d & E & Ha & Hi & _).
  - by vm_compute.
  - cbn -[p_nottag p_whitespaceeqgt Z.eqb isalpha lit lowercase_string]. split_and!; try done; repeat first [split|constructor]; by vm_compute.
  - by vm_compute.
  - exists d. split; [exact E|]. split; [exact Ha|exact Hi].
Defined.
