(* ===== verification/Search.v ===== *)
(** Searching ([zim/search.h], [search.cpp], [search_internal.h], [search_iterator.cpp]) in a
    build with Xapian: the indexes of the archives are opened as databases, a query
    is run over them, and the results are walked with iterators.

    Xapian is the class [Xapian]: a database is opened from a file at an offset, and a query
    gives a list of matches. The archives of a search share their [FileImpl]s with other
    objects: they are references into a heap. A [Search] object and the iterators over
    its results live in one [World]. *)

From Stdlib Require Import Ascii SpecFloat.
From stdpp Require Import gmap strings.
From S2P Require Import Prelude.
From S2P Require Import Types.
From S2P Require Import Readers.
From S2P Require Import Files.
From S2P Require Import Compression.
From S2P Require Import Tools.
From S2P Require Import FileImpl.
From S2P Require Import Archive.
From S2P Require Import Html.
From S2P Require Import MyHtml.

(** * Strings *)

(** [str.substr(pos, n)] for a position in the string. *)
Definition substr_from (s : bytes) (pos n : Z) : bytes := slice s pos (Z.min n (Zlen s - pos)).

(** The loop of [split] over the token at [lastPos] that ends at [pos]. *)
Fixpoint split_loop (fuel : nat) (f : Z -> bool) (str : bytes) (lastPos pos : Z) (tokens : list bytes) : outcome (list bytes) :=
  if (pos =? npos) && (lastPos =? npos) then mret tokens
  else match fuel with
  | O => Diverge
  | S fuel =>
      throw_when (Zlen str <? lastPos) (out_of_range "basic_string::substr") ;;
      let tokens := tokens ++ [substr_from str lastPos (u64 (pos - lastPos))] in
      let lastPos := find_char (fun c => negb (f c)) str pos in
      let pos := find_char f str lastPos in
      split_loop fuel f str lastPos pos tokens
  end.

Definition split (str delims : bytes) : outcome (list bytes) :=
  let f c := existsb (Z.eqb c) delims in
  let lastPos := find_char (fun c => negb (f c)) str 0 in
  let pos := find_char f str lastPos in
  split_loop (S (length str)) f str lastPos pos [].

(** [int] from 32 bits. *)
Definition to_int (z : Z) : Z := let z := u32 z in if z <? 2 ^ 31 then z else z - 2 ^ 32.

(** [atoi]: [strtol] saturates at the bounds of a 64-bit [long]. *)
Definition atoi_int (s : bytes) : Z :=
  let '(neg, s) := take_sign (drop_spaces s) in
  let '(v, _, _) := take_digits 0 0 s in
  to_int (Z.min (2 ^ 63 - 1) (Z.max (- 2 ^ 63) (if (neg : bool) then - v else v))).

(** [std::map::insert] keeps what is there. *)
Definition map_insert (k : bytes) (v : Z) (m : gmap bytes Z) : gmap bytes Z :=
  match m !! k with Some _ => m | None => <[k := v]> m end.

Fixpoint read_elems (elems : list bytes) (result : gmap bytes Z) : outcome (gmap bytes Z) :=
  match elems with
  | [] => mret result
  | elem :: elems =>
      tmp_elems ← split elem (lit ":");
      match tmp_elems with
      | k :: v :: _ => read_elems elems (map_insert k (atoi_int v) result)
      | _ => Undef
      end
  end.

Definition read_valuesmap (s : bytes) : outcome (gmap bytes Z) :=
  elems ← split s (lit ";");
  read_elems elems ∅.

(** The lines [std::getline] reads: no empty one after a final newline. *)
Fixpoint getlines (line : bytes) (s : bytes) : list bytes :=
  match s with
  | [] => match line with [] => [] | _ => [line] end
  | c :: s => if c =? 10 then line :: getlines [] s else getlines (line ++ [c]) s
  end.

(** * Xapian and ICU *)

Record Document : Type := mkDocument { doc_data : bytes; doc_value : Z -> bytes }.
Definition Document_new : Document := mkDocument [] (fun _ => []).

(** A match of an [MSet]: [*it], [it.get_percent()], [it.get_document()]. *)
Record Match : Type := mkMatch { docid : Z; percent : Z; document : Document }.

Record MSet : Type := mkMSet { matches : list Match; matches_estimated : Z }.

Class Xapian : Type := {
  (** [Database(fd)], with the file of [fd] and its position; [None] for a [DatabaseError]. *)
  database : Type;
  db_open : bytes -> Z -> option database;
  get_metadata : database -> bytes -> bytes;
  (** [Stem(language)] does not throw. *)
  stem_known : bytes -> bool;
  (** [QueryParser::parse_query] over the databases, with the stemmer and whether its strategy
      is [STEM_SOME], the stopwords, the text, [FLAG_PARTIAL] and the prefix; [None] for a [QueryParserError]. *)
  query_t : Type;
  parse_query : list database -> option (bytes * bool) -> option (list bytes) -> bytes -> bool -> bytes -> option query_t;
  (** [Query(&ps)], with the [LatLongDistancePostingSource] of a slot around a centre; an exception for a latitude out of range. *)
  geo_posting : Z -> float -> float -> float -> outcome query_t;
  op_filter : query_t -> query_t -> query_t;
  (** [Enquire::get_mset(first, maxitems)]; the slot of the suggestions' weighting scheme and order, the slot of the collapse key. *)
  get_mset : list database -> query_t -> option Z -> option Z -> Z -> Z -> outcome MSet;
  snippet : MSet -> bytes -> Z -> bytes;
}.

(** [icu::Locale(name).getLanguage()]. *)
Class IcuLocale : Type := { getLanguage : bytes -> bytes }.

(** * The state *)

Section search.
Context `{OS} `{LzmaLib} `{ZstdLib} `{Env} `{XapianUnicode} `{Xapian} `{IcuLocale}.

Record InternalData : Type := mkInternal {
  xapian_databases : list database;
  all_databases : list database;      (* [database], to which they are added *)
  results : MSet;
}.

Record Search : Type := mkSearch {
  internal : option InternalData;
  m_archives : list nat;
  valuesmap : gmap bytes Z;
  prefixes : bytes;
  query : bytes;
  s_latitude : float;
  s_longitude : float;
  s_distance : float;
  range_start : Z;
  range_end : Z;
  suggestion_mode : bool;
  geo_query : bool;
  search_started : bool;
  has_database : bool;
  verbose : bool;
  estimated_matches_number : Z;
}.

Record World : Type := mkWorld { impls : list FileImpl; search : Search }.

Abbreviation SM := (stm World).

Definition float_0 : float := S754_zero false.
Definition MSet_new : MSet := mkMSet [] 0.
Definition InternalData_new : InternalData := mkInternal [] [] MSet_new.

Definition Search_new (archives : list nat) : Search :=
  mkSearch (Some InternalData_new) archives ∅ [] [] float_0 float_0 float_0 0 0 false false false false false 0.

(** The copy constructor. *)
Definition Search_copy (it : Search) : Search :=
  mkSearch (Some InternalData_new) (m_archives it) ∅ (prefixes it) (query it) (s_latitude it) (s_longitude it) (s_distance it)
    (range_start it) (range_end it) (suggestion_mode it) (geo_query it) false false (verbose it) 0.

(** [s = it]. The values map of [s] stays. *)
Definition Search_assign (s it : Search) : Search :=
  mkSearch None (m_archives it) (valuesmap s) (prefixes it) (query it) (s_latitude it) (s_longitude it) (s_distance it)
    (range_start it) (range_end it) (suggestion_mode it) (geo_query it) false false (verbose it) 0.

Definition with_settings (archives : list nat) (q : bytes) (lat long dist : float) (a b : Z) (sug geo verb : bool) (s : Search) : Search :=
  mkSearch (internal s) archives (valuesmap s) (prefixes s) q lat long dist a b sug geo (search_started s) (has_database s) verb
    (estimated_matches_number s).
Definition with_results (i : option InternalData) (vm : gmap bytes Z) (p : bytes) (started has : bool) (n : Z) (s : Search) : Search :=
  mkSearch i (m_archives s) vm p (query s) (s_latitude s) (s_longitude s) (s_distance s) (range_start s) (range_end s)
    (suggestion_mode s) (geo_query s) started has (verbose s) n.

Definition set_verbose (v : bool) (s : Search) : Search :=
  with_settings (m_archives s) (query s) (s_latitude s) (s_longitude s) (s_distance s) (range_start s) (range_end s)
    (suggestion_mode s) (geo_query s) v s.
Definition add_archive (a : nat) (s : Search) : Search :=
  with_settings (m_archives s ++ [a]) (query s) (s_latitude s) (s_longitude s) (s_distance s) (range_start s) (range_end s)
    (suggestion_mode s) (geo_query s) (verbose s) s.
Definition set_query (q : bytes) (s : Search) : Search :=
  with_settings (m_archives s) q (s_latitude s) (s_longitude s) (s_distance s) (range_start s) (range_end s)
    (suggestion_mode s) (geo_query s) (verbose s) s.
Definition set_georange (lat long dist : float) (s : Search) : Search :=
  with_settings (m_archives s) (query s) lat long dist (range_start s) (range_end s) (suggestion_mode s) true (verbose s) s.
Definition set_range (start end_ : Z) (s : Search) : Search :=
  with_settings (m_archives s) (query s) (s_latitude s) (s_longitude s) (s_distance s) start end_
    (suggestion_mode s) (geo_query s) (verbose s) s.
Definition set_suggestion_mode (m : bool) (s : Search) : Search :=
  with_settings (m_archives s) (query s) (s_latitude s) (s_longitude s) (s_distance s) (range_start s) (range_end s)
    m (geo_query s) (verbose s) s.

(** A call on the archive [a]. *)
Definition on_archive {A} (a : nat) (m : stm FileImpl A) : SM A := fun w =>
  match impls w !! a with
  | Some f => let '(r, f') := m f in (r, mkWorld (<[a := f']> (impls w)) (search w))
  | None => (Undef, w)
  end.

Definition on_search (f : Search -> Search) : SM unit := modify (fun w => mkWorld (impls w) (f (search w))).
Definition the_search : SM Search := gets search.
(** [internal->]: the pointer is null after a copy assignment. *)
Definition the_internal : SM InternalData := s ← the_search; lift (match internal s with Some i => Ok i | None => Undef end).
Definition set_internal (i : InternalData) : SM unit :=
  on_search (fun s => with_results (Some i) (valuesmap s) (prefixes s) (search_started s) (has_database s) (estimated_matches_number s) s).

(** * [Search::begin] *)

(** [findx], unless an index has been found. *)
Definition or_findx (r : bool * Z) (ns : Z) (url : string) : stm FileImpl (bool * Z) :=
  if r.1 then mret r else findx ns (lit url).

(** [databasefd.seek(offset)]. *)
Definition seek_ok (offset : Z) : bool := offset <? 2 ^ 63.

(** The entry of an index, opened as a database, if it can be. *)
Definition open_entry (idx : Z) : stm FileImpl (option database) :=
  xapianEntry ← Entry_new idx;
  item ← Entry_getItem xapianEntry false;
  accessInfo ← Item_getDirectAccessInformation item;
  if (accessInfo : bytes * Z).2 =? 0 then mret None
  else
    match openFile accessInfo.1 with
    | Ok databasefd => mret (if seek_ok accessInfo.2 then db_open databasefd accessInfo.2 else None)
    | Throw _ => mret None
    | Undef => lift Undef
    | Diverge => lift Diverge
    end.

(** The index of an archive, and whether it is a title index. *)
Definition open_index (suggestion_mode : bool) : stm FileImpl (bool * option database) :=
  r ← (if suggestion_mode then findx (chr "X") (lit "title/xapian") else mret (false, 0));
  let newFormat := suggestion_mode && (r : bool * Z).1 in
  r ← or_findx r (chr "X") "fulltext/xapian";
  r ← or_findx r (chr "Z") "/fulltextIndex/xapian";
  if negb (r : bool * Z).1 then mret (newFormat, None)
  else
    db ← open_entry r.2;
    mret (newFormat, db).

(** The local variables of [begin]. *)
Record locals : Type := mkLocals { first : bool; hasNewSuggestionFormat : bool; language : bytes; stopwords : bytes }.

(** One turn of the loop over the archives. *)
Definition load_archive (archive : nat) (l : locals) : SM locals :=
  s ← the_search;
  '(newFormat, db) ← on_archive archive (open_index (suggestion_mode s));
  let l := mkLocals (first l) (hasNewSuggestionFormat l || newFormat) (language l) (stopwords l) in
  match db with
  | None => mret l
  | Some db =>
      l ← (if first l then
          vm ← lift (read_valuesmap (get_metadata db (lit "valuesmap")));
          on_search (fun s => with_results (internal s) vm (prefixes s) (search_started s) (has_database s) (estimated_matches_number s) s) ;;
          let language := get_metadata db (lit "language") in
          language ← (if bool_decide (language = []) then
              catching (on_archive archive (getMetadata (lit "Language"))) (fun _ => true) (fun _ => mret language)
            else mret language);
          on_search (fun s => with_results (internal s) (valuesmap s) (get_metadata db (lit "prefixes")) (search_started s)
                                (has_database s) (estimated_matches_number s) s) ;;
          mret (mkLocals (first l) (hasNewSuggestionFormat l) language (get_metadata db (lit "stopwords")))
        else lift (read_valuesmap (get_metadata db (lit "valuesmap"))) ;; mret l);
      i ← the_internal;
      set_internal (mkInternal (xapian_databases i ++ [db]) (all_databases i ++ [db]) (results i)) ;;
      on_search (fun s => with_results (internal s) (valuesmap s) (prefixes s) (search_started s) true (estimated_matches_number s) s) ;;
      mret l
  end.

Fixpoint load_archives (archives : list nat) (l : locals) : SM locals :=
  match archives with
  | [] => mret l
  | a :: archives => l ← load_archive a l; load_archives archives l
  end.

(** [setup_queryParser]: the stemmer with its strategy, and the stopwords. *)
Definition setup_stemmer (language : bytes) (newSuggestionFormat : bool) : option (bytes * bool) :=
  if bool_decide (language = []) then None
  else if stem_known (getLanguage language) then Some (getLanguage language, newSuggestionFormat) else None.
Definition setup_stopper (stopwords : bytes) : option (list bytes) :=
  if bool_decide (stopwords = []) then None else Some (getlines [] stopwords).

(** [valuesmap[key]]: the key is inserted if it is absent. *)
Definition values_at (key : bytes) : SM Z :=
  s ← the_search;
  match valuesmap s !! key with
  | Some v => mret v
  | None =>
      on_search (fun s => with_results (internal s) (<[key := 0]> (valuesmap s)) (prefixes s) (search_started s) (has_database s)
                            (estimated_matches_number s) s) ;;
      mret 0
  end.

(** The query over the databases, run. *)
Definition run_query (q : query_t) : SM unit :=
  s ← the_search;
  q ← (if geo_query s && bool_decide (is_Some (valuesmap s !! lit "geo.position")) then
      slot ← values_at (lit "geo.position");
      ps ← lift (geo_posting (u32 slot) (s_latitude s) (s_longitude s) (s_distance s));
      mret (if bool_decide (query s = []) then ps else op_filter q ps)
    else mret q);
  sort ← (if suggestion_mode s then slot ← values_at (lit "title"); mret (Some (u32 slot)) else mret None);
  s ← the_search;
  let collapse := if suggestion_mode s then u32 <$> valuesmap s !! lit "title" else None in
  i ← the_internal;
  let n := range_end s - range_start s in
  lift (if (- 2 ^ 31 <=? n) && (n <? 2 ^ 31) then Ok tt else Undef) ;;
  ms ← lift (get_mset (all_databases i) q sort collapse (u32 (range_start s)) (u32 n));
  set_internal (mkInternal (xapian_databases i) (all_databases i) ms) ;;
  on_search (fun s => with_results (internal s) (valuesmap s) (prefixes s) true (has_database s) (to_int (matches_estimated ms)) s).

(** ** Iterators *)

(** [search_iterator::InternalData]; the iterator of Xapian counts what is left of its set. *)
Record IteratorData : Type := mkIterator {
  it_mset : MSet;
  off_from_end : Z;
  _document : Document;
  document_fetched : bool;
  _entry : option (nat * Entry);
}.

(** [search_iterator]: its pointer, which may be null. *)
Abbreviation search_iterator := (option IteratorData).

Definition IteratorData_new (ms : MSet) (left : Z) : IteratorData := mkIterator ms left Document_new false None.

Definition set_estimated (n : Z) : SM unit :=
  on_search (fun s => with_results (internal s) (valuesmap s) (prefixes s) (search_started s) (has_database s) n s).

Definition results_begin : SM search_iterator :=
  i ← the_internal; mret (Some (IteratorData_new (results i) (Zlen (matches (results i))))).

Definition Search_begin : SM search_iterator :=
  s ← the_search;
  if search_started s then results_begin
  else
    l ← load_archives (m_archives s) (mkLocals true false [] []);
    s ← the_search;
    if negb (has_database s) then set_estimated 0 ;; mret None
    else
      i ← the_internal;
      let prefix := if suggestion_mode s && negb (hasNewSuggestionFormat l) && contains (lit "S") (prefixes s) then lit "S" else [] in
      match parse_query (all_databases i) (setup_stemmer (language l) (hasNewSuggestionFormat l)) (setup_stopper (stopwords l))
              (query s) (suggestion_mode s) prefix with
      | None => set_estimated 0 ;; mret None
      | Some q => run_query q ;; results_begin
      end.

Definition Search_end : SM search_iterator :=
  s ← the_search;
  if negb (has_database s) then mret None
  else i ← the_internal; mret (Some (IteratorData_new (results i) 0)).

Definition get_matches_estimated : SM Z :=
  Search_begin ;; s ← the_search; mret (estimated_matches_number s).

(** * [search_iterator] *)

Definition with_document (d : Document) (it : IteratorData) : IteratorData :=
  mkIterator (it_mset it) (off_from_end it) d true (_entry it).
Definition with_entry (e : option (nat * Entry)) (it : IteratorData) : IteratorData :=
  mkIterator (it_mset it) (off_from_end it) (_document it) (document_fetched it) e.

(** What the iterator of Xapian points to: nothing at the end. *)
Definition it_match (it : IteratorData) : outcome Match :=
  match matches (it_mset it) !! Z.to_nat (Zlen (matches (it_mset it)) - off_from_end it) with
  | Some m => if off_from_end it <=? Zlen (matches (it_mset it)) then mret m else Undef
  | None => Undef
  end.

Definition get_document (it : IteratorData) : SM (Document * IteratorData) :=
  if document_fetched it then mret (_document it, it)
  else
    the_internal ;;
    d ← (if off_from_end it =? 0 then mret (_document it) else m ← lift (it_match it); mret (document m));
    mret (d, with_document d it).

Definition get_databasenumber (it : IteratorData) : SM Z :=
  m ← lift (it_match it);
  s ← the_search;
  lift (match m_archives s with [] => Undef | _ => Ok (to_int (u32 (docid m - 1) mod Zlen (m_archives s))) end).

Definition get_entry (it : IteratorData) : SM ((nat * Entry) * IteratorData) :=
  match _entry it with
  | Some e => mret (e, it)
  | None =>
      databasenumber ← get_databasenumber it;
      s ← the_search;
      match m_archives s !! Z.to_nat databasenumber with
      | None => lift (Throw (out_of_range "vector::_M_range_check"))
      | Some archive =>
          '(d, it) ← get_document it;
          e ← on_archive archive (getEntryByPath (doc_data d));
          mret ((archive, e), with_entry (Some (archive, e)) it)
      end
  end.

(** The copy constructor, and the assignment of [search_iterator]: the one of the data takes
    a copy of an entry that may be absent. (For two different objects: an assignment to itself does nothing.) *)
Definition iterator_copied (it : search_iterator) : search_iterator := it.
Definition iterator_assign (this it : search_iterator) : outcome search_iterator :=
  match it, this with
  | None, _ => mret None
  | Some _, None => mret it
  | Some other, Some _ =>
      match _entry other with
      | Some _ => mret it
      | None => Undef
      end
  end.

(** Two iterators over the results of the search. *)
Definition iterator_eq (a b : search_iterator) : bool :=
  match a, b with
  | None, None => true
  | Some a, Some b => off_from_end a =? off_from_end b
  | _, _ => false
  end.

Definition iterator_moved (left : Z) (it : IteratorData) : IteratorData :=
  mkIterator (it_mset it) (u32 left) (_document it) false None.
Definition iterator_next (it : search_iterator) : search_iterator :=
  match it with None => None | Some it => Some (iterator_moved (off_from_end it - 1) it) end.
Definition iterator_prev (it : search_iterator) : search_iterator :=
  match it with None => None | Some it => Some (iterator_moved (off_from_end it + 1) it) end.
(** [it++] and [it--]: the copy, and the iterator moved. *)
Definition iterator_postnext (it : search_iterator) : search_iterator * search_iterator := (it, iterator_next it).
Definition iterator_postprev (it : search_iterator) : search_iterator * search_iterator := (it, iterator_prev it).

(** A call on the data of an iterator; the value for a null one. *)
Definition if_internal {A} (it : search_iterator) (null : A) (m : IteratorData -> SM (A * IteratorData)) : SM (A * search_iterator) :=
  match it with
  | None => mret (null, None)
  | Some it => '(a, it) ← m it; mret (a, Some it)
  end.

Definition get_url (it : search_iterator) : SM (bytes * search_iterator) :=
  if_internal it [] (fun it => '(d, it) ← get_document it; mret (doc_data d, it)).

(** The value of the slot of [key]; [None] when the index has no such slot; the slot [legacy] of an
    index without a values map. *)
Definition slot_of (legacy : Z) (key : string) : SM (option Z) :=
  s ← the_search;
  if bool_decide (valuesmap s = ∅) then mret (Some legacy)
  else mret (u32 <$> valuesmap s !! lit key).

Definition get_value (legacy : Z) (key : string) (it : IteratorData) : SM (option bytes * IteratorData) :=
  slot ← slot_of legacy key;
  match slot with
  | None => mret (None, it)
  | Some slot => '(d, it) ← get_document it; mret (Some (doc_value d slot), it)
  end.

Definition get_title (it : search_iterator) : SM (bytes * search_iterator) :=
  if_internal it [] (fun it => '(v, it) ← get_value 0 "title" it; mret (default [] v, it)).

Definition get_score (it : search_iterator) : SM (Z * search_iterator) :=
  if_internal it 0 (fun it => m ← lift (it_match it); mret (percent m, it)).

(** A number of a slot; an empty value is -1 in an index without a values map only. *)
Definition get_number (legacy : Z) (key : string) (it : search_iterator) : SM (Z * search_iterator) :=
  if_internal it (- 1) (fun it =>
    s ← the_search;
    '(v, it) ← get_value legacy key it;
    mret (match v with
          | None => - 1
          | Some v => if bool_decide (valuesmap s = ∅) && bool_decide (v = []) then - 1 else atoi_int v
          end, it)).

Definition get_size : search_iterator -> SM (Z * search_iterator) := get_number 2 "size".
Definition get_wordCount : search_iterator -> SM (Z * search_iterator) := get_number 3 "wordcount".

Definition get_fileIndex (it : search_iterator) : SM (Z * search_iterator) :=
  if_internal it 0 (fun it => n ← get_databasenumber it; mret (n, it)).

(** [*it] and [it->]: a null iterator is dereferenced. *)
Definition iterator_get (it : search_iterator) : SM ((nat * Entry) * search_iterator) :=
  match it with
  | None => lift Undef
  | Some it => '(e, it) ← get_entry it; mret (e, Some it)
  end.

Section snippet.
(** The uninitialised values of the HTML parser. *)
Variables (garbage : float) (garbage_bool : bool).

(** The text of the page of an entry. *)
Definition page_text (content : bytes) : outcome bytes :=
  let '(r, p) := catching (MyHtmlParser_parse_html garbage content (lit "UTF-8") true) (fun _ => true) (fun _ => mret tt)
                   (MyHtmlParser_new garbage_bool) in
  _ ← r;
  mret (dump p).

Definition generated_snippet (it : IteratorData) : SM (bytes * IteratorData) :=
  '(e, it) ← catching ('(e, it) ← get_entry it; mret (Some e, it)) (fun _ => true)
               (fun _ => '(_, it) ← get_document it; mret (None, it));
  match e with
  | None => mret ([], it)
  | Some (archive, entry) =>
      catching
        (content ← on_archive archive (item ← Entry_getItem entry false; b ← Item_getData item 0; blob_to_string b);
         text ← lift (page_text content);
         i ← the_internal;
         mret (snippet (results i) text 500, it))
        (fun _ => true) (fun _ => mret ([], it))
  end.

Definition get_snippet (it : search_iterator) : SM (bytes * search_iterator) :=
  if_internal it [] (fun it =>
    s ← the_search;
    '(v, it) ← get_value 1 "snippet" it;
    match v with
    | Some v => if bool_decide (valuesmap s = ∅) && bool_decide (v = []) then generated_snippet it else mret (v, it)
    | None => generated_snippet it
    end).

End snippet.

(** [for (it = begin(); it != end(); ++it) { ... }] with the url of each result. *)
Fixpoint urls_loop (fuel : nat) (it last : search_iterator) (urls : list bytes) : SM (list bytes) :=
  if iterator_eq it last then mret urls
  else match fuel with
  | O => lift Diverge
  | S fuel =>
      '(url, it) ← get_url it;
      urls_loop fuel (iterator_next it) last (urls ++ [url])
  end.

End search.
