(* ===== verification/Indexing.v ===== *)
(** Indexing ([writer/xapianIndexer.cpp], [writer/xapianHandler.cpp], [writer/xapianWorker.cpp]),
    in a build with Xapian: a handler of the creator builds the index of the titles, another one
    that of the texts, whose tasks the worker threads run.

    The model of a database that is written is the sequence of the calls made on it. The parts of Xapian,
    ICU and of the compiled resources that decide what is stored are parameters. *)

From Stdlib Require Import Ascii SpecFloat.
From stdpp Require Import gmap pretty strings sorting.
From S2P Require Import Prelude.
From S2P Require Import Types.
From S2P Require Import Readers.
From S2P Require Import Files.
From S2P Require Import Compression.
From S2P Require Import WDirent.
From S2P Require Import WCluster.
From S2P Require Import Tools.
From S2P Require Import Creator.
From S2P Require Import Html.
From S2P Require Import MyHtml.
From S2P Require Import Search.

(** * What is written *)

(** [index_text(text, weight)], and [index_text_without_positions] without [positions]. *)
Record IndexedText : Type := mkIndexed { it_text : bytes; it_weight : Z; it_positions : bool }.

(** A document and the settings of the [TermGenerator] that fills it: the stemmer, whether its
    strategy is [STEM_SOME], and the stopwords. *)
Record NewDocument : Type := mkNewDocument {
  nd_data : bytes;
  nd_values : list (Z * bytes);
  nd_texts : list IndexedText;
  nd_stemmer : option (bytes * bool);
  nd_stopper : list bytes;
}.

Inductive db_call : Type :=
  | Create (path : bytes)
  | SetMetadata (key value : bytes)
  | BeginTransaction
  | CommitTransaction
  | AddDocument (d : NewDocument)
  | Commit
  | Compact (path : bytes)
  | CloseDatabase.

(** The text of a number: [stream << n]. *)
Definition print_number (n : Z) : bytes := lit (pretty n).

(** [getResource(name)] of the compiled resources, and [LatLongCoord(lat, long).serialise()], which throws for
    a latitude out of range. *)
Class IndexingEnv : Type := {
  getResource : bytes -> option bytes;
  latlong_serialise : float -> float -> outcome bytes;
}.

Inductive IndexingMode : Type := TITLE | FULL.

Record XapianIndexer : Type := mkIndexer {
  writableDatabase : list db_call;
  stemmer_language : bytes;
  stopper : list bytes;
  indexPath : bytes;
  ix_language : bytes;
  ix_stopwords : bytes;
  indexingMode : IndexingMode;
}.

Section indexing.
Context `{OS} `{LzmaLib} `{ZstdLib} `{XapianUnicode} `{Icu} `{Xapian} `{IcuLocale} `{IndexingEnv}.

(** * [XapianIndexer] *)

Definition XapianIndexer_new (indexPath language : bytes) (mode : IndexingMode) : XapianIndexer :=
  let stopwords := default [] (getResource (lit "stopwords/" ++ language)) in
  mkIndexer [] (getLanguage language) (getlines [] stopwords) indexPath language stopwords mode.

Definition call (calls : list db_call) (x : XapianIndexer) : XapianIndexer :=
  mkIndexer (writableDatabase x ++ calls) (stemmer_language x) (stopper x) (indexPath x) (ix_language x) (ix_stopwords x)
    (indexingMode x).

Definition indexingPrelude (x : XapianIndexer) : XapianIndexer :=
  let x := call [Create (indexPath x ++ lit ".tmp")] x in
  let x := match indexingMode x with
           | TITLE => call [SetMetadata (lit "valuesmap") (lit "title:0"); SetMetadata (lit "kind") (lit "title")] x
           | FULL => call [SetMetadata (lit "valuesmap") (lit "title:0;wordcount:1;geo.position:2");
                           SetMetadata (lit "kind") (lit "fulltext")] x
           end in
  call [SetMetadata (lit "language") (ix_language x); SetMetadata (lit "stopwords") (ix_stopwords x); BeginTransaction] x.

Definition generator_stemmer (x : XapianIndexer) (some : bool) : option (bytes * bool) :=
  if stem_known (stemmer_language x) then Some (stemmer_language x, some) else None.

Definition indexTitle (path title : bytes) (x : XapianIndexer) : outcome XapianIndexer :=
  ASSERT (match indexingMode x with TITLE => true | FULL => false end) ;;
  let unaccentedTitle := removeAccents title in
  mret (call [AddDocument (mkNewDocument path [(0, title)]
          (if bool_decide (unaccentedTitle = []) then [] else [mkIndexed unaccentedTitle 1 true])
          (generator_stemmer x true) (stopper x))] x).

Definition flush (x : XapianIndexer) : XapianIndexer := call [CommitTransaction; BeginTransaction] x.

Definition indexingPostlude (x : XapianIndexer) : XapianIndexer :=
  call [CommitTransaction; Commit; Compact (indexPath x); CloseDatabase] (flush x).

(** * [IndexTask] *)

Definition keywordsBoostFactor : Z := 3.
Definition getTitleBoostFactor (contentLength : Z) : Z := u32 (u32 contentLength / 500 + 1).

Section task.
(** The uninitialised values of the HTML parser. *)
Variables (garbage : float) (garbage_bool : bool).

(** The document made for an item, [None] for an item without index data. *)
Definition task_document (x : XapianIndexer) (item : WItem) : outcome (option NewDocument) :=
  indexData ← Item_getIndexData garbage garbage_bool item;
  if negb (hasIndexData indexData) then mret None
  else
    wordCount ← MyHtml.getWordCount indexData;
    let '(hasGeo, lat, long) := getGeoPosition indexData in
    geo ← (if (hasGeo : bool) then p ← latlong_serialise lat long; mret [(2, p)] else mret []);
    let indexContent := index_getContent indexData in
    let indexTitle := index_getTitle indexData in
    let indexKeywords := index_getKeywords indexData in
    let text_if t w := if bool_decide (t = []) then [] else [mkIndexed t w false] in
    mret (Some (mkNewDocument (getPath item) ([(0, getTitle item); (1, print_number wordCount)] ++ geo)
      (text_if indexContent 1 ++ text_if indexTitle (getTitleBoostFactor (Zlen indexContent)) ++
       text_if indexKeywords keywordsBoostFactor)
      (generator_stemmer x false) (stopper x))).

Definition IndexTask_run (item : WItem) (x : XapianIndexer) : outcome XapianIndexer :=
  d ← task_document x item;
  mret (match d with Some d => call [AddDocument d] x | None => x end).

(** * The handlers *)

Record FullTextXapianHandler : Type := mkFullText {
  ft_indexer : XapianIndexer;
  waiting_tasks : list WItem;      (* pushed, and not yet run: their number is [waiting_task] *)
}.

Definition FullTextXapianHandler_new (zimName indexingLanguage : bytes) : FullTextXapianHandler :=
  mkFullText (XapianIndexer_new (zimName ++ lit "_fulltext.idx") indexingLanguage FULL) [].

Definition fulltext_start (h : FullTextXapianHandler) : FullTextXapianHandler :=
  mkFullText (indexingPrelude (ft_indexer h)) (waiting_tasks h).

Definition fulltext_handle (dirent : WDirent.t) (item : WItem) (h : FullTextXapianHandler) : FullTextXapianHandler :=
  if negb (WDirent.ns dirent =? chr "C") then h else mkFullText (ft_indexer h) (waiting_tasks h ++ [item]).

(** [stop] after the wait for the tasks. *)
Definition fulltext_stop (h : FullTextXapianHandler) : FullTextXapianHandler :=
  mkFullText (indexingPostlude (ft_indexer h)) (waiting_tasks h).

Definition fulltext_createDirent : stm CreatorData nat :=
  createDirent (chr "X") (lit "fulltext/xapian") (lit "application/octet-stream+xapian") [].
Definition fulltext_getContentProvider (h : FullTextXapianHandler) : outcome ContentProvider :=
  FileProvider_new (indexPath (ft_indexer h)).

Definition TitleXapianHandler_new (zimName indexingLanguage : bytes) : XapianIndexer :=
  XapianIndexer_new (zimName ++ lit "_title.idx") indexingLanguage TITLE.
Definition title_start : XapianIndexer -> XapianIndexer := indexingPrelude.
Definition title_stop : XapianIndexer -> XapianIndexer := indexingPostlude.

Definition handle_dirent (dirent : WDirent.t) (x : XapianIndexer) : outcome XapianIndexer :=
  if negb (WDirent.ns dirent =? chr "C") then mret x
  else
    let title := WDirent.title dirent in
    if bool_decide (title = []) then mret x else indexTitle (WDirent.path dirent) title x.

Definition title_createDirent : stm CreatorData nat :=
  createDirent (chr "X") (lit "title/xapian") (lit "application/octet-stream+xapian") [].
Definition title_getContentProvider (x : XapianIndexer) : outcome ContentProvider := FileProvider_new (indexPath x).

(** The handlers [CreatorData] puts before those of the listings, as [finishZimCreation] finds them once they are stopped. *)
Definition direntHandlers (withIndex : bool) (title : XapianIndexer) (full : FullTextXapianHandler) : list IndexHandler :=
  mkIndexHandler (lit "title/xapian") (title_getContentProvider title) ::
  (if withIndex then [mkIndexHandler (lit "fulltext/xapian") (fulltext_getContentProvider full)] else []).

(** * The threads

    The main thread hands the items to the handler and then stops it; the workers run
    the tasks that wait, in any order: a task only touches its document until it adds it to
    the database, under a lock. *)

Record indexing_state : Type := mkIndexing {
  todo : list (WDirent.t * WItem);
  handler : FullTextXapianHandler;
  stopped : bool;
}.

Definition indexing_init (zimName language : bytes) (items : list (WDirent.t * WItem)) : indexing_state :=
  mkIndexing items (fulltext_start (FullTextXapianHandler_new zimName language)) false.

Inductive indexing_step : indexing_state -> indexing_state -> Prop :=
  | step_handle d item rest h :
      indexing_step (mkIndexing ((d, item) :: rest) h false) (mkIndexing rest (fulltext_handle d item h) false)
  | step_task rest x before item after x' :
      IndexTask_run item x = Ok x' ->
      indexing_step (mkIndexing rest (mkFullText x (before ++ item :: after)) false)
                    (mkIndexing rest (mkFullText x' (before ++ after)) false)
  | step_stop x :
      indexing_step (mkIndexing [] (mkFullText x []) false) (mkIndexing [] (fulltext_stop (mkFullText x [])) true).

End task.
End indexing.
