(* ===== verification/SearchProps.v ===== *)
(** What indexing and searching promise: the index holds one document for each item that has index
    data, whatever the order of the tasks; what is put in it is what the results give back; and
    the results of a search are walked from the first to the last. *)

From Stdlib Require Import Ascii SpecFloat.
From stdpp Require Import gmap pretty strings sorting.
From S2P Require Import Prelude.
From S2P Require Import Types.
From S2P Require Import Readers.
From S2P Require Import Files.
From S2P Require Import Compression.
From S2P Require Import Header.
From S2P Require Import Md5.
From S2P Require Import Dirent.
From S2P Require Import Cluster.
From S2P Require Import WDirent.
From S2P Require Import WCluster.
From S2P Require Import Tools.
From S2P Require Import FileImpl.
From S2P Require Import FileImplProps.
From S2P Require Import Archive.
From S2P Require Import Creator.
From S2P Require Import Html.
From S2P Require Import Entities.
From S2P Require Import MyHtml.
From S2P Require Import HtmlProps.
From S2P Require Import Search.
From S2P Require Import Indexing.

#[local] Opaque named_ents.

(** * Strings *)

Definition is_delim (delims : bytes) (c : Z) : bool := existsb (Z.eqb c) delims.

Lemma find_char_npos f s : string_ok s -> find_char f s npos = npos.
Proof. intros Hs. unfold find_char, string_ok in *. by decide_bool. Qed.

Lemma split_done fuel f str tokens : split_loop fuel f str npos npos tokens = Ok tokens.
Proof. by destruct fuel. Qed.

Lemma substr_cursor str q w r pos :
  string_ok str -> cursor str q (w ++ r) -> pos = match r with [] => npos | _ => q + Zlen w end -> substr_from str q (u64 (pos - q)) = w.
Proof.
  intros Hstr Hcur ->. destruct (cursor_bounds _ _ _ Hcur) as [Hq Hb]. rewrite Zlen_app in Hb. unfold substr_from, string_ok, npos in *.
  pose proof (Zlen_nonneg w). pose proof (Zlen_nonneg r).
  assert (E : Z.min (u64 (match r with [] => 2 ^ 64 - 1 | _ => q + Zlen w end - q)) (Zlen str - q) = Zlen w).
  { unfold u64, wrap. rewrite Z.mod_small by (destruct r; lia). destruct r; [|lia]. change (Zlen (@nil Z)) with 0 in *. lia. }
  rewrite E. destruct Hcur as (pre & -> & ->). by rewrite slice_app_mid.
Qed.

Lemma split_loop_ok fuel delims str p l tokens :
  string_ok str -> cursor str p l -> (length l < fuel)%nat ->
  split_loop fuel (is_delim delims) str (find_char (fun c => negb (is_delim delims c)) str p)
    (find_char (is_delim delims) str (find_char (fun c => negb (is_delim delims c)) str p)) tokens =
  Ok (tokens ++ Entities.tokens (is_delim delims) l).
Proof.
  intros Hstr. revert p l tokens. induction fuel as [|fuel IH]; intros p l tokens Hcur Hf; [lia|].
  set (f := is_delim delims) in *. set (g := fun c => negb (f c)) in *. rewrite (find_char_cursor g _ _ _ Hcur).
  destruct (find_if_at g _ _ _ Hcur) as [_ Hn]. pose proof (span_before g l) as Hb. pose proof (span_app g l) as El.
  pose proof (span_stops g l) as Hs. destruct (span g l) as [a r]. cbn [fst snd] in *.
  assert (Ha : Forall (fun c => f c = true) a) by (eapply Forall_impl; [exact Hb|]; intros x Hx; by apply negb_false_iff in Hx).
  rewrite El, tokens_skip by exact Ha. destruct r as [|c r].
  { rewrite find_char_npos, split_done by done. by rewrite app_nil_r. }
  rewrite (find_char_cursor f _ _ _ Hn). cbn in Hs. apply negb_true_iff in Hs.
  destruct (find_if_at f _ _ _ Hn) as [_ Hn2]. pose proof (span_before f (c :: r)) as Hw. pose proof (span_app f (c :: r)) as Er.
  pose proof (span_stops f (c :: r)) as Hs2.
  assert (Hne : (span f (c :: r)).1 <> []) by (cbn [span]; rewrite Hs; by destruct (span f r)).
  destruct (span f (c :: r)) as [w r2]. cbn [fst snd] in *. rewrite Er, tokens_word by done.
  set (q := p + Zlen a) in *. set (pos := match r2 with [] => npos | _ => q + Zlen w end).
  destruct (cursor_bounds _ _ _ Hn) as [Hq Hqb]. pose proof (Zlen_nonneg (c :: r)). unfold string_ok in Hstr.
  assert (Hqn : (q =? npos) = false) by (apply Z.eqb_neq; rewrite Zlen_cons in Hqb; pose proof (Zlen_nonneg r); lia).
  cbn [split_loop]. rewrite Hqn, andb_false_r. unfold throw_when. decide_bool. cbn [mbind outcome_bind mret outcome_ret].
  rewrite (substr_cursor str q w r2) by (try done; by rewrite <- Er).
  destruct r2 as [|x r2]; [unfold pos; by rewrite !find_char_npos, split_done by done|].
  etrans; [apply IH; [done|]|by rewrite <- app_assoc]. apply (f_equal length) in El, Er. rewrite length_app in El, Er. destruct w; [done|]. cbn [length] in *. lia.
Qed.

(** Splitting gives the longest parts without a delimiter. *)
Lemma split_ok str delims : string_ok str -> split str delims = Ok (tokens (is_delim delims) str).
Proof. intros Hs. unfold split. apply (split_loop_ok _ delims str 0 str []); [done|apply cursor_start|lia]. Qed.

(** ** Numbers *)

Lemma digit_char (d : N) :
  (d < 10)%N -> is_digit (chr (pretty_N_char d)) = true /\ chr (pretty_N_char d) - 48 = Z.of_N d /\ is_space (chr (pretty_N_char d)) = false.
Proof.
  intros Hd. assert (d = 0 \/ d = 1 \/ d = 2 \/ d = 3 \/ d = 4 \/ d = 5 \/ d = 6 \/ d = 7 \/ d = 8 \/ d = 9)%N as Hc by lia.
  by repeat (destruct Hc as [->|Hc]; [done|]); subst.
Qed.

(** The digits of a number are read as this number. *)
Lemma take_digits_go x s :
  exists k, 0 <= k /\ forall acc n, take_digits acc n (lit (pretty_N_go x s)) = take_digits (acc * 10 ^ k + Z.of_N x) (n + k) (lit s).
Proof.
  revert s. induction (N.lt_wf_0 x) as [x _ IH]; intros s. destruct (decide (x = 0)%N) as [->|Hx].
  { exists 0. split; [done|]. intros. rewrite pretty_N_go_0. f_equal; lia. }
  rewrite pretty_N_go_step by lia. destruct (IH (x `div` 10)%N) with (String (pretty_N_char (x `mod` 10)) s) as (k & Hk & E).
  { apply N.div_lt; lia. }
  exists (k + 1). split; [lia|]. intros acc n. rewrite E. destruct (digit_char (x `mod` 10)) as (Hd & Hv & _); [by apply N.mod_lt|].
  cbn [lit take_digits]. change (Z.of_nat (nat_of_ascii ?c)) with (chr c). rewrite Hd, Hv. f_equal; [|lia].
  rewrite Z.pow_add_r by lia. change (10 ^ 1) with 10.
  assert (Hx10 : Z.of_N x = 10 * Z.of_N (x `div` 10) + Z.of_N (x `mod` 10)) by (pose proof (N.div_mod x 10 ltac:(done)); lia).
  rewrite Hx10 at 1. ring.
Qed.

Lemma go_head x s : (0 < x)%N -> exists d s', (d < 10)%N /\ pretty_N_go x s = String (pretty_N_char d) s'.
Proof.
  revert s. induction (N.lt_wf_0 x) as [x _ IH]; intros s Hx. rewrite pretty_N_go_step by done.
  destruct (decide (x `div` 10 = 0)%N) as [->|Hd].
  - rewrite pretty_N_go_0. eexists _, _. split; [|done]. by apply N.mod_lt.
  - apply IH; [by apply N.div_lt|by apply N.neq_0_lt_0].
Qed.

Lemma pretty_Z_go (n : Z) : 0 < n -> pretty n = pretty_N_go (Z.to_N n) "".
Proof. by destruct n. Qed.

(** [atoi] reads back what is printed. *)
Lemma atoi_print n : 0 <= n < 2 ^ 63 -> atoi_int (print_number n) = to_int n.
Proof.
  intros Hn. unfold atoi_int, print_number. destruct (decide (n = 0)) as [->|H0]; [done|].
  rewrite pretty_Z_go by lia. destruct (take_digits_go (Z.to_N n) "") as (k & _ & E).
  destruct (go_head (Z.to_N n) "") as (d & s' & Hd & Es); [lia|]. rewrite Es in *. destruct (digit_char d Hd) as (Hdig & _ & Hsp).
  cbn [lit drop_spaces] in *. change (Z.of_nat (nat_of_ascii ?c)) with (chr c) in *. rewrite Hsp.
  assert (Hsg : take_sign (chr (pretty_N_char d) :: lit s') = (false, chr (pretty_N_char d) :: lit s')).
  { unfold take_sign. unfold is_digit in Hdig. apply andb_true_iff in Hdig as [Hl _]. apply Z.leb_le in Hl.
    rewrite !(proj2 (Z.eqb_neq _ _)); [done|..]; intros E1; rewrite E1 in Hl; by vm_compute in Hl. }
  rewrite Hsg, E. cbn [take_digits]. rewrite Z2N.id by lia. f_equal. lia.
Qed.

(** * The values map *)

(** The text of a map: [key:slot;key:slot]. *)
Definition print_elem (e : bytes * Z) : bytes := e.1 ++ chr ":" :: print_number e.2.
Definition print_valuesmap (elems : list (bytes * Z)) : bytes := join_with (chr ";") (print_elem <$> elems).

Lemma go_digits x s : Forall (fun c => is_digit c = true) (lit s) -> Forall (fun c => is_digit c = true) (lit (pretty_N_go x s)).
Proof.
  revert s. induction (N.lt_wf_0 x) as [x _ IH]; intros s Hs. destruct (decide (x = 0)%N) as [->|Hx]; [done|].
  rewrite pretty_N_go_step by lia. apply IH; [apply N.div_lt; lia|]. cbn [lit]. constructor; [|done].
  by apply digit_char, N.mod_lt.
Qed.

Lemma print_digits n : 0 <= n -> print_number n <> [] /\ Forall (fun c => is_digit c = true) (print_number n).
Proof.
  intros Hn. unfold print_number. destruct (decide (n = 0)) as [->|H0]; [split; [done|by repeat constructor]|].
  rewrite pretty_Z_go by lia. split; [|by apply go_digits]. destruct (go_head (Z.to_N n) "") as (d & s & _ & E); [lia|]. by rewrite E.
Qed.

(** A key of the map that can be written, and a slot. *)
Definition elem_ok (e : bytes * Z) : Prop :=
  e.1 <> [] /\ Forall (fun c => is_delim (lit ":;") c = false) e.1 /\ 0 <= e.2 < 2 ^ 31.

Lemma digit_plain c : is_digit c = true -> is_delim (lit ":;") c = false.
Proof.
  unfold is_digit. intros [H1%Z.leb_le H2%Z.leb_le]%andb_true_iff. apply not_true_is_false. unfold is_delim. rewrite existsb_exists.
  intros (d & Hd & ->%Z.eqb_eq). vm_compute in Hd. lia.
Qed.

Lemma plain_delims c : is_delim (lit ":;") c = false -> is_delim (lit ":") c = false /\ is_delim (lit ";") c = false.
Proof. cbn. intros [-> [-> _]%orb_false_iff]%orb_false_iff. done. Qed.

Lemma elem_tokens e : elem_ok e -> tokens (is_delim (lit ":")) (print_elem e) = [e.1; print_number e.2].
Proof.
  intros (Hne & Hk & Hv). destruct (print_digits e.2) as [Hd0 Hd]; [lia|].
  apply (tokens_join (is_delim (lit ":")) (chr ":") [e.1; print_number e.2]); [done|]. repeat constructor; try done.
  - eapply Forall_impl; [exact Hk|]. by intros c [? _]%plain_delims.
  - eapply Forall_impl; [exact Hd|]. by intros c [? _]%digit_plain%plain_delims.
Qed.

Lemma elem_piece e : elem_ok e -> print_elem e <> [] /\ Forall (fun c => is_delim (lit ";") c = false) (print_elem e).
Proof.
  intros (Hne & Hk & Hv). destruct (print_digits e.2) as [Hd0 Hd]; [lia|]. split; [unfold print_elem; by destruct e.1|].
  apply Forall_app. split; [eapply Forall_impl; [exact Hk|]; by intros c [_ ?]%plain_delims|].
  constructor; [done|]. eapply Forall_impl; [exact Hd|]. by intros c [_ ?]%digit_plain%plain_delims.
Qed.

Lemma map_insert_union (k : bytes) (v : Z) (m M : gmap bytes Z) : map_insert k v m ∪ M = m ∪ <[k := v]> M.
Proof.
  apply map_eq. intros i. unfold map_insert. rewrite lookup_union. destruct (m !! k) eqn:Ek.
  - rewrite lookup_union. destruct (decide (i = k)) as [->|Hi]; [by rewrite Ek, !union_Some_l|by rewrite lookup_insert_ne].
  - rewrite lookup_union. destruct (decide (i = k)) as [->|Hi]; [by rewrite !lookup_insert_eq, Ek, union_Some_l|by rewrite !lookup_insert_ne].
Qed.

Lemma read_elems_ok elems m :
  Forall elem_ok elems -> Forall (fun e => string_ok (print_elem e)) elems ->
  read_elems (print_elem <$> elems) m = Ok (m ∪ list_to_map elems).
Proof.
  intros Hok. revert m. induction Hok as [|e elems He Hok IH]; intros m Hs; [symmetry; f_equal; apply (map_union_empty m)|].
  inversion Hs as [|? ? Hse Hss]; subst. cbn [fmap list_fmap read_elems]. rewrite split_ok, elem_tokens by done.
  cbn [mbind outcome_bind]. rewrite IH by done. rewrite atoi_print by (destruct He as (_ & _ & ?); lia).
  destruct e as [k v]. destruct He as (_ & _ & Hv). cbn [fst snd list_to_map foldr] in *. rewrite map_insert_union.
  unfold to_int, u32, wrap. rewrite Z.mod_small by lia. by decide_bool.
Qed.

Lemma join_length sep t ts : t ∈ ts -> Zlen t <= Zlen (join_with sep ts).
Proof.
  induction ts as [|u ts IH]; [by intros ?%not_elem_of_nil|]. cbn [join_with]. intros [<-|Ht]%elem_of_cons.
  - destruct ts; [done|]. rewrite Zlen_app. pose proof (Zlen_nonneg (sep :: join_with sep (l :: ts))). lia.
  - specialize (IH Ht). destruct ts; [by apply not_elem_of_nil in Ht|]. rewrite Zlen_app, Zlen_cons. pose proof (Zlen_nonneg u). lia.
Qed.

(** The values map of an index is read back: a list of keys, without a colon or a semicolon, and of slots that
    fit an [int], written as [key:slot;key:slot], is read as the map of these keys; of two elements with one key the first counts. *)
Theorem valuesmap_roundtrip elems :
  Forall elem_ok elems -> string_ok (print_valuesmap elems) ->
  read_valuesmap (print_valuesmap elems) = Ok (list_to_map elems).
Proof.
  intros Hok Hs. unfold read_valuesmap, print_valuesmap in *. rewrite split_ok by done. rewrite tokens_join; [|done|].
  2: { apply Forall_fmap. eapply Forall_impl; [exact Hok|]. apply elem_piece. }
  cbn [mbind outcome_bind]. rewrite read_elems_ok, map_empty_union; [done..|].
  apply Forall_forall. intros e He. unfold string_ok in *. pose proof (join_length (chr ";") (print_elem e) (print_elem <$> elems)) as Hj.
  specialize (Hj (list_elem_of_fmap_2 _ _ _ He)). lia.
Qed.

(** An element without a slot is read past its end. *)
Lemma elem_without_slot : read_valuesmap (lit "title") = Undef.
Proof. by vm_compute. Qed.

(** * The index *)

Section index.
Context `{OS} `{LzmaLib} `{ZstdLib} `{XapianUnicode} `{Icu} `{Xapian} `{IcuLocale} `{IndexingEnv}.
Variables (garbage : float) (garbage_bool : bool) (zimName language : bytes).

(** The indexer of the texts as it is made, and the document of an item. *)
Definition fulltext_indexer : XapianIndexer := XapianIndexer_new (zimName ++ lit "_fulltext.idx") language FULL.
Abbreviation document_of := (task_document garbage garbage_bool fulltext_indexer).

(** The items the handler takes. *)
Definition taken (items : list (WDirent.t * WItem)) : list WItem :=
  (filter (fun e => WDirent.ns e.1 = chr "C") items).*2.

Definition full_metadata : list db_call :=
  [Create (zimName ++ lit "_fulltext.idx" ++ lit ".tmp");
   SetMetadata (lit "valuesmap") (lit "title:0;wordcount:1;geo.position:2"); SetMetadata (lit "kind") (lit "fulltext");
   SetMetadata (lit "language") language; SetMetadata (lit "stopwords") (default [] (getResource (lit "stopwords/" ++ language)));
   BeginTransaction].
Definition full_end : list db_call :=
  [CommitTransaction; BeginTransaction; CommitTransaction; Commit; Compact (zimName ++ lit "_fulltext.idx"); CloseDatabase].

(** Adding a document changes nothing the other documents depend on. *)
Lemma document_of_call calls item :
  task_document garbage garbage_bool (call calls (indexingPrelude fulltext_indexer)) item = document_of item.
Proof. done. Qed.

Lemma call_call a b x : call a (call b x) = call (b ++ a) x.
Proof. unfold call. cbn. by rewrite <- app_assoc. Qed.

(** The tasks that have run, what each made, and the calls so far. *)
Record index_inv (items : list (WDirent.t * WItem)) (s : indexing_state) : Prop := {
  inv_ran : exists handled ran outs,
    items = handled ++ todo s /\ ran ++ waiting_tasks (handler s) ≡ₚ taken handled /\
    (document_of <$> ran) = (Ok <$> outs) /\
    ft_indexer (handler s) =
      (if stopped s then indexingPostlude else id) (call (AddDocument <$> omap id outs) (indexingPrelude fulltext_indexer));
  inv_stopped : stopped s = true -> todo s = [] /\ waiting_tasks (handler s) = [];
}.

Lemma taken_snoc items e : taken (items ++ [e]) = taken items ++ (if WDirent.ns e.1 =? chr "C" then [e.2] else []).
Proof.
  unfold taken. rewrite filter_app, fmap_app. f_equal. cbn [filter list_filter].
  destruct (Z.eqb_spec (WDirent.ns e.1) (chr "C")); [by rewrite decide_True|by rewrite decide_False].
Qed.

Lemma run_adds x x' item :
  IndexTask_run garbage garbage_bool item x = Ok x' ->
  exists d, task_document garbage garbage_bool x item = Ok d /\ x' = call (AddDocument <$> option_list d) x.
Proof.
  unfold IndexTask_run. destruct (task_document _ _ x item) as [[d|]| | |]; try done; cbn; intros [= <-]; [by exists (Some d)|].
  exists None. split; [done|]. unfold call. cbn. rewrite app_nil_r. by destruct x.
Qed.

Lemma index_inv_init items : index_inv items (indexing_init zimName language items).
Proof.
  split; [|done]. by exists [], [], [].
Qed.

Lemma index_inv_step items s s' :
  index_inv items s -> indexing_step garbage garbage_bool s s' -> index_inv items s'.
Proof.
  intros [(handled & ran & outs & Hi & Hp & Ho & Hx) Hs] Hstep. destruct Hstep as [d item rest h|rest x before item after x' Hrun|x]; cbn in *.
  - split; [|done]. exists (handled ++ [(d, item)]), ran, outs. rewrite Hi, <- app_assoc, taken_snoc. cbn. unfold fulltext_handle.
    split_and!; [done| |done|by destruct (_ =? _)]. destruct (_ =? _); cbn; rewrite ?app_nil_r, ?app_assoc; by rewrite Hp.
  - split; [|done]. destruct (run_adds _ _ _ Hrun) as (d & Hd & ->). rewrite Hx in Hd. cbn in Hd. rewrite document_of_call in Hd.
    exists handled, (ran ++ [item]), (outs ++ [d]). split_and!; [done| | |].
    + rewrite <- Hp. rewrite <- app_assoc. apply Permutation_app_head. cbn. by rewrite Permutation_middle.
    + rewrite !fmap_app, Ho. cbn. by rewrite Hd.
    + cbn. rewrite Hx. cbn. rewrite call_call, omap_app, fmap_app. by destruct d.
  - split; [|done]. exists handled, ran, outs. split_and!; try done. cbn. by rewrite Hx.
Qed.

Lemma index_inv_reachable items s :
  rtc (indexing_step garbage garbage_bool) (indexing_init zimName language items) s -> index_inv items s.
Proof. apply rtc_ind_r; [apply index_inv_init|]. intros ? ? _ ? ?. by eapply index_inv_step. Qed.

(** The index that is closed. *)
Lemma index_closed items s : index_inv items s -> stopped s = true ->
  exists ran outs,
    ran ≡ₚ taken items /\ (document_of <$> ran) = (Ok <$> outs) /\
    writableDatabase (ft_indexer (handler s)) = full_metadata ++ (AddDocument <$> omap id outs) ++ full_end.
Proof.
  intros [(handled & ran & outs & Hi & Hp & Ho & Hx) Hs] Hstop. destruct (Hs Hstop) as [Ht Hw].
  rewrite Ht, app_nil_r in Hi. subst handled. rewrite Hw, app_nil_r in Hp. rewrite Hstop in Hx.
  exists ran, outs. split_and!; [done..|]. rewrite Hx. cbn. unfold full_end. by rewrite <- !app_assoc.
Qed.

(** A document added is that of an item. *)
Lemma index_document items s nd : index_inv items s -> stopped s = true ->
  AddDocument nd ∈ writableDatabase (ft_indexer (handler s)) -> exists item, item ∈ taken items /\ document_of item = Ok (Some nd).
Proof.
  intros Hinv Hstop Hnd. destruct (index_closed items s Hinv Hstop) as (ran & outs & Hp & Ho & Hw). rewrite Hw in Hnd.
  apply elem_of_app in Hnd as [Hnd|Hnd]; [exfalso; unfold full_metadata in Hnd; by repeat (apply elem_of_cons in Hnd as [?|Hnd]); [..|apply not_elem_of_nil in Hnd]|].
  apply elem_of_app in Hnd as [Hnd|Hnd]; [|exfalso; unfold full_end in Hnd; by repeat (apply elem_of_cons in Hnd as [?|Hnd]); [..|apply not_elem_of_nil in Hnd]].
  apply list_elem_of_fmap in Hnd as (nd' & [= <-] & Hnd). apply list_elem_of_omap in Hnd as (o & Hout & Eo). cbn in Eo. subst o.
  assert (Hin : Ok (Some nd) ∈ document_of <$> ran) by (rewrite Ho; by apply list_elem_of_fmap_2).
  apply list_elem_of_fmap in Hin as (item & Eitem & Hitem). exists item. split; [by rewrite <- Hp|done].
Qed.

(** C13. Whatever the order in which the threads run the tasks, the index that is closed was given one document for each
    item in the user namespace that has index data, between the metadata and the end of the transaction: the tasks have all
    run, once each, none has failed, and the documents added are those they made. *)
Theorem index_complete items s :
  rtc (indexing_step garbage garbage_bool) (indexing_init zimName language items) s -> stopped s = true ->
  exists ran outs,
    ran ≡ₚ taken items /\ (document_of <$> ran) = (Ok <$> outs) /\
    writableDatabase (ft_indexer (handler s)) = full_metadata ++ (AddDocument <$> omap id outs) ++ full_end.
Proof. intros Hr Hs. by apply index_closed; [apply index_inv_reachable|]. Qed.

(** A state where the threads have something left to do. *)
Definition index_measure (s : indexing_state) : nat :=
  length (todo s) * 2 + length (waiting_tasks (handler s)) + (if stopped s then 0 else 1).

Lemma index_step_less s s' : indexing_step garbage garbage_bool s s' -> (index_measure s' < index_measure s)%nat.
Proof.
  destruct 1; unfold index_measure; cbn; rewrite ?length_app; cbn; [|lia..].
  unfold fulltext_handle. destruct (negb _); cbn; rewrite ?length_app; cbn; lia.
Qed.

Lemma index_step_possible items s :
  (forall item, item ∈ taken items -> exists d, document_of item = Ok d) -> index_inv items s -> stopped s = false ->
  exists s', indexing_step garbage garbage_bool s s'.
Proof.
  intros Hdoc [(handled & ran & outs & Hi & Hp & _ & Hx) _] Hns. destruct s as [[|[d item] rest] h st]; cbn in *; subst st.
  2: { eexists. apply step_handle. }
  destruct h as [x [|item after]]; [eexists; apply step_stop|].
  destruct (Hdoc item) as [d Hd].
  { rewrite app_nil_r in Hi. subst handled. rewrite <- Hp. apply elem_of_app. right. by left. }
  eexists. apply (step_task _ _ [] x [] item after). unfold IndexTask_run. cbn in Hx. subst x. rewrite document_of_call, Hd. done.
Qed.

End index.

(** * The results *)

Section results.
Context `{OS} `{LzmaLib} `{ZstdLib} `{Env} `{XapianUnicode} `{Icu} `{Xapian} `{IcuLocale} `{IndexingEnv}.

Lemma the_internal_ok w i : internal (Search.search w) = Some i -> the_internal w = (Ok i, w).
Proof. intros Hi. unfold the_internal, the_search. rewrite stm_gets, Hi. done. Qed.

(** The document of the match it points to; what was fetched stays. *)
Lemma get_document_ok w it m i :
  internal (Search.search w) = Some i -> document_fetched it = false -> it_match it = Ok m ->
  get_document it w = (Ok (document m, with_document (document m) it), w).
Proof.
  intros Hi Hf Hm. unfold get_document. rewrite Hf. erewrite stm_bind_Ok by by apply the_internal_ok.
  assert (Ho : (off_from_end it =? 0) = false).
  { apply Z.eqb_neq. intros E. unfold it_match in Hm. rewrite E, Z.sub_0_r in Hm. unfold Zlen in Hm.
    rewrite Nat2Z.id, lookup_ge_None_2 in Hm; [done|lia]. }
  rewrite Ho. unfold mbind, stm_bind, lift. by rewrite Hm.
Qed.

Lemma get_document_again w it d : get_document (with_document d it) w = (Ok (d, with_document d it), w).
Proof. done. Qed.

Lemma get_url_ok w it m i :
  internal (Search.search w) = Some i -> document_fetched it = false -> it_match it = Ok m ->
  get_url (Some it) w = (Ok (doc_data (document m), Some (with_document (document m) it)), w).
Proof.
  intros Hi Hf Hm. unfold get_url, if_internal. unfold mbind, stm_bind. by erewrite get_document_ok by done.
Qed.

Lemma get_value_ok w it m i legacy key slot :
  internal (Search.search w) = Some i -> document_fetched it = false -> it_match it = Ok m ->
  valuesmap (Search.search w) !! lit key = Some slot ->
  get_value legacy key it w = (Ok (Some (doc_value (document m) (u32 slot)), with_document (document m) it), w).
Proof.
  intros Hi Hf Hm Hv. unfold get_value, slot_of, the_search. unfold mbind, stm_bind, gets.
  rewrite bool_decide_eq_false_2 by (intros E; by rewrite E, lookup_empty in Hv). rewrite Hv. cbn. by erewrite get_document_ok by done.
Qed.

Lemma get_number_ok w it m i legacy key slot :
  internal (Search.search w) = Some i -> document_fetched it = false -> it_match it = Ok m ->
  valuesmap (Search.search w) !! lit key = Some slot ->
  get_number legacy key (Some it) w = (Ok (atoi_int (doc_value (document m) (u32 slot)), Some (with_document (document m) it)), w).
Proof.
  intros Hi Hf Hm Hv. unfold get_number, if_internal, the_search. unfold mbind, stm_bind, gets. erewrite get_value_ok by done.
  rewrite bool_decide_eq_false_2 by (intros E; by rewrite E, lookup_empty in Hv). done.
Qed.

(** A document of a database that has what was added. *)
Definition stores (nd : NewDocument) (d : Document) : Prop :=
  doc_data d = nd_data nd /\ forall slot v, (slot, v) ∈ nd_values nd -> doc_value d slot = v.

Lemma countWords_range fuel text l i n r : 0 <= n < 2 ^ 32 -> countWords_loop fuel text l i n = Ok r -> 0 <= r < 2 ^ 32.
Proof.
  revert i n. induction fuel as [|fuel IH]; intros i n Hn; cbn [countWords_loop].
  - destruct (i <? l); [done|]. by intros [= <-].
  - destruct (i <? l); [|by intros [= <-]]. destruct (countWords_skip _ _ _ _); try done. cbn. apply IH. apply Z.mod_pos_bound. lia.
Qed.

Lemma task_document_values garbage garbage_bool x item nd :
  task_document garbage garbage_bool x item = Ok (Some nd) ->
  exists n, (d ← Item_getIndexData garbage garbage_bool item; MyHtml.getWordCount d) = Ok n /\ 0 <= n < 2 ^ 32 /\
    nd_data nd = getPath item /\ (0, getTitle item) ∈ nd_values nd /\ (1, print_number n) ∈ nd_values nd.
Proof.
  unfold task_document. destruct (Item_getIndexData _ _ item) as [d| | |]; try done. cbn [mbind outcome_bind].
  destruct (negb (hasIndexData d)); [done|]. destruct (MyHtml.getWordCount d) as [n| | |] eqn:En; try done. cbn [mbind outcome_bind].
  destruct (getGeoPosition d) as [[hasGeo lat] long].
  destruct (if hasGeo then _ else _) as [geo| | |]; try done. cbn. intros [= <-]. exists n.
  split_and!; try done; [eapply countWords_range; [|exact En]; lia|eapply countWords_range; [|exact En]; lia|by left|by right; left].
Qed.

(** The values map of the index of the texts, read. *)
Definition full_values : gmap bytes Z := list_to_map [(lit "title", 0); (lit "wordcount", 1); (lit "geo.position", 2)].

Lemma full_values_read : read_valuesmap (lit "title:0;wordcount:1;geo.position:2") = Ok full_values.
Proof. by vm_compute. Qed.

(** C18. What the indexer puts in the index is what the search gives back: when the values map the indexer wrote is the one the search
    has read, and a result points to a document that has the data and the values of the one made for an item, then the
    result gives the path of the item, its title, and its number of words, as an [int]. *)
Theorem indexed_found garbage garbage_bool zimName language item nd text w it m :
  task_document garbage garbage_bool (fulltext_indexer zimName language) item = Ok (Some nd) ->
  SetMetadata (lit "valuesmap") text ∈ writableDatabase (indexingPrelude (fulltext_indexer zimName language)) ->
  read_valuesmap text = Ok (valuesmap (Search.search w)) ->
  is_Some (internal (Search.search w)) -> document_fetched it = false -> it_match it = Ok m -> stores nd (document m) ->
  exists n it',
    (d ← Item_getIndexData garbage garbage_bool item; MyHtml.getWordCount d) = Ok n /\
    get_url (Some it) w = (Ok (getPath item, Some it'), w) /\
    get_title (Some it) w = (Ok (getTitle item, Some it'), w) /\
    get_wordCount (Some it) w = (Ok (to_int n, Some it'), w).
Proof.
  intros Hnd Htext Hread [i Hi] Hf Hm [Hdata Hvals]. destruct (task_document_values _ _ _ _ _ Hnd) as (n & Hn & Hr & Hp & H0v & H1v).
  assert (Et : text = lit "title:0;wordcount:1;geo.position:2").
  { cbn in Htext. repeat (apply elem_of_cons in Htext as [E|Htext]; [try done; by injection E|]). by apply not_elem_of_nil in Htext. }
  rewrite Et, full_values_read in Hread. injection Hread as Hvm. exists n, (with_document (document m) it). split; [done|].
  split; [by rewrite (get_url_ok w it m i), Hdata, Hp|]. split.
  - unfold get_title, if_internal. unfold mbind, stm_bind.
    rewrite (get_value_ok w it m i 0 "title" 0) by (try done; by rewrite <- Hvm). cbn. change (u32 0) with 0. by rewrite (Hvals _ _ H0v).
  - unfold get_wordCount. rewrite (get_number_ok w it m i 3 "wordcount" 1) by (try done; by rewrite <- Hvm).
    change (u32 1) with 1. rewrite (Hvals _ _ H1v). by rewrite atoi_print by lia.
Qed.

(** ** A search that has begun *)

Lemma stm_bind_inv {S A B} (m : stm S A) (k : A -> stm S B) s b s' :
  (m ≫= k) s = (Ok b, s') -> exists a s1, m s = (Ok a, s1) /\ k a s1 = (Ok b, s').
Proof. unfold mbind, stm_bind. destruct (m s) as [[a| | |] s1]; try done. intros E. by exists a, s1. Qed.

(** What the user has set. *)
Definition settings (s : Search) : list nat * bytes * (float * float * float) * (Z * Z) * (bool * bool * bool) :=
  (m_archives s, query s, (s_latitude s, s_longitude s, s_distance s), (range_start s, range_end s),
   (suggestion_mode s, geo_query s, verbose s)).

(** A step that leaves a part of the search as it is. *)
Definition stays {T A} (part : Search -> T) (m : stm World A) : Prop :=
  forall w r w', m w = (r, w') -> part (Search.search w') = part (Search.search w).

Section stays.
Context {T : Type} (part : Search -> T).

Lemma stays_ret {A} (a : A) : stays part (mret a).
Proof. by intros w r w' [= _ <-]. Qed.
Lemma stays_lift {A} (m : outcome A) : stays part (lift m).
Proof. by intros w r w' [= _ <-]. Qed.
Lemma stays_gets {A} (g : World -> A) : stays part (gets g).
Proof. by intros w r w' [= _ <-]. Qed.
Lemma stays_bind {A B} (m : stm World A) (k : A -> stm World B) : stays part m -> (forall a, stays part (k a)) -> stays part (m ≫= k).
Proof.
  intros Hm Hk w r w'. unfold mbind, stm_bind. destruct (m w) as [[a| | |] w1] eqn:E; intros E2;
    [etrans; [by eapply Hk|by eapply Hm]|..]; injection E2 as _ <-; by eapply Hm.
Qed.
Lemma stays_catching {A} (m : stm World A) p h : stays part m -> (forall e, stays part (h e)) -> stays part (catching m p h).
Proof.
  intros Hm Hh w r w'. unfold catching. destruct (m w) as [[a|e| |] w1] eqn:E; try (intros [= _ <-]; by eapply Hm).
  destruct (p e); [|intros [= _ <-]; by eapply Hm]. intros E2. etrans; [by eapply Hh|by eapply Hm].
Qed.
Lemma stays_archive {A} a (m : stm FileImpl A) : stays part (on_archive a m).
Proof. intros w r w'. unfold on_archive. destruct (impls w !! a) as [f|]; [|by intros [= _ <-]]. by destruct (m f); intros [= _ <-]. Qed.
Lemma stays_search f : (forall s, part (f s) = part s) -> stays part (on_search f).
Proof. intros Hf w r w' [= _ <-]. apply Hf. Qed.

End stays.

Create HintDb stays.
#[local] Hint Resolve stays_ret stays_lift stays_gets stays_archive : stays.
Ltac stays :=
  repeat first
    [ progress eauto with stays
    | apply stays_search; by intros []
    | apply stays_bind; intros
    | apply stays_catching; intros
    | match goal with |- stays _ (match ?x with _ => _ end) => destruct x end ].

Lemma stays_internal {T} (part : Search -> T) : stays part the_internal.
Proof. unfold the_internal, the_search. stays. Qed.
#[local] Hint Resolve stays_internal : stays.

(** Nothing changes what the user has set. *)
Lemma stays_load archives l : stays settings (load_archives archives l).
Proof.
  revert l. induction archives as [|a archives IH]; intros l; cbn [load_archives]; [stays|]. apply stays_bind; [|intros; apply IH].
  unfold load_archive, the_search, set_internal. stays.
Qed.

Lemma stays_begin : stays settings Search_begin.
Proof.
  pose proof stays_load. unfold Search_begin, run_query, values_at, results_begin, set_estimated, the_search, set_internal. stays.
Qed.

(** The slots are looked up in the values map, and it alone may change. *)
Lemma stays_values key : stays (fun s => (internal s, has_database s, settings s)) (values_at key).
Proof. unfold values_at, the_search. stays. Qed.

(** What a begun search holds: the matches of its range in the databases that were opened. *)
Definition begun (w : World) (i : InternalData) : Prop :=
  let s := Search.search w in
  internal s = Some i /\ search_started s = true /\ has_database s = true /\
  estimated_matches_number s = to_int (matches_estimated (results i)) /\
  exists q sort collapse, get_mset (all_databases i) q sort collapse (u32 (range_start s)) (u32 (range_end s - range_start s)) = Ok (results i).

Lemma on_search_inv f w r w' : on_search f w = (r, w') -> w' = mkWorld (impls w) (f (Search.search w)).
Proof. by intros [= _ <-]. Qed.

Lemma the_internal_inv w i w' : the_internal w = (Ok i, w') -> w' = w /\ internal (Search.search w) = Some i.
Proof. unfold the_internal, the_search. rewrite stm_gets. destruct (internal (Search.search w)); by intros [= -> <-]. Qed.

(** The query leaves the databases as they are. *)
Lemma run_query_begun q w w' :
  has_database (Search.search w) = true -> run_query q w = (Ok tt, w') ->
  exists i, begun w' i /\ all_databases <$> internal (Search.search w) = Some (all_databases i).
Proof.
  intros Hdb Hrun. unfold run_query, the_search in Hrun. rewrite stm_gets in Hrun.
  apply stm_bind_inv in Hrun as (q1 & w1 & Hgeo & Hrun). apply stm_bind_inv in Hrun as (sort & w2 & Hsort & Hrun).
  rewrite stm_gets in Hrun. apply stm_bind_inv in Hrun as (i & w3 & Hi & Hrun). apply the_internal_inv in Hi as [-> Hi].
  apply stm_bind_inv in Hrun as (? & ? & [= _ <-] & Hrun). apply stm_bind_inv in Hrun as (ms & ? & [= Hms <-] & Hrun).
  apply stm_bind_inv in Hrun as (? & w3 & Hset%on_search_inv & Hrun%on_search_inv). subst w3 w'.
  exists (mkInternal (xapian_databases i) (all_databases i) ms). set (part := fun s => (internal s, has_database s, settings s)).
  assert (Hp : part (Search.search w2) = part (Search.search w)).
  { etrans; [eapply (_ : stays part _), Hsort|eapply (_ : stays part _), Hgeo]. Unshelve. all: pose proof stays_values; stays. }
  injection Hp as Hp1 Hp2 _. split; [split_and!; try done; [by cbn; rewrite Hp2|]|by rewrite <- Hp1, Hi].
  by exists q1, sort, (if suggestion_mode (Search.search w2) then u32 <$> valuesmap (Search.search w2) !! lit "title" else None).
Qed.

Lemma begin_begun w it w1 :
  search_started (Search.search w) = false -> Search_begin w = (Ok (Some it), w1) ->
  exists i, begun w1 i /\ it = IteratorData_new (results i) (Zlen (matches (results i))) /\
    exists l w2, load_archives (m_archives (Search.search w)) (mkLocals true false [] []) w = (Ok l, w2) /\
      all_databases <$> internal (Search.search w2) = Some (all_databases i).
Proof.
  intros Hst Hb. unfold Search_begin, the_search in Hb. rewrite stm_gets, Hst in Hb.
  apply stm_bind_inv in Hb as (l & w2 & Hload & Hb). rewrite stm_gets in Hb. destruct (has_database (Search.search w2)) eqn:Hdb; [|done].
  cbn [negb] in Hb. apply stm_bind_inv in Hb as (i & w3 & Hi%the_internal_inv & Hb). destruct Hi as [-> Hi].
  cbv zeta in Hb. destruct (parse_query _ _ _ _ _ _) as [q|]; [|done].
  apply stm_bind_inv in Hb as ([] & w3 & Hrun & Hb). destruct (run_query_begun q w2 w3 Hdb Hrun) as (i' & Hi' & Hdbs). exists i'.
  unfold results_begin in Hb. apply stm_bind_inv in Hb as (i1 & w4 & Hi1%the_internal_inv & Hb). destruct Hi1 as [-> Hi1].
  destruct Hi' as (Hint & Hrest). rewrite Hint in Hi1. injection Hi1 as <-. injection Hb as <- <-. split_and!; try done. by exists l, w2.
Qed.

(** An archive whose index opens adds it to the databases. *)
Lemma load_one w a f db f' i l w2 :
  impls w !! a = Some f -> open_index (suggestion_mode (Search.search w)) f = (Ok (false, Some db), f') ->
  internal (Search.search w) = Some i ->
  load_archives [a] (mkLocals true false [] []) w = (Ok l, w2) ->
  all_databases <$> internal (Search.search w2) = Some (all_databases i ++ [db]).
Proof.
  intros Ha Hopen Hi Hload. cbn [load_archives] in Hload. apply stm_bind_inv in Hload as (l1 & w3 & Hload & [= _ <-]).
  unfold load_archive, the_search in Hload. rewrite stm_gets in Hload.
  apply stm_bind_inv in Hload as ([nf odb] & w4 & Harch & Hload). unfold on_archive in Harch. rewrite Ha, Hopen in Harch.
  injection Harch as <- <- <-. cbn [fst snd first hasNewSuggestionFormat language stopwords] in Hload. cbv iota beta in Hload.
  apply stm_bind_inv in Hload as (l2 & w5 & Hmeta & Hload). apply stm_bind_inv in Hload as (i1 & w6 & Hi1%the_internal_inv & Hload).
  destruct Hi1 as [-> Hi1]. apply stm_bind_inv in Hload as (? & w7 & Hset%on_search_inv & Hload).
  apply stm_bind_inv in Hload as (? & w8 & Hdb%on_search_inv & [= _ <-]). subst w8 w7. cbn. do 3 f_equal.
  assert (E : internal (Search.search w5) = internal (Search.search (mkWorld (<[a := f']> (impls w)) (Search.search w)))).
  { refine ((_ : stays internal _) _ _ _ Hmeta). stays. }
  cbn [Search.search] in E. rewrite E, Hi in Hi1. by injection Hi1 as ->.
Qed.

(** A search that has begun begins again, and ends, with its results. *)
Lemma begun_begin w i : begun w i -> Search_begin w = (Ok (Some (IteratorData_new (results i) (Zlen (matches (results i))))), w).
Proof.
  intros (Hi & Hs & _). unfold Search_begin, the_search. rewrite stm_gets, Hs. unfold results_begin.
  by erewrite stm_bind_Ok by by apply the_internal_ok.
Qed.

Lemma begun_end w i : begun w i -> Search_end w = (Ok (Some (IteratorData_new (results i) 0)), w).
Proof.
  intros (Hi & _ & Hd & _). unfold Search_end, the_search. rewrite stm_gets, Hd. cbn [negb].
  by erewrite stm_bind_Ok by by apply the_internal_ok.
Qed.

Lemma urls_loop_ok fuel ms k d urls w i :
  internal (Search.search w) = Some i -> (k <= length (matches ms))%nat -> Zlen (matches ms) < 2 ^ 32 -> (k <= fuel)%nat ->
  urls_loop fuel (Some (mkIterator ms (Z.of_nat k) d false None)) (Some (IteratorData_new ms 0)) urls w =
  (Ok (urls ++ (doc_data ∘ document <$> drop (length (matches ms) - k) (matches ms))), w).
Proof.
  intros Hi Hk Hlen. revert k d urls Hk. induction fuel as [|fuel IH]; intros k d urls Hk Hf.
  { assert (k = O) as -> by lia. cbn. by rewrite Nat.sub_0_r, drop_all, app_nil_r. }
  cbn [urls_loop iterator_eq off_from_end IteratorData_new]. destruct k as [|k]; [by rewrite Nat.sub_0_r, drop_all, app_nil_r|].
  rewrite (proj2 (Z.eqb_neq _ _)) by lia. set (it := mkIterator _ _ _ _ _).
  destruct (lookup_lt_is_Some_2 (matches ms) (length (matches ms) - S k)) as [m Hm]; [lia|].
  assert (Him : it_match it = Ok m).
  { unfold it_match, it. cbn. unfold Zlen. replace (Z.to_nat _) with (length (matches ms) - S k)%nat by lia. rewrite Hm. by decide_bool. }
  erewrite stm_bind_Ok by by apply (get_url_ok w it m i). cbn [iterator_next with_document off_from_end]. unfold iterator_moved. cbn.
  replace (u32 _) with (Z.of_nat k) by (unfold Zlen in Hlen; rewrite u32_small; lia).
  rewrite IH by lia. rewrite (drop_S _ _ _ Hm). replace (S (length (matches ms) - S k)) with (length (matches ms) - k)%nat by lia.
  by rewrite <- app_assoc.
Qed.

(** What Xapian promises of a set of matches: it has at most the number asked for, and the documents of several databases are
    numbered in turn: document [d] of database [k] of [n] is number [(d - 1) * n + k + 1]. *)
Class XapianSpec : Type := {
  db_document : database -> Z -> Document;
  mset_size dbs q sort collapse from max ms : 0 <= max -> get_mset dbs q sort collapse from max = Ok ms -> Zlen (matches ms) <= max;
  mset_docids dbs q sort collapse from max ms m :
    get_mset dbs q sort collapse from max = Ok ms -> m ∈ matches ms ->
    exists k db d, dbs !! k = Some db /\ 0 < d /\ docid m = (d - 1) * Zlen dbs + Z.of_nat k + 1 /\ docid m < 2 ^ 32 /\
      document m = db_document db d;
}.

Lemma begun_walk `{!XapianSpec} w i fuel : begun w i -> (length (matches (results i)) <= fuel)%nat ->
  urls_loop fuel (Some (IteratorData_new (results i) (Zlen (matches (results i))))) (Some (IteratorData_new (results i) 0)) [] w =
    (Ok (doc_data ∘ document <$> matches (results i)), w).
Proof.
  intros (Hint & _ & _ & _ & q & sort & collapse & Hms) Hf.
  pose proof (mset_size _ _ _ _ _ _ _ (proj1 (Z.mod_pos_bound _ (2 ^ 32) ltac:(lia))) Hms) as Hsz.
  assert (Hlen : Zlen (matches (results i)) < 2 ^ 32) by (eapply Z.le_lt_trans; [exact Hsz|]; apply Z.mod_pos_bound; lia).
  pose proof (urls_loop_ok fuel (results i) (length (matches (results i))) Document_new [] w i Hint ltac:(done) Hlen Hf) as E.
  by rewrite Nat.sub_diag in E.
Qed.

(** C17. The results are walked from the first to the last: after a begin that gives an iterator, the set has the matches Xapian found for the
    range in the databases of the search; the loop from [begin] to [end] comes to its end and gives the data of each match, in order; the search
    can be begun again, with the same iterator; and what the user has set is unchanged. *)
Theorem results_walked `{!XapianSpec} w it w1 fuel :
  search_started (Search.search w) = false -> Search_begin w = (Ok (Some it), w1) ->
  exists i q sort collapse last,
    let s := Search.search w in
    get_mset (all_databases i) q sort collapse (u32 (range_start s)) (u32 (range_end s - range_start s)) = Ok (results i) /\
    internal (Search.search w1) = Some i /\ settings (Search.search w1) = settings s /\
    Search_end w1 = (Ok last, w1) /\
    ((length (matches (results i)) <= fuel)%nat ->
     urls_loop fuel (Some it) last [] w1 = (Ok (doc_data ∘ document <$> matches (results i)), w1)) /\
    Search_begin w1 = (Ok (Some it), w1) /\
    get_matches_estimated w1 = (Ok (to_int (matches_estimated (results i))), w1).
Proof.
  intros Hst Hb. destruct (begin_begun w it w1 Hst Hb) as (i & Hi & -> & _). pose proof Hi as (Hint & _ & _ & Hest & q & sort & collapse & Hms).
  pose proof (stays_begin _ _ _ Hb) as Hset. injection Hset as Hset1 Hset2 Hset3 Hset4 Hset5 Ha Hz Hset6.
  exists i, q, sort, collapse, (Some (IteratorData_new (results i) 0)). cbv zeta. rewrite <- Ha, <- Hz. split_and!.
  - done.
  - done.
  - by apply (stays_begin _ _ _ Hb).
  - by apply begun_end.
  - by apply begun_walk.
  - by apply begun_begin.
  - unfold get_matches_estimated, the_search. erewrite stm_bind_Ok by by apply begun_begin. rewrite stm_gets. by rewrite Hest.
Qed.

(** The archive of a match, when each archive has given a database. *)
Lemma databasenumber_ok w it m k d :
  it_match it = Ok m -> let n := Zlen (m_archives (Search.search w)) in
  0 <= k < n -> n < 2 ^ 31 -> 0 < d -> docid m = (d - 1) * n + k + 1 -> docid m < 2 ^ 32 ->
  get_databasenumber it w = (Ok k, w).
Proof.
  intros Hm n Hk Hn Hd Hdoc Hlt. assert (En : Zlen (m_archives (Search.search w)) = n) by done. clearbody n. unfold get_databasenumber, the_search. rewrite (stm_lift_Ok _ _ _ m Hm), stm_gets.
  destruct (m_archives (Search.search w)) eqn:Ea; [unfold Zlen in En; cbn in En; lia|]. rewrite <- Ea in *. rewrite En.
  unfold lift. do 2 f_equal. rewrite u32_small by nia. replace (docid m - 1) with (k + (d - 1) * n) by lia.
  rewrite Z_mod_plus_full, Z.mod_small by lia. unfold to_int. rewrite u32_small by lia. by decide_bool.
Qed.

(** C39. The entry of a result is the one of the archive its document comes from, when every archive of the search has given a
    database: the match of document [d] of database number [k] has [k] as file index, and the entry is what archive number [k] finds at the path the
    document has as its data. *)
Theorem result_archive `{!XapianSpec} w i it m :
  let s := Search.search w in
  begun w i -> length (all_databases i) = length (m_archives s) -> Zlen (m_archives s) < 2 ^ 31 ->
  it_mset it = results i -> it_match it = Ok m -> document_fetched it = false -> _entry it = None ->
  exists k archive db d,
    m_archives s !! k = Some archive /\ all_databases i !! k = Some db /\ document m = db_document db d /\
    get_fileIndex (Some it) w = (Ok (Z.of_nat k, Some it), w) /\
    forall f e f', impls w !! archive = Some f -> getEntryByPath (doc_data (document m)) f = (Ok e, f') ->
      exists it', iterator_get (Some it) w = (Ok ((archive, e), Some it'), mkWorld (<[archive := f']> (impls w)) s).
Proof.
  intros s (Hint & _ & _ & _ & q & sort & collapse & Hms) Hlen Hn Hset Hm Hf He.
  assert (Hin : m ∈ matches (results i)).
  { unfold it_match in Hm. rewrite Hset in Hm. destruct (_ !! _) as [m'|] eqn:El; [|done]. destruct (_ <=? _); [|done].
    injection Hm as <-. by eapply list_elem_of_lookup_2. }
  destruct (mset_docids _ _ _ _ _ _ _ _ Hms Hin) as (k & db & d & Hk & Hd & Hdoc & Hlt & Hdb).
  destruct (lookup_lt_is_Some_2 (m_archives s) k) as [a Ha]; [rewrite <- Hlen; by eapply lookup_lt_Some|].
  assert (Hnum : get_databasenumber it w = (Ok (Z.of_nat k), w)).
  { apply (databasenumber_ok w it m (Z.of_nat k) d); try done; fold s; unfold Zlen in *; [apply lookup_lt_Some in Ha; lia|].
    by rewrite <- Hlen. }
  exists k, a, db, d. split_and!; [done..| |].
  - unfold get_fileIndex, if_internal. unfold mbind, stm_bind. by rewrite Hnum.
  - intros f e f' Hfa He'. eexists. unfold iterator_get, get_entry, the_search. rewrite He. unfold mbind, stm_bind, gets. rewrite Hnum.
    fold s. rewrite Nat2Z.id, Ha. erewrite get_document_ok by done. unfold on_archive. rewrite Hfa, He'. done.
Qed.

(** C40. A query that does not parse ends in a loop without end: [begin] gives a null iterator, but [end], as a database was
    opened, one that is not null, so that they never compare equal; moving the null one changes nothing, and dereferencing it is undefined. *)
Theorem invalid_query_loops w l w2 i :
  let s := Search.search w in
  search_started s = false -> load_archives (m_archives s) (mkLocals true false [] []) w = (Ok l, w2) ->
  has_database (Search.search w2) = true -> internal (Search.search w2) = Some i ->
  (forall stemmer stopper partial prefix, parse_query (all_databases i) stemmer stopper (query s) partial prefix = None) ->
  exists w1 last,
    Search_begin w = (Ok None, w1) /\ Search_end w1 = (Ok (Some last), w1) /\
    iterator_get None w1 = (Undef, w1) /\
    forall fuel urls, urls_loop fuel None (Some last) urls w1 = (Diverge, w1).
Proof.
  intros s Hst Hload Hdb Hi Hq. pose proof (stays_load _ _ _ _ _ Hload) as Hset. injection Hset as _ Hquery _ _ _ _ _ _ _ _.
  set (w1 := mkWorld (impls w2) (with_results (internal (Search.search w2)) (valuesmap (Search.search w2)) (prefixes (Search.search w2))
    (search_started (Search.search w2)) (has_database (Search.search w2)) 0 (Search.search w2))).
  exists w1, (IteratorData_new (results i) 0). split_and!.
  - unfold Search_begin, the_search. rewrite stm_gets. fold s. rewrite Hst. erewrite stm_bind_Ok by exact Hload. rewrite stm_gets, Hdb. cbn [negb].
    erewrite stm_bind_Ok by by apply the_internal_ok. cbv zeta. rewrite Hquery, Hq. done.
  - unfold Search_end, the_search. rewrite stm_gets. unfold w1. cbn. rewrite Hdb. cbn [negb].
    erewrite stm_bind_Ok by by apply the_internal_ok. done.
  - done.
  - intros fuel. induction fuel as [|fuel IH]; intros urls; [done|]. cbn [urls_loop iterator_eq]. unfold get_url, if_internal. apply IH.
Qed.

(** What is set after the first begin is ignored. *)
Lemma stale_results w i (f : Search -> Search) :
  begun w i -> ((exists q, f = set_query q) \/ (exists a b, f = set_range a b) \/ exists a, f = add_archive a) ->
  (Search_begin (mkWorld (impls w) (f (Search.search w)))).1 = Ok (Some (IteratorData_new (results i) (Zlen (matches (results i))))).
Proof.
  intros (Hi & Hs & _) Hf. unfold Search_begin, the_search. rewrite stm_gets.
  assert (Hk : search_started (f (Search.search w)) = true /\ internal (f (Search.search w)) = Some i).
  { by destruct Hf as [[q ->]|[(a & b & ->)|[a ->]]]. }
  destruct Hk as [Hk1 Hk2]. cbn [Search.search]. rewrite Hk1. unfold results_begin. by erewrite stm_bind_Ok by by apply the_internal_ok.
Qed.

(** After an assignment the search has no place for the databases. *)
Lemma assigned_search_null w a f nf db f' l :
  internal (Search.search w) = None -> impls w !! a = Some f ->
  open_index (suggestion_mode (Search.search w)) f = (Ok (nf, Some db), f') -> forall r, (load_archive a l w).1 <> Ok r.
Proof.
  intros Hi Ha Ho r. destruct (load_archive a l w) as [o w'] eqn:E. cbn [fst]. intros ->. unfold load_archive, the_search in E. rewrite stm_gets in E.
  erewrite stm_bind_Ok in E by (unfold on_archive; by rewrite Ha, Ho). apply stm_bind_inv in E as (l1 & w1 & El & E).
  apply stm_bind_inv in E as (i & w2 & Hw%the_internal_inv & _). destruct Hw as [_ Hw].
  assert (Hk : internal (Search.search w1) = internal (Search.search (mkWorld (<[a := f']> (impls w)) (Search.search w)))).
  { eapply (_ : stays internal _). exact El. Unshelve. stays. }
  cbn in Hk. by rewrite Hk, Hi in Hw.
Qed.

End results.

(** * Two archives, one with an index *)

Definition idx_mimes : bytes := mime_bytes [lit "text/plain"; lit "application/octet-stream+xapian"] ++ [0].
Definition idx_d0 : bytes := dirent_bytes 0 67 0 [0; 0] (lit "a") [].
Definition idx_d1 : bytes := dirent_bytes 1 88 0 [0; 1] (lit "fulltext/xapian") [].
Definition idx_cluster : bytes := cluster_info zimcompNone false :: cluster_payload false [lit "hello"; lit "INDEX"].

Definition ip_d0 : Z := 80 + Zlen idx_mimes.
Definition ip_d1 : Z := ip_d0 + Zlen idx_d0.
Definition ip_cluster : Z := ip_d1 + Zlen idx_d1.
Definition ip_url : Z := ip_cluster + Zlen idx_cluster.
Definition ip_cptr : Z := ip_url + 16.
Definition ip_title : Z := ip_cptr + 8.
Definition ip_sum : Z := ip_title + 8.

Definition idx_header : Fileheader :=
  mkFileheader 5 1 (repeat 7 16) 2 ip_title ip_url 80 1 ip_cptr (2 ^ 32 - 1) (2 ^ 32 - 1) ip_sum.
Definition idx_body : bytes :=
  Fileheader_write idx_header ++ idx_mimes ++ idx_d0 ++ idx_d1 ++ idx_cluster ++
  concat (map (toLittleEndian 8) [ip_d0; ip_d1]) ++ toLittleEndian 8 ip_cluster ++ concat (map (toLittleEndian 4) [0; 1]).
Definition idx_archive : bytes := Eval vm_compute in idx_body ++ md5 idx_body.

Definition two_os : OS := os_of [(lit "z", sample_archive); (lit "y", idx_archive)] max_read.
#[local] Existing Instance two_os.
#[local] Existing Instance copy_lzma.
#[local] Existing Instance copy_zstd.
#[local] Existing Instance no_env.
#[local] Existing Instance xapian_unicode.

Definition opened (name : string) : FileImpl := match FileImpl_open (lit name) with Ok f => f | _ => sample_impl end.
Definition plain_impl : FileImpl := Eval vm_compute in opened "z".
Definition idx_impl : FileImpl := Eval vm_compute in opened "y".

(** A database is the position of its index; its first document is that of the entry [a]. *)
Definition sample_document : Document :=
  mkDocument (lit "a") (fun slot => if slot =? 0 then lit "A title" else if slot =? 1 then lit "3" else []).
#[local] Instance sample_xapian : Xapian := {|
  database := Z;
  db_open _ offset := Some offset;
  get_metadata _ key := if bool_decide (key = lit "valuesmap") then lit "title:0;wordcount:1;geo.position:2" else [];
  stem_known _ := false;
  query_t := bytes;
  parse_query _ _ _ text _ _ := if bool_decide (text = lit "AND") then None else Some text;
  geo_posting _ _ _ _ := Throw (runtime_error "latitude");
  op_filter q _ := q;
  get_mset dbs _ _ _ _ max :=
    let n := Zlen dbs in
    Ok (mkMSet (if n <? 2 ^ 32 then take (Z.to_nat max) (imap (fun k _ => mkMatch (Z.of_nat k + 1) 100 sample_document) dbs) else []) n);
  snippet _ text _ := text;
|}.
#[local] Instance sample_locale : IcuLocale := {| getLanguage l := take 2 l |}.

#[local] Instance sample_xapian_spec : @XapianSpec sample_xapian.
Proof.
  refine {| db_document := fun _ _ => sample_document |}.
  - intros dbs q sort collapse from max ms Hmax [= <-]. cbn. destruct (_ <? _); [|done].
    unfold Zlen. rewrite length_take. lia.
  - intros dbs q sort collapse from max ms m [= <-]. cbn. destruct (Z.ltb_spec (@Zlen Z dbs) (2 ^ 32)); [|by intros ?%not_elem_of_nil].
    intros (k & Hk)%list_elem_of_lookup. apply lookup_take_Some in Hk as [Hk _]. rewrite list_lookup_imap in Hk.
    apply fmap_Some in Hk as (db & Edb & ->). exists k, db, 1. split_and!; try done; cbn [docid percent]; try lia.
    apply lookup_lt_Some in Edb. unfold Zlen in *. lia.
Defined.

Definition search_world (archives : list nat) (text : string) : World :=
  mkWorld [plain_impl; idx_impl] (set_range 0 10 (set_query (lit text) (Search_new archives))).

Definition after_begin (archives : list nat) (text : string) : World := (Search_begin (search_world archives text)).2.

Lemma valuesmap_roundtrip_witness :
  read_valuesmap (lit "title:0;wordcount:1;geo.position:2") =
    Ok (list_to_map [(lit "title", 0); (lit "wordcount", 1); (lit "geo.position", 2)]).
Proof.
  apply (valuesmap_roundtrip [(lit "title", 0); (lit "wordcount", 1); (lit "geo.position", 2)]); [|by vm_compute].
  repeat constructor; try done; by vm_compute.
Defined.

(** ** An index of two pages *)

#[local] Instance sample_icu : Icu := {| transliterate text := text |}.
#[local] Instance sample_resources : IndexingEnv := {| getResource _ := None; latlong_serialise _ _ := Throw (runtime_error "latitude") |}.

Definition page_a : WItem := StringItem_create (lit "a") (lit "text/html") (lit "A title") (lit "<title>A title</title><body>two words").
Definition page_b : WItem := StringItem_create (lit "b") (lit "text/html") (lit "B") (lit "NOINDEX").
Definition sample_items : list (WDirent.t * WItem) :=
  [(WDirent.new 67 (lit "a"), page_a); (WDirent.new 77 (lit "Title"), page_b); (WDirent.new 67 (lit "b"), page_b)].

(** The second task runs before the first. *)
Definition task_result (item : WItem) (x : XapianIndexer) : XapianIndexer :=
  match IndexTask_run (S754_zero false) false item x with Ok x' => x' | _ => x end.
Definition built_index : indexing_state :=
  mkIndexing [] (fulltext_stop (mkFullText (task_result page_a (task_result page_b
    (ft_indexer (fulltext_start (FullTextXapianHandler_new (lit "z") (lit "eng")))))) [])) true.

Lemma index_built :
  rtc (indexing_step (S754_zero false) false) (indexing_init (lit "z") (lit "eng") sample_items) built_index.
Proof.
  do 3 (eapply rtc_l; [apply step_handle|]). cbn [fulltext_handle].
  eapply rtc_l; [apply (step_task _ _ [] _ [page_a] page_b [] (task_result page_b (ft_indexer (fulltext_start (FullTextXapianHandler_new (lit "z") (lit "eng")))))); by vm_compute|].
  eapply rtc_l; [apply (step_task _ _ [] _ [] page_a [] (task_result page_a (task_result page_b (ft_indexer (fulltext_start (FullTextXapianHandler_new (lit "z") (lit "eng"))))))); by vm_compute|].
  eapply rtc_l; [apply step_stop|]. apply rtc_refl.
Qed.

Lemma index_complete_witness :
  exists ran outs, ran ≡ₚ [page_a; page_b] /\
    writableDatabase (ft_indexer (handler built_index)) =
      full_metadata (lit "z") (lit "eng") ++ (AddDocument <$> omap id outs) ++ full_end (lit "z").
Proof.
  destruct (index_complete (S754_zero false) false (lit "z") (lit "eng") sample_items built_index) as (ran & outs & Hran & _ & Hdb).
  - apply index_built.
  - done.
  - exists ran, outs. split; [exact Hran|exact Hdb].
Defined.


Lemma some_results : results <$> internal (Search.search (after_begin [1%nat] "hello")) = Some (mkMSet [mkMatch 1 100 sample_document] 1).
Proof. by vm_compute. Qed.

Lemma after_begin_ok archives text it :
  (Search_begin (search_world archives text)).1 = Ok it -> Search_begin (search_world archives text) = (Ok it, after_begin archives text).
Proof. unfold after_begin. destruct (Search_begin _). cbn. by intros ->. Qed.

Lemma indexed_found_witness :
  let w := after_begin [1%nat] "hello" in
  exists n it', get_url (Some (IteratorData_new (mkMSet [mkMatch 1 100 sample_document] 1) 1)) w = (Ok (lit "a", Some it'), w) /\
    get_wordCount (Some (IteratorData_new (mkMSet [mkMatch 1 100 sample_document] 1) 1)) w = (Ok (to_int n, Some it'), w).
Proof.
  intros w.
  assert (Hnd : exists nd, task_document (S754_zero false) false (fulltext_indexer (lit "z") (lit "eng")) page_a = Ok (Some nd) /\ stores nd sample_document).
  { eexists. split; [vm_compute; reflexivity|]. split; [by vm_compute|]. cbn [nd_values].
    intros slot v [[= -> ->]|[[= -> ->]|[]%not_elem_of_nil]%elem_of_cons]%elem_of_cons; by vm_compute. }
  destruct Hnd as (nd & Hnd & Hst).
  destruct (indexed_found (S754_zero false) false (lit "z") (lit "eng") page_a nd (lit "title:0;wordcount:1;geo.position:2") w
    (IteratorData_new (mkMSet [mkMatch 1 100 sample_document] 1) 1) (mkMatch 1 100 sample_document)) as (n & it' & _ & Hu & _ & Hc).
  - exact Hnd.
  - cbn. by right; left.
  - by vm_compute.
  - apply (fmap_is_Some results). subst w. rewrite some_results. by eexists.
  - done.
  - by vm_compute.
  - exact Hst.
  - exists n, it'. split; [exact Hu|exact Hc].
Defined.

Definition two_matches : MSet := mkMSet [mkMatch 1 100 sample_document; mkMatch 2 100 sample_document] 2.

Lemma two_results : results <$> internal (Search.search (after_begin [1%nat; 1%nat] "hello")) = Some two_matches.
Proof. by vm_compute. Qed.

Lemma results_walked_witness :
  let w1 := after_begin [1%nat; 1%nat] "hello" in
  exists last, Search_end w1 = (Ok last, w1) /\
    urls_loop 2 (Some (IteratorData_new two_matches 2)) last [] w1 = (Ok [lit "a"; lit "a"], w1).
Proof.
  intros w1. pose proof two_results as Hr.
  destruct (results_walked (search_world [1%nat; 1%nat] "hello") (IteratorData_new two_matches 2) w1 2)
    as (i & q & sort & collapse & last & _ & Hi & _ & He & Hl & _).
  - done.
  - apply after_begin_ok. by vm_compute.
  - fold w1 in Hr. rewrite Hi in Hr. cbn in Hr. injection Hr as Hr. rewrite Hr in Hl.
    exists last. split; [exact He|]. apply Hl. cbn. lia.
Defined.

(** The begun search, without the proof that it has been. *)
Lemma begun_walked : exists i, begun (after_begin [1%nat; 1%nat] "hello") i /\ results i = two_matches /\ length (all_databases i) = 2%nat.
Proof.
  destruct (begin_begun (search_world [1%nat; 1%nat] "hello") (IteratorData_new two_matches 2) (after_begin [1%nat; 1%nat] "hello")) as (i & Hb & Hi).
  - done.
  - apply after_begin_ok. by vm_compute.
  - exists i. pose proof two_results as Hr. pose proof Hb as (Hint & _). rewrite Hint in Hr. cbn in Hr. split; [exact Hb|]. split; [by injection Hr|].
    assert (Hd : length ∘ all_databases <$> internal (Search.search (after_begin [1%nat; 1%nat] "hello")) = Some 2%nat) by by vm_compute.
    rewrite Hint in Hd. by injection Hd.
Qed.

(** The entry of the second result is the one of the second archive. *)
Lemma result_archive_witness :
  let w := after_begin [1%nat; 1%nat] "hello" in
  let it := IteratorData_new two_matches 1 in
  exists archive, m_archives (Search.search w) !! 1%nat = Some archive /\ get_fileIndex (Some it) w = (Ok (1, Some it), w).
Proof.
  intros w it. destruct begun_walked as (i & Hb & Hr & Hd).
  destruct (result_archive w i it (mkMatch 2 100 sample_document)) as (k & a & db & d & Ha & _ & _ & Hk & _).
  - exact Hb.
  - rewrite Hd. by vm_compute.
  - by vm_compute.
  - by rewrite Hr.
  - by vm_compute.
  - done.
  - done.
  - assert (Hk1 : (get_fileIndex (Some it) w).1 = Ok (1, Some it)) by by vm_compute.
    rewrite Hk in Hk1. injection Hk1 as Hk1. assert (k = 1%nat) as -> by lia. exists a. split; [exact Ha|exact Hk].
Defined.

Lemma invalid_query_loops_witness :
  exists w1 last, Search_begin (search_world [1%nat] "AND") = (Ok None, w1) /\ iterator_get None w1 = (Undef, w1) /\
    urls_loop 1000 None (Some last) [] w1 = (Diverge, w1).
Proof.
  set (w := search_world [1%nat] "AND"). destruct (load_archives [1%nat] (mkLocals true false [] []) w) as [r w2] eqn:El.
  assert (Hr : exists l, r = Ok l) by (apply (f_equal fst) in El; cbn [fst] in El; rewrite <- El; vm_compute; by eexists).
  destruct Hr as [l ->]. apply (f_equal snd) in El as Ew. cbn [snd] in Ew.
  assert (Hi : is_Some (internal (Search.search w2))).
  { apply (fmap_is_Some (length ∘ all_databases)). rewrite <- Ew. vm_compute. by eexists. }
  destruct Hi as [i Hi]. destruct (invalid_query_loops w l w2 i) as (w1 & last & Hb & _ & Hg & Hl).
  - done.
  - exact El.
  - rewrite <- Ew. by vm_compute.
  - exact Hi.
  - done.
  - exists w1, last. split; [exact Hb|]. split; [exact Hg|apply Hl].
Defined.

(** An archive without an index gives no database, but counts: the one result, of the second archive, is taken for one of the first. *)
Lemma wrong_archive :
  let w := after_begin [0%nat; 1%nat] "hello" in
  let it := IteratorData_new (mkMSet [mkMatch 1 100 sample_document] 1) 1 in
  (Search_begin (search_world [0%nat; 1%nat] "hello")).1 = Ok (Some it) /\
  (length ∘ all_databases <$> internal (Search.search w)) = Some 1%nat /\ (open_index false plain_impl).1 = Ok (false, None) /\
  (get_fileIndex (Some it) w).1 = Ok (0, Some it).
Proof. by vm_compute. Qed.
