(* ===== verification/IndexedArchive.v ===== *)
(** From the indexes of the creator to the search: the archive a creator with Xapian writes
    holds the files of the indexes, and a search opens them where they are. *)

From Stdlib Require Import Ascii.
From stdpp Require Import gmap sorting strings.
From S2P Require Import Prelude.
From S2P Require Import Types.
From S2P Require Import Readers.
From S2P Require Import Files.
From S2P Require Import Compression.
From S2P Require Import Streams.
From S2P Require Import Md5.
From S2P Require Import Dirent.
From S2P Require Import Cluster.
From S2P Require Import WCluster.
From S2P Require Import WDirent.
From S2P Require Import Encoding.
From S2P Require Import Tools.
From S2P Require Import Lookup.
From S2P Require Import FileImpl.
From S2P Require Import FileImplProps.
From S2P Require Import Archive.
From S2P Require Import DirectAccess.
From S2P Require Import Opening.
From S2P Require Import Creator.
From S2P Require Import Building.
From S2P Require Import Finishing.
From S2P Require Import Layout.
From S2P Require Import Writing.
From S2P Require Import Delivery.
From S2P Require Import RoundTrip.
From S2P Require Import Html.
From S2P Require Import MyHtml.
From S2P Require Import Search.
From S2P Require Import Indexing.
From S2P Require Import SearchProps.

(** The entries of the indexes, with the files the indexers compacted. *)
Definition index_files (withIndex : bool) (title_file full_file : bytes) : list (bytes * bytes) :=
  (lit "title/xapian", title_file) :: (if withIndex then [(lit "fulltext/xapian", full_file)] else []).

Section opening_indexes.
Context `{OSSpec} `{LzmaLib} `{ZstdLib} `{Env} `{Xapian}.

(** The file of an archive in one file holds every part of it. *)
Lemma plain_holding name out f pos n : plain_file name out f -> 0 <= pos -> pos + n <= Zlen out ->
  part_holding (fc_parts (zimFile f)) pos n = Some (name, pos).
Proof.
  intros Hp Hpos Hend. unfold plain_file, plain_parts in Hp. rewrite Hp. cbn [part_holding rg_min rg_max].
  rewrite (proj2 (Z.leb_le 0 pos)), (proj2 (Z.leb_le (pos + n) (Zlen out))) by lia. cbn [andb fp_filename]. by rewrite Z.sub_0_r.
Qed.

(** An index that is stored is opened at its place. *)
Lemma open_stored es xs k name out f path b :
  plain_file name out f -> lies_in f -> serves es xs k f -> os_open name = Some out -> (path, b) ∈ xs -> b <> [] ->
  exists i pos f', findx (chr "X") path f = (Ok (true, i), f) /\ open_entry i f = (Ok (db_open out pos), f') /\
    0 < pos /\ slice out pos (Zlen b) = b.
Proof.
  intros Hp Hl Hs Ho Hin Hb. destruct (sv_indexes _ _ _ _ Hs path b Hin Hb Hl) as (i & it & pos & f' & Ef & Ei & Ed & Hsl & Hlo & Hhi).
  pose proof (os_file_size _ _ Ho) as Hsz. destruct Hl as ((_ & Hfs & _) & Hst & _ & _).
  assert (Hc : parts_content (fc_parts (zimFile f)) = out).
  { unfold plain_file, plain_parts in Hp. rewrite Hp, parts_content_cons. cbn [snd fp_fhandle]. apply app_nil_r. }
  rewrite Hfs, Hc in Hhi. rewrite Hc in Hsl. rewrite (plain_holding name out f pos (Zlen b) Hp) in Ed by lia. cbn [from_option id] in Ed.
  exists i, pos, f'. split; [done|]. split; [|split; [lia|done]].
  apply stm_bind_inv in Ei as (e & f1 & E1 & E2). unfold open_entry.
  erewrite stm_bind_Ok by exact E1. erewrite stm_bind_Ok by exact E2. erewrite stm_bind_Ok by exact Ed.
  cbn [fst snd]. rewrite (proj2 (Z.eqb_neq pos 0)) by lia. unfold openFile. rewrite Ho. cbn [mret outcome_ret]. cbv iota.
  unfold seek_ok. pose proof (Zlen_nonneg b). by rewrite (proj2 (Z.ltb_lt pos _)) by lia.
Qed.

(** An archive without index for the texts. *)
Lemma open_none es xs k f : serves es xs k f -> (chr "X" :: lit "fulltext/xapian") ∉ map we_key es ->
  (chr "Z" :: lit "/fulltextIndex/xapian") ∉ map we_key es -> open_index false f = (Ok (false, None), f).
Proof.
  intros Hs Hx Hz. destruct (sv_absent _ _ _ _ Hs (chr "X") _ ltac:(by vm_compute) Hx) as [p Ep].
  destruct (sv_absent _ _ _ _ Hs (chr "Z") _ ltac:(by vm_compute) Hz) as [q Eq]. unfold open_index.
  erewrite stm_bind_Ok by done. unfold or_findx. cbn [fst snd]. erewrite stm_bind_Ok by exact Ep. cbn [fst snd].
  erewrite stm_bind_Ok by exact Eq. done.
Qed.

Lemma open_title es xs k name out f b :
  plain_file name out f -> lies_in f -> serves es xs k f -> os_open name = Some out -> (lit "title/xapian", b) ∈ xs -> b <> [] ->
  exists pos f', open_index true f = (Ok (true, db_open out pos), f') /\ 0 < pos /\ slice out pos (Zlen b) = b.
Proof.
  intros Hp Hl Hs Ho Hin Hb. destruct (open_stored _ _ _ _ _ _ _ _ Hp Hl Hs Ho Hin Hb) as (i & pos & f' & Ef & Ed & Hpos & Hsl).
  exists pos, f'. split; [|done]. unfold open_index. erewrite stm_bind_Ok by exact Ef. unfold or_findx. cbn [fst snd andb].
  do 2 erewrite stm_bind_Ok by done. cbn [fst snd negb]. cbv iota. by erewrite stm_bind_Ok by exact Ed.
Qed.

Lemma open_fulltext es xs k name out f b :
  plain_file name out f -> lies_in f -> serves es xs k f -> os_open name = Some out -> (lit "fulltext/xapian", b) ∈ xs -> b <> [] ->
  exists pos f', open_index false f = (Ok (false, db_open out pos), f') /\ 0 < pos /\ slice out pos (Zlen b) = b.
Proof.
  intros Hp Hl Hs Ho Hin Hb. destruct (open_stored _ _ _ _ _ _ _ _ Hp Hl Hs Ho Hin Hb) as (i & pos & f' & Ef & Ed & Hpos & Hsl).
  exists pos, f'. split; [|done]. unfold open_index. erewrite stm_bind_Ok by done. unfold or_findx. cbn [fst snd andb].
  erewrite stm_bind_Ok by exact Ef. cbn [fst snd]. erewrite stm_bind_Ok by done. cbn [fst snd negb]. cbv iota. by erewrite stm_bind_Ok by exact Ed.
Qed.

(** The keys of an archive: those of its entries are in [C] and [M], its own are known. *)
Lemma key_absent c ix xs l es M ns path :
  creatable c ix xs l es M -> ns <> chr "C" -> ns <> chr "M" -> ns <> chr "W" ->
  (ns = chr "X" -> path ∉ map fst xs ++ [lit "listing/titleOrdered/v0"; lit "listing/titleOrdered/v1"]) ->
  (ns :: path) ∉ map we_key (all_entries c (with_data xs) es None None).
Proof.
  intros Hct HC HM HW HX Hin. rewrite all_split, map_app in Hin. apply elem_of_app in Hin as [Hin|Hin].
  - apply list_elem_of_fmap in Hin as (e & Ek & He). pose proof (es_user _ _ _ _ _ _ Hct) as Hu. rewrite Forall_forall in Hu.
    destruct (Hu e He) as [Hns _]. injection Ek as -> _. by destruct Hns.
  - unfold own_entries in Hin. rewrite map_app in Hin. apply elem_of_app in Hin as [Hin|Hin].
    + apply list_elem_of_fmap in Hin as (e & Ek & He). injection Ek as -> _. unfold mandatory in He.
      apply elem_of_app in He as [He|He]; destruct (bool_decide _); try (by apply not_elem_of_nil in He);
        by apply list_elem_of_singleton in He as ->.
    + assert (E : map we_key (map index_entry (with_data xs) ++ [listing_entry false None; listing_entry true None]) =
        map (cons (chr "X")) (map fst xs ++ [lit "listing/titleOrdered/v0"; lit "listing/titleOrdered/v1"])).
      { unfold with_data. by rewrite !map_app, !map_map. }
      rewrite E in Hin. apply list_elem_of_fmap in Hin as (q & [= -> ->] & Hq). by apply HX.
Qed.
End opening_indexes.


(** * Witness: an archive with two indexes *)

Definition indexed_mimes : list bytes := made_mimes ++ [lit "application/octet-stream+xapian"].

Lemma indexed_all title_file full_file :
  all_entries made_creator (no_data (index_files true title_file full_file)) made_entries None None = made_entries ++
  [mkWEntry (chr "W") (lit "mainPage") [] (KRedirect (chr "C") (lit "start")); index_entry (lit "title/xapian", None);
   index_entry (lit "fulltext/xapian", None); listing_entry false None; listing_entry true None].
Proof. done. Qed.

(** The creator can make an archive of the sample entries and of two small indexes. *)
Lemma creatable_with_indexes `{OS} ix title_file full_file :
  Forall2 index_is ix (index_files true title_file full_file) -> Zlen title_file + Zlen full_file <= 4096 ->
  creatable made_creator ix (index_files true title_file full_file) made_additions made_entries indexed_mimes.
Proof.
  intros Hix Hsize. pose proof (Zlen_nonneg title_file). pose proof (Zlen_nonneg full_file).
  assert (Hno : forall k : bytes, bool_decide (Forall (fun x => x <> 0) k) = true -> no_nul k) by (intros k Hk; by apply bool_decide_eq_true in Hk).
  split.
  - constructor; [exact (adds_item made_item _ _ eq_refl (provides_shared _))|].
    constructor; [apply adds_redirection|]. constructor; [apply adds_metadata, provides_string|constructor].
  - done.
  - by right; right.
  - done.
  - apply (bool_decide_unpack _); by vm_compute.
  - apply (bool_decide_unpack _); by vm_compute.
  - repeat (apply Forall_cons; split); try apply Forall_nil; split; apply Hno; by vm_compute.
  - constructor; [split; [apply Hno; by vm_compute|by vm_compute]|].
    constructor; [split; [apply Hno; by vm_compute|by vm_compute]|constructor].
  - repeat (apply Forall_cons; split); try apply Forall_nil; by vm_compute.
  - intros e m He Hm. rewrite indexed_all in He.
    repeat (apply elem_of_cons in He as [->|He]; [try discriminate Hm; injection Hm as <-; apply (bool_decide_unpack _); by vm_compute|]).
    by apply not_elem_of_nil in He.
  - repeat (apply Forall_cons; split); try apply Forall_nil; split; done || (apply Hno; by vm_compute).
  - by vm_compute.
  - intros e ns path He Hk. rewrite indexed_all in *.
    repeat (apply elem_of_cons in He as [->|He]; [try discriminate Hk; injection Hk as <- <-; apply (bool_decide_unpack _); by vm_compute|]).
    by apply not_elem_of_nil in He.
  - done.
  - set (n := Zlen made_entries + Zlen (index_files true title_file full_file) + 4). assert (n = 9) as -> by done.
    unfold index_files. cbn [map fst snd Zsum foldr]. unfold worst_clusters, max_read.
    set (d := Zsum (map data_size made_entries)). assert (d = 6) as -> by by vm_compute. destruct (m_compression made_creator); lia.
Qed.

Definition index_store : list (bytes * bytes) :=
  [(lit "z_title.idx", lit "the titles"); (lit "z_fulltext.idx", lit "the texts")].

Definition title_indexer : XapianIndexer := mkIndexer [] [] [] (lit "z_title.idx") [] [] TITLE.
Definition fulltext_handler : FullTextXapianHandler := mkFullText (mkIndexer [] [] [] (lit "z_fulltext.idx") [] [] FULL) [].

Definition indexed_archive : bytes := Eval vm_compute in
  match @create (os_of index_store max_read) copy_lzma copy_zstd 50 (repeat 0 64) made_creator
    (@direntHandlers (os_of index_store max_read) true title_indexer fulltext_handler) made_additions with Ok out => out | _ => [] end.

Definition indexed_os : OS := os_of (index_store ++ [(lit "z", indexed_archive)]) max_read.
Lemma indexed_os_spec : @OSSpec indexed_os.
Proof. apply os_of_spec. repeat constructor; by vm_compute. Qed.

#[local] Existing Instance indexed_os.
#[local] Existing Instance indexed_os_spec.
#[local] Existing Instance copy_lzma.
#[local] Existing Instance copy_zstd.
#[local] Existing Instance no_env.

Definition two_indexes : list (bytes * bytes) := index_files true (lit "the titles") (lit "the texts").

Lemma indexed_creatable :
  creatable made_creator (direntHandlers true title_indexer fulltext_handler) two_indexes made_additions made_entries indexed_mimes.
Proof.
  apply creatable_with_indexes; [|by vm_compute].
  constructor; [split; [done|by apply provides_opened]|]. constructor; [split; [done|by apply provides_opened]|constructor].
Qed.

(** A database is the position of its index. *)
#[local] Instance position_xapian : Xapian := {|
  database := Z;
  db_open _ offset := Some offset;
  get_metadata _ _ := [];
  stem_known _ := false;
  query_t := unit;
  parse_query _ _ _ _ _ _ := None;
  geo_posting _ _ _ _ := Throw (runtime_error "latitude");
  op_filter q _ := q;
  get_mset _ _ _ _ _ _ := Ok (mkMSet [] 0);
  snippet _ text _ := text;
|}.

