(* ===== verification/EndToEnd.v ===== *)
(** A search in an archive the creator made: what it finds are the pages that were added.

    The parts of the library meet here: the pages become documents ([Indexing]), the index goes into the
    archive ([Creator], [RoundTrip]), a search opens it ([Search], [IndexedArchive]), its results are
    walked, and their paths lead back to the pages ([Archive]). *)

From Stdlib Require Import Ascii SpecFloat.
From stdpp Require Import gmap sorting strings.
From S2P Require Import Prelude.
From S2P Require Import Types.
From S2P Require Import Readers.
From S2P Require Import Files.
From S2P Require Import Compression.
From S2P Require Import Streams.
From S2P Require Import Md5.
From S2P Require Import Dirent.
From S2P Require Import Cluster.
From S2P Require Import WCluster.
From S2P Require Import WDirent.
From S2P Require Import Encoding.
From S2P Require Import Tools.
From S2P Require Import Lookup.
From S2P Require Import FileImpl.
From S2P Require Import FileImplProps.
From S2P Require Import Archive.
From S2P Require Import DirectAccess.
From S2P Require Import Opening.
From S2P Require Import Creator.
From S2P Require Import Building.
From S2P Require Import Finishing.
From S2P Require Import Layout.
From S2P Require Import Writing.
From S2P Require Import Delivery.
From S2P Require Import RoundTrip.
From S2P Require Import Html.
From S2P Require Import MyHtml.
From S2P Require Import Search.
From S2P Require Import Indexing.
From S2P Require Import SearchProps.
From S2P Require Import IndexedArchive.

(** * What Xapian promises of an index *)

(** A database that was compacted into a file can be opened wherever the file is, inside another one; the documents of the
    results are those that were added. *)
Class XapianFiles `{Xapian} : Type := {
  compacted : list db_call -> bytes -> Prop;
  index_of : database -> list db_call -> Prop;
  open_compacted calls file out pos :
    compacted calls file -> 0 < pos -> slice out pos (Zlen file) = file -> exists db, db_open out pos = Some db /\ index_of db calls;
  index_documents db calls q sort collapse from max ms m :
    index_of db calls -> get_mset [db] q sort collapse from max = Ok ms -> m ∈ matches ms ->
    exists nd, AddDocument nd ∈ calls /\ stores nd (document m);
}.

(** * The items and the pages *)

Lemma taken_all items item : item ∈ taken items -> item ∈ items.*2.
Proof.
  intros Hin. unfold taken in Hin. apply list_elem_of_fmap in Hin as (e & -> & He). apply list_elem_of_filter in He as [_ He].
  by apply list_elem_of_fmap_2.
Qed.

(** The items that are added. *)
Definition items_of (l : list addition) : list WItem := omap (fun a => match a with AddItem item => Some item | _ => None end) l.

(** The page of an item: its title, or its path without one, its MIME type, and the bytes its provider provides. *)
Definition page_of `{OS} (item : WItem) (x : bytes * bytes * bytes) : Prop :=
  x.1.1 = (if bool_decide (getTitle item = []) then getPath item else getTitle item) /\
  x.1.2 = (if bool_decide (getMimeType item = []) then lit "application/octet-stream" else getMimeType item) /\
  exists p, getContentProvider item = Ok p /\ provides p x.2.

Section pages.
Context `{OS}.

Lemma item_entry l es item : Forall2 adds l es -> item ∈ items_of l ->
  exists j p b, es !! j = Some (mkWEntry (chr "C") (getPath item) (getTitle item)
      (KItem (if bool_decide (getMimeType item = []) then lit "application/octet-stream" else getMimeType item) (Some b))) /\
    getContentProvider item = Ok p /\ provides p b.
Proof.
  intros Hall Hin. unfold items_of in Hin. apply list_elem_of_omap in Hin as (a & Ha & Ea). destruct a as [item'| |]; try done. injection Ea as ->.
  apply list_elem_of_lookup in Ha as [j Hj]. destruct (Forall2_lookup_l _ _ _ _ _ Hall Hj) as (e & He & Hadds).
  inversion Hadds as [? p b Hp Hb| |]; subst. by exists j, p, b.
Qed.

(** The page of an item is delivered at its path. *)
Lemma item_page c d l es item : Forall2 adds l es -> item ∈ items_of l ->
  (forall p, getContentProvider item = Ok p -> ~ provides p []) ->
  exists x, page_of item x /\ exists a k n, delivers (all_entries c d es None None) (chr "C" :: getPath item) x a k n.
Proof.
  intros Hall Hin Hne. destruct (item_entry l es item Hall Hin) as (j & p & b & He & Hp & Hb).
  assert (He' : all_entries c d es None None !! j = es !! j).
  { rewrite all_split. by rewrite lookup_app_l by by eapply lookup_lt_Some. }
  rewrite He in He'. eexists (_, _, b). split; [split_and!; [reflexivity|reflexivity|by exists p]|].
  exists j, j, O. split.
  - eexists. split; [exact He'|done].
  - by eapply leads_here; [exact He'|].
  - lia.
  - eexists _, _, _. split; [exact He'|]. split; [reflexivity|]. split_and!; [done|done|]. intros ->. by apply (Hne p).
Qed.
End pages.


(** * Witness: a search for the page of an archive *)

(** The index of one page: its path, its title and the number of its words, each followed by a zero. *)
Definition page_index : bytes := lit "home" ++ 0 :: lit "Home" ++ 0 :: lit "2" ++ [0].

Fixpoint field (k : nat) (s : bytes) : bytes :=
  match s with
  | [] => []
  | c :: s => if c =? 0 then match k with O => [] | S k => field k s end else match k with O => c :: field O s | S _ => field k s end
  end.

Definition indexed_document (index : bytes) : Document := mkDocument (field 0 index) (fun slot => field (S (Z.to_nat slot)) index).

Definition search_store : list (bytes * bytes) := [(lit "z_title.idx", lit "the titles"); (lit "z_fulltext.idx", page_index)].

Definition searched_archive : bytes := Eval vm_compute in
  match @create (os_of search_store max_read) copy_lzma copy_zstd 50 (repeat 0 64) made_creator
    (@direntHandlers (os_of search_store max_read) true title_indexer fulltext_handler) made_additions with Ok out => out | _ => [] end.

Definition searched_os : OS := os_of (search_store ++ [(lit "z", searched_archive)]) max_read.
Lemma searched_os_spec : @OSSpec searched_os.
Proof. apply os_of_spec. repeat constructor; by vm_compute. Qed.

#[local] Existing Instance searched_os.
#[local] Existing Instance searched_os_spec.
#[local] Existing Instance copy_lzma.
#[local] Existing Instance copy_zstd.
#[local] Existing Instance no_env.
#[local] Existing Instance HtmlProps.xapian_unicode.
#[local] Existing Instance sample_icu.
#[local] Existing Instance sample_locale.
#[local] Existing Instance sample_resources.

(** A database is the file from its position on; its document is the one found. *)
#[local] Instance file_xapian : Xapian := {|
  database := bytes;
  db_open file offset := Some (drop (Z.to_nat offset) file);
  get_metadata _ _ := [];
  stem_known _ := false;
  query_t := unit;
  parse_query _ _ _ _ _ _ := Some tt;
  geo_posting _ _ _ _ := Throw (runtime_error "latitude");
  op_filter q _ := q;
  get_mset dbs _ _ _ _ max :=
    Ok (mkMSet match dbs with [db] => take (Z.to_nat max) [mkMatch 1 100 (indexed_document db)] | _ => [] end 1);
  snippet _ text _ := text;
|}.

Lemma one_match (db : bytes) max m : m ∈ take (Z.to_nat max) [mkMatch 1 100 (indexed_document db)] -> m = mkMatch 1 100 (indexed_document db).
Proof. intros (k & Hk)%list_elem_of_lookup. apply lookup_take_Some in Hk as [Hk _]. by destruct k; [injection Hk|]. Qed.

#[local] Instance file_xapian_spec : @XapianSpec file_xapian.
Proof.
  refine {| db_document := fun (db : @database file_xapian) _ => indexed_document db |}.
  - intros dbs q sort collapse from max ms Hmax [= <-]. cbn [matches]. destruct dbs as [|db [|]]; try done.
    unfold Zlen. rewrite length_take. lia.
  - intros dbs q sort collapse from max ms m [= <-] Hm. cbn [matches] in Hm. destruct dbs as [|db [|]]; try by apply not_elem_of_nil in Hm.
    apply one_match in Hm as ->. by exists O, db, 1.
Defined.

(** The compacted file holds the fields of a document. *)
#[local] Instance file_xapian_files : @XapianFiles file_xapian.
Proof.
  refine (@Build_XapianFiles file_xapian
    (fun calls file => exists nd, AddDocument nd ∈ calls /\ forall rest, stores nd (indexed_document (file ++ rest)))
    (fun (db : @database file_xapian) calls => exists nd, AddDocument nd ∈ calls /\ stores nd (indexed_document db)) _ _).
  - intros calls file out pos (nd & Hin & Hst) Hpos Hsl. eexists. split; [reflexivity|]. exists nd. split; [done|].
    unfold slice, Zlen in Hsl. rewrite Nat2Z.id in Hsl. rewrite <- (take_drop (length file) (drop (Z.to_nat pos) out)), Hsl. apply Hst.
  - intros db calls q sort collapse from max ms m (nd & Hin & Hst) [= <-] Hm. apply one_match in Hm as ->. by exists nd.
Defined.

(** The pages are indexed by one task. *)
Abbreviation no_garbage := (S754_zero false).

Definition page_task (x : XapianIndexer) : XapianIndexer :=
  match IndexTask_run no_garbage false made_item x with Ok x' => x' | _ => x end.
Definition page_indexed : indexing_state :=
  mkIndexing [] (fulltext_stop (mkFullText (page_task (ft_indexer (fulltext_start (FullTextXapianHandler_new (lit "z") (lit "eng"))))) [])) true.

Lemma page_indexing :
  rtc (indexing_step no_garbage false) (indexing_init (lit "z") (lit "eng") [(WDirent.new 67 (lit "home"), made_item)]) page_indexed.
Proof.
  eapply rtc_l; [apply step_handle|]. cbn [fulltext_handle].
  eapply rtc_l; [apply (step_task _ _ [] _ [] made_item [] (page_task (ft_indexer (fulltext_start (FullTextXapianHandler_new (lit "z") (lit "eng")))))); by vm_compute|].
  eapply rtc_l; [apply step_stop|]. apply rtc_refl.
Qed.

Lemma page_compacted : compacted (writableDatabase (ft_indexer (Indexing.handler page_indexed))) page_index.
Proof.
  eexists. split; [do 6 right; left|]. intros rest. split; [by vm_compute|].
  intros slot v Hin. vm_compute in Hin.
  by apply elem_of_cons in Hin as [[= -> ->]|[[= -> ->]|[]%not_elem_of_nil]%elem_of_cons]; vm_compute.
Qed.

Definition search_handlers : list IndexHandler := direntHandlers true title_indexer (Indexing.handler page_indexed).

Lemma search_creatable :
  creatable made_creator search_handlers (index_files true (lit "the titles") page_index) made_additions made_entries indexed_mimes.
Proof.
  apply creatable_with_indexes; [|by vm_compute].
  constructor; [split; [done|by apply provides_opened]|]. constructor; [split; [done|by apply provides_opened]|constructor].
Qed.

(** A search of the archive for a word, with the first ten results. *)
Definition page_world (f : FileImpl) : World := mkWorld [f] (set_range 0 10 (set_query (lit "hello") (Search_new [0%nat]))).

Definition searched_impl : FileImpl := Eval vm_compute in match FileImpl_open (lit "z") with Ok f => f | _ => sample_impl end.

Definition found_iterator : IteratorData :=
  match (Search_begin (page_world searched_impl)).1 with Ok (Some it) => it | _ => IteratorData_new MSet_new 0 end.
Definition end_iterator : IteratorData :=
  match (Search_end (Search_begin (page_world searched_impl)).2).1 with Ok (Some it) => it | _ => IteratorData_new MSet_new 0 end.

